(* ===== verification/_CoqProject ===== *)
-Q . S2P
Prelude.v
PyData.v
Exports.v
Future.v
Checksums.v
Crypto.v
Mqtt5Types.v
Io.v
Streams.v
Http.v
HttpMessage.v
Metrics.v
AioHttp.v
WebSocket.v
WebSocketNative.v
EventStream.v
RpcClient.v
Mqtt3.v
Mqtt5.v
Mqtt5Native.v
HttpNative.v
Mqtt3Native.v
Mqtt5New.v
Cbor.v
CborApi.v
S3.v
Auth.v
AuthSigner.v
S3Native.v
Logging.v
RequestResponse.v
Canary.v
CanaryReport.v
Setup.v
Elasticurl.v
Common.v
Benchmark.v
