(* ===== verification/Prelude.v ===== *)
(** * awscrt: a model of the Python bindings of the AWS Common Runtime

    The package src/awscrt is a layer of Python classes over the native
    libraries of the AWS Common Runtime (event loops, TLS, HTTP, WebSocket,
    MQTT, event streams, S3, CBOR). Its own logic is the translation of data in
    both directions, the checks and defaults of options, and above all the
    callbacks: the native event-loop thread calls handlers of Python objects,
    which complete futures and call the user's functions, while other threads
    start operations and cancel futures. The library's promise is about these:
    every future is settled, once, with what happened; no exception of user
    code is lost or reaches the native thread where that would be fatal; data
    arrives in order and as it was sent. The theorems below state this part by
    part, and say where the code does not keep it.

    ** How the code is modelled

    - A method is a function of the object's state, in the state-and-exception
      monad [M] of this file: the mutations made before an exception stay.
      [try_except], [try_finally] and [mfor] are the statements of those names;
      [is_Exception] and [is_BaseException] tell what a clause catches.
    - User code is a parameter: the outcome of each call, or a tree of what it
      does where it can call back ([Handshake.user], [Publish.user]).
    - A future is the state machine of concurrent.futures ([Future.v]).
    - Native functions are parameters, with their documented behaviour as the
      laws of a class where a theorem needs it ([NativeErrors], [NativeHeaders],
      [NativeHeaderEdits], [NativeCbor], [NativeRpc], [NativeLocks], [NativeCrc],
      [NativeXXHash], [NativeHash], [NativeRsa], [NativeEc]); every such class a
      theorem depends on has an instance to evaluate with.
      Where the C code of the binding decides something the Python code relies
      on, it is modelled too (files of src/source: mqtt5_client.c, websocket.c,
      event_stream_headers.c, event_stream_rpc_client_*.c, cbor.c, http_connection.c,
      http_stream.c, http_headers.c, http_message.c, s3_client.c, s3_meta_request.c,
      auth_credentials.c, auth_signing_config.c, auth_signer.c, crc.c, xxhash.c,
      crypto.c, io.c, mqtt_client_connection.c, common.c, module.c).
    - enum.IntEnum classes are inductive types with the class [IntEnum]; dicts
      are association lists in insertion order ([PyData.PyDict]); strings are
      lists of characters, integers are Z with their width written out where the
      code has one (C [long] with its number of bits as a parameter).

    ** The files

    - [Prelude] (this file): exceptions, results, the monad and its rules
      ([triple], [preserves], hint database [py]), IntEnum.
    - [PyData]: str.split, str.isdigit, int, UTF-8 and dict.
    - [Exports]: the functions the extension module defines (source/module.c).
    - [Future]: futures, lenses on the part of an object that holds one, and
      awscrt/exceptions.py.
    - [Checksums]: awscrt/checksums.py with source/crc.c and xxhash.c; integer
      arguments ([CArgs]), running checksums ([Crc]), streaming hashes ([XX]).
    - [Crypto]: awscrt/crypto.py with source/crypto.c: hashes ([Digests]), RSA keys
      and operations ([Keys]), EC signatures in their two formats ([Signatures]).
    - [Mqtt5Types]: enumerations and packets of awscrt/mqtt5.py.
    - [Io]: awscrt/io.py. [Statics]: the lazily made event loop group, host
      resolver and bootstrap under their locks; [Tls]: TLS options; [Stream]:
      reading a Python stream into a native buffer.
    - [Streams]: the native input stream over a Python one ([NativeInputStream])
      and the TLS options of a connection ([TlsConn]).
    - [Http]: awscrt/http.py. [Settings], [Headers], [Proxy], [Conn] (connection
      setup and shutdown), [HttpStream] (HTTP/1 and HTTP/2 client streams).
    - [HttpMessage]: header edits ([HeaderEdits]), requests and responses that
      share their headers and body with the native message ([Messages]), the
      native stream that feeds the handlers of [HttpStream] ([NativeStream]),
      flow-control windows ([Windows]).
    - [Metrics]: awscrt/aws_iot_metrics.py, feature lists and metadata.
    - [AioHttp]: awscrt/aio/http.py. [Chunks]: response bodies between the
      native thread and asyncio, as a state machine whose steps are the blocks
      between two points where another thread can run, with reachability;
      [Writer]: request bodies; [AioStream]: making streams; [AioConn]:
      connections.
    - [WebSocket]: awscrt/websocket.py with the native side of its frames.
    - [WebSocketNative]: the life of a WebSocket in the binding: connecting,
      sends and their payload buffers, references and the capsule, in any order of
      calls and callbacks ([WsNative]); the handshake request ([WsHandshake]).
    - [EventStream]: awscrt/eventstream. [Header]: typed headers, there and
      back through the native layer; [Rpc]: the handlers of connections and
      continuations.
    - [RpcClient]: awscrt/eventstream/rpc.py with the binding's objects and their
      references; [Session] is the abstract session [Client] implements.
    - [Mqtt3]: awscrt/mqtt.py. [Handshake]: the WebSocket handshake transform,
      of mqtt5.py too; [Mqtt3]: connections and operations.
    - [Mqtt5]: awscrt/mqtt5.py. [Publish]: received messages and their
      acknowledgement; [Events]: lifecycle events and packets; [Ops]: publish,
      subscribe, unsubscribe; [Client5]: construction and the MQTT 3.1.1 adapter.
    - [Mqtt5Native]: packets of awscrt/mqtt5.py handed to the native client
      ([Marshal]). [Mqtt5New]: the options of a client ([NewClient]).
    - [HttpNative]: the life of a connection of awscrt/http.py in the binding
      ([ConnNative]) and the conversion of HTTP/2 settings ([InitialSettings]).
    - [Mqtt3Native]: operations of a connection of awscrt/mqtt.py through the
      binding and back, with the references it owns ([Native3]), what connect
      hands over ([Connect3]), the life of the binding ([Lifetime3]).
    - [Cbor]: awscrt/cbor.py with source/cbor.c. [Encoder], [Decoder] and what
      they promise each other ([CborSpec]).
    - [CborApi]: documents written in parts ([Indefinite]) and the decoder object
      ([DecoderObject]).
    - [S3]: awscrt/s3.py. [S3Options]: client and request options; [S3Request]:
      a request and its callbacks.
    - [Auth]: awscrt/auth.py. Signing configurations, their copies with changed
      members ([Signing]), credentials, completion closures, and the constructors
      of providers with the delegate's native side ([Providers]).
    - [AuthSigner]: signing a request, over the objects of [HttpMessage.Messages].
    - [S3Native]: cross-process locks ([Lock]), native progress and completion
      ([Progress]), making clients and requests ([Making]).
    - [Logging]: awscrt/logging.py, native log messages as Python records, and
      the one native logger ([NativeLogger]).
    - [RequestResponse]: awscrt/mqtt_request_response.py, checks of options and
      requests, completions and stream closures.
    - [Canary]: src/codebuild, the canary wrapper: metrics and alarms
      ([Snapshot]), the monitors and tickets ([Monitors]), the script ([Wrapper]),
      what a run reports ([Verdict]), when it posts metrics ([Schedule]), and the
      watch on the application in S3 ([S3Watch]). [CanaryReport]: what it prints.
    - [Setup]: setup.py: versions, CMake arguments, libraries, flags, wheel tags.
    - [Elasticurl]: src/elasticurl.py: URLs ([Url]) and the program. [Common]: the
      package's common functions and the leak check of its tests ([Leaks]).
      [Benchmark]: src/s3_benchmark.py.

    Names are those of the source. A client is built on the parts it calls:
    [AioHttp] on [Http.Conn], [Metrics] and [Mqtt5.Client5] on [Io.Tls],
    [Http.Proxy] and [Mqtt5Types], [Mqtt5.Client5.new_connection] on
    [Mqtt3.Connection_init], [Mqtt3Native.Native3] on the closures of [Mqtt3],
    [WebSocketNative] on the handlers of [WebSocket], [AuthSigner] on
    [AuthFutures] and [Messages], and so on.

    ** What the theorems show

    - Order and completeness of data: [Chunks.chunks_in_order],
      [every_getter_answered] and [empty_chunk_is_end] for response bodies under
      every interleaving without cancellation (the [cancelled_...] lemmas show
      what one cancelled task does to the others), [request_body_terminated] for
      request bodies, [incoming_frames_safe] and [frames_sent_and_answered] for
      WebSocket frames, [progress_accounted] for S3 transfers.
    - Refinement: [native_stream_refines] (the native HTTP stream behaves as the
      handlers run on the messages received), [rpc_refines_session] (the objects
      of eventstream.rpc implement an abstract session), [events_faithful] (MQTT 5
      packets against their native form, text that does not decode included).
    - Invariants of shared objects and references: [rpc_objects_consistent],
      [references_accounted] (MQTT 3.1.1), [websocket_given_back],
      [request_shows_what_is_sent], [with_lock_exclusive]; as lemmas,
      [static_bootstrap_shared], [one_logger], [binding_released_once],
      [http_connection_given_back].
    - Types: [callbacks_well_typed].
    - Round trips: [cbor_roundtrip], [indefinite_roundtrip], [header_echo],
      [publish_echo], [ec_signature_roundtrip], [signing_config_replace], feature
      lists ([merge_feature_lists_spec]).
    - Equivalence with a reference: [crc_blocks_equivalent],
      [client_created_as_asked].
    - Futures and callbacks: [stream_completion], [connection_lifecycle],
      [operations_resolved], [operations_answered], [signing_answered],
      [request_finishes], [publish_acknowledged_once], [handshake_completed_once].
      Where user code or a peer can leave a future or a handshake open, the
      theorem says exactly when.
    - Options and errors: [adapter_connection], [encoder_reports]; as lemmas,
      [create_metrics_rules], [pem_first_object_only], [connect_exact],
      [url_reaches_request], [connection_callbacks_contained],
      [settings_sent_exactly].
    - Bounds, termination, undefined behaviour: [decoder_progress],
      [stream_read_to_end], [decoder_undefined],
      [native_read_in_bounds]; as a lemma, [leak_check_exact].
    - The canary tools: [canary_verdict]; as a lemma, [reports_on_schedule].

    ** Fuel and bounds

    Recursion is structural almost everywhere. The decoder of [Cbor] recurses
    on the levels of nesting the code allows (128) and its loops until a break
    on the length of the input; [decoder_progress] shows that more fuel changes
    nothing. The polls of [Common.Leaks] are bounded by the time the check allows,
    as in the code. [PyStr.int] has the limit of 4300 digits CPython has. The
    state machine of [Chunks] has no bound: its theorems are about all reachable
    states; those of [Native3], [WsNative] and [Signer] are about all runs.

    ** What is not modelled

    Bytes on the wire and the protocols themselves are in the native libraries,
    outside this repository. Threads are modelled where handlers share state
    with another thread ([Chunks], [Statics]); elsewhere a handler runs alone,
    as it does under the interpreter lock and the native layer's serialisation.
    Running out of memory, interpreter shutdown and diagnostics the code prints
    are left out, and so are assertions about the types of arguments except where
    a component's checks are its subject. The algorithms of hashes, keys and
    checksums are native; queries about the system only call native functions.

    Planned next: the native side of request-response streams
    (mqtt_request_response.c), and threads that close a connection or stop a
    client while its callbacks run. *)
From stdpp Require Export base option list strings gmap.
From Stdlib Require Export ZArith Lia.
From Stdlib Require Ascii.
From Stdlib Require Strings.Byte.
Export Stdlib.Strings.Ascii.AsciiSyntax.
Delimit Scope char_scope with char.

#[global] Open Scope Z_scope.

(** ** Python exceptions

    The exceptions the modelled code raises, catches or stores in a future.
    [UserError] is an exception of user code that derives from [Exception];
    [UserBaseException] one that derives from [BaseException] only
    (KeyboardInterrupt, SystemExit, asyncio.CancelledError, ...). *)

Inductive py_exn :=
  | ValueError (msg : string)
  | TypeError (msg : string)
  | RuntimeError (msg : string)
  | AssertionError
  | AttributeError (name : string)
  | UnboundLocalError (name : string)
  | KeyError
  | OverflowError (msg : string)
  | RecursionError
  | InvalidStateError
  | CancelledError
  | BuiltinError (kind : string)
  | AwsCrtError (code : Z) (name message : string)
  | S3ResponseError (code : Z) (name message : string) (status_code : Z)
      (headers : list (string * string)) (body : option string)
      (operation_name : option string)
  | ConnectRefused (return_code : Z)
  | SubscribeError (topic : string)
  | UserError (tag : Z)
  | UserBaseException (tag : Z).

#[global] Instance py_exn_eq_dec : EqDecision py_exn.
Proof. solve_decision. Defined.

#[global] Instance byte_eq_dec : EqDecision Byte.byte := Stdlib.Strings.Byte.byte_eq_dec.

(** What an [except Exception] clause catches. *)
Definition is_Exception (e : py_exn) : bool :=
  match e with UserBaseException _ => false | _ => true end.

(** What [except BaseException] (or a bare [except]) catches. *)
Definition is_BaseException (e : py_exn) : bool := true.

(** What [isinstance(e, awscrt.exceptions.AwsCrtError)] tests, with the code. *)
Definition as_AwsCrtError (e : py_exn) : option (Z * string * string) :=
  match e with
  | AwsCrtError c n m => Some (c, n, m)
  | S3ResponseError c n m _ _ _ _ => Some (c, n, m)
  | _ => None
  end.

(** ** Results and the state-and-exception monad

    A Python call either returns a value or raises; the mutations made before
    the exception stay (the state is kept on both sides). *)

Inductive result (A : Type) :=
  | Ok (a : A)
  | Raise (e : py_exn).
Arguments Ok {A} a.
Arguments Raise {A} e.

#[global] Instance result_eq_dec {A} `{EqDecision A} : EqDecision (result A).
Proof. solve_decision. Defined.

Definition is_ok {A} (r : result A) : bool :=
  match r with Ok _ => true | Raise _ => false end.

Definition M (S A : Type) : Type := S -> result A * S.

Section Monad.
Context {S : Type}.

Definition ret {A} (a : A) : M S A := fun s => (Ok a, s).
Definition raise {A} (e : py_exn) : M S A := fun s => (Raise e, s).
Definition bind {A B} (m : M S A) (k : A -> M S B) : M S B := fun s =>
  match m s with
  | (Ok a, s') => k a s'
  | (Raise e, s') => (Raise e, s')
  end.
Definition gets {A} (f : S -> A) : M S A := fun s => (Ok (f s), s).
Definition modify (f : S -> S) : M S unit := fun s => (Ok tt, f s).
Definition lift {A} (r : result A) : M S A := fun s => (r, s).

(** [try: m except <p> as e: h e] *)
Definition try_except {A} (p : py_exn -> bool) (m : M S A) (h : py_exn -> M S A) : M S A := fun s =>
  match m s with
  | (Raise e, s') => if p e then h e s' else (Raise e, s')
  | ok => ok
  end.

(** [try: m finally: fin]: an exception of [fin] replaces the outcome of [m]. *)
Definition try_finally {A} (m : M S A) (fin : M S unit) : M S A := fun s =>
  let (r, s') := m s in
  match fin s' with
  | (Ok _, s'') => (r, s'')
  | (Raise e, s'') => (Raise e, s'')
  end.

(** [for x in l: body x] *)
Fixpoint mfor {A} (l : list A) (body : A -> M S unit) : M S unit :=
  match l with
  | [] => ret tt
  | x :: l' => bind (body x) (fun _ => mfor l' body)
  end.

(** Python's [assert c]. *)
Definition py_assert (c : bool) : M S unit :=
  if c then ret tt else raise AssertionError.
End Monad.

Declare Scope py_scope.
Delimit Scope py_scope with py.
Notation "'let!' x := m 'in' k" := (bind m (fun x => k))
  (at level 10, x pattern, m at level 100, k at level 200) : py_scope.
Notation "'do!' m ; k" := (bind m (fun _ => k))
  (at level 10, m at level 100, k at level 200) : py_scope.
Notation "'when!' b 'then' m ; k" := (bind (if b then m else ret tt) (fun _ => k))
  (at level 10, b at level 100, m at level 100, k at level 200) : py_scope.
#[global] Open Scope py_scope.

(** Errors alone, with no state: the same notation on [result]. *)
Definition rbind {A B} (r : result A) (k : A -> result B) : result B :=
  match r with Ok a => k a | Raise e => Raise e end.
Notation "'let?' x := m 'in' k" := (rbind m (fun x => k))
  (at level 10, x pattern, m at level 100, k at level 200) : py_scope.
Definition assert_that (c : bool) : result unit :=
  if c then Ok tt else Raise AssertionError.

(** ** Reasoning about monadic code

    [triple P m Q]: from a state satisfying [P], the outcome and the final
    state of [m] satisfy [Q]. [preserves f m]: [m] leaves the part [f] of the
    state alone, whether it returns or raises. *)

Definition triple {S A} (P : S -> Prop) (m : M S A) (Q : result A -> S -> Prop) : Prop :=
  forall s, P s -> Q (m s).1 (m s).2.

Definition preserves {S A X} (f : S -> X) (m : M S A) : Prop :=
  forall s, f (m s).2 = f s.

Create HintDb py discriminated.

Section Rules.
Context {S : Type}.

Lemma triple_conseq {A} (P P' : S -> Prop) (m : M S A) (Q Q' : result A -> S -> Prop) :
  triple P m Q -> (forall s, P' s -> P s) -> (forall r s, Q r s -> Q' r s) ->
  triple P' m Q'.
Proof. intros H HP HQ s Hs. apply HQ, H, HP, Hs. Qed.

Lemma triple_ret {A} (a : A) (Q : result A -> S -> Prop) :
  triple (fun s => Q (Ok a) s) (ret a) Q.
Proof. intros s Hs. exact Hs. Qed.

Lemma triple_raise {A} (e : py_exn) (Q : result A -> S -> Prop) :
  triple (fun s => Q (Raise e) s) (raise (A:=A) e) Q.
Proof. intros s Hs. exact Hs. Qed.

Lemma triple_bind {A B} (P : S -> Prop) (m : M S A) (k : A -> M S B)
    (R : A -> S -> Prop) (Q : result B -> S -> Prop) :
  triple P m (fun r s => match r with Ok a => R a s | Raise e => Q (Raise e) s end) ->
  (forall a, triple (R a) (k a) Q) ->
  triple P (bind m k) Q.
Proof.
  intros Hm Hk s Hs. specialize (Hm s Hs). unfold bind.
  destruct (m s) as [[a|e] s']; simpl in *; [by apply Hk | done].
Qed.

Lemma triple_try_except {A} (P : S -> Prop) (p : py_exn -> bool) (m : M S A) (h : py_exn -> M S A)
    (R : py_exn -> S -> Prop) (Q : result A -> S -> Prop) :
  triple P m (fun r s => match r with
                         | Ok a => Q (Ok a) s
                         | Raise e => if p e then R e s else Q (Raise e) s
                         end) ->
  (forall e, triple (R e) (h e) Q) ->
  triple P (try_except p m h) Q.
Proof.
  intros Hm Hh s Hs. specialize (Hm s Hs). unfold try_except.
  destruct (m s) as [[a|e] s']; simpl in *; [done|].
  destruct (p e); [by apply Hh | done].
Qed.

Lemma triple_try_finally {A} (P : S -> Prop) (m : M S A) (fin : M S unit)
    (R : result A -> S -> Prop) (Q : result A -> S -> Prop) :
  triple P m R ->
  (forall r, triple (R r) fin (fun r' s => match r' with
                                           | Ok _ => Q r s
                                           | Raise e => Q (Raise e) s
                                           end)) ->
  triple P (try_finally m fin) Q.
Proof.
  intros Hm Hf s Hs. specialize (Hm s Hs). unfold try_finally.
  destruct (m s) as [r s'] eqn:E; simpl in *.
  specialize (Hf r s' Hm). destruct (fin s') as [[[]|e] s'']; simpl in *; done.
Qed.

Lemma triple_mfor {A} (I : list A -> S -> Prop) (Q : result unit -> S -> Prop)
    (body : A -> M S unit) (l : list A) :
  (forall x l', triple (I (x :: l')) (body x)
     (fun r s => match r with Ok _ => I l' s | Raise e => Q (Raise e) s end)) ->
  (forall s, I [] s -> Q (Ok tt) s) ->
  triple (I l) (mfor l body) Q.
Proof.
  intros Hb Hq. induction l as [|x l IH]; simpl.
  - intros s Hs. by apply Hq.
  - apply (triple_bind _ _ _ (fun _ => I l)); [apply Hb | intros _; apply IH].
Qed.

Lemma preserves_ret {A X} (f : S -> X) (a : A) : preserves f (ret a).
Proof. done. Qed.
Lemma preserves_raise {A X} (f : S -> X) (e : py_exn) : preserves f (raise (A:=A) e).
Proof. done. Qed.
Lemma preserves_gets {A X} (f : S -> X) (g : S -> A) : preserves f (gets g).
Proof. done. Qed.
Lemma preserves_lift {A X} (f : S -> X) (r : result A) : preserves f (lift r).
Proof. done. Qed.

Lemma preserves_bind {A B X} (f : S -> X) (m : M S A) (k : A -> M S B) :
  preserves f m -> (forall a, preserves f (k a)) -> preserves f (bind m k).
Proof.
  intros Hm Hk s. specialize (Hm s). unfold bind.
  destruct (m s) as [[a|e] s']; simpl in *; [by rewrite Hk | done].
Qed.

Lemma preserves_try_except {A X} (f : S -> X) (p : py_exn -> bool) (m : M S A) (h : py_exn -> M S A) :
  preserves f m -> (forall e : py_exn, preserves f (h e)) -> preserves f (try_except p m h).
Proof.
  intros Hm Hh s. specialize (Hm s). unfold try_except.
  destruct (m s) as [[a|e] s']; simpl in *; [done|].
  destruct (p e); [by rewrite Hh | done].
Qed.

Lemma preserves_mfor {A X} (f : S -> X) (l : list A) (body : A -> M S unit) :
  (forall x, preserves f (body x)) -> preserves f (mfor l body).
Proof.
  intros Hb. induction l as [|x l IH]; simpl; [done|].
  by apply preserves_bind.
Qed.
End Rules.

#[export] Hint Resolve preserves_ret preserves_raise preserves_gets preserves_lift
  preserves_bind preserves_try_except preserves_mfor : py.

(** Step through straight-line monadic code on a concrete shape of state. *)
Ltac munfold :=
  unfold bind, ret, raise, gets, modify, lift, try_except, try_finally, py_assert in *;
  simpl in *.

(** Split every match or conditional the goal or a hypothesis is stuck on. *)
Ltac msplit :=
  repeat (case_match || case_decide); simplify_eq/=.

(** ** Enumerations with integer values (enum.IntEnum)

    [enum_of z] is what the call [E(z)] of the Python class finds; a value that
    is not a member raises ValueError. *)

Class IntEnum (E : Type) := {
  enum_value : E -> Z;
  enum_members : list E;
  enum_complete : forall e : E, In e enum_members;
  enum_values_nodup : NoDup (map enum_value enum_members);
}.

#[global] Arguments enum_value {E _} e : simpl never.
#[global] Arguments enum_members {E _} : simpl never.

Section IntEnumOps.
Context {E : Type} `{IntEnum E}.

Definition enum_of (z : Z) : option E :=
  List.find (fun e => enum_value e =? z) enum_members.

(** [E(z)] *)
Definition enum_call (z : Z) : result E :=
  match enum_of z with
  | Some e => Ok e
  | None => Raise (ValueError "not a valid member")
  end.

Lemma enum_of_Some z e : enum_of z = Some e -> enum_value e = z.
Proof. intros Hf. apply List.find_some in Hf as [_ Hf]. by apply Z.eqb_eq. Qed.

Lemma NoDup_map_inv_in {A B} (f : A -> B) (l : list A) x y :
  NoDup (map f l) -> In x l -> In y l -> f x = f y -> x = y.
Proof.
  induction l as [|a l IH]; simpl; [done|].
  rewrite NoDup_cons. intros [Hn Hd] [->|Hx] [->|Hy] Hf; auto.
  - destruct Hn. rewrite Hf. apply list_elem_of_In, in_map, Hy.
  - destruct Hn. rewrite <- Hf. apply list_elem_of_In, in_map, Hx.
Qed.

Lemma enum_value_inj e1 e2 : enum_value e1 = enum_value e2 -> e1 = e2.
Proof.
  intros Hv. eapply NoDup_map_inv_in;
    [apply enum_values_nodup | apply enum_complete | apply enum_complete | done].
Qed.

Lemma enum_of_value e : enum_of (enum_value e) = Some e.
Proof.
  destruct (enum_of (enum_value e)) as [e'|] eqn:E'.
  - f_equal. apply enum_value_inj. by apply enum_of_Some.
  - eapply List.find_none in E'; [|apply (enum_complete e)].
    by rewrite Z.eqb_refl in E'.
Qed.

Lemma enum_of_spec z e : enum_of z = Some e <-> enum_value e = z.
Proof.
  split; [apply enum_of_Some|]. intros <-. apply enum_of_value.
Qed.

Lemma enum_call_value e : enum_call (enum_value e) = Ok e.
Proof. unfold enum_call. by rewrite enum_of_value. Qed.
End IntEnumOps.

(** Discharge the two laws of an [IntEnum] instance by computation. *)
Ltac solve_enum_complete := let e := fresh in intros e; destruct e; simpl; tauto.
Ltac solve_enum_nodup := apply (bool_decide_unpack _); vm_compute; exact I.

Create Rewrite HintDb pyrw.
#[export] Hint Rewrite @enum_of_value @enum_call_value : pyrw.
