(* ===== verification/PyData.v ===== *)
(** * Python built-in data the library code computes with

    Strings are sequences of Latin-1 code points (one [ascii] each), so that
    [isdigit], [int] and [lower] can be written out exactly on that range, and
    a dict is an association list in insertion order ([dict_set] keeps the
    place of a key that is already there, as CPython's dict does). *)
From S2P Require Import Prelude.
Import Stdlib.Strings.Ascii.

(** ** Strings *)
Module PyStr.

Definition code (c : ascii) : Z := Z.of_N (N_of_ascii c).

(** [c in s] for a one-character [c] *)
Fixpoint contains (c : ascii) (s : string) : bool :=
  match s with
  | EmptyString => false
  | String a s' => if ascii_dec a c then true else contains c s'
  end.

(** [s.split(c)] for a one-character separator: never the empty list *)
Fixpoint split (c : ascii) (s : string) : list string :=
  match s with
  | EmptyString => [EmptyString]
  | String a s' =>
      if ascii_dec a c then EmptyString :: split c s'
      else match split c s' with
           | p :: ps => String a p :: ps
           | [] => [String a EmptyString]
           end
  end.

(** [k, v = s.split(c, 1)] when [c in s] (None: there is no [c] in [s]) *)
Fixpoint split_once (c : ascii) (s : string) : option (string * string) :=
  match s with
  | EmptyString => None
  | String a s' =>
      if ascii_dec a c then Some (EmptyString, s')
      else match split_once c s' with
           | Some (k, v) => Some (String a k, v)
           | None => None
           end
  end.

(** [c.join(l)] for a one-character separator *)
Fixpoint join (c : ascii) (l : list string) : string :=
  match l with
  | [] => EmptyString
  | [x] => x
  | x :: l' => String.append x (String c (join c l'))
  end.

(** [s.isdigit()] on Latin-1: the decimal digits and superscript one, two,
    three, which have the Unicode property Numeric_Type=Digit. *)
Definition is_decimal_char (c : ascii) : bool := (48 <=? code c) && (code c <=? 57).
Definition is_digit_char (c : ascii) : bool :=
  is_decimal_char c || bool_decide (code c = 178) || bool_decide (code c = 179)
  || bool_decide (code c = 185).

Fixpoint all_chars (p : ascii -> bool) (s : string) : bool :=
  match s with EmptyString => true | String a s' => p a && all_chars p s' end.

Definition isdigit (s : string) : bool :=
  match s with EmptyString => false | _ => all_chars is_digit_char s end.

(** [int(s)] for an [s] on which [isdigit] holds: base ten, and ValueError at
    a superscript digit, and beyond CPython's limit on the number of digits. *)
Fixpoint int_acc (acc : Z) (s : string) : result Z :=
  match s with
  | EmptyString => Ok acc
  | String a s' =>
      if is_decimal_char a then int_acc (10 * acc + (code a - 48)) s'
      else Raise (ValueError "invalid literal for int() with base 10")
  end.
Definition int_max_str_digits : nat := 4300.
Definition int (s : string) : result Z :=
  match s with
  | EmptyString => Raise (ValueError "invalid literal for int() with base 10")
  | _ =>
      if (int_max_str_digits <? String.length s)%nat
      then Raise (ValueError "Exceeds the limit for integer string conversion")
      else int_acc 0 s
  end.

(** [s.lower()] on Latin-1 *)
Definition lower_char (c : ascii) : ascii :=
  let n := code c in
  if ((65 <=? n) && (n <=? 90)) || ((192 <=? n) && (n <=? 222) && negb (n =? 215))
  then ascii_of_N (Z.to_N (n + 32)) else c.
Fixpoint lower (s : string) : string :=
  match s with EmptyString => EmptyString | String a s' => String (lower_char a) (lower s') end.

(** Strict UTF-8, as the [s] formats of the C API decode it: no overlong forms,
    no surrogates, nothing above U+10FFFF. *)
Definition between (lo hi : Z) (c : ascii) : bool := (lo <=? code c) && (code c <=? hi).
Definition utf8_tail (c : ascii) : bool := between 128 191 c.
Definition utf8_second3 (a b : ascii) : bool :=
  if code a =? 224 then between 160 191 b
  else if code a =? 237 then between 128 159 b
  else between 225 239 a && utf8_tail b.
Definition utf8_second4 (a b : ascii) : bool :=
  if code a =? 240 then between 144 191 b
  else if code a =? 244 then between 128 143 b
  else between 241 243 a && utf8_tail b.
Fixpoint utf8_valid (s : string) : bool :=
  match s with
  | EmptyString => true
  | String a s1 =>
      if code a <? 128 then utf8_valid s1
      else match s1 with
      | EmptyString => false
      | String b s2 =>
          if between 194 223 a then utf8_tail b && utf8_valid s2
          else match s2 with
          | EmptyString => false
          | String c s3 =>
              if between 224 239 a then utf8_second3 a b && utf8_tail c && utf8_valid s3
              else match s3 with
              | EmptyString => false
              | String d s4 => between 240 244 a && utf8_second4 a b && utf8_tail c && utf8_tail d && utf8_valid s4
              end
          end
      end
  end.

(** *** Facts about appending, splitting and joining *)

Lemma append_assoc a b c : String.append (String.append a b) c = String.append a (String.append b c).
Proof. induction a as [|x a IH]; [done|]. exact (f_equal (String x) IH). Qed.
Lemma append_cons x a b : String.append (String x a) b = String x (String.append a b).
Proof. done. Qed.
Lemma append_nil b : String.append EmptyString b = b.
Proof. done. Qed.
Lemma append_nil_r b : String.append b EmptyString = b.
Proof. induction b as [|x b IH]; [done|]. exact (f_equal (String x) IH). Qed.
Lemma all_chars_app f x y : all_chars f (String.append x y) = all_chars f x && all_chars f y.
Proof. induction x as [|a x IH]; simpl; [done|]. by rewrite IH, andb_assoc. Qed.
Lemma all_chars_impl (f g : ascii -> bool) s : (forall a, f a = true -> g a = true) ->
  all_chars f s = true -> all_chars g s = true.
Proof.
  intros Hfg. induction s as [|a s IH]; simpl; [done|]. rewrite !andb_true_iff. intros [H1 H2]. auto.
Qed.
Lemma all_chars_contains f c s : f c = false -> all_chars f s = true -> contains c s = false.
Proof.
  intros Hf. induction s as [|a s IH]; simpl; [done|]. rewrite andb_true_iff. intros [H1 H2].
  destruct (ascii_dec a c) as [->|]; [congruence|auto].
Qed.
Lemma split_once_none c s : contains c s = false -> split_once c s = None.
Proof.
  induction s as [|a s IH]; simpl; [done|]. destruct (ascii_dec a c); [done|]. intros H. by rewrite IH.
Qed.

Lemma contains_app c s t : contains c (String.append s t) = contains c s || contains c t.
Proof. induction s as [|a s IH]; simpl; [done|]. by destruct (ascii_dec a c). Qed.

Lemma split_not_nil c s : split c s <> [].
Proof. destruct s as [|a s]; simpl; [done|]. destruct (ascii_dec a c), (split c s); done. Qed.

Lemma split_no_sep c s : Forall (fun p => contains c p = false) (split c s).
Proof.
  induction s as [|a s IH]; simpl; [by repeat constructor|].
  destruct (ascii_dec a c) as [->|Hn]; [by constructor|].
  destruct (split c s) as [|p ps]; inversion IH; subst; repeat constructor; simpl;
    try done; by destruct (ascii_dec a c).
Qed.

Lemma split_plain c s : contains c s = false -> split c s = [s].
Proof.
  induction s as [|a s IH]; simpl; [done|].
  destruct (ascii_dec a c); [done|]. intros Hc. by rewrite IH.
Qed.

Lemma split_app c s t :
  contains c s = false -> split c (String.append s (String c t)) = s :: split c t.
Proof.
  induction s as [|a s IH]; simpl.
  - intros _. by destruct (ascii_dec c c).
  - destruct (ascii_dec a c); [done|]. intros Hc. by rewrite IH.
Qed.

(** Splitting undoes joining when no piece contains the separator. *)
Lemma split_join c l :
  l <> [] -> Forall (fun p => contains c p = false) l -> split c (join c l) = l.
Proof.
  induction l as [|x l IH]; [done|]. intros _ Hf. inversion Hf as [|? ? Hx Hl]; subst.
  destruct l as [|y l]; [by apply split_plain|].
  change (split c (String.append x (String c (join c (y :: l)))) = x :: y :: l).
  rewrite split_app by done. by rewrite IH.
Qed.

Lemma split_once_app c k v :
  contains c k = false -> split_once c (String.append k (String c v)) = Some (k, v).
Proof.
  induction k as [|a k IH]; simpl.
  - intros _. by destruct (ascii_dec c c).
  - destruct (ascii_dec a c); [done|]. intros Hc. by rewrite IH.
Qed.

Lemma split_once_Some c s k v :
  split_once c s = Some (k, v) ->
  s = String.append k (String c v) /\ contains c k = false.
Proof.
  revert k v. induction s as [|a s IH]; intros k v; simpl; [done|].
  destruct (ascii_dec a c) as [->|Hn].
  - by intros [= <- <-].
  - destruct (split_once c s) as [[k' v']|]; [|done]. intros [= <- <-].
    destruct (IH k' v' eq_refl) as [-> Hk]. simpl. by destruct (ascii_dec a c).
Qed.

(** [isdigit] with only decimal digits is what [int] accepts. *)
Lemma int_acc_ok acc s :
  all_chars is_decimal_char s = true -> exists n, int_acc acc s = Ok n.
Proof.
  revert acc. induction s as [|a s IH]; intros acc; simpl; [by eauto|].
  destruct (is_decimal_char a); simpl; [apply IH | done].
Qed.

Lemma int_acc_ok_inv acc s n :
  int_acc acc s = Ok n -> all_chars is_decimal_char s = true.
Proof.
  revert acc. induction s as [|a s IH]; intros acc; simpl; [done|].
  destruct (is_decimal_char a); simpl; [apply IH | done].
Qed.
(** Exactly which digit strings [int] rejects. *)
Lemma int_of_isdigit s :
  isdigit s = true ->
  (exists n, int s = Ok n) <->
  all_chars is_decimal_char s = true /\ (String.length s <= int_max_str_digits)%nat.
Proof.
  unfold isdigit, int. destruct s as [|a s]; [done|]. intros _.
  destruct (Nat.ltb_spec int_max_str_digits (String.length (String a s))).
  - split; [by intros [n ?] | intros [_ ?]; lia].
  - split.
    + intros [n Hn]. split; [by eapply int_acc_ok_inv | done].
    + intros [Hd _]. by apply int_acc_ok.
Qed.

Lemma int_Raise s e : int s = Raise e -> exists msg, e = ValueError msg.
Proof.
  unfold int. destruct s as [|a s]; [intros [= <-]; eauto|]. case_match; [intros [= <-]; eauto|].
  generalize (String a s) 0. intros t. induction t as [|b t IH]; intros acc; simpl; [done|].
  destruct (is_decimal_char b); [apply IH | intros [= <-]; eauto].
Qed.
End PyStr.

Lemma filter_none {A} (P : A -> Prop) `{forall x, Decision (P x)} (l : list A) :
  (forall x, x ∈ l -> ~ P x) -> filter P l = [].
Proof.
  induction l as [|x l IH]; intros Hl; [done|].
  rewrite filter_cons_False by (apply Hl; set_solver). apply IH. set_solver.
Qed.

(** ** Dictionaries in insertion order *)
Module PyDict.
Section Dict.
Context {K V : Type} `{EqDecision K}.

Definition dict := list (K * V).

(** [d.get(k)] *)
Fixpoint dict_get (d : dict) (k : K) : option V :=
  match d with
  | [] => None
  | (k', v) :: d' => if decide (k = k') then Some v else dict_get d' k
  end.

(** [d[k] = v] *)
Fixpoint dict_set (d : dict) (k : K) (v : V) : dict :=
  match d with
  | [] => [(k, v)]
  | (k', v') :: d' => if decide (k = k') then (k', v) :: d' else (k', v') :: dict_set d' k v
  end.

(** [for k, v in l: d[k] = v] *)
Definition dict_update (d : dict) (l : list (K * V)) : dict :=
  fold_left (fun d '(k, v) => dict_set d k v) l d.

Definition keys (d : dict) : list K := map fst d.

Lemma dict_get_set d k v k' :
  dict_get (dict_set d k v) k' = if decide (k' = k) then Some v else dict_get d k'.
Proof.
  induction d as [|[k1 v1] d IH]; simpl; [done|].
  destruct (decide (k = k1)) as [->|Hn]; simpl.
  - by destruct (decide (k' = k1)).
  - rewrite IH. destruct (decide (k' = k1)), (decide (k' = k)); congruence.
Qed.

Lemma dict_get_keys d k : is_Some (dict_get d k) <-> k ∈ keys d.
Proof.
  induction d as [|[k1 v1] d IH]; simpl.
  - split; [by intros [? ?] | set_solver].
  - destruct (decide (k = k1)) as [->|Hne].
    + split; [set_solver | by eauto].
    + rewrite IH. set_solver.
Qed.

Lemma dict_get_None d k : dict_get d k = None <-> k ∉ keys d.
Proof. rewrite <- dict_get_keys, <- eq_None_not_Some. done. Qed.

Lemma keys_set d k v :
  keys (dict_set d k v) = if decide (k ∈ keys d) then keys d else keys d ++ [k].
Proof.
  induction d as [|[k1 v1] d IH]; simpl; [done|].
  destruct (decide (k = k1)) as [->|Hne]; simpl.
  - destruct (decide (k1 ∈ k1 :: keys d)); set_solver.
  - rewrite IH.
    destruct (decide (k ∈ keys d)), (decide (k ∈ k1 :: keys d)); set_solver.
Qed.

Lemma nodup_set d k v : NoDup (keys d) -> NoDup (keys (dict_set d k v)).
Proof.
  intros Hd. rewrite keys_set. destruct (decide (k ∈ keys d)) as [|Hne]; [done|].
  apply NoDup_app. repeat split; [done| set_solver |apply NoDup_singleton].
Qed.

Lemma dict_update_app d l1 l2 : dict_update d (l1 ++ l2) = dict_update (dict_update d l1) l2.
Proof. apply fold_left_app. Qed.

Lemma nodup_update d l : NoDup (keys d) -> NoDup (keys (dict_update d l)).
Proof.
  revert d. induction l as [|[k v] l IH]; intros d Hd; simpl; [done|].
  by apply IH, nodup_set.
Qed.

(** The last assignment to a key wins; with none, the old value stays. *)
Lemma dict_get_update d l k :
  dict_get (dict_update d l) k =
  match dict_get (dict_update [] l) k with Some v => Some v | None => dict_get d k end.
Proof.
  induction l as [|[k1 v1] l IH] using rev_ind; simpl; [done|].
  rewrite !dict_update_app. simpl. rewrite !dict_get_set.
  by destruct (decide (k = k1)).
Qed.

(** Rebuilding a dict from its own items gives it back. *)
Lemma dict_set_fresh d k v : k ∉ keys d -> dict_set d k v = d ++ [(k, v)].
Proof.
  induction d as [|[k1 v1] d IH]; simpl; [done|].
  intros Hne. destruct (decide (k = k1)); [set_solver|]. rewrite IH; set_solver.
Qed.

Lemma dict_update_fresh d l :
  NoDup (keys (d ++ l)) -> dict_update d l = d ++ l.
Proof.
  revert d. induction l as [|[k v] l IH]; intros d Hd; simpl; [by rewrite app_nil_r|].
  rewrite dict_set_fresh.
  - rewrite IH; [by rewrite <- app_assoc|]. by rewrite <- app_assoc.
  - unfold keys in Hd. rewrite map_app in Hd. simpl in Hd.
    apply NoDup_app in Hd as (_ & Hd & _). set_solver.
Qed.

Lemma dict_items_id d : NoDup (keys d) -> dict_update [] d = d.
Proof. intros Hd. by rewrite dict_update_fresh. Qed.

(** Keys that are already there keep their place, new ones follow in order. *)
Lemma keys_update d l :
  keys (dict_update d l) = keys d ++ filter (fun k => k ∉ keys d) (keys (dict_update [] l)).
Proof.
  induction l as [|[k v] l IH] using rev_ind; simpl; [by rewrite app_nil_r|].
  rewrite !dict_update_app. simpl. rewrite !keys_set, IH.
  destruct (decide (k ∈ keys (dict_update [] l))) as [Hin|Hnin].
  - rewrite decide_True; [done|]. destruct (decide (k ∈ keys d)); [set_solver|].
    apply elem_of_app. right. by apply list_elem_of_filter.
  - rewrite filter_app. destruct (decide (k ∈ keys d)) as [Hd|Hd].
    + rewrite decide_True by set_solver. rewrite (filter_cons_False _ k) by set_solver.
      by rewrite app_nil_r.
    + rewrite decide_False by (rewrite elem_of_app, list_elem_of_filter; naive_solver).
      rewrite (filter_cons_True _ k) by done. by rewrite <- app_assoc.
Qed.

(** A dict without duplicates is determined by its key order and its lookups. *)
Lemma dict_ext d1 d2 :
  NoDup (keys d1) -> keys d1 = keys d2 -> (forall k, dict_get d1 k = dict_get d2 k) -> d1 = d2.
Proof.
  revert d2. induction d1 as [|[k v] d1 IH]; intros [|[k2 v2] d2]; try done.
  unfold keys. simpl. intros [Hk Hnd]%NoDup_cons [= <- Hkeys] Hg.
  pose proof (Hg k) as Hv. rewrite decide_True in Hv by done. rewrite decide_True in Hv by done.
  injection Hv as <-. f_equal. apply IH; [done..|]. intros k'. specialize (Hg k').
  destruct (decide (k' = k)) as [->|]; [|done].
  rewrite (proj2 (dict_get_None d1 k) Hk). symmetry. apply dict_get_None.
  unfold keys. by rewrite <- Hkeys.
Qed.

(** Assigning the same items again changes nothing. *)
Lemma dict_update_twice d l :
  NoDup (keys d) -> dict_update (dict_update d l) l = dict_update d l.
Proof.
  intros Hd. apply dict_ext.
  - by repeat apply nodup_update.
  - rewrite keys_update. rewrite filter_none; [by rewrite app_nil_r|].
    intros k Hk Hn. apply Hn. rewrite keys_update.
    destruct (decide (k ∈ keys d)); [set_solver|]. apply elem_of_app. right. by apply list_elem_of_filter.
  - intros k. rewrite dict_get_update, (dict_get_update d l). by destruct (dict_get (dict_update [] l) k).
Qed.

(** Setting a key to the value it has changes nothing. *)
Lemma dict_set_same d k v : dict_get d k = Some v -> dict_set d k v = d.
Proof.
  induction d as [|[k1 v1] d IH]; simpl; [done|].
  destruct (decide (k = k1)) as [->|Hn]; [by intros [= ->]|].
  intros Hg. by rewrite IH.
Qed.

Lemma dict_get_elem_of d k v : NoDup (keys d) -> (k, v) ∈ d -> dict_get d k = Some v.
Proof.
  induction d as [|[k1 v1] d IH]; simpl; [set_solver|].
  rewrite NoDup_cons, elem_of_cons. intros [Hne Hd] [[= -> ->]|Hi].
  - by destruct (decide (k1 = k1)).
  - destruct (decide (k = k1)) as [->|]; [|by apply IH].
    destruct Hne. apply (list_elem_of_fmap_2 fst) in Hi. exact Hi.
Qed.
End Dict.
Arguments dict : clear implicits.
End PyDict.

#[export] Hint Resolve PyDict.nodup_set PyDict.nodup_update : py.
