(* ===== verification/Exports.v ===== *)
(** * source/module.c: what the extension module defines

    The Python classes reach the native layer through attributes of the module
    [_awscrt]; this file has the table of its functions, in order, and what
    looking one up does. *)
From S2P Require Import Prelude.

Module Exports.
Open Scope string_scope.

(** [s_module_methods] *)
Definition s_module_methods : list string := [
    "get_error_name"; "get_error_message"; "get_corresponding_builtin_exception"; "get_cpu_group_count";
    "get_cpu_count_for_group"; "native_memory_usage"; "native_memory_dump"; "thread_join_all_managed";
    "is_alpn_available"; "is_tls_cipher_supported"; "event_loop_group_new"; "host_resolver_new_default";
    "client_bootstrap_new"; "client_tls_ctx_new"; "tls_connections_options_new_from_ctx";
    "tls_connection_options_set_alpn_list"; "tls_connection_options_set_server_name"; "init_logging";
    "set_log_level"; "init_python_logging"; "logger_log"; "input_stream_new"; "pkcs11_lib_new";
    "mqtt_client_new";
    "mqtt_client_connection_new"; "mqtt_client_connection_connect"; "mqtt_client_connection_reconnect";
    "mqtt_client_connection_publish"; "mqtt_client_connection_subscribe"; "mqtt_client_connection_on_message";
    "mqtt_client_connection_resubscribe_existing_topics"; "mqtt_client_connection_unsubscribe";
    "mqtt_client_connection_disconnect"; "mqtt_ws_handshake_transform_complete";
    "mqtt_client_connection_get_stats";
    "mqtt5_client_new"; "mqtt5_client_start"; "mqtt5_client_stop"; "mqtt5_client_publish";
    "mqtt5_client_subscribe"; "mqtt5_client_unsubscribe"; "mqtt5_client_get_stats";
    "mqtt5_client_invoke_publish_acknowledgement"; "mqtt5_ws_handshake_transform_complete";
    "mqtt_request_response_client_new_from_5"; "mqtt_request_response_client_new_from_311";
    "mqtt_request_response_client_make_request"; "mqtt_request_response_client_create_stream";
    "mqtt_streaming_operation_open";
    "md5_new"; "sha256_new"; "sha1_new"; "hash_update"; "hash_digest"; "sha256_hmac_new"; "hash_update";
    "hash_digest";
    "rsa_private_key_from_pem_data"; "rsa_public_key_from_pem_data"; "rsa_private_key_from_der_data";
    "rsa_public_key_from_der_data"; "rsa_encrypt"; "rsa_decrypt"; "rsa_sign"; "rsa_verify";
    "ed25519_new_generate"; "ed25519_export_public_key"; "ed25519_export_private_key";
    "ec_new_generate"; "ec_key_from_der_data"; "ec_export_key"; "ec_sign"; "ec_verify"; "ec_encode_signature";
    "ec_decode_signature"; "ec_decode_signature_to_padded_pair"; "ec_get_public_coords";
    "checksums_crc32"; "checksums_crc32c"; "checksums_crc64nvme"; "checksums_crc32_combine";
    "checksums_crc32c_combine"; "checksums_crc64nvme_combine";
    "xxhash64_new"; "xxhash3_64_new"; "xxhash3_128_new"; "xxhash64_compute"; "xxhash3_64_compute";
    "xxhash3_128_compute"; "xxhash_update"; "xxhash_finalize";
    "http_connection_close"; "http_connection_is_open"; "http2_connection_update_window";
    "http_stream_update_window"; "http_client_connection_new"; "http_client_stream_new";
    "http_client_stream_activate"; "http2_client_stream_write_data"; "http_message_new_request";
    "http_message_get_request_method"; "http_message_set_request_method"; "http_message_get_request_path";
    "http_message_set_request_path"; "http_message_set_body_stream"; "http_headers_new"; "http_headers_add";
    "http_headers_add_pairs"; "http_headers_set"; "http_headers_get"; "http_headers_get_index";
    "http_headers_count"; "http_headers_remove"; "http_headers_remove_value"; "http_headers_clear";
    "credentials_new"; "credentials_access_key_id"; "credentials_secret_access_key";
    "credentials_session_token"; "credentials_expiration_timestamp_seconds";
    "credentials_provider_get_credentials"; "credentials_provider_new_chain_default";
    "credentials_provider_new_static"; "credentials_provider_new_profile"; "credentials_provider_new_process";
    "credentials_provider_new_environment"; "credentials_provider_new_chain";
    "credentials_provider_new_delegate"; "credentials_provider_new_cognito"; "credentials_provider_new_x509";
    "signing_config_new"; "signing_config_get_algorithm"; "signing_config_get_signature_type";
    "signing_config_get_credentials_provider"; "signing_config_get_region"; "signing_config_get_service";
    "signing_config_get_date"; "signing_config_get_use_double_uri_encode";
    "signing_config_get_should_normalize_uri_path"; "signing_config_get_signed_body_value";
    "signing_config_get_signed_body_header_type"; "signing_config_get_expiration_in_seconds";
    "signing_config_get_omit_session_token"; "sign_request_aws";
    "event_stream_rpc_client_connection_connect"; "event_stream_rpc_client_connection_close";
    "event_stream_rpc_client_connection_is_open"; "event_stream_rpc_client_connection_send_protocol_message";
    "event_stream_rpc_client_connection_new_stream"; "event_stream_rpc_client_continuation_activate";
    "event_stream_rpc_client_continuation_send_message"; "event_stream_rpc_client_continuation_is_closed";
    "s3_client_new"; "s3_client_make_meta_request"; "s3_meta_request_cancel"; "s3_get_ec2_instance_type";
    "s3_is_crt_s3_optimized_for_system"; "s3_get_recommended_throughput_target_gbps";
    "s3_get_optimized_platforms"; "s3_cross_process_lock_new"; "s3_cross_process_lock_acquire";
    "s3_cross_process_lock_release";
    "websocket_client_connect"; "websocket_close"; "websocket_send_frame"; "websocket_increment_read_window";
    "websocket_create_handshake_request";
    "cbor_encoder_new"; "cbor_encoder_get_encoded_data"; "cbor_encoder_write_uint"; "cbor_encoder_write_negint";
    "cbor_encoder_write_float"; "cbor_encoder_write_bytes"; "cbor_encoder_write_text";
    "cbor_encoder_write_array_start"; "cbor_encoder_write_map_start"; "cbor_encoder_write_tag";
    "cbor_encoder_write_bool"; "cbor_encoder_write_simple_types"; "cbor_encoder_write_py_list";
    "cbor_encoder_write_py_dict"; "cbor_encoder_write_data_item";
    "cbor_decoder_new"; "cbor_decoder_peek_type"; "cbor_decoder_get_remaining_bytes_len";
    "cbor_decoder_consume_next_element"; "cbor_decoder_consume_next_data_item";
    "cbor_decoder_pop_next_unsigned_int"; "cbor_decoder_pop_next_negative_int"; "cbor_decoder_pop_next_float";
    "cbor_decoder_pop_next_boolean"; "cbor_decoder_pop_next_bytes"; "cbor_decoder_pop_next_text";
    "cbor_decoder_pop_next_array_start"; "cbor_decoder_pop_next_map_start"; "cbor_decoder_pop_next_tag";
    "cbor_decoder_pop_next_py_list"; "cbor_decoder_pop_next_py_dict"; "cbor_decoder_pop_next_data_item"
  ].

(** The attribute [_awscrt.name]. *)
Definition native_attribute (name : string) : result unit :=
  if bool_decide (name ∈ s_module_methods) then Ok tt else Raise (AttributeError name).

(** The classes of awscrt call these four; no such functions are defined. In the
    table [hash_update] and [hash_digest] stand twice, the second time after
    [sha256_hmac_new]. *)
Lemma missing_methods :
  map native_attribute ["cbor_encoder_reset"; "cbor_decoder_reset_src"; "hmac_update"; "hmac_digest"] =
  map (fun n => Raise (AttributeError n))
    ["cbor_encoder_reset"; "cbor_decoder_reset_src"; "hmac_update"; "hmac_digest"].
Proof. by vm_compute. Qed.

Lemma table_repeats :
  filter (fun n => 1 < Z.of_nat (length (filter (fun m => m = n) s_module_methods))) s_module_methods =
  ["hash_update"; "hash_digest"; "hash_update"; "hash_digest"].
Proof. by vm_compute. Qed.
End Exports.
