(* ===== verification/Future.v ===== *)
(** * concurrent.futures.Future, and the library's own exceptions

    The asynchronous operations of the library hand out Python futures. A
    future is modelled by its state machine in CPython: [set_result] and
    [set_exception] raise InvalidStateError on a future that is cancelled or
    finished, [cancel] does nothing on a running or finished one, and
    [set_running_or_notify_cancel] closes it to cancellation. *)
From stdpp Require pretty.
From S2P Require Import Prelude.

Inductive future (V : Type) :=
  | Pending
  | Running
  | Cancelled
  | CancelledNotified
  | Finished (r : result V).
Arguments Pending {V}.
Arguments Running {V}.
Arguments Cancelled {V}.
Arguments CancelledNotified {V}.
Arguments Finished {V} r.

#[global] Instance future_eq_dec {V} `{EqDecision V} : EqDecision (future V).
Proof. solve_decision. Defined.

Module Fut.
Section Fut.
Context {V : Type}.

(** [f.cancelled()] *)
Definition cancelled (f : future V) : bool :=
  match f with Cancelled | CancelledNotified => true | _ => false end.

(** [f.done()] *)
Definition done (f : future V) : bool :=
  match f with Cancelled | CancelledNotified | Finished _ => true | _ => false end.

(** [f.cancel()] *)
Definition cancel (f : future V) : bool * future V :=
  match f with
  | Running | Finished _ => (false, f)
  | Cancelled | CancelledNotified => (true, f)
  | Pending => (true, Cancelled)
  end.

(** [f.set_running_or_notify_cancel()] *)
Definition set_running_or_notify_cancel (f : future V) : result (bool * future V) :=
  match f with
  | Cancelled => Ok (false, CancelledNotified)
  | Pending => Ok (true, Running)
  | _ => Raise (RuntimeError "Future in unexpected state")
  end.

(** [f.set_result(v)] is [complete (Ok v)], [f.set_exception(e)] is
    [complete (Raise e)]. *)
Definition complete (r : result V) (f : future V) : result (future V) :=
  match f with
  | Pending | Running => Ok (Finished r)
  | Cancelled | CancelledNotified | Finished _ => Raise InvalidStateError
  end.

(** A future that has been closed to cancellation right after its creation:
    [f = Future(); f.set_running_or_notify_cancel()]. *)
Definition uncancellable : future V := Running.

Lemma uncancellable_new :
  set_running_or_notify_cancel Pending = Ok (true, uncancellable).
Proof. done. Qed.

Lemma complete_Ok_inv r f f' : complete r f = Ok f' -> f' = Finished r /\ done f = false.
Proof. destruct f; simpl; naive_solver. Qed.

Lemma complete_not_done r f : done f = false -> complete r f = Ok (Finished r).
Proof. by destruct f. Qed.

Lemma complete_done r f : done f = true -> complete r f = Raise InvalidStateError.
Proof. by destruct f. Qed.

(** Steps any party can make on a future; a finished future never changes. *)
Inductive step : future V -> future V -> Prop :=
  | step_complete r f f' : complete r f = Ok f' -> step f f'
  | step_cancel f b f' : cancel f = (b, f') -> step f f'
  | step_running f b f' : set_running_or_notify_cancel f = Ok (b, f') -> step f f'.

Lemma step_finished r f' : step (Finished r) f' -> f' = Finished r.
Proof. inversion 1; simplify_eq/=; done. Qed.

Lemma steps_finished r f' : rtc step (Finished r) f' -> f' = Finished r.
Proof.
  intros Hs. remember (Finished r) as f eqn:E. revert E.
  induction Hs as [|f g h Hfg Hgh IH]; intros ->; [done|].
  apply step_finished in Hfg. by rewrite (IH Hfg).
Qed.

(** A running future can only be finished. *)
Lemma step_run f' : step Running f' -> f' = Running \/ exists r, f' = Finished r.
Proof. inversion 1; simplify_eq/=; eauto. Qed.
End Fut.
End Fut.

(** ** Access to one part of a state *)

Record lens (S A : Type) := Lens { view : S -> A; update : A -> S -> S }.
Arguments Lens {S A} _ _.
Arguments view {S A} _ _.
Arguments update {S A} _ _ _.

Class LensLaws {S A} (l : lens S A) := {
  view_update : forall a s, view l (update l a s) = a;
  update_view : forall s, update l (view l s) s = s;
}.

Section LensOps.
Context {S V : Type} (l : lens S (future V)).

(** [self.<future>.set_result(v)] / [set_exception(e)] in a method of an
    object with state [S] *)
Definition fut_complete (r : result V) : M S unit := fun s =>
  match Fut.complete r (view l s) with
  | Ok f => (Ok tt, update l f s)
  | Raise e => (Raise e, s)
  end.
Definition set_result (v : V) : M S unit := fut_complete (Ok v).
Definition set_exception (e : py_exn) : M S unit := fut_complete (Raise e).

Lemma fut_complete_ok r s :
  Fut.done (view l s) = false ->
  fut_complete r s = (Ok tt, update l (Finished r) s).
Proof. intros Hd. unfold fut_complete. by rewrite Fut.complete_not_done. Qed.

Lemma fut_complete_done r s :
  Fut.done (view l s) = true -> fut_complete r s = (Raise InvalidStateError, s).
Proof. intros Hd. unfold fut_complete. by rewrite Fut.complete_done. Qed.
End LensOps.

#[export] Hint Resolve fut_complete_ok : py.

(** ** awscrt/exceptions.py

    The error tables live in the native libraries: [NativeErrors] is their
    interface. *)

Class NativeErrors := {
  get_corresponding_builtin_exception : Z -> option string;
  get_error_name : Z -> string;
  get_error_message : Z -> string;
}.

Definition from_code `{NativeErrors} (code : Z) : py_exn :=
  match get_corresponding_builtin_exception code with
  | Some builtin => BuiltinError builtin
  | None => AwsCrtError code (get_error_name code) (get_error_message code)
  end.

(** [PyErr_AwsLastError], [PyErr_SetAwsLastError] of source/module.c: how a
    native function called from Python raises. *)
Definition PyErr_AwsLastError `{NativeErrors} (err : Z) : py_exn :=
  RuntimeError (String.append (pretty.pretty err) (String.append " (" (String.append (get_error_name err)
    (String.append "): " (get_error_message err))))).

(** [AwsCrtError.__str__] *)
Definition AwsCrtError_str (name message : string) : string :=
  String.append name (String.append ": " message).

(** [if error_code: <exn> else: <value>]: how the callbacks turn a native error
    code and a value into the outcome of a future. *)
Definition outcome_of `{NativeErrors} {V} (error_code : Z) (v : V) : result V :=
  if bool_decide (error_code = 0) then Ok v else Raise (from_code error_code).

Lemma outcome_of_eqb `{NativeErrors} {V} code (v : V) :
  outcome_of code v = if code =? 0 then Ok v else Raise (from_code code).
Proof. unfold outcome_of. case_bool_decide; destruct (Z.eqb_spec code 0); done. Qed.

Lemma from_code_is_Exception `{NativeErrors} code : is_Exception (from_code code) = true.
Proof. unfold from_code. by destruct (get_corresponding_builtin_exception code). Qed.

(** An instance, used to evaluate the definitions on concrete inputs. *)
Definition demo_errors : NativeErrors := {|
  get_corresponding_builtin_exception := fun code =>
    if bool_decide (code = 1) then Some "MemoryError"%string else None;
  get_error_name := fun code =>
    if bool_decide (code = 14341) then "AWS_ERROR_CRT_CALLBACK_EXCEPTION"%string
    else "AWS_ERROR_UNKNOWN"%string;
  get_error_message := fun _ => "message"%string;
|}.
