(* ===== verification/Checksums.v ===== *)
(** * awscrt/checksums.py with source/crc.c and source/xxhash.c

    The checksum functions: how Python integers become the 32 and 64-bit words
    of the native library, running checksums, combination of the checksums of
    consecutive blocks, and streaming hashes. The native computations are the
    classes [NativeCrc] and [NativeXXHash]; [reflected_crc] is the bitwise
    reference computation, which satisfies the laws of the first. *)
From S2P Require Import Prelude.

(** ** Arguments of native functions *)
Module CArgs.

(** A Python object passed for an integer; a number is an [int] object. *)
Inductive arg := AInt (z : Z) | AOther.

(** [PyLong_AsUnsignedLong], [PyLong_AsUnsignedLongLong] for a C type of the
    given width: the value, and the exception that is then set. *)
Definition PyLong_AsUnsigned (bits : Z) (a : arg) : Z * option py_exn :=
  match a with
  | AInt z =>
      if (0 <=? z) && (z <? 2 ^ bits) then (z, None)
      else (2 ^ bits - 1, Some (OverflowError "int out of range for a C unsigned integer"))
  | AOther => (2 ^ bits - 1, Some (TypeError "an integer is required"))
  end.

(** [uintN_t v = PyLong_AsUnsigned...(a); if (v == (uintN_t)-1 && PyErr_Occurred())]:
    the word, where the C type of the call is at least as wide. *)
Definition as_word (word_bits bits : Z) (a : arg) : result Z :=
  let '(v, err) := PyLong_AsUnsigned bits a in
  let w := v mod 2 ^ word_bits in
  match err with
  | Some e => if w =? 2 ^ word_bits - 1 then Raise e else Ok w
  | None => Ok w
  end.

Lemma mod_ones w bits : 0 < w <= bits -> (2 ^ bits - 1) mod 2 ^ w = 2 ^ w - 1.
Proof.
  intros Hw. replace bits with (w + (bits - w)) by lia. rewrite Z.pow_add_r by lia.
  pose proof (Z.pow_pos_nonneg 2 w ltac:(lia) ltac:(lia)).
  symmetry. apply (Z.mod_unique_pos _ _ (2 ^ (bits - w) - 1)); [lia|nia].
Qed.

(** The error check never misses an error. *)
Lemma as_word_spec w bits a : 0 < w <= bits ->
  as_word w bits a =
  match a with
  | AInt z => if (0 <=? z) && (z <? 2 ^ bits) then Ok (z mod 2 ^ w)
              else Raise (OverflowError "int out of range for a C unsigned integer")
  | AOther => Raise (TypeError "an integer is required")
  end.
Proof.
  intros Hw. unfold as_word, PyLong_AsUnsigned. destruct a as [z|].
  - destruct (_ && _); [done|]. by rewrite mod_ones, Z.eqb_refl.
  - by rewrite mod_ones, Z.eqb_refl.
Qed.

Lemma as_word_small w bits z : 0 < w <= bits -> 0 <= z < 2 ^ w -> as_word w bits (AInt z) = Ok z.
Proof.
  intros Hw Hz. rewrite as_word_spec by done.
  assert (2 ^ w <= 2 ^ bits) by (apply Z.pow_le_mono_r; lia).
  destruct (Z.leb_spec 0 z), (Z.ltb_spec z (2 ^ bits)); simpl; try lia.
  by rewrite Z.mod_small.
Qed.

(** An object passed for a buffer: a string (by its UTF-8 bytes), a bytes
    object, or one whose buffer must be released ([bytearray], [memoryview],
    the latter possibly strided). *)
Inductive buffer_arg :=
  | ABytes (data : list Byte.byte)
  | AStr (utf8 : list Byte.byte)
  | AView (contiguous : bool) (data : list Byte.byte)
  | ANotBuffer.

(** The formats of PyArg_ParseTuple: [s*] (with whether the buffer obtained is
    contiguous), [s#] and [y#]; the last two accept no buffer that must be
    released. *)
Definition parse_s_star (b : buffer_arg) : result (bool * list Byte.byte) :=
  match b with
  | ABytes d | AStr d | AView true d => Ok (true, d)
  | AView false _ => Raise (BuiltinError "BufferError")
  | ANotBuffer => Raise (TypeError "a bytes-like object is required")
  end.
Definition parse_s_hash (b : buffer_arg) : result (list Byte.byte) :=
  match b with
  | ABytes d | AStr d => Ok d
  | AView _ _ | ANotBuffer => Raise (TypeError "read-only bytes-like object")
  end.
Definition parse_y_hash (b : buffer_arg) : result (list Byte.byte) :=
  match b with
  | ABytes d => Ok d
  | AStr _ | AView _ _ | ANotBuffer => Raise (TypeError "read-only bytes-like object")
  end.
End CArgs.
Import CArgs.

(** ** Cyclic redundancy checks *)
Module Crc.
Abbreviation bytes := (list Byte.byte).

(** A checksum of [w] bits of the native library, [aws_checksums_X_ex(data,
    length, previous)] and [aws_checksums_X_combine(crc1, crc2, length2)]: the
    running value of a prefix continues on the rest, and the combination of two
    blocks' checksums is that of the blocks together. *)
Class NativeCrc (w : Z) := {
  checksum_ex : bytes -> Z -> Z;
  checksum_combine : Z -> Z -> Z -> Z;
  checksum_range : forall b p, 0 <= p < 2 ^ w -> 0 <= checksum_ex b p < 2 ^ w;
  checksum_nil : forall p, 0 <= p < 2 ^ w -> checksum_ex [] p = p;
  checksum_app : forall a b p, 0 <= p < 2 ^ w -> checksum_ex (a ++ b) p = checksum_ex b (checksum_ex a p);
  combine_law : forall a b,
    checksum_combine (checksum_ex a 0) (checksum_ex b 0) (Z.of_nat (length b)) = checksum_ex (a ++ b) 0;
}.

Section Crc.
(** The word of the checksum, and the C type the argument passes through:
    [unsigned long] for the 32-bit checksums, [unsigned long long] for CRC64. *)
Variables (w ctype_bits : Z).
Context `{NativeCrc w}.

(** [checksums_crc32_common], [aws_py_checksums_crc64nvme]: with and without
    the interpreter lock the same computation. *)
Definition crc_common (input : buffer_arg) (previous : arg) : result Z :=
  let? (contiguous, data) := parse_s_star input in
  let? previousCrc := as_word w ctype_bits previous in
  if negb contiguous then Raise (ValueError "input must be contiguous buffer")
  else if Z.of_nat (length data) >? 1024 * 5
  then Ok (checksum_ex data previousCrc)
  else Ok (checksum_ex data previousCrc).

(** [PyErr_Clear(); PyErr_SetString(PyExc_ValueError, ...)] *)
Definition or_ValueError (msg : string) (r : result Z) : result Z :=
  match r with Ok z => Ok z | Raise _ => Raise (ValueError msg) end.

(** [aws_py_checksums_X_combine]; the length is an [unsigned long long]. *)
Definition crc_combine (crc1 crc2 len2 : arg) : result Z :=
  let? c1 := or_ValueError "result1 is not a valid unsigned integer" (as_word w ctype_bits crc1) in
  let? c2 := or_ValueError "result2 is not a valid unsigned integer" (as_word w ctype_bits crc2) in
  let? l2 := or_ValueError "data_length2 is not a valid unsigned 64-bit integer" (as_word 64 64 len2) in
  Ok (checksum_combine c1 c2 l2).
End Crc.

(** The functions of checksums.py. [ulong_bits] is the width of C [unsigned
    long] on the platform. *)
Section Module.
Variable ulong_bits : Z.
Context (crc32_native : NativeCrc 32) (crc32c_native : NativeCrc 32) (crc64nvme_native : NativeCrc 64).

Definition crc32 (input : buffer_arg) (previous_crc32 : arg) : result Z :=
  crc_common 32 ulong_bits (H:=crc32_native) input previous_crc32.
Definition crc32c (input : buffer_arg) (previous_crc32c : arg) : result Z :=
  crc_common 32 ulong_bits (H:=crc32c_native) input previous_crc32c.
Definition crc64nvme (input : buffer_arg) (previous_crc64nvme : arg) : result Z :=
  crc_common 64 64 (H:=crc64nvme_native) input previous_crc64nvme.
Definition combine_crc32 (crc32_result1 crc32_result2 data_length2 : arg) : result Z :=
  crc_combine 32 ulong_bits (H:=crc32_native) crc32_result1 crc32_result2 data_length2.
Definition combine_crc32c (crc32c_result1 crc32c_result2 data_length2 : arg) : result Z :=
  crc_combine 32 ulong_bits (H:=crc32c_native) crc32c_result1 crc32c_result2 data_length2.
Definition combine_crc64nvme (crc64nvme_result1 crc64nvme_result2 data_length2 : arg) : result Z :=
  crc_combine 64 64 (H:=crc64nvme_native) crc64nvme_result1 crc64nvme_result2 data_length2.
End Module.

(** *** Two ways to checksum data that comes in blocks *)
Section Blocks.
Context {w ctype_bits : Z} {N : NativeCrc w} (Hw : 0 < w <= ctype_bits).

(** [for b in blocks: crc = crcX(b, crc)] *)
Fixpoint running (crc : Z) (blocks : list bytes) : result Z :=
  match blocks with
  | [] => Ok crc
  | b :: rest => let? crc := crc_common w ctype_bits (ABytes b) (AInt crc) in running crc rest
  end.
(** Every block on its own, [crc = combine(crc, crcX(b), len(b))] *)
Fixpoint combined (crc : Z) (blocks : list bytes) : result Z :=
  match blocks with
  | [] => Ok crc
  | b :: rest =>
      let? c := crc_common w ctype_bits (ABytes b) (AInt 0) in
      let? crc := crc_combine w ctype_bits (AInt crc) (AInt c) (AInt (Z.of_nat (length b))) in
      combined crc rest
  end.

Lemma zero_ok : 0 <= 0 < 2 ^ w.
Proof. split; [done|]. apply Z.pow_pos_nonneg; lia. Qed.

Lemma crc_common_word b p : 0 <= p < 2 ^ w ->
  crc_common w ctype_bits (ABytes b) (AInt p) = Ok (checksum_ex b p).
Proof.
  intros Hp. unfold crc_common. simpl. rewrite as_word_small by done. simpl. by destruct (_ >? _).
Qed.

Lemma running_ok blocks p : 0 <= p < 2 ^ w -> running p blocks = Ok (checksum_ex (concat blocks) p).
Proof.
  revert p. induction blocks as [|b l IH]; intros p Hp; simpl; [by rewrite checksum_nil|].
  rewrite crc_common_word by done. simpl. rewrite IH by (by apply checksum_range).
  by rewrite checksum_app.
Qed.

Lemma combined_ok blocks a :
  Forall (fun b : bytes => Z.of_nat (length b) < 2 ^ 64) blocks ->
  combined (checksum_ex a 0) blocks = Ok (checksum_ex (a ++ concat blocks) 0).
Proof.
  revert a. induction blocks as [|b l IH]; intros a Hl; simpl; [by rewrite app_nil_r|].
  apply Forall_cons in Hl as [Hb Hl]. pose proof zero_ok.
  rewrite crc_common_word by done. simpl. unfold crc_combine.
  rewrite !as_word_small by (auto using checksum_range; lia). simpl.
  rewrite combine_law, IH by done. by rewrite <- app_assoc.
Qed.
End Blocks.

(** C22: One checksum, three ways. For data cut into any blocks, continuing the
    running checksum from block to block, computing each block's checksum on its
    own and combining them, and one call on all the data give the same word; no
    call on the way raises, every value they hand each other being a word of the
    checksum. This holds for each of the three checksums of the module. *)
Theorem crc_blocks_equivalent (w ctype_bits : Z) (N : NativeCrc w) (blocks : list bytes)
    (Hw : 0 < w <= ctype_bits)
    (Hlen : Forall (fun b : bytes => Z.of_nat (length b) < 2 ^ 64) blocks) :
  exists c, 0 <= c < 2 ^ w /\
    crc_common w ctype_bits (ABytes (concat blocks)) (AInt 0) = Ok c /\
    running (ctype_bits:=ctype_bits) 0 blocks = Ok c /\
    combined (ctype_bits:=ctype_bits) 0 blocks = Ok c.
Proof.
  pose proof (zero_ok Hw) as H0. exists (checksum_ex (concat blocks) 0). split_and!.
  - apply checksum_range; lia.
  - apply checksum_range; lia.
  - by apply crc_common_word.
  - by apply running_ok.
  - rewrite <- (checksum_nil 0) at 1 by done. by apply (combined_ok Hw blocks []).
Qed.

(** Which integers are checksums. A running checksum or a result to combine
    is accepted exactly if it fits the C type it passes through, and counts
    modulo the checksum's width; anything else raises: OverflowError (TypeError
    for what is no int) from a checksum, ValueError from a combination. So the
    64-bit checksum accepts just the words, and so do the 32-bit ones where
    [unsigned long] has 32 bits; where it has 64, an integer above 32 bits is
    taken for its low word, although the message of the check promises "a valid
    unsigned 32-bit integer". *)
Lemma crc_arguments (w ctype_bits : Z) (N : NativeCrc w) (z : Z) (b : bytes)
    (Hw : 0 < w <= ctype_bits) :
  (0 <= z < 2 ^ ctype_bits ->
    crc_common w ctype_bits (ABytes b) (AInt z) = Ok (checksum_ex b (z mod 2 ^ w)) /\
    forall n, 0 <= n < 2 ^ 64 ->
      crc_combine w ctype_bits (AInt z) (AInt (z mod 2 ^ w)) (AInt n) =
        Ok (checksum_combine (z mod 2 ^ w) (z mod 2 ^ w) n)) /\
  (~ 0 <= z < 2 ^ ctype_bits ->
    (exists msg, crc_common w ctype_bits (ABytes b) (AInt z) = Raise (OverflowError msg)) /\
    forall c n, exists msg, crc_combine w ctype_bits (AInt z) c n = Raise (ValueError msg)) /\
  (exists msg, crc_common w ctype_bits (ABytes b) AOther = Raise (TypeError msg)) /\
  (w = ctype_bits -> 0 <= z < 2 ^ ctype_bits -> z mod 2 ^ w = z).
Proof.
  assert (0 <= z mod 2 ^ w < 2 ^ w) as Hm by (apply Z.mod_pos_bound, Z.pow_pos_nonneg; lia).
  unfold crc_combine, crc_common. simpl. rewrite !(as_word_small w ctype_bits (z mod 2 ^ w)) by done.
  rewrite !as_word_spec by done.
  split_and!; [intros Hz| intros Hz | by eexists | intros -> Hz; by rewrite Z.mod_small].
  - destruct (Z.leb_spec 0 z), (Z.ltb_spec z (2 ^ ctype_bits)); simpl; try lia.
    split; [by destruct (_ >? _)|]. intros n Hn. by rewrite as_word_small.
  - destruct (Z.leb_spec 0 z), (Z.ltb_spec z (2 ^ ctype_bits)); simpl; try lia;
      (split; [|intros]); by eexists.
Qed.

(** *** The bitwise reference computation *)
Section Reflected.
Variables (w poly : Z).

Definition crc_bit (s : Z) : Z :=
  if Z.testbit s 0 then Z.lxor (Z.shiftr s 1) poly else Z.shiftr s 1.
Definition crc_byte (s b : Z) : Z := Nat.iter 8 crc_bit (Z.lxor s b).
Definition byte_Z (b : Byte.byte) : Z := Z.of_N (Byte.to_N b).
Definition crc_raw (s : Z) (data : list Z) : Z := fold_left crc_byte data s.
Definition crc_ex (data : bytes) (p : Z) : Z :=
  Z.lxor (crc_raw (Z.lxor p (Z.ones w)) (map byte_Z data)) (Z.ones w).
Definition crc_zeros (c1 c2 len2 : Z) : Z :=
  Z.lxor (crc_raw c1 (repeat 0 (Z.to_nat len2))) c2.

Lemma crc_bit_lxor s t : crc_bit (Z.lxor s t) = Z.lxor (crc_bit s) (crc_bit t).
Proof.
  unfold crc_bit. rewrite Z.lxor_spec, Z.shiftr_lxor.
  destruct (Z.testbit s 0), (Z.testbit t 0); simpl; rewrite ?Z.lxor_assoc; try done.
  - f_equal. rewrite (Z.lxor_comm poly), Z.lxor_assoc, Z.lxor_nilpotent. by rewrite Z.lxor_0_r.
  - f_equal. apply Z.lxor_comm.
Qed.

Lemma crc_byte_lxor s t b : crc_byte (Z.lxor s t) b = Z.lxor (crc_byte s 0) (crc_byte t b).
Proof.
  unfold crc_byte. rewrite Z.lxor_0_r, Z.lxor_assoc. generalize (Z.lxor t b) 8%nat. intros u n.
  induction n as [|n IH]; simpl; [done|]. by rewrite IH, crc_bit_lxor.
Qed.

Lemma crc_raw_lxor data s t :
  crc_raw (Z.lxor s t) data = Z.lxor (crc_raw s (repeat 0 (length data))) (crc_raw t data).
Proof.
  unfold crc_raw. revert s t. induction data as [|b l IH]; intros s t; simpl; [done|].
  by rewrite crc_byte_lxor, IH.
Qed.

Definition word (z : Z) : Prop := 0 <= z < 2 ^ w.
Hypothesis Hw : 8 <= w.
Hypothesis Hpoly : word poly.

Lemma word_bits z : 0 <= z -> (word z <-> forall n, w <= n -> Z.testbit z n = false).
Proof.
  intros Hz. unfold word. split.
  - intros [_ Hb] n Hn. destruct (decide (z = 0)) as [->|Hnz]; [apply Z.bits_0|].
    apply Z.bits_above_log2; [done|]. apply Z.log2_lt_pow2; [lia|].
    eapply Z.lt_le_trans; [exact Hb|]. apply Z.pow_le_mono_r; lia.
  - intros Hb. split; [done|]. destruct (decide (z = 0)) as [->|Hnz]; [apply Z.pow_pos_nonneg; lia|].
    apply Z.log2_lt_pow2; [lia|]. destruct (Z.lt_ge_cases (Z.log2 z) w) as [|Hl]; [done|].
    specialize (Hb _ Hl). rewrite Z.bit_log2 in Hb by lia. done.
Qed.

Lemma word_lxor a b : word a -> word b -> word (Z.lxor a b).
Proof.
  intros Ha Hb. assert (0 <= Z.lxor a b) as Hn by (apply Z.lxor_nonneg; destruct Ha, Hb; lia).
  apply word_bits; [done|]. intros n Hle. rewrite Z.lxor_spec.
  rewrite (proj1 (word_bits a (proj1 Ha)) Ha n Hle), (proj1 (word_bits b (proj1 Hb)) Hb n Hle). done.
Qed.

Lemma word_shiftr a : word a -> word (Z.shiftr a 1).
Proof.
  intros [Ha Hb]. rewrite Z.shiftr_div_pow2 by lia. change (2 ^ 1) with 2. split.
  - apply Z.div_pos; lia.
  - eapply Z.le_lt_trans; [|exact Hb]. apply Z.div_le_upper_bound; lia.
Qed.

Lemma word_ones : word (Z.ones w).
Proof. unfold word. rewrite Z.ones_equiv. pose proof (Z.pow_pos_nonneg 2 w). lia. Qed.

Lemma word_byte b : word (byte_Z b).
Proof.
  unfold word, byte_Z. assert (2 ^ 8 <= 2 ^ w) by (apply Z.pow_le_mono_r; lia).
  pose proof (Byte.to_N_bounded b). lia.
Qed.

Lemma word_raw data s : word s -> word (crc_raw s (map byte_Z data)).
Proof.
  unfold crc_raw. revert s. induction data as [|b l IH]; intros s Hs; simpl; [done|]. apply IH.
  unfold crc_byte. assert (word (Z.lxor s (byte_Z b))) as Hx by (apply word_lxor, word_byte; done).
  generalize 8%nat. intros n. induction n as [|n IHn]; simpl; [done|]. unfold crc_bit at 1.
  destruct (Z.testbit _ 0); [apply word_lxor; [|done]|]; by apply word_shiftr.
Qed.

Lemma lxor_twice a b : Z.lxor (Z.lxor a b) b = a.
Proof. by rewrite Z.lxor_assoc, Z.lxor_nilpotent, Z.lxor_0_r. Qed.

Lemma crc_ex_app a b p : crc_ex (a ++ b) p = crc_ex b (crc_ex a p).
Proof. unfold crc_ex, crc_raw. by rewrite lxor_twice, map_app, fold_left_app. Qed.

Lemma crc_zeros_law a b : crc_zeros (crc_ex a 0) (crc_ex b 0) (Z.of_nat (length b)) = crc_ex (a ++ b) 0.
Proof.
  rewrite crc_ex_app. unfold crc_zeros. generalize (crc_ex a 0) as c. intros c.
  unfold crc_ex. rewrite Nat2Z.id, <- Z.lxor_assoc, Z.lxor_0_l. f_equal.
  by rewrite crc_raw_lxor, length_map.
Qed.

Definition reflected_crc : NativeCrc w.
Proof.
  refine {| checksum_ex := crc_ex; checksum_combine := crc_zeros |}.
  - intros b p Hp. apply word_lxor; [|apply word_ones]. apply word_raw, word_lxor, word_ones. done.
  - intros p Hp. unfold crc_ex, crc_raw. simpl. apply lxor_twice.
  - intros. apply crc_ex_app.
  - apply crc_zeros_law.
Defined.
End Reflected.

(** The polynomials of the three checksums, checked on the digits 1 to 9. *)
Definition crc32_poly : Z := 0xEDB88320.
Definition crc32c_poly : Z := 0x82F63B78.
Definition crc64nvme_poly : Z := 0x9A6C9329AC4BC9B5.
Definition check_data : bytes := map (fun n => default Byte.x00 (Byte.of_N n)) [49;50;51;52;53;54;55;56;57]%N.
Example crc_check_values :
  crc_ex 32 crc32_poly check_data 0 = 0xCBF43926 /\
  crc_ex 32 crc32c_poly check_data 0 = 0xE3069283 /\
  crc_ex 64 crc64nvme_poly check_data 0 = 0xAE8B14860A799888.
Proof. vm_compute. done. Qed.

Definition demo_crc32 : NativeCrc 32.
Proof. apply (reflected_crc 32 crc32_poly); [done | by vm_compute]. Defined.

Lemma crc_blocks_equivalent_witness :
  exists c, running (N:=demo_crc32) (ctype_bits:=64) 0 [take 4 check_data; drop 4 check_data] = Ok c /\
    combined (N:=demo_crc32) (ctype_bits:=64) 0 [take 4 check_data; drop 4 check_data] = Ok c /\
    crc32 64 demo_crc32 (ABytes check_data) (AInt 0) = Ok c.
Proof.
  destruct (crc_blocks_equivalent 32 64 demo_crc32 [take 4 check_data; drop 4 check_data]
    ltac:(lia) ltac:(repeat constructor)) as (c & _ & H1 & H2 & H3).
  exists c. split; [exact H2|]. split; [exact H3|]. exact H1.
Defined.

Lemma crc_arguments_witness :
  crc_common 32 64 (H:=demo_crc32) (ABytes check_data) (AInt (2 ^ 32 + 5)) =
  Ok (crc_ex 32 crc32_poly check_data 5).
Proof.
  destruct (crc_arguments 32 64 demo_crc32 (2 ^ 32 + 5) check_data ltac:(lia)) as (H1 & _).
  exact (proj1 (H1 ltac:(lia))).
Defined.
End Crc.

(** ** Streaming hashes *)
Module XX.
Abbreviation bytes := (list Byte.byte).

Inductive variant := XXHASH64 | XXHASH3_64 | XXHASH3_128.

(** The native hashes: a state made from a seed, fed and finalised, and the
    one-shot computation. What a state is after [xx_finalize] is not said. *)
Class NativeXXHash := {
  xx_state : Type;
  xx_new : variant -> Z -> xx_state;
  xx_update : xx_state -> bytes -> xx_state;
  xx_finalize : xx_state -> bytes * xx_state;
  xx_compute : variant -> Z -> bytes -> bytes;
  xx_update_nil : forall h, xx_update h [] = h;
  xx_update_app : forall h a b, xx_update h (a ++ b) = xx_update (xx_update h a) b;
  xx_compute_law : forall v seed b, xx_compute v seed b = (xx_finalize (xx_update (xx_new v seed) b)).1;
}.

Section XX.
Context `{NativeXXHash}.

(** [XXHash.new_xxhash64] and the other two; the seed is an [unsigned long long]. *)
Definition new_xxhash (v : variant) (seed : arg) : result xx_state :=
  let? s := as_word 64 64 seed in Ok (xx_new v s).
Definition new_xxhash64 := new_xxhash XXHASH64.
Definition new_xxhash3_64 := new_xxhash XXHASH3_64.
Definition new_xxhash3_128 := new_xxhash XXHASH3_128.

Definition compute_xxhash (v : variant) (input : buffer_arg) (seed : arg) : result bytes :=
  let? data := parse_y_hash input in
  let? s := as_word 64 64 seed in
  Ok (xx_compute v s data).
Definition compute_xxhash64 := compute_xxhash XXHASH64.
Definition compute_xxhash3_64 := compute_xxhash XXHASH3_64.
Definition compute_xxhash3_128 := compute_xxhash XXHASH3_128.

(** [XXHash.update], [XXHash.finalize] on the native state of the object *)
Definition update (input : buffer_arg) : M xx_state unit :=
  let! data := lift (parse_y_hash input) in
  modify (fun h => xx_update h data).
Definition finalize : M xx_state bytes := fun h => let (d, h') := xx_finalize h in (Ok d, h').

(** [h = XXHash.new_...(seed); for b in blocks: h.update(b); h.finalize()] *)
Definition streamed (v : variant) (seed : arg) (blocks : list buffer_arg) : result bytes :=
  let? h := new_xxhash v seed in
  (bind (mfor blocks update) (fun _ => finalize) h).1.

Lemma update_blocks (blocks : list bytes) h :
  mfor (map ABytes blocks) update h = (Ok tt, xx_update h (concat blocks)).
Proof.
  revert h. induction blocks as [|b l IH]; intros h; simpl; [by rewrite xx_update_nil|].
  unfold bind. simpl. by rewrite IH, xx_update_app.
Qed.

(** A hash fed block by block is the hash of the whole. For every seed of 64
    bits and every way to cut the input, creating the hash, updating it with the
    blocks in order and finalising it gives what the one-shot function gives on
    the whole input; other seeds raise OverflowError or TypeError in both. The
    input must be bytes: a bytearray or memoryview, which the signatures
    document, is refused by both, after which the hash goes on unharmed. *)
Lemma xxhash_streaming (v : variant) (seed : arg) (blocks : list bytes) :
  streamed v seed (map ABytes blocks) = compute_xxhash v (ABytes (concat blocks)) seed /\
  (forall c d, (exists msg, compute_xxhash v (AView c d) seed = Raise (TypeError msg)) /\
    forall h, exists msg, update (AView c d) h = (Raise (TypeError msg), h)).
Proof.
  split.
  - unfold streamed, new_xxhash, compute_xxhash. simpl. destruct (as_word 64 64 seed) as [s|e]; [|done].
    simpl. unfold bind. rewrite update_blocks, xx_compute_law. unfold finalize. by destruct (xx_finalize _).
  - intros c d. split; [by eexists|]. intros h. by eexists.
Qed.
End XX.

(** An instance to evaluate with: the state is what has been hashed. *)
Definition demo_xxhash : NativeXXHash.
Proof.
  refine {| xx_state := variant * Z * bytes; xx_new := fun v s => (v, s, []);
    xx_update := fun '(v, s, h) b => (v, s, h ++ b);
    xx_finalize := fun h => (h.2, h);
    xx_compute := fun v s b => b |}.
  - intros [[v s] h]. by rewrite app_nil_r.
  - intros [[v s] h] a b. by rewrite app_assoc.
  - done.
Defined.

Lemma xxhash_streaming_witness :
  streamed (H:=demo_xxhash) XXHASH64 (AInt 7) [ABytes [Byte.x01]; ABytes [Byte.x02]] =
  Ok [Byte.x01; Byte.x02].
Proof.
  exact (eq_trans (proj1 (xxhash_streaming (H:=demo_xxhash) XXHASH64 (AInt 7) [[Byte.x01]; [Byte.x02]]))
    eq_refl).
Defined.
End XX.
