(* ===== verification/Crypto.v ===== *)
(** * awscrt/crypto.py with source/crypto.c

    Hashes and MACs ([Digests]), RSA keys from PEM and DER data ([Keys]), and
    elliptic-curve signatures ([Signatures]). The computations are native; the
    code around them decides which bytes reach them, how errors come back, how
    large the buffers are and which object of a PEM file is read. *)
From S2P Require Import Prelude Exports Future Checksums.
Import CArgs.

Module RSAEncryptionAlgorithm.
Inductive RSAEncryptionAlgorithm :=
  | PKCS1_5
  | OAEP_SHA256
  | OAEP_SHA512.
Definition RSAEncryptionAlgorithm_value (e : RSAEncryptionAlgorithm) : Z :=
  match e with
  | PKCS1_5 => 0
  | OAEP_SHA256 => 1
  | OAEP_SHA512 => 2
  end.
#[global] Instance RSAEncryptionAlgorithm_eq_dec : EqDecision RSAEncryptionAlgorithm.
Proof. solve_decision. Defined.
#[global] Instance RSAEncryptionAlgorithm_IntEnum : IntEnum RSAEncryptionAlgorithm.
Proof.
  refine {| enum_value := RSAEncryptionAlgorithm_value; enum_members := [PKCS1_5; OAEP_SHA256; OAEP_SHA512] |}.
  - solve_enum_complete.
  - solve_enum_nodup.
Defined.
End RSAEncryptionAlgorithm.
Abbreviation RSAEncryptionAlgorithm := RSAEncryptionAlgorithm.RSAEncryptionAlgorithm.

Module RSASignatureAlgorithm.
Inductive RSASignatureAlgorithm :=
  | PKCS1_5_SHA256
  | PKCS1_5_SHA1
  | PSS_SHA256.
Definition RSASignatureAlgorithm_value (e : RSASignatureAlgorithm) : Z :=
  match e with
  | PKCS1_5_SHA256 => 0
  | PKCS1_5_SHA1 => 1
  | PSS_SHA256 => 2
  end.
#[global] Instance RSASignatureAlgorithm_eq_dec : EqDecision RSASignatureAlgorithm.
Proof. solve_decision. Defined.
#[global] Instance RSASignatureAlgorithm_IntEnum : IntEnum RSASignatureAlgorithm.
Proof.
  refine {| enum_value := RSASignatureAlgorithm_value; enum_members := [PKCS1_5_SHA256; PKCS1_5_SHA1; PSS_SHA256] |}.
  - solve_enum_complete.
  - solve_enum_nodup.
Defined.
End RSASignatureAlgorithm.
Abbreviation RSASignatureAlgorithm := RSASignatureAlgorithm.RSASignatureAlgorithm.

Module ED25519ExportFormat.
Inductive ED25519ExportFormat :=
  | RAW
  | OPENSSH_B64.
Definition ED25519ExportFormat_value (e : ED25519ExportFormat) : Z :=
  match e with
  | RAW => 0
  | OPENSSH_B64 => 1
  end.
#[global] Instance ED25519ExportFormat_eq_dec : EqDecision ED25519ExportFormat.
Proof. solve_decision. Defined.
#[global] Instance ED25519ExportFormat_IntEnum : IntEnum ED25519ExportFormat.
Proof.
  refine {| enum_value := ED25519ExportFormat_value; enum_members := [RAW; OPENSSH_B64] |}.
  - solve_enum_complete.
  - solve_enum_nodup.
Defined.
End ED25519ExportFormat.
Abbreviation ED25519ExportFormat := ED25519ExportFormat.ED25519ExportFormat.

Module ECType.
Inductive ECType :=
  | P_256
  | P_384.
Definition ECType_value (e : ECType) : Z :=
  match e with
  | P_256 => 0
  | P_384 => 1
  end.
#[global] Instance ECType_eq_dec : EqDecision ECType.
Proof. solve_decision. Defined.
#[global] Instance ECType_IntEnum : IntEnum ECType.
Proof.
  refine {| enum_value := ECType_value; enum_members := [P_256; P_384] |}.
  - solve_enum_complete.
  - solve_enum_nodup.
Defined.
End ECType.
Abbreviation ECType := ECType.ECType.

Module ECExportFormat.
Inductive ECExportFormat :=
  | SEC1
  | PKCS8
  | SPKI.
Definition ECExportFormat_value (e : ECExportFormat) : Z :=
  match e with
  | SEC1 => 0
  | PKCS8 => 1
  | SPKI => 2
  end.
#[global] Instance ECExportFormat_eq_dec : EqDecision ECExportFormat.
Proof. solve_decision. Defined.
#[global] Instance ECExportFormat_IntEnum : IntEnum ECExportFormat.
Proof.
  refine {| enum_value := ECExportFormat_value; enum_members := [SEC1; PKCS8; SPKI] |}.
  - solve_enum_complete.
  - solve_enum_nodup.
Defined.
End ECExportFormat.
Abbreviation ECExportFormat := ECExportFormat.ECExportFormat.

Abbreviation bytes := (list Byte.byte).

(** What a native call answers: a value, or the code left in [aws_last_error]. *)
Inductive native (A : Type) := Done (a : A) | Failed (error_code : Z).
Arguments Done {A} a.
Arguments Failed {A} error_code.

(** [if (native call) return PyErr_AwsLastError();] *)
Definition aws_result `{NativeErrors} {A} (n : native A) : result A :=
  match n with Done a => Ok a | Failed code => Raise (PyErr_AwsLastError code) end.

(** A [Py_ssize_t] argument cast to [size_t]. *)
Definition size_t (z : Z) : Z := z mod 2 ^ 64.

(** ** Hashes and MACs *)
Module Digests.

Inductive algorithm := SHA1 | SHA256 | MD5 | SHA256_HMAC (secret : bytes).

(** The native hash objects. [hash_view] is what has been fed to a state that
    is not finalised yet; a digest is truncated to a positive [truncate_to]
    below its size; a finalised state refuses everything. *)
Class NativeHash := {
  hash_state : Type;
  hash_new : algorithm -> hash_state;
  hash_update : hash_state -> bytes -> native hash_state;
  hash_finalize : hash_state -> Z -> native (bytes * hash_state);
  digest_of : algorithm -> bytes -> bytes;
  hash_view : hash_state -> algorithm * option bytes;
  hash_new_law : forall a, hash_view (hash_new a) = (a, Some []);
  hash_update_law : forall h b,
    match hash_view h with
    | (a, Some x) => exists h', hash_update h b = Done h' /\ hash_view h' = (a, Some (x ++ b))
    | (_, None) => exists c, hash_update h b = Failed c
    end;
  hash_finalize_law : forall h t, 0 <= t ->
    match hash_view h with
    | (a, Some x) => exists h', hash_view h' = (a, None) /\
        hash_finalize h t = Done (if t =? 0 then digest_of a x else take (Z.to_nat t) (digest_of a x), h')
    | (_, None) => exists c, hash_finalize h t = Failed c
    end;
}.

Section Digests.
Context `{NativeErrors} `{NativeHash}.

(** [Hash.sha1_new], [sha256_new], [md5_new] and [HMAC.sha256_hmac_new]; the
    key is a string or bytes. *)
Definition sha1_new : hash_state := hash_new SHA1.
Definition sha256_new : hash_state := hash_new SHA256.
Definition md5_new : hash_state := hash_new MD5.
Definition sha256_hmac_new (last_error : Z) (secret_key : buffer_arg) : result hash_state :=
  match parse_s_hash secret_key with
  | Raise _ => Raise (PyErr_AwsLastError last_error)
  | Ok k => Ok (hash_new (SHA256_HMAC k))
  end.

(** [Hash.update]: [aws_py_hash_update], which releases the interpreter lock on
    more than 5 KiB; [aws_py_hmac_update]. An argument that cannot be parsed is
    reported with [PyErr_AwsLastError], in place of the exception the parser has
    set: [last_error] is whatever the thread's last native error was. *)
Definition aws_py_hmac_update (last_error : Z) (to_hmac : buffer_arg) : M hash_state unit := fun h =>
  match parse_s_hash to_hmac with
  | Raise _ => (Raise (PyErr_AwsLastError last_error), h)
  | Ok data =>
      match hash_update h data with
      | Done h' => (Ok tt, h')
      | Failed code => (Raise (PyErr_AwsLastError code), h)
      end
  end.
Definition Hash_update (last_error : Z) (to_hash : buffer_arg) : M hash_state unit := fun h =>
  match parse_s_hash to_hash with
  | Raise _ => (Raise (PyErr_AwsLastError last_error), h)
  | Ok data =>
      if Z.of_nat (length data) >? 1024 * 5
      then match hash_update h data with
           | Done h' => (Ok tt, h')
           | Failed code => (Raise (PyErr_AwsLastError code), h)
           end
      else match hash_update h data with
           | Done h' => (Ok tt, h')
           | Failed code => (Raise (PyErr_AwsLastError code), h)
           end
  end.

(** [Hash.digest]: [aws_py_hash_digest], and [aws_py_hmac_digest]. *)
Definition digest (truncate_to : Z) : M hash_state bytes := fun h =>
  match hash_finalize h (size_t truncate_to) with
  | Done (d, h') => (Ok d, h')
  | Failed code => (Raise (PyErr_AwsLastError code), h)
  end.

(** [HMAC.update] and [HMAC.digest]: the extension module does not export the two
    functions. *)
Definition HMAC_update (to_hmac : buffer_arg) : M hash_state unit := lift (Exports.native_attribute "hmac_update").
Definition HMAC_digest (truncate_to : Z) : M hash_state unit := lift (Exports.native_attribute "hmac_digest").

Lemma hmac_unusable b truncate_to h :
  HMAC_update b h = (Raise (AttributeError "hmac_update"), h) /\
  HMAC_digest truncate_to h = (Raise (AttributeError "hmac_digest"), h).
Proof. split; by vm_compute. Qed.

Lemma Hash_update_hmac le b : Hash_update le b = aws_py_hmac_update le b.
Proof. unfold Hash_update, aws_py_hmac_update. destruct (parse_s_hash b); [by destruct (_ >? _)|done]. Qed.

Definition fed (h : hash_state) (a : algorithm) (x : bytes) : Prop := hash_view h = (a, Some x).

Lemma hmac_update_fed le h a x b d : fed h a x -> parse_s_hash b = Ok d ->
  exists h', aws_py_hmac_update le b h = (Ok tt, h') /\ fed h' a (x ++ d).
Proof.
  unfold fed, aws_py_hmac_update. intros Hv ->. pose proof (hash_update_law h d) as Hl. rewrite Hv in Hl.
  destruct Hl as (h' & -> & Hv'). by exists h'.
Qed.

Lemma updates_fed le h a x (blocks : list bytes) : fed h a x ->
  exists h', mfor (map ABytes blocks) (Hash_update le) h = (Ok tt, h') /\ fed h' a (x ++ concat blocks).
Proof.
  revert h x. induction blocks as [|b l IH]; intros h x Hf; simpl; [exists h; by rewrite app_nil_r|].
  unfold bind. rewrite Hash_update_hmac.
  destruct (hmac_update_fed le h a x (ABytes b) b Hf eq_refl) as (h1 & -> & H1).
  destruct (IH h1 _ H1) as (h' & -> & H2). exists h'. by rewrite app_assoc.
Qed.

(** Hashing in blocks: the digest depends on the concatenation alone, is cut to
    the bytes asked for, and ends the object, whose later uses raise. *)
Lemma digest_of_blocks le (a : algorithm) (blocks : list bytes) (truncate_to : Z) :
  0 <= truncate_to < 2 ^ 64 ->
  exists h h', mfor (map ABytes blocks) (Hash_update le) (hash_new a) = (Ok tt, h) /\
    digest truncate_to h =
      (Ok (if truncate_to =? 0 then digest_of a (concat blocks)
           else take (Z.to_nat truncate_to) (digest_of a (concat blocks))), h') /\
    (forall t, exists e, digest t h' = (Raise e, h')) /\
    (forall b, exists e, Hash_update le b h' = (Raise e, h')).
Proof.
  intros Ht. destruct (updates_fed le (hash_new a) a [] blocks (hash_new_law a)) as (h & E & Hf).
  exists h. rewrite E. unfold digest, size_t.
  pose proof (hash_finalize_law h truncate_to (proj1 Ht)) as Hl. unfold fed in Hf. rewrite Hf in Hl.
  destruct Hl as (h' & Hv & Hd). exists h'. rewrite Z.mod_small, Hd by done. split_and!; [done|done| |].
  - intros t. pose proof (hash_finalize_law h' (t mod 2 ^ 64) ltac:(apply Z.mod_pos_bound; lia)) as Hl.
    rewrite Hv in Hl. destruct Hl as (c & ->). by eexists.
  - intros b. rewrite Hash_update_hmac. unfold aws_py_hmac_update. destruct (parse_s_hash b) as [d|e]; [|by eexists].
    pose proof (hash_update_law h' d) as Hl. rewrite Hv in Hl. destruct Hl as (c & ->). by eexists.
Qed.
End Digests.
End Digests.

(** ** Keys *)
Module Keys.

(** The objects of a PEM file, as the native parser lists them. *)
Inductive pem_type := PRIVATE_RSA_PKCS1 | PRIVATE_PKCS8 | PUBLIC_RSA_PKCS1 | OTHER_PEM (n : Z).
#[global] Instance pem_type_eq_dec : EqDecision pem_type.
Proof. solve_decision. Defined.
Record pem_object := mkPem { type : pem_type; data : bytes }.

(** The native key functions; [signature_failed] is the code
    AWS_ERROR_CAL_SIGNATURE_VALIDATION_FAILED. *)
Class NativeRsa := {
  key_pair : Type;
  pem_objects : bytes -> native (list pem_object);
  key_from_private_pkcs1 : bytes -> native key_pair;
  key_from_private_pkcs8 : bytes -> native key_pair;
  key_from_public_pkcs1 : bytes -> native key_pair;
  rsa_encrypt_native : key_pair -> Z -> bytes -> native bytes;
  rsa_decrypt_native : key_pair -> Z -> bytes -> native bytes;
  rsa_sign_native : key_pair -> Z -> bytes -> native bytes;
  rsa_verify_native : key_pair -> Z -> bytes -> bytes -> native unit;
  signature_failed : Z;
}.

(** [s_find_pem_object]: the loop runs over the indices of the list, and reads
    the object at index 0 in every round. *)
Fixpoint find_pem_loop (rounds : nat) (pem_list : list pem_object) (t : pem_type) : option pem_object :=
  match rounds with
  | O => None
  | S rounds' =>
      match pem_list !! 0%nat with
      | None => None
      | Some o => if bool_decide (type o = t) then Some o else find_pem_loop rounds' pem_list t
      end
  end.
Definition s_find_pem_object (pem_list : list pem_object) (t : pem_type) : option pem_object :=
  find_pem_loop (length pem_list) pem_list t.

Section Keys.
Context `{NativeErrors} `{NativeRsa}.

(** [RSA.new_private_key_from_pem_data] *)
Definition rsa_private_key_from_pem_data (pem_data : buffer_arg) : result key_pair :=
  let? d := parse_s_hash pem_data in
  let? pem_list := aws_result (pem_objects d) in
  match s_find_pem_object pem_list PRIVATE_RSA_PKCS1 with
  | Some o => aws_result (key_from_private_pkcs1 (data o))
  | None =>
      match s_find_pem_object pem_list PRIVATE_PKCS8 with
      | Some o => aws_result (key_from_private_pkcs8 (data o))
      | None => Raise (ValueError "RSA private key not found in PEM.")
      end
  end.

(** [RSA.new_public_key_from_pem_data] *)
Definition rsa_public_key_from_pem_data (pem_data : buffer_arg) : result key_pair :=
  let? d := parse_s_hash pem_data in
  let? pem_list := aws_result (pem_objects d) in
  match s_find_pem_object pem_list PUBLIC_RSA_PKCS1 with
  | Some o => aws_result (key_from_public_pkcs1 (data o))
  | None => Raise (ValueError "RSA public key not found in PEM.")
  end.

(** [RSA.new_private_key_from_der_data], [RSA.new_public_key_from_der_data] *)
Definition rsa_private_key_from_der_data (der_data : buffer_arg) : result key_pair :=
  let? d := parse_s_hash der_data in aws_result (key_from_private_pkcs1 d).
Definition rsa_public_key_from_der_data (der_data : buffer_arg) : result key_pair :=
  let? d := parse_s_hash der_data in aws_result (key_from_public_pkcs1 d).

(** [RSA.encrypt], [decrypt], [sign] *)
Definition rsa_encrypt (k : key_pair) (a : RSAEncryptionAlgorithm) (plaintext : buffer_arg) : result bytes :=
  let? d := parse_y_hash plaintext in aws_result (rsa_encrypt_native k (enum_value a) d).
Definition rsa_decrypt (k : key_pair) (a : RSAEncryptionAlgorithm) (ciphertext : buffer_arg) : result bytes :=
  let? d := parse_y_hash ciphertext in aws_result (rsa_decrypt_native k (enum_value a) d).
Definition rsa_sign (k : key_pair) (a : RSASignatureAlgorithm) (digest : buffer_arg) : result bytes :=
  let? d := parse_y_hash digest in aws_result (rsa_sign_native k (enum_value a) d).

(** [RSA.verify]: a signature that does not match is False, any other failure
    an exception. *)
Definition verify_result (n : native unit) : result bool :=
  match n with
  | Done _ => Ok true
  | Failed code => if code =? signature_failed then Ok false else Raise (PyErr_AwsLastError code)
  end.
Definition rsa_verify (k : key_pair) (a : RSASignatureAlgorithm) (digest signature : buffer_arg) : result bool :=
  let? d := parse_y_hash digest in
  let? s := parse_y_hash signature in
  verify_result (rsa_verify_native k (enum_value a) d s).

Lemma find_pem_loop_spec n l t :
  find_pem_loop (S n) l t = match head l with
                            | Some o => if bool_decide (type o = t) then Some o else None
                            | None => None
                            end.
Proof.
  destruct l as [|o l]; [done|]. induction n as [|n IH]; simpl; [by case_bool_decide|].
  case_bool_decide; [done|]. simpl in IH. rewrite bool_decide_false in IH by done. exact IH.
Qed.

Lemma s_find_pem_object_spec l t :
  s_find_pem_object l t = match head l with
                          | Some o => if bool_decide (type o = t) then Some o else None
                          | None => None
                          end.
Proof. unfold s_find_pem_object. destruct l as [|o l]; [done|]. apply find_pem_loop_spec. Qed.

(** Only the first object of a PEM file counts. A key is made from the first
    object, by its type, when this is a key of the kind asked for; otherwise
    ValueError says that the file holds none, even if a later object is one
    (a certificate before its key, or a key with its parameters first). With a
    single object, or the key first, this is the documented behaviour. *)
Lemma pem_first_object_only (pem_data : buffer_arg) (d : bytes) (l : list pem_object)
    (Hd : parse_s_hash pem_data = Ok d) (Hl : pem_objects d = Done l) :
  rsa_private_key_from_pem_data pem_data =
    match l with
    | mkPem PRIVATE_RSA_PKCS1 k :: _ => aws_result (key_from_private_pkcs1 k)
    | mkPem PRIVATE_PKCS8 k :: _ => aws_result (key_from_private_pkcs8 k)
    | _ => Raise (ValueError "RSA private key not found in PEM.")
    end /\
  rsa_public_key_from_pem_data pem_data =
    match l with
    | mkPem PUBLIC_RSA_PKCS1 k :: _ => aws_result (key_from_public_pkcs1 k)
    | _ => Raise (ValueError "RSA public key not found in PEM.")
    end.
Proof.
  unfold rsa_private_key_from_pem_data, rsa_public_key_from_pem_data. rewrite Hd. simpl. rewrite Hl. simpl.
  rewrite !s_find_pem_object_spec. by destruct l as [|[[] k] l].
Qed.
End Keys.

(** An instance to evaluate with: a PEM file is a sequence of type and content
    bytes, a key its content. *)
Definition demo_rsa : NativeRsa.
Proof.
  refine {| key_pair := bytes; signature_failed := 7169;
    pem_objects := fun d => Done (map (fun b => mkPem (match b with
      | Byte.x01 => PRIVATE_RSA_PKCS1 | Byte.x02 => PRIVATE_PKCS8 | Byte.x03 => PUBLIC_RSA_PKCS1
      | _ => OTHER_PEM 0 end) [b]) d);
    key_from_private_pkcs1 := Done; key_from_private_pkcs8 := Done; key_from_public_pkcs1 := Done;
    rsa_encrypt_native := fun _ _ d => Done d; rsa_decrypt_native := fun _ _ d => Done d;
    rsa_sign_native := fun _ _ d => Done d;
    rsa_verify_native := fun _ _ d s => if bool_decide (d = s) then Done tt else Failed 7169 |}.
Defined.

Lemma pem_first_object_only_witness :
  rsa_private_key_from_pem_data (H:=demo_errors) (H0:=demo_rsa) (ABytes [Byte.x00; Byte.x01]) =
    Raise (ValueError "RSA private key not found in PEM.") /\
  rsa_private_key_from_pem_data (H:=demo_errors) (H0:=demo_rsa) (ABytes [Byte.x01; Byte.x00]) = Ok [Byte.x01].
Proof.
  split.
  - exact (proj1 (pem_first_object_only (H:=demo_errors) (H0:=demo_rsa) (ABytes [Byte.x00; Byte.x01])
      [Byte.x00; Byte.x01] [mkPem (OTHER_PEM 0) [Byte.x00]; mkPem PRIVATE_RSA_PKCS1 [Byte.x01]] eq_refl eq_refl)).
  - reflexivity.
Defined.
End Keys.

(** ** Elliptic curves *)
Module Signatures.

(** A big-endian integer without leading zeros, and padded to a size. *)
Fixpoint strip (b : bytes) : bytes :=
  match b with Byte.x00 :: b' => strip b' | _ => b end.
Definition pad_left (n : nat) (b : bytes) : bytes := repeat Byte.x00 (n - length b) ++ b.

Lemma strip_length b : (length (strip b) <= length b)%nat.
Proof. induction b as [|[] b IH]; simpl; lia. Qed.

Lemma strip_idem b : strip (strip b) = strip b.
Proof. induction b as [|[] b IH]; simpl; done. Qed.

Lemma pad_strip b : pad_left (length b) (strip b) = b.
Proof.
  unfold pad_left. induction b as [|c b IH]; simpl; [done|].
  pose proof (strip_length b). destruct c; simpl; rewrite ?Nat.sub_diag; try done.
  replace (S (length b) - length (strip b))%nat with (S (length b - length (strip b))) by lia.
  simpl. by rewrite IH.
Qed.

(** The DER form of a signature (RFC 3279): a SEQUENCE of two INTEGERs, each
    with the fewest bytes, a zero byte first when the high bit is set. Lengths
    below 128 take one byte, below 256 two. *)
Definition to_byte (n : nat) : Byte.byte := default Byte.x00 (Byte.of_N (N.of_nat n)).
Definition of_byte (c : Byte.byte) : nat := N.to_nat (Byte.to_N c).
Definition der_tlv (tag : Byte.byte) (body : bytes) : bytes :=
  let n := length body in
  tag :: (if (n <? 128)%nat then [to_byte n] else [Byte.x81; to_byte n]) ++ body.
Definition der_unsigned (b : bytes) : bytes :=
  match strip b with
  | c :: b' => if (of_byte c <? 128)%nat then c :: b' else Byte.x00 :: c :: b'
  | [] => [Byte.x00]
  end.
Definition der_signature (r s : bytes) : bytes :=
  der_tlv Byte.x30 (der_tlv Byte.x02 (der_unsigned r) ++ der_tlv Byte.x02 (der_unsigned s)).

(** Reading it: a tag, a length, that many bytes, and the rest. *)
Definition read_tlv (tag : Byte.byte) (d : bytes) : option (bytes * bytes) :=
  match d with
  | t :: c :: d' =>
      if negb (Byte.eqb t tag) then None
      else if (of_byte c <? 128)%nat
           then if (of_byte c <=? length d')%nat then Some (take (of_byte c) d', drop (of_byte c) d') else None
           else match d' with
                | c' :: d'' =>
                    if Byte.eqb c Byte.x81 && (of_byte c' <=? length d'')%nat
                    then Some (take (of_byte c') d'', drop (of_byte c') d'') else None
                | [] => None
                end
  | _ => None
  end.
Definition read_signature (d : bytes) : option (bytes * bytes) :=
  '(body, rest) ← read_tlv Byte.x30 d;
  '(r, body') ← read_tlv Byte.x02 body;
  '(s, rest') ← read_tlv Byte.x02 body';
  match rest, rest' with [], [] => Some (strip r, strip s) | _, _ => None end.

Lemma of_to_byte n : (n < 256)%nat -> of_byte (to_byte n) = n.
Proof.
  intros Hn. unfold of_byte, to_byte. destruct (Byte.of_N (N.of_nat n)) as [c|] eqn:E; simpl.
  - apply Byte.to_of_N in E. rewrite E. lia.
  - apply Byte.of_N_None_iff in E. lia.
Qed.

Lemma read_tlv_app tag body rest : (length body < 256)%nat ->
  read_tlv tag (der_tlv tag body ++ rest) = Some (body, rest).
Proof.
  intros Hb. unfold der_tlv, read_tlv.
  destruct (Nat.ltb_spec (length body) 128); simpl; rewrite (Byte.byte_dec_lb eq_refl); simpl;
    rewrite ?of_to_byte by lia.
  - rewrite (proj2 (Nat.ltb_lt _ _)) by lia. rewrite (proj2 (Nat.leb_le _ _)) by (rewrite length_app; lia).
    by rewrite take_app_length, drop_app_length.
  - rewrite (proj2 (Nat.leb_le _ _)) by (rewrite length_app; lia).
    by rewrite take_app_length, drop_app_length.
Qed.

Lemma der_tlv_length tag body : (length (der_tlv tag body) <= length body + 3)%nat.
Proof. unfold der_tlv. destruct (_ <? _)%nat; simpl; lia. Qed.

Lemma der_unsigned_spec b :
  strip (der_unsigned b) = strip b /\ (length (der_unsigned b) <= S (length b))%nat /\
  der_unsigned (strip b) = der_unsigned b.
Proof.
  unfold der_unsigned. rewrite strip_idem. pose proof (strip_length b). pose proof (strip_idem b) as Hi.
  destruct (strip b) as [|c b'] eqn:E; [simpl; split_and!; [done|lia|done]|].
  destruct (_ <? _)%nat; simpl in *; split_and!; done || lia.
Qed.

Lemma der_signature_length r s : (length r + length s <= 224)%nat ->
  (length (der_signature r s) <= length r + length s + 11)%nat.
Proof.
  intros Hl. unfold der_signature.
  pose proof (der_unsigned_spec r) as (_ & ? & _). pose proof (der_unsigned_spec s) as (_ & ? & _).
  pose proof (der_tlv_length Byte.x02 (der_unsigned r)). pose proof (der_tlv_length Byte.x02 (der_unsigned s)).
  etrans; [apply der_tlv_length|]. rewrite length_app. lia.
Qed.

Lemma read_der_signature r s : (length r + length s <= 224)%nat ->
  read_signature (der_signature r s) = Some (strip r, strip s).
Proof.
  intros Hl. pose proof (der_unsigned_spec r) as (Er & ? & _). pose proof (der_unsigned_spec s) as (Es & ? & _).
  pose proof (der_tlv_length Byte.x02 (der_unsigned r)). pose proof (der_tlv_length Byte.x02 (der_unsigned s)).
  unfold read_signature, der_signature.
  rewrite <- (app_nil_r (der_tlv Byte.x30 _)), read_tlv_app by (rewrite length_app; lia).
  cbn [mbind option_bind]. rewrite read_tlv_app by lia. cbn [mbind option_bind].
  rewrite <- (app_nil_r (der_tlv Byte.x02 (der_unsigned s))), read_tlv_app by lia.
  cbn [mbind option_bind]. by rewrite Er, Es.
Qed.

(** The native curve functions. The encoder writes the DER form of two nonzero
    numbers, the decoder reads it; both raise when a result does not fit where
    it should go. [alloc_limit] bounds what can be allocated: beyond it the
    native allocator ends the process. *)
Class NativeEc := {
  ec_pair : Type;
  ecc_generate : Z -> native ec_pair;
  ecc_from_asn1 : bytes -> native ec_pair;
  ecc_export : ec_pair -> Z -> native bytes;
  ecc_sign : ec_pair -> bytes -> native bytes;
  ecc_verify : ec_pair -> bytes -> bytes -> native unit;
  ecc_coords : ec_pair -> bytes * bytes;
  ecc_encode : bytes -> bytes -> Z -> native bytes;                (** r, s, capacity *)
  ecc_decode : bytes -> native (bytes * bytes);
  ecc_decode_padded : bytes -> Z -> Z -> native bytes;             (** DER, pad_to, capacity *)
  AWS_ERROR_INVALID_ARGUMENT : Z;
  AWS_ERROR_SHORT_BUFFER : Z;
  alloc_limit : Z;
  ecc_encode_law : forall r s cap, strip r <> [] -> strip s <> [] -> (length r + length s <= 224)%nat ->
    ecc_encode r s cap = if Z.of_nat (length (der_signature r s)) <=? cap
                         then Done (der_signature r s) else Failed AWS_ERROR_SHORT_BUFFER;
  ecc_decode_law : forall d r s, read_signature d = Some (r, s) -> ecc_decode d = Done (r, s);
  ecc_padded_law : forall d pad cap,
    match ecc_decode d with
    | Failed c => ecc_decode_padded d pad cap = Failed c
    | Done (r, s) =>
        if (Z.of_nat (length r) <=? pad) && (Z.of_nat (length s) <=? pad) && (2 * pad <=? cap)
        then ecc_decode_padded d pad cap = Done (pad_left (Z.to_nat pad) r ++ pad_left (Z.to_nat pad) s)
        else exists c, ecc_decode_padded d pad cap = Failed c
    end;
  alloc_limit_small : 512 <= alloc_limit < 2 ^ 62;
}.

Inductive outcome (A : Type) := Returns (r : result A) | ProcessAborts.
Arguments Returns {A} r.
Arguments ProcessAborts {A}.

(** [ECRawSignature], [ECPublicCoords]; the caller may put any object in them. *)
Record ECRawSignature := mkRaw { r : buffer_arg; s : buffer_arg }.
Record ECPublicCoords := mkCoords { x : bytes; y : bytes }.

Section Ec.
Context `{NativeErrors} `{NativeEc} `{Keys.NativeRsa}.

(** [EC.new_generate], [new_key_from_der_data], [export_key] *)
Definition ec_new_generate (t : ECType) : result ec_pair := aws_result (ecc_generate (enum_value t)).
Definition ec_key_from_der_data (der_data : buffer_arg) : result ec_pair :=
  let? d := parse_y_hash der_data in aws_result (ecc_from_asn1 d).
Definition ec_export_key (k : ec_pair) (f : ECExportFormat) : result bytes :=
  aws_result (ecc_export k (enum_value f)).
Definition ec_get_public_coords (k : ec_pair) : ECPublicCoords :=
  let (x, y) := ecc_coords k in mkCoords x y.

(** [EC.sign], [EC.verify] *)
Definition ec_sign (k : ec_pair) (digest : buffer_arg) : result bytes :=
  let? d := parse_y_hash digest in aws_result (ecc_sign k d).
Definition ec_verify (k : ec_pair) (digest signature : buffer_arg) : result bool :=
  let? d := parse_y_hash digest in
  let? s := parse_y_hash signature in
  Keys.verify_result (ecc_verify k d s).

(** [PyBytes_Check] *)
Definition as_bytes (b : buffer_arg) : option bytes :=
  match b with ABytes d => Some d | _ => None end.

(** [EC.encode_raw_signature] *)
Definition ec_encode_signature (signature : ECRawSignature) : result bytes :=
  match as_bytes (r signature), as_bytes (s signature) with
  | Some r, Some s =>
      let buf_size := Z.of_nat (length r) + Z.of_nat (length s) + 32 in
      if buf_size >? 256 then Raise (PyErr_AwsLastError AWS_ERROR_INVALID_ARGUMENT)
      else aws_result (ecc_encode r s buf_size)
  | _, _ => Raise (TypeError "r and s must be bytes")
  end.

(** [EC.decode_der_signature] *)
Definition ec_decode_signature (signature : buffer_arg) : result ECRawSignature :=
  let? d := parse_y_hash signature in
  let? (r, s) := aws_result (ecc_decode d) in
  Ok (mkRaw (ABytes r) (ABytes s)).

(** [EC.decode_der_signature_to_padded_pair]: only the upper bound of [pad_to]
    is checked before the buffer is allocated. *)
Definition ec_decode_signature_to_padded_pair (signature : buffer_arg) (pad_to : Z) : outcome bytes :=
  match parse_y_hash signature with
  | Raise e => Returns (Raise e)
  | Ok d =>
      if pad_to >? 256 then Returns (Raise (PyErr_AwsLastError AWS_ERROR_INVALID_ARGUMENT))
      else
        let buf_size := size_t (pad_to * 2) in
        if buf_size >? alloc_limit then ProcessAborts
        else Returns (aws_result (ecc_decode_padded d (size_t pad_to) buf_size))
  end.

Lemma size_t_small z : 0 <= z < 2 ^ 64 -> size_t z = z.
Proof. apply Z.mod_small. Qed.

Lemma padded_pair_checked der pad_to : 0 <= pad_to <= 256 ->
  ec_decode_signature_to_padded_pair (ABytes der) pad_to =
  Returns (aws_result (ecc_decode_padded der pad_to (pad_to * 2))).
Proof.
  intros Hp. unfold ec_decode_signature_to_padded_pair. simpl. pose proof alloc_limit_small.
  rewrite !size_t_small by lia.
  destruct (Z.gtb_spec pad_to 256), (Z.gtb_spec (pad_to * 2) alloc_limit); try lia. done.
Qed.

Lemma ec_encode_der rb sb : strip rb <> [] -> strip sb <> [] -> (length rb + length sb <= 224)%nat ->
  ec_encode_signature (mkRaw (ABytes rb) (ABytes sb)) = Ok (der_signature rb sb).
Proof.
  intros Hr Hs Hl. unfold ec_encode_signature. simpl.
  destruct (Z.gtb_spec (Z.of_nat (length rb) + Z.of_nat (length sb) + 32) 256); [lia|].
  pose proof (der_signature_length rb sb Hl).
  rewrite ecc_encode_law by done. by rewrite (proj2 (Z.leb_le _ _)) by lia.
Qed.

(** C23: Raw signatures survive DER. Two nonzero halves of at most 224 bytes
    together (two coordinates are 64 or 96) are encoded: the buffer allocated is
    large enough for their DER form, which is what comes back. It decodes to the
    halves without leading zeros, which have the same encoding, and to the
    padded pair of any size up to 256 that both halves have room in, so that
    halves of [n] bytes come back byte for byte with a padding of [n]; the
    buffer allocated is large enough here too. Longer halves, a smaller padding,
    one above 256 and what does not decode are errors. A negative padding passes
    the check, and asks for more memory than there can be. *)
Theorem ec_signature_roundtrip (rb sb : bytes) (Hr0 : strip rb <> []) (Hs0 : strip sb <> []) :
  let der := der_signature rb sb in
  let need := Z.of_nat (Nat.max (length (strip rb)) (length (strip sb))) in
  ((length rb + length sb <= 224)%nat ->
    ec_encode_signature (mkRaw (ABytes rb) (ABytes sb)) = Ok der /\
    ec_encode_signature (mkRaw (ABytes (strip rb)) (ABytes (strip sb))) = Ok der /\
    ec_decode_signature (ABytes der) = Ok (mkRaw (ABytes (strip rb)) (ABytes (strip sb))) /\
    (forall pad, need <= pad <= 256 -> ec_decode_signature_to_padded_pair (ABytes der) pad =
       Returns (Ok (pad_left (Z.to_nat pad) (strip rb) ++ pad_left (Z.to_nat pad) (strip sb)))) /\
    (length rb = length sb ->
       ec_decode_signature_to_padded_pair (ABytes der) (Z.of_nat (length rb)) = Returns (Ok (rb ++ sb))) /\
    (forall pad, 0 <= pad < need ->
       exists e, ec_decode_signature_to_padded_pair (ABytes der) pad = Returns (Raise e))) /\
  ((length rb + length sb > 224)%nat ->
    ec_encode_signature (mkRaw (ABytes rb) (ABytes sb)) = Raise (PyErr_AwsLastError AWS_ERROR_INVALID_ARGUMENT)) /\
  (forall d c pad, ecc_decode d = Failed c -> 0 <= pad <= 256 ->
    ec_decode_signature (ABytes d) = Raise (PyErr_AwsLastError c) /\
    ec_decode_signature_to_padded_pair (ABytes d) pad = Returns (Raise (PyErr_AwsLastError c))) /\
  (forall d pad, pad > 256 -> ec_decode_signature_to_padded_pair (ABytes d) pad =
    Returns (Raise (PyErr_AwsLastError AWS_ERROR_INVALID_ARGUMENT))) /\
  (forall d pad, - 2 ^ 62 < pad < 0 -> ec_decode_signature_to_padded_pair (ABytes d) pad = ProcessAborts).
Proof.
  cbv zeta. pose proof (strip_length rb). pose proof (strip_length sb). split_and!.
  - intros Hl. pose proof (ecc_decode_law _ _ _ (read_der_signature rb sb Hl)) as Ed.
    assert (forall pad, Z.of_nat (Nat.max (length (strip rb)) (length (strip sb))) <= pad <= 256 ->
      ec_decode_signature_to_padded_pair (ABytes (der_signature rb sb)) pad =
      Returns (Ok (pad_left (Z.to_nat pad) (strip rb) ++ pad_left (Z.to_nat pad) (strip sb)))) as Hp.
    { intros pad Hpad. rewrite padded_pair_checked by lia.
      pose proof (ecc_padded_law (der_signature rb sb) pad (pad * 2)) as Hlaw. rewrite Ed in Hlaw.
      replace (_ && _ && _) with true in Hlaw by lia. by rewrite Hlaw. }
    split_and!; [by apply ec_encode_der| | |exact Hp| |].
    + rewrite ec_encode_der by (rewrite ?strip_idem; done || lia). f_equal. unfold der_signature.
      by rewrite (proj2 (proj2 (der_unsigned_spec rb))), (proj2 (proj2 (der_unsigned_spec sb))).
    + unfold ec_decode_signature. simpl. by rewrite Ed.
    + intros He. rewrite Hp by lia. rewrite Nat2Z.id. rewrite pad_strip, He, pad_strip. done.
    + intros pad Hpad. rewrite padded_pair_checked by lia.
      pose proof (ecc_padded_law (der_signature rb sb) pad (pad * 2)) as Hlaw. rewrite Ed in Hlaw.
      replace (_ && _ && _) with false in Hlaw by lia. destruct Hlaw as [c ->]. by eexists.
  - intros Hn. unfold ec_encode_signature. simpl.
    by destruct (Z.gtb_spec (Z.of_nat (length rb) + Z.of_nat (length sb) + 32) 256); [|lia].
  - intros d c pad Ed Hpad. split; [unfold ec_decode_signature; simpl; by rewrite Ed|].
    rewrite padded_pair_checked by lia. pose proof (ecc_padded_law d pad (pad * 2)) as Hlaw.
    rewrite Ed in Hlaw. by rewrite Hlaw.
  - intros d pad Hpad. unfold ec_decode_signature_to_padded_pair. simpl.
    by destruct (Z.gtb_spec pad 256); [|lia].
  - intros d pad Hpad. unfold ec_decode_signature_to_padded_pair. simpl. pose proof alloc_limit_small.
    destruct (Z.gtb_spec pad 256); [lia|]. unfold size_t.
    rewrite <- (Z.mod_unique_pos (pad * 2) (2 ^ 64) (-1) (pad * 2 + 2 ^ 64)) by lia.
    by destruct (Z.gtb_spec (pad * 2 + 2 ^ 64) alloc_limit); [|lia].
Qed.
End Ec.

(** An instance to evaluate with: strict DER, and no keys. *)
Definition demo_decode (d : bytes) : native (bytes * bytes) :=
  match read_signature d with Some rs => Done rs | None => Failed 1 end.

Definition demo_ec : NativeEc.
Proof.
  refine {| ec_pair := unit; ecc_generate := fun _ => Done tt; ecc_from_asn1 := fun _ => Done tt;
    ecc_export := fun _ _ => Done []; ecc_sign := fun _ d => Done d;
    ecc_verify := fun _ d s => if bool_decide (d = s) then Done tt else Failed 7169;
    ecc_coords := fun _ => ([], []);
    ecc_encode := fun r s cap =>
      if Z.of_nat (length (der_signature r s)) <=? cap then Done (der_signature r s) else Failed 2;
    ecc_decode := demo_decode;
    ecc_decode_padded := fun d pad cap =>
      match demo_decode d with
      | Done (r, s) =>
          if (Z.of_nat (length r) <=? pad) && (Z.of_nat (length s) <=? pad) && (2 * pad <=? cap)
          then Done (pad_left (Z.to_nat pad) r ++ pad_left (Z.to_nat pad) s) else Failed 3
      | Failed c => Failed c
      end;
    AWS_ERROR_INVALID_ARGUMENT := 34; AWS_ERROR_SHORT_BUFFER := 2; alloc_limit := 2 ^ 48 |}.
  - done.
  - intros d r s E. unfold demo_decode. by rewrite E.
  - intros d pad cap. destruct (demo_decode d) as [[r s]|c]; [|done]. destruct (_ && _ && _); eauto.
  - lia.
Defined.

Lemma ec_signature_roundtrip_witness :
  let der := [Byte.x30; Byte.x08; Byte.x02; Byte.x01; Byte.x07; Byte.x02; Byte.x03; Byte.x00; Byte.x80; Byte.x01] in
  ec_encode_signature (H:=demo_errors) (H0:=demo_ec)
    (mkRaw (ABytes [Byte.x00; Byte.x07]) (ABytes [Byte.x80; Byte.x01])) = Ok der /\
  ec_decode_signature_to_padded_pair (H:=demo_errors) (H0:=demo_ec) (ABytes der) 2 =
    Returns (Ok [Byte.x00; Byte.x07; Byte.x80; Byte.x01]).
Proof.
  destruct (ec_signature_roundtrip (H:=demo_errors) (H0:=demo_ec) [Byte.x00; Byte.x07] [Byte.x80; Byte.x01]
    ltac:(discriminate) ltac:(discriminate)) as [Hrt _].
  destruct (Hrt ltac:(simpl; lia)) as (H1 & _ & _ & _ & H2 & _). split; [exact H1 | exact (H2 eq_refl)].
Defined.
End Signatures.

(** ** Ed25519 *)
Module Ed25519.
Class NativeEd25519 := {
  ed_pair : Type;
  ed_generate : native ed_pair;
  ed_public : ed_pair -> Z -> native bytes;
  ed_private : ed_pair -> Z -> native bytes;
}.
Section Ed.
Context `{NativeErrors} `{NativeEd25519}.
(** [ED25519.new_generate], [export_public_key], [export_private_key] *)
Definition new_generate : result ed_pair := aws_result ed_generate.
Definition export_public_key (k : ed_pair) (f : ED25519ExportFormat) : result bytes :=
  aws_result (ed_public k (enum_value f)).
Definition export_private_key (k : ed_pair) (f : ED25519ExportFormat) : result bytes :=
  aws_result (ed_private k (enum_value f)).
End Ed.
End Ed25519.
