(* ===== verification/Mqtt5Types.v ===== *)
(** * MQTT5 data: the enumerations and packet dataclasses of awscrt/mqtt5.py

    Each Python class is a Module of the same name holding the type of the
    same name. A field whose default is None is an option; bytes are strings of
    byte values. The reason-code enumerations are [IntEnum] instances, so that
    the [_try_*] helpers below are the Python calls [E(value)] inside
    [try/except Exception]. *)
From S2P Require Import Prelude.

Module QoS.
Inductive QoS :=
  | AT_MOST_ONCE
  | AT_LEAST_ONCE
  | EXACTLY_ONCE.
Definition QoS_value (e : QoS) : Z :=
  match e with
  | AT_MOST_ONCE => 0
  | AT_LEAST_ONCE => 1
  | EXACTLY_ONCE => 2
  end.
#[global] Instance QoS_eq_dec : EqDecision QoS.
Proof. solve_decision. Defined.
#[global] Instance QoS_IntEnum : IntEnum QoS.
Proof.
  refine {| enum_value := QoS_value; enum_members := [AT_MOST_ONCE; AT_LEAST_ONCE; EXACTLY_ONCE] |}.
  - solve_enum_complete.
  - solve_enum_nodup.
Defined.
End QoS.
Abbreviation QoS := QoS.QoS.

Module ConnectReasonCode.
Inductive ConnectReasonCode :=
  | SUCCESS
  | UNSPECIFIED_ERROR
  | MALFORMED_PACKET
  | PROTOCOL_ERROR
  | IMPLEMENTATION_SPECIFIC_ERROR
  | UNSUPPORTED_PROTOCOL_VERSION
  | CLIENT_IDENTIFIER_NOT_VALID
  | BAD_USERNAME_OR_PASSWORD
  | NOT_AUTHORIZED
  | SERVER_UNAVAILABLE
  | SERVER_BUSY
  | BANNED
  | BAD_AUTHENTICATION_METHOD
  | TOPIC_NAME_INVALID
  | PACKET_TOO_LARGE
  | QUOTA_EXCEEDED
  | PAYLOAD_FORMAT_INVALID
  | RETAIN_NOT_SUPPORTED
  | QOS_NOT_SUPPORTED
  | USE_ANOTHER_SERVER
  | SERVER_MOVED
  | CONNECTION_RATE_EXCEEDED.
Definition ConnectReasonCode_value (e : ConnectReasonCode) : Z :=
  match e with
  | SUCCESS => 0
  | UNSPECIFIED_ERROR => 128
  | MALFORMED_PACKET => 129
  | PROTOCOL_ERROR => 130
  | IMPLEMENTATION_SPECIFIC_ERROR => 131
  | UNSUPPORTED_PROTOCOL_VERSION => 132
  | CLIENT_IDENTIFIER_NOT_VALID => 133
  | BAD_USERNAME_OR_PASSWORD => 134
  | NOT_AUTHORIZED => 135
  | SERVER_UNAVAILABLE => 136
  | SERVER_BUSY => 137
  | BANNED => 138
  | BAD_AUTHENTICATION_METHOD => 140
  | TOPIC_NAME_INVALID => 144
  | PACKET_TOO_LARGE => 149
  | QUOTA_EXCEEDED => 151
  | PAYLOAD_FORMAT_INVALID => 153
  | RETAIN_NOT_SUPPORTED => 154
  | QOS_NOT_SUPPORTED => 155
  | USE_ANOTHER_SERVER => 156
  | SERVER_MOVED => 157
  | CONNECTION_RATE_EXCEEDED => 159
  end.
#[global] Instance ConnectReasonCode_eq_dec : EqDecision ConnectReasonCode.
Proof. solve_decision. Defined.
#[global] Instance ConnectReasonCode_IntEnum : IntEnum ConnectReasonCode.
Proof.
  refine {| enum_value := ConnectReasonCode_value; enum_members := [SUCCESS; UNSPECIFIED_ERROR; MALFORMED_PACKET; PROTOCOL_ERROR; IMPLEMENTATION_SPECIFIC_ERROR; UNSUPPORTED_PROTOCOL_VERSION; CLIENT_IDENTIFIER_NOT_VALID; BAD_USERNAME_OR_PASSWORD; NOT_AUTHORIZED; SERVER_UNAVAILABLE; SERVER_BUSY; BANNED; BAD_AUTHENTICATION_METHOD; TOPIC_NAME_INVALID; PACKET_TOO_LARGE; QUOTA_EXCEEDED; PAYLOAD_FORMAT_INVALID; RETAIN_NOT_SUPPORTED; QOS_NOT_SUPPORTED; USE_ANOTHER_SERVER; SERVER_MOVED; CONNECTION_RATE_EXCEEDED] |}.
  - solve_enum_complete.
  - solve_enum_nodup.
Defined.
End ConnectReasonCode.
Abbreviation ConnectReasonCode := ConnectReasonCode.ConnectReasonCode.

Module DisconnectReasonCode.
Inductive DisconnectReasonCode :=
  | NORMAL_DISCONNECTION
  | DISCONNECT_WITH_WILL_MESSAGE
  | UNSPECIFIED_ERROR
  | MALFORMED_PACKET
  | PROTOCOL_ERROR
  | IMPLEMENTATION_SPECIFIC_ERROR
  | NOT_AUTHORIZED
  | SERVER_BUSY
  | SERVER_SHUTTING_DOWN
  | KEEP_ALIVE_TIMEOUT
  | SESSION_TAKEN_OVER
  | TOPIC_FILTER_INVALID
  | TOPIC_NAME_INVALID
  | RECEIVE_MAXIMUM_EXCEEDED
  | TOPIC_ALIAS_INVALID
  | PACKET_TOO_LARGE
  | MESSAGE_RATE_TOO_HIGH
  | QUOTA_EXCEEDED
  | ADMINISTRATIVE_ACTION
  | PAYLOAD_FORMAT_INVALID
  | RETAIN_NOT_SUPPORTED
  | QOS_NOT_SUPPORTED
  | USE_ANOTHER_SERVER
  | SERVER_MOVED
  | SHARED_SUBSCRIPTIONS_NOT_SUPPORTED
  | CONNECTION_RATE_EXCEEDED
  | MAXIMUM_CONNECT_TIME
  | SUBSCRIPTION_IDENTIFIERS_NOT_SUPPORTED
  | WILDCARD_SUBSCRIPTIONS_NOT_SUPPORTED.
Definition DisconnectReasonCode_value (e : DisconnectReasonCode) : Z :=
  match e with
  | NORMAL_DISCONNECTION => 0
  | DISCONNECT_WITH_WILL_MESSAGE => 4
  | UNSPECIFIED_ERROR => 128
  | MALFORMED_PACKET => 129
  | PROTOCOL_ERROR => 130
  | IMPLEMENTATION_SPECIFIC_ERROR => 131
  | NOT_AUTHORIZED => 135
  | SERVER_BUSY => 137
  | SERVER_SHUTTING_DOWN => 139
  | KEEP_ALIVE_TIMEOUT => 141
  | SESSION_TAKEN_OVER => 142
  | TOPIC_FILTER_INVALID => 143
  | TOPIC_NAME_INVALID => 144
  | RECEIVE_MAXIMUM_EXCEEDED => 147
  | TOPIC_ALIAS_INVALID => 148
  | PACKET_TOO_LARGE => 149
  | MESSAGE_RATE_TOO_HIGH => 150
  | QUOTA_EXCEEDED => 151
  | ADMINISTRATIVE_ACTION => 152
  | PAYLOAD_FORMAT_INVALID => 153
  | RETAIN_NOT_SUPPORTED => 154
  | QOS_NOT_SUPPORTED => 155
  | USE_ANOTHER_SERVER => 156
  | SERVER_MOVED => 157
  | SHARED_SUBSCRIPTIONS_NOT_SUPPORTED => 158
  | CONNECTION_RATE_EXCEEDED => 159
  | MAXIMUM_CONNECT_TIME => 160
  | SUBSCRIPTION_IDENTIFIERS_NOT_SUPPORTED => 161
  | WILDCARD_SUBSCRIPTIONS_NOT_SUPPORTED => 162
  end.
#[global] Instance DisconnectReasonCode_eq_dec : EqDecision DisconnectReasonCode.
Proof. solve_decision. Defined.
#[global] Instance DisconnectReasonCode_IntEnum : IntEnum DisconnectReasonCode.
Proof.
  refine {| enum_value := DisconnectReasonCode_value; enum_members := [NORMAL_DISCONNECTION; DISCONNECT_WITH_WILL_MESSAGE; UNSPECIFIED_ERROR; MALFORMED_PACKET; PROTOCOL_ERROR; IMPLEMENTATION_SPECIFIC_ERROR; NOT_AUTHORIZED; SERVER_BUSY; SERVER_SHUTTING_DOWN; KEEP_ALIVE_TIMEOUT; SESSION_TAKEN_OVER; TOPIC_FILTER_INVALID; TOPIC_NAME_INVALID; RECEIVE_MAXIMUM_EXCEEDED; TOPIC_ALIAS_INVALID; PACKET_TOO_LARGE; MESSAGE_RATE_TOO_HIGH; QUOTA_EXCEEDED; ADMINISTRATIVE_ACTION; PAYLOAD_FORMAT_INVALID; RETAIN_NOT_SUPPORTED; QOS_NOT_SUPPORTED; USE_ANOTHER_SERVER; SERVER_MOVED; SHARED_SUBSCRIPTIONS_NOT_SUPPORTED; CONNECTION_RATE_EXCEEDED; MAXIMUM_CONNECT_TIME; SUBSCRIPTION_IDENTIFIERS_NOT_SUPPORTED; WILDCARD_SUBSCRIPTIONS_NOT_SUPPORTED] |}.
  - solve_enum_complete.
  - solve_enum_nodup.
Defined.
End DisconnectReasonCode.
Abbreviation DisconnectReasonCode := DisconnectReasonCode.DisconnectReasonCode.

Module PubackReasonCode.
Inductive PubackReasonCode :=
  | SUCCESS
  | NO_MATCHING_SUBSCRIBERS
  | UNSPECIFIED_ERROR
  | IMPLEMENTATION_SPECIFIC_ERROR
  | NOT_AUTHORIZED
  | TOPIC_NAME_INVALID
  | PACKET_IDENTIFIER_IN_USE
  | QUOTA_EXCEEDED
  | PAYLOAD_FORMAT_INVALID.
Definition PubackReasonCode_value (e : PubackReasonCode) : Z :=
  match e with
  | SUCCESS => 0
  | NO_MATCHING_SUBSCRIBERS => 16
  | UNSPECIFIED_ERROR => 128
  | IMPLEMENTATION_SPECIFIC_ERROR => 131
  | NOT_AUTHORIZED => 135
  | TOPIC_NAME_INVALID => 144
  | PACKET_IDENTIFIER_IN_USE => 145
  | QUOTA_EXCEEDED => 151
  | PAYLOAD_FORMAT_INVALID => 153
  end.
#[global] Instance PubackReasonCode_eq_dec : EqDecision PubackReasonCode.
Proof. solve_decision. Defined.
#[global] Instance PubackReasonCode_IntEnum : IntEnum PubackReasonCode.
Proof.
  refine {| enum_value := PubackReasonCode_value; enum_members := [SUCCESS; NO_MATCHING_SUBSCRIBERS; UNSPECIFIED_ERROR; IMPLEMENTATION_SPECIFIC_ERROR; NOT_AUTHORIZED; TOPIC_NAME_INVALID; PACKET_IDENTIFIER_IN_USE; QUOTA_EXCEEDED; PAYLOAD_FORMAT_INVALID] |}.
  - solve_enum_complete.
  - solve_enum_nodup.
Defined.
End PubackReasonCode.
Abbreviation PubackReasonCode := PubackReasonCode.PubackReasonCode.

Module SubackReasonCode.
Inductive SubackReasonCode :=
  | GRANTED_QOS_0
  | GRANTED_QOS_1
  | GRANTED_QOS_2
  | UNSPECIFIED_ERROR
  | IMPLEMENTATION_SPECIFIC_ERROR
  | NOT_AUTHORIZED
  | TOPIC_FILTER_INVALID
  | PACKET_IDENTIFIER_IN_USE
  | QUOTA_EXCEEDED
  | SHARED_SUBSCRIPTIONS_NOT_SUPPORTED
  | SUBSCRIPTION_IDENTIFIERS_NOT_SUPPORTED
  | WILDCARD_SUBSCRIPTIONS_NOT_SUPPORTED.
Definition SubackReasonCode_value (e : SubackReasonCode) : Z :=
  match e with
  | GRANTED_QOS_0 => 0
  | GRANTED_QOS_1 => 1
  | GRANTED_QOS_2 => 2
  | UNSPECIFIED_ERROR => 128
  | IMPLEMENTATION_SPECIFIC_ERROR => 131
  | NOT_AUTHORIZED => 135
  | TOPIC_FILTER_INVALID => 143
  | PACKET_IDENTIFIER_IN_USE => 145
  | QUOTA_EXCEEDED => 151
  | SHARED_SUBSCRIPTIONS_NOT_SUPPORTED => 158
  | SUBSCRIPTION_IDENTIFIERS_NOT_SUPPORTED => 161
  | WILDCARD_SUBSCRIPTIONS_NOT_SUPPORTED => 162
  end.
#[global] Instance SubackReasonCode_eq_dec : EqDecision SubackReasonCode.
Proof. solve_decision. Defined.
#[global] Instance SubackReasonCode_IntEnum : IntEnum SubackReasonCode.
Proof.
  refine {| enum_value := SubackReasonCode_value; enum_members := [GRANTED_QOS_0; GRANTED_QOS_1; GRANTED_QOS_2; UNSPECIFIED_ERROR; IMPLEMENTATION_SPECIFIC_ERROR; NOT_AUTHORIZED; TOPIC_FILTER_INVALID; PACKET_IDENTIFIER_IN_USE; QUOTA_EXCEEDED; SHARED_SUBSCRIPTIONS_NOT_SUPPORTED; SUBSCRIPTION_IDENTIFIERS_NOT_SUPPORTED; WILDCARD_SUBSCRIPTIONS_NOT_SUPPORTED] |}.
  - solve_enum_complete.
  - solve_enum_nodup.
Defined.
End SubackReasonCode.
Abbreviation SubackReasonCode := SubackReasonCode.SubackReasonCode.

Module UnsubackReasonCode.
Inductive UnsubackReasonCode :=
  | SUCCESS
  | NO_SUBSCRIPTION_EXISTED
  | UNSPECIFIED_ERROR
  | IMPLEMENTATION_SPECIFIC_ERROR
  | NOT_AUTHORIZED
  | TOPIC_FILTER_INVALID
  | PACKET_IDENTIFIER_IN_USE.
Definition UnsubackReasonCode_value (e : UnsubackReasonCode) : Z :=
  match e with
  | SUCCESS => 0
  | NO_SUBSCRIPTION_EXISTED => 17
  | UNSPECIFIED_ERROR => 128
  | IMPLEMENTATION_SPECIFIC_ERROR => 131
  | NOT_AUTHORIZED => 135
  | TOPIC_FILTER_INVALID => 143
  | PACKET_IDENTIFIER_IN_USE => 145
  end.
#[global] Instance UnsubackReasonCode_eq_dec : EqDecision UnsubackReasonCode.
Proof. solve_decision. Defined.
#[global] Instance UnsubackReasonCode_IntEnum : IntEnum UnsubackReasonCode.
Proof.
  refine {| enum_value := UnsubackReasonCode_value; enum_members := [SUCCESS; NO_SUBSCRIPTION_EXISTED; UNSPECIFIED_ERROR; IMPLEMENTATION_SPECIFIC_ERROR; NOT_AUTHORIZED; TOPIC_FILTER_INVALID; PACKET_IDENTIFIER_IN_USE] |}.
  - solve_enum_complete.
  - solve_enum_nodup.
Defined.
End UnsubackReasonCode.
Abbreviation UnsubackReasonCode := UnsubackReasonCode.UnsubackReasonCode.

Module ClientSessionBehaviorType.
Inductive ClientSessionBehaviorType :=
  | DEFAULT
  | CLEAN
  | REJOIN_POST_SUCCESS
  | REJOIN_ALWAYS.
Definition ClientSessionBehaviorType_value (e : ClientSessionBehaviorType) : Z :=
  match e with
  | DEFAULT => 0
  | CLEAN => 1
  | REJOIN_POST_SUCCESS => 2
  | REJOIN_ALWAYS => 3
  end.
#[global] Instance ClientSessionBehaviorType_eq_dec : EqDecision ClientSessionBehaviorType.
Proof. solve_decision. Defined.
#[global] Instance ClientSessionBehaviorType_IntEnum : IntEnum ClientSessionBehaviorType.
Proof.
  refine {| enum_value := ClientSessionBehaviorType_value; enum_members := [DEFAULT; CLEAN; REJOIN_POST_SUCCESS; REJOIN_ALWAYS] |}.
  - solve_enum_complete.
  - solve_enum_nodup.
Defined.
End ClientSessionBehaviorType.
Abbreviation ClientSessionBehaviorType := ClientSessionBehaviorType.ClientSessionBehaviorType.

Module PayloadFormatIndicator.
Inductive PayloadFormatIndicator :=
  | AWS_MQTT5_PFI_BYTES
  | AWS_MQTT5_PFI_UTF8.
Definition PayloadFormatIndicator_value (e : PayloadFormatIndicator) : Z :=
  match e with
  | AWS_MQTT5_PFI_BYTES => 0
  | AWS_MQTT5_PFI_UTF8 => 1
  end.
#[global] Instance PayloadFormatIndicator_eq_dec : EqDecision PayloadFormatIndicator.
Proof. solve_decision. Defined.
#[global] Instance PayloadFormatIndicator_IntEnum : IntEnum PayloadFormatIndicator.
Proof.
  refine {| enum_value := PayloadFormatIndicator_value; enum_members := [AWS_MQTT5_PFI_BYTES; AWS_MQTT5_PFI_UTF8] |}.
  - solve_enum_complete.
  - solve_enum_nodup.
Defined.
End PayloadFormatIndicator.
Abbreviation PayloadFormatIndicator := PayloadFormatIndicator.PayloadFormatIndicator.

Module RetainHandlingType.
Inductive RetainHandlingType :=
  | SEND_ON_SUBSCRIBE
  | SEND_ON_SUBSCRIBE_IF_NEW
  | DONT_SEND.
Definition RetainHandlingType_value (e : RetainHandlingType) : Z :=
  match e with
  | SEND_ON_SUBSCRIBE => 0
  | SEND_ON_SUBSCRIBE_IF_NEW => 1
  | DONT_SEND => 2
  end.
#[global] Instance RetainHandlingType_eq_dec : EqDecision RetainHandlingType.
Proof. solve_decision. Defined.
#[global] Instance RetainHandlingType_IntEnum : IntEnum RetainHandlingType.
Proof.
  refine {| enum_value := RetainHandlingType_value; enum_members := [SEND_ON_SUBSCRIBE; SEND_ON_SUBSCRIBE_IF_NEW; DONT_SEND] |}.
  - solve_enum_complete.
  - solve_enum_nodup.
Defined.
End RetainHandlingType.
Abbreviation RetainHandlingType := RetainHandlingType.RetainHandlingType.

Module RetainAndHandlingType.
Inductive RetainAndHandlingType :=
  | SEND_ON_SUBSCRIBE
  | SEND_ON_SUBSCRIBE_IF_NEW
  | DONT_SEND.
Definition RetainAndHandlingType_value (e : RetainAndHandlingType) : Z :=
  match e with
  | SEND_ON_SUBSCRIBE => 0
  | SEND_ON_SUBSCRIBE_IF_NEW => 1
  | DONT_SEND => 2
  end.
#[global] Instance RetainAndHandlingType_eq_dec : EqDecision RetainAndHandlingType.
Proof. solve_decision. Defined.
#[global] Instance RetainAndHandlingType_IntEnum : IntEnum RetainAndHandlingType.
Proof.
  refine {| enum_value := RetainAndHandlingType_value; enum_members := [SEND_ON_SUBSCRIBE; SEND_ON_SUBSCRIBE_IF_NEW; DONT_SEND] |}.
  - solve_enum_complete.
  - solve_enum_nodup.
Defined.
End RetainAndHandlingType.
Abbreviation RetainAndHandlingType := RetainAndHandlingType.RetainAndHandlingType.

Module ExtendedValidationAndFlowControlOptions.
Inductive ExtendedValidationAndFlowControlOptions :=
  | NONE
  | AWS_IOT_CORE_DEFAULTS.
Definition ExtendedValidationAndFlowControlOptions_value (e : ExtendedValidationAndFlowControlOptions) : Z :=
  match e with
  | NONE => 0
  | AWS_IOT_CORE_DEFAULTS => 1
  end.
#[global] Instance ExtendedValidationAndFlowControlOptions_eq_dec : EqDecision ExtendedValidationAndFlowControlOptions.
Proof. solve_decision. Defined.
#[global] Instance ExtendedValidationAndFlowControlOptions_IntEnum : IntEnum ExtendedValidationAndFlowControlOptions.
Proof.
  refine {| enum_value := ExtendedValidationAndFlowControlOptions_value; enum_members := [NONE; AWS_IOT_CORE_DEFAULTS] |}.
  - solve_enum_complete.
  - solve_enum_nodup.
Defined.
End ExtendedValidationAndFlowControlOptions.
Abbreviation ExtendedValidationAndFlowControlOptions := ExtendedValidationAndFlowControlOptions.ExtendedValidationAndFlowControlOptions.

Module ClientOperationQueueBehaviorType.
Inductive ClientOperationQueueBehaviorType :=
  | DEFAULT
  | FAIL_NON_QOS1_PUBLISH_ON_DISCONNECT
  | FAIL_QOS0_PUBLISH_ON_DISCONNECT
  | FAIL_ALL_ON_DISCONNECT.
Definition ClientOperationQueueBehaviorType_value (e : ClientOperationQueueBehaviorType) : Z :=
  match e with
  | DEFAULT => 0
  | FAIL_NON_QOS1_PUBLISH_ON_DISCONNECT => 1
  | FAIL_QOS0_PUBLISH_ON_DISCONNECT => 2
  | FAIL_ALL_ON_DISCONNECT => 3
  end.
#[global] Instance ClientOperationQueueBehaviorType_eq_dec : EqDecision ClientOperationQueueBehaviorType.
Proof. solve_decision. Defined.
#[global] Instance ClientOperationQueueBehaviorType_IntEnum : IntEnum ClientOperationQueueBehaviorType.
Proof.
  refine {| enum_value := ClientOperationQueueBehaviorType_value; enum_members := [DEFAULT; FAIL_NON_QOS1_PUBLISH_ON_DISCONNECT; FAIL_QOS0_PUBLISH_ON_DISCONNECT; FAIL_ALL_ON_DISCONNECT] |}.
  - solve_enum_complete.
  - solve_enum_nodup.
Defined.
End ClientOperationQueueBehaviorType.
Abbreviation ClientOperationQueueBehaviorType := ClientOperationQueueBehaviorType.ClientOperationQueueBehaviorType.

Module ExponentialBackoffJitterMode.
Inductive ExponentialBackoffJitterMode :=
  | DEFAULT
  | NONE
  | FULL
  | DECORRELATED.
Definition ExponentialBackoffJitterMode_value (e : ExponentialBackoffJitterMode) : Z :=
  match e with
  | DEFAULT => 0
  | NONE => 1
  | FULL => 2
  | DECORRELATED => 3
  end.
#[global] Instance ExponentialBackoffJitterMode_eq_dec : EqDecision ExponentialBackoffJitterMode.
Proof. solve_decision. Defined.
#[global] Instance ExponentialBackoffJitterMode_IntEnum : IntEnum ExponentialBackoffJitterMode.
Proof.
  refine {| enum_value := ExponentialBackoffJitterMode_value; enum_members := [DEFAULT; NONE; FULL; DECORRELATED] |}.
  - solve_enum_complete.
  - solve_enum_nodup.
Defined.
End ExponentialBackoffJitterMode.
Abbreviation ExponentialBackoffJitterMode := ExponentialBackoffJitterMode.ExponentialBackoffJitterMode.

Module OutboundTopicAliasBehaviorType.
Inductive OutboundTopicAliasBehaviorType :=
  | DEFAULT
  | MANUAL
  | LRU
  | DISABLED.
Definition OutboundTopicAliasBehaviorType_value (e : OutboundTopicAliasBehaviorType) : Z :=
  match e with
  | DEFAULT => 0
  | MANUAL => 1
  | LRU => 2
  | DISABLED => 3
  end.
#[global] Instance OutboundTopicAliasBehaviorType_eq_dec : EqDecision OutboundTopicAliasBehaviorType.
Proof. solve_decision. Defined.
#[global] Instance OutboundTopicAliasBehaviorType_IntEnum : IntEnum OutboundTopicAliasBehaviorType.
Proof.
  refine {| enum_value := OutboundTopicAliasBehaviorType_value; enum_members := [DEFAULT; MANUAL; LRU; DISABLED] |}.
  - solve_enum_complete.
  - solve_enum_nodup.
Defined.
End OutboundTopicAliasBehaviorType.
Abbreviation OutboundTopicAliasBehaviorType := OutboundTopicAliasBehaviorType.OutboundTopicAliasBehaviorType.

Module InboundTopicAliasBehaviorType.
Inductive InboundTopicAliasBehaviorType :=
  | DEFAULT
  | ENABLED
  | DISABLED.
Definition InboundTopicAliasBehaviorType_value (e : InboundTopicAliasBehaviorType) : Z :=
  match e with
  | DEFAULT => 0
  | ENABLED => 1
  | DISABLED => 2
  end.
#[global] Instance InboundTopicAliasBehaviorType_eq_dec : EqDecision InboundTopicAliasBehaviorType.
Proof. solve_decision. Defined.
#[global] Instance InboundTopicAliasBehaviorType_IntEnum : IntEnum InboundTopicAliasBehaviorType.
Proof.
  refine {| enum_value := InboundTopicAliasBehaviorType_value; enum_members := [DEFAULT; ENABLED; DISABLED] |}.
  - solve_enum_complete.
  - solve_enum_nodup.
Defined.
End InboundTopicAliasBehaviorType.
Abbreviation InboundTopicAliasBehaviorType := InboundTopicAliasBehaviorType.InboundTopicAliasBehaviorType.

(** ** The [_try_*] helpers: [try: return E(value) except Exception: return None] *)

Definition try_enum {E} `{IntEnum E} (value : Z) : option E :=
  match enum_call value with
  | Ok e => Some e
  | Raise _ => None
  end.

Definition _try_qos (value : Z) : option QoS := try_enum value.
Definition _try_connect_reason_code (value : Z) : option ConnectReasonCode := try_enum value.
Definition _try_disconnect_reason_code (value : Z) : option DisconnectReasonCode := try_enum value.
Definition _try_puback_reason_code (value : Z) : option PubackReasonCode := try_enum value.
Definition _try_suback_reason_code (value : Z) : option SubackReasonCode := try_enum value.
Definition _try_unsuback_reason_code (value : Z) : option UnsubackReasonCode := try_enum value.
Definition _try_payload_format_indicator (value : Z) : option PayloadFormatIndicator := try_enum value.

Lemma try_enum_value {E} `{IntEnum E} (e : E) : try_enum (enum_value e) = Some e.
Proof. unfold try_enum. by rewrite enum_call_value. Qed.

Lemma try_enum_enum_of {E} `{IntEnum E} z : try_enum z = enum_of (E:=E) z.
Proof. unfold try_enum, enum_call. by destruct (enum_of z). Qed.

Lemma try_enum_spec {E} `{IntEnum E} z (e : E) : try_enum z = Some e <-> enum_value e = z.
Proof. rewrite try_enum_enum_of. apply enum_of_spec. Qed.

#[export] Hint Rewrite @try_enum_value : pyrw.

(** ** Payloads: Python [bytes] or [str] *)
Inductive blob := Bytes (b : string) | Str (s : string).
#[global] Instance blob_eq_dec : EqDecision blob.
Proof. solve_decision. Defined.

(** Truth value of a bytes or str object: false exactly when it is empty. *)
Definition blob_true (b : blob) : bool :=
  match b with Bytes s | Str s => bool_decide (s <> EmptyString) end.

(** [x or y] on optional payloads *)
Definition blob_or (x y : option blob) : option blob :=
  match x with Some b => if blob_true b then x else y | None => y end.

(** ** Dataclasses *)

Module UserProperty.
Record UserProperty := mk { name : string; value : string }.
#[global] Instance eq_dec : EqDecision UserProperty.
Proof. solve_decision. Defined.
End UserProperty.
Abbreviation UserProperty := UserProperty.UserProperty.

Definition _init_user_properties (user_properties_tuples : option (list (string * string)))
    : option (list UserProperty) :=
  match user_properties_tuples with
  | None => None
  | Some l => Some (map (fun '(name, value) => UserProperty.mk name value) l)
  end.

Module TopicAliasingOptions.
Record TopicAliasingOptions := mk {
  outbound_behavior : option OutboundTopicAliasBehaviorType;
  outbound_cache_max_size : option Z;
  inbound_behavior : option InboundTopicAliasBehaviorType;
  inbound_cache_max_size : option Z;
}.
End TopicAliasingOptions.
Abbreviation TopicAliasingOptions := TopicAliasingOptions.TopicAliasingOptions.

Module NegotiatedSettings.
Record NegotiatedSettings := mk {
  maximum_qos : option QoS;
  session_expiry_interval_sec : Z;
  receive_maximum_from_server : Z;
  maximum_packet_size_to_server : Z;
  topic_alias_maximum_to_server : Z;
  topic_alias_maximum_to_client : Z;
  server_keep_alive_sec : Z;
  retain_available : bool;
  wildcard_subscriptions_available : bool;
  subscription_identifiers_available : bool;
  shared_subscriptions_available : bool;
  rejoined_session : bool;
  client_id : option string;
}.
End NegotiatedSettings.
Abbreviation NegotiatedSettings := NegotiatedSettings.NegotiatedSettings.

Module ConnackPacket.
Record ConnackPacket := mk {
  session_present : option bool;
  reason_code : option ConnectReasonCode;
  session_expiry_interval_sec : option Z;
  receive_maximum : option Z;
  maximum_qos : option QoS;
  retain_available : option bool;
  maximum_packet_size : option Z;
  assigned_client_identifier : option string;
  topic_alias_maximum : option Z;
  reason_string : option string;
  user_properties : option (list UserProperty);
  wildcard_subscriptions_available : option bool;
  subscription_identifiers_available : option bool;
  shared_subscription_available : option bool;
  server_keep_alive_sec : option Z;
  response_information : option string;
  server_reference : option string;
}.
End ConnackPacket.
Abbreviation ConnackPacket := ConnackPacket.ConnackPacket.

Module DisconnectPacket.
Record DisconnectPacket := mk {
  reason_code : option DisconnectReasonCode;
  session_expiry_interval_sec : option Z;
  reason_string : option string;
  user_properties : option (list UserProperty);
  server_reference : option string;
}.
(** [DisconnectPacket()] *)
Definition default : DisconnectPacket :=
  mk (Some DisconnectReasonCode.NORMAL_DISCONNECTION) None None None None.
End DisconnectPacket.
Abbreviation DisconnectPacket := DisconnectPacket.DisconnectPacket.

Module SubackPacket.
Record SubackPacket := mk {
  reason_string : option string;
  user_properties : option (list UserProperty);
  reason_codes : option (list (option SubackReasonCode));
}.
End SubackPacket.
Abbreviation SubackPacket := SubackPacket.SubackPacket.

Module UnsubackPacket.
Record UnsubackPacket := mk {
  reason_string : option string;
  user_properties : option (list UserProperty);
  reason_codes : option (list (option UnsubackReasonCode));
}.
End UnsubackPacket.
Abbreviation UnsubackPacket := UnsubackPacket.UnsubackPacket.

Module PublishPacket.
Record PublishPacket := mk {
  payload : blob;
  qos : option QoS;
  retain : bool;
  topic : string;
  payload_format_indicator : option PayloadFormatIndicator;
  message_expiry_interval_sec : option Z;
  topic_alias : option Z;
  response_topic : option string;
  correlation_data_bytes : option blob;
  correlation_data : option blob;
  subscription_identifiers : option (list Z);
  content_type : option string;
  user_properties : option (list UserProperty);
}.
(** [PublishPacket()] *)
Definition default : PublishPacket :=
  mk (Str EmptyString) (Some QoS.AT_MOST_ONCE) false EmptyString
     None None None None None None None None None.
End PublishPacket.
Abbreviation PublishPacket := PublishPacket.PublishPacket.

Module PubackPacket.
Record PubackPacket := mk {
  reason_code : option PubackReasonCode;
  reason_string : option string;
  user_properties : option (list UserProperty);
}.
(** [PubackPacket()] *)
Definition default : PubackPacket := mk None None None.
End PubackPacket.
Abbreviation PubackPacket := PubackPacket.PubackPacket.

Module ConnectPacket.
Record ConnectPacket := mk {
  keep_alive_interval_sec : option Z;
  client_id : option string;
  username : option string;
  password : option string;
  session_expiry_interval_sec : option Z;
  request_response_information : option bool;
  request_problem_information : option bool;
  receive_maximum : option Z;
  maximum_packet_size : option Z;
  will_delay_interval_sec : option Z;
  will : option PublishPacket;
  user_properties : option (list UserProperty);
}.
(** [ConnectPacket()] *)
Definition default : ConnectPacket :=
  mk None None None None None None None None None None None None.
End ConnectPacket.
Abbreviation ConnectPacket := ConnectPacket.ConnectPacket.
