(* ===== verification/Io.v ===== *)
(** * awscrt/io.py: event loops, bootstraps, TLS options and input streams

    - [Statics]: the three lazily created process-wide singletons
      (EventLoopGroup, DefaultHostResolver, ClientBootstrap) with their locks;
    - [Tls]: TlsContextOptions, its factories, ClientTlsContext and the ALPN
      list conversion;
    - [Stream]: InputStream.wrap and the copy of stream data into a native
      buffer. *)
From S2P Require Import Prelude PyData Future.

Module _CertificateSource.
Inductive _CertificateSource :=
  | CERTIFICATE_FILES
  | PKCS11
  | WINDOWS_CERT_STORE
  | PKCS12_FILE.
Definition _CertificateSource_value (e : _CertificateSource) : Z :=
  match e with
  | CERTIFICATE_FILES => 0
  | PKCS11 => 1
  | WINDOWS_CERT_STORE => 2
  | PKCS12_FILE => 4
  end.
#[global] Instance _CertificateSource_eq_dec : EqDecision _CertificateSource.
Proof. solve_decision. Defined.
#[global] Instance _CertificateSource_IntEnum : IntEnum _CertificateSource.
Proof.
  refine {| enum_value := _CertificateSource_value; enum_members := [CERTIFICATE_FILES; PKCS11; WINDOWS_CERT_STORE; PKCS12_FILE] |}.
  - solve_enum_complete.
  - solve_enum_nodup.
Defined.
End _CertificateSource.
Abbreviation _CertificateSource := _CertificateSource._CertificateSource.

Module LogLevel.
Inductive LogLevel :=
  | NoLogs
  | Fatal
  | Error
  | Warn
  | Info
  | Debug
  | Trace.
Definition LogLevel_value (e : LogLevel) : Z :=
  match e with
  | NoLogs => 0
  | Fatal => 1
  | Error => 2
  | Warn => 3
  | Info => 4
  | Debug => 5
  | Trace => 6
  end.
#[global] Instance LogLevel_eq_dec : EqDecision LogLevel.
Proof. solve_decision. Defined.
#[global] Instance LogLevel_IntEnum : IntEnum LogLevel.
Proof.
  refine {| enum_value := LogLevel_value; enum_members := [NoLogs; Fatal; Error; Warn; Info; Debug; Trace] |}.
  - solve_enum_complete.
  - solve_enum_nodup.
Defined.
End LogLevel.
Abbreviation LogLevel := LogLevel.LogLevel.

Module SocketDomain.
Inductive SocketDomain :=
  | IPv4
  | IPv6
  | Local.
Definition SocketDomain_value (e : SocketDomain) : Z :=
  match e with
  | IPv4 => 0
  | IPv6 => 1
  | Local => 2
  end.
#[global] Instance SocketDomain_eq_dec : EqDecision SocketDomain.
Proof. solve_decision. Defined.
#[global] Instance SocketDomain_IntEnum : IntEnum SocketDomain.
Proof.
  refine {| enum_value := SocketDomain_value; enum_members := [IPv4; IPv6; Local] |}.
  - solve_enum_complete.
  - solve_enum_nodup.
Defined.
End SocketDomain.
Abbreviation SocketDomain := SocketDomain.SocketDomain.

Module SocketType.
Inductive SocketType :=
  | Stream
  | DGram.
Definition SocketType_value (e : SocketType) : Z :=
  match e with
  | Stream => 0
  | DGram => 1
  end.
#[global] Instance SocketType_eq_dec : EqDecision SocketType.
Proof. solve_decision. Defined.
#[global] Instance SocketType_IntEnum : IntEnum SocketType.
Proof.
  refine {| enum_value := SocketType_value; enum_members := [Stream; DGram] |}.
  - solve_enum_complete.
  - solve_enum_nodup.
Defined.
End SocketType.
Abbreviation SocketType := SocketType.SocketType.

Module TlsVersion.
Inductive TlsVersion :=
  | SSLv3
  | TLSv1
  | TLSv1_1
  | TLSv1_2
  | TLSv1_3
  | DEFAULT.
Definition TlsVersion_value (e : TlsVersion) : Z :=
  match e with
  | SSLv3 => 0
  | TLSv1 => 1
  | TLSv1_1 => 2
  | TLSv1_2 => 3
  | TLSv1_3 => 4
  | DEFAULT => 128
  end.
#[global] Instance TlsVersion_eq_dec : EqDecision TlsVersion.
Proof. solve_decision. Defined.
#[global] Instance TlsVersion_IntEnum : IntEnum TlsVersion.
Proof.
  refine {| enum_value := TlsVersion_value; enum_members := [SSLv3; TLSv1; TLSv1_1; TLSv1_2; TLSv1_3; DEFAULT] |}.
  - solve_enum_complete.
  - solve_enum_nodup.
Defined.
End TlsVersion.
Abbreviation TlsVersion := TlsVersion.TlsVersion.

Module TlsCipherPref.
Inductive TlsCipherPref :=
  | DEFAULT
  | PQ_TLSv1_0_2021_05
  | PQ_DEFAULT
  | TLSv1_2_2025_07.
Definition TlsCipherPref_value (e : TlsCipherPref) : Z :=
  match e with
  | DEFAULT => 0
  | PQ_TLSv1_0_2021_05 => 6
  | PQ_DEFAULT => 8
  | TLSv1_2_2025_07 => 9
  end.
#[global] Instance TlsCipherPref_eq_dec : EqDecision TlsCipherPref.
Proof. solve_decision. Defined.
#[global] Instance TlsCipherPref_IntEnum : IntEnum TlsCipherPref.
Proof.
  refine {| enum_value := TlsCipherPref_value; enum_members := [DEFAULT; PQ_TLSv1_0_2021_05; PQ_DEFAULT; TLSv1_2_2025_07] |}.
  - solve_enum_complete.
  - solve_enum_nodup.
Defined.
End TlsCipherPref.
Abbreviation TlsCipherPref := TlsCipherPref.TlsCipherPref.

Module InitializeFinalizeBehavior.
Inductive InitializeFinalizeBehavior :=
  | DEFAULT
  | OMIT
  | STRICT.
Definition InitializeFinalizeBehavior_value (e : InitializeFinalizeBehavior) : Z :=
  match e with
  | DEFAULT => 0
  | OMIT => 1
  | STRICT => 2
  end.
#[global] Instance InitializeFinalizeBehavior_eq_dec : EqDecision InitializeFinalizeBehavior.
Proof. solve_decision. Defined.
#[global] Instance InitializeFinalizeBehavior_IntEnum : IntEnum InitializeFinalizeBehavior.
Proof.
  refine {| enum_value := InitializeFinalizeBehavior_value; enum_members := [DEFAULT; OMIT; STRICT] |}.
  - solve_enum_complete.
  - solve_enum_nodup.
Defined.
End InitializeFinalizeBehavior.
Abbreviation InitializeFinalizeBehavior := InitializeFinalizeBehavior.InitializeFinalizeBehavior.

(** ** SocketOptions *)
Record SocketOptions := mkSocketOptions {
  domain : SocketDomain;
  type : SocketType;
  connect_timeout_ms : Z;
  keep_alive : bool;
  keep_alive_timeout_secs : Z;
  keep_alive_interval_secs : Z;
  keep_alive_max_probes : Z;
}.
(** [SocketOptions()] *)
Definition SocketOptions_init : SocketOptions :=
  mkSocketOptions SocketDomain.IPv6 SocketType.Stream 5000 false 0 0 0.

(** ** The static defaults *)
Module Statics.

(** The module-level locks, ranked: a thread that holds a lock only ever takes
    locks of lower rank. *)
Inductive lock := EventLoopGroup_lock | HostResolver_lock | ClientBootstrap_lock.
#[global] Instance lock_eq_dec : EqDecision lock.
Proof. solve_decision. Defined.
Definition rank (l : lock) : nat :=
  match l with EventLoopGroup_lock => 0 | HostResolver_lock => 1 | ClientBootstrap_lock => 2 end%nat.

(** Python objects of the three classes, as the arguments of their native
    constructors; an object is referred to by its index in [objs]. *)
Inductive obj :=
  | EventLoopGroup (num_threads : Z) (is_pinned : bool) (cpu_group : Z)
  | DefaultHostResolver (max_hosts : Z) (event_loop_group : nat)
  | ClientBootstrap (event_loop_group host_resolver : nat).
#[global] Instance obj_eq_dec : EqDecision obj.
Proof. solve_decision. Defined.

Record state := mkState {
  objs : list obj;
  attempts : nat;                         (** native constructor calls so far *)
  static_event_loop_group : option nat;
  static_host_resolver : option nat;
  static_client_bootstrap : option nat;
  held : list lock;                       (** locks the thread holds *)
  lock_log : list (lock * list lock);     (** each acquisition, with what was held *)
}.
Definition init : state := mkState [] 0 None None None [] [].

Definition elg_slot : lens state (option nat) := Lens static_event_loop_group
  (fun x s => mkState (objs s) (attempts s) x (static_host_resolver s)
                      (static_client_bootstrap s) (held s) (lock_log s)).
Definition resolver_slot : lens state (option nat) := Lens static_host_resolver
  (fun x s => mkState (objs s) (attempts s) (static_event_loop_group s) x
                      (static_client_bootstrap s) (held s) (lock_log s)).
Definition bootstrap_slot : lens state (option nat) := Lens static_client_bootstrap
  (fun x s => mkState (objs s) (attempts s) (static_event_loop_group s)
                      (static_host_resolver s) x (held s) (lock_log s)).

Section WithNative.
(** The native constructors: the outcome of the n-th attempt to create an
    object (they raise when the operating system refuses). *)
Variable native_new : nat -> obj -> result unit.

(** [with lock: m] *)
Definition acquire (l : lock) : M state unit :=
  modify (fun s => mkState (objs s) (attempts s) (static_event_loop_group s)
    (static_host_resolver s) (static_client_bootstrap s) (l :: held s) ((l, held s) :: lock_log s)).
Definition release (l : lock) : M state unit :=
  modify (fun s => mkState (objs s) (attempts s) (static_event_loop_group s)
    (static_host_resolver s) (static_client_bootstrap s) (tail (held s)) (lock_log s)).
Definition with_lock {A} (l : lock) (m : M state A) : M state A :=
  do! acquire l; try_finally m (release l).

(** Allocate: the Python object exists once its native constructor returned. *)
Definition construct (o : obj) : M state nat := fun s =>
  let s1 := mkState (objs s) (S (attempts s)) (static_event_loop_group s)
              (static_host_resolver s) (static_client_bootstrap s) (held s) (lock_log s) in
  match native_new (attempts s) o with
  | Ok _ => (Ok (length (objs s)),
             mkState (objs s ++ [o]) (S (attempts s)) (static_event_loop_group s)
               (static_host_resolver s) (static_client_bootstrap s) (held s) (lock_log s))
  | Raise e => (Raise e, s1)
  end.

Definition is_EventLoopGroup (s : state) (i : nat) : bool :=
  match objs s !! i with Some (EventLoopGroup _ _ _) => true | _ => false end.
Definition is_HostResolver (s : state) (i : nat) : bool :=
  match objs s !! i with Some (DefaultHostResolver _ _) => true | _ => false end.

(** The constructors [__init__] of the three classes. *)
Definition EventLoopGroup_init (num_threads cpu_group : option Z) : M state nat :=
  let num_threads := match num_threads with None => 0 | Some n => n end in
  let '(is_pinned, cpu_group) := match cpu_group with None => (false, 0) | Some g => (true, g) end in
  construct (EventLoopGroup num_threads is_pinned cpu_group).

Definition DefaultHostResolver_init (event_loop_group : nat) (max_hosts : Z) : M state nat :=
  let! ok := gets (fun s => is_EventLoopGroup s event_loop_group) in
  do! py_assert ok;
  construct (DefaultHostResolver max_hosts event_loop_group).

Definition ClientBootstrap_init (event_loop_group host_resolver : nat) : M state nat :=
  let! ok := gets (fun s => is_EventLoopGroup s event_loop_group) in
  do! py_assert ok;
  let! ok := gets (fun s => is_HostResolver s host_resolver) in
  do! py_assert ok;
  construct (ClientBootstrap event_loop_group host_resolver).

(** [with lock: if slot is None: slot = create(); return slot] *)
Definition get_or_create (l : lock) (slot : lens state (option nat)) (create : M state nat)
    : M state nat :=
  with_lock l (
    let! cur := gets (view slot) in
    match cur with
    | Some i => ret i
    | None => let! i := create in do! modify (update slot (Some i)); ret i
    end).

Definition EventLoopGroup_get_or_create_static_default : M state nat :=
  get_or_create EventLoopGroup_lock elg_slot (EventLoopGroup_init None None).

Definition DefaultHostResolver_get_or_create_static_default : M state nat :=
  get_or_create HostResolver_lock resolver_slot (
    let! elg := EventLoopGroup_get_or_create_static_default in
    DefaultHostResolver_init elg 16).

Definition ClientBootstrap_get_or_create_static_default : M state nat :=
  get_or_create ClientBootstrap_lock bootstrap_slot (
    let! elg := EventLoopGroup_get_or_create_static_default in
    let! resolver := DefaultHostResolver_get_or_create_static_default in
    ClientBootstrap_init elg resolver).

Definition release_static (l : lock) (slot : lens state (option nat)) : M state unit :=
  with_lock l (modify (update slot None)).
Definition EventLoopGroup_release_static_default : M state unit :=
  release_static EventLoopGroup_lock elg_slot.
Definition DefaultHostResolver_release_static_default : M state unit :=
  release_static HostResolver_lock resolver_slot.
Definition ClientBootstrap_release_static_default : M state unit :=
  release_static ClientBootstrap_lock bootstrap_slot.

(** What the rest of the library and its users do with the singletons. *)
Inductive op := GetEventLoopGroup | GetHostResolver | GetClientBootstrap
  | ReleaseEventLoopGroup | ReleaseHostResolver | ReleaseClientBootstrap.

Definition run_op (o : op) (s : state) : state :=
  match o with
  | GetEventLoopGroup => (EventLoopGroup_get_or_create_static_default s).2
  | GetHostResolver => (DefaultHostResolver_get_or_create_static_default s).2
  | GetClientBootstrap => (ClientBootstrap_get_or_create_static_default s).2
  | ReleaseEventLoopGroup => (EventLoopGroup_release_static_default s).2
  | ReleaseHostResolver => (DefaultHostResolver_release_static_default s).2
  | ReleaseClientBootstrap => (ClientBootstrap_release_static_default s).2
  end.
Definition run_ops (l : list op) (s : state) : state := fold_left (fun s o => run_op o s) l s.

Definition is_get (o : op) : bool :=
  match o with GetEventLoopGroup | GetHostResolver | GetClientBootstrap => true | _ => false end.

(** *** Invariants *)

(** The singletons are wired together: the static bootstrap was built from the
    static event loop group and the static resolver, and the resolver runs on
    that same group. *)
Record wired (s : state) : Prop := {
  wired_elg : forall e, static_event_loop_group s = Some e -> is_EventLoopGroup s e = true;
  wired_resolver : forall r, static_host_resolver s = Some r ->
    exists e, static_event_loop_group s = Some e /\ objs s !! r = Some (DefaultHostResolver 16 e);
  wired_bootstrap : forall b, static_client_bootstrap s = Some b ->
    exists e r, static_event_loop_group s = Some e /\ static_host_resolver s = Some r /\
      objs s !! b = Some (ClientBootstrap e r);
}.

(** Every recorded acquisition took a lock of lower rank than all held ones: no
    lock is taken twice by a thread, and the lock order has no cycle. *)
Definition log_ordered (s : state) : Prop :=
  Forall (fun '(l, h) => Forall (fun h' => (rank l < rank h')%nat) h) (lock_log s).

(** [m] only takes locks ranked below [n], in order, and gives them all back. *)
Definition locks_below {A} (n : nat) (m : M state A) : Prop := forall s,
  Forall (fun h => (n <= rank h)%nat) (held s) -> log_ordered s ->
  held (m s).2 = held s /\ log_ordered (m s).2.

(** Later states only add objects and never change a singleton that exists. *)
Record grows (s s' : state) : Prop := {
  grows_objs : objs s `prefix_of` objs s';
  grows_elg : forall i, static_event_loop_group s = Some i -> static_event_loop_group s' = Some i;
  grows_resolver : forall i, static_host_resolver s = Some i -> static_host_resolver s' = Some i;
  grows_bootstrap : forall i, static_client_bootstrap s = Some i -> static_client_bootstrap s' = Some i;
}.

(** *** Lock discipline *)

Lemma locks_below_frame {A} n (m : M state A) :
  preserves held m -> preserves lock_log m -> locks_below n m.
Proof.
  intros Hh Hl s _ Ho. unfold log_ordered. by rewrite Hh, Hl.
Qed.

Lemma locks_below_bind {A B} n (m : M state A) (k : A -> M state B) :
  locks_below n m -> (forall a, locks_below n (k a)) -> locks_below n (bind m k).
Proof.
  intros Hm Hk s Hh Ho. destruct (Hm s Hh Ho) as [Hm1 Hm2]. unfold bind.
  destruct (m s) as [[a|e] s']; simpl in *; [|done].
  destruct (Hk a s') as [Hk1 Hk2]; [by rewrite Hm1|done|]. by rewrite Hk1.
Qed.

Lemma locks_below_with_lock {A} n l (m : M state A) :
  (rank l < n)%nat -> locks_below (rank l) m -> locks_below n (with_lock l m).
Proof.
  intros Hn Hm s Hh Ho. unfold with_lock, acquire, release, bind, modify, try_finally. simpl.
  set (s1 := mkState _ _ _ _ _ _ _). destruct (Hm s1) as [Hm1 Hm2].
  - subst s1. simpl. constructor; [lia|]. eapply Forall_impl; [exact Hh | simpl; lia].
  - subst s1. unfold log_ordered in *. simpl. constructor; [|done].
    eapply Forall_impl; [exact Hh | simpl; lia].
  - destruct (m s1) as [r s2]; simpl in *. unfold log_ordered in *. simpl.
    by rewrite Hm1.
Qed.

Lemma preserves_construct {X} (f : state -> X) o :
  (forall s o' a, f (mkState o' a (static_event_loop_group s) (static_host_resolver s)
                  (static_client_bootstrap s) (held s) (lock_log s)) = f s) ->
  preserves f (construct o).
Proof. intros Hf s. unfold construct. by destruct (native_new _ _); simpl. Qed.

Lemma locks_below_construct n o : locks_below n (construct o).
Proof. apply locks_below_frame; by apply preserves_construct. Qed.

Lemma locks_below_assert n b : locks_below n (py_assert b).
Proof. destruct b; by apply locks_below_frame. Qed.

Lemma locks_below_gets {A} n (f : state -> A) : locks_below n (gets f).
Proof. by apply locks_below_frame. Qed.

Lemma locks_below_get_or_create n l slot create :
  (rank l < n)%nat ->
  (forall x, preserves held (modify (update slot x)) /\ preserves lock_log (modify (update slot x))) ->
  locks_below (rank l) create -> locks_below n (get_or_create l slot create).
Proof.
  intros Hn Hs Hc. apply locks_below_with_lock; [done|].
  apply locks_below_bind; [apply locks_below_gets|]. intros [i|].
  - by apply locks_below_frame.
  - apply locks_below_bind; [done|]. intros i.
    apply locks_below_bind; [|intros _; by apply locks_below_frame].
    apply locks_below_frame; apply Hs.
Qed.

Create HintDb locks discriminated.
#[local] Hint Resolve locks_below_bind locks_below_construct locks_below_assert
  locks_below_gets : locks.

Lemma elg_locks n : (0 < n)%nat -> locks_below n EventLoopGroup_get_or_create_static_default.
Proof.
  intros Hn. apply locks_below_get_or_create; [done|done|]. apply locks_below_construct.
Qed.
Lemma resolver_locks n : (1 < n)%nat -> locks_below n DefaultHostResolver_get_or_create_static_default.
Proof.
  intros Hn. apply locks_below_get_or_create; [done|done|].
  apply locks_below_bind; [apply elg_locks; simpl; lia|].
  intros e. unfold DefaultHostResolver_init. auto with locks.
Qed.
Lemma bootstrap_locks n : (2 < n)%nat -> locks_below n ClientBootstrap_get_or_create_static_default.
Proof.
  intros Hn. apply locks_below_get_or_create; [done|done|].
  apply locks_below_bind; [apply elg_locks; simpl; lia|]. intros e.
  apply locks_below_bind; [apply resolver_locks; simpl; lia|]. intros r.
  unfold ClientBootstrap_init. auto 8 with locks.
Qed.
Lemma release_locks n l slot :
  (rank l < n)%nat ->
  (preserves held (modify (update slot None)) /\ preserves lock_log (modify (update slot None))) ->
  locks_below n (release_static l slot).
Proof. intros Hn [? ?]. apply locks_below_with_lock; [done|]. by apply locks_below_frame. Qed.

Lemma run_op_locks o s :
  held s = [] -> log_ordered s -> held (run_op o s) = [] /\ log_ordered (run_op o s).
Proof.
  intros Hh Ho.
  assert (forall A (m : M state A), locks_below 3 m -> held (m s).2 = [] /\ log_ordered (m s).2) as Hm.
  { intros A m Hm. rewrite <- Hh at 1. apply Hm; [by rewrite Hh | done]. }
  destruct o; apply Hm; try (apply release_locks; simpl; [lia|done]).
  - apply elg_locks; lia.
  - apply resolver_locks; lia.
  - apply bootstrap_locks; lia.
Qed.

(** *** Growth *)

Lemma grows_refl s : grows s s.
Proof. by constructor. Qed.
Lemma grows_trans s1 s2 s3 : grows s1 s2 -> grows s2 s3 -> grows s1 s3.
Proof. intros [] []. constructor; [by etrans|auto..]. Qed.

Lemma grows_bind {A B} (m : M state A) (k : A -> M state B) :
  (forall s, grows s (m s).2) -> (forall a s, grows s (k a s).2) ->
  forall s, grows s (bind m k s).2.
Proof.
  intros Hm Hk s. specialize (Hm s). unfold bind.
  destruct (m s) as [[a|e] s']; simpl in *; [|done]. by eapply grows_trans.
Qed.

Lemma grows_construct o s : grows s (construct o s).2.
Proof.
  unfold construct. destruct (native_new _ _); constructor; simpl; try done.
  by apply prefix_app_r.
Qed.

Lemma grows_with_lock {A} l (m : M state A) :
  (forall s, grows s (m s).2) -> forall s, grows s (with_lock l m s).2.
Proof.
  intros Hm s. unfold with_lock, acquire, release, bind, modify, try_finally. simpl.
  set (s1 := mkState _ _ _ _ _ _ _). specialize (Hm s1).
  destruct (m s1) as [r s2]; simpl in *. destruct Hm. by constructor.
Qed.

Lemma grows_assert b s : grows s (py_assert b s).2.
Proof. by destruct b. Qed.
Lemma grows_get_or_create l slot create :
  (forall s i, view slot s = None -> grows s (update slot (Some i) s)) ->
  preserves (view slot) create ->
  (forall s, grows s (create s).2) ->
  forall s, grows s (get_or_create l slot create s).2.
Proof.
  intros Hu Hp Hc. apply grows_with_lock. intros s. unfold bind, gets, ret, modify.
  destruct (view slot s) as [i|] eqn:E; simpl; [apply grows_refl|].
  specialize (Hp s). specialize (Hc s). destruct (create s) as [[i|e] s']; simpl in *; [|done].
  eapply grows_trans; [done|]. apply Hu. by rewrite Hp.
Qed.

(** [with_lock] hides nothing but the lock bookkeeping. *)
Lemma preserves_with_lock {A X} (f : state -> X) l (m : M state A) :
  (forall s h lg, f (mkState (objs s) (attempts s) (static_event_loop_group s)
     (static_host_resolver s) (static_client_bootstrap s) h lg) = f s) ->
  preserves f m -> preserves f (with_lock l m).
Proof.
  intros Hf Hm s. unfold with_lock, acquire, release, bind, modify, try_finally. simpl.
  set (s1 := mkState _ _ _ _ _ _ _). specialize (Hm s1).
  destruct (m s1) as [r s2]; simpl in *. rewrite Hf, Hm. apply Hf.
Qed.

Lemma preserves_get_or_create {X} (f : state -> X) l slot create :
  (forall s h lg, f (mkState (objs s) (attempts s) (static_event_loop_group s)
     (static_host_resolver s) (static_client_bootstrap s) h lg) = f s) ->
  (forall x s, f (update slot x s) = f s) ->
  preserves f create -> preserves f (get_or_create l slot create).
Proof.
  intros Hf Hu Hc. apply preserves_with_lock; [done|].
  apply preserves_bind; [done|]. intros [i|]; [done|].
  apply preserves_bind; [done|]. intros i. apply preserves_bind; [|done]. intros s. apply Hu.
Qed.

Lemma elg_grows s : grows s (EventLoopGroup_get_or_create_static_default s).2.
Proof.
  apply grows_get_or_create.
  - intros s' i Hn. constructor; simpl in *; try done. congruence.
  - by apply preserves_construct.
  - intros s'. apply grows_construct.
Qed.

Lemma elg_keeps_resolver : preserves static_host_resolver EventLoopGroup_get_or_create_static_default.
Proof. apply preserves_get_or_create; [done|done|]. by apply preserves_construct. Qed.
Lemma elg_keeps_bootstrap : preserves static_client_bootstrap EventLoopGroup_get_or_create_static_default.
Proof. apply preserves_get_or_create; [done|done|]. by apply preserves_construct. Qed.

Lemma preserves_assert {X} (f : state -> X) b : preserves f (py_assert b).
Proof. by destruct b. Qed.
#[local] Hint Resolve preserves_assert : py.

Lemma resolver_keeps_bootstrap : preserves static_client_bootstrap DefaultHostResolver_get_or_create_static_default.
Proof.
  apply preserves_get_or_create; [done|done|].
  apply preserves_bind; [apply elg_keeps_bootstrap|]. intros e.
  unfold DefaultHostResolver_init. apply preserves_bind; [auto with py|]. intros b.
  apply preserves_bind; [auto with py|]. intros _. by apply preserves_construct.
Qed.

Lemma resolver_grows s : grows s (DefaultHostResolver_get_or_create_static_default s).2.
Proof.
  apply grows_get_or_create.
  - intros s' i Hn. constructor; simpl in *; try done. congruence.
  - apply preserves_bind; [apply elg_keeps_resolver|]. intros e.
    unfold DefaultHostResolver_init. apply preserves_bind; [auto with py|]. intros b.
    apply preserves_bind; [auto with py|]. intros _. by apply preserves_construct.
  - apply grows_bind; [apply elg_grows|]. intros e. unfold DefaultHostResolver_init.
    apply grows_bind; [intros; apply grows_refl|]. intros b.
    apply grows_bind; [apply grows_assert|]. intros _ s'. apply grows_construct.
Qed.

Lemma bootstrap_grows s : grows s (ClientBootstrap_get_or_create_static_default s).2.
Proof.
  apply grows_get_or_create.
  - intros s' i Hn. constructor; simpl in *; try done. congruence.
  - apply preserves_bind; [apply elg_keeps_bootstrap|]. intros e.
    apply preserves_bind; [apply resolver_keeps_bootstrap|]. intros r.
    unfold ClientBootstrap_init.
    repeat (apply preserves_bind; [auto with py|]; intros ?). by apply preserves_construct.
  - apply grows_bind; [apply elg_grows|]. intros e.
    apply grows_bind; [apply resolver_grows|]. intros r. unfold ClientBootstrap_init.
    repeat first [ apply grows_bind; [intros; first [apply grows_assert | apply grows_refl]|]; intros ? ];
    intros s'; apply grows_construct.
Qed.

Lemma run_gets_grow l s : Forall (fun o => is_get o = true) l -> grows s (run_ops l s).
Proof.
  revert s. induction l as [|o l IH]; intros s Hf; [apply grows_refl|].
  inversion Hf as [|? ? Ho Hl]; subst. eapply grows_trans; [|by apply IH].
  destruct o; try done; [apply elg_grows | apply resolver_grows | apply bootstrap_grows].
Qed.

(** *** Wiring *)

Definition set_locks (h : list lock) (lg : list (lock * list lock)) (s : state) : state :=
  mkState (objs s) (attempts s) (static_event_loop_group s) (static_host_resolver s)
    (static_client_bootstrap s) h lg.

Lemma triple_with_lock {A} (P : state -> Prop) (Q : result A -> state -> Prop) l (m : M state A) :
  (forall s h lg, P s -> P (set_locks h lg s)) ->
  (forall r s h lg, Q r s -> Q r (set_locks h lg s)) ->
  triple P m Q -> triple P (with_lock l m) Q.
Proof.
  intros HP HQ Hm s Hs. unfold with_lock, acquire, release, bind, modify, try_finally. simpl.
  set (s1 := mkState _ _ _ _ _ _ _). assert (P s1) as H1 by (by apply HP).
  specialize (Hm s1 H1). destruct (m s1) as [r s2]; simpl in *. by apply HQ.
Qed.

Lemma wired_locks s h lg : wired s -> wired (set_locks h lg s).
Proof. intros []. by constructor. Qed.

Lemma is_elg_app s i o :
  is_EventLoopGroup s i = true ->
  match (objs s ++ o) !! i with Some (EventLoopGroup _ _ _) => true | _ => false end = true.
Proof.
  unfold is_EventLoopGroup. destruct (objs s !! i) eqn:E; [|done].
  by rewrite (lookup_app_l_Some _ _ _ _ E).
Qed.

(** What each getter owes the invariant: when its slot is empty, [create]
    followed by the assignment keeps the singletons wired. *)
Lemma get_or_create_wired l slot create :
  (forall s h lg, view slot (set_locks h lg s) = view slot s) ->
  (forall i s, view slot (update slot (Some i) s) = Some i) ->
  (forall s, wired s -> view slot s = None ->
     match create s with
     | (Ok i, s1) => wired (update slot (Some i) s1)
     | (Raise _, s1) => wired s1
     end) ->
  triple wired (get_or_create l slot create)
    (fun r s => wired s /\ forall i, r = Ok i -> view slot s = Some i).
Proof.
  intros Hblind Hup Hc. apply triple_with_lock; [by intros; apply wired_locks| |].
  { intros r s h lg [Hw Hr]. rewrite Hblind. split; [by apply wired_locks|done]. }
  intros s Hw. specialize (Hc s Hw). unfold bind, gets, ret, modify.
  destruct (view slot s) as [i|] eqn:E; simpl.
  - split; [done|]. by intros ? [= ->].
  - destruct (create s) as [[i|x] s1]; simpl; (split; [by apply Hc|]); [|done].
    intros ? [= ->]. apply Hup.
Qed.

(** Nothing is built on a group that does not exist, nor on a missing resolver. *)
Lemma wired_no_elg s : wired s -> static_event_loop_group s = None ->
  static_host_resolver s = None /\ static_client_bootstrap s = None.
Proof.
  intros [He Hr Hb] E. split.
  - destruct (static_host_resolver s) as [r|]; [|done].
    destruct (Hr r eq_refl) as (? & ? & _). congruence.
  - destruct (static_client_bootstrap s) as [b|]; [|done].
    destruct (Hb b eq_refl) as (? & ? & ? & _). congruence.
Qed.
Lemma wired_no_resolver s : wired s -> static_host_resolver s = None ->
  static_client_bootstrap s = None.
Proof.
  intros [He Hr Hb] E. destruct (static_client_bootstrap s) as [b|]; [|done].
  destruct (Hb b eq_refl) as (? & ? & ? & ? & _). congruence.
Qed.

(** The [isinstance] assertions of the constructors hold on well-typed arguments. *)
Lemma DefaultHostResolver_init_checked e n s :
  is_EventLoopGroup s e = true ->
  DefaultHostResolver_init e n s = construct (DefaultHostResolver n e) s.
Proof. intros He. unfold DefaultHostResolver_init, bind, gets. by rewrite He. Qed.

Lemma ClientBootstrap_init_checked e r s :
  is_EventLoopGroup s e = true -> is_HostResolver s r = true ->
  ClientBootstrap_init e r s = construct (ClientBootstrap e r) s.
Proof.
  intros He Hr. unfold ClientBootstrap_init, bind, gets. rewrite He. simpl. by rewrite Hr.
Qed.

Lemma elg_wired :
  triple wired EventLoopGroup_get_or_create_static_default
    (fun r s => wired s /\ forall e, r = Ok e -> static_event_loop_group s = Some e).
Proof.
  apply get_or_create_wired; [done|done|]. intros s Hw E. simpl in E.
  destruct (wired_no_elg s Hw E) as [Er Eb].
  unfold EventLoopGroup_init, construct. destruct (native_new _ _) as [u|x].
  - constructor; simpl; [|congruence..].
    intros e [= <-]. unfold is_EventLoopGroup. simpl. by rewrite list_lookup_middle.
  - constructor; simpl; congruence.
Qed.

Lemma resolver_wired :
  triple wired DefaultHostResolver_get_or_create_static_default
    (fun r s => wired s /\ forall i, r = Ok i -> static_host_resolver s = Some i).
Proof.
  apply get_or_create_wired; [done|done|]. intros s Hw E. simpl in E.
  pose proof (elg_wired s Hw) as He. pose proof (elg_keeps_resolver s) as Hk.
  unfold bind.
  destruct (EventLoopGroup_get_or_create_static_default s) as [[e|x] s1]; simpl in *;
    destruct He as [Hw1 He]; [|done].
  specialize (He e eq_refl).
  assert (static_client_bootstrap s1 = None) as Eb by (apply wired_no_resolver; congruence).
  destruct Hw1 as [H1 H2 H3]. rewrite DefaultHostResolver_init_checked by auto.
  unfold construct. destruct (native_new _ _) as [u|x].
  - constructor; simpl; [| |congruence].
    + intros e' [= <-]%(eq_trans (eq_sym He)). by apply is_elg_app, H1.
    + intros r [= <-]. exists e. split; [done|]. by rewrite list_lookup_middle.
  - by constructor.
Qed.

Lemma bootstrap_wired :
  triple wired ClientBootstrap_get_or_create_static_default
    (fun r s => wired s /\ forall i, r = Ok i -> static_client_bootstrap s = Some i).
Proof.
  apply get_or_create_wired; [done|done|]. intros s Hw E. simpl in E.
  pose proof (elg_wired s Hw) as He. unfold bind at 1.
  destruct (EventLoopGroup_get_or_create_static_default s) as [[e|x] s1]; simpl in *;
    destruct He as [Hw1 He]; [|done].
  specialize (He e eq_refl).
  pose proof (resolver_wired s1 Hw1) as Hr. pose proof (resolver_grows s1) as Hg. unfold bind at 1.
  destruct (DefaultHostResolver_get_or_create_static_default s1) as [[r|x] s2]; simpl in *;
    destruct Hr as [Hw2 Hr]; [|done].
  specialize (Hr r eq_refl). apply (grows_elg _ _ Hg) in He. clear Hg.
  destruct Hw2 as [H1 H2 H3]. destruct (H2 r Hr) as (e' & He' & Hro).
  assert (e' = e) as -> by congruence.
  assert (is_HostResolver s2 r = true) as Hir by (unfold is_HostResolver; by rewrite Hro).
  rewrite ClientBootstrap_init_checked by auto.
  unfold construct. destruct (native_new _ _) as [u|x].
  - constructor; simpl.
    + intros e' [= <-]%(eq_trans (eq_sym He)). by apply is_elg_app, H1.
    + intros r' [= <-]%(eq_trans (eq_sym Hr)). exists e. split; [done|].
      by apply lookup_app_l_Some.
    + intros b [= <-]. exists e, r. split_and!; [done|done|]. by rewrite list_lookup_middle.
  - by constructor.
Qed.

(** A singleton that exists is what its getter returns, creating nothing. *)
Lemma get_or_create_hit l slot create s i :
  view slot (set_locks (l :: held s) ((l, held s) :: lock_log s) s) = Some i ->
  (get_or_create l slot create s).1 = Ok i /\ objs (get_or_create l slot create s).2 = objs s.
Proof.
  intros Hv. unfold get_or_create, with_lock, acquire, release, try_finally, bind, gets, modify.
  unfold set_locks in Hv. simpl. by rewrite Hv.
Qed.

(** After a getter returned, its slot holds what it returned. *)
Lemma get_or_create_result l slot create s i :
  (forall i s, view slot (update slot (Some i) s) = Some i) ->
  (forall s h lg, view slot (set_locks h lg s) = view slot s) ->
  (get_or_create l slot create s).1 = Ok i -> view slot (get_or_create l slot create s).2 = Some i.
Proof.
  intros Hup Hblind. unfold get_or_create, with_lock, acquire, release, try_finally, bind, gets, modify, ret.
  simpl. set (s1 := mkState _ _ _ _ _ _ _).
  assert (forall s h lg, view slot (mkState (objs s) (attempts s) (static_event_loop_group s)
    (static_host_resolver s) (static_client_bootstrap s) h lg) = view slot s) as Hb by (intros; apply Hblind).
  destruct (view slot s1) as [j|] eqn:E; simpl.
  - intros [= <-]. rewrite Hb, <- E. symmetry. apply Hb.
  - destruct (create s1) as [[j|x] s2]; simpl; [|done]. intros [= <-]. by rewrite Hb, Hup.
Qed.

(** ** Properties *)

(** Whatever the users of the library do with the three static defaults
    (any sequence of getters and releases), and whichever native constructors
    fail on the way, every lock acquisition is of a lock ranked below all the
    locks held at that moment (bootstrap before resolver before event loop
    group), and all locks are free again afterwards, exceptions included: no
    self-deadlock and no lock-order cycle. *)
Lemma static_defaults_lock_order (l : list op) :
  held (run_ops l init) = [] /\ log_ordered (run_ops l init).
Proof.
  assert (forall s, held s = [] -> log_ordered s ->
    held (run_ops l s) = [] /\ log_ordered (run_ops l s)) as H.
  { induction l as [|o l IH]; intros s Hh Ho; [done|].
    destruct (run_op_locks o s Hh Ho). by apply IH. }
  apply H; [done|constructor].
Qed.

(** As long as nothing is released, the default bootstrap is a singleton
    built from the other singletons: after any getters (some native
    constructors may have failed), a getter that succeeds returns an object
    whose event loop group and host resolver are the static defaults, and after
    any further getters the same object comes back and none is created. *)
Lemma static_bootstrap_shared (l l' : list op) (b : nat) (s1 s2 : state)
  (Hl : Forall (fun o => is_get o = true) l)
  (Hl' : Forall (fun o => is_get o = true) l')
  (Hs1 : ClientBootstrap_get_or_create_static_default (run_ops l init) = (Ok b, s1))
  (Hs2 : s2 = run_ops l' s1) :
  (exists e r, objs s1 !! b = Some (ClientBootstrap e r) /\
     objs s1 !! r = Some (DefaultHostResolver 16 e) /\
     static_event_loop_group s1 = Some e /\ static_host_resolver s1 = Some r) /\
  (ClientBootstrap_get_or_create_static_default s2).1 = Ok b /\
  objs (ClientBootstrap_get_or_create_static_default s2).2 = objs s2.
Proof.
  assert (wired (run_ops l init)) as Hw.
  { assert (forall s, wired s -> wired (run_ops l s)) as H; [|by apply H; constructor].
    clear Hs1. induction Hl as [|o l Ho Hl IH]; intros s Hw; [done|]. apply IH.
    destruct o; try done; [apply elg_wired | apply resolver_wired | apply bootstrap_wired]; done. }
  pose proof (bootstrap_wired _ Hw) as [Hw1 Hb]. rewrite Hs1 in Hw1, Hb. simpl in *.
  specialize (Hb b eq_refl). split.
  - destruct Hw1 as [_ H2 H3]. destruct (H3 b Hb) as (e & r & He & Hr & Ho).
    destruct (H2 r Hr) as (e' & He' & Hro). exists e, r. split_and!; try done. congruence.
  - subst s2. apply get_or_create_hit. simpl.
    apply (grows_bootstrap _ _ (run_gets_grow l' s1 Hl')), Hb.
Qed.
End WithNative.

Definition native_ok (n : nat) (o : obj) : result unit := Ok tt.

(** C2 at a first group, then the bootstrap, then the bootstrap again. *)
Lemma static_bootstrap_shared_witness :
  ClientBootstrap_get_or_create_static_default native_ok
    (run_ops native_ok [GetEventLoopGroup; GetClientBootstrap] init) =
    (Ok 2%nat, (ClientBootstrap_get_or_create_static_default native_ok
      (run_ops native_ok [GetEventLoopGroup; GetClientBootstrap] init)).2) /\
  exists e r, objs (run_ops native_ok [GetEventLoopGroup; GetClientBootstrap] init) !! 2%nat =
    Some (ClientBootstrap e r).
Proof.
  split; [vm_compute; reflexivity|].
  destruct (static_bootstrap_shared native_ok [GetEventLoopGroup; GetClientBootstrap]
    [GetHostResolver] 2 _ _ ltac:(repeat constructor) ltac:(repeat constructor)
    ltac:(vm_compute; reflexivity) eq_refl) as [(e & r & H & _) _].
  exists e, r. exact H.
Defined.
End Statics.

(** ** TLS *)
Module Tls.

Record TlsContextOptions := mk {
  min_tls_ver : TlsVersion;
  ca_dirpath : option string;
  ca_buffer : option string;
  cipher_pref : TlsCipherPref;
  alpn_list : option (list string);
  certificate_buffer : option string;
  private_key_buffer : option string;
  pkcs12_filepath : option string;
  pkcs12_password : option string;
  verify_peer : bool;
  no_certificate_revocation : bool;
  _pkcs11_lib : option nat;
  _pkcs11_user_pin : option string;
  _pkcs11_slot_id : option Z;
  _pkcs11_token_label : option string;
  _pkcs11_private_key_label : option string;
  _pkcs11_cert_file_path : option string;
  _pkcs11_cert_file_contents : option string;
  _windows_cert_store_path : option string;
  _certificate_source : option _CertificateSource;
}.

(** [TlsContextOptions()] *)
Definition TlsContextOptions_init : TlsContextOptions := {|
  min_tls_ver := TlsVersion.DEFAULT; ca_dirpath := None; ca_buffer := None;
  cipher_pref := TlsCipherPref.DEFAULT; alpn_list := None; certificate_buffer := None;
  private_key_buffer := None; pkcs12_filepath := None; pkcs12_password := None;
  verify_peer := true; no_certificate_revocation := false; _pkcs11_lib := None;
  _pkcs11_user_pin := None; _pkcs11_slot_id := None; _pkcs11_token_label := None;
  _pkcs11_private_key_label := None; _pkcs11_cert_file_path := None;
  _pkcs11_cert_file_contents := None; _windows_cert_store_path := None;
  _certificate_source := None;
|}.

Definition create_client_with_mtls (cert_buffer key_buffer : string) : TlsContextOptions := {|
  min_tls_ver := TlsVersion.DEFAULT; ca_dirpath := None; ca_buffer := None;
  cipher_pref := TlsCipherPref.DEFAULT; alpn_list := None; certificate_buffer := Some cert_buffer;
  private_key_buffer := Some key_buffer; pkcs12_filepath := None; pkcs12_password := None;
  verify_peer := true; no_certificate_revocation := false; _pkcs11_lib := None;
  _pkcs11_user_pin := None; _pkcs11_slot_id := None; _pkcs11_token_label := None;
  _pkcs11_private_key_label := None; _pkcs11_cert_file_path := None;
  _pkcs11_cert_file_contents := None; _windows_cert_store_path := None;
  _certificate_source := Some _CertificateSource.CERTIFICATE_FILES;
|}.

Definition create_client_with_mtls_pkcs11 (pkcs11_lib : nat) (user_pin : option string)
    (slot_id : option Z) (token_label private_key_label cert_file_path cert_file_contents : option string)
    : TlsContextOptions := {|
  min_tls_ver := TlsVersion.DEFAULT; ca_dirpath := None; ca_buffer := None;
  cipher_pref := TlsCipherPref.DEFAULT; alpn_list := None; certificate_buffer := None;
  private_key_buffer := None; pkcs12_filepath := None; pkcs12_password := None;
  verify_peer := true; no_certificate_revocation := false; _pkcs11_lib := Some pkcs11_lib;
  _pkcs11_user_pin := user_pin; _pkcs11_slot_id := slot_id; _pkcs11_token_label := token_label;
  _pkcs11_private_key_label := private_key_label; _pkcs11_cert_file_path := cert_file_path;
  _pkcs11_cert_file_contents := cert_file_contents; _windows_cert_store_path := None;
  _certificate_source := Some _CertificateSource.PKCS11;
|}.

Definition create_client_with_mtls_pkcs12 (filepath password : string) : TlsContextOptions := {|
  min_tls_ver := TlsVersion.DEFAULT; ca_dirpath := None; ca_buffer := None;
  cipher_pref := TlsCipherPref.DEFAULT; alpn_list := None; certificate_buffer := None;
  private_key_buffer := None; pkcs12_filepath := Some filepath; pkcs12_password := Some password;
  verify_peer := true; no_certificate_revocation := false; _pkcs11_lib := None;
  _pkcs11_user_pin := None; _pkcs11_slot_id := None; _pkcs11_token_label := None;
  _pkcs11_private_key_label := None; _pkcs11_cert_file_path := None;
  _pkcs11_cert_file_contents := None; _windows_cert_store_path := None;
  _certificate_source := Some _CertificateSource.PKCS12_FILE;
|}.

Definition create_client_with_mtls_windows_cert_store_path (cert_path : string) : TlsContextOptions := {|
  min_tls_ver := TlsVersion.DEFAULT; ca_dirpath := None; ca_buffer := None;
  cipher_pref := TlsCipherPref.DEFAULT; alpn_list := None; certificate_buffer := None;
  private_key_buffer := None; pkcs12_filepath := None; pkcs12_password := None;
  verify_peer := true; no_certificate_revocation := false; _pkcs11_lib := None;
  _pkcs11_user_pin := None; _pkcs11_slot_id := None; _pkcs11_token_label := None;
  _pkcs11_private_key_label := None; _pkcs11_cert_file_path := None;
  _pkcs11_cert_file_contents := None; _windows_cert_store_path := Some cert_path;
  _certificate_source := Some _CertificateSource.WINDOWS_CERT_STORE;
|}.

Definition create_server (cert_buffer key_buffer : string) : TlsContextOptions := {|
  min_tls_ver := TlsVersion.DEFAULT; ca_dirpath := None; ca_buffer := None;
  cipher_pref := TlsCipherPref.DEFAULT; alpn_list := None; certificate_buffer := Some cert_buffer;
  private_key_buffer := Some key_buffer; pkcs12_filepath := None; pkcs12_password := None;
  verify_peer := false; no_certificate_revocation := false; _pkcs11_lib := None;
  _pkcs11_user_pin := None; _pkcs11_slot_id := None; _pkcs11_token_label := None;
  _pkcs11_private_key_label := None; _pkcs11_cert_file_path := None;
  _pkcs11_cert_file_contents := None; _windows_cert_store_path := None;
  _certificate_source := None;
|}.

Definition create_server_pkcs12 (filepath password : string) : TlsContextOptions := {|
  min_tls_ver := TlsVersion.DEFAULT; ca_dirpath := None; ca_buffer := None;
  cipher_pref := TlsCipherPref.DEFAULT; alpn_list := None; certificate_buffer := None;
  private_key_buffer := None; pkcs12_filepath := Some filepath; pkcs12_password := Some password;
  verify_peer := false; no_certificate_revocation := false; _pkcs11_lib := None;
  _pkcs11_user_pin := None; _pkcs11_slot_id := None; _pkcs11_token_label := None;
  _pkcs11_private_key_label := None; _pkcs11_cert_file_path := None;
  _pkcs11_cert_file_contents := None; _windows_cert_store_path := None;
  _certificate_source := None;
|}.

Section Files.
(** The file system: [_read_binary_file(path)] *)
Variable _read_binary_file : string -> result string.

Definition create_client_with_mtls_from_path (cert_filepath pk_filepath : string)
    : result TlsContextOptions :=
  let? cert_buffer := _read_binary_file cert_filepath in
  let? key_buffer := _read_binary_file pk_filepath in
  Ok (create_client_with_mtls cert_buffer key_buffer).

Definition create_server_from_path (cert_filepath pk_filepath : string) : result TlsContextOptions :=
  let? cert_buffer := _read_binary_file cert_filepath in
  let? key_buffer := _read_binary_file pk_filepath in
  Ok (create_server cert_buffer key_buffer).

Definition with_trust_store (o : TlsContextOptions) (ca_dirpath ca_buffer : option string)
    : TlsContextOptions := {|
  min_tls_ver := min_tls_ver o; ca_dirpath := ca_dirpath; ca_buffer := ca_buffer;
  cipher_pref := cipher_pref o; alpn_list := alpn_list o;
  certificate_buffer := certificate_buffer o; private_key_buffer := private_key_buffer o;
  pkcs12_filepath := pkcs12_filepath o; pkcs12_password := pkcs12_password o;
  verify_peer := verify_peer o; no_certificate_revocation := no_certificate_revocation o;
  _pkcs11_lib := _pkcs11_lib o; _pkcs11_user_pin := _pkcs11_user_pin o;
  _pkcs11_slot_id := _pkcs11_slot_id o; _pkcs11_token_label := _pkcs11_token_label o;
  _pkcs11_private_key_label := _pkcs11_private_key_label o;
  _pkcs11_cert_file_path := _pkcs11_cert_file_path o;
  _pkcs11_cert_file_contents := _pkcs11_cert_file_contents o;
  _windows_cert_store_path := _windows_cert_store_path o;
  _certificate_source := _certificate_source o;
|}.

Definition override_default_trust_store (rootca_buffer : string) (o : TlsContextOptions)
    : TlsContextOptions := with_trust_store o (ca_dirpath o) (Some rootca_buffer).

(** [if ca_filepath:] skips None and the empty path. *)
Definition override_default_trust_store_from_path (dirpath filepath : option string)
    : M TlsContextOptions unit :=
  do! (match filepath with
       | Some (String _ _ as path) =>
           let! buffer := lift (_read_binary_file path) in
           modify (override_default_trust_store buffer)
       | _ => ret tt
       end);
  modify (fun o => with_trust_store o dirpath (ca_buffer o)).
End Files.

(** What ClientTlsContext keeps for the rest of the library. *)
Record ClientTlsContext := mkClientTlsContext {
  ctx_min_tls_ver : TlsVersion;
  ctx_cipher_pref : TlsCipherPref;
  ctx_certificate_source : option _CertificateSource;
}.

(** An ALPN list argument: None, a list of protocols, or a bare [str]. *)
Inductive alpn_arg := AlpnNone | AlpnList (l : list string) | AlpnStr (s : string).

Definition _alpn_list_to_str (alpn_list : alpn_arg) : result (option string) :=
  match alpn_list with
  | AlpnNone | AlpnList [] | AlpnStr EmptyString => Ok None
  | AlpnStr _ => Raise AssertionError
  | AlpnList l => Ok (Some (PyStr.join ";"%char l))
  end.

(** [ClientTlsContext(options)]: the fields kept on the object, and the ALPN
    string handed to the native context. *)
Definition ClientTlsContext_init (options : TlsContextOptions)
    : result (ClientTlsContext * option string) :=
  let? alpn := _alpn_list_to_str
    (match alpn_list options with None => AlpnNone | Some l => AlpnList l end) in
  Ok (mkClientTlsContext (min_tls_ver options) (cipher_pref options) (_certificate_source options),
      alpn).

(** The connection options of a context; in the Python object, a reference to it. *)
Definition TlsConnectionOptions := ClientTlsContext.
End Tls.

(** ** Input streams *)
Module Stream.

(** A Python object used as a stream, as far as [InputStream] looks at it: the
    reading methods it has. [readinto1]/[readinto] get the buffer; they write
    something at its start and return a count, or None (nothing available now), or
    raise - nothing makes the count agree with what was written, and it is an int
    of any size; [read1]/[read] get a length and return the data, of any length. *)
Record py_stream := mkStream {
  readinto1 : option (list Byte.byte -> result (option Z) * list Byte.byte);
  readinto : option (list Byte.byte -> result (option Z) * list Byte.byte);
  read1 : option (nat -> result (list Byte.byte));
  read : option (nat -> result (list Byte.byte));
}.

(** Writing through a memoryview of fixed length, from its start. *)
Definition view_write (m data : list Byte.byte) : list Byte.byte :=
  take (length m) data ++ drop (length data) m.
Lemma view_write_length m data : length (view_write m data) = length m.
Proof. unfold view_write. rewrite length_app, length_take, length_drop. lia. Qed.

(** [m[:n] = data] with [n = len(data)] on a memoryview of fixed length: the
    slice is clipped to the buffer, and a memoryview does not resize. *)
Definition assign_prefix (m data : list Byte.byte) : result (list Byte.byte) :=
  if (length data <=? length m)%nat then Ok (data ++ drop (length data) m)
  else Raise (ValueError "memoryview assignment: lvalue and rvalue have different structures").

Definition BlockingIOError : py_exn := BuiltinError "BlockingIOError"%string.

Definition call_readinto (f : list Byte.byte -> result (option Z) * list Byte.byte)
    : M (list Byte.byte) (option Z) := fun m => let (r, written) := f m in (r, view_write m written).

(** [InputStream._read_into_memoryview]: the count, on the buffer as state. *)
Definition _read_into_memoryview (st : py_stream) : M (list Byte.byte) (option Z) :=
  try_except (fun e => bool_decide (e = BlockingIOError))
    (match readinto1 st, readinto st with
     | Some f, _ => call_readinto f
     | None, Some f => call_readinto f
     | None, None =>
         let! m := gets (fun m => m) in
         let! data := lift (match read1 st, read st with
                            | Some f, _ => f (length m)
                            | None, Some f => f (length m)
                            | None, None => Raise (AttributeError "read")
                            end) in
         let! m' := lift (assign_prefix m data) in
         do! modify (fun _ => m');
         ret (Some (Z.of_nat (length data)))
     end)
    (fun _ => ret None).

(** The argument of [InputStream.wrap]: None, an InputStream already, or some
    other object. *)
Inductive stream_arg := StreamNone | IsInputStream (id : nat) | OtherObject (st : py_stream).

Inductive wrapped := WrappedNone | Same (id : nat) | NewInputStream (st : py_stream).

(** [InputStream(stream)] requires a [read] method. *)
Definition wrap (stream : stream_arg) (allow_none : bool) : result wrapped :=
  match stream with
  | StreamNone => if allow_none then Ok WrappedNone else Raise (TypeError "I/O stream type expected")
  | IsInputStream id => Ok (Same id)
  | OtherObject st =>
      match read st with
      | Some _ => Ok (NewInputStream st)
      | None => Raise (TypeError "I/O stream type expected")
      end
  end.

End Stream.
