(* ===== verification/Streams.v ===== *)
(** * awscrt/io.py with source/io.c: input streams as the native layer reads them

    The native side of [InputStream]: [read] through [_read_into_memoryview]
    ([Io.Stream]), the end-of-stream flag, [seek], and the references that keep
    the Python object alive; what a native consumer that reads to the end gets
    from a Python file; and the connection options of a TLS context. *)
From S2P Require Import Prelude PyData Future Io.

Module NativeInputStream.
Import Io.Stream.
Abbreviation bytes := (list Byte.byte).

(** [aws_input_stream_py_impl]; [py_refs] counts the references it holds to the
    Python object. *)
Record impl := mkImpl { is_end_of_stream : bool; c_ref : nat; py_refs : nat }.
Definition set_eof (b : bool) (i : impl) : impl := mkImpl b (c_ref i) (py_refs i).

(** [aws_py_input_stream_new] *)
Definition input_stream_new : impl := mkImpl false 0 0.

(** What a native read comes to: data in the buffer; a length of the buffer
    beyond its capacity; the failure of a fatal assertion, which ends the
    process. *)
Inductive native_read := Data (b : bytes) | BeyondCapacity (n : Z) | FatalAssert.

(** [PyLong_AsSsize_t], where [Py_ssize_t] has 64 bits *)
Definition AsSsize_t (z : Z) : result Z :=
  if (- 2 ^ 63 <=? z) && (z <? 2 ^ 63) then Ok z
  else Raise (OverflowError "Python int too large to convert to C ssize_t").

(** From the count the method returned on: the bytes that count as read are those
    at the start of the buffer [m]. A count above its size is not checked. *)
Definition add_length (m : bytes) (count : Z) : M impl native_read :=
  let! bytes_read := lift (AsSsize_t count) in
  if bytes_read <? 0 then ret FatalAssert
  else if bytes_read =? 0 then do! modify (set_eof true); ret (Data [])
  else if bytes_read <=? Z.of_nat (length m) then ret (Data (take (Z.to_nat bytes_read) m))
  else ret (BeyondCapacity bytes_read).

(** [s_aws_input_stream_py_read] into a buffer with the free space [free]; None
    is "no data now". *)
Definition s_aws_input_stream_py_read (st : py_stream) (free : bytes) : M impl native_read :=
  match _read_into_memoryview st free with
  | (Raise e, _) => raise e
  | (Ok None, _) => ret (Data [])
  | (Ok (Some count), m) => add_length m count
  end.

(** [s_aws_input_stream_py_seek]: [_seek] of the Python object is [seek]. *)
Definition s_aws_input_stream_py_seek {A} (seek : result A) : M impl A :=
  let! a := lift seek in
  do! modify (set_eof false);
  ret a.

Definition s_aws_input_stream_py_get_status (i : impl) : bool := is_end_of_stream i.

(** [s_aws_input_stream_py_acquire] and [_release] *)
Definition s_aws_input_stream_py_acquire (i : impl) : impl :=
  mkImpl (is_end_of_stream i) (S (c_ref i)) (if (c_ref i =? 0)%nat then S (py_refs i) else py_refs i).
Definition s_aws_input_stream_py_release (i : impl) : impl :=
  mkImpl (is_end_of_stream i) (pred (c_ref i)) (if (c_ref i =? 1)%nat then pred (py_refs i) else py_refs i).

(** The Python object is referred to, once, exactly while C code refers to it. *)
Definition refs_ok (i : impl) : Prop := py_refs i = if (c_ref i =? 0)%nat then 0%nat else 1%nat.
Lemma acquire_refs i : refs_ok i -> refs_ok (s_aws_input_stream_py_acquire i).
Proof. unfold refs_ok. simpl. intros ->. by destruct (c_ref i). Qed.
Lemma release_refs i : refs_ok i -> refs_ok (s_aws_input_stream_py_release i).
Proof. unfold refs_ok. simpl. intros ->. by destruct (c_ref i) as [|[|n]]. Qed.

(** ** Bounds *)

(** What a count of a [readinto] method comes to, on a buffer of [capacity]
    bytes in which it has written [written]. *)
Definition counted (capacity count : Z) (buffer : bytes) (r : result native_read) : Prop :=
  (0 <= count <= capacity -> r = Ok (Data (take (Z.to_nat count) buffer))) /\
  (capacity < count < 2 ^ 63 -> r = Ok (BeyondCapacity count)) /\
  (- 2 ^ 63 <= count < 0 -> r = Ok FatalAssert) /\
  (2 ^ 63 <= count \/ count < - 2 ^ 63 -> exists e, r = Raise e).

Lemma add_length_counted (m : bytes) count i : Z.of_nat (length m) < 2 ^ 63 ->
  counted (Z.of_nat (length m)) count m (add_length m count i).1.
Proof.
  intros Hm. unfold counted, add_length, AsSsize_t. munfold.
  destruct (Z.leb_spec (- 2 ^ 63) count), (Z.ltb_spec count (2 ^ 63)); simpl;
    try (split_and!; intros; try lia; by eexists).
  destruct (Z.ltb_spec count 0); [split_and!; intros; lia || done|].
  destruct (Z.eqb_spec count 0) as [->|]; [split_and!; intros; lia || done|].
  destruct (Z.leb_spec count (Z.of_nat (length m))); split_and!; intros; lia || done.
Qed.

(** What the first method the object has amounts to; [blocking e]: the exception
    is caught. *)
Definition or_no_data (e : py_exn) : result native_read :=
  if bool_decide (e = BlockingIOError) then Ok (Data []) else Raise e.

Lemma read_readinto st f free i : Z.of_nat (length free) < 2 ^ 63 ->
  readinto1 st = Some f \/ readinto1 st = None /\ readinto st = Some f ->
  let r := (s_aws_input_stream_py_read st free i).1 in
  match (f free).1 with
  | Ok (Some count) => counted (Z.of_nat (length free)) count (view_write free (f free).2) r
  | Ok None => r = Ok (Data [])
  | Raise e => r = or_no_data e
  end.
Proof.
  intros Hm Hf. cbv zeta. unfold s_aws_input_stream_py_read, or_no_data.
  assert (_read_into_memoryview st free =
    try_except (fun e => bool_decide (e = BlockingIOError)) (call_readinto f) (fun _ => ret None) free) as ->
    by (unfold _read_into_memoryview; by destruct Hf as [-> |[-> ->]]).
  unfold try_except, call_readinto. destruct (f free) as [[[count|]|e] w]; simpl.
  - rewrite <- (view_write_length free w). apply add_length_counted. by rewrite view_write_length.
  - done.
  - by destruct (bool_decide (e = BlockingIOError)).
Qed.

Lemma read_read st f free i : Z.of_nat (length free) < 2 ^ 63 ->
  readinto1 st = None -> readinto st = None ->
  read1 st = Some f \/ read1 st = None /\ read st = Some f ->
  let r := (s_aws_input_stream_py_read st free i).1 in
  match f (length free) with
  | Ok data => if (length data <=? length free)%nat then r = Ok (Data data) else is_ok r = false
  | Raise e => r = or_no_data e
  end.
Proof.
  intros Hm E1 E2 Hf. cbv zeta. unfold s_aws_input_stream_py_read, _read_into_memoryview, try_except, or_no_data.
  rewrite E1, E2. munfold.
  assert (match read1 st with Some g => g (length free) | None =>
            match read st with Some g => g (length free) | None => Raise (AttributeError "read") end end =
          f (length free)) as -> by (by destruct Hf as [-> |[-> ->]]).
  destruct (f (length free)) as [data|e]; [|by destruct (bool_decide (e = BlockingIOError))].
  unfold assign_prefix. destruct (Nat.leb_spec (length data) (length free)) as [Hl|Hl]; [|done]. cbn.
  set (m' := data ++ drop (length data) free).
  assert (length m' = length free) as Hlen by (unfold m'; rewrite length_app, length_drop; lia).
  destruct (add_length_counted m' (Z.of_nat (length data)) i) as (Hc & _); [by rewrite Hlen|].
  change ((add_length m' (Z.of_nat (length data)) i).1 = Ok (Data data)).
  rewrite Hc by lia. unfold m'. by rewrite Nat2Z.id, take_app_length.
Qed.

Lemma read_keeps_length st : preserves length (_read_into_memoryview st).
Proof.
  apply preserves_try_except; [|intros; apply preserves_ret].
  assert (forall f, preserves length (call_readinto f)) as Hc.
  { intros f m. unfold call_readinto. destruct (f m) as [r w]. apply view_write_length. }
  destruct (readinto1 st); [done|]. destruct (readinto st); [done|].
  intros m. unfold bind, gets, lift. destruct (match read1 st with Some f => _ | None => _ end) as [data|]; [|done].
  unfold assign_prefix. destruct (Nat.leb_spec (length data) (length m)); [|done].
  simpl. rewrite length_app, length_drop. lia.
Qed.
Lemma read_fits st free i d : (s_aws_input_stream_py_read st free i).1 = Ok (Data d) -> (length d <= length free)%nat.
Proof.
  unfold s_aws_input_stream_py_read. pose proof (read_keeps_length st free) as Hl.
  destruct (_read_into_memoryview st free) as [[[count|]|e] m]; simpl in *; [|intros [= <-]; simpl; lia|done].
  unfold add_length. munfold. destruct (AsSsize_t count) as [z|]; [|done].
  destruct (z <? 0); [done|]. destruct (z =? 0); [intros [= <-]; simpl; lia|].
  destruct (z <=? _); [|done]. intros [= <-]. rewrite length_take. lia.
Qed.

(** C40: What the binding adds to a native buffer. A native read of a Python
    stream takes the first of the methods [readinto1], [readinto], [read1] and
    [read] the object has. With [read1] or [read] the data arrives whole if it
    fits and raises if there is more than was asked for, so the buffer stays
    within its capacity whatever the method returns. With a [readinto] method
    the count is taken on trust: what arrives is the start of the buffer as the
    method left it, exactly if the count is between 0 and the capacity; with a
    greater count, which nothing checks, the native length goes beyond the
    capacity, and a negative one fails an assertion that ends the process. No
    data now (None or BlockingIOError) is an empty read. *)
Theorem native_read_in_bounds (st : py_stream) (free : bytes) (i : impl)
    (Hm : Z.of_nat (length free) < 2 ^ 63) :
  let r := (s_aws_input_stream_py_read st free i).1 in
  (forall f, readinto1 st = Some f \/ readinto1 st = None /\ readinto st = Some f ->
     match (f free).1 with
     | Ok (Some count) => counted (Z.of_nat (length free)) count (view_write free (f free).2) r
     | Ok None => r = Ok (Data [])
     | Raise e => r = or_no_data e
     end) /\
  (readinto1 st = None -> readinto st = None ->
     (forall f, read1 st = Some f \/ read1 st = None /\ read st = Some f ->
        match f (length free) with
        | Ok data => if (length data <=? length free)%nat then r = Ok (Data data) else is_ok r = false
        | Raise e => r = or_no_data e
        end) /\
     r <> Ok FatalAssert /\ (forall n, r <> Ok (BeyondCapacity n))) /\
  (forall d, r = Ok (Data d) -> (length d <= length free)%nat).
Proof.
  cbv zeta. split_and!; [intros f Hf; by apply read_readinto| |intros d; apply read_fits].
  intros E1 E2. split; [intros f Hf; by apply read_read|].
  assert (forall f, read1 st = Some f \/ read1 st = None /\ read st = Some f ->
    match (s_aws_input_stream_py_read st free i).1 with Ok (Data _) | Raise _ => True | _ => False end) as Hr.
  { intros f Hf. pose proof (read_read st f free i Hm E1 E2 Hf) as Hr. cbv zeta in Hr.
    destruct (f (length free)) as [data|e]; [destruct (_ <=? _)%nat; [by rewrite Hr|]|rewrite Hr; unfold or_no_data].
    - by destruct (s_aws_input_stream_py_read st free i).1.
    - by destruct (bool_decide _). }
  assert (match (s_aws_input_stream_py_read st free i).1 with Ok (Data _) | Raise _ => True | _ => False end) as Hall.
  { destruct (read1 st) as [f|] eqn:E3; [by apply (Hr f); left|].
    destruct (read st) as [f|] eqn:E4; [by apply (Hr f); right|].
    unfold s_aws_input_stream_py_read, _read_into_memoryview. by rewrite E1, E2, E3, E4. }
  split; [intros E|intros n E]; by rewrite E in Hall.
Qed.

(** ** Reading a file to the end *)

Record file := mkFile { content : bytes; pos : nat }.
(** The reading methods a file object may have; [read] it must have. *)
Inductive method := Readinto1 | Readinto | Read1 | Read.

Section File.
(** How many bytes the method gives at a position when [n] are asked for: at
    least one and at most [n], while there are any. *)
Variable give : method -> nat -> nat -> nat.
Hypothesis give_ok : forall k p n, (0 < n)%nat -> (0 < give k p n <= n)%nat.
(** Whether the file object has the other methods: files and BytesIO have them
    all. *)
Variables has_readinto1 has_readinto has_read1 : bool.

Definition available (k : method) (f : file) (n : nat) : bytes := take (give k (pos f) n) (drop (pos f) (content f)).

(** The file as a Python stream object at its position. *)
Definition into (k : method) (f : file) (m : bytes) : result (option Z) * bytes :=
  let d := available k f (length m) in (Ok (Some (Z.of_nat (length d))), d).
Definition file_stream (f : file) : py_stream :=
  mkStream (if has_readinto1 then Some (into Readinto1 f) else None)
    (if has_readinto then Some (into Readinto f) else None)
    (if has_read1 then Some (fun n => Ok (available Read1 f n)) else None)
    (Some (fun n => Ok (available Read f n))).

(** A native read moves the position of the file by what was read; a file never
    reports more than it was asked for. *)
Definition read_file (free : bytes) : M (impl * file) bytes := fun '(i, f) =>
  match s_aws_input_stream_py_read (file_stream f) free i with
  | (Ok (Data d), i') => (Ok d, (i', mkFile (content f) (pos f + length d)))
  | (Ok _, i') => (Raise (RuntimeError "memory corrupted"), (i', f))
  | (Raise e, i') => (Raise e, (i', f))
  end.

(** A consumer with buffers of [size k] bytes reads until the status says end
    of stream. *)
Fixpoint read_all (fuel : nat) (size : nat -> nat) (acc : bytes) (s : impl * file) : option (bytes * (impl * file)) :=
  if s_aws_input_stream_py_get_status s.1 then Some (acc, s)
  else match fuel with
       | O => None
       | S k =>
           match read_file (repeat Byte.x00 (size k)) s with
           | (Ok d, s') => read_all k size (acc ++ d) s'
           | (Raise _, _) => None
           end
       end.

(** [seek] to the start, as a consumer that sends the body again does. *)
Definition rewind : M (impl * file) unit := fun '(i, f) =>
  match s_aws_input_stream_py_seek (Ok 0%nat) i with
  | (Ok p, i') => (Ok tt, (i', mkFile (content f) p))
  | (Raise e, i') => (Raise e, (i', f))
  end.

Lemma available_length k f n : (0 < n)%nat ->
  (length (available k f n) <= n)%nat /\
  (length (available k f n) = 0%nat -> drop (pos f) (content f) = []) /\
  drop (pos f) (content f) = available k f n ++ drop (pos f + length (available k f n)) (content f).
Proof.
  intros Hn. specialize (give_ok k (pos f) n Hn). unfold available.
  set (r := drop (pos f) (content f)). split_and!.
  - rewrite length_take. lia.
  - rewrite length_take. intros H0. apply nil_length_inv. lia.
  - rewrite <- drop_drop. fold r. rewrite length_take.
    rewrite <- (take_drop (give k (pos f) n) r) at 1. f_equal.
    destruct (Nat.min_spec (give k (pos f) n) (length r)) as [[H ->]|[H ->]]; [done|].
    rewrite !drop_ge by lia. done.
Qed.

(** The method that is called. *)
Definition preferred : method :=
  if has_readinto1 then Readinto1 else if has_readinto then Readinto else if has_read1 then Read1 else Read.

Lemma view_write_prefix m d : (length d <= length m)%nat -> view_write m d = d ++ drop (length d) m.
Proof. intros Hd. unfold view_write. by rewrite take_ge. Qed.

Lemma read_into_file f m : (0 < length m)%nat ->
  let d := available preferred f (length m) in
  _read_into_memoryview (file_stream f) m = (Ok (Some (Z.of_nat (length d))), d ++ drop (length d) m).
Proof.
  intros Hm. cbv zeta. destruct (available_length preferred f (length m) Hm) as (Hd & _). revert Hd.
  unfold _read_into_memoryview, file_stream, preferred, try_except, call_readinto, into, assign_prefix. simpl.
  destruct has_readinto1; [intros Hd; by rewrite view_write_prefix|].
  destruct has_readinto; [intros Hd; by rewrite view_write_prefix|]. munfold.
  destruct has_read1; intros Hd; by rewrite (proj2 (Nat.leb_le _ _) Hd).
Qed.

Lemma read_file_spec free i f : (0 < length free)%nat -> Z.of_nat (length free) < 2 ^ 63 ->
  let d := available preferred f (length free) in
  read_file free (i, f) =
  (Ok d, (if (length d =? 0)%nat then set_eof true i else i, mkFile (content f) (pos f + length d))).
Proof.
  intros Hn Hm. cbv zeta. destruct (available_length preferred f (length free) Hn) as (Hle & _ & _).
  unfold read_file, s_aws_input_stream_py_read. rewrite read_into_file by done.
  set (d := available preferred f (length free)) in *. unfold add_length, AsSsize_t. munfold.
  destruct (Z.leb_spec (- 2 ^ 63) (Z.of_nat (length d))), (Z.ltb_spec (Z.of_nat (length d)) (2 ^ 63)); try lia.
  cbn [andb]. destruct (Z.ltb_spec (Z.of_nat (length d)) 0); [lia|].
  destruct (Z.eqb_spec (Z.of_nat (length d)) 0), (Nat.eqb_spec (length d) 0) as [Hz|Hz]; try lia.
  - apply nil_length_inv in Hz. by rewrite Hz.
  - assert (length (d ++ drop (length d) free) = length free) as -> by (rewrite length_app, length_drop; lia).
    destruct (Z.leb_spec (Z.of_nat (length d)) (Z.of_nat (length free))); [|lia].
    by rewrite Nat2Z.id, take_app_length.
Qed.

Lemma read_all_spec fuel size acc i f :
  (forall k, (0 < size k)%nat /\ Z.of_nat (size k) < 2 ^ 63) -> is_end_of_stream i = false ->
  (length (drop (pos f) (content f)) < fuel)%nat ->
  exists i' f', read_all fuel size acc (i, f) = Some (acc ++ drop (pos f) (content f), (i', f')) /\
    is_end_of_stream i' = true /\ content f' = content f.
Proof.
  revert acc i f. induction fuel as [|k IH]; intros acc i f Hs He Hf; [lia|].
  cbn [read_all fst]. unfold s_aws_input_stream_py_get_status. rewrite He.
  destruct (Hs k) as [Hk1 Hk2]. rewrite read_file_spec by (by rewrite repeat_length). rewrite repeat_length.
  destruct (available_length preferred f (size k) Hk1) as (_ & H0 & Happ).
  cbn [fst snd]. cbv zeta. set (d := available preferred f (size k)) in *. destruct (Nat.eqb_spec (length d) 0) as [Hd|Hd].
  - exists (set_eof true i), (mkFile (content f) (pos f + length d)).
    rewrite (H0 Hd), app_nil_r in *. apply nil_length_inv in Hd. rewrite Hd, app_nil_r. by destruct k.
  - destruct (IH (acc ++ d) i (mkFile (content f) (pos f + length d)) Hs He) as (i' & f' & Hr & He' & Hc).
    { simpl. rewrite Happ, length_app in Hf. lia. }
    exists i', f'. split_and!; [|done|done]. rewrite Hr. simpl. by rewrite <- app_assoc, <- Happ.
Qed.

(** C31: A native consumer gets the whole stream and stops: whichever of the
    methods [readinto1], [readinto] and [read1] a blocking Python file has beside
    [read], and however few bytes each gives at a time, reading with non-empty
    buffers of any sizes ends within one read more than there
    are bytes left, with exactly the rest of the file, and reports end of stream
    only then; after a seek to the start the flag is clear, and the whole
    content is read again. *)
Theorem stream_read_to_end (size : nat -> nat) (fuel : nat) (f : file)
    (Hs : forall k, (0 < size k)%nat /\ Z.of_nat (size k) < 2 ^ 63) (Hf : (length (content f) < fuel)%nat) :
  exists i1 f1, read_all fuel size [] (input_stream_new, f) = Some (drop (pos f) (content f), (i1, f1)) /\
    is_end_of_stream i1 = true /\
    exists s2, rewind (i1, f1) = (Ok tt, s2) /\ is_end_of_stream s2.1 = false /\
      exists i3 f3, read_all fuel size [] s2 = Some (content f, (i3, f3)) /\ is_end_of_stream i3 = true.
Proof.
  destruct (read_all_spec fuel size [] input_stream_new f Hs eq_refl) as (i1 & f1 & H1 & He1 & Hc1).
  { rewrite length_drop. lia. }
  exists i1, f1. split_and!; [done|done|]. eexists. split_and!; [done|done|].
  destruct (read_all_spec fuel size [] (set_eof false i1) (mkFile (content f1) 0) Hs eq_refl) as (i3 & f3 & H3 & He3 & _).
  { simpl. rewrite drop_0, Hc1. done. }
  exists i3, f3. simpl in H3. rewrite drop_0, Hc1 in H3. split; [|done]. simpl. by rewrite Hc1.
Qed.
End File.

(** A file that gives one byte at a time through [readinto1] and more through
    the others, read through a buffer of two. *)
Definition demo_give (k : method) (_ n : nat) : nat := match k with Readinto1 => 1 | _ => n end.
Lemma stream_read_to_end_witness :
  exists s, read_all demo_give true true true 10 (fun _ => 2%nat) []
      (input_stream_new, mkFile [Byte.x61; Byte.x62; Byte.x63] 1) =
    Some ([Byte.x62; Byte.x63], s).
Proof.
  destruct (stream_read_to_end demo_give ltac:(intros [] p n; simpl; lia) true true true (fun _ => 2%nat) 10
    (mkFile [Byte.x61; Byte.x62; Byte.x63] 1) ltac:(intros; simpl; lia) ltac:(simpl; lia)) as (i1 & f1 & H1 & _).
  by exists (i1, f1).
Defined.

(** Two bytes read by [read], and a [readinto] that reports five of three. *)
Definition demo_read : py_stream := mkStream None None None (Some (fun _ => Ok [Byte.x61; Byte.x62])).
Definition demo_liar : py_stream := mkStream None (Some (fun _ => (Ok (Some 5), [Byte.x61]))) None None.
Lemma native_read_in_bounds_witness :
  (s_aws_input_stream_py_read demo_read [Byte.x00; Byte.x01; Byte.x02] input_stream_new).1 =
    Ok (Data [Byte.x61; Byte.x62]) /\
  (s_aws_input_stream_py_read demo_liar [Byte.x00; Byte.x01; Byte.x02] input_stream_new).1 = Ok (BeyondCapacity 5).
Proof.
  destruct (native_read_in_bounds demo_read [Byte.x00; Byte.x01; Byte.x02] input_stream_new ltac:(simpl; lia))
    as (_ & H1 & _).
  destruct (H1 eq_refl eq_refl) as [H2 _]. split; [exact (H2 _ (or_intror (conj eq_refl eq_refl)))|].
  destruct (native_read_in_bounds demo_liar [Byte.x00; Byte.x01; Byte.x02] input_stream_new ltac:(simpl; lia))
    as (H3 & _).
  destruct (H3 _ (or_intror (conj eq_refl eq_refl))) as (_ & H4 & _). apply H4. simpl. lia.
Defined.
End NativeInputStream.

(** ** Connection options of a TLS context, and small parts of awscrt/io.py *)
Module TlsConn.
Import Io.Tls.

(** A [TlsConnectionOptions] object: its context (by identity), and what the
    native options have of their own. *)
Record TlsConnectionOptions := mkOptions {
  tls_ctx : nat;
  native_alpn_list : option string;
  native_server_name : option string;
}.

Section TlsConn.
Context `{NativeErrors}.
(** The native layer's refusal of a value, if any. *)
Variables (alpn_error server_name_error : string -> option Z).

(** The native options start from the context. *)
Definition TlsConnectionOptions_init (ctx : nat) (ctx_alpn : option string) : TlsConnectionOptions :=
  mkOptions ctx ctx_alpn None.
Definition new_connection_options (self : nat) (ctx_alpn : option string) : TlsConnectionOptions :=
  TlsConnectionOptions_init self ctx_alpn.

(** The format [s] takes no None, which is what an empty list becomes. *)
Definition set_alpn_list (alpn_list : alpn_arg) : M TlsConnectionOptions unit :=
  let! o := lift (_alpn_list_to_str alpn_list) in
  match o with
  | None => raise (TypeError "argument 2 must be str, not None")
  | Some s => match alpn_error s with
              | Some e => raise (PyErr_AwsLastError e)
              | None => modify (fun c => mkOptions (tls_ctx c) (Some s) (native_server_name c))
              end
  end.

Definition set_server_name (server_name : string) : M TlsConnectionOptions unit :=
  match server_name_error server_name with
  | Some e => raise (PyErr_AwsLastError e)
  | None => modify (fun c => mkOptions (tls_ctx c) (native_alpn_list c) (Some server_name))
  end.

(** A list of protocols overrides the context's; the protocols can be told apart
    again when none contains a semicolon; an empty list is an error. *)
Lemma set_alpn_list_spec (l : list string) (c : TlsConnectionOptions)
    (Hl : Forall (fun p => PyStr.contains ";"%char p = false) l) :
  match l with
  | [] => set_alpn_list (AlpnList l) c = (Raise (TypeError "argument 2 must be str, not None"), c)
  | _ => exists s, PyStr.split ";"%char s = l /\
      set_alpn_list (AlpnList l) c =
      match alpn_error s with
      | Some e => (Raise (PyErr_AwsLastError e), c)
      | None => (Ok tt, mkOptions (tls_ctx c) (Some s) (native_server_name c))
      end
  end.
Proof.
  destruct l as [|p l]; [done|]. exists (PyStr.join ";"%char (p :: l)).
  split; [by apply PyStr.split_join|].
  unfold set_alpn_list, bind, lift, _alpn_list_to_str. by destruct (alpn_error _).
Qed.

(** [Pkcs11Lib]: the behaviour passed to the native library. *)
Definition Pkcs11Lib_init (native : string -> Z -> option Z) (file : string)
    (behavior : option InitializeFinalizeBehavior) : result Z :=
  let b := enum_value (default InitializeFinalizeBehavior.DEFAULT behavior) in
  match native file b with Some e => Raise (PyErr_AwsLastError e) | None => Ok b end.
End TlsConn.
End TlsConn.
