(* ===== verification/Http.v ===== *)
(** * awscrt/http.py: HTTP connections and streams

    - the enumerations, [Http2Setting] with its valid ranges ([Settings]);
    - [Headers]: iteration and lookup over the native header block;
    - [Conn]: [_HttpClientConnectionCore], the object that turns the native
      setup, shutdown and remote-settings callbacks into futures;
    - [HttpStream]: the client streams of HTTP/1 and HTTP/2 and their futures,
      and the futures of [write_data];
    - [Proxy]: [HttpProxyOptions]. *)
From S2P Require Import Prelude PyData Future Io.
Import Stdlib.Strings.Ascii.

Module HttpVersion.
Inductive HttpVersion :=
  | Unknown
  | Http1_0
  | Http1_1
  | Http2.
Definition HttpVersion_value (e : HttpVersion) : Z :=
  match e with
  | Unknown => 0
  | Http1_0 => 1
  | Http1_1 => 2
  | Http2 => 3
  end.
#[global] Instance HttpVersion_eq_dec : EqDecision HttpVersion.
Proof. solve_decision. Defined.
#[global] Instance HttpVersion_IntEnum : IntEnum HttpVersion.
Proof.
  refine {| enum_value := HttpVersion_value; enum_members := [Unknown; Http1_0; Http1_1; Http2] |}.
  - solve_enum_complete.
  - solve_enum_nodup.
Defined.
End HttpVersion.
Abbreviation HttpVersion := HttpVersion.HttpVersion.

Module Http2SettingID.
Inductive Http2SettingID :=
  | HEADER_TABLE_SIZE
  | ENABLE_PUSH
  | MAX_CONCURRENT_STREAMS
  | INITIAL_WINDOW_SIZE
  | MAX_FRAME_SIZE
  | MAX_HEADER_LIST_SIZE.
Definition Http2SettingID_value (e : Http2SettingID) : Z :=
  match e with
  | HEADER_TABLE_SIZE => 1
  | ENABLE_PUSH => 2
  | MAX_CONCURRENT_STREAMS => 3
  | INITIAL_WINDOW_SIZE => 4
  | MAX_FRAME_SIZE => 5
  | MAX_HEADER_LIST_SIZE => 6
  end.
#[global] Instance Http2SettingID_eq_dec : EqDecision Http2SettingID.
Proof. solve_decision. Defined.
#[global] Instance Http2SettingID_IntEnum : IntEnum Http2SettingID.
Proof.
  refine {| enum_value := Http2SettingID_value; enum_members := [HEADER_TABLE_SIZE; ENABLE_PUSH; MAX_CONCURRENT_STREAMS; INITIAL_WINDOW_SIZE; MAX_FRAME_SIZE; MAX_HEADER_LIST_SIZE] |}.
  - solve_enum_complete.
  - solve_enum_nodup.
Defined.
End Http2SettingID.
Abbreviation Http2SettingID := Http2SettingID.Http2SettingID.

Module HttpProxyConnectionType.
Inductive HttpProxyConnectionType :=
  | Legacy
  | Forwarding
  | Tunneling.
Definition HttpProxyConnectionType_value (e : HttpProxyConnectionType) : Z :=
  match e with
  | Legacy => 0
  | Forwarding => 1
  | Tunneling => 2
  end.
#[global] Instance HttpProxyConnectionType_eq_dec : EqDecision HttpProxyConnectionType.
Proof. solve_decision. Defined.
#[global] Instance HttpProxyConnectionType_IntEnum : IntEnum HttpProxyConnectionType.
Proof.
  refine {| enum_value := HttpProxyConnectionType_value; enum_members := [Legacy; Forwarding; Tunneling] |}.
  - solve_enum_complete.
  - solve_enum_nodup.
Defined.
End HttpProxyConnectionType.
Abbreviation HttpProxyConnectionType := HttpProxyConnectionType.HttpProxyConnectionType.

Module HttpProxyAuthenticationType.
Inductive HttpProxyAuthenticationType :=
  | Nothing
  | Basic.
Definition HttpProxyAuthenticationType_value (e : HttpProxyAuthenticationType) : Z :=
  match e with
  | Nothing => 0
  | Basic => 1
  end.
#[global] Instance HttpProxyAuthenticationType_eq_dec : EqDecision HttpProxyAuthenticationType.
Proof. solve_decision. Defined.
#[global] Instance HttpProxyAuthenticationType_IntEnum : IntEnum HttpProxyAuthenticationType.
Proof.
  refine {| enum_value := HttpProxyAuthenticationType_value; enum_members := [Nothing; Basic] |}.
  - solve_enum_complete.
  - solve_enum_nodup.
Defined.
End HttpProxyAuthenticationType.
Abbreviation HttpProxyAuthenticationType := HttpProxyAuthenticationType.HttpProxyAuthenticationType.

Module Proxy.
Record HttpProxyOptions := mk {
  host_name : string;
  port : Z;
  tls_connection_options : option Tls.TlsConnectionOptions;
  auth_type : HttpProxyAuthenticationType;
  auth_username : option string;
  auth_password : option string;
  connection_type : HttpProxyConnectionType;
}.
(** [HttpProxyOptions(host_name, port)] *)
Definition new (host_name : string) (port : Z) : HttpProxyOptions :=
  mk host_name port None HttpProxyAuthenticationType.Nothing None None
     HttpProxyConnectionType.Legacy.
End Proxy.

(** ** HTTP/2 settings *)
Module Settings.

Record Http2Setting := mk { id : Http2SettingID; value : Z }.
#[global] Instance Http2Setting_eq_dec : EqDecision Http2Setting.
Proof. solve_decision. Defined.

Definition VALID_RANGES (id : Http2SettingID) : Z * Z :=
  match id with
  | Http2SettingID.HEADER_TABLE_SIZE => (0, 2 ^ 32 - 1)
  | Http2SettingID.ENABLE_PUSH => (0, 1)
  | Http2SettingID.MAX_CONCURRENT_STREAMS => (0, 2 ^ 32 - 1)
  | Http2SettingID.INITIAL_WINDOW_SIZE => (0, 2 ^ 31 - 1)
  | Http2SettingID.MAX_FRAME_SIZE => (2 ^ 14, 2 ^ 24 - 1)
  | Http2SettingID.MAX_HEADER_LIST_SIZE => (0, 2 ^ 32 - 1)
  end.

Definition _validate_setting_value (id : Http2SettingID) (value : Z) : result unit :=
  let '(min_value, max_value) := VALID_RANGES id in
  if negb ((min_value <=? value) && (value <=? max_value))
  then Raise (ValueError "setting out of range") else Ok tt.

(** [Http2Setting(id, value)] *)
Definition Http2Setting_init (id : Http2SettingID) (value : Z) : result Http2Setting :=
  let? _ := _validate_setting_value id value in Ok (mk id value).

(** [[Http2Setting(Http2SettingID(id), value) for id, value in native_settings]] *)
Fixpoint of_native (native_settings : list (Z * Z)) : result (list Http2Setting) :=
  match native_settings with
  | [] => Ok []
  | (id, value) :: rest =>
      let? id := enum_call id in
      let? s := Http2Setting_init id value in
      let? ss := of_native rest in
      Ok (s :: ss)
  end.

(** [_HttpClientConnectionCore._on_remote_settings_changed]; the state is the
    list of settings the user's callback was given, [user] its behaviour. *)
Definition _on_remote_settings_changed (user : option (list Http2Setting -> result unit))
    (native_settings : list (Z * Z)) : M (list (list Http2Setting)) unit :=
  match user with
  | None => ret tt
  | Some cb =>
      let! settings := lift (of_native native_settings) in
      do! modify (fun calls => calls ++ [settings]);
      lift (cb settings)
  end.

Definition in_range (s : Http2Setting) : Prop :=
  (VALID_RANGES (id s)).1 <= value s <= (VALID_RANGES (id s)).2.

Lemma Http2Setting_init_spec i v s :
  Http2Setting_init i v = Ok s <-> s = mk i v /\ in_range (mk i v).
Proof.
  unfold Http2Setting_init, _validate_setting_value, in_range. simpl.
  destruct (VALID_RANGES i) as [lo hi]. simpl.
  destruct (Z.leb_spec lo v), (Z.leb_spec v hi); simpl; split;
    try (intros [= <-]; split; [done|lia]); try (by intros [-> ?]); try (intros [= ]);
    intros [? ?]; lia.
Qed.

Lemma of_native_spec l ss :
  of_native l = Ok ss <->
  l = map (fun s => (enum_value (id s), value s)) ss /\ Forall in_range ss.
Proof.
  revert ss. induction l as [|[i v] l IH]; intros ss; simpl.
  - split; [by intros [= <-] | intros [H _]; by destruct ss].
  - unfold enum_call. destruct (enum_of i) as [e|] eqn:Ee; simpl.
    + apply enum_of_spec in Ee. destruct (Http2Setting_init e v) as [s|x] eqn:Es; simpl.
      * pose proof (proj1 (Http2Setting_init_spec e v s) Es) as [-> Hr].
        destruct (of_native l) as [ss'|x] eqn:El; simpl.
        -- destruct (proj1 (IH ss') eq_refl) as [Hl Hf]. split.
           ++ intros [= <-]. simpl. rewrite Hl, <- Ee. split; [done|by constructor].
           ++ destruct ss as [|s2 ss2]; simpl; [by intros [? _]|].
              intros [[= H1 H2 H3] H4]. inversion H4; subst.
              assert (id s2 = e) as E' by (apply enum_value_inj; congruence).
              assert (Ok ss' = Ok ss2) as [= ->] by (apply IH; done). by destruct s2; simpl in *; subst.
        -- split; [done|]. destruct ss as [|s2 ss2]; simpl; [by intros [? _]|].
           intros [[= H1 H2 H3] H4]. inversion H4; subst.
           assert (Raise x = Ok ss2); [by apply IH | done].
      * split; [done|]. destruct ss as [|s2 ss2]; simpl; [by intros [? _]|].
        intros [[= H1 H2 H3] H4]. inversion H4; subst.
        assert (id s2 = e) as E' by (apply enum_value_inj; congruence). subst e.
        assert (Http2Setting_init (id s2) (value s2) = Ok s2); [|congruence].
        apply Http2Setting_init_spec. by destruct s2.
    + split; [done|]. destruct ss as [|s2 ss2]; simpl; [by intros [? _]|].
      intros [[= H1 H2 H3] _]. assert (enum_of i = Some (id s2)); [|congruence].
      by apply enum_of_spec.
Qed.

(** The settings the remote peer sent reach the user's callback in order,
    exactly once and unchanged, precisely when every one has a known identifier
    and a value in the range of RFC 9113; in every other case the handler raises
    before the callback is called. *)
Lemma remote_settings_delivered (cb : list Http2Setting -> result unit) (native : list (Z * Z))
    (calls : list (list Http2Setting)) :
  (forall ss, native = map (fun s => (enum_value (id s), value s)) ss -> Forall in_range ss ->
     _on_remote_settings_changed (Some cb) native calls = (cb ss, calls ++ [ss])) /\
  ((forall ss, native = map (fun s => (enum_value (id s), value s)) ss -> ~ Forall in_range ss) ->
     exists msg, _on_remote_settings_changed (Some cb) native calls = (Raise (ValueError msg), calls)).
Proof.
  unfold _on_remote_settings_changed. split.
  - intros ss Hn Hf. assert (of_native native = Ok ss) as E by (by apply of_native_spec).
    unfold bind, lift, modify. simpl. by rewrite E.
  - intros Hno. destruct (of_native native) as [ss|e] eqn:E.
    + apply of_native_spec in E as [Hn Hf]. by destruct (Hno ss Hn).
    + assert (exists msg, e = ValueError msg) as [msg ->].
      { clear Hno. revert e E. induction native as [|[i v] l IH]; intros e; simpl; [done|].
        unfold enum_call. destruct (enum_of i); simpl; [|intros [= <-]; by eexists].
        unfold Http2Setting_init, _validate_setting_value. destruct (VALID_RANGES _).
        destruct (negb _); simpl; [intros [= <-]; by eexists|].
        destruct (of_native l) as [|e'] eqn:E'; simpl; [done|]. intros [= <-]. by apply IH. }
      by exists msg.
Qed.
End Settings.

(** ** Header blocks *)
Module Headers.

(** ASCII-only case folding, which the native header block compares names with. *)
Definition ascii_lower_char (c : ascii) : ascii :=
  if (65 <=? PyStr.code c) && (PyStr.code c <=? 90) then ascii_of_N (Z.to_N (PyStr.code c + 32)) else c.
Fixpoint ascii_lower (s : string) : string :=
  match s with EmptyString => EmptyString | String a s' => String (ascii_lower_char a) (ascii_lower s') end.

(** A header the native layer stores as it is given: pseudo-headers go to the
    front of the block, and whitespace around a value is trimmed. *)
Definition is_http_space (c : ascii) : bool := (PyStr.code c =? 32) || (PyStr.code c =? 9).
Fixpoint ends_in_space (s : string) : bool :=
  match s with
  | EmptyString => false
  | String c EmptyString => is_http_space c
  | String _ s' => ends_in_space s'
  end.
Definition plain_header (p : string * string) : bool :=
  match p.1 with EmptyString => false | String c _ => negb (PyStr.code c =? 58) end &&
  match p.2 with EmptyString => true | String c _ => negb (is_http_space c) end &&
  negb (ends_in_space p.2).

(** The native header block: its count, indexed access (None: IndexError), the
    first value of a name and the end of the block under [add]. The laws are
    the documented behaviour of [aws_http_headers]. *)
Class NativeHeaders (H : Type) := {
  http_headers_new : H;
  http_headers_count : H -> nat;
  http_headers_get_index : H -> nat -> option (string * string);
  http_headers_get : H -> string -> option string;
  http_headers_add : H -> string -> string -> H;
  headers_items : H -> list (string * string);
  headers_count_law : forall h, http_headers_count h = length (headers_items h);
  headers_index_law : forall h i, http_headers_get_index h i = headers_items h !! i;
  headers_get_law : forall h n, http_headers_get h n =
    snd <$> List.find (fun p => bool_decide (ascii_lower p.1 = ascii_lower n)) (headers_items h);
  headers_new_law : headers_items http_headers_new = [];
  headers_add_law : forall h n v, plain_header (n, v) = true ->
    headers_items (http_headers_add h n v) = headers_items h ++ [(n, v)];
}.

Section Ops.
Context {H : Type} `{NativeHeaders H}.

(** [HttpHeaders(name_value_pairs)] and [add_pairs] *)
Definition add_pairs (h : H) (name_value_pairs : list (string * string)) : H :=
  fold_left (fun h '(n, v) => http_headers_add h n v) name_value_pairs h.
Definition HttpHeaders_init (name_value_pairs : option (list (string * string))) : H :=
  match name_value_pairs with
  | None | Some [] => http_headers_new
  | Some l => add_pairs http_headers_new l
  end.

Definition get_pair (h : H) (i : nat) : result (string * string) :=
  match http_headers_get_index h i with
  | Some p => Ok p
  | None => Raise (BuiltinError "IndexError")
  end.

(** The values the generator [get_values] yields, for the indices [idx]. *)
Fixpoint get_values_at (h : H) (name : string) (idx : list nat) : result (list string) :=
  match idx with
  | [] => Ok []
  | i :: idx' =>
      let? (name_i, value_i) := get_pair h i in
      let? rest := get_values_at h name idx' in
      Ok (if bool_decide (PyStr.lower name_i = name) then value_i :: rest else rest)
  end.
Definition get_values (h : H) (name : string) : result (list string) :=
  get_values_at h (PyStr.lower name) (seq 0 (http_headers_count h)).

Definition get (h : H) (name : string) (default : option string) : option string :=
  match http_headers_get h name with Some v => Some v | None => default end.

(** [__iter__] *)
Fixpoint iter_at (h : H) (idx : list nat) : result (list (string * string)) :=
  match idx with
  | [] => Ok []
  | i :: idx' => let? p := get_pair h i in let? rest := iter_at h idx' in Ok (p :: rest)
  end.
Definition iter (h : H) : result (list (string * string)) := iter_at h (seq 0 (http_headers_count h)).

Lemma add_pairs_items h l :
  forallb plain_header l = true -> headers_items (add_pairs h l) = headers_items h ++ l.
Proof.
  revert h. induction l as [|[n v] l IH]; intros h Hl; [by rewrite app_nil_r|].
  cbn [forallb] in Hl. apply andb_true_iff in Hl as [Hp Hl].
  change (headers_items (add_pairs (http_headers_add h n v) l) = headers_items h ++ (n, v) :: l).
  rewrite IH, headers_add_law, <- app_assoc by done. done.
Qed.

Lemma HttpHeaders_init_items o :
  (if o is Some l then forallb plain_header l = true else True) ->
  headers_items (HttpHeaders_init o) = match o with Some l => l | None => [] end.
Proof.
  destruct o as [[|p l]|]; cbn [HttpHeaders_init]; intros Hl; try apply headers_new_law.
  by rewrite add_pairs_items, headers_new_law.
Qed.

Lemma get_values_at_drop h name k l :
  headers_items h = k ++ l ->
  get_values_at h name (seq (length k) (length l)) =
  Ok (map snd (List.filter (fun p => bool_decide (PyStr.lower p.1 = name)) l)).
Proof.
  revert k. induction l as [|[n v] l IH]; intros k Hk; simpl; [done|].
  unfold get_pair. rewrite headers_index_law, Hk, list_lookup_middle by done. simpl.
  specialize (IH (k ++ [(n, v)])). rewrite length_app in IH. simpl in IH.
  rewrite Nat.add_1_r in IH. rewrite IH by (by rewrite Hk, <- app_assoc). simpl.
  by case_bool_decide.
Qed.

Lemma get_values_ok h name :
  get_values h name = Ok (map snd (List.filter
    (fun p => bool_decide (PyStr.lower p.1 = PyStr.lower name)) (headers_items h))).
Proof.
  unfold get_values. rewrite headers_count_law. by apply (get_values_at_drop h _ []).
Qed.

Lemma iter_at_drop h k l :
  headers_items h = k ++ l -> iter_at h (seq (length k) (length l)) = Ok l.
Proof.
  revert k. induction l as [|[n v] l IH]; intros k Hk; simpl; [done|].
  unfold get_pair. rewrite headers_index_law, Hk, list_lookup_middle by done. simpl.
  specialize (IH (k ++ [(n, v)])). rewrite length_app in IH. simpl in IH.
  rewrite Nat.add_1_r in IH. by rewrite IH by (by rewrite Hk, <- app_assoc).
Qed.
End Ops.

Definition is_ascii (s : string) : bool := PyStr.all_chars (fun c => PyStr.code c <? 128) s.

Lemma lower_char_ascii c : PyStr.code c < 128 -> PyStr.lower_char c = ascii_lower_char c.
Proof.
  intros Hc. unfold PyStr.lower_char, ascii_lower_char.
  destruct ((65 <=? PyStr.code c) && (PyStr.code c <=? 90)); [done|].
  destruct (Z.leb_spec 192 (PyStr.code c)); [lia|done].
Qed.

Lemma lower_ascii s : is_ascii s = true -> PyStr.lower s = ascii_lower s.
Proof.
  unfold is_ascii. induction s as [|c s IH]; simpl; [done|].
  rewrite andb_true_iff, Z.ltb_lt. intros [Hc Hs]. by rewrite lower_char_ascii, IH.
Qed.

Lemma find_filter_head {A} (p : A -> bool) l : List.find p l = head (List.filter p l).
Proof. induction l as [|x l IH]; simpl; [done|]. by destruct (p x). Qed.

(** Header lookup is complete and ordered: on a header block built from any
    list of pairs (none of them a pseudo-header, no whitespace around values),
    iteration gives back exactly these pairs, [get_values] never raises and yields, in order, every value whose name matches without regard
    to case, and [get] returns the first of them, or the default when there is
    none (names in ASCII, which is what HTTP allows; see
    [get_values_wider_than_get] for the others). *)
Lemma header_lookup {H} `{NativeHeaders H} (l : list (string * string)) (name : string)
    (default : option string)
    (Hp : forallb plain_header l = true)
    (Hl : forallb (fun p => is_ascii p.1) l = true) (Hn : is_ascii name = true) :
  let h := HttpHeaders_init (Some l) in
  iter h = Ok l /\
  exists vs, get_values h name = Ok vs /\
    vs = map snd (List.filter (fun p => bool_decide (ascii_lower p.1 = ascii_lower name)) l) /\
    get h name default = match vs with v :: _ => Some v | [] => default end.
Proof.
  cbv zeta. pose proof (HttpHeaders_init_items (H:=H) (Some l) Hp) as Hi. split.
  - unfold iter. rewrite headers_count_law. rewrite Hi.
    by apply (iter_at_drop (HttpHeaders_init (Some l)) [] l).
  - eexists. rewrite get_values_ok, Hi. split; [done|].
    assert (List.filter (fun p : string * string => bool_decide (PyStr.lower p.1 = PyStr.lower name)) l =
            List.filter (fun p => bool_decide (ascii_lower p.1 = ascii_lower name)) l) as ->.
    { apply List.filter_ext_in. intros p Hin. rewrite (lower_ascii name), lower_ascii; [done| |done].
      rewrite forallb_forall in Hl. by apply Hl. }
    split; [done|]. unfold get. rewrite headers_get_law, Hi, find_filter_head.
    by destruct (List.filter _ l).
Qed.

(** The header block as the list of its pairs. *)
#[global] Instance list_headers : NativeHeaders (list (string * string)).
Proof.
  refine {|
    http_headers_new := []; http_headers_count := length;
    http_headers_get_index := fun h i => h !! i;
    http_headers_get := fun h n =>
      snd <$> List.find (fun p => bool_decide (ascii_lower p.1 = ascii_lower n)) h;
    http_headers_add := fun h n v => h ++ [(n, v)];
    headers_items := fun h => h |}; done.
Defined.

Lemma header_lookup_witness :
  get (H:=list (string * string)) (HttpHeaders_init (Some [("Host", "a"); ("hOST", "b")]%string))
    "HOST"%string None = Some "a"%string.
Proof.
  destruct (header_lookup (H:=list (string * string)) [("Host", "a"); ("hOST", "b")]%string
    "HOST"%string None ltac:(vm_compute; reflexivity) ltac:(vm_compute; reflexivity) ltac:(vm_compute; reflexivity))
    as [_ (vs & _ & -> & Hg)].
  rewrite Hg. vm_compute. reflexivity.
Defined.

(** On names outside ASCII the two lookups differ: [str.lower] folds a Latin-1
    capital that the native comparison leaves alone. *)
Definition E_acute : string := String (ascii_of_N 201) EmptyString.
Definition e_acute : string := String (ascii_of_N 233) EmptyString.
Example get_values_wider_than_get :
  get_values (H:=list (string * string)) [(E_acute, "v"%string)] e_acute = Ok ["v"%string] /\
  get (H:=list (string * string)) [(E_acute, "v"%string)] e_acute None = None.
Proof. vm_compute. done. Qed.
End Headers.

(** ** Client connections *)
Module Conn.

(** A connection object; [binding] stands for the native capsule. *)
Record connection := mkConnection {
  conn_is_http2 : bool;        (** Http2ClientConnection or HttpClientConnection *)
  conn_is_asyncio : bool;      (** the awscrt.aio variant of the class *)
  _host_name : string;
  _port : Z;
  _binding : nat;
  _version : HttpVersion;
}.
#[global] Instance connection_eq_dec : EqDecision connection.
Proof. solve_decision. Defined.

(** [_HttpClientConnectionCore]. [connect_future] is the future the user got;
    [has_connect_future] says that the attribute still refers to it (it is set
    to None after a successful setup); [_shutdown_future] is the attribute (None
    until a connection exists), the future itself being the connection's. *)
Record core := mkCore {
  host_name : string;
  port : Z;
  expected_version : option HttpVersion;
  asyncio_connection : bool;
  has_connect_future : bool;
  connect_future : future connection;
  _shutdown_future : option (future unit);
}.

Definition connect_l : lens core (future connection) := Lens connect_future
  (fun f c => mkCore (host_name c) (port c) (expected_version c) (asyncio_connection c)
                     (has_connect_future c) f (_shutdown_future c)).
Definition set_has_connect_future (b : bool) (c : core) : core :=
  mkCore (host_name c) (port c) (expected_version c) (asyncio_connection c) b
         (connect_future c) (_shutdown_future c).
Definition set_shutdown_future (f : option (future unit)) (c : core) : core :=
  mkCore (host_name c) (port c) (expected_version c) (asyncio_connection c)
         (has_connect_future c) (connect_future c) f.

Section Handlers.
Context `{NativeErrors}.

(** [self._expected_version and self._expected_version != http_version]
    (HttpVersion.Unknown is 0, so it is false) *)
Definition version_mismatch (expected : option HttpVersion) (http_version : Z) : bool :=
  match expected with
  | Some v => negb (enum_value v =? 0) && negb (enum_value v =? http_version)
  | None => false
  end.

Definition _on_connection_setup (binding : nat) (error_code http_version : Z) : M core unit :=
  let! has := gets has_connect_future in
  if negb has then ret tt
  else if negb (error_code =? 0) then set_exception connect_l (from_code error_code)
  else
    let! expected := gets expected_version in
    if version_mismatch expected http_version then set_exception connect_l (from_code 2060)
    else
      let! c := gets (fun c => c) in
      let is_http2 := http_version =? enum_value HttpVersion.Http2 in
      let! version := lift (enum_call http_version) in
      let connection :=
        mkConnection is_http2 (asyncio_connection c) (host_name c) (port c) binding version in
      do! modify (set_shutdown_future (Some Pending));
      do! set_result connect_l connection;
      modify (set_has_connect_future false).

Definition _on_shutdown (error_code : Z) : M core unit :=
  let! sf := gets _shutdown_future in
  match sf with
  | None => ret tt
  | Some f =>
      let! f' := lift (Fut.complete (outcome_of error_code tt) f) in
      modify (set_shutdown_future (Some f'))
  end.

(** The arguments of [_awscrt.http_client_connection_new] other than the
    bootstrap, the socket options and the core itself. *)
Record new_args := mkArgs {
  a_host_name : string;
  a_port : Z;
  tls_connection_options : option Tls.TlsConnectionOptions;
  proxy_options : option Proxy.HttpProxyOptions;
  initial_settings : option (list Settings.Http2Setting);
  manual_window_management : bool;
  initial_window_size : option Z;
  read_buffer_capacity : option Z;
  conn_manual_window_management : bool;
  conn_window_size_threshold : option Z;
  stream_window_size_threshold : option Z;
}.

(** [HttpClientConnectionBase._generic_new], up to the moment it returns: the
    core holds the future that is returned. [get_bootstrap] is the default
    bootstrap's creation (skipped when the caller passes one) and [native] the
    native constructor. *)
Definition _generic_new (bootstrap : option nat) (get_bootstrap : result nat)
    (native : nat -> new_args -> result unit) (args : new_args)
    (expected_version : option HttpVersion) (asyncio_connection : bool) : result core :=
  let? _ := assert_that (negb (manual_window_management args) ||
                         bool_decide (initial_window_size args <> None)) in
  let c := mkCore (a_host_name args) (a_port args) expected_version asyncio_connection true
                  Pending None in
  match (let? b := match bootstrap with Some b => Ok b | None => get_bootstrap end in
         native b args) with
  | Ok _ => Ok c
  | Raise e => if is_Exception e then Ok (update connect_l (Finished (Raise e)) c) else Raise e
  end.

(** [HttpClientConnection.new] and [Http2ClientConnection.new] *)
Definition HttpClientConnection_new (host : string) (port : Z) (bootstrap : option nat)
    (get_bootstrap : result nat) (native : nat -> new_args -> result unit)
    (tls : option Tls.TlsConnectionOptions) (proxy : option Proxy.HttpProxyOptions)
    (manual_window_management : bool) (initial_window_size read_buffer_capacity : option Z)
    : result core :=
  _generic_new bootstrap get_bootstrap native
    (mkArgs host port tls proxy None manual_window_management initial_window_size
            read_buffer_capacity false None None) None false.

Definition Http2ClientConnection_new (host : string) (port : Z) (bootstrap : option nat)
    (get_bootstrap : result nat) (native : nat -> new_args -> result unit)
    (tls : option Tls.TlsConnectionOptions) (proxy : option Proxy.HttpProxyOptions)
    (initial_settings : option (list Settings.Http2Setting))
    (manual_window_management : bool) (initial_window_size : option Z)
    (conn_manual_window_management : bool)
    (conn_window_size_threshold stream_window_size_threshold : option Z) : result core :=
  _generic_new bootstrap get_bootstrap native
    (mkArgs host port tls proxy initial_settings manual_window_management initial_window_size
            None conn_manual_window_management conn_window_size_threshold
            stream_window_size_threshold) (Some HttpVersion.Http2) false.

(** *** What setup and shutdown do *)

(** What the user's future must end up with after a setup callback: the error, or
    the connection, unless a version was asked for and it is another. *)
Definition setup_outcome (c : core) (binding : nat) (error_code : Z) (version : HttpVersion)
    : result connection :=
  if bool_decide (error_code <> 0) then Raise (from_code error_code)
  else if bool_decide (expected_version c = None \/ expected_version c = Some HttpVersion.Unknown \/
                       expected_version c = Some version)
  then Ok (mkConnection (bool_decide (version = HttpVersion.Http2)) (asyncio_connection c)
                        (host_name c) (port c) binding version)
  else Raise (from_code 2060).

Definition fresh (c : core) : Prop :=
  has_connect_future c = true /\ _shutdown_future c = None.

Lemma http2_test v : (enum_value v =? enum_value HttpVersion.Http2) = bool_decide (v = HttpVersion.Http2).
Proof. by destruct v. Qed.
Lemma version_mismatch_spec expected v : version_mismatch expected (enum_value v) =
  negb (bool_decide (expected = None \/ expected = Some HttpVersion.Unknown \/ expected = Some v)).
Proof. destruct expected as [[]|]; by destruct v. Qed.

(** The setup handler, whether or not the user has cancelled the connect future. *)
Lemma setup_any c b ec v : fresh c ->
  let out := setup_outcome c b ec v in
  let (r, c') := _on_connection_setup b ec (enum_value v) c in
  r = (if Fut.done (connect_future c) then Raise InvalidStateError else Ok tt) /\
  connect_future c' = (if Fut.done (connect_future c) then connect_future c else Finished out) /\
  _shutdown_future c' = (if is_ok out then Some Pending else None) /\
  has_connect_future c' = negb (is_ok out && negb (Fut.done (connect_future c))).
Proof.
  intros [Hh Hs]. unfold _on_connection_setup, setup_outcome. munfold. cbv zeta. rewrite Hh. simpl.
  unfold set_exception, set_result, fut_complete.
  destruct (Z.eqb_spec ec 0) as [->|He]; simpl.
  - rewrite version_mismatch_spec.
    destruct (bool_decide (_ \/ _)); simpl.
    + rewrite enum_call_value. simpl. rewrite http2_test. by destruct (connect_future c) eqn:E; simpl; rewrite ?Hh, ?Hs, ?E.
    + by destruct (connect_future c) eqn:E; simpl; rewrite ?Hh, ?Hs, ?E.
  - rewrite bool_decide_true by done. by destruct (connect_future c) eqn:E; simpl; rewrite ?Hh, ?Hs, ?E.
Qed.

Lemma setup_run c b ec v :
  fresh c -> Fut.done (connect_future c) = false ->
  exists c', _on_connection_setup b ec (enum_value v) c = (Ok tt, c') /\
    connect_future c' = Finished (setup_outcome c b ec v) /\
    _shutdown_future c' = (if is_ok (setup_outcome c b ec v) then Some Pending else None) /\
    has_connect_future c' = negb (is_ok (setup_outcome c b ec v)).
Proof.
  intros Hf Hd. pose proof (setup_any c b ec v Hf) as Hs. cbv zeta in Hs. rewrite Hd in Hs.
  destruct (_on_connection_setup _ _ _ _) as [r c']. destruct Hs as (-> & H1 & H2 & H3).
  exists c'. rewrite andb_true_r in H3. done.
Qed.

(** [connection.shutdown_future.cancel()] by the user *)
Definition cancel_shutdown (c : core) : core := set_shutdown_future (snd ∘ Fut.cancel <$> _shutdown_future c) c.

(** C18: A connection attempt is resolved exactly once and correctly. Whatever
    the native layer reports at setup, the user's connect future gets exactly that:
    the error, error 2060 when a protocol version was asked for and it is another,
    else a connection object of the class of its version; and a shutdown future
    exists, and is pending, only in that case. The shutdown callback completes the
    shutdown future of an existing connection with the reason, and does nothing
    when there is none. Neither handler raises unless the user has cancelled the
    future it settles, which then stays cancelled; a cancelled connect future does
    not keep the shutdown of the connection from being reported. *)
Theorem connection_lifecycle (c : core) (binding : nat) (setup_error shutdown_error : Z)
    (version : HttpVersion) (cancels : bool)
    (Hf : fresh c) (Hp : connect_future c = Pending \/ connect_future c = Cancelled) :
  let outcome := setup_outcome c binding setup_error version in
  let (r1, c1) := _on_connection_setup binding setup_error (enum_value version) c in
  let (r2, c2) := _on_shutdown shutdown_error (if cancels then cancel_shutdown c1 else c1) in
  (if bool_decide (connect_future c = Cancelled)
   then r1 = Raise InvalidStateError /\ connect_future c2 = Cancelled
   else r1 = Ok tt /\ connect_future c2 = Finished outcome) /\
  _shutdown_future c1 = (if is_ok outcome then Some Pending else None) /\
  (if negb (is_ok outcome) then r2 = Ok tt /\ _shutdown_future c2 = None
   else if cancels then r2 = Raise InvalidStateError /\ _shutdown_future c2 = Some Cancelled
   else r2 = Ok tt /\ _shutdown_future c2 = Some (Finished
          (if shutdown_error =? 0 then Ok tt else Raise (from_code shutdown_error)))).
Proof.
  cbv zeta. pose proof (setup_any c binding setup_error version Hf) as Hs. cbv zeta in Hs.
  destruct (_on_connection_setup _ _ _ _) as [r1 c1]. destruct Hs as (-> & H1 & H2 & _).
  unfold _on_shutdown, cancel_shutdown. munfold. rewrite <- outcome_of_eqb.
  destruct (is_ok (setup_outcome _ _ _ _)), cancels; cbn; rewrite ?H2; cbn; rewrite ?H2; cbn;
    destruct Hp as [Hp|Hp]; rewrite Hp in H1 |- *; cbn; rewrite ?H1; done.
Qed.
End Handlers.

Definition demo_core : core := mkCore "localhost" 443 (Some HttpVersion.Http2) false true Pending None.

Lemma connection_lifecycle_witness :
  let c1 := (_on_connection_setup (H:=demo_errors) 7 0 3 demo_core).2 in
  let c2 := (_on_shutdown (H:=demo_errors) 9 c1).2 in
  connect_future c2 = Finished (Ok (mkConnection true false "localhost" 443 7 HttpVersion.Http2)) /\
  _shutdown_future c2 = Some (Finished (Raise (from_code (H:=demo_errors) 9))).
Proof.
  destruct (connection_lifecycle (H:=demo_errors) demo_core 7 0 9 HttpVersion.Http2 false
    (conj eq_refl eq_refl) (or_introl eq_refl)) as ((_ & H1) & _ & _ & H2).
  split; [exact H1|exact H2].
Defined.

(** HTTP/1.1 where HTTP/2 was asked for. *)
Example unexpected_version :
  connect_future (_on_connection_setup (H:=demo_errors) 7 0 2 demo_core).2 =
  Finished (Raise (from_code (H:=demo_errors) 2060)).
Proof. done. Qed.
End Conn.

(** ** Client streams *)
Module HttpStream.

Inductive call :=
  | OnResponse (status_code : Z) (headers : list (string * string))
  | OnBody (chunk : list Byte.byte).

(** [HttpClientStream] or [Http2ClientStream]; [calls] records the user
    callbacks invoked so far. [remote_end_stream_future] exists on HTTP/2 only. *)
Record stream := mkStream {
  is_http2 : bool;
  response_status_code : option Z;
  has_request : bool;
  completion_future : future (option Z);
  remote_end_stream_future : future unit;
  calls : list call;
}.

Definition completion_l : lens stream (future (option Z)) := Lens completion_future
  (fun f s => mkStream (is_http2 s) (response_status_code s) (has_request s) f
                       (remote_end_stream_future s) (calls s)).
Definition remote_l : lens stream (future unit) := Lens remote_end_stream_future
  (fun f s => mkStream (is_http2 s) (response_status_code s) (has_request s)
                       (completion_future s) f (calls s)).
Definition set_status (z : Z) (s : stream) : stream :=
  mkStream (is_http2 s) (Some z) (has_request s) (completion_future s)
           (remote_end_stream_future s) (calls s).
Definition drop_request (s : stream) : stream :=
  mkStream (is_http2 s) (response_status_code s) false (completion_future s)
           (remote_end_stream_future s) (calls s).
Definition log_call (c : call) (s : stream) : stream :=
  mkStream (is_http2 s) (response_status_code s) (has_request s) (completion_future s)
           (remote_end_stream_future s) (calls s ++ [c]).

(** Both futures are public, and nothing stops the user from cancelling them: at
    any time, also while a callback of the event loop is between two of its
    statements. [others ws] is what other threads (or callbacks added to a
    future) do there. *)
Inductive which := CompletionFuture | RemoteEndFuture.
#[global] Instance which_eq_dec : EqDecision which.
Proof. solve_decision. Defined.
Definition user_cancel (s : stream) (w : which) : stream :=
  match w with
  | CompletionFuture => update completion_l (Fut.cancel (completion_future s)).2 s
  | RemoteEndFuture => update remote_l (Fut.cancel (remote_end_stream_future s)).2 s
  end.
Definition others (ws : list which) : M stream unit := modify (fold_left user_cancel ws).

Section Handlers.
Context `{NativeErrors}.
(** The user's callbacks, which may raise. *)
Variables (on_response on_body : option (call -> result unit)).

(** [_init_common] and [Http2ClientStream.__init__] *)
Definition stream_init (http2 : bool) : stream :=
  mkStream http2 None true Pending Pending [].

Definition call_user (cb : option (call -> result unit)) (c : call) : M stream unit :=
  match cb with
  | None => ret tt
  | Some f => do! modify (log_call c); lift (f c)
  end.

Definition _on_body (chunk : list Byte.byte) : M stream unit := call_user on_body (OnBody chunk).

Definition _on_response (status_code : Z) (name_value_pairs : list (string * string)) : M stream unit :=
  do! modify (set_status status_code);
  call_user on_response (OnResponse status_code name_value_pairs).

(** [if error_code == 0: set_result(status) else: set_exception(...)] *)
Definition complete_with_status (error_code : Z) : M stream unit :=
  let! status := gets response_status_code in
  fut_complete completion_l (outcome_of error_code status).

Definition HttpClientStreamBase_on_complete (ws : list which) (error_code : Z) : M stream unit :=
  do! modify drop_request;
  do! others ws;
  complete_with_status error_code.

(** [if not done(): set_result(None)], [ws] in between *)
Definition Http2ClientStream_on_h2_remote_end_stream (ws : list which) : M stream unit :=
  let! f := gets remote_end_stream_future in
  do! others ws;
  if negb (Fut.done f) then set_result remote_l tt else ret tt.

(** [ws1]: between the test of the remote-end future and its [set_exception];
    [ws2]: between that and the completion future. *)
Definition Http2ClientStream_on_complete (ws1 ws2 : list which) (error_code : Z) : M stream unit :=
  do! modify drop_request;
  let! f := gets remote_end_stream_future in
  do! others ws1;
  when! (negb (Fut.done f)) then
    set_exception remote_l (RuntimeError "Stream completed without receiving remote END_STREAM");
  do! others ws2;
  complete_with_status error_code.

(** Dispatch on the class of the stream. *)
Definition _on_complete (ws1 ws2 : list which) (error_code : Z) : M stream unit :=
  let! h2 := gets is_http2 in
  if h2 then Http2ClientStream_on_complete ws1 ws2 error_code
  else HttpClientStreamBase_on_complete (ws1 ++ ws2) error_code.
Definition _on_h2_remote_end_stream (ws : list which) : M stream unit :=
  let! h2 := gets is_http2 in
  if h2 then Http2ClientStream_on_h2_remote_end_stream ws else others ws.

(** What happens to a stream before its completion: native events (an exception
    of a handler goes back to the binding, the state stays), and the user
    cancelling a future. *)
Inductive event :=
  | Response (status_code : Z) (headers : list (string * string))
  | Body (chunk : list Byte.byte)
  | RemoteEndStream (meanwhile : list which)
  | UserCancels (w : which).

Definition handle (e : event) (s : stream) : stream :=
  match e with
  | Response z hs => (_on_response z hs s).2
  | Body b => (_on_body b s).2
  | RemoteEndStream ws => (_on_h2_remote_end_stream ws s).2
  | UserCancels w => user_cancel s w
  end.
Definition run (l : list event) (s : stream) : stream := fold_left (fun s e => handle e s) l s.

(** *** What must come of it *)

Definition next_status (acc : option Z) (e : event) : option Z :=
  match e with Response z _ => Some z | _ => acc end.
(** The status of the last response event. *)
Definition last_status (l : list event) : option Z := fold_left next_status l None.

(** The user callbacks a sequence of events must lead to. *)
Definition expected_calls (l : list event) : list call :=
  flat_map (fun e => match e with
    | Response z hs => if on_response is Some _ then [OnResponse z hs] else []
    | Body b => if on_body is Some _ then [OnBody b] else []
    | _ => [] end) l.

(** Whether the user cancels the future [w] along the way. *)
Definition cancels (w : which) (l : list event) : bool :=
  existsb (fun e => match e with
    | UserCancels w' => bool_decide (w = w')
    | RemoteEndStream ws => bool_decide (w ∈ ws)
    | _ => false end) l.

(** The remote-end future of an HTTP/2 stream: what comes first settles it. *)
Fixpoint remote_outcome (l : list event) : future unit :=
  match l with
  | [] => Pending
  | RemoteEndStream ws :: _ => if bool_decide (RemoteEndFuture ∈ ws) then Cancelled else Finished (Ok tt)
  | UserCancels RemoteEndFuture :: _ => Cancelled
  | _ :: l' => remote_outcome l'
  end.

Definition cancel_if {V} (b : bool) (f : future V) : future V := if b then (Fut.cancel f).2 else f.
Lemma cancel_if_if {V} a b (f : future V) : cancel_if a (cancel_if b f) = cancel_if (a || b) f.
Proof. by destruct a, b, f. Qed.

Lemma others_spec ws s :
  fold_left user_cancel ws s = mkStream (is_http2 s) (response_status_code s) (has_request s)
    (cancel_if (bool_decide (CompletionFuture ∈ ws)) (completion_future s))
    (cancel_if (bool_decide (RemoteEndFuture ∈ ws)) (remote_end_stream_future s)) (calls s).
Proof.
  revert s. induction ws as [|w ws IH]; intros s; cbn [fold_left].
  - rewrite !bool_decide_false by set_solver. by destruct s.
  - rewrite IH. destruct w; cbn.
    + change (Fut.cancel (completion_future s)).2 with (cancel_if true (completion_future s)).
      rewrite cancel_if_if, orb_true_r. rewrite (bool_decide_true (CompletionFuture ∈ _ :: _)) by set_solver.
      f_equal. f_equal. apply bool_decide_ext. set_solver.
    + change (Fut.cancel (remote_end_stream_future s)).2 with (cancel_if true (remote_end_stream_future s)).
      rewrite cancel_if_if, orb_true_r. rewrite (bool_decide_true (RemoteEndFuture ∈ _ :: _)) by set_solver.
      f_equal. f_equal. apply bool_decide_ext. set_solver.
Qed.

Lemma call_user_state cb c s :
  (call_user cb c s).2 = if cb is Some _ then log_call c s else s.
Proof. destruct cb as [f|]; unfold call_user; munfold; [by destruct (f c)|done]. Qed.

Lemma remote_end_state ws s :
  (_on_h2_remote_end_stream ws s).2 =
  let s1 := fold_left user_cancel ws s in
  if is_http2 s && negb (Fut.done (remote_end_stream_future s)) && negb (Fut.done (remote_end_stream_future s1))
  then update remote_l (Finished (Ok tt)) s1 else s1.
Proof.
  unfold _on_h2_remote_end_stream, Http2ClientStream_on_h2_remote_end_stream, others. munfold. cbv zeta.
  destruct (is_http2 s); [|done]. destruct (Fut.done (remote_end_stream_future s)); [done|].
  unfold set_result. cbn [negb andb]. destruct (Fut.done _) eqn:Hd; cbn [negb].
  - by rewrite fut_complete_done.
  - by rewrite fut_complete_ok.
Qed.

(** One event, read off the stream. *)
Lemma handle_spec e s :
  is_http2 (handle e s) = is_http2 s /\
  response_status_code (handle e s) = next_status (response_status_code s) e /\
  calls (handle e s) = calls s ++ expected_calls [e] /\
  completion_future (handle e s) = cancel_if (cancels CompletionFuture [e]) (completion_future s).
Proof.
  unfold expected_calls, cancels. destruct e as [z hs|b|ws|w]; cbn [handle flat_map existsb].
  - unfold _on_response. munfold. rewrite call_user_state. destruct on_response; simpl; rewrite ?app_nil_r; done.
  - unfold _on_body. rewrite call_user_state. destruct on_body; simpl; rewrite ?app_nil_r; done.
  - rewrite remote_end_state, others_spec. cbv zeta. destruct (_ && _); simpl; by rewrite orb_false_r, app_nil_r.
  - destruct w; simpl; by rewrite app_nil_r.
Qed.

Lemma handle_remote e s : is_http2 s = true -> remote_end_stream_future s <> Running ->
  remote_end_stream_future (handle e s) =
  if Fut.done (remote_end_stream_future s) then remote_end_stream_future s else remote_outcome [e].
Proof.
  intros Hh Hr. destruct e as [z hs|b|ws|w]; cbn [handle].
  - unfold _on_response. munfold. rewrite call_user_state. by destruct on_response; simpl; destruct (remote_end_stream_future s).
  - unfold _on_body. rewrite call_user_state. by destruct on_body; simpl; destruct (remote_end_stream_future s).
  - rewrite remote_end_state, others_spec, Hh. cbv zeta. simpl.
    by destruct (remote_end_stream_future s), (bool_decide (RemoteEndFuture ∈ ws)).
  - by destruct w; simpl; destruct (remote_end_stream_future s).
Qed.

Lemma run_state l s :
  is_http2 (run l s) = is_http2 s /\
  response_status_code (run l s) = fold_left next_status l (response_status_code s) /\
  calls (run l s) = calls s ++ expected_calls l /\
  completion_future (run l s) = cancel_if (cancels CompletionFuture l) (completion_future s).
Proof.
  revert s. induction l as [|e l IH]; intros s; [by rewrite app_nil_r|].
  destruct (IH (handle e s)) as (A1 & A2 & A3 & A4), (handle_spec e s) as (B1 & B2 & B3 & B4).
  cbn [run fold_left]. unfold run in *. rewrite A1, A2, A3, A4, B1, B2, B3, B4.
  split_and!; [done|done| |].
  - unfold expected_calls. cbn [flat_map]. by rewrite app_nil_r, app_assoc.
  - rewrite cancel_if_if. f_equal. unfold cancels. cbn [existsb]. by rewrite orb_false_r, orb_comm.
Qed.

Lemma remote_outcome_cons e l :
  remote_outcome (e :: l) = if Fut.done (remote_outcome [e]) then remote_outcome [e] else remote_outcome l.
Proof. destruct e as [| |ws|[]]; simpl; try done. by case_bool_decide. Qed.
Lemma remote_outcome_not_running l : remote_outcome l <> Running.
Proof. induction l as [|[| |ws|[]] l IH]; simpl; try done. by case_bool_decide. Qed.

Lemma run_remote l s : is_http2 s = true -> remote_end_stream_future s <> Running ->
  remote_end_stream_future (run l s) =
  if Fut.done (remote_end_stream_future s) then remote_end_stream_future s else remote_outcome l.
Proof.
  revert s. induction l as [|e l IH]; intros s Hh Hr; [by destruct (remote_end_stream_future s) eqn:E; simpl; rewrite ?E|].
  pose proof (handle_remote e s Hh Hr) as He. cbn [run fold_left]. unfold run in IH.
  rewrite IH; [|by destruct (handle_spec e s) as (-> & _)|].
  - rewrite He, (remote_outcome_cons e l). destruct (Fut.done (remote_end_stream_future s)) eqn:Hd; [by rewrite Hd|done].
  - rewrite He. destruct (Fut.done _); [done|apply remote_outcome_not_running].
Qed.

(** *** Completion *)

Lemma complete_with_status_run ec s :
  complete_with_status ec s =
  if Fut.done (completion_future s) then (Raise InvalidStateError, s)
  else (Ok tt, update completion_l (Finished (outcome_of ec (response_status_code s))) s).
Proof.
  unfold complete_with_status, bind, gets. destruct (Fut.done _) eqn:Hd.
  - by apply fut_complete_done.
  - by apply fut_complete_ok.
Qed.

(** [HttpClientStreamBase._on_complete], and that of an HTTP/2 stream whose
    remote-end future is settled. *)
Lemma base_complete_run ws ec s :
  HttpClientStreamBase_on_complete ws ec s =
  let s1 := fold_left user_cancel ws (drop_request s) in
  if Fut.done (completion_future s1) then (Raise InvalidStateError, s1)
  else (Ok tt, update completion_l (Finished (outcome_of ec (response_status_code s))) s1).
Proof.
  unfold HttpClientStreamBase_on_complete, others. munfold. rewrite complete_with_status_run, others_spec. done.
Qed.

Definition no_end_stream : py_exn := RuntimeError "Stream completed without receiving remote END_STREAM".

Lemma Http2_complete_run ws1 ws2 ec s :
  Http2ClientStream_on_complete ws1 ws2 ec s =
  let s1 := fold_left user_cancel ws1 (drop_request s) in
  if Fut.done (remote_end_stream_future s) then HttpClientStreamBase_on_complete ws2 ec s1
  else if Fut.done (remote_end_stream_future s1) then (Raise InvalidStateError, s1)
  else HttpClientStreamBase_on_complete ws2 ec (update remote_l (Finished (Raise no_end_stream)) s1).
Proof.
  unfold Http2ClientStream_on_complete, HttpClientStreamBase_on_complete, others, set_exception. munfold.
  cbv zeta. assert (forall s1, has_request s1 = false -> drop_request s1 = s1) as Hdrop
    by (intros [] Hr; simpl in *; by subst).
  assert (has_request (fold_left user_cancel ws1 (drop_request s)) = false) as Hr by (by rewrite others_spec).
  change (remote_end_stream_future (drop_request s)) with (remote_end_stream_future s).
  revert Hr. generalize (fold_left user_cancel ws1 (drop_request s)). intros s1 Hr.
  destruct (Fut.done (remote_end_stream_future s)); cbn [negb]; [by rewrite (Hdrop _ Hr)|].
  destruct (Fut.done (remote_end_stream_future s1)) eqn:Hd; [by rewrite fut_complete_done|].
  rewrite fut_complete_ok by done. cbn. by rewrite Hr.
Qed.

(** The race: the test of the remote-end future finds it open, and the user
    cancels it before it is completed. *)
Definition race (http2 : bool) (l : list event) (ws1 : list which) : bool :=
  http2 && negb (Fut.done (remote_outcome l)) && bool_decide (RemoteEndFuture ∈ ws1).

(** How the completion future ends up, and whether the completion callback
    raises. *)
Definition completion_outcome (http2 : bool) (l : list event) (ws1 ws2 : list which) (error_code : Z)
    : result unit * future (option Z) :=
  if cancels CompletionFuture l || bool_decide (CompletionFuture ∈ ws1) then (Raise InvalidStateError, Cancelled)
  else if race http2 l ws1 then (Raise InvalidStateError, Pending)
  else if bool_decide (CompletionFuture ∈ ws2) then (Raise InvalidStateError, Cancelled)
  else (Ok tt, Finished (if error_code =? 0 then Ok (last_status l) else Raise (from_code error_code))).

(** C15: An HTTP stream completes unless the user's cancellations prevent it.
    After any sequence of native events (user callbacks may raise at will, the
    user may cancel either future at any time, also while the binding's callbacks
    run), the user's callbacks have seen every response and chunk in order, the
    completion callback releases the request, and an HTTP/2 stream's remote-end
    future is settled by whatever came first, END_STREAM or a cancellation, else
    by a RuntimeError. The completion future holds the status of the last
    response, or the native error, and the callback does not raise, unless the
    user has cancelled that future - or has cancelled the remote-end future just
    between the callback's test of it and its completion: then the callback stops
    there with InvalidStateError, and the completion future stays pending for
    good. *)
Theorem stream_completion (http2 : bool) (l : list event) (ws1 ws2 : list which) (error_code : Z) :
  let (r, s') := _on_complete ws1 ws2 error_code (run l (stream_init http2)) in
  calls s' = expected_calls l /\ has_request s' = false /\
  (http2 = true -> remote_end_stream_future s' =
     if Fut.done (remote_outcome l) then remote_outcome l
     else if bool_decide (RemoteEndFuture ∈ ws1) then Cancelled
     else Finished (Raise (RuntimeError "Stream completed without receiving remote END_STREAM"))) /\
  (r, completion_future s') = completion_outcome http2 l ws1 ws2 error_code.
Proof.
  destruct (run_state l (stream_init http2)) as (Hh & Hs & Hc & Hf).
  pose proof (run_remote l (stream_init http2)) as Hr. cbn in Hh, Hs, Hc, Hf, Hr.
  unfold completion_outcome, race, last_status. rewrite <- Hc, <- Hs, <- outcome_of_eqb.
  revert Hh Hf Hr. generalize (run l (stream_init http2)). intros s Hh Hf Hr.
  unfold _on_complete, bind, gets. rewrite Hh. destruct http2.
  - rewrite Http2_complete_run, !others_spec. cbv zeta. specialize (Hr eq_refl ltac:(done)).
    rewrite !base_complete_run, !others_spec. cbn. rewrite Hr, Hf.
    pose proof (remote_outcome_not_running l).
    destruct (remote_outcome l), (cancels _ _), (bool_decide (CompletionFuture ∈ ws1)),
      (bool_decide (CompletionFuture ∈ ws2)), (bool_decide (RemoteEndFuture ∈ ws1)),
      (bool_decide (RemoteEndFuture ∈ ws2)); done.
  - rewrite base_complete_run, others_spec. cbn. rewrite Hf.
    rewrite (bool_decide_ext (CompletionFuture ∈ ws1 ++ ws2) (CompletionFuture ∈ ws1 \/ CompletionFuture ∈ ws2))
      by set_solver.
    rewrite bool_decide_or. by destruct (cancels _ _), (bool_decide (_ ∈ ws1)), (bool_decide (_ ∈ ws2)).
Qed.
End Handlers.

(** The race, and a completion the user did not disturb. *)
Example completion_race :
  let s := run None None [Response 200 []] (stream_init true) in
  completion_future (_on_complete (H:=demo_errors) [RemoteEndFuture] [] 0 s).2 = Pending /\
  completion_future (_on_complete (H:=demo_errors) [] [RemoteEndFuture] 0 s).2 = Finished (Ok (Some 200)).
Proof. done. Qed.

(** *** The futures of [Http2ClientStream.write_data]

    [on_write_complete] tests [cancelled()] and then completes the future; the
    user's thread may act on the future between the two ([user], any step of
    its own). *)
Definition on_write_complete `{NativeErrors} (error_code : Z) (user : future unit -> future unit)
    (f : future unit) : result unit * future unit :=
  if Fut.cancelled f then (Ok tt, user f)
  else
    let f := user f in
    match Fut.complete (outcome_of error_code tt) f with
    | Ok f' => (Ok tt, f')
    | Raise e => (Raise e, f)
    end.

Definition user_idle (f : future unit) : future unit := f.
Definition user_cancels (f : future unit) : future unit := (Fut.cancel f).2.

(** The future of an HTTP/2 body write is settled by the write-complete
    callback: one the user has already cancelled stays cancelled and nothing is
    raised; a pending one gets the outcome of the write; the only way the
    callback can raise (InvalidStateError) is the user's cancellation landing
    between its test of the future and its completion, and the future is
    settled then as well. *)
Lemma write_data_settles `{NativeErrors} (error_code : Z) (f : future unit)
    (user : future unit -> future unit)
    (Hf : f = Pending \/ f = Cancelled) (Hu : user = user_idle \/ user = user_cancels) :
  let '(r, f') := on_write_complete error_code user f in
  Fut.done f' = true /\
  (f = Cancelled -> r = Ok tt /\ f' = Cancelled) /\
  (f = Pending -> user = user_idle -> r = Ok tt /\ f' = Finished (outcome_of error_code tt)) /\
  (r <> Ok tt -> f = Pending /\ f' = Cancelled /\ r = Raise InvalidStateError).
Proof.
  unfold on_write_complete. destruct Hf as [-> | ->], Hu as [-> | ->]; simpl;
    split_and!; try done.
  intros _ Hu. assert (user_cancels Pending = user_idle Pending); [by rewrite Hu | done].
Qed.

Lemma write_data_settles_witness :
  Fut.done (on_write_complete (H:=demo_errors) 5 user_cancels Pending).2 = true.
Proof.
  pose proof (write_data_settles (H:=demo_errors) 5 Pending user_cancels
    (or_introl eq_refl) (or_intror eq_refl)) as [H _]. exact H.
Defined.
End HttpStream.
