(* ===== verification/HttpMessage.v ===== *)
(** * awscrt/http.py: changing headers, requests, and the native side of streams

    [HeaderEdits]: the methods of [HttpHeaders] that change a header block,
    with source/http_headers.c. [Messages]: [HttpRequest] and the objects it
    shares with its native message and with other wrappers (source/
    http_message.c). [NativeStream]: how source/http_stream.c turns the native
    layer's events into calls of the stream's Python methods ([Http.HttpStream])
    and keeps the Python object alive while it does. *)
From S2P Require Import Prelude PyData Future Io Http.
Import Http.Headers.

(** ** Changing headers *)
Module HeaderEdits.

(** The native operations besides those of [NativeHeaders], with their
    documented behaviour: [set] removes the other values of the name, [erase]
    removes them all, [erase_value] the first header of that name and value,
    both failing when there is none. [http_headers_error] is the native layer's
    refusal of a header (None: accepted). *)
Class NativeHeaderEdits (H : Type) `{NativeHeaders H} := {
  http_headers_error : string * string -> option Z;
  http_headers_set : H -> string -> string -> H;
  http_headers_erase : H -> string -> option H;
  http_headers_erase_value : H -> string -> string -> option H;
  http_headers_clear : H -> H;
  headers_error_law : forall p, plain_header p = true -> http_headers_error p = None;
  headers_set_law : forall h n v, plain_header (n, v) = true ->
    headers_items (http_headers_set h n v) =
    List.filter (fun p => negb (bool_decide (ascii_lower p.1 = ascii_lower n))) (headers_items h) ++ [(n, v)];
  headers_erase_law : forall h n,
    headers_items <$> http_headers_erase h n =
    if existsb (fun p => bool_decide (ascii_lower p.1 = ascii_lower n)) (headers_items h)
    then Some (List.filter (fun p => negb (bool_decide (ascii_lower p.1 = ascii_lower n))) (headers_items h))
    else None;
  headers_erase_value_law : forall h n v,
    match http_headers_erase_value h n v with
    | Some h' => exists k p l, headers_items h = k ++ p :: l /\ headers_items h' = k ++ l /\
        ascii_lower p.1 = ascii_lower n /\ p.2 = v /\
        Forall (fun q => ~ (ascii_lower q.1 = ascii_lower n /\ q.2 = v)) k
    | None => Forall (fun q => ~ (ascii_lower q.1 = ascii_lower n /\ q.2 = v)) (headers_items h)
    end;
  headers_clear_law : forall h, headers_items (http_headers_clear h) = [];
}.

(** The argument of [add_pairs]: a sequence, an iterable without a length (a
    generator, a dict), or neither; and the elements of it. *)
Inductive pair_arg := APair (name value : string) | ANotPair.
Inductive pairs_arg := ASequence (l : list pair_arg) | AIterable (l : list pair_arg) | ANotIterable.

Definition type_errmsg : string := "List of (name,value) pairs expected.".

Section Ops.
Context {EN : NativeErrors} {B : Type} {NH : NativeHeaders B} {NE : NativeHeaderEdits B}.

(** The methods as computations on the native block. *)
Definition http_headers_add_checked (p : string * string) : M B unit :=
  match http_headers_error p with
  | Some e => raise (PyErr_AwsLastError e)
  | None => modify (fun h => http_headers_add h p.1 p.2)
  end.
Definition add (name value : string) : M B unit := http_headers_add_checked (name, value).

Definition s_py_http_headers_add_pair (p : pair_arg) : M B unit :=
  match p with
  | ANotPair => raise (TypeError type_errmsg)
  | APair n v => http_headers_add_checked (n, v)
  end.

(** [aws_py_http_headers_add_pairs]: the elements are taken from the sequence
    made of the argument, their number from the argument itself. Without a
    length ([PySequence_Size] is -1, with a TypeError set) the loop does not run
    and the function returns None with the error set, which the interpreter
    reports as SystemError. *)
Definition add_pairs_arg (a : pairs_arg) : M B unit :=
  match a with
  | ANotIterable => raise (TypeError type_errmsg)
  | AIterable _ => raise (BuiltinError "SystemError")
  | ASequence l => mfor l s_py_http_headers_add_pair
  end.

Definition set (name value : string) : M B unit :=
  match http_headers_error (name, value) with
  | Some e => raise (PyErr_AwsLastError e)
  | None => modify (fun h => http_headers_set h name value)
  end.

Definition remove (name : string) : M B unit := fun h =>
  match http_headers_erase h name with
  | Some h' => (Ok tt, h')
  | None => (Raise (BuiltinError "KeyError"), h)
  end.

Definition remove_value (name value : string) : M B unit := fun h =>
  match http_headers_erase_value h name value with
  | Some h' => (Ok tt, h')
  | None => (Raise (ValueError "HttpHeaders.remove_value(name,value): value not found"), h)
  end.

Definition clear : M B unit := modify http_headers_clear.

Inductive edit :=
  | Add (name value : string)
  | AddPairs (a : pairs_arg)
  | SetHeader (name value : string)
  | Remove (name : string)
  | RemoveValue (name value : string)
  | Clear.

Definition run_edit (e : edit) : M B unit :=
  match e with
  | Add n v => add n v
  | AddPairs a => add_pairs_arg a
  | SetHeader n v => set n v
  | Remove n => remove n
  | RemoveValue n v => remove_value n v
  | Clear => clear
  end.

(** The pairs before the first bad one are added, that one and the rest are not. *)
Fixpoint good_prefix (l : list pair_arg) : list (string * string) :=
  match l with
  | APair n v :: l' => if http_headers_error (n, v) is None then (n, v) :: good_prefix l' else []
  | _ => []
  end.
Definition first_error (l : list pair_arg) : result unit :=
  match drop (length (good_prefix l)) l with
  | [] => Ok tt
  | ANotPair :: _ => Raise (TypeError type_errmsg)
  | APair n v :: _ => match http_headers_error (n, v) with
                      | Some e => Raise (PyErr_AwsLastError e) | None => Ok tt end
  end.

Lemma add_pairs_run l h :
  add_pairs_arg (ASequence l) h = (first_error l, add_pairs h (good_prefix l)).
Proof.
  unfold add_pairs_arg, first_error. revert h. induction l as [|p l IH]; intros h; [done|].
  destruct p as [n v|]; [|done]. cbn [mfor good_prefix s_py_http_headers_add_pair].
  unfold http_headers_add_checked. destruct (http_headers_error (n, v)) eqn:E; munfold.
  - simpl. by rewrite E.
  - rewrite IH. done.
Qed.
End Ops.

(** The block as the list of its pairs, with the same changes. *)
Definition same_name (n : string) (p : string * string) : bool :=
  bool_decide (ascii_lower p.1 = ascii_lower n).
Fixpoint erase_first (n v : string) (l : list (string * string)) : option (list (string * string)) :=
  match l with
  | [] => None
  | p :: l' => if same_name n p && bool_decide (p.2 = v) then Some l'
               else cons p <$> erase_first n v l'
  end.

Lemma erase_first_spec n v l :
  match erase_first n v l with
  | Some l' => exists k p k', l = k ++ p :: k' /\ l' = k ++ k' /\
      ascii_lower p.1 = ascii_lower n /\ p.2 = v /\
      Forall (fun q => ~ (ascii_lower q.1 = ascii_lower n /\ q.2 = v)) k
  | None => Forall (fun q => ~ (ascii_lower q.1 = ascii_lower n /\ q.2 = v)) l
  end.
Proof.
  induction l as [|p l IH]; cbn [erase_first]; [done|]. unfold same_name.
  case_bool_decide as Hn; simpl; [case_bool_decide as Hv|].
  { exists [], p, l. by split_and!. }
  all: destruct (erase_first n v l) as [l'|]; simpl;
    [destruct IH as (k & q & k' & -> & -> & Hq & Hv' & Hk); exists (p :: k), q, k';
     split_and!; try done; constructor; [|done]
    | constructor; [|done]]; by intros [??].
Qed.

#[global] Instance list_edits : NativeHeaderEdits (list (string * string)).
Proof.
  refine {|
    http_headers_error := fun p => if plain_header p then None else Some 2078;
    http_headers_set := fun h n v => List.filter (fun p => negb (same_name n p)) h ++ [(n, v)];
    http_headers_erase := fun h n =>
      if existsb (same_name n) h then Some (List.filter (fun p => negb (same_name n p)) h) else None;
    http_headers_erase_value := fun h n v => erase_first n v h;
    http_headers_clear := fun _ => [] |}.
  - by intros p ->.
  - done.
  - intros h n. simpl. unfold same_name. by destruct (existsb _ h).
  - intros h n v. simpl. pose proof (erase_first_spec n v h) as Hs. by destruct (erase_first n v h).
  - done.
Defined.
End HeaderEdits.

(** ** Requests and what they share *)
Module Messages.
Import HeaderEdits Io.Stream.

(** A native request: its header block by its place in the store, and its
    method, path (None until set) and body. *)
Record message := mkMessage {
  m_method : option string;
  m_path : option string;
  m_headers : nat;
  m_body : option wrapped;
}.

(** An [HttpRequest]: its native message ([_binding]), the block its
    [HttpHeaders] object ([_headers]) wraps, and [_body_stream]. *)
Record request := mkRequest {
  _binding : nat;
  _headers : nat;
  _body_stream : option wrapped;
}.

(** The objects made so far; an [HttpHeaders] object is the place of its block. *)
Record store (B : Type) := mkStore {
  blocks : list B;
  natives : list message;
  requests : list request;
}.
#[global] Arguments mkStore {B} _ _ _.
#[global] Arguments blocks {B} _.
#[global] Arguments natives {B} _.
#[global] Arguments requests {B} _.

(** The [body_stream] argument, with its truth value (an object whose
    [__bool__] or [__len__] says so is false). *)
Record body_arg := mkBody { truthy : bool; stream : stream_arg }.

Section Ops.
Context {EN : NativeErrors} {B : Type} {NH : NativeHeaders B} {NE : NativeHeaderEdits B}.

Definition empty : store B := mkStore [] [] [].
Definition add_block (b : B) (s : store B) : store B := mkStore (blocks s ++ [b]) (natives s) (requests s).
Definition add_message (m : message) (s : store B) : store B :=
  mkStore (blocks s) (natives s ++ [m]) (requests s).
Definition add_request (r : request) (s : store B) : store B :=
  mkStore (blocks s) (natives s) (requests s ++ [r]).
Definition alter_message (f : message -> message) (i : nat) (s : store B) : store B :=
  mkStore (blocks s) (alter f i (natives s)) (requests s).

(** A method of the [HttpHeaders] object of block [i]. *)
Definition on_block (i : nat) (m : M B unit) : M (store B) unit := fun s =>
  match blocks s !! i with
  | None => (Ok tt, s)
  | Some b => let '(r, b') := m b in (r, mkStore (<[i := b']> (blocks s)) (natives s) (requests s))
  end.

(** [HttpHeaders.__init__]: [add_pairs] if the argument is true. *)
Definition HttpHeaders_new (name_value_pairs : option pairs_arg) : M (store B) nat :=
  let! i := gets (fun s => length (blocks s)) in
  do! modify (add_block http_headers_new);
  do! match name_value_pairs with
      | None | Some (ASequence []) => ret tt
      | Some a => on_block i (add_pairs_arg a)
      end;
  ret i.

(** [aws_py_http_message_new_request]: a message on the given block. *)
Definition http_message_new_request (headers : nat) : M (store B) nat :=
  let! n := gets (fun s => length (natives s)) in
  do! modify (add_message (mkMessage None None headers None));
  ret n.

Definition set_method_of (method : string) (m : message) : message :=
  mkMessage (Some method) (m_path m) (m_headers m) (m_body m).
Definition set_path_of (path : string) (m : message) : message :=
  mkMessage (m_method m) (Some path) (m_headers m) (m_body m).
Definition set_body_of (body : option wrapped) (m : message) : message :=
  mkMessage (m_method m) (m_path m) (m_headers m) body.

(** Operations of the request object [i]; the store holds it when they run. *)
Definition on_request (i : nat) (m : request -> M (store B) unit) : M (store B) unit :=
  let! o := gets (fun s => requests s !! i) in
  match o with Some r => m r | None => ret tt end.

(** The setters of [method] and [path] *)
Definition method_setter (i : nat) (method : string) : M (store B) unit :=
  on_request i (fun r => modify (alter_message (set_method_of method) (_binding r))).
Definition path_setter (i : nat) (path : string) : M (store B) unit :=
  on_request i (fun r => modify (alter_message (set_path_of path) (_binding r))).

Definition set_attribute (i : nat) (body : option wrapped) (s : store B) : store B :=
  mkStore (blocks s) (natives s) (alter (fun r => mkRequest (_binding r) (_headers r) body) i (requests s)).

(** The setter of [body_stream]: [InputStream.wrap] accepts no None here. *)
Definition body_stream_setter (i : nat) (st : stream_arg) : M (store B) unit :=
  let! w := lift (wrap st false) in
  do! modify (set_attribute i (Some w));
  on_request i (fun r => modify (alter_message (set_body_of (Some w)) (_binding r))).

Definition HttpMessageBase_init (binding headers : nat) (body_stream : body_arg) : M (store B) nat :=
  let! i := gets (fun s => length (requests s)) in
  do! modify (add_request (mkRequest binding headers None));
  when! truthy body_stream then body_stream_setter i (stream body_stream);
  ret i.

Definition HttpRequest_init (method path : string) (headers : option nat) (body_stream : body_arg)
    : M (store B) nat :=
  let! h := (match headers with Some h => ret h | None => HttpHeaders_new None end) in
  let! binding := http_message_new_request h in
  let! i := HttpMessageBase_init binding h body_stream in
  do! method_setter i method;
  do! path_setter i path;
  ret i.

Definition no_body : body_arg := mkBody false StreamNone.

(** [HttpRequest._from_bindings]: the callers pass a native message with its own
    header block. *)
Definition _from_bindings (request_binding headers_binding : nat) : M (store B) nat :=
  HttpMessageBase_init request_binding headers_binding no_body.

(** The getters *)
Definition method (s : store B) (r : request) : option string := natives s !! _binding r ≫= m_method.
Definition path (s : store B) (r : request) : option string := natives s !! _binding r ≫= m_path.
Definition headers_of (s : store B) (r : request) : option (result (list (string * string))) :=
  iter <$> blocks s !! _headers r.

(** What the native layer sends for a message. *)
Definition sent (s : store B) (n : nat)
    : option (option string * option string * list (string * string) * option wrapped) :=
  m ← natives s !! n; b ← blocks s !! m_headers m;
  Some (m_method m, m_path m, headers_items b, m_body m).

(** What a program can do with headers and requests, and the native layer with
    the requests it makes itself (a WebSocket handshake) and gives to Python. *)
Inductive op :=
  | NewHeaders (name_value_pairs : option pairs_arg)
  | EditHeaders (i : nat) (e : edit)
  | NewRequest (method path : string) (headers : option nat) (body : body_arg)
  | NativeRequest (method path : string) (pairs : list (string * string)) (body : option wrapped)
  | FromBindings (n : nat)
  | SetMethod (i : nat) (method : string)
  | SetPath (i : nat) (path : string)
  | SetBody (i : nat) (st : stream_arg).

(** Operands are objects that exist. *)
Definition run_op (o : op) : M (store B) unit :=
  match o with
  | NewHeaders l => do! HttpHeaders_new l; ret tt
  | EditHeaders i e => on_block i (run_edit e)
  | NewRequest m p h b =>
      let! n := gets (fun s => length (blocks s)) in
      if (match h with Some i => (i <? n)%nat | None => true end)
      then do! HttpRequest_init m p h b; ret tt else ret tt
  | NativeRequest m p l b =>
      let! i := gets (fun s => length (blocks s)) in
      let! n := gets (fun s => length (natives s)) in
      do! modify (add_block (add_pairs http_headers_new l));
      do! modify (add_message (mkMessage (Some m) (Some p) i b));
      do! _from_bindings n i; ret tt
  | FromBindings n =>
      let! m := gets (fun s => natives s !! n) in
      match m with Some m => do! _from_bindings n (m_headers m); ret tt | None => ret tt end
  | SetMethod i m => method_setter i m
  | SetPath i p => path_setter i p
  | SetBody i st => body_stream_setter i st
  end.
Definition run_ops (l : list op) : store B := fold_left (fun s o => (run_op o s).2) l empty.

(** Messages have a block; a request has the block of its message, and a body
    stream only if the message has one. *)
Definition bound (n h : nat) (s : store B) : Prop := exists m, natives s !! n = Some m /\ m_headers m = h.
Definition request_ok (s : store B) (r : request) : Prop :=
  exists m, natives s !! _binding r = Some m /\ m_headers m = _headers r /\
    (_body_stream r <> None -> m_body m <> None).
Record wired (s : store B) : Prop := {
  wired_messages : Forall (fun m => (m_headers m < length (blocks s))%nat) (natives s);
  wired_requests : Forall (request_ok s) (requests s);
}.

Lemma wired_blocks bs s : wired s -> (length (blocks s) <= length bs)%nat ->
  wired (mkStore bs (natives s) (requests s)).
Proof.
  intros [H1 H2] Hl. split; simpl; [|done].
  eapply Forall_impl; [exact H1|]. simpl. lia.
Qed.

Lemma wired_add_message m s : wired s -> (m_headers m < length (blocks s))%nat -> wired (add_message m s).
Proof.
  intros [H1 H2] Hm. split; simpl.
  - apply Forall_app. split; [done|]. by constructor.
  - eapply Forall_impl; [exact H2|]. intros r (m' & Hl & Hh). exists m'. simpl.
    split; [|done]. by apply lookup_app_l_Some.
Qed.

Lemma wired_add_request n h s : wired s -> bound n h s -> wired (add_request (mkRequest n h None) s).
Proof.
  intros [H1 H2] (m & Hm & Hh). split; simpl; [done|].
  apply Forall_app. split; [done|]. constructor; [|done]. by exists m.
Qed.

Lemma wired_alter_message f n s : wired s ->
  (forall m, m_headers (f m) = m_headers m) -> (forall m, m_body m <> None -> m_body (f m) <> None) ->
  wired (alter_message f n s).
Proof.
  intros [H1 H2] Hh Hb. split; simpl.
  - apply Forall_alter; [done|]. intros m _. simpl. by rewrite Hh.
  - eapply Forall_impl; [exact H2|]. intros r (m & Hl & Hm & Hbody). unfold request_ok. simpl.
    destruct (decide (n = _binding r)) as [->|Hne].
    + exists (f m). rewrite list_lookup_alter_eq, Hl. simpl. rewrite Hh. eauto.
    + exists m. by rewrite list_lookup_alter_ne.
Qed.

Lemma keeps_on_request i m :
  (forall r, triple wired (m r) (fun _ => wired)) -> triple wired (on_request i m) (fun _ => wired).
Proof.
  intros Hm s Hs. unfold on_request, bind, gets. destruct (requests s !! i); [by apply Hm|done].
Qed.

Lemma keeps_method i m : triple wired (method_setter i m) (fun _ => wired).
Proof. apply keeps_on_request. intros r s Hs. by apply wired_alter_message. Qed.
Lemma keeps_path i p : triple wired (path_setter i p) (fun _ => wired).
Proof. apply keeps_on_request. intros r s Hs. by apply wired_alter_message. Qed.

Lemma keeps_body i st : triple wired (body_stream_setter i st) (fun _ => wired).
Proof.
  intros s Hs. unfold body_stream_setter, on_request, bind, lift, gets, modify.
  destruct (wrap st false) as [w|e]; simpl; [|done]. rewrite list_lookup_alter_eq.
  destruct (requests s !! i) as [r|] eqn:Hr; simpl.
  - apply (wired_alter_message (set_body_of (Some w)) (_binding r)) in Hs; [|done..].
    pose proof (wired_requests _ Hs) as Hall. split; simpl; [apply Hs|].
    apply Forall_lookup. intros j r' Hj. destruct (decide (i = j)) as [<-|Hne].
    + rewrite list_lookup_alter_eq, Hr in Hj. injection Hj as <-.
      destruct (Forall_lookup_1 _ _ _ _ Hall Hr) as (m & Hm & Hh & _). exists m. simpl in *.
      split_and!; [done..|]. intros _. rewrite list_lookup_alter_eq in Hm.
      destruct (natives s !! _binding r); [by injection Hm as <-|done].
    + rewrite list_lookup_alter_ne in Hj by done. by apply (Forall_lookup_1 _ _ _ _ Hall Hj).
  - split; simpl; [apply Hs|]. apply Forall_alter; [apply Hs|]. by intros r' Hr'%(eq_trans (eq_sym Hr)).
Qed.

Lemma init_spec n h b :
  triple (fun s => wired s /\ bound n h s) (HttpMessageBase_init n h b) (fun _ => wired).
Proof.
  intros s [Hs Hb]. unfold HttpMessageBase_init, bind, gets, modify, ret. simpl.
  apply (wired_add_request n h) in Hs; [|done]. destruct (truthy b); simpl; [|done].
  pose proof (keeps_body (length (requests s)) (stream b) _ Hs) as Hk.
  by destruct (body_stream_setter _ _ _) as [[[]|e] s'].
Qed.

Lemma keeps_on_block i m : triple wired (on_block i m) (fun _ => wired).
Proof.
  intros s Hs. unfold on_block. destruct (blocks s !! i) as [b|]; [|done]. destruct (m b) as [r b'].
  apply wired_blocks; [done|]. by rewrite length_insert.
Qed.

#[local] Arguments on_block _ _ _ : simpl never.
#[local] Arguments add_pairs_arg _ : simpl never.

Lemma new_headers_spec o :
  triple wired (HttpHeaders_new o)
    (fun r s => wired s /\ forall i, r = Ok i -> (i < length (blocks s))%nat).
Proof.
  intros s Hs. unfold HttpHeaders_new, bind, gets, modify, ret. simpl.
  assert (wired (add_block http_headers_new s)) as Hw.
  { apply wired_blocks; [done|]. rewrite length_app. simpl. lia. }
  assert (Hd : (length (blocks s) < length (blocks (add_block http_headers_new s)))%nat)
    by (simpl; rewrite length_app; simpl; lia).
  assert (Hgo : forall a, let '(r, s') := on_block (length (blocks s)) (add_pairs_arg a) (add_block http_headers_new s)
                in wired s' /\ (length (blocks s) < length (blocks s'))%nat).
  { intros a. pose proof (keeps_on_block (length (blocks s)) (add_pairs_arg a) _ Hw) as Hk.
    unfold on_block in *. destruct (blocks (add_block http_headers_new s) !! length (blocks s)) eqn:E.
    - destruct (add_pairs_arg a b) as [r b']. simpl in *. split; [done|]. by rewrite length_insert.
    - done. }
  destruct o as [[[|p l]|l|]|]; simpl; try (split; [done|intros i [= <-]; done]).
  all: match goal with |- context [on_block _ (add_pairs_arg ?a)] =>
         specialize (Hgo a); destruct (on_block _ _ _) as [[[]|e] s'] end; simpl;
       destruct Hgo as [Hg1 Hg2]; split; try done; by intros i [= <-].
Qed.

Lemma new_message_spec h :
  triple (fun s => wired s /\ (h < length (blocks s))%nat) (http_message_new_request h)
    (fun r s => match r with Ok n => wired s /\ bound n h s | Raise _ => wired s end).
Proof.
  intros s [Hs Hh]. unfold http_message_new_request, bind, gets, modify, ret. simpl.
  split; [by apply wired_add_message|]. exists (mkMessage None None h None). simpl.
  by rewrite lookup_app_r, Nat.sub_diag.
Qed.

Lemma keeps_ret {A} (a : A) : triple wired (ret a) (fun _ => wired).
Proof. intros s Hs. exact Hs. Qed.

Lemma keeps_bind {A C} (m : M (store B) A) (k : A -> M (store B) C) :
  triple wired m (fun _ => wired) -> (forall a, triple wired (k a) (fun _ => wired)) ->
  triple wired (bind m k) (fun _ => wired).
Proof.
  intros Hm Hk. eapply triple_bind; [|exact Hk].
  eapply triple_conseq; [exact Hm|done|]. by intros [a|e].
Qed.

Lemma HttpRequest_init_spec m p h b :
  triple (fun s => wired s /\ if h is Some i then (i < length (blocks s))%nat else True)
    (HttpRequest_init m p h b) (fun _ => wired).
Proof.
  unfold HttpRequest_init.
  apply (triple_bind _ _ _ (fun i s => wired s /\ (i < length (blocks s))%nat)).
  { destruct h as [i|].
    - intros s Hs. exact Hs.
    - intros s [Hs _]. destruct (new_headers_spec None s Hs) as [Hw Hi].
      destruct (HttpHeaders_new None s) as [[i|e] s']; simpl in *; [|done]. split; [done|]. by apply Hi. }
  intros i. apply (triple_bind _ _ _ (fun n s => wired s /\ bound n i s)).
  { eapply triple_conseq; [apply new_message_spec|done|]. by intros [n|e]. }
  intros n. apply (triple_bind _ _ _ (fun _ => wired)).
  { eapply triple_conseq; [apply init_spec|done|]. by intros [r|e]. }
  intros r. apply keeps_bind; [apply keeps_method|intros _].
  apply keeps_bind; [apply keeps_path|intros _; apply keeps_ret].
Qed.

Lemma drop_result {A} P (m : M (store B) A) :
  triple P m (fun _ => wired) -> triple P (do! m; ret tt) (fun _ => wired).
Proof.
  intros Hm. apply (triple_bind _ _ _ (fun _ => wired)).
  - eapply triple_conseq; [exact Hm|done|]. by intros [a|e].
  - intros _. apply keeps_ret.
Qed.

Lemma run_op_wired o : triple wired (run_op o) (fun _ => wired).
Proof.
  destruct o as [l|i e|m p h b|m p l b|n|i m|i p|i st]; cbn [run_op].
  - apply drop_result. intros s Hs. by apply new_headers_spec.
  - apply keeps_on_block.
  - intros s Hs. unfold bind at 1, gets. destruct h as [i|]; simpl.
    + destruct (Nat.ltb_spec i (length (blocks s))); [|done].
      by apply (drop_result _ _ (HttpRequest_init_spec m p (Some i) b)).
    + by apply (drop_result _ _ (HttpRequest_init_spec m p None b)).
  - intros s Hs. set (s' := add_message (mkMessage (Some m) (Some p) (length (blocks s)) b)
                        (add_block (add_pairs http_headers_new l) s)).
    change (wired ((do! HttpMessageBase_init (length (natives s)) (length (blocks s)) no_body; ret tt) s').2).
    apply (drop_result _ _ (init_spec _ _ _)). subst s'. split.
    + apply wired_add_message; [apply wired_blocks; [done|]|]; simpl; rewrite ?length_app; simpl; lia.
    + exists (mkMessage (Some m) (Some p) (length (blocks s)) b). simpl. by rewrite lookup_app_r, Nat.sub_diag.
  - intros s Hs. unfold bind at 1, gets. destruct (natives s !! n) as [m|] eqn:Hm; [|done].
    apply (drop_result _ _ (init_spec _ _ _)). split; [done|]. by exists m.
  - apply keeps_method.
  - apply keeps_path.
  - apply keeps_body.
Qed.

Lemma run_ops_wired l : wired (run_ops l).
Proof.
  unfold run_ops. assert (wired empty) as Hw by (by split).
  revert Hw. generalize empty. induction l as [|o l IH]; intros s Hs; [done|]. apply IH. by apply run_op_wired.
Qed.

Lemma iter_items b : iter b = Ok (headers_items b).
Proof. unfold iter. rewrite headers_count_law. by apply (iter_at_drop b [] (headers_items b)). Qed.

(** C26: A request object shows what is sent: whatever headers, requests, native
    requests and further wrappers of them a program makes, and however it
    changes them (through the headers object it passed, the request's own, or
    another wrapper; with operations that raise half-way), the method, path and
    headers read from any request object are those of the native message, and a
    request that has a body stream sends a body. *)
Theorem request_shows_what_is_sent (l : list op) :
  let s := run_ops l in
  forall r, r ∈ requests s -> exists hs body,
    sent s (_binding r) = Some (method s r, path s r, hs, body) /\
    headers_of s r = Some (Ok hs) /\ (_body_stream r <> None -> body <> None).
Proof.
  cbv zeta. intros r Hr. destruct (run_ops_wired l) as [Hm Hreq].
  destruct (proj1 (Forall_forall _ _) Hreq r Hr) as (m & Hl & Hh & Hb).
  pose proof (Forall_lookup_1 _ _ _ _ Hm Hl) as Hlt. simpl in Hlt.
  destruct (lookup_lt_is_Some_2 _ _ Hlt) as [b Hblk].
  exists (headers_items b), (m_body m). unfold sent, method, path, headers_of.
  rewrite Hl. simpl. rewrite Hblk, <- Hh, Hblk. simpl. by rewrite iter_items.
Qed.
End Ops.

(** A header added to the caller's object after the request was made is sent
    (and an [add_pairs] that raises leaves the pairs before the bad one). *)
Definition demo_ops : list op :=
  [NewHeaders (Some (ASequence [APair "Host" "h"]));
   NewRequest "GET" "/" (Some 0%nat) no_body;
   EditHeaders 0 (AddPairs (ASequence [APair "a" "1"; ANotPair; APair "b" "2"]))].

Lemma request_shows_what_is_sent_witness :
  exists body, sent (run_ops (EN:=demo_errors) (B:=list (string * string)) demo_ops) 0%nat =
    Some (Some "GET"%string, Some "/"%string, [("Host", "h"); ("a", "1")]%string, body).
Proof.
  destruct (request_shows_what_is_sent (EN:=demo_errors) (B:=list (string * string)) demo_ops
    (mkRequest 0 0 None)) as (hs & body & Hs & Hh & _); [vm_compute; left|].
  exists body. vm_compute in Hh. injection Hh as <-. exact Hs.
Defined.

(** A wrapper made by [_from_bindings] does not show the body of its message. *)
Example from_bindings_hides_body :
  let s := run_ops (EN:=demo_errors) (B:=list (string * string))
    [NativeRequest "GET" "/chat" [] (Some (Same 7))] in
  _body_stream <$> requests s !! 0%nat = Some None /\ (m_body <$> natives s !! 0%nat) = Some (Some (Same 7)).
Proof. done. Qed.

(** A generator for the pairs is refused with SystemError, not TypeError. *)
Example generator_of_pairs :
  (HttpHeaders_new (EN:=demo_errors) (B:=list (string * string)) (Some (AIterable [APair "a" "1"])) empty).1 =
  Raise (BuiltinError "SystemError").
Proof. done. Qed.
End Messages.

(** ** The native side of a client stream *)
Module NativeStream.
Import Http.HttpStream.
Import Stdlib.Strings.Ascii.

Definition NUL : ascii := "000"%char.

Inductive header_block := INFORMATIONAL | MAIN | TRAILING.

(** [http_stream_binding]: the Python object, the headers buffered so far (with
    a NUL after each name and value), and the references that keep the Python
    object alive: the program's, and the ones the binding took for itself. *)
Record http_stream_binding := mkBinding {
  py_stream : stream;
  received_headers : string;
  received_headers_count : nat;
  user_refs : nat;
  self_refs : nat;
}.

Definition alive (b : http_stream_binding) : bool := negb ((user_refs b + self_refs b)%nat =? 0)%nat.
Definition set_py (s : stream) (b : http_stream_binding) : http_stream_binding :=
  mkBinding s (received_headers b) (received_headers_count b) (user_refs b) (self_refs b).
Definition set_buffer (buf : string) (n : nat) (b : http_stream_binding) : http_stream_binding :=
  mkBinding (py_stream b) buf n (user_refs b) (self_refs b).
Definition set_refs (user self : nat) (b : http_stream_binding) : http_stream_binding :=
  mkBinding (py_stream b) (received_headers b) (received_headers_count b) user self.

(** [PyObject_CallMethod(stream->self_proxy, ...)]: the proxy of an object that
    is gone raises ReferenceError. *)
Definition call_method (m : M stream unit) : M http_stream_binding unit := fun b =>
  if alive b then let '(r, s) := m (py_stream b) in (r, set_py s b)
  else (Raise (BuiltinError "ReferenceError"), b).

Definition encode_pair (p : string * string) : string :=
  String.append p.1 (String NUL (String.append p.2 (String NUL EmptyString))).
Definition encode_pairs (l : list (string * string)) : string :=
  fold_right (fun p s => String.append (encode_pair p) s) EmptyString l.

(** [s_on_incoming_headers] *)
Definition s_on_incoming_headers (header_array : list (string * string)) : M http_stream_binding unit :=
  modify (fun b => set_buffer (String.append (received_headers b) (encode_pairs header_array))
                              (received_headers_count b + length header_array) b).

(** [strnlen] and [aws_byte_cursor_advance]: the string at the cursor and the
    cursor after its NUL; without a NUL the rest of the buffer is the string and
    the cursor stays (it cannot advance past the end). *)
Definition next_string (cursor : string) : string * string :=
  match PyStr.split_once NUL cursor with Some p => p | None => (cursor, cursor) end.
Fixpoint header_list (num_headers : nat) (cursor : string) : list (string * string) :=
  match num_headers with
  | O => []
  | S n =>
      let '(name_str, cursor) := next_string cursor in
      let '(value_str, cursor) := next_string cursor in
      (name_str, value_str) :: header_list n cursor
  end.

Definition utf8_pair (p : string * string) : bool := PyStr.utf8_valid p.1 && PyStr.utf8_valid p.2.

Section Callbacks.
Context `{NativeErrors}.
Variables (on_response on_body : option (call -> result unit)).

(** [s_on_incoming_header_block_done]; [status] is the outcome of
    [aws_http_stream_get_incoming_response_status]. An exception here is
    AWS_OP_ERR ([aws_py_raise_error] reports and clears the Python one). *)
Definition s_on_incoming_header_block_done (block : header_block) (status : option Z)
    : M http_stream_binding unit :=
  match status with
  | None => raise (BuiltinError "AWS_OP_ERR")
  | Some response_code =>
      let! l := gets (fun b => header_list (received_headers_count b) (received_headers b)) in
      if negb (forallb utf8_pair l) then raise (BuiltinError "UnicodeDecodeError")
      else
        do! match block with
            | MAIN => call_method (_on_response on_response response_code l)
            | INFORMATIONAL | TRAILING => ret tt
            end;
        modify (set_buffer EmptyString 0)
  end.

Definition s_on_incoming_body (data : list Byte.byte) : M http_stream_binding unit :=
  call_method (_on_body on_body data).

(** An exception of the Python method is neither reported nor returned. *)
Definition s_on_h2_remote_end_stream : M http_stream_binding unit := fun b =>
  (Ok tt, (call_method (_on_h2_remote_end_stream []) b).2).

(** [s_on_stream_complete]: the reference taken at activation is given back
    ([aws_py_weakref_get_ref] takes one more, which goes as well). That other
    threads leave the futures alone while the method runs is assumed here; what
    they can do is in [HttpStream.stream_completion]. *)
Definition s_on_stream_complete (error_code : Z) (b : http_stream_binding) : http_stream_binding :=
  let b := (call_method (_on_complete [] [] error_code) b).2 in
  if alive b then set_refs (user_refs b) (pred (self_refs b)) b else b.

(** A new stream object and its native stream ([native]: the native layer's
    error, if any), referred to by the program only. *)
Definition http_client_stream_new (http2 : bool) (native : option Z) : result http_stream_binding :=
  match native with
  | Some e => Raise (PyErr_AwsLastError e)
  | None => Ok (mkBinding (stream_init http2) EmptyString 0 1 0)
  end.

(** [activate]: on success the binding keeps the Python object alive. *)
Definition http_client_stream_activate (native : option Z) : M http_stream_binding unit :=
  match native with
  | Some e => raise (PyErr_AwsLastError e)
  | None => modify (fun b => set_refs (user_refs b) (S (self_refs b)) b)
  end.

(** The Python classes: their constructors give the native layer
    [http2_manual_write], which it may refuse; [request] of a connection makes
    the stream of its class. *)
Definition HttpClientStream_init (native : bool -> option Z) : result http_stream_binding :=
  http_client_stream_new false (native false).
Definition Http2ClientStream_init (native : bool -> option Z) (manual_write : bool)
    : result http_stream_binding :=
  http_client_stream_new true (native manual_write).
Definition HttpClientConnection_request (native : bool -> option Z) : result http_stream_binding :=
  HttpClientStream_init native.
Definition Http2ClientConnection_request (native : bool -> option Z) (manual_write : bool)
    : result http_stream_binding :=
  Http2ClientStream_init native manual_write.
Definition HttpClientStream_activate := http_client_stream_activate.
Definition Http2ClientStream_activate := http_client_stream_activate.

(** What happens to an activated stream: the native callbacks, and the program
    dropping one of its references or cancelling the remote-end future. *)
Inductive nevent :=
  | NHeaders (header_array : list (string * string))
  | NBlockDone (block : header_block) (status : option Z)
  | NBody (data : list Byte.byte)
  | NRemoteEnd
  | NCancel
  | NDrop.

Definition nhandle (e : nevent) : M http_stream_binding unit :=
  match e with
  | NHeaders l => s_on_incoming_headers l
  | NBlockDone k st => s_on_incoming_header_block_done k st
  | NBody d => s_on_incoming_body d
  | NRemoteEnd => s_on_h2_remote_end_stream
  | NCancel => modify (fun b => set_py (handle on_response on_body (UserCancels RemoteEndFuture) (py_stream b)) b)
  | NDrop => modify (fun b => set_refs (pred (user_refs b)) (self_refs b) b)
  end.

(** A callback that fails is the last one before completion. *)
Definition nfeed (l : list nevent) : M http_stream_binding unit := mfor l nhandle.

(** *** What the callbacks amount to

    A response as the native layer reports it: header blocks, each in any number
    of batches, and the rest. [abstract]: what the stream object must see of it;
    [succeeds]: whether the callbacks of the item all succeed. *)
Inductive item :=
  | Block (block : header_block) (batches : list (list (string * string))) (status : option Z)
  | BodyData (data : list Byte.byte)
  | RemoteEnd
  | Cancel
  | Drop.

Definition expand (i : item) : list nevent :=
  match i with
  | Block k bs st => map NHeaders bs ++ [NBlockDone k st]
  | BodyData d => [NBody d]
  | RemoteEnd => [NRemoteEnd]
  | Cancel => [NCancel]
  | Drop => [NDrop]
  end.

Definition deliverable (bs : list (list (string * string))) (status : option Z) : bool :=
  forallb utf8_pair (concat bs) && if status is Some _ then true else false.

Definition abstract (i : item) : list event :=
  match i with
  | Block MAIN bs (Some status) =>
      if forallb utf8_pair (concat bs) then [Response status (concat bs)] else []
  | Block _ _ _ => []
  | BodyData d => [Body d]
  | RemoteEnd => [RemoteEndStream []]
  | Cancel => [UserCancels RemoteEndFuture]
  | Drop => []
  end.

Definition user_ok (cb : option (call -> result unit)) (c : call) : bool :=
  match cb with Some f => is_ok (f c) | None => true end.
Definition succeeds (i : item) : bool :=
  match i with
  | Block k bs st =>
      deliverable bs st &&
      match k, st with
      | MAIN, Some status => user_ok on_response (OnResponse status (concat bs))
      | _, _ => true
      end
  | BodyData d => user_ok on_body (OnBody d)
  | RemoteEnd | Cancel | Drop => true
  end.

(** The items up to the first that fails, and with it. *)
Fixpoint until_failure (l : list item) : list item :=
  match l with
  | [] => []
  | i :: l' => i :: (if succeeds i then until_failure l' else [])
  end.

(** No NUL in a name or value (the native parsers refuse them). *)
Definition clean_pair (p : string * string) : bool :=
  negb (PyStr.contains NUL p.1) && negb (PyStr.contains NUL p.2).
Definition clean (i : item) : bool :=
  match i with Block _ bs _ => forallb clean_pair (concat bs) | _ => true end.

Lemma encode_pairs_app l k :
  encode_pairs (l ++ k) = String.append (encode_pairs l) (encode_pairs k).
Proof. induction l as [|p l IH]; simpl; [done|]. by rewrite IH, PyStr.append_assoc. Qed.

Lemma next_string_app s rest :
  PyStr.contains NUL s = false -> next_string (String.append s (String NUL rest)) = (s, rest).
Proof. intros Hs. unfold next_string. by rewrite PyStr.split_once_app. Qed.

(** Splitting the buffer undoes the buffering. *)
Lemma header_list_encode l :
  forallb clean_pair l = true -> header_list (length l) (encode_pairs l) = l.
Proof.
  induction l as [|[n v] l IH]; [done|]. cbn [forallb]. unfold clean_pair at 1.
  rewrite !andb_true_iff, !negb_true_iff. simpl. intros [[Hn Hv] Hl].
  unfold encode_pair. simpl. rewrite PyStr.append_assoc, PyStr.append_cons, next_string_app by done.
  rewrite PyStr.append_assoc, PyStr.append_cons, next_string_app by done. by rewrite PyStr.append_nil, IH.
Qed.

Lemma nfeed_app l k b :
  nfeed (l ++ k) b =
  bind (nfeed l) (fun _ => nfeed k) b.
Proof.
  unfold nfeed, bind. revert b. induction l as [|e l IH]; intros b; simpl; [done|].
  unfold bind. destruct (nhandle e b) as [[[]|x] b']; [apply IH|done].
Qed.

Lemma feed_batches bs b :
  nfeed (map NHeaders bs) b =
  (Ok tt, set_buffer (String.append (received_headers b) (encode_pairs (concat bs)))
                     (received_headers_count b + length (concat bs)) b).
Proof.
  unfold nfeed. revert b. induction bs as [|l bs IH]; intros b; simpl.
  - rewrite Nat.add_0_r. f_equal. destruct b as [p buf n u s]. unfold set_buffer. simpl. f_equal.
    induction buf as [|c buf IH]; [done|]. exact (f_equal (String c) IH).
  - unfold bind, s_on_incoming_headers, modify. rewrite IH. unfold set_buffer. simpl.
    rewrite encode_pairs_app, PyStr.append_assoc, length_app, Nat.add_assoc. done.
Qed.

Lemma user_state cb c s : call_user cb c s =
  (match cb with Some f => f c | None => Ok tt end, if cb is Some _ then log_call c s else s).
Proof. destruct cb as [f|]; [|done]. unfold call_user. by munfold. Qed.

Lemma user_outcome cb (c : call) :
  user_ok cb c = is_ok (match cb with Some f => f c | None => Ok tt end).
Proof. by destruct cb. Qed.

(** One item, on a binding whose Python object is alive and whose buffer is
    empty: the object goes through the item's events, and the buffer is empty
    again unless the callbacks failed. *)
Lemma item_run i b :
  clean i = true -> (0 < self_refs b)%nat -> received_headers b = EmptyString -> received_headers_count b = 0%nat ->
  exists r b', nfeed (expand i) b = (r, b') /\ is_ok r = succeeds i /\
    py_stream b' = run on_response on_body (abstract i) (py_stream b) /\
    self_refs b' = self_refs b /\
    user_refs b' = (if i is Drop then pred (user_refs b) else user_refs b) /\
    (succeeds i = true -> received_headers b' = EmptyString /\ received_headers_count b' = 0%nat).
Proof.
  intros Hc Hs Hb Hn.
  assert (Hal : forall b', self_refs b' = self_refs b -> alive b' = true).
  { intros b' Hr. unfold alive. rewrite Hr. destruct (Nat.eqb_spec (user_refs b' + self_refs b) 0); [lia|done]. }
  destruct i as [k bs st|d| | |].
  - simpl. rewrite nfeed_app. unfold bind. rewrite feed_batches, Hb, Hn, PyStr.append_nil.
    unfold nfeed. simpl. unfold bind, ret, s_on_incoming_header_block_done, bind, gets, raise. destruct st as [status|]; simpl.
    2:{ unfold deliverable. rewrite andb_false_r. by eexists _, _; destruct k. }
    rewrite header_list_encode by done. unfold deliverable. rewrite andb_true_r.
    destruct (forallb utf8_pair (concat bs)); simpl; [|by eexists _, _; destruct k].
    destruct k; simpl; try by eexists _, _.
    unfold call_method. rewrite Hal by done. simpl. unfold _on_response, bind, modify. simpl.
    rewrite user_state, user_outcome. simpl. destruct (match on_response with Some f => f _ | None => _ end) as [[]|x];
      simpl; by eexists _, _.
  - unfold nfeed. simpl. unfold bind, s_on_incoming_body, call_method, _on_body. rewrite Hal by done.
    rewrite user_state, user_outcome. simpl.
    destruct (match on_body with Some f => f _ | None => _ end) as [[]|x]; simpl; by eexists _, _.
  - unfold nfeed. simpl. unfold bind, s_on_h2_remote_end_stream, call_method. rewrite Hal by done.
    destruct (_on_h2_remote_end_stream [] (py_stream b)) as [r s] eqn:E. simpl.
    by eexists _, _.
  - by eexists _, _.
  - by eexists _, _.
Qed.

Definition drops (l : list item) : nat := length (List.filter (fun i => if i is Drop then true else false) l).

Lemma items_run l b :
  forallb clean l = true -> (0 < self_refs b)%nat -> received_headers b = EmptyString ->
  received_headers_count b = 0%nat ->
  exists r b', nfeed (flat_map expand l) b = (r, b') /\ is_ok r = forallb succeeds l /\
    py_stream b' = run on_response on_body (flat_map abstract (until_failure l)) (py_stream b) /\
    self_refs b' = self_refs b /\
    user_refs b' = (user_refs b - drops (until_failure l))%nat.
Proof.
  revert b. induction l as [|i l IH]; intros b Hc Hs Hb Hn.
  { eexists _, b. split_and!; try done. unfold drops. simpl. lia. }
  simpl in Hc. apply andb_true_iff in Hc as [Hi Hl].
  destruct (item_run i b Hi Hs Hb Hn) as (r & b1 & Hr & Hok & Hpy & Hself & Huser & Hbuf).
  simpl. rewrite nfeed_app. unfold bind. rewrite Hr, <- Hok. destruct r as [[]|e]; simpl.
  - symmetry in Hok. destruct (Hbuf Hok) as [Hb1 Hn1].
    destruct (IH b1 Hl ltac:(lia) Hb1 Hn1) as (r & b2 & H2 & Hok2 & Hpy2 & Hself2 & Huser2).
    exists r, b2. split_and!; [done|done| |lia|].
    + rewrite Hpy2, Hpy. unfold run. by rewrite fold_left_app.
    + rewrite Huser2, Huser. unfold drops. simpl. destruct i; simpl; lia.
  - exists (Raise e), b1. split_and!; [done|done| |done|].
    + by rewrite Hpy, app_nil_r.
    + rewrite Huser. unfold drops. simpl. destruct i; simpl; lia.
Qed.

Lemma no_completion_cancel l : cancels CompletionFuture (flat_map abstract l) = false.
Proof.
  unfold cancels. induction l as [|i l IH]; [done|]. cbn [flat_map]. rewrite existsb_app, IH.
  destruct i as [[] bs [st|]| | | |]; simpl; try done. by destruct (forallb utf8_pair (concat bs)).
Qed.

Lemma native_complete_run (s : stream) (error_code : Z) :
  completion_future s = Pending ->
  exists s', _on_complete [] [] error_code s = (Ok tt, s') /\
    completion_future s' = Finished (outcome_of error_code (response_status_code s)).
Proof.
  intros Hp. unfold _on_complete, bind, gets. destruct (is_http2 s).
  - rewrite Http2_complete_run. cbn [fold_left]. cbv zeta.
    change (remote_end_stream_future (drop_request s)) with (remote_end_stream_future s).
    destruct (Fut.done (remote_end_stream_future s)); rewrite !base_complete_run; cbn; rewrite Hp; by eexists.
  - rewrite base_complete_run. cbn. rewrite Hp. by eexists.
Qed.

End Callbacks.

(** A main block in two batches after an informational one; the program has
    dropped its reference, and is called back all the same. *)
Definition demo_items : list item :=
  [Block INFORMATIONAL [] (Some 100); Drop;
   Block MAIN [[("Host", "h")]; [("a", "1"); ("b", "")]]%string (Some 200); BodyData []; RemoteEnd].


(** The condition on NULs is needed: the terminators shift the strings. *)
Example nul_shifts_headers :
  header_list 2 (encode_pairs [(String "a" (String NUL "b"), "v"); ("c", "d")]%string) =
  [("a", "b"); ("v", "c")]%string.
Proof. done. Qed.

(** Activating twice (the second call succeeds and does nothing in the native
    layer) leaves a reference for ever. *)
Example activate_twice_leaks :
  let activate b := (http_client_stream_activate (H:=demo_errors) None b).2 in
  let b := activate (activate (mkBinding (stream_init false) EmptyString 0 1 0)) in
  self_refs (s_on_stream_complete (H:=demo_errors) 0 b) = 1%nat.
Proof. done. Qed.
End NativeStream.

(** ** Flow-control windows

    The increments as the C code of [update_window] gets them: for a stream the
    format is [I], which takes the low 32 bits of any int; for an HTTP/2
    connection [n], read into an unsigned variable of the same width. *)
Module Windows.
Definition http_stream_update_window (increment_size : Z) : result Z := Ok (increment_size mod 2 ^ 32).
Definition http2_connection_update_window (ssize_bits increment_size : Z) : result Z :=
  if (- 2 ^ (ssize_bits - 1) <=? increment_size) && (increment_size <? 2 ^ (ssize_bits - 1))
  then Ok (increment_size mod 2 ^ ssize_bits)
  else Raise (OverflowError "Python int too large to convert to C ssize_t").

(** An increment in range arrives as it is. *)
Lemma update_window_exact z :
  0 <= z < 2 ^ 31 -> http_stream_update_window z = Ok z /\ http2_connection_update_window 64 z = Ok z.
Proof.
  intros Hz. unfold http_stream_update_window, http2_connection_update_window.
  rewrite !Z.mod_small by lia. destruct (Z.leb_spec (- 2 ^ (64 - 1)) z), (Z.ltb_spec z (2 ^ (64 - 1))); simpl; lia || done.
Qed.

(** Others are not refused: 2^32 for a stream becomes 0, and -1 a huge increment. *)
Example update_window_wraps :
  http_stream_update_window (2 ^ 32) = Ok 0 /\ http_stream_update_window (-1) = Ok (2 ^ 32 - 1) /\
  http2_connection_update_window 64 (-1) = Ok (2 ^ 64 - 1).
Proof. done. Qed.
End Windows.
