(* ===== verification/Metrics.v ===== *)
(** * awscrt/aws_iot_metrics.py: the SDK metrics sent to AWS IoT

    The feature list of a client ([_get_encoded_feature_list] for MQTT5,
    [_get_encoded_feature_list_mqtt3] for MQTT 3.1.1), its merge with the list
    of a library built on top ([_merge_feature_lists]) and the metadata entries
    of the CONNECT packet ([_create_metrics]). [ClientOptions] of mqtt5.py is
    declared here because the MQTT5 feature list reads it. *)
From S2P Require Import Prelude PyData Future Mqtt5Types Io Http.

Module Metrics.

Record IoTMetricsMetadata := mkMetadata { key : string; value : string }.
Record AWSIoTMetrics := mkMetrics {
  library_name : string;
  metadata_entries : option (list IoTMetricsMetadata);
}.
(** [AWSIoTMetrics()] *)
Definition AWSIoTMetrics_default : AWSIoTMetrics := mkMetrics "IoTDeviceSDK/Python" None.

(** [mqtt5.ClientOptions]. Callables, the bootstrap and the socket options are
    given by an identifier. *)
Record ClientOptions := mkClientOptions {
  host_name : string;
  port : option Z;
  bootstrap : option nat;
  socket_options : option nat;
  tls_ctx : option Tls.ClientTlsContext;
  http_proxy_options : option Proxy.HttpProxyOptions;
  websocket_handshake_transform : option nat;
  connect_options : option ConnectPacket;
  session_behavior : option ClientSessionBehaviorType;
  extended_validation_and_flow_control_options : option ExtendedValidationAndFlowControlOptions;
  offline_queue_behavior : option ClientOperationQueueBehaviorType;
  retry_jitter_mode : option ExponentialBackoffJitterMode;
  min_reconnect_delay_ms : option Z;
  max_reconnect_delay_ms : option Z;
  min_connected_time_to_reset_reconnect_delay_ms : option Z;
  ping_timeout_ms : option Z;
  connack_timeout_ms : option Z;
  ack_timeout_sec : option Z;
  topic_aliasing_options : option TopicAliasingOptions;
  on_publish_callback_fn : option nat;
  on_lifecycle_event_stopped_fn : option nat;
  on_lifecycle_event_attempting_connect_fn : option nat;
  on_lifecycle_event_connection_success_fn : option nat;
  on_lifecycle_event_connection_failure_fn : option nat;
  on_lifecycle_event_disconnection_fn : option nat;
  disable_metrics : bool;
  metrics : option AWSIoTMetrics;
}.

Definition IOT_SDK_METRICS_FEATURE_VERSION : Z := 1.

Inductive _MetricsFeatureId :=
  | RETRY_JITTER_MODE
  | SESSION_BEHAVIOR
  | OFFLINE_QUEUE_BEHAVIOR
  | OUTBOUND_TOPIC_ALIAS_BEHAVIOR
  | INBOUND_TOPIC_ALIAS_BEHAVIOR
  | PROTOCOL_VERSION
  | SOCKET_IMPLEMENTATION
  | HTTP_PROXY_TYPE
  | CERTIFICATE_SOURCE
  | TLS_CIPHER_PREFERENCE
  | MINIMUM_TLS_VERSION.
#[global] Instance _MetricsFeatureId_eq_dec : EqDecision _MetricsFeatureId.
Proof. solve_decision. Defined.

(** [<id>.value] *)
Definition feature_letter (i : _MetricsFeatureId) : string :=
  match i with
  | RETRY_JITTER_MODE => "A"
  | SESSION_BEHAVIOR => "B"
  | OFFLINE_QUEUE_BEHAVIOR => "C"
  | OUTBOUND_TOPIC_ALIAS_BEHAVIOR => "D"
  | INBOUND_TOPIC_ALIAS_BEHAVIOR => "E"
  | PROTOCOL_VERSION => "F"
  | SOCKET_IMPLEMENTATION => "G"
  | HTTP_PROXY_TYPE => "H"
  | CERTIFICATE_SOURCE => "I"
  | TLS_CIPHER_PREFERENCE => "J"
  | MINIMUM_TLS_VERSION => "K"
  end.

(** ** The value of each feature: [mapping.get(x)] *)

Definition _certificate_source_metrics_value (source : option _CertificateSource) : option string :=
  match source with
  | Some _CertificateSource.CERTIFICATE_FILES => Some "A"
  | Some _CertificateSource.PKCS11 => Some "B"
  | Some _CertificateSource.WINDOWS_CERT_STORE => Some "C"
  | Some _CertificateSource.PKCS12_FILE => Some "E"
  | None => None
  end%string.

Inductive protocol := MQTT311 | MQTT5.
Definition _protocol_version_metrics_value (p : protocol) : string :=
  match p with MQTT311 => "3" | MQTT5 => "5" end.

(** [sys.platform == "win32"] *)
Definition _socket_implementation_metrics_value (win32 : bool) : string :=
  if win32 then "B" else "A".

Definition _http_proxy_type_metrics_value (proxy_options : Proxy.HttpProxyOptions) : string :=
  match Proxy.tls_connection_options proxy_options with Some _ => "B" | None => "A" end.

Definition _retry_jitter_metrics_value (mode : ExponentialBackoffJitterMode) : option string :=
  match mode with
  | ExponentialBackoffJitterMode.DEFAULT => None
  | ExponentialBackoffJitterMode.NONE => Some "A"
  | ExponentialBackoffJitterMode.FULL => Some "B"
  | ExponentialBackoffJitterMode.DECORRELATED => Some "C"
  end%string.

Definition _client_session_behavior_metrics_value (behavior : ClientSessionBehaviorType) : option string :=
  match behavior with
  | ClientSessionBehaviorType.DEFAULT => None
  | ClientSessionBehaviorType.CLEAN => Some "A"
  | ClientSessionBehaviorType.REJOIN_POST_SUCCESS => Some "B"
  | ClientSessionBehaviorType.REJOIN_ALWAYS => Some "C"
  end%string.

Definition _client_operation_queue_behavior_metrics_value
    (behavior : ClientOperationQueueBehaviorType) : option string :=
  match behavior with
  | ClientOperationQueueBehaviorType.DEFAULT => None
  | ClientOperationQueueBehaviorType.FAIL_NON_QOS1_PUBLISH_ON_DISCONNECT => Some "A"
  | ClientOperationQueueBehaviorType.FAIL_QOS0_PUBLISH_ON_DISCONNECT => Some "B"
  | ClientOperationQueueBehaviorType.FAIL_ALL_ON_DISCONNECT => Some "C"
  end%string.

Definition _outbound_topic_alias_behavior_metrics_value
    (behavior : OutboundTopicAliasBehaviorType) : option string :=
  match behavior with
  | OutboundTopicAliasBehaviorType.DEFAULT => None
  | OutboundTopicAliasBehaviorType.MANUAL => Some "A"
  | OutboundTopicAliasBehaviorType.LRU => Some "B"
  | OutboundTopicAliasBehaviorType.DISABLED => Some "C"
  end%string.

Definition _inbound_topic_alias_behavior_metrics_value
    (behavior : InboundTopicAliasBehaviorType) : option string :=
  match behavior with
  | InboundTopicAliasBehaviorType.DEFAULT => None
  | InboundTopicAliasBehaviorType.ENABLED => Some "A"
  | InboundTopicAliasBehaviorType.DISABLED => Some "B"
  end%string.

Definition _minimum_tls_version_metrics_value (version : TlsVersion) : option string :=
  match version with
  | TlsVersion.SSLv3 => Some "A"
  | TlsVersion.TLSv1 => Some "B"
  | TlsVersion.TLSv1_1 => Some "C"
  | TlsVersion.TLSv1_2 => Some "D"
  | TlsVersion.TLSv1_3 => Some "E"
  | TlsVersion.DEFAULT => None
  end%string.

Definition _tls_cipher_preference_metrics_value (pref : TlsCipherPref) : option string :=
  match pref with
  | TlsCipherPref.DEFAULT => None
  | TlsCipherPref.PQ_TLSv1_0_2021_05 => Some "F"
  | TlsCipherPref.PQ_DEFAULT => Some "H"
  | TlsCipherPref.TLSv1_2_2025_07 => Some "I"
  end%string.

(** ** Encoding *)

(** [f"{id.value}/{val}"] *)
Definition pair_str (k v : string) : string := String.append k (String.append "/" v).

(** [if val: features.append(f"{id.value}/{val}")] *)
Definition append_feature (i : _MetricsFeatureId) (val : option string) (features : list string)
    : list string :=
  match val with
  | Some v => if bool_decide (v = EmptyString) then features
              else features ++ [pair_str (feature_letter i) v]
  | None => features
  end.

(** The block that both encoders share for the TLS context. *)
Definition append_tls_features (tls_ctx : option Tls.ClientTlsContext) (features : list string)
    : list string :=
  match tls_ctx with
  | None => features
  | Some ctx =>
      let features := append_feature CERTIFICATE_SOURCE
        (_certificate_source_metrics_value (Tls.ctx_certificate_source ctx)) features in
      let features := append_feature TLS_CIPHER_PREFERENCE
        (_tls_cipher_preference_metrics_value (Tls.ctx_cipher_pref ctx)) features in
      append_feature MINIMUM_TLS_VERSION
        (_minimum_tls_version_metrics_value (Tls.ctx_min_tls_ver ctx)) features
  end.

Definition append_proxy_feature (proxy : option Proxy.HttpProxyOptions) (features : list string)
    : list string :=
  match proxy with
  | None => features
  | Some p => features ++ [pair_str (feature_letter HTTP_PROXY_TYPE) (_http_proxy_type_metrics_value p)]
  end.

Section Encode.
Variable win32 : bool.

Definition _get_encoded_feature_list (o : ClientOptions) : string :=
  let features := [] in
  let features := match retry_jitter_mode o with
    | Some mode => append_feature RETRY_JITTER_MODE (_retry_jitter_metrics_value mode) features
    | None => features end in
  let features := match session_behavior o with
    | Some b => append_feature SESSION_BEHAVIOR (_client_session_behavior_metrics_value b) features
    | None => features end in
  let features := match offline_queue_behavior o with
    | Some b => append_feature OFFLINE_QUEUE_BEHAVIOR
                  (_client_operation_queue_behavior_metrics_value b) features
    | None => features end in
  let features := match topic_aliasing_options o with
    | Some t => match TopicAliasingOptions.outbound_behavior t with
                | Some b => append_feature OUTBOUND_TOPIC_ALIAS_BEHAVIOR
                              (_outbound_topic_alias_behavior_metrics_value b) features
                | None => features end
    | None => features end in
  let features := match topic_aliasing_options o with
    | Some t => match TopicAliasingOptions.inbound_behavior t with
                | Some b => append_feature INBOUND_TOPIC_ALIAS_BEHAVIOR
                              (_inbound_topic_alias_behavior_metrics_value b) features
                | None => features end
    | None => features end in
  let features := features ++
    [pair_str (feature_letter PROTOCOL_VERSION) (_protocol_version_metrics_value MQTT5)] in
  let features := features ++
    [pair_str (feature_letter SOCKET_IMPLEMENTATION) (_socket_implementation_metrics_value win32)] in
  let features := append_proxy_feature (http_proxy_options o) features in
  PyStr.join ","%char (append_tls_features (tls_ctx o) features).

Definition _get_encoded_feature_list_mqtt3 (proxy_options : option Proxy.HttpProxyOptions)
    (tls_ctx : option Tls.ClientTlsContext) : string :=
  let features := [pair_str (feature_letter PROTOCOL_VERSION) (_protocol_version_metrics_value MQTT311);
                   pair_str (feature_letter SOCKET_IMPLEMENTATION)
                            (_socket_implementation_metrics_value win32)] in
  PyStr.join ","%char (append_tls_features tls_ctx (append_proxy_feature proxy_options features)).
End Encode.

(** ** Merging *)

(** [for pair in s.split(","): if "/" in pair: fid, val = pair.split("/", 1); merged[fid] = val] *)
Definition add_pair (merged : PyDict.dict string string) (pair : string) : PyDict.dict string string :=
  match PyStr.split_once "/"%char pair with
  | Some (fid, val) => PyDict.dict_set merged fid val
  | None => merged
  end.
Definition parse_features (merged : PyDict.dict string string) (s : string)
    : PyDict.dict string string := fold_left add_pair (PyStr.split ","%char s) merged.

(** [",".join(f"{k}/{v}" for k, v in merged.items())] *)
Definition format_features (merged : PyDict.dict string string) : string :=
  PyStr.join ","%char (map (fun '(k, v) => pair_str k v) merged).

Definition _merge_feature_lists (crt_features user_features : string) : string :=
  format_features (parse_features (parse_features [] crt_features) user_features).

(** ** The metadata of a connection *)

(** The loop over the user's entries: metadata, version, feature. *)
Definition user_entry (acc : PyDict.dict string string * option string * string)
    (entry : IoTMetricsMetadata) : PyDict.dict string string * option string * string :=
  let '(metadata, version, feature) := acc in
  if bool_decide (key entry = "IoTSDKMetricsVersion"%string)
  then (metadata, Some (value entry), feature)
  else if bool_decide (key entry = "IoTSDKFeature"%string)
  then (metadata, version, value entry)
  else if negb (bool_decide (key entry = "CRTVersion"%string))
  then (PyDict.dict_set metadata (key entry) (value entry), version, feature)
  else acc.

(** [version is not None and version.isdigit() and int(version) == 1] *)
Definition version_matches (version : option string) : result bool :=
  match version with
  | None => Ok false
  | Some v =>
      if PyStr.isdigit v
      then let? n := PyStr.int v in Ok (n =? IOT_SDK_METRICS_FEATURE_VERSION)
      else Ok false
  end.

Definition _create_metrics (crt_version : string) (user_metrics : option AWSIoTMetrics)
    (crt_feature_list : string) : result AWSIoTMetrics :=
  let name := match user_metrics with Some m => library_name m | None => "IoTDeviceSDK/Python"%string end in
  let metadata := [("CRTVersion"%string, crt_version)] in
  let '(metadata, version, feature) :=
    match user_metrics with
    | Some m => match metadata_entries m with
                | Some entries => fold_left user_entry entries (metadata, None, EmptyString)
                | None => (metadata, None, EmptyString)
                end
    | None => (metadata, None, EmptyString)
    end in
  let? matches := version_matches version in
  let metadata := PyDict.dict_set metadata "IoTSDKFeature"
    (if matches then _merge_feature_lists crt_feature_list feature
     else _merge_feature_lists crt_feature_list "") in
  let metadata := PyDict.dict_set metadata "IoTSDKMetricsVersion" "1" in
  Ok (mkMetrics name (Some (map (fun '(k, v) => mkMetadata k v) metadata))).

Definition _create_metrics_mqtt5 (win32 : bool) (crt_version : string) (o : ClientOptions) : result AWSIoTMetrics :=
  _create_metrics crt_version (metrics o) (_get_encoded_feature_list win32 o).
Definition _create_metrics_mqtt3 (win32 : bool) (crt_version : string)
    (user_metrics : option AWSIoTMetrics) (proxy_options : option Proxy.HttpProxyOptions)
    (tls_ctx : option Tls.ClientTlsContext) : result AWSIoTMetrics :=
  _create_metrics crt_version user_metrics (_get_encoded_feature_list_mqtt3 win32 proxy_options tls_ctx).

(** ** The format round-trips *)

(** Pairs that survive formatting: no separator in the key, no comma in the value. *)
Definition pair_ok (p : string * string) : Prop :=
  PyStr.contains "/"%char p.1 = false /\ PyStr.contains ","%char p.1 = false /\
  PyStr.contains ","%char p.2 = false.

(** The (identifier, value) pairs of a feature list, in order. *)
Definition feature_pairs (s : string) : list (string * string) :=
  omap (PyStr.split_once "/"%char) (PyStr.split ","%char s).

Lemma parse_features_pairs d s : parse_features d s = PyDict.dict_update d (feature_pairs s).
Proof.
  unfold parse_features, feature_pairs. generalize (PyStr.split ","%char s). intros l.
  revert d. induction l as [|x l IH]; intros d; simpl; [done|]. rewrite IH. unfold add_pair.
  by destruct (PyStr.split_once "/"%char x) as [[k v]|].
Qed.

Lemma feature_pairs_ok s : Forall pair_ok (feature_pairs s).
Proof.
  unfold feature_pairs. pose proof (PyStr.split_no_sep ","%char s) as Hs. revert Hs.
  generalize (PyStr.split ","%char s). induction l as [|x l IH]; intros Hs; simpl; [constructor|].
  inversion Hs as [|? ? Hx Hl]; subst.
  destruct (PyStr.split_once "/"%char x) as [[k v]|] eqn:E; [|by apply IH].
  constructor; [|by apply IH]. apply PyStr.split_once_Some in E as [-> Hk].
  rewrite PyStr.contains_app in Hx. apply orb_false_iff in Hx as [H1 H2]. simpl in H2.
  split_and!; simpl; done.
Qed.

Lemma pair_str_no_comma k v :
  PyStr.contains ","%char k = false -> PyStr.contains ","%char v = false ->
  PyStr.contains ","%char (pair_str k v) = false.
Proof. intros Hk Hv. unfold pair_str. rewrite PyStr.contains_app, Hk. simpl. exact Hv. Qed.

Lemma pair_str_split k v :
  PyStr.contains "/"%char k = false -> PyStr.split_once "/"%char (pair_str k v) = Some (k, v).
Proof. apply (PyStr.split_once_app "/"%char k v). Qed.

Lemma feature_pairs_format d : Forall pair_ok d -> feature_pairs (format_features d) = d.
Proof.
  intros Hd. unfold feature_pairs, format_features. destruct d as [|p d]; [done|].
  rewrite PyStr.split_join; [|done|].
  - induction Hd as [|[k v] l (Hk & _ & _) Hl IH]; [done|]. simpl.
    rewrite pair_str_split by done. f_equal. exact IH.
  - apply Forall_map. eapply Forall_impl; [exact Hd|]. intros [k v] (H1 & H2 & H3).
    by apply pair_str_no_comma.
Qed.

Lemma dict_update_ok d l :
  Forall pair_ok d -> Forall pair_ok l -> Forall pair_ok (PyDict.dict_update d l).
Proof.
  intros Hd Hl. revert d Hd. induction Hl as [|[k v] l Hp Hl IH]; intros d Hd; simpl; [done|].
  apply IH. clear -Hd Hp. induction Hd as [|[k1 v1] d H1 Hd IH]; simpl; [constructor; [exact Hp|constructor]|].
  destruct (decide (k = k1)) as [->|]; constructor; try done.
Qed.

Lemma merge_dict crt user :
  _merge_feature_lists crt user =
  format_features (PyDict.dict_update [] (feature_pairs crt ++ feature_pairs user)).
Proof. unfold _merge_feature_lists. by rewrite !parse_features_pairs, PyDict.dict_update_app. Qed.

Lemma merge_pairs crt user :
  feature_pairs (_merge_feature_lists crt user) =
  PyDict.dict_update [] (feature_pairs crt ++ feature_pairs user).
Proof.
  rewrite merge_dict. apply feature_pairs_format, dict_update_ok; [constructor|].
  apply Forall_app. split; apply feature_pairs_ok.
Qed.

Lemma parse_nodup s : NoDup (PyDict.keys (parse_features [] s)).
Proof. rewrite parse_features_pairs. apply PyDict.nodup_update. constructor. Qed.

Lemma parse_merge crt user :
  parse_features [] (_merge_feature_lists crt user) =
  PyDict.dict_update (parse_features [] crt) (feature_pairs user).
Proof.
  rewrite parse_features_pairs, merge_pairs, PyDict.dict_items_id.
  - by rewrite PyDict.dict_update_app, parse_features_pairs.
  - apply PyDict.nodup_update. constructor.
Qed.

(** C12: Merging two feature lists (however malformed) is a right-biased union:
    read back with the same parser, the merged list gives every feature
    identifier the user's value when the user's list has one, and the library's
    value otherwise; identifiers are unique, the library's come first in their
    order and the user's new ones follow in theirs; and merging the user's list
    again changes nothing. *)
Theorem merge_feature_lists_spec (crt user : string) :
  let m := _merge_feature_lists crt user in
  (forall id, PyDict.dict_get (parse_features [] m) id =
     match PyDict.dict_get (parse_features [] user) id with
     | Some v => Some v
     | None => PyDict.dict_get (parse_features [] crt) id
     end) /\
  NoDup (PyDict.keys (parse_features [] m)) /\
  PyDict.keys (parse_features [] m) =
    PyDict.keys (parse_features [] crt) ++
    filter (fun id => id ∉ PyDict.keys (parse_features [] crt)) (PyDict.keys (parse_features [] user)) /\
  _merge_feature_lists m user = m.
Proof.
  cbv zeta. rewrite parse_merge. split_and!.
  - intros id. rewrite PyDict.dict_get_update. by rewrite (parse_features_pairs [] user).
  - apply PyDict.nodup_update, parse_nodup.
  - by rewrite PyDict.keys_update, (parse_features_pairs [] user).
  - rewrite (merge_dict _ user), merge_pairs, (merge_dict crt user).
    rewrite PyDict.dict_update_app, PyDict.dict_items_id by (apply PyDict.nodup_update; constructor).
    rewrite PyDict.dict_update_app, PyDict.dict_update_twice; [done|].
    apply PyDict.nodup_update. constructor.
Qed.

(** ** What the feature lists say *)

Definition all_features : list _MetricsFeatureId :=
  [RETRY_JITTER_MODE; SESSION_BEHAVIOR; OFFLINE_QUEUE_BEHAVIOR; OUTBOUND_TOPIC_ALIAS_BEHAVIOR;
   INBOUND_TOPIC_ALIAS_BEHAVIOR; PROTOCOL_VERSION; SOCKET_IMPLEMENTATION; HTTP_PROXY_TYPE;
   CERTIFICATE_SOURCE; TLS_CIPHER_PREFERENCE; MINIMUM_TLS_VERSION].

(** The value a feature should be reported with; None: not reported. *)
Definition tls_feature (tls_ctx : option Tls.ClientTlsContext) (i : _MetricsFeatureId) : option string :=
  match i with
  | CERTIFICATE_SOURCE => tls_ctx ≫= fun c => _certificate_source_metrics_value (Tls.ctx_certificate_source c)
  | TLS_CIPHER_PREFERENCE => tls_ctx ≫= fun c => _tls_cipher_preference_metrics_value (Tls.ctx_cipher_pref c)
  | MINIMUM_TLS_VERSION => tls_ctx ≫= fun c => _minimum_tls_version_metrics_value (Tls.ctx_min_tls_ver c)
  | _ => None
  end.
Definition feature_mqtt3 (win32 : bool) (proxy : option Proxy.HttpProxyOptions)
    (tls_ctx : option Tls.ClientTlsContext) (i : _MetricsFeatureId) : option string :=
  match i with
  | PROTOCOL_VERSION => Some "3"%string
  | SOCKET_IMPLEMENTATION => Some (_socket_implementation_metrics_value win32)
  | HTTP_PROXY_TYPE => _http_proxy_type_metrics_value <$> proxy
  | _ => tls_feature tls_ctx i
  end.
Definition feature_mqtt5 (win32 : bool) (o : ClientOptions) (i : _MetricsFeatureId) : option string :=
  match i with
  | RETRY_JITTER_MODE => retry_jitter_mode o ≫= _retry_jitter_metrics_value
  | SESSION_BEHAVIOR => session_behavior o ≫= _client_session_behavior_metrics_value
  | OFFLINE_QUEUE_BEHAVIOR => offline_queue_behavior o ≫= _client_operation_queue_behavior_metrics_value
  | OUTBOUND_TOPIC_ALIAS_BEHAVIOR =>
      (topic_aliasing_options o ≫= TopicAliasingOptions.outbound_behavior)
        ≫= _outbound_topic_alias_behavior_metrics_value
  | INBOUND_TOPIC_ALIAS_BEHAVIOR =>
      (topic_aliasing_options o ≫= TopicAliasingOptions.inbound_behavior)
        ≫= _inbound_topic_alias_behavior_metrics_value
  | PROTOCOL_VERSION => Some "5"%string
  | _ => feature_mqtt3 win32 (http_proxy_options o) (tls_ctx o) i
  end.

Definition opt_feature (i : _MetricsFeatureId) (val : option string) : list (string * string) :=
  match val with Some v => [(feature_letter i, v)] | None => [] end.

(** The reported features, in the order of their identifiers. *)
Definition reported (f : _MetricsFeatureId -> option string) : PyDict.dict string string :=
  flat_map (fun i => opt_feature i (f i)) all_features.

Definition as_strings : list (string * string) -> list string := map (fun '(k, v) => pair_str k v).

(** A feature value is a short code: not empty, no comma. *)
Definition code_ok (val : option string) : Prop :=
  forall v, val = Some v -> v <> EmptyString /\ PyStr.contains ","%char v = false.

Lemma append_feature_opt i val d :
  code_ok val -> append_feature i val (as_strings d) = as_strings (d ++ opt_feature i val).
Proof.
  intros Hv. unfold as_strings. rewrite map_app. destruct val as [v|]; simpl; [|by rewrite app_nil_r].
  rewrite bool_decide_false; [done|]. by apply (Hv v eq_refl).
Qed.

Ltac solve_code_ok := intros ?; repeat case_match; intros; simplify_eq/=; split; done.

Lemma feature_code_ok win32 o i : code_ok (feature_mqtt5 win32 o i).
Proof.
  destruct i; unfold feature_mqtt5, feature_mqtt3, tls_feature, _retry_jitter_metrics_value,
    _client_session_behavior_metrics_value, _client_operation_queue_behavior_metrics_value,
    _outbound_topic_alias_behavior_metrics_value, _inbound_topic_alias_behavior_metrics_value,
    _socket_implementation_metrics_value, _http_proxy_type_metrics_value,
    _certificate_source_metrics_value, _tls_cipher_preference_metrics_value,
    _minimum_tls_version_metrics_value, mbind, option_bind, fmap, option_fmap, option_map;
    solve_code_ok.
Qed.

Lemma feature3_code_ok win32 p t i : code_ok (feature_mqtt3 win32 p t i).
Proof.
  destruct i; unfold feature_mqtt3, tls_feature,
    _socket_implementation_metrics_value, _http_proxy_type_metrics_value,
    _certificate_source_metrics_value, _tls_cipher_preference_metrics_value,
    _minimum_tls_version_metrics_value, mbind, option_bind, fmap, option_fmap, option_map;
    solve_code_ok.
Qed.

Lemma append_tls_opt t d :
  append_tls_features t (as_strings d) =
  as_strings (d ++ opt_feature CERTIFICATE_SOURCE (tls_feature t CERTIFICATE_SOURCE) ++
    opt_feature TLS_CIPHER_PREFERENCE (tls_feature t TLS_CIPHER_PREFERENCE) ++
    opt_feature MINIMUM_TLS_VERSION (tls_feature t MINIMUM_TLS_VERSION)).
Proof.
  destruct t as [c|]; simpl; [|by rewrite app_nil_r].
  rewrite !append_feature_opt; [by rewrite <- !app_assoc|..].
  - apply (feature3_code_ok true None (Some c) MINIMUM_TLS_VERSION).
  - apply (feature3_code_ok true None (Some c) TLS_CIPHER_PREFERENCE).
  - apply (feature3_code_ok true None (Some c) CERTIFICATE_SOURCE).
Qed.

Lemma append_proxy_opt win32 p t d :
  append_proxy_feature p (as_strings d) =
  as_strings (d ++ opt_feature HTTP_PROXY_TYPE (feature_mqtt3 win32 p t HTTP_PROXY_TYPE)).
Proof.
  unfold as_strings. rewrite map_app. destruct p; simpl; by rewrite ?app_nil_r.
Qed.

Lemma append_one i v d : as_strings d ++ [pair_str (feature_letter i) v] = as_strings (d ++ opt_feature i (Some v)).
Proof. unfold as_strings. by rewrite map_app. Qed.

Lemma elem_of_reported f k v :
  (k, v) ∈ reported f <-> exists i, k = feature_letter i /\ f i = Some v.
Proof.
  unfold reported. rewrite list_elem_of_In, in_flat_map. split.
  - intros (i & _ & Hi). unfold opt_feature in Hi. destruct (f i) eqn:E; [|done].
    destruct Hi as [[= <- <-]|[]]. eauto.
  - intros (i & -> & Hi). exists i. split; [by destruct i; simpl; tauto|].
    rewrite Hi. by left.
Qed.

Lemma reported_ok f : (forall i, code_ok (f i)) -> Forall pair_ok (reported f).
Proof.
  intros Hf. apply Forall_forall. intros [k v] Hp.
  apply elem_of_reported in Hp as (i & -> & Hi). destruct (Hf i v Hi) as [_ Hc]. by destruct i.
Qed.

Lemma reported_keys f l :
  PyDict.keys (flat_map (fun i => opt_feature i (f i)) l) =
  map feature_letter (filter (fun i => is_Some (f i)) l).
Proof.
  induction l as [|i l IH]; [done|]. simpl. destruct (f i) as [v|] eqn:E; simpl.
  - rewrite filter_cons_True by (rewrite E; eauto). simpl. by f_equal.
  - rewrite filter_cons_False by (rewrite E; by intros [? ?]). exact IH.
Qed.

Lemma reported_nodup f : NoDup (PyDict.keys (reported f)).
Proof.
  unfold reported. rewrite reported_keys. apply NoDup_fmap_2.
  - intros i j. destruct i, j; done.
  - apply NoDup_filter. apply (bool_decide_unpack _). vm_compute. exact I.
Qed.

Lemma encoded_mqtt3_format win32 p t :
  _get_encoded_feature_list_mqtt3 win32 p t = format_features (reported (feature_mqtt3 win32 p t)).
Proof.
  unfold _get_encoded_feature_list_mqtt3, format_features. f_equal.
  unfold reported.
  change (append_tls_features t (append_proxy_feature p (as_strings
    ([("F", "3"); ("G", _socket_implementation_metrics_value win32)]%string))) =
    as_strings (flat_map (fun i => opt_feature i (feature_mqtt3 win32 p t i)) all_features)).
  rewrite (append_proxy_opt win32 p t), append_tls_opt. f_equal. simpl. by rewrite !app_nil_r.
Qed.

Lemma encoded_mqtt5_format win32 o :
  _get_encoded_feature_list win32 o = format_features (reported (feature_mqtt5 win32 o)).
Proof.
  unfold _get_encoded_feature_list, format_features. cbv zeta. f_equal. unfold reported.
  change (@nil string) with (as_strings []).
  assert (forall {A} (x : option A) (f : A -> option string) i d,
    code_ok (x ≫= f) ->
    match x with Some a => append_feature i (f a) (as_strings d) | None => as_strings d end =
    as_strings (d ++ opt_feature i (x ≫= f))) as Hopt.
  { intros A x f i d Hc. destruct x; simpl in *; [by apply append_feature_opt | by rewrite app_nil_r]. }
  assert (forall {A B} (x : option A) (g : A -> option B) (f : B -> option string) i d,
    code_ok ((x ≫= g) ≫= f) ->
    match x with Some a => match g a with Some b => append_feature i (f b) (as_strings d)
                           | None => as_strings d end | None => as_strings d end =
    as_strings (d ++ opt_feature i ((x ≫= g) ≫= f))) as Hopt2.
  { intros A B x g f i d Hc. destruct x as [a|]; simpl in *; [|by rewrite app_nil_r].
    destruct (g a); simpl in *; [by apply append_feature_opt | by rewrite app_nil_r]. }
  rewrite (Hopt _ (retry_jitter_mode o)) by apply (feature_code_ok win32 o RETRY_JITTER_MODE).
  rewrite (Hopt _ (session_behavior o)) by apply (feature_code_ok win32 o SESSION_BEHAVIOR).
  rewrite (Hopt _ (offline_queue_behavior o)) by apply (feature_code_ok win32 o OFFLINE_QUEUE_BEHAVIOR).
  rewrite (Hopt2 _ _ (topic_aliasing_options o)) by apply (feature_code_ok win32 o OUTBOUND_TOPIC_ALIAS_BEHAVIOR).
  rewrite (Hopt2 _ _ (topic_aliasing_options o)) by apply (feature_code_ok win32 o INBOUND_TOPIC_ALIAS_BEHAVIOR).
  rewrite !append_one, (append_proxy_opt win32 _ (tls_ctx o)), append_tls_opt.
  unfold as_strings. f_equal. simpl. by rewrite <- ?app_assoc, ?app_nil_r.
Qed.

(** The encoded feature lists say exactly what the client is configured
    with: read back with the library's own parser, the MQTT5 list (and the
    MQTT 3.1.1 one) holds, in increasing order of the identifiers A to K and
    without repetition, the code of each feature that is set to a reportable
    value and nothing else, and always the protocol version and the socket
    implementation. *)
Lemma encoded_feature_lists (win32 : bool) (o : ClientOptions)
    (proxy : option Proxy.HttpProxyOptions) (tls : option Tls.ClientTlsContext) :
  parse_features [] (_get_encoded_feature_list win32 o) = reported (feature_mqtt5 win32 o) /\
  parse_features [] (_get_encoded_feature_list_mqtt3 win32 proxy tls) =
    reported (feature_mqtt3 win32 proxy tls) /\
  (forall f, NoDup (PyDict.keys (reported f)) /\
             PyDict.keys (reported f) `sublist_of` map feature_letter all_features) /\
  PyDict.dict_get (parse_features [] (_get_encoded_feature_list win32 o)) "F" = Some "5"%string /\
  PyDict.dict_get (parse_features [] (_get_encoded_feature_list_mqtt3 win32 proxy tls)) "F" = Some "3"%string.
Proof.
  assert (forall f, (forall i, code_ok (f i)) ->
    parse_features [] (format_features (reported f)) = reported f) as Hp.
  { intros f Hf. rewrite parse_features_pairs, feature_pairs_format by (by apply reported_ok).
    apply PyDict.dict_items_id, reported_nodup. }
  assert (forall f v, f PROTOCOL_VERSION = Some v -> PyDict.dict_get (reported f) "F" = Some v) as HF.
  { intros f v Hv. apply PyDict.dict_get_elem_of; [apply reported_nodup|].
    apply elem_of_reported. by exists PROTOCOL_VERSION. }
  rewrite encoded_mqtt5_format, encoded_mqtt3_format.
  rewrite (Hp _ (feature_code_ok win32 o)), (Hp _ (feature3_code_ok win32 proxy tls)).
  split_and!; [done|done| |by apply HF|by apply HF].
  intros f. split; [apply reported_nodup|]. unfold reported. rewrite reported_keys.
  apply fmap_sublist, sublist_filter.
Qed.

(** ** The metadata entries *)

(** The user's entries as (key, value) pairs. *)
Definition user_items (user_metrics : option AWSIoTMetrics) : list (string * string) :=
  match user_metrics ≫= metadata_entries with
  | Some entries => map (fun e => (key e, value e)) entries
  | None => []
  end.

(** The value the user gave last for a key. *)
Definition user_value (user_metrics : option AWSIoTMetrics) (k : string) : option string :=
  PyDict.dict_get (PyDict.dict_update [] (user_items user_metrics)) k.

(** The keys [_create_metrics] decides itself. *)
Definition reserved : list string := ["CRTVersion"; "IoTSDKFeature"; "IoTSDKMetricsVersion"]%string.

Lemma user_entries_fold entries md :
  let items := map (fun e => (key e, value e)) entries in
  let '(md', version, feature) := fold_left user_entry entries (md, None, EmptyString) in
  version = PyDict.dict_get (PyDict.dict_update [] items) "IoTSDKMetricsVersion" /\
  feature = default EmptyString (PyDict.dict_get (PyDict.dict_update [] items) "IoTSDKFeature") /\
  (NoDup (PyDict.keys md) -> NoDup (PyDict.keys md')) /\
  (forall k, PyDict.dict_get md' k =
    if decide (k ∈ reserved) then PyDict.dict_get md k
    else match PyDict.dict_get (PyDict.dict_update [] items) k with
         | Some v => Some v | None => PyDict.dict_get md k end).
Proof.
  cbv zeta. induction entries as [|e entries IH] using rev_ind; simpl.
  - split_and!; try done. intros k. by destruct (decide _).
  - rewrite fold_left_app, map_app, PyDict.dict_update_app. simpl.
    destruct (fold_left user_entry entries (md, None, EmptyString)) as [[md' version] feature].
    destruct IH as (-> & -> & Hnd & Hk). unfold user_entry.
    destruct (bool_decide_reflect (key e = "IoTSDKMetricsVersion"%string)) as [E1|E1];
    [|destruct (bool_decide_reflect (key e = "IoTSDKFeature"%string)) as [E2|E2];
    [|destruct (bool_decide_reflect (key e = "CRTVersion"%string)) as [E3|E3]]]; simpl.
    + rewrite E1, !PyDict.dict_get_set. split_and!; try done.
      intros k. rewrite PyDict.dict_get_set, Hk. destruct (decide (k ∈ reserved)) as [|Hr]; [done|].
      destruct (decide (k = _)) as [->|]; [destruct Hr; set_solver|done].
    + rewrite E2, !PyDict.dict_get_set. split_and!; try done.
      intros k. rewrite PyDict.dict_get_set, Hk. destruct (decide (k ∈ reserved)) as [|Hr]; [done|].
      destruct (decide (k = _)) as [->|]; [destruct Hr; set_solver|done].
    + rewrite E3, !PyDict.dict_get_set. split_and!; try done.
      intros k. rewrite PyDict.dict_get_set, Hk. destruct (decide (k ∈ reserved)) as [|Hr]; [done|].
      destruct (decide (k = _)) as [->|]; [destruct Hr; set_solver|done].
    + rewrite !PyDict.dict_get_set. rewrite !decide_False by congruence. split_and!; try done.
      * intros Hn. apply PyDict.nodup_set. by apply Hnd.
      * intros k. rewrite !PyDict.dict_get_set, Hk. destruct (decide (k = key e)) as [->|]; [|done].
        rewrite decide_False; [done|]. unfold reserved. set_solver.
Qed.

Lemma create_metrics_fold cv um fl :
  exists md, NoDup (PyDict.keys md) /\
    (forall k, PyDict.dict_get md k =
      if decide (k = "CRTVersion"%string) then Some cv
      else if decide (k ∈ reserved) then None else user_value um k) /\
    _create_metrics cv um fl =
      (let? matches := version_matches (user_value um "IoTSDKMetricsVersion") in
       Ok (mkMetrics (match um with Some m => library_name m | None => "IoTDeviceSDK/Python"%string end)
         (Some (map (fun '(k, v) => mkMetadata k v)
           (PyDict.dict_set (PyDict.dict_set md "IoTSDKFeature"
             (_merge_feature_lists fl
               (if matches then default EmptyString (user_value um "IoTSDKFeature") else EmptyString)))
             "IoTSDKMetricsVersion" "1"))))).
Proof.
  unfold _create_metrics, user_value, user_items.
  assert (forall entries, exists md version feature,
    fold_left user_entry entries ([("CRTVersion"%string, cv)], None, EmptyString) = (md, version, feature) /\
    version = PyDict.dict_get (PyDict.dict_update [] (map (fun e => (key e, value e)) entries)) "IoTSDKMetricsVersion" /\
    feature = default EmptyString (PyDict.dict_get (PyDict.dict_update [] (map (fun e => (key e, value e)) entries)) "IoTSDKFeature") /\
    NoDup (PyDict.keys md) /\
    forall k, PyDict.dict_get md k = if decide (k = "CRTVersion"%string) then Some cv
      else if decide (k ∈ reserved) then None
      else PyDict.dict_get (PyDict.dict_update [] (map (fun e => (key e, value e)) entries)) k) as Hf.
  { intros entries. pose proof (user_entries_fold entries [("CRTVersion"%string, cv)]) as H.
    cbv zeta in H. destruct (fold_left _ _ _) as [[md version] feature]. destruct H as (-> & -> & Hn & Hk).
    eexists _, _, _. split_and!; [done..| |].
    - apply Hn. apply NoDup_singleton.
    - intros k. rewrite Hk. simpl. destruct (decide (k = "CRTVersion"%string)) as [->|].
      + rewrite decide_True; [done|set_solver].
      + destruct (decide (k ∈ reserved)); [done|]. by destruct (PyDict.dict_get _ k). }
  assert (exists entries, match um ≫= metadata_entries with
      | Some l => map (fun e => (key e, value e)) l | None => [] end =
      map (fun e => (key e, value e)) entries /\
      match um with
      | Some m => match metadata_entries m with
                  | Some l => fold_left user_entry l ([("CRTVersion"%string, cv)], None, EmptyString)
                  | None => ([("CRTVersion"%string, cv)], None, EmptyString) end
      | None => ([("CRTVersion"%string, cv)], None, EmptyString) end =
      fold_left user_entry entries ([("CRTVersion"%string, cv)], None, EmptyString)) as (entries & -> & ->).
  { destruct um as [m|]; [|by exists []]. simpl. destruct (metadata_entries m) as [l|]; [by exists l | by exists []]. }
  destruct (Hf entries) as (md & version & feature & -> & -> & -> & Hn & Hk).
  exists md. split_and!; [done..|]. destruct (version_matches _) as [[]|]; done.
Qed.

(** The metadata sent to AWS IoT obeys the documented rules, for any
    metrics object of the SDK on top: unless it raises, [_create_metrics] keeps
    the SDK's library name and returns entries without duplicate keys in which
    CRTVersion is this package's version and IoTSDKMetricsVersion is 1 whatever
    the user gave for them, IoTSDKFeature is the merged feature list when the
    user's metrics version is 1 and the library's alone otherwise, and every
    other key has exactly the value the user gave last. It raises (ValueError)
    exactly when the user's version passes [str.isdigit] without being a
    decimal number CPython's [int] accepts, such as a superscript two. *)
Lemma create_metrics_rules (cv : string) (um : option AWSIoTMetrics) (fl : string) :
  let version := user_value um "IoTSDKMetricsVersion" in
  match _create_metrics cv um fl with
  | Ok m => exists d matches,
      version_matches version = Ok matches /\
      library_name m = match um with Some u => library_name u | None => "IoTDeviceSDK/Python"%string end /\
      metadata_entries m = Some (map (fun '(k, v) => mkMetadata k v) d) /\
      NoDup (PyDict.keys d) /\
      PyDict.dict_get d "CRTVersion" = Some cv /\
      PyDict.dict_get d "IoTSDKMetricsVersion" = Some "1"%string /\
      PyDict.dict_get d "IoTSDKFeature" = Some (_merge_feature_lists fl
        (if matches then default EmptyString (user_value um "IoTSDKFeature") else EmptyString)) /\
      (forall k, k ∉ reserved -> PyDict.dict_get d k = user_value um k)
  | Raise e => (exists msg, e = ValueError msg) /\
      exists v, version = Some v /\ PyStr.isdigit v = true /\
        ~ (PyStr.all_chars PyStr.is_decimal_char v = true /\
           (String.length v <= PyStr.int_max_str_digits)%nat)
  end.
Proof.
  cbv zeta. destruct (create_metrics_fold cv um fl) as (md & Hn & Hk & ->).
  destruct (version_matches (user_value um "IoTSDKMetricsVersion")) as [b|e] eqn:Ev; simpl.
  - eexists _, b. split_and!; [done..| | | | |].
    + by repeat apply PyDict.nodup_set.
    + rewrite !PyDict.dict_get_set. simpl. by rewrite Hk.
    + by rewrite PyDict.dict_get_set.
    + by rewrite !PyDict.dict_get_set.
    + intros k Hr. rewrite !PyDict.dict_get_set, Hk. unfold reserved in Hr.
      rewrite !decide_False by (intros ->; set_solver). rewrite decide_False by done. done.
  - unfold version_matches in Ev. destruct (user_value um "IoTSDKMetricsVersion") as [v|]; [|done].
    destruct (PyStr.isdigit v) eqn:Ed; [|done].
    destruct (PyStr.int v) as [n|e'] eqn:Ei; simpl in Ev; [done|]. injection Ev as <-.
    split; [by eapply PyStr.int_Raise|]. exists v. split_and!; [done..|].
    rewrite <- PyStr.int_of_isdigit by done. intros [n Hi]. congruence.
Qed.

(** A superscript two is a digit for [isdigit] and not a number for [int]. *)
Example superscript_version_raises :
  is_ok (_create_metrics "1.0"
    (Some (mkMetrics "sdk" (Some [mkMetadata "IoTSDKMetricsVersion"
      (String (Stdlib.Strings.Ascii.ascii_of_N 178) EmptyString)]))) "F/5,G/A") = false.
Proof. vm_compute. reflexivity. Qed.
End Metrics.
