(* ===== verification/AioHttp.v ===== *)
(** * awscrt/aio/http.py: asyncio HTTP streams

    [AIOHttpClientStreamUnified] connects the native event-loop thread, which
    calls [_on_response], [_on_body], [_on_h2_remote_end_stream] and
    [_on_complete], with the asyncio thread, which calls
    [get_next_response_chunk] and may cancel what it awaits. The handlers run
    outside the lock except for the marked regions, so they are modelled as a
    state machine: a program counter says where the native thread is between
    two atomic blocks, and the asyncio thread may act at every such point.

    - [Chunks]: the state, the atomic blocks, reachable states, and the
      theorems on order, end of stream, liveness and cancellation;
    - [Writer]: the request-body generator of HTTP/2 streams;
    - [AioConn]: the [new] class methods of the connection classes;
    - [AioStream]: [request], which makes a stream, starts the task that writes
      its body and activates it. *)
From S2P Require Import Prelude PyData Future Io Http HttpMessage.

Module Chunks.

Abbreviation bytes := (list Byte.byte).

(** Where the native thread is: outside the handlers; in [_on_body] after the
    lock, about to call [future.set_result(chunk)]; in
    [_resolve_pending_chunk_futures] before its lock region, or after it with
    the futures still to be resolved. *)
Inductive pc :=
  | Idle
  | SetChunk (f : nat) (chunk : bytes)
  | ResolvePending
  | SetEmpty (fs : list nat).

(** The order in which the native layer calls the handlers of a stream: chunks,
    then possibly the end of the remote side (HTTP/2), then completion. *)
Inductive phase := Open | RemoteEnded | Completed.
#[global] Instance phase_eq_dec : EqDecision phase.
Proof. solve_decision. Defined.

(** What a call of [get_next_response_chunk] led to: a chunk or the empty chunk
    at once, or a future to wait for. *)
Inductive getter := Got (chunk : bytes) | GotEof | Waits (f : nat).
#[global] Instance getter_eq_dec : EqDecision getter.
Proof. solve_decision. Defined.

Record state := mkState {
  _chunk_futures : list nat;              (** futures by index in [futs] *)
  _received_chunks : list bytes;
  futs : list (future bytes);             (** every chunk future ever created *)
  _completion_future : future (option Z);
  _remote_completion_future : future unit;
  _response_status_future : future Z;
  _response_headers_future : future (list (string * string));
  _status_code : option Z;
  at_pc : pc;
  at_phase : phase;
  input : list bytes;                     (** chunks the native layer delivered *)
  gets : list getter;                     (** calls of get_next_response_chunk, in order *)
  errors : list py_exn;                   (** exceptions that escaped a handler *)
}.

Definition init : state :=
  mkState [] [] [] Pending Pending Pending Pending None Idle Open [] [] [].

(** ** The atomic blocks *)

Definition with_pc (p : pc) (s : state) : state :=
  mkState (_chunk_futures s) (_received_chunks s) (futs s) (_completion_future s)
    (_remote_completion_future s) (_response_status_future s) (_response_headers_future s)
    (_status_code s) p (at_phase s) (input s) (gets s) (errors s).
Definition with_phase (p : phase) (s : state) : state :=
  mkState (_chunk_futures s) (_received_chunks s) (futs s) (_completion_future s)
    (_remote_completion_future s) (_response_status_future s) (_response_headers_future s)
    (_status_code s) (at_pc s) p (input s) (gets s) (errors s).
Definition with_deques (cf : list nat) (rc : list bytes) (s : state) : state :=
  mkState cf rc (futs s) (_completion_future s)
    (_remote_completion_future s) (_response_status_future s) (_response_headers_future s)
    (_status_code s) (at_pc s) (at_phase s) (input s) (gets s) (errors s).
Definition with_futs (fs : list (future bytes)) (s : state) : state :=
  mkState (_chunk_futures s) (_received_chunks s) fs (_completion_future s)
    (_remote_completion_future s) (_response_status_future s) (_response_headers_future s)
    (_status_code s) (at_pc s) (at_phase s) (input s) (gets s) (errors s).
Definition with_completion (f : future (option Z)) (s : state) : state :=
  mkState (_chunk_futures s) (_received_chunks s) (futs s) f
    (_remote_completion_future s) (_response_status_future s) (_response_headers_future s)
    (_status_code s) (at_pc s) (at_phase s) (input s) (gets s) (errors s).
Definition with_remote (f : future unit) (s : state) : state :=
  mkState (_chunk_futures s) (_received_chunks s) (futs s) (_completion_future s)
    f (_response_status_future s) (_response_headers_future s)
    (_status_code s) (at_pc s) (at_phase s) (input s) (gets s) (errors s).
Definition with_response (st : future Z) (hs : future (list (string * string))) (code : option Z)
    (s : state) : state :=
  mkState (_chunk_futures s) (_received_chunks s) (futs s) (_completion_future s)
    (_remote_completion_future s) st hs code (at_pc s) (at_phase s) (input s) (gets s) (errors s).
Definition add_input (c : bytes) (s : state) : state :=
  mkState (_chunk_futures s) (_received_chunks s) (futs s) (_completion_future s)
    (_remote_completion_future s) (_response_status_future s) (_response_headers_future s)
    (_status_code s) (at_pc s) (at_phase s) (input s ++ [c]) (gets s) (errors s).
Definition add_get (g : getter) (s : state) : state :=
  mkState (_chunk_futures s) (_received_chunks s) (futs s) (_completion_future s)
    (_remote_completion_future s) (_response_status_future s) (_response_headers_future s)
    (_status_code s) (at_pc s) (at_phase s) (input s) (gets s ++ [g]) (errors s).
(** An exception leaves the handler: the binding reports it, the thread is idle. *)
Definition escape (e : py_exn) (s : state) : state :=
  mkState (_chunk_futures s) (_received_chunks s) (futs s) (_completion_future s)
    (_remote_completion_future s) (_response_status_future s) (_response_headers_future s)
    (_status_code s) Idle (at_phase s) (input s) (gets s) (errors s ++ [e]).

Section Machine.
Context `{NativeErrors}.

(** [self._status_code = ...; status_future.set_result(...); headers_future.set_result(...)] *)
Definition _on_response (status_code : Z) (name_value_pairs : list (string * string)) (s : state)
    : state :=
  match Fut.complete (Ok status_code) (_response_status_future s) with
  | Raise e => escape e (with_response (_response_status_future s) (_response_headers_future s)
                                       (Some status_code) s)
  | Ok st =>
      match Fut.complete (Ok name_value_pairs) (_response_headers_future s) with
      | Raise e => escape e (with_response st (_response_headers_future s) (Some status_code) s)
      | Ok hs => with_response st hs (Some status_code) s
      end
  end.

(** The lock region of [_on_body]. *)
Definition _on_body (chunk : bytes) (s : state) : state :=
  match _chunk_futures s with
  | f :: rest => with_pc (SetChunk f chunk) (with_deques rest (_received_chunks s) s)
  | [] => with_deques [] (_received_chunks s ++ [chunk]) s
  end.

(** The lock region of [_resolve_pending_chunk_futures]. *)
Definition take_pending (s : state) : state :=
  with_pc (SetEmpty (_chunk_futures s)) (with_deques [] (_received_chunks s) s).

(** [future.set_result(v)] on a chunk future, then [next]. *)
Definition set_chunk_result (f : nat) (v : bytes) (next : pc) (s : state) : state :=
  match Fut.complete (Ok v) (default Cancelled (futs s !! f)) with
  | Ok fut => with_pc next (with_futs (<[f := fut]> (futs s)) s)
  | Raise e => escape e s
  end.

(** [_on_complete] up to [_resolve_pending_chunk_futures]. *)
Definition _on_complete (error_code : Z) (s : state) : state :=
  match Fut.complete (outcome_of error_code (_status_code s)) (_completion_future s) with
  | Ok f => with_pc ResolvePending (with_completion f s)
  | Raise e => escape e s
  end.

Definition _on_h2_remote_end_stream (s : state) : state :=
  match Fut.complete (Ok tt) (_remote_completion_future s) with
  | Ok f => with_pc ResolvePending (with_remote f s)
  | Raise e => escape e s
  end.

(** The next atomic block of the native thread inside a handler. *)
Definition crt_step (s : state) : state :=
  match at_pc s with
  | Idle => s
  | SetChunk f chunk => set_chunk_result f chunk Idle s
  | ResolvePending => take_pending s
  | SetEmpty [] => with_pc Idle s
  | SetEmpty (f :: fs) => set_chunk_result f [] (SetEmpty fs) s
  end.

(** [get_next_response_chunk], all of it under the lock. *)
Definition get_next_response_chunk (s : state) : state :=
  match _received_chunks s with
  | c :: rest => add_get (Got c) (with_deques (_chunk_futures s) rest s)
  | [] =>
      if Fut.done (_completion_future s) || Fut.done (_remote_completion_future s)
      then add_get GotEof s
      else
        let f := length (futs s) in
        add_get (Waits f) (with_deques (_chunk_futures s ++ [f]) [] (with_futs (futs s ++ [Pending]) s))
  end.

(** ** Actions and reachable states *)

Inductive action :=
  | Response (status_code : Z) (headers : list (string * string))
  | Body (chunk : bytes)
  | RemoteEndStream
  | Complete (error_code : Z)
  | CrtStep
  | GetNext
  | CancelGet (f : nat)          (** the task awaiting chunk future [f] is cancelled *)
  | CancelWaitForCompletion      (** the task awaiting wait_for_completion() is cancelled *)
  | CancelGetStatus.             (** the task awaiting get_response_status_code() is cancelled *)

Definition is_idle (s : state) : bool := match at_pc s with Idle => true | _ => false end.

(** One action, if it can happen now: handlers start only when the native
    thread is idle, in the native order (one response), with non-empty chunks. *)
Definition step (a : action) (s : state) : option state :=
  match a with
  | Response z hs =>
      if is_idle s && bool_decide (at_phase s = Open) && bool_decide (_status_code s = None)
      then Some (_on_response z hs s) else None
  | Body c =>
      if is_idle s && bool_decide (at_phase s = Open) && bool_decide (c <> [])
      then Some (_on_body c (add_input c s)) else None
  | RemoteEndStream =>
      if is_idle s && bool_decide (at_phase s = Open)
      then Some (_on_h2_remote_end_stream (with_phase RemoteEnded s)) else None
  | Complete ec =>
      if is_idle s && bool_decide (at_phase s <> Completed)
      then Some (_on_complete ec (with_phase Completed s)) else None
  | CrtStep => if is_idle s then None else Some (crt_step s)
  | GetNext => Some (get_next_response_chunk s)
  | CancelGet f =>
      match futs s !! f with
      | Some fut => Some (with_futs (<[f := (Fut.cancel fut).2]> (futs s)) s)
      | None => None
      end
  | CancelWaitForCompletion => Some (with_completion (Fut.cancel (_completion_future s)).2 s)
  | CancelGetStatus =>
      Some (with_response (Fut.cancel (_response_status_future s)).2 (_response_headers_future s)
                          (_status_code s) s)
  end.

Definition is_cancel (a : action) : bool :=
  match a with CancelGet _ | CancelWaitForCompletion | CancelGetStatus => true | _ => false end.

(** States a stream can get to when only actions in [allowed] happen. *)
Inductive reachable (allowed : action -> Prop) (s0 : state) : state -> Prop :=
  | reach_here : reachable allowed s0 s0
  | reach_step s a s' : reachable allowed s0 s -> allowed a -> step a s = Some s' ->
      reachable allowed s0 s'.

Fixpoint run (l : list action) (s : state) : option state :=
  match l with
  | [] => Some s
  | a :: l' => match step a s with Some s' => run l' s' | None => None end
  end.

Definition no_cancel (a : action) : Prop := is_cancel a = false.
Definition any_action (a : action) : Prop := True.

(** ** The invariant of uncancelled streams *)

(** The futures the native thread has taken out of the deque and not set yet. *)
Definition targets (p : pc) : list nat :=
  match p with SetChunk f _ => [f] | SetEmpty fs => fs | _ => [] end.

(** What a call of [get_next_response_chunk] has been given so far: the chunk
    it returned, the value of its future, or the chunk the native thread holds
    for that future. *)
Definition value (s : state) (g : getter) : bytes :=
  match g with
  | Got c => c
  | GotEof => []
  | Waits f =>
      match futs s !! f with
      | Some (Finished (Ok c)) => c
      | _ => match at_pc s with SetChunk f' c => if decide (f = f') then c else [] | _ => [] end
      end
  end.

Definition waits (l : list getter) : list nat :=
  flat_map (fun g => match g with Waits f => [f] | _ => [] end) l.

(** A getter that was told the body is over. *)
Definition is_eof (s : state) (g : getter) : bool :=
  match g with
  | Got _ => false
  | GotEof => true
  | Waits f => bool_decide (futs s !! f = Some (Finished (Ok [])))
  end.

(** Control: what the futures, the program counter and the phase have to do
    with each other. *)
Record ctl (s : state) : Prop := {
  ctl_waits : waits (gets s) = seq 0 (length (futs s));
  ctl_pending : forall f, f ∈ targets (at_pc s) ++ _chunk_futures s -> futs s !! f = Some Pending;
  ctl_nodup : NoDup (targets (at_pc s) ++ _chunk_futures s);
  ctl_finished : forall f fut, futs s !! f = Some fut ->
    f ∈ targets (at_pc s) ++ _chunk_futures s \/ exists c, fut = Finished (Ok c);
  ctl_excl : _received_chunks s <> [] -> _chunk_futures s = [];
  ctl_errors : errors s = [];
  ctl_completion : Fut.cancelled (_completion_future s) = false /\
    (Fut.done (_completion_future s) = true <-> at_phase s = Completed);
  ctl_remote : Fut.cancelled (_remote_completion_future s) = false /\
    (at_phase s = RemoteEnded -> Fut.done (_remote_completion_future s) = true) /\
    (at_phase s = Open -> Fut.done (_remote_completion_future s) = false);
  ctl_ended : at_phase s <> Open -> at_pc s = ResolvePending \/ _chunk_futures s = [];
  ctl_pc : match at_pc s with
           | Idle => True
           | SetChunk _ c => at_phase s = Open /\ c <> []
           | ResolvePending => at_phase s <> Open
           | SetEmpty fs => at_phase s <> Open /\ (fs <> [] -> _received_chunks s = [])
           end;
  ctl_status : _status_code s = None ->
    Fut.done (_response_status_future s) = false /\ Fut.done (_response_headers_future s) = false;
  ctl_eof : forall g, g ∈ gets s -> is_eof s g = true -> at_phase s <> Open /\ _received_chunks s = [];
}.

(** Data: the calls split into those that have been given their share of the
    body, in order, and later ones that have been given nothing. *)
Definition fifo (s : state) : Prop :=
  exists pre post, gets s = pre ++ post /\
    concat (map (value s) pre) ++ concat (_received_chunks s) = concat (input s) /\
    Forall (fun g => value s g = []) post /\
    (_received_chunks s <> [] -> post = []) /\
    _chunk_futures s `sublist_of` waits post.

Lemma waits_app l1 l2 : waits (l1 ++ l2) = waits l1 ++ waits l2.
Proof. apply flat_map_app. Qed.

Lemma elem_of_waits l f : f ∈ waits l <-> Waits f ∈ l.
Proof.
  unfold waits. rewrite !list_elem_of_In, in_flat_map. split.
  - intros (g & Hg & Hf). destruct g; simpl in Hf; try done. destruct Hf as [<-|[]]. done.
  - intros Hg. exists (Waits f). split; [done|by left].
Qed.

Lemma sublist_waits f l post :
  (f :: l) `sublist_of` waits post ->
  exists p1 p2, post = p1 ++ Waits f :: p2 /\ l `sublist_of` waits p2.
Proof.
  induction post as [|g post IH]; [inversion 1|].
  destruct g as [c| |f']; simpl.
  - intros H'. destruct (IH H') as (p1 & p2 & -> & Hs). by exists (Got c :: p1), p2.
  - intros H'. destruct (IH H') as (p1 & p2 & -> & Hs). by exists (GotEof :: p1), p2.
  - intros Hs. inversion Hs as [|? ? ? Hs'|? ? ? Hs']; subst.
    + by exists [], post.
    + destruct (IH Hs') as (p1 & p2 & -> & Hl). by exists (Waits f' :: p1), p2.
Qed.

Lemma ctl_init : ctl init.
Proof. constructor; simpl; try done; try (by intros; set_solver); try (by constructor). Qed.

Lemma fifo_init : fifo init.
Proof. by exists [], []. Qed.

(** Values do not depend on the deques, the phase or the getters. *)
Lemma value_ext s s' g :
  (forall f, g = Waits f -> futs s' !! f = futs s !! f) -> at_pc s' = at_pc s -> value s' g = value s g.
Proof. intros Hf Hp. destruct g as [c| |f]; simpl; [done..|]. by rewrite Hf, Hp. Qed.
(** *** Each atomic block keeps the invariant *)

Lemma ctl_get s : ctl s -> ctl (get_next_response_chunk s).
Proof.
  intros I. pose proof I as [Hw Hp Hn Hf He Herr [Hc1 Hc2] [Hr1 [Hr2 Hr3]] Hend Hpc Hst Heof].
  unfold get_next_response_chunk. destruct (_received_chunks s) as [|c rest] eqn:Er.
  - destruct (Fut.done (_completion_future s) || Fut.done (_remote_completion_future s)) eqn:Ed.
    + constructor; simpl; try done; rewrite ?Er; try done.
      * rewrite waits_app. simpl. by rewrite app_nil_r.
      * intros g [Hg|Hg%list_elem_of_singleton]%elem_of_app He'; [by destruct (Heof g Hg He')|].
        split; [|done]. intros Ho. apply orb_true_iff in Ed as [Ed|Ed].
        -- apply Hc2 in Ed. congruence.
        -- rewrite Hr3 in Ed by done. done.
    + apply orb_false_iff in Ed as [Ed1 Ed2].
      assert (at_phase s = Open) as Hopen.
      { destruct (at_phase s) eqn:Eph; [done| |].
        - rewrite Hr2 in Ed2 by done. done.
        - destruct Hc2 as [_ Hc2]. rewrite Hc2 in Ed1 by done. done. }
      assert (forall f, f ∈ targets (at_pc s) ++ _chunk_futures s -> (f < length (futs s))%nat) as Hlt.
      { intros f Hin. apply lookup_lt_is_Some. rewrite Hp by done. eauto. }
      constructor; simpl; try done.
      * rewrite waits_app, Hw, length_app. simpl. rewrite Nat.add_1_r, seq_S. done.
      * intros f. rewrite app_assoc, elem_of_app, list_elem_of_singleton. intros [Hin| ->].
        -- rewrite lookup_app_l by (by apply Hlt). by apply Hp.
        -- rewrite lookup_app_r, Nat.sub_diag by lia. done.
      * rewrite app_assoc. apply NoDup_app. split_and!; [done| |apply NoDup_singleton].
        intros f Hin ->%list_elem_of_singleton. apply Hlt in Hin. lia.
      * intros f fut Hl. rewrite app_assoc, elem_of_app, list_elem_of_singleton.
        apply lookup_app_Some in Hl as [Hl|[Hge Hl]].
        -- destruct (Hf f fut Hl); [by left; left|by right].
        -- left. right. apply lookup_lt_Some in Hl. simpl in Hl. lia.
      * intros g [Hg|Hg%list_elem_of_singleton]%elem_of_app He'.
        -- assert (is_eof s g = true) as Hs; [|by destruct (Heof g Hg Hs)].
           destruct g as [c| |f]; simpl in *; try done.
           apply bool_decide_eq_true in He'. apply bool_decide_eq_true.
           assert (f < length (futs s))%nat as Hlt'.
           { apply elem_of_waits in Hg. rewrite Hw in Hg. apply elem_of_seq in Hg. lia. }
           by rewrite lookup_app_l in He' by done.
        -- subst g. simpl in He'. apply bool_decide_eq_true in He'.
           rewrite lookup_app_r, Nat.sub_diag in He' by lia. done.
  - constructor; simpl; try done.
    + rewrite waits_app. simpl. by rewrite app_nil_r.
    + intros _. by apply He.
    + destruct (at_pc s) as [| | |fs]; try done. destruct Hpc as [Hph Hfs]. split; [done|].
      intros Hne. by apply Hfs in Hne.
    + intros g [Hg|Hg%list_elem_of_singleton]%elem_of_app He'.
      * destruct (Heof g Hg He') as [? ?]. congruence.
      * by subst g.
Qed.

Lemma fifo_get s : ctl s -> fifo s -> fifo (get_next_response_chunk s).
Proof.
  intros I (pre & post & Hg & Hcat & Hpost & Hempty & Hsub).
  unfold get_next_response_chunk. destruct (_received_chunks s) as [|c rest] eqn:Er.
  - destruct (Fut.done (_completion_future s) || Fut.done (_remote_completion_future s)).
    + exists pre, (post ++ [GotEof]). simpl. split_and!.
      * by rewrite Hg, <- app_assoc.
      * rewrite Er. simpl. exact Hcat.
      * apply Forall_app. split; [exact Hpost|by constructor].
      * by rewrite Er.
      * rewrite waits_app. simpl. by rewrite app_nil_r.
    + assert (forall g, g ∈ gets s ->
        value (add_get (Waits (length (futs s))) (with_deques (_chunk_futures s ++ [length (futs s)]) []
          (with_futs (futs s ++ [Pending]) s))) g = value s g) as Hv.
      { intros g Hin. apply value_ext; [|done]. intros f ->. simpl. apply lookup_app_l.
        apply elem_of_waits in Hin. rewrite (ctl_waits _ I) in Hin. apply elem_of_seq in Hin. lia. }
      exists pre, (post ++ [Waits (length (futs s))]). simpl. split_and!.
      * by rewrite Hg, <- app_assoc.
      * rewrite <- Hcat. f_equal. f_equal. apply map_ext_in. intros g Hin.
        apply Hv. rewrite Hg. apply elem_of_app. left. by apply list_elem_of_In.
      * apply Forall_app. split.
        -- rewrite Forall_forall in Hpost. apply Forall_forall. intros g Hin. rewrite Hv; [by apply Hpost|].
           rewrite Hg. apply elem_of_app. by right.
        -- constructor; [|done]. unfold value. simpl. rewrite lookup_app_r, Nat.sub_diag by lia. simpl.
           destruct (at_pc s) as [|f' c| |] eqn:Epc; try done. rewrite decide_False; [done|]. intros <-.
           pose proof (ctl_pending _ I (length (futs s))) as Hp. rewrite Epc in Hp.
           specialize (Hp ltac:(simpl; set_solver)). apply lookup_lt_Some in Hp. lia.
      * done.
      * rewrite waits_app. by apply sublist_app.
  - pose proof (Hempty ltac:(done)) as ->. rewrite app_nil_r in Hg.
    exists (pre ++ [Got c]), []. simpl. split_and!.
    + by rewrite Hg, app_nil_r.
    + rewrite map_app, concat_app. simpl. rewrite app_nil_r, <- app_assoc. exact Hcat.
    + constructor.
    + done.
    + done.
Qed.

Lemma ctl_body s c :
  ctl s -> at_pc s = Idle -> at_phase s = Open -> c <> [] -> ctl (_on_body c (add_input c s)).
Proof.
  intros I Hi Ho Hc. destruct I as [Hw Hp Hn Hf He Herr Hcom Hrem Hend Hpc Hst Heof].
  rewrite Hi in *. unfold _on_body. simpl in *. destruct (_chunk_futures s) as [|f rest] eqn:Ecf.
  - constructor; simpl; rewrite ?Hi, ?Ecf; simpl; try done.
    intros g Hg He'. by destruct (Heof g Hg He') as [? _].
  - assert (_received_chunks s = []) as Er.
    { destruct (_received_chunks s); [done|]. by specialize (He ltac:(done)). }
    constructor; simpl; rewrite ?Er; simpl; try done.
    intros g Hg He'. by destruct (Heof g Hg He').
Qed.

Lemma fifo_body s c :
  ctl s -> fifo s -> at_pc s = Idle -> at_phase s = Open -> fifo (_on_body c (add_input c s)).
Proof.
  intros I (pre & post & Hg & Hcat & Hpost & Hempty & Hsub) Hi Ho.
  unfold _on_body. simpl. destruct (_chunk_futures s) as [|f rest] eqn:Ecf.
  - exists (pre ++ post), []. simpl. rewrite app_nil_r. split_and!; try done.
    assert (concat (map (value s) post) = []) as Hz.
    { clear -Hpost. induction Hpost as [|g l Hv Hl IH]; simpl; [done|]. by rewrite Hv. }
    rewrite !concat_app, map_app, concat_app. simpl. rewrite app_nil_r.
    assert (forall l, map (value (with_deques [] (_received_chunks s ++ [c]) (add_input c s))) l =
                      map (value s) l) as Hm by (intros l; apply map_ext; by intros []).
    rewrite (Hm pre), (Hm post), Hz, app_nil_r, app_assoc, Hcat. done.
  - apply sublist_waits in Hsub as (p1 & p2 & -> & Hsub).
    assert (_received_chunks s = []) as Er.
    { destruct (_received_chunks s) as [|c' l] eqn:Er; [done|].
      pose proof (ctl_excl _ I) as He. rewrite Er, Ecf in He. by specialize (He ltac:(done)). }
    set (s' := with_pc (SetChunk f c) (with_deques rest (_received_chunks s) (add_input c s))).
    assert (NoDup (waits (gets s))) as Hnd by (rewrite (ctl_waits _ I); apply NoDup_seq).
    assert (futs s !! f = Some Pending) as Hpend.
    { apply (ctl_pending _ I). rewrite Hi, Ecf. simpl. set_solver. }
    assert (forall g, g <> Waits f -> value s' g = value s g) as Hv.
    { intros g Hgf. destruct g as [c'| |f']; simpl; [done..|]. rewrite Hi.
      destruct (futs s !! f') as [[| | | |[?|?]]|]; try done; by rewrite decide_False by congruence. }
    assert (forall g, g ∈ pre \/ g ∈ p1 \/ g ∈ p2 -> g <> Waits f) as Hother.
    { rewrite Hg in Hnd. rewrite !waits_app in Hnd. simpl in Hnd.
      apply NoDup_app in Hnd as (_ & Hd1 & Hnd). apply NoDup_app in Hnd as (_ & Hd2 & Hnd).
      apply NoDup_cons in Hnd as [Hd3 _].
      intros g [Hin|[Hin|Hin]] ->; apply elem_of_waits in Hin.
      - apply (Hd1 f Hin). rewrite elem_of_app. right. by left.
      - apply (Hd2 f Hin). by left.
      - done. }
    assert (forall l, (forall g, g ∈ l -> g <> Waits f) -> map (value s') l = map (value s) l) as Hm.
    { intros l Hl. apply map_ext_in. intros g Hin. apply Hv, Hl. by apply list_elem_of_In. }
    apply Forall_app in Hpost as [Hp1 Hp2]. apply Forall_cons in Hp2 as [_ Hp2].
    exists (pre ++ p1 ++ [Waits f]), p2. split_and!.
    + simpl. by rewrite Hg, <- !app_assoc.
    + rewrite !map_app, !concat_app. rewrite (Hm pre), (Hm p1) by (intros; apply Hother; auto).
      assert (concat (map (value s) p1) = []) as ->.
      { clear -Hp1. induction Hp1 as [|g l Hz Hl IH]; simpl; [done|]. by rewrite Hz. }
      simpl. rewrite Hpend. rewrite decide_True by done. rewrite Er in Hcat |- *. simpl in Hcat |- *.
      rewrite !app_nil_r in *. rewrite concat_app, <- Hcat. simpl. by rewrite !app_nil_r.
    + rewrite Forall_forall in Hp2 |- *. intros g Hin. rewrite Hv; [by apply Hp2|]. apply Hother; auto.
    + simpl. by rewrite Er.
    + exact Hsub.
Qed.

Lemma map_value_ext s s' l :
  at_pc s' = at_pc s -> futs s' = futs s -> map (value s') l = map (value s) l.
Proof. intros Hp Hf. apply map_ext. intros g. apply value_ext; [intros; by rewrite Hf | done]. Qed.

(** [fifo] does not read the completion futures, the phase or the errors. *)
Lemma fifo_ext s s' :
  at_pc s' = at_pc s -> futs s' = futs s -> gets s' = gets s -> input s' = input s ->
  _received_chunks s' = _received_chunks s -> _chunk_futures s' = _chunk_futures s ->
  fifo s -> fifo s'.
Proof.
  intros Hp Hf Hg Hi Hr Hc (pre & post & H1 & H2 & H3 & H4 & H5).
  exists pre, post. rewrite Hg, Hi, Hr, Hc, (map_value_ext s s') by done. split_and!; try done.
  eapply Forall_impl; [exact H3|]. intros g Hv. simpl in *.
  rewrite (value_ext s s'); [done| |done]. intros; by rewrite Hf.
Qed.

(** Values outside [SetChunk] only depend on the futures. *)
Lemma fifo_no_chunk s s' :
  (forall f c, at_pc s <> SetChunk f c) -> (forall f c, at_pc s' <> SetChunk f c) ->
  futs s' = futs s -> gets s' = gets s -> input s' = input s ->
  _received_chunks s' = _received_chunks s -> _chunk_futures s' `sublist_of` _chunk_futures s ->
  fifo s -> fifo s'.
Proof.
  intros Hp Hp' Hf Hg Hi Hr Hc (pre & post & H1 & H2 & H3 & H4 & H5).
  assert (forall g, value s' g = value s g) as Hv.
  { intros [c| |f]; simpl; [done..|]. rewrite Hf.
    destruct (at_pc s) eqn:E, (at_pc s') eqn:E'; try done;
      try (by destruct (Hp _ _ eq_refl)); by destruct (Hp' _ _ eq_refl). }
  exists pre, post. rewrite Hg, Hi, Hr, (map_ext _ _ Hv). split_and!; try done.
  - eapply Forall_impl; [exact H3|]. intros g. simpl. by rewrite Hv.
  - by etrans.
Qed.

Lemma ctl_set f v fs s :
  ctl s ->
  (at_pc s = SetChunk f v /\ fs = [] \/ at_pc s = SetEmpty (f :: fs) /\ v = []) ->
  let next := match at_pc s with SetChunk _ _ => Idle | _ => SetEmpty fs end in
  ctl (set_chunk_result f v next s).
Proof.
  intros I Hcase. destruct I as [Hw Hp Hn Hf He Herr Hcom Hrem Hend Hpc Hst Heof]. cbv zeta.
  assert (futs s !! f = Some Pending) as Hpend.
  { apply Hp. destruct Hcase as [[-> _]|[-> _]]; simpl; set_solver. }
  assert (targets (at_pc s) = f :: fs) as Ht by (by destruct Hcase as [[-> ->]|[-> _]]).
  rewrite Ht in *. simpl in *. apply NoDup_cons in Hn as [Hnf Hn].
  unfold set_chunk_result. rewrite Hpend. simpl.
  set (next := match at_pc s with SetChunk _ _ => Idle | _ => SetEmpty fs end).
  assert (targets next = fs) as Hnext by (by unfold next; destruct Hcase as [[-> ->]|[-> _]]).
  constructor; simpl; rewrite ?Hnext; try done.
  - by rewrite length_insert.
  - intros f' Hin. rewrite list_lookup_insert_ne; [by apply Hp; right | by intros ->].
  - intros f' fut. destruct (decide (f = f')) as [<-|Hne].
    + rewrite list_lookup_insert_eq by (by eapply lookup_lt_Some). intros [= <-]. right. eauto.
    + rewrite list_lookup_insert_ne by done. intros Hl. destruct (Hf f' fut Hl) as [Hin|]; [|by right].
      left. apply elem_of_cons in Hin as [->|]; done.
  - unfold next. destruct Hcase as [[Ep ->]|[Ep ->]]; rewrite Ep in Hpc, Hend |- *; intros Hph.
    + destruct Hpc as [Hpc _]. congruence.
    + destruct (Hend Hph) as [?|Hend']; [done|]. by right.
  - unfold next. destruct Hcase as [[Ep ->]|[Ep ->]]; rewrite Ep in Hpc |- *; [done|].
    destruct Hpc as [H1 H2]. split; [done|]. intros _. by apply H2.
  - intros g Hg He'. destruct g as [c| |f']; simpl in He'; [done|by apply (Heof GotEof)|].
    apply bool_decide_eq_true in He'. destruct (decide (f = f')) as [<-|Hne].
    + rewrite list_lookup_insert_eq in He' by (by eapply lookup_lt_Some). injection He' as ->.
      destruct Hcase as [[Ep ->]|[Ep _]]; rewrite Ep in Hpc; [by destruct Hpc|].
      destruct Hpc as [H1 H2]. split; [done|by apply H2].
    + rewrite list_lookup_insert_ne in He' by done. apply (Heof (Waits f')); [done|].
      simpl. by apply bool_decide_eq_true.
Qed.

Lemma value_set f v fs s g :
  ctl s ->
  (at_pc s = SetChunk f v /\ fs = [] \/ at_pc s = SetEmpty (f :: fs) /\ v = []) ->
  value (set_chunk_result f v (match at_pc s with SetChunk _ _ => Idle | _ => SetEmpty fs end) s) g =
  value s g.
Proof.
  intros I Hcase.
  assert (futs s !! f = Some Pending) as Hpend.
  { apply (ctl_pending _ I). destruct Hcase as [[-> _]|[-> _]]; simpl; set_solver. }
  unfold set_chunk_result. rewrite Hpend. simpl. destruct g as [c| |f']; simpl; [done..|].
  destruct (decide (f = f')) as [<-|Hne].
  - rewrite list_lookup_insert_eq by (by eapply lookup_lt_Some). rewrite Hpend.
    destruct Hcase as [[-> ->]|[-> ->]]; [by rewrite decide_True|done].
  - rewrite list_lookup_insert_ne by done.
    destruct Hcase as [[-> ->]|[-> ->]]; [by rewrite decide_False|done].
Qed.

Lemma fifo_set f v fs s :
  ctl s -> fifo s ->
  (at_pc s = SetChunk f v /\ fs = [] \/ at_pc s = SetEmpty (f :: fs) /\ v = []) ->
  fifo (set_chunk_result f v (match at_pc s with SetChunk _ _ => Idle | _ => SetEmpty fs end) s).
Proof.
  intros I (pre & post & H1 & H2 & H3 & H4 & H5) Hcase.
  assert (forall g, value (set_chunk_result f v
    (match at_pc s with SetChunk _ _ => Idle | _ => SetEmpty fs end) s) g = value s g) as Hv.
  { intros g. by apply value_set. }
  assert (futs s !! f = Some Pending) as Hpend.
  { apply (ctl_pending _ I). destruct Hcase as [[-> _]|[-> _]]; simpl; set_solver. }
  exists pre, post. rewrite (map_ext _ _ Hv).
  unfold set_chunk_result in *. rewrite Hpend in *. simpl in *. split_and!; try done.
  eapply Forall_impl; [exact H3|]. intros g. by rewrite Hv.
Qed.

Lemma ctl_take s : ctl s -> at_pc s = ResolvePending -> ctl (take_pending s).
Proof.
  intros [Hw Hp Hn Hf He Herr Hcom Hrem Hend Hpc Hst Heof] Hi. rewrite Hi in *. simpl in *.
  unfold take_pending.
  constructor; simpl; rewrite ?app_nil_r; try done; [by right|]. split; [done|].
  intros Hne. destruct (_received_chunks s); [done|]. by rewrite He in Hne.
Qed.

Lemma ctl_crt s : ctl s -> ctl (crt_step s).
Proof.
  intros I. unfold crt_step. destruct (at_pc s) as [|f c| |[|f fs]] eqn:Ep; [done| | | |].
  - pose proof (ctl_set f c [] s I) as Hs. rewrite Ep in Hs. cbv zeta in Hs. apply Hs. by left.
  - by apply ctl_take.
  - destruct I as [Hw Hp Hn Hf He Herr Hcom Hrem Hend Hpc Hst Heof]. rewrite Ep in *.
    constructor; simpl; try done. intros Hph. destruct (Hend Hph); [done|by right].
  - pose proof (ctl_set f [] fs s I) as Hs. rewrite Ep in Hs. cbv zeta in Hs. apply Hs. by right.
Qed.

Lemma fifo_crt s : ctl s -> fifo s -> fifo (crt_step s).
Proof.
  intros I F. unfold crt_step. destruct (at_pc s) as [|f c| |[|f fs]] eqn:Ep; [done| | | |].
  - pose proof (fifo_set f c [] s I F) as Hs. rewrite Ep in Hs. apply Hs. by left.
  - eapply fifo_no_chunk; [| | | | | | |exact F]; simpl; try done; [by rewrite Ep|apply sublist_nil_l].
  - eapply fifo_no_chunk; [| | | | | | |exact F]; simpl; try done. by rewrite Ep.
  - pose proof (fifo_set f [] fs s I F) as Hs. rewrite Ep in Hs. apply Hs. by right.
Qed.

Lemma ctl_complete ec s :
  ctl s -> at_pc s = Idle -> at_phase s <> Completed -> ctl (_on_complete ec (with_phase Completed s)).
Proof.
  intros [Hw Hp Hn Hf He Herr Hcom Hrem Hend Hpc Hst Heof] Hi Ho. rewrite Hi in *.
  unfold _on_complete. simpl. destruct Hcom as [Hc1 Hc2], Hrem as [Hr1 [Hr2 Hr3]].
  rewrite Fut.complete_not_done by (apply not_true_iff_false; by rewrite Hc2).
  constructor; simpl; try done; [by left|]. intros g Hg He'. by destruct (Heof g Hg He').
Qed.

Lemma ctl_remote_end s :
  ctl s -> at_pc s = Idle -> at_phase s = Open -> ctl (_on_h2_remote_end_stream (with_phase RemoteEnded s)).
Proof.
  intros [Hw Hp Hn Hf He Herr Hcom Hrem Hend Hpc Hst Heof] Hi Ho. rewrite Hi in *.
  unfold _on_h2_remote_end_stream. simpl. destruct Hcom as [Hc1 Hc2], Hrem as [Hr1 [Hr2 Hr3]].
  rewrite Fut.complete_not_done by (by apply Hr3).
  constructor; simpl; try done; [|by left|].
  - split; [done|]. rewrite Hc2, Ho. done.
  - intros g Hg He'. by destruct (Heof g Hg He').
Qed.

Lemma ctl_response z hs s : ctl s -> _status_code s = None -> ctl (_on_response z hs s).
Proof.
  intros [Hw Hp Hn Hf He Herr Hcom Hrem Hend Hpc Hst Heof] Hnone.
  destruct (Hst Hnone) as [H1 H2]. unfold _on_response. rewrite !Fut.complete_not_done by done.
  constructor; simpl; done.
Qed.

Lemma step_inv s a s' :
  no_cancel a -> step a s = Some s' -> ctl s /\ fifo s -> ctl s' /\ fifo s'.
Proof.
  intros Hno Hstep [I F]. unfold is_idle in *.
  destruct a as [z hs|c| |ec| | |f| |]; try done; simpl in Hstep; unfold is_idle in Hstep.
  - destruct (at_pc s) eqn:Ep; try done. simpl in Hstep.
    destruct (bool_decide_reflect (at_phase s = Open)), (bool_decide_reflect (_status_code s = None)); try done.
    injection Hstep as <-. split; [by apply ctl_response|].
    destruct (ctl_status _ I) as [H1 H2]; [done|]. unfold _on_response.
    rewrite !Fut.complete_not_done by done. by apply (fifo_ext s).
  - destruct (at_pc s) eqn:Ep; try done. simpl in Hstep.
    destruct (bool_decide_reflect (at_phase s = Open)), (bool_decide_reflect (c <> [])); try done.
    injection Hstep as <-. split; [by apply ctl_body | by apply fifo_body].
  - destruct (at_pc s) eqn:Ep; try done. simpl in Hstep.
    destruct (bool_decide_reflect (at_phase s = Open)); try done.
    injection Hstep as <-. split; [by apply ctl_remote_end|].
    unfold _on_h2_remote_end_stream. simpl.
    destruct (ctl_remote _ I) as (_ & _ & Hr). rewrite Fut.complete_not_done by (by apply Hr).
    eapply fifo_no_chunk; [| | | | | | |exact F]; simpl; try done. by rewrite Ep.
  - destruct (at_pc s) eqn:Ep; try done. simpl in Hstep.
    destruct (bool_decide_reflect (at_phase s <> Completed)); try done.
    injection Hstep as <-. split; [by apply ctl_complete|].
    unfold _on_complete. simpl. destruct (ctl_completion _ I) as (_ & Hr).
    rewrite Fut.complete_not_done by (apply not_true_iff_false; by rewrite Hr).
    eapply fifo_no_chunk; [| | | | | | |exact F]; simpl; try done. by rewrite Ep.
  - destruct (match at_pc s with Idle => true | _ => false end); [done|]. injection Hstep as <-.
    split; [by apply ctl_crt | by apply fifo_crt].
  - injection Hstep as <-. split; [by apply ctl_get | by apply fifo_get].
Qed.

Lemma reachable_inv s : reachable no_cancel init s -> ctl s /\ fifo s.
Proof.
  induction 1 as [|s a s' Hr IH Hno Hstep]; [split; [apply ctl_init | apply fifo_init]|].
  by eapply step_inv.
Qed.

(** ** Properties of uncancelled streams *)

Lemma fifo_all s :
  fifo s -> concat (map (value s) (gets s)) ++ concat (_received_chunks s) = concat (input s).
Proof.
  intros (pre & post & -> & Hcat & Hpost & _ & _).
  assert (concat (map (value s) post) = []) as Hz.
  { clear -Hpost. induction Hpost as [|g l Hv Hl IH]; simpl; [done|]. by rewrite Hv. }
  by rewrite map_app, concat_app, Hz, app_nil_r.
Qed.

(** C1: The body is delivered without loss, duplication or reordering. In every
    state a stream can reach while nothing it awaits is cancelled, at every
    interleaving point of the two threads, the chunks given to the calls of
    [get_next_response_chunk], taken in the order of the calls, followed by the
    chunks still buffered, are exactly the bytes the native layer delivered;
    chunks are never buffered while a call waits; and no handler has raised. *)
Theorem chunks_in_order (s : state) (Hr : reachable no_cancel init s) :
  concat (map (value s) (gets s)) ++ concat (_received_chunks s) = concat (input s) /\
  (_received_chunks s = [] \/ _chunk_futures s = []) /\
  errors s = [].
Proof.
  destruct (reachable_inv s Hr) as [I F]. split_and!.
  - by apply fifo_all.
  - destruct (_received_chunks s) eqn:E; [by left|]. right. apply (ctl_excl _ I). by rewrite E.
  - apply (ctl_errors _ I).
Qed.

(** C3: The empty chunk means the end of the body. In every reachable state
    without cancellations, if some call has been given the empty chunk then the
    native layer has ended the body (so no chunk can follow), nothing is
    buffered, and all calls together have been given the whole body. *)
Theorem empty_chunk_is_end (s : state) (g : getter)
    (Hr : reachable no_cancel init s) (Hg : g ∈ gets s) (He : is_eof s g = true) :
  at_phase s <> Open /\ _received_chunks s = [] /\
  concat (map (value s) (gets s)) = concat (input s) /\
  (forall c, step (Body c) s = None).
Proof.
  destruct (reachable_inv s Hr) as [I F]. destruct (ctl_eof _ I g Hg He) as [Hph Hrc].
  split_and!; try done.
  - rewrite <- (fifo_all s F), Hrc. simpl. by rewrite app_nil_r.
  - intros c. simpl. rewrite (bool_decide_false (at_phase s = Open)) by done.
    by destruct (is_idle s).
Qed.

(** Blocks the native thread still has to run in its current handler. *)
Definition blocks_left (s : state) : nat :=
  match at_pc s with
  | Idle => 0
  | SetChunk _ _ => 1
  | ResolvePending => 2 + length (_chunk_futures s)
  | SetEmpty fs => 1 + length fs
  end.

Lemma drain n s :
  ctl s -> blocks_left s = n ->
  exists s', run (repeat CrtStep n) s = Some s' /\ ctl s' /\ at_pc s' = Idle /\
    gets s' = gets s /\ at_phase s' = at_phase s.
Proof.
  revert s. induction n as [|n IH]; intros s I Hn.
  - exists s. unfold blocks_left in Hn. by destruct (at_pc s).
  - assert (is_idle s = false) as Hi by (unfold is_idle, blocks_left in *; by destruct (at_pc s)).
    assert (blocks_left (crt_step s) = n /\ gets (crt_step s) = gets s /\
            at_phase (crt_step s) = at_phase s) as (Hb & Hg & Hph).
    { unfold crt_step, blocks_left in *. pose proof (ctl_pending _ I) as Hp.
      destruct (at_pc s) as [|f c| |[|f fs]] eqn:Ep; simpl in *; try lia.
      - unfold set_chunk_result. rewrite (Hp f) by set_solver. simpl. split; [lia|done].
      - split; [lia|done].
      - split; [lia|done].
      - unfold set_chunk_result. rewrite (Hp f) by set_solver. simpl. split; [lia|done]. }
    destruct (IH (crt_step s) (ctl_crt s I) Hb) as (s' & Hrun & I' & Hidle & Hg' & Hph').
    exists s'. simpl. rewrite Hi. split_and!; try done; congruence.
Qed.

(** C2: No call waits forever. Once the native layer has ended the body (at the
    end of the remote side or at completion), the native thread leaves its
    handler after a bounded number of blocks of its own, and every call of
    [get_next_response_chunk] made so far, wherever it was in that interleaving,
    has then been answered. *)
Theorem every_getter_answered (s : state)
    (Hr : reachable no_cancel init s) (Hph : at_phase s <> Open) :
  exists n s', (n <= 2 + length (futs s))%nat /\ run (repeat CrtStep n) s = Some s' /\
    at_pc s' = Idle /\ gets s' = gets s /\
    (forall f, Waits f ∈ gets s' -> exists c, futs s' !! f = Some (Finished (Ok c))).
Proof.
  destruct (reachable_inv s Hr) as [I _].
  destruct (drain _ s I eq_refl) as (s' & Hrun & I' & Hidle & Hg & Hph').
  exists (blocks_left s), s'. split_and!; try done.
  - assert (length (targets (at_pc s) ++ _chunk_futures s) <= length (futs s))%nat as Hle.
    { rewrite <- (length_seq (length (futs s)) 0).
      apply (submseteq_length (A:=nat)), NoDup_submseteq; [apply (ctl_nodup _ I)|].
      intros f Hin. apply elem_of_seq. split; [lia|]. simpl.
      eapply lookup_lt_Some, (ctl_pending _ I), Hin. }
    rewrite length_app in Hle. unfold blocks_left. destruct (at_pc s); simpl in *; lia.
  - intros f Hin. apply elem_of_waits in Hin. rewrite (ctl_waits _ I') in Hin.
    apply elem_of_seq in Hin. destruct (lookup_lt_is_Some_2 (futs s') f ltac:(lia)) as [fut Hfut].
    destruct (ctl_finished _ I' f fut Hfut) as [Hin'|[c ->]]; [|by exists c].
    rewrite Hidle in Hin'. simpl in Hin'. destruct (ctl_ended _ I') as [Hc|Hc]; [congruence|congruence|].
    rewrite Hc in Hin'. set_solver.
Qed.

(** ** What cancellation does *)

(** After completion with an idle native thread, a pending future stays
    unanswered whatever happens: it can only be cancelled. *)
Lemma dead_pending (s s' : state) (f : nat) :
  reachable any_action s s' -> at_phase s = Completed -> at_pc s = Idle ->
  futs s !! f = Some Pending ->
  at_phase s' = Completed /\ at_pc s' = Idle /\
  (futs s' !! f = Some Pending \/ futs s' !! f = Some Cancelled).
Proof.
  intros Hr Hph Hpc Hf. induction Hr as [|s1 a s2 Hr IH _ Hstep]; [eauto|].
  destruct IH as (IHph & IHpc & IHf).
  destruct a as [z hs|c| |ec| | |f'| |]; simpl in Hstep; unfold is_idle in Hstep;
    rewrite ?IHph, ?IHpc in Hstep; simpl in Hstep; try done; simplify_eq/=; try done.
  - unfold get_next_response_chunk. repeat case_match; simpl; split_and!; try done.
    destruct IHf as [IHf|IHf]; [left|right]; rewrite lookup_app_l; try done; by eapply lookup_lt_Some.
  - destruct (futs s1 !! f') as [fut|] eqn:E; simplify_eq/=. split_and!; [done..|].
    destruct (decide (f' = f)) as [->|Hne].
    + rewrite list_lookup_insert_eq by (by eapply lookup_lt_Some).
      rewrite E in IHf. destruct IHf as [[= ->]|[= ->]]; by right.
    + by rewrite list_lookup_insert_ne.
Qed.

(** Cancelling one call can hang the others. If a waiting call has been
    cancelled (as asyncio.wait_for does on a timeout) and further calls wait
    behind it when the stream completes, then [_on_complete] raises
    InvalidStateError while it resolves the cancelled future, and every call
    still pending behind it is never answered, in any continuation. *)
Lemma cancelled_getter_hangs_others (s : state) (f g : nat) (rest : list nat) (error_code : Z)
    (Hpc : at_pc s = Idle) (Hph : at_phase s <> Completed)
    (Hc : Fut.done (_completion_future s) = false)
    (Hcf : _chunk_futures s = f :: rest)
    (Hf : futs s !! f = Some Cancelled)
    (Hg : g ∈ rest) (Hgp : futs s !! g = Some Pending) :
  exists s', run [Complete error_code; CrtStep; CrtStep] s = Some s' /\
    errors s' = errors s ++ [InvalidStateError] /\
    (forall s'', reachable any_action s' s'' ->
       futs s'' !! g = Some Pending \/ futs s'' !! g = Some Cancelled).
Proof.
  set (s1 := with_pc ResolvePending (with_completion
    (Finished (outcome_of error_code (_status_code s))) (with_phase Completed s))).
  set (s2 := with_pc (SetEmpty (f :: rest)) (with_deques [] (_received_chunks s) s1)).
  assert (step (Complete error_code) s = Some s1) as E1.
  { simpl. unfold is_idle, _on_complete. rewrite Hpc, bool_decide_true by done. simpl.
    by rewrite Fut.complete_not_done by done. }
  assert (step CrtStep s1 = Some s2) as E2.
  { simpl. unfold crt_step, take_pending. simpl. by rewrite Hcf. }
  assert (step CrtStep s2 = Some (escape InvalidStateError s2)) as E3.
  { simpl. unfold crt_step, set_chunk_result. simpl. by rewrite Hf. }
  exists (escape InvalidStateError s2). split_and!; [|done|].
  - unfold run. by rewrite E1, E2, E3.
  - intros s'' Hr. edestruct (dead_pending _ _ g Hr) as (_ & _ & H'); [done..|]. exact H'.
Qed.

(** A chunk can be lost to a cancelled call. If the call at the head of the
    queue has been cancelled, the next chunk of the body is taken for it:
    [_on_body] raises InvalidStateError, and the chunk is neither buffered nor
    given to any other call. *)
Lemma cancelled_getter_loses_chunk (s : state) (f : nat) (rest : list nat) (c : bytes)
    (Hpc : at_pc s = Idle) (Hph : at_phase s = Open) (Hne : c <> [])
    (Hcf : _chunk_futures s = f :: rest) (Hf : futs s !! f = Some Cancelled) :
  exists s', run [Body c; CrtStep] s = Some s' /\
    errors s' = errors s ++ [InvalidStateError] /\ input s' = input s ++ [c] /\
    _received_chunks s' = _received_chunks s /\
    (forall g, g ∈ gets s -> value s' g = value s g) /\ gets s' = gets s.
Proof.
  set (s1 := with_pc (SetChunk f c) (with_deques rest (_received_chunks s) (add_input c s))).
  assert (step (Body c) s = Some s1) as E1.
  { simpl. unfold is_idle, _on_body. rewrite Hpc, !bool_decide_true by done. simpl. by rewrite Hcf. }
  assert (step CrtStep s1 = Some (escape InvalidStateError s1)) as E2.
  { simpl. unfold crt_step, set_chunk_result. simpl. by rewrite Hf. }
  exists (escape InvalidStateError s1). split_and!; try done.
  - unfold run. by rewrite E1, E2.
  - intros g _. destruct g as [c'| |f']; simpl; [done..|]. by rewrite Hpc.
Qed.

(** Giving up on [wait_for_completion] truncates the body. When the task
    awaiting it has been cancelled while the body is still arriving, the next
    call of [get_next_response_chunk] on an empty buffer gets the empty chunk,
    which means the end of the body, although chunks that arrive later are
    buffered; and completion itself then raises before it resolves any waiting
    call. *)
Lemma cancelled_completion_truncates (s : state) (c : bytes) (error_code : Z)
    (Hpc : at_pc s = Idle) (Hph : at_phase s = Open) (Hne : c <> [])
    (Hd : _completion_future s = Pending)
    (Hrc : _received_chunks s = []) (Hcf : _chunk_futures s = []) :
  exists s', run [CancelWaitForCompletion; GetNext; Body c; Complete error_code] s = Some s' /\
    gets s' = gets s ++ [GotEof] /\ _received_chunks s' = [c] /\
    errors s' = errors s ++ [InvalidStateError].
Proof.
  set (s1 := with_completion Cancelled s).
  set (s3 := with_deques [] [c] (add_input c (add_get GotEof s1))).
  assert (step GetNext s1 = Some (add_get GotEof s1)) as E2.
  { simpl. unfold get_next_response_chunk. simpl. by rewrite Hrc. }
  assert (step (Body c) (add_get GotEof s1) = Some s3) as E3.
  { simpl. unfold is_idle, _on_body. simpl. rewrite Hpc, !bool_decide_true by done. simpl.
    by rewrite Hcf, Hrc. }
  assert (step (Complete error_code) s3 = Some (escape InvalidStateError (with_phase Completed s3))) as E4.
  { simpl. unfold is_idle. simpl. rewrite Hpc, bool_decide_true by (simpl; congruence). done. }
  exists (escape InvalidStateError (with_phase Completed s3)). split_and!; try done.
  - unfold run. simpl (step CancelWaitForCompletion s). rewrite Hd. simpl Fut.cancel. cbn [snd].
    fold s1. by rewrite E2, E3, E4.
Qed.

(** Giving up on [wait_for_completion] can also hang the calls that wait
    for a chunk: with the completion future cancelled, [_on_complete] raises
    before it reaches the waiting calls, and none of them is ever answered, in
    any continuation. *)
Lemma cancelled_completion_hangs (s : state) (g : nat) (error_code : Z)
    (Hpc : at_pc s = Idle) (Hph : at_phase s <> Completed)
    (Hc : _completion_future s = Cancelled) (Hg : futs s !! g = Some Pending) :
  exists s', step (Complete error_code) s = Some s' /\
    errors s' = errors s ++ [InvalidStateError] /\
    (forall s'', reachable any_action s' s'' ->
       futs s'' !! g = Some Pending \/ futs s'' !! g = Some Cancelled).
Proof.
  exists (escape InvalidStateError (with_phase Completed s)). split_and!; [|done|].
  - simpl. unfold is_idle, _on_complete. rewrite Hpc, bool_decide_true by done. simpl. by rewrite Hc.
  - intros s'' Hr. edestruct (dead_pending _ _ g Hr) as (_ & _ & H'); [done..|]. exact H'.
Qed.

End Machine.

(** ** The theorems on concrete runs *)

Definition ch (b : Byte.byte) : bytes := [b].
Definition st_after (l : list action) : state := default init (run (H:=demo_errors) l init).

Lemma run_reachable (p : action -> Prop) l s0 s s' :
  reachable (H:=demo_errors) p s0 s -> Forall p l -> run (H:=demo_errors) l s = Some s' ->
  reachable (H:=demo_errors) p s0 s'.
Proof.
  revert s. induction l as [|a l IH]; intros s Hr Hl Hrun; simpl in Hrun; [by injection Hrun as <-|].
  inversion Hl as [|? ? Ha Hl']; subst. destruct (step a s) as [s1|] eqn:E; [|done].
  eapply IH; [|exact Hl'|exact Hrun]. by eapply reach_step.
Qed.

(** A call waits, a chunk arrives for it, the body ends while a second one waits. *)
Definition demo_run : list action :=
  [GetNext; Body (ch Byte.x61); GetNext; CrtStep; Body (ch Byte.x62); CrtStep; Body (ch Byte.x63);
   GetNext; GetNext; RemoteEndStream].

Lemma demo_reachable : reachable (H:=demo_errors) no_cancel init (st_after demo_run).
Proof.
  eapply (run_reachable no_cancel demo_run); [apply reach_here| |vm_compute; reflexivity].
  repeat constructor.
Defined.

Lemma chunks_in_order_witness :
  concat (map (value (st_after demo_run)) (gets (st_after demo_run))) = [Byte.x61; Byte.x62; Byte.x63].
Proof.
  destruct (chunks_in_order (H:=demo_errors) _ demo_reachable) as [H _].
  replace (concat (_received_chunks (st_after demo_run))) with (@nil Byte.byte) in H by (vm_compute; reflexivity).
  rewrite app_nil_r in H. rewrite H. vm_compute. reflexivity.
Defined.

Lemma empty_chunk_is_end_witness :
  _received_chunks (st_after (demo_run ++ [CrtStep; CrtStep])) = [].
Proof.
  destruct (empty_chunk_is_end (H:=demo_errors) (st_after (demo_run ++ [CrtStep; CrtStep])) (Waits 2)) as (_ & H & _).
  - eapply (run_reachable no_cancel (demo_run ++ [CrtStep; CrtStep]));
      [apply reach_here| |vm_compute; reflexivity]. repeat constructor.
  - apply (bool_decide_unpack _). vm_compute. exact I.
  - vm_compute. reflexivity.
  - exact H.
Defined.

Lemma every_getter_answered_witness :
  exists n s', run (H:=demo_errors) (repeat CrtStep n) (st_after demo_run) = Some s' /\ at_pc s' = Idle.
Proof.
  destruct (every_getter_answered (H:=demo_errors) _ demo_reachable ltac:(vm_compute; congruence))
    as (n & s' & _ & H1 & H2 & _).
  exists n, s'. split; assumption.
Defined.

Lemma cancelled_getter_hangs_others_witness :
  exists s', run (H:=demo_errors) [Complete 0; CrtStep; CrtStep] (st_after [GetNext; GetNext; CancelGet 0]) = Some s' /\
    errors s' = [InvalidStateError].
Proof.
  destruct (cancelled_getter_hangs_others (H:=demo_errors) (st_after [GetNext; GetNext; CancelGet 0]) 0 1 [1%nat] 0
    eq_refl ltac:(vm_compute; congruence) eq_refl eq_refl eq_refl ltac:(set_solver) eq_refl)
    as (s' & H1 & H2 & _).
  exists s'. split; assumption.
Defined.

Lemma cancelled_getter_loses_chunk_witness :
  exists s', run (H:=demo_errors) [Body (ch Byte.x61); CrtStep] (st_after [GetNext; CancelGet 0]) = Some s' /\
    _received_chunks s' = [].
Proof.
  destruct (cancelled_getter_loses_chunk (H:=demo_errors) (st_after [GetNext; CancelGet 0]) 0 [] (ch Byte.x61)
    eq_refl eq_refl ltac:(discriminate) eq_refl eq_refl) as (s' & H1 & _ & _ & H2 & _).
  exists s'. split; assumption.
Defined.

Lemma cancelled_completion_truncates_witness :
  exists s', gets s' = [GotEof] /\ _received_chunks s' = [ch Byte.x61].
Proof.
  destruct (cancelled_completion_truncates (H:=demo_errors) init (ch Byte.x61) 0
    eq_refl eq_refl ltac:(discriminate) eq_refl eq_refl eq_refl) as (s' & _ & H1 & H2 & _).
  exists s'. split; assumption.
Defined.

Lemma cancelled_completion_hangs_witness :
  exists s', run (H:=demo_errors) [Complete 0] (st_after [GetNext; CancelWaitForCompletion]) = Some s' /\
    errors s' = [InvalidStateError].
Proof.
  destruct (cancelled_completion_hangs (H:=demo_errors) (st_after [GetNext; CancelWaitForCompletion]) 0 0
    eq_refl ltac:(vm_compute; congruence) eq_refl eq_refl) as (s' & H1 & H2 & _).
  exists s'. split; [cbn [run]; rewrite H1; reflexivity | exact H2].
Defined.
End Chunks.

(** ** The request body of HTTP/2 streams *)
Module Writer.

(** What the body iterator does next: a chunk, or an exception. *)
Inductive item := Chunk (c : Chunks.bytes) | IterRaises (e : py_exn).

Section Write.
(** The outcome of the n-th write that [_write_data] awaits (a native error, or
    CancelledError when the task is cancelled there). *)
Variable outcome : nat -> result unit.

(** The writes started so far: body (None: no data) and end_stream. *)
Definition writes := list (option Chunks.bytes * bool).

Definition _write_data (body : option Chunks.bytes) (end_stream : bool) : M writes unit := fun w =>
  (outcome (length w), w ++ [(body, end_stream)]).

(** The body of [async for chunk in body_iterator]. *)
Definition write_item (i : item) : M writes unit :=
  match i with
  | Chunk c => _write_data (Some c) false
  | IterRaises e => raise e
  end.

Definition _set_request_body_generator (body_iterator : list item) : M writes unit :=
  try_finally (mfor body_iterator write_item) (_write_data None true).

Fixpoint leading_chunks (l : list item) : list Chunks.bytes :=
  match l with Chunk c :: l' => c :: leading_chunks l' | _ => [] end.

Lemma loop_writes l w :
  exists cs, cs `prefix_of` leading_chunks l /\
    (mfor l write_item w).2 = w ++ map (fun c => (Some c, false)) cs /\
    ((mfor l write_item w).1 = Ok tt -> map Chunk cs = l).
Proof.
  revert w. induction l as [|[c|e] l IH]; intros w; simpl.
  - exists []. simpl. by rewrite app_nil_r.
  - unfold bind, _write_data. destruct (outcome (length w)) as [[]|e] eqn:Eo.
    + destruct (IH (w ++ [(Some c, false)])) as (cs & Hp & H1 & H2). exists (c :: cs).
      split_and!.
      * by apply prefix_cons.
      * rewrite H1. simpl. by rewrite <- app_assoc.
      * intros Hok. simpl. by rewrite H2.
    + exists [c]. split_and!; [|done|done]. apply prefix_cons, prefix_nil.
  - exists []. simpl. rewrite app_nil_r. split_and!; [apply prefix_nil|done|done].
Qed.

(** C10: A request body is always terminated, once. Whatever the body iterator
    and the writes do (raise, fail, be cancelled), the data writes are a prefix
    of the iterator's chunks, in order and without END_STREAM, followed by
    exactly one write, without data and with END_STREAM; and when nothing fails
    all chunks have been written. *)
Theorem request_body_terminated (l : list item) :
  exists cs,
    (_set_request_body_generator l []).2 = map (fun c => (Some c, false)) cs ++ [(None, true)] /\
    cs `prefix_of` leading_chunks l /\
    ((_set_request_body_generator l []).1 = Ok tt -> map Chunk cs = l).
Proof.
  destruct (loop_writes l []) as (cs & Hp & H1 & H2). exists cs.
  unfold _set_request_body_generator, try_finally.
  destruct (mfor l write_item []) as [r w]. simpl in *. subst w. unfold _write_data.
  destruct (outcome _) as [[]|e]; simpl; split_and!; done.
Qed.
End Write.
End Writer.

(** ** Connections *)
Module AioConn.
Section New.
Variables (get_bootstrap : result nat) (native : nat -> Conn.new_args -> result unit).

(** [AIOHttpClientConnectionUnified.new], [AIOHttpClientConnection.new] and
    [AIOHttp2ClientConnection.new], up to the await. *)
Definition AIOHttpClientConnectionUnified_new (host : string) (port : Z) (bootstrap : option nat)
    (tls : option Tls.TlsConnectionOptions) (proxy : option Proxy.HttpProxyOptions)
    (manual_window_management : bool) (initial_window_size : option Z) : result Conn.core :=
  Conn._generic_new bootstrap get_bootstrap native
    (Conn.mkArgs host port tls proxy None manual_window_management initial_window_size
       None false None None) None true.

Definition AIOHttpClientConnection_new (host : string) (port : Z) (bootstrap : option nat)
    (tls : option Tls.TlsConnectionOptions) (proxy : option Proxy.HttpProxyOptions)
    (manual_window_management : bool) (initial_window_size read_buffer_capacity : option Z)
    : result Conn.core :=
  Conn._generic_new bootstrap get_bootstrap native
    (Conn.mkArgs host port tls proxy None manual_window_management initial_window_size
       read_buffer_capacity false None None) (Some HttpVersion.Http1_1) true.

Definition AIOHttp2ClientConnection_new (host : string) (port : Z) (bootstrap : option nat)
    (tls : option Tls.TlsConnectionOptions) (proxy : option Proxy.HttpProxyOptions)
    (initial_settings : option (list Settings.Http2Setting))
    (manual_window_management : bool) (initial_window_size : option Z)
    (conn_manual_window_management : bool)
    (conn_window_size_threshold stream_window_size_threshold : option Z) : result Conn.core :=
  Conn._generic_new bootstrap get_bootstrap native
    (Conn.mkArgs host port tls proxy initial_settings manual_window_management initial_window_size
       None conn_manual_window_management conn_window_size_threshold
       stream_window_size_threshold) (Some HttpVersion.Http2) true.
End New.
End AioConn.

(** ** Making streams *)
Module AioStream.
Import HttpMessage.NativeStream.

Inductive stream_class := Unified | Http1 | Http2.

(** The [loop] argument: none (with what [asyncio.get_event_loop()] then does),
    an event loop, or another object. *)
Inductive loop_arg := LoopNone (current : result unit) | Loop | NotALoop.

(** A stream object: [_request_body_generator] as what it will yield, and
    [http2_manual_write] as the native layer got it. *)
Record aio_stream := mkAio {
  cls : stream_class;
  manual_write : bool;
  _request_body_generator : option (list Writer.item);
  binding : http_stream_binding;
}.

Section New.
Context `{NativeErrors}.
(** The native layer's refusal to make a stream, or to activate it. *)
Variables (native : bool -> option Z) (native_activate : option Z).

Definition check_loop (loop : loop_arg) : result unit :=
  match loop with
  | LoopNone r => r
  | Loop => Ok tt
  | NotALoop => Raise (TypeError "loop must be an instance of asyncio.AbstractEventLoop")
  end.

(** [AIOHttpClientStreamUnified.__init__]: the outcome, and whether the writer
    task has been created by then (it stays when activation fails). *)
Definition AIOHttpClientStreamUnified_init (c : stream_class) (version : HttpVersion)
    (request_body_generator : option (list Writer.item)) (loop : loop_arg) : result aio_stream * bool :=
  let http2_manual_write :=
    (if request_body_generator is Some _ then true else false) && bool_decide (version = HttpVersion.Http2) in
  match (let? b := http_client_stream_new (bool_decide (version = HttpVersion.Http2)) (native http2_manual_write) in
         let? _ := check_loop loop in Ok b) with
  | Raise e => (Raise e, false)
  | Ok b =>
      let writer := if request_body_generator is Some _ then true else false in
      match http_client_stream_activate native_activate b with
      | (Raise e, _) => (Raise e, writer)
      | (Ok _, b) => (Ok (mkAio c http2_manual_write request_body_generator b), writer)
      end
  end.

(** The classes and the [request] methods of their connections. *)
Definition AIOHttpClientStream_init (version : HttpVersion) (loop : loop_arg) : result aio_stream * bool :=
  AIOHttpClientStreamUnified_init Http1 version None loop.
Definition AIOHttp2ClientStream_init (version : HttpVersion)
    (request_body_generator : option (list Writer.item)) (loop : loop_arg) : result aio_stream * bool :=
  AIOHttpClientStreamUnified_init Http2 version request_body_generator loop.

Definition AIOHttpClientConnectionUnified_request (version : HttpVersion)
    (request_body_generator : option (list Writer.item)) (loop : loop_arg) : result aio_stream * bool :=
  AIOHttpClientStreamUnified_init Unified version request_body_generator loop.
Definition AIOHttpClientConnection_request (version : HttpVersion)
    (request_body_generator : option (list Writer.item)) (loop : loop_arg) : result aio_stream * bool :=
  AIOHttpClientStream_init version loop.
Definition AIOHttp2ClientConnection_request (version : HttpVersion)
    (request_body_generator : option (list Writer.item)) (loop : loop_arg) : result aio_stream * bool :=
  AIOHttp2ClientStream_init version request_body_generator loop.

(** The writer task: the method of the class ([...], which does nothing, in the
    base class). *)
Definition run_writer (outcome : nat -> result unit) (s : aio_stream) : Writer.writes :=
  match _request_body_generator s, cls s with
  | Some l, Http2 => (Writer._set_request_body_generator outcome l []).2
  | _, _ => []
  end.

(** The writes of a stream from each connection class. Only an HTTP/2 connection
    object sends the generator's body; the unified class makes the native
    stream wait for writes (on an HTTP/2 connection) that never come, and the
    HTTP/1 class ignores the generator. *)
Lemma request_body_by_class outcome version gen loop s :
  ((AIOHttpClientConnectionUnified_request version (Some gen) loop).1 = Ok s ->
    run_writer outcome s = [] /\ manual_write s = bool_decide (version = HttpVersion.Http2)) /\
  ((AIOHttpClientConnection_request version (Some gen) loop).1 = Ok s ->
    run_writer outcome s = [] /\ manual_write s = false) /\
  ((AIOHttp2ClientConnection_request HttpVersion.Http2 (Some gen) loop).1 = Ok s ->
    manual_write s = true /\ exists cs, cs `prefix_of` Writer.leading_chunks gen /\
      run_writer outcome s = map (fun c => (Some c, false)) cs ++ [(None, true)]).
Proof.
  assert (Hinit : forall c v g,
    (AIOHttpClientStreamUnified_init c v g loop).1 = Ok s ->
    cls s = c /\ _request_body_generator s = g /\
    manual_write s = (if g is Some _ then true else false) && bool_decide (v = HttpVersion.Http2)).
  { intros c v g. unfold AIOHttpClientStreamUnified_init.
    destruct (http_client_stream_new _ _) as [b|e]; simpl; [|done].
    destruct (check_loop loop); simpl; [|done].
    destruct (http_client_stream_activate _ _) as [[[]|e] b']; simpl; [|done]. by intros [= <-]. }
  split_and!; intros Hs; apply Hinit in Hs as (Hc & Hg & Hm); unfold run_writer; rewrite Hg, ?Hc, Hm; [done..|].
  split; [done|]. destruct (Writer.loop_writes outcome gen []) as (cs & Hp & H1 & _). exists cs. split; [done|].
  unfold Writer._set_request_body_generator, try_finally.
  destruct (mfor gen (Writer.write_item outcome) []) as [r w]. simpl in *. subst w. unfold Writer._write_data.
  by destruct (outcome _).
Qed.
End New.
End AioStream.
