(* ===== verification/WebSocket.v ===== *)
(** * awscrt/websocket.py: WebSocket connections

    [_WebSocketCore] runs the user's callbacks on behalf of the native
    WebSocket. The binding aborts the whole process when one of its handlers
    raises, so what matters is that nothing escapes a handler: every user
    exception must be reported and turned into the closing of the socket. *)
From S2P Require Import Prelude PyData Future Io Http.

Module Opcode.
Inductive Opcode :=
  | CONTINUATION
  | TEXT
  | BINARY
  | CLOSE
  | PING
  | PONG.
Definition Opcode_value (e : Opcode) : Z :=
  match e with
  | CONTINUATION => 0
  | TEXT => 1
  | BINARY => 2
  | CLOSE => 8
  | PING => 9
  | PONG => 10
  end.
#[global] Instance Opcode_eq_dec : EqDecision Opcode.
Proof. solve_decision. Defined.
#[global] Instance Opcode_IntEnum : IntEnum Opcode.
Proof.
  refine {| enum_value := Opcode_value; enum_members := [CONTINUATION; TEXT; BINARY; CLOSE; PING; PONG] |}.
  - solve_enum_complete.
  - solve_enum_nodup.
Defined.
End Opcode.
Abbreviation Opcode := Opcode.Opcode.

Module Ws.

(** [Opcode.is_data_frame] *)
Definition is_data_frame (o : Opcode) : bool :=
  bool_decide (o = Opcode.TEXT) || bool_decide (o = Opcode.BINARY) || bool_decide (o = Opcode.CONTINUATION).

Definition MAX_PAYLOAD_LENGTH : Z := 0x7FFFFFFFFFFFFFFF.

Record IncomingFrame := mkFrame { opcode : Opcode; payload_length : Z; fin : bool }.
#[global] Instance IncomingFrame_eq_dec : EqDecision IncomingFrame.
Proof. solve_decision. Defined.

Record OnConnectionSetupData := mkSetup {
  setup_exception : option py_exn;
  websocket : option nat;                  (** the WebSocket, by its native binding *)
  handshake_response_status : option Z;
  handshake_response_headers : option (list (string * string));
  handshake_response_body : option (list Byte.byte);
}.

(** What the user's callbacks are called with. *)
Inductive callback :=
  | Setup (d : OnConnectionSetupData)
  | Shutdown (exception : option py_exn)
  | FrameBegin (frame : IncomingFrame)
  | FramePayload (frame : IncomingFrame) (data : list Byte.byte)
  | FrameComplete (frame : IncomingFrame) (exception : option py_exn)
  | SendComplete (exception : option py_exn).

(** [_current_incoming_frame] is the attribute (None: not set); [calls] the
    callbacks made, [hooked] the exceptions given to sys.excepthook, [closes]
    the calls of [WebSocket.close]. *)
Record core := mkCore {
  _current_incoming_frame : option IncomingFrame;
  calls : list callback;
  hooked : list py_exn;
  closes : nat;
}.

Definition set_frame (f : option IncomingFrame) (c : core) : core :=
  mkCore f (calls c) (hooked c) (closes c).
Definition log_call (k : callback) (c : core) : core :=
  mkCore (_current_incoming_frame c) (calls c ++ [k]) (hooked c) (closes c).
Definition log_hook (e : py_exn) (c : core) : core :=
  mkCore (_current_incoming_frame c) (calls c) (hooked c ++ [e]) (closes c).
Definition log_close (c : core) : core :=
  mkCore (_current_incoming_frame c) (calls c) (hooked c) (S (closes c)).

(** [if error_code: exception = from_code(error_code)] *)
Definition exn_of `{NativeErrors} (error_code : Z) : option py_exn :=
  if bool_decide (error_code = 0) then None else Some (from_code error_code).

Section Core.
Context `{NativeErrors}.

(** The callbacks the user gave (None: not given) and what each call does. *)
Variables (on_connection_setup : callback -> result unit)
  (on_connection_shutdown on_incoming_frame_begin on_incoming_frame_payload
   on_incoming_frame_complete : option (callback -> result unit)).

(** [sys.excepthook] on the current exception, which the user may replace. *)
Variable excepthook : py_exn -> result unit.

Definition call (cb : option (callback -> result unit)) (k : callback) : M core unit :=
  match cb with
  | None => ret tt
  | Some f => do! modify (log_call k); lift (f k)
  end.

Definition report (e : py_exn) : M core unit := do! modify (log_hook e); lift (excepthook e).

(** [try: cb(...) except BaseException: report; return False] then [return True] *)
Definition guarded (cb : option (callback -> result unit)) (k : callback) : M core bool :=
  try_except is_BaseException
    (do! call cb k; ret true)
    (fun e => do! report e; ret false).

(** The native layer passes a null binding (None here) when setup failed. *)
Definition _on_connection_setup (error_code : Z) (websocket_binding : nat) (status : option Z)
    (headers : option (list (string * string))) (body : option (list Byte.byte)) : M core unit :=
  let d :=
    if bool_decide (error_code = 0)
    then mkSetup None (Some websocket_binding) status headers body
    else mkSetup (Some (from_code error_code)) None status headers body in
  try_except is_BaseException
    (call (Some on_connection_setup) (Setup d))
    (fun e => do! report e;
              if websocket d is Some _ then modify log_close else ret tt).

Definition _on_connection_shutdown (error_code : Z) : M core unit :=
  try_except is_BaseException
    (call on_connection_shutdown (Shutdown (exn_of error_code)))
    report.

Definition _on_incoming_frame_begin (opcode_int payload_length : Z) (fin : bool) : M core bool :=
  let! o := lift (enum_call opcode_int) in
  let f := mkFrame o payload_length fin in
  do! modify (set_frame (Some f));
  guarded on_incoming_frame_begin (FrameBegin f).

(** [self._current_incoming_frame] *)
Definition get_frame : M core IncomingFrame :=
  let! f := gets _current_incoming_frame in
  lift (match f with Some f => Ok f | None => Raise (AttributeError "_current_incoming_frame") end).

Definition _on_incoming_frame_payload (data : list Byte.byte) : M core bool :=
  let! f := get_frame in
  guarded on_incoming_frame_payload (FramePayload f data).

Definition _on_incoming_frame_complete (error_code : Z) : M core bool :=
  let! f := get_frame in
  do! modify (set_frame None);
  guarded on_incoming_frame_complete (FrameComplete f (exn_of error_code)).

(** ** Sending *)

(** The closure [_on_complete] of [WebSocket.send_frame]. *)
Definition send_on_complete (on_complete : option (callback -> result unit)) (error_code : Z)
    : M core unit :=
  try_except is_BaseException
    (call on_complete (SendComplete (exn_of error_code)))
    (fun e => do! report e; modify log_close).

(** [send_frame]: the opcode is checked before the native call [native]. *)
Definition send_frame {P A} (native : Opcode -> P -> bool -> result A) (opcode : Z) (payload : P) (fin : bool)
    : result A :=
  let? o := enum_call opcode in native o payload fin.

Definition increment_read_window (native : Z -> result unit) (size : Z) : result unit :=
  if size <? 0 then Raise (ValueError "Increment size cannot be negative") else native size.

(** [connect]: the read window it settles on, and the port, before the native call. *)
Definition connect {A} (native : Z -> bool -> Z -> result A) (port : option Z)
    (manage_read_window : bool) (initial_read_window : option Z) : result A :=
  let? window := (if manage_read_window
                  then match initial_read_window with
                       | None => Raise (ValueError "'initial_read_window' must be set if 'manage_read_window' is enabled")
                       | Some w => Ok w
                       end
                  else Ok 0) in
  let? _ := (if window <? 0 then Raise (ValueError "'initial_read_window' cannot be negative") else Ok tt) in
  native (default 0 port) manage_read_window window.

(** ** The native side of a connection's incoming frames

    For each frame the native layer calls begin, then payload for each piece
    that arrives, then complete; when a handler returns False it stops reading
    and completes the current frame with an error. [None] is the end of the
    process: the binding aborts when a handler raises. *)

Record native_frame := mkNative {
  n_opcode : Z; n_length : Z; n_fin : bool; n_payloads : list (list Byte.byte); n_error : Z;
}.

(** The code of an error raised because a callback failed. *)
Definition AWS_ERROR_HTTP_CALLBACK_FAILURE : Z := 2063.

Fixpoint payloads (l : list (list Byte.byte)) (c : core) : option (bool * core) :=
  match l with
  | [] => Some (true, c)
  | d :: l' =>
      match _on_incoming_frame_payload d c with
      | (Ok true, c') => payloads l' c'
      | (Ok false, c') => Some (false, c')
      | (Raise _, _) => None
      end
  end.

Definition complete_frame (error_code : Z) (keep : bool) (c : core) : option (bool * core) :=
  match _on_incoming_frame_complete error_code c with
  | (Ok b, c') => Some (b && keep, c')
  | (Raise _, _) => None
  end.

(** One frame; the result says whether the connection goes on. *)
Definition native_run_frame (f : native_frame) (c : core) : option (bool * core) :=
  match _on_incoming_frame_begin (n_opcode f) (n_length f) (n_fin f) c with
  | (Raise _, _) => None
  | (Ok false, c') => complete_frame AWS_ERROR_HTTP_CALLBACK_FAILURE false c'
  | (Ok true, c') =>
      match payloads (n_payloads f) c' with
      | None => None
      | Some (false, c'') => complete_frame AWS_ERROR_HTTP_CALLBACK_FAILURE false c''
      | Some (true, c'') => complete_frame (n_error f) true c''
      end
  end.

Fixpoint native_run (l : list native_frame) (c : core) : option (bool * core) :=
  match l with
  | [] => Some (true, c)
  | f :: l' =>
      match native_run_frame f c with
      | None => None
      | Some (true, c') => native_run l' c'
      | Some (false, c') => Some (false, c')
      end
  end.

(** ** What the user must see *)

Definition ok_call (cb : option (callback -> result unit)) (k : callback) : bool :=
  match cb with None => true | Some f => is_ok (f k) end.
Definition seen (cb : option (callback -> result unit)) (k : callback) : list callback :=
  match cb with None => [] | Some _ => [k] end.

(** The payload callbacks of a frame up to the first that raises, and whether
    none did. *)
Fixpoint expected_payloads (fr : IncomingFrame) (l : list (list Byte.byte)) : list callback * bool :=
  match l with
  | [] => ([], true)
  | d :: l' =>
      let k := FramePayload fr d in
      if ok_call on_incoming_frame_payload k
      then let '(ks, ok) := expected_payloads fr l' in (seen on_incoming_frame_payload k ++ ks, ok)
      else (seen on_incoming_frame_payload k, false)
  end.

Definition expected_frame (o : Opcode) (f : native_frame) : list callback * bool :=
  let fr := mkFrame o (n_length f) (n_fin f) in
  let b := FrameBegin fr in
  let '(ks, ok) := if ok_call on_incoming_frame_begin b
                   then let '(ks, ok) := expected_payloads fr (n_payloads f) in
                        (seen on_incoming_frame_begin b ++ ks, ok)
                   else (seen on_incoming_frame_begin b, false) in
  let e := FrameComplete fr (exn_of (if ok then n_error f else AWS_ERROR_HTTP_CALLBACK_FAILURE)) in
  (ks ++ seen on_incoming_frame_complete e, ok && ok_call on_incoming_frame_complete e).

Fixpoint expected_frames (l : list (Opcode * native_frame)) : list callback * bool :=
  match l with
  | [] => ([], true)
  | (o, f) :: l' =>
      let '(ks, ok) := expected_frame o f in
      if ok then let '(ks', ok') := expected_frames l' in (ks ++ ks', ok') else (ks, false)
  end.

Section Safe.
(** The default hook prints and returns. *)
Hypothesis excepthook_returns : forall e, excepthook e = Ok tt.

Lemma guarded_run cb k c :
  exists c', guarded cb k c = (Ok (ok_call cb k), c') /\
    calls c' = calls c ++ seen cb k /\ _current_incoming_frame c' = _current_incoming_frame c /\
    closes c' = closes c.
Proof.
  unfold guarded, call, report. destruct cb as [f|]; munfold.
  - destruct (f k) as [[]|e] eqn:E; simpl; rewrite ?excepthook_returns; simpl; eauto.
  - eexists. rewrite app_nil_r. eauto.
Qed.

Lemma payloads_run fr l c :
  _current_incoming_frame c = Some fr ->
  exists c', payloads l c = Some ((expected_payloads fr l).2, c') /\
    calls c' = calls c ++ (expected_payloads fr l).1 /\ _current_incoming_frame c' = Some fr /\ closes c' = closes c.
Proof.
  revert c. induction l as [|d l IH]; intros c Hc; simpl.
  - exists c. by rewrite app_nil_r.
  - unfold _on_incoming_frame_payload, get_frame. unfold bind at 1. unfold bind at 1. unfold gets, lift.
    rewrite Hc. simpl.
    destruct (guarded_run on_incoming_frame_payload (FramePayload fr d) c) as (c1 & -> & H1 & H2 & H2').
    destruct (ok_call _ _) eqn:Ek.
    + destruct (IH c1) as (c2 & -> & H3 & H4 & H4'); [congruence|]. exists c2.
      destruct (expected_payloads fr l) as [ks ok]. simpl in *. rewrite H3, H1, <- app_assoc.
      split_and!; try done; congruence.
    + exists c1. simpl. split_and!; try done; congruence.
Qed.

Lemma complete_frame_run fr ec keep c :
  _current_incoming_frame c = Some fr ->
  exists c', complete_frame ec keep c =
      Some (ok_call on_incoming_frame_complete (FrameComplete fr (exn_of ec)) && keep, c') /\
    calls c' = calls c ++ seen on_incoming_frame_complete (FrameComplete fr (exn_of ec)) /\
    _current_incoming_frame c' = None /\ closes c' = closes c.
Proof.
  intros Hc. unfold complete_frame, _on_incoming_frame_complete, get_frame.
  unfold bind at 1. unfold bind at 1. unfold gets, lift. rewrite Hc. unfold bind, modify.
  destruct (guarded_run on_incoming_frame_complete (FrameComplete fr (exn_of ec)) (set_frame None c))
    as (c1 & -> & H1 & H2 & H3).
  exists c1. split_and!; done.
Qed.

Lemma frame_run o f c :
  n_opcode f = enum_value o ->
  exists c', native_run_frame f c = Some ((expected_frame o f).2, c') /\
    calls c' = calls c ++ (expected_frame o f).1 /\ _current_incoming_frame c' = None /\ closes c' = closes c.
Proof.
  intros Ho. unfold native_run_frame, _on_incoming_frame_begin, expected_frame. rewrite Ho.
  unfold bind at 1, lift at 1. rewrite enum_call_value. unfold bind, modify.
  set (fr := mkFrame o (n_length f) (n_fin f)).
  destruct (guarded_run on_incoming_frame_begin (FrameBegin fr) (set_frame (Some fr) c))
    as (c1 & -> & H1 & H2 & H2'). simpl in H1, H2, H2'.
  destruct (ok_call on_incoming_frame_begin (FrameBegin fr)).
  - destruct (payloads_run fr (n_payloads f) c1 H2) as (c2 & -> & H3 & H4 & H4').
    destruct (expected_payloads fr (n_payloads f)) as [ks ok]. simpl in H3 |- *.
    destruct ok.
    + destruct (complete_frame_run fr (n_error f) true c2 H4) as (c3 & -> & H5 & H6 & H6').
      exists c3. simpl. rewrite andb_true_r, H5, H3, H1, <- !app_assoc. split_and!; congruence.
    + destruct (complete_frame_run fr AWS_ERROR_HTTP_CALLBACK_FAILURE false c2 H4) as (c3 & -> & H5 & H6 & H6').
      exists c3. simpl. rewrite andb_false_r, H5, H3, H1, <- !app_assoc. split_and!; congruence.
  - destruct (complete_frame_run fr AWS_ERROR_HTTP_CALLBACK_FAILURE false c1 H2) as (c3 & -> & H5 & H6 & H6').
    exists c3. simpl. rewrite andb_false_r, H5, H1, <- !app_assoc. split_and!; congruence.
Qed.

(** The user's callbacks of a frame are about that frame. *)
Lemma seen_frame (P : callback -> Prop) cb k : P k -> Forall P (seen cb k).
Proof. intros Hk. destruct cb; simpl; auto. Qed.
Lemma expected_payloads_frame (P : callback -> Prop) fr l :
  (forall d, P (FramePayload fr d)) -> Forall P (expected_payloads fr l).1.
Proof.
  intros HP. induction l as [|d l IH]; simpl; [done|].
  destruct (ok_call _ _); [|by apply seen_frame].
  destruct (expected_payloads fr l). simpl. apply Forall_app. split; [by apply seen_frame|done].
Qed.
Lemma expected_frame_frame (P : callback -> Prop) o f :
  (let fr := mkFrame o (n_length f) (n_fin f) in
   P (FrameBegin fr) /\ (forall d, P (FramePayload fr d)) /\ forall e, P (FrameComplete fr e)) ->
  Forall P (expected_frame o f).1.
Proof.
  cbv zeta. intros (H1 & H2 & H3). unfold expected_frame.
  set (fr := mkFrame o (n_length f) (n_fin f)) in *.
  pose proof (expected_payloads_frame P fr (n_payloads f) H2) as Hp.
  destruct (ok_call _ _); [destruct (expected_payloads fr (n_payloads f)) as [ks ok]|];
    simpl; repeat (apply Forall_app; split); auto using seen_frame.
Qed.

(** C6: No incoming frame can abort the process. For any sequence of frames
    with opcodes of the protocol, and user callbacks that may raise anything
    (KeyboardInterrupt and SystemExit included) at any call, no handler raises;
    the user's callbacks see begin, the payload pieces and complete of each
    frame, in order and all with that frame's data, up to the first one that
    raises; that one makes the handler return False, the frame is then
    completed with an error and no further frame is delivered. *)
Theorem incoming_frames_safe (l : list (Opcode * native_frame))
    (Hl : Forall (fun '(o, f) => n_opcode f = enum_value o) l) (c : core)
    (Hc : _current_incoming_frame c = None) :
  exists c', native_run (map snd l) c = Some ((expected_frames l).2, c') /\
    calls c' = calls c ++ (expected_frames l).1 /\ _current_incoming_frame c' = None.
Proof.
  revert c Hc. induction Hl as [|[o f] l Ho Hl IH]; intros c Hc; simpl.
  - exists c. by rewrite app_nil_r.
  - destruct (frame_run o f c Ho) as (c1 & -> & H1 & H2 & _).
    destruct (expected_frame o f) as [ks ok]. simpl in *. destruct ok.
    + destruct (IH c1 H2) as (c2 & -> & H3 & H4). exists c2.
      destruct (expected_frames l) as [ks' ok']. simpl in *. rewrite H3, H1, <- app_assoc. done.
    + exists c1. simpl. done.
Qed.

Lemma ws_setup_run error_code binding status headers body c :
  exists c' d, _on_connection_setup error_code binding status headers body c = (Ok tt, c') /\
    calls c' = calls c ++ [Setup d] /\ _current_incoming_frame c' = _current_incoming_frame c /\
    (error_code = 0 -> websocket d = Some binding /\ setup_exception d = None /\
       closes c' = (closes c + if is_ok (on_connection_setup (Setup d)) then 0 else 1)%nat) /\
    (error_code <> 0 -> websocket d = None /\ setup_exception d = Some (from_code error_code) /\
       closes c' = closes c).
Proof.
  unfold _on_connection_setup, call, report. cbv zeta. munfold.
  destruct (bool_decide_reflect (error_code = 0)) as [->|Hne];
    match goal with |- context [on_connection_setup (Setup ?d)] =>
      destruct (on_connection_setup (Setup d)) as [[]|e] eqn:E end;
    simpl; rewrite ?excepthook_returns; simpl; eexists _, _;
    split_and!; try done; intros ?; try done; simpl; rewrite ?E; simpl; split_and!; try done; lia.
Qed.

Lemma shutdown_run error_code c :
  exists c', _on_connection_shutdown error_code c = (Ok tt, c') /\
    calls c' = calls c ++ seen on_connection_shutdown (Shutdown (exn_of error_code)) /\
    _current_incoming_frame c' = _current_incoming_frame c /\ closes c' = closes c.
Proof.
  unfold _on_connection_shutdown, call, report. munfold.
  destruct on_connection_shutdown as [f|]; simpl; [|eexists; by rewrite app_nil_r].
  destruct (f _) as [[]|e]; simpl; rewrite ?excepthook_returns; simpl; eauto.
Qed.

Lemma send_complete_run on_complete error_code c :
  exists c', send_on_complete on_complete error_code c = (Ok tt, c') /\
    calls c' = calls c ++ seen on_complete (SendComplete (exn_of error_code)) /\
    _current_incoming_frame c' = _current_incoming_frame c /\
    closes c' = (closes c + if ok_call on_complete (SendComplete (exn_of error_code)) then 0 else 1)%nat.
Proof.
  unfold send_on_complete, call, report. munfold.
  destruct on_complete as [f|]; simpl; [|eexists; rewrite app_nil_r; split_and!; [done|done|done|lia]].
  destruct (f _) as [[]|e]; simpl; rewrite ?excepthook_returns; simpl; eexists; split_and!; try done;
    unfold log_close, log_hook, log_call; cbn [closes]; lia.
Qed.

(** Connection and send callbacks are just as contained: the setup,
    shutdown and send-complete handlers never raise, the user's callback is
    called exactly once with the websocket on success and with the exception of
    the native error otherwise (never both), and the websocket is closed
    exactly when the setup callback of a successful connection, or a
    send-complete callback, raised. *)
Lemma connection_callbacks_contained (error_code : Z) (binding : nat) (status : option Z)
    (headers : option (list (string * string))) (body : option (list Byte.byte))
    (on_complete : option (callback -> result unit)) (c : core) :
  (exists c' d, _on_connection_setup error_code binding status headers body c = (Ok tt, c') /\
     calls c' = calls c ++ [Setup d] /\
     (error_code = 0 -> websocket d = Some binding /\ setup_exception d = None /\
        closes c' = (closes c + if is_ok (on_connection_setup (Setup d)) then 0 else 1)%nat) /\
     (error_code <> 0 -> websocket d = None /\ setup_exception d = Some (from_code error_code) /\
        closes c' = closes c)) /\
  (exists c', _on_connection_shutdown error_code c = (Ok tt, c') /\
     calls c' = calls c ++ seen on_connection_shutdown (Shutdown (exn_of error_code))) /\
  (exists c', send_on_complete on_complete error_code c = (Ok tt, c') /\
     calls c' = calls c ++ seen on_complete (SendComplete (exn_of error_code)) /\
     closes c' = (closes c + if ok_call on_complete (SendComplete (exn_of error_code)) then 0 else 1)%nat).
Proof.
  split_and!.
  - destruct (ws_setup_run error_code binding status headers body c) as (c' & d & H1 & H2 & _ & H3). eauto.
  - destruct (shutdown_run error_code c) as (c' & H1 & H2 & _). eauto.
  - destruct (send_complete_run on_complete error_code c) as (c' & H1 & H2 & _ & H3). eauto.
Qed.
End Safe.

(** The arguments are checked before anything reaches the native layer: a
    frame is only sent with an opcode of the protocol, the read window is only
    incremented by a non-negative amount, and a connection is only attempted
    with a non-negative window which is the user's when windows are managed and
    0 otherwise; every other call raises ValueError without a native call. *)
Lemma websocket_arguments_checked (native_send : Opcode -> option (list Byte.byte) -> bool -> result unit)
    (native_inc : Z -> result unit) (native_connect : Z -> bool -> Z -> result unit)
    (op size : Z) (payload : option (list Byte.byte)) (fin manage : bool)
    (port window : option Z) :
  send_frame native_send op payload fin =
    match enum_of op with
    | Some o => native_send o payload fin
    | None => Raise (ValueError "not a valid member")
    end /\
  (if 0 <=? size then increment_read_window native_inc size = native_inc size
   else exists msg, increment_read_window native_inc size = Raise (ValueError msg)) /\
  match (if manage then window else Some 0) with
  | Some w => if 0 <=? w then connect native_connect port manage window = native_connect (default 0 port) manage w
              else exists msg, connect native_connect port manage window = Raise (ValueError msg)
  | None => exists msg, connect native_connect port manage window = Raise (ValueError msg)
  end.
Proof.
  split_and!.
  - unfold send_frame, enum_call. by destruct (enum_of op).
  - unfold increment_read_window. destruct (Z.leb_spec 0 size), (Z.ltb_spec size 0); try lia; eauto.
  - unfold connect. destruct manage; simpl; [|done]. destruct window as [w|]; simpl; [|eauto].
    destruct (Z.leb_spec 0 w), (Z.ltb_spec w 0); try lia; simpl; eauto.
Qed.
End Core.

(** A reserved opcode would abort the process: the cast is outside the try. *)
Example reserved_opcode_escapes (cb : option (callback -> result unit)) (hook : py_exn -> result unit) c :
  (_on_incoming_frame_begin cb hook 3 0 true c).1 = Raise (ValueError "not a valid member").
Proof. reflexivity. Qed.

Definition demo_frame : native_frame := mkNative 1 2 true [[Byte.x61]; [Byte.x62]] 0.
(** A payload callback that exits at the second piece. *)
Definition demo_payload_cb (k : callback) : result unit :=
  match k with FramePayload _ [b] => if bool_decide (b = Byte.x62) then Raise (UserBaseException 1) else Ok tt | _ => Ok tt end.

Lemma incoming_frames_safe_witness :
  exists c', native_run (H:=demo_errors) (Some (fun _ => Ok tt)) (Some demo_payload_cb) (Some (fun _ => Ok tt))
    (fun _ => Ok tt) [demo_frame; demo_frame] (mkCore None [] [] 0) = Some (false, c') /\ length (calls c') = 4%nat.
Proof.
  destruct (incoming_frames_safe (H:=demo_errors) (Some (fun _ => Ok tt)) (Some demo_payload_cb)
    (Some (fun _ => Ok tt)) (fun _ => Ok tt) ltac:(reflexivity)
    [(Opcode.TEXT, demo_frame); (Opcode.TEXT, demo_frame)] ltac:(repeat constructor) (mkCore None [] [] 0) eq_refl)
    as (c' & H1 & H2 & _).
  exists c'. split; [exact H1 | rewrite H2; vm_compute; reflexivity].
Defined.

Lemma connection_callbacks_contained_witness :
  exists c', closes c' = 1%nat.
Proof.
  destruct (connection_callbacks_contained (H:=demo_errors) (fun _ => Raise (UserError 0)) None
    (fun _ => Ok tt) ltac:(reflexivity) 0 5 None None None None (mkCore None [] [] 0))
    as ((c' & d & _ & _ & H & _) & _ & _).
  destruct (H eq_refl) as (_ & _ & Hc). exists c'. exact Hc.
Defined.
End Ws.
