(* ===== verification/WebSocketNative.v ===== *)
(** * awscrt/websocket.py with source/websocket.c: the life of a WebSocket

    The binding keeps the [_WebSocketCore] alive while callbacks can come, hands
    the native WebSocket to Python in a capsule that gives it back, and keeps the
    payload of each frame, read by the native layer without the interpreter lock,
    until the frame is sent. The state of [WsNative] is one connection with all of
    this; a run is any sequence of calls, native callbacks and drops of the
    user's reference. [WsHandshake] makes the request. *)
From S2P Require Import Prelude PyData Future Io Http HttpMessage WebSocket.

Module WsNative.
Import Ws.

(** ** State *)

(** What the native layer can still call: nothing before connect, setup, then
    frames and shutdown; nothing after a failed setup or shutdown. *)
Inductive phase := Idle | Connecting | Opened | Failed | Shut.
#[global] Instance phase_eq_dec : EqDecision phase.
Proof. solve_decision. Defined.

(** - [py]: the [_WebSocketCore] and what it called; [core_refs]: references the
      binding owns on it;
    - [native], [reading]: of the native layer;
    - [held]: the user has the WebSocket object; [capsule]: its binding is alive;
      [released]: calls of aws_websocket_release. *)
Record connection := mkConn {
  py : core;
  core_refs : nat;
  native : phase;
  reading : bool;
  held : bool;
  capsule : bool;
  released : nat;
}.

(** [struct websocket_send_op], by the number of the call that made it: the
    buffer (None: a null pointer), the part not sent yet; its callback is the
    closure of the same number. *)
Record websocket_send_op := mkOp { payload_buffer : option (list Byte.byte); payload_cursor : list Byte.byte }.

(** A frame the native layer took: its header, what it read of the payload so
    far; [f_payload] is what the caller gave. *)
Record sent_frame := mkSent {
  f_opcode : Z; f_fin : bool; f_length : Z; f_received : list Byte.byte; f_payload : list Byte.byte;
}.

(** - [closures], [buffers]: references to the closures of [send_frame] and
      Py_buffers the binding holds; [ops]: the allocated operations;
    - [frames], [attempts]: frames the native layer took, of all calls so far;
    - [completed]: calls of closures, with their error code. *)
Record sending := mkSending {
  closures : gset nat;
  buffers : gset nat;
  ops : gmap nat websocket_send_op;
  frames : gmap nat sent_frame;
  attempts : nat;
  completed : list (nat * Z);
}.

(** [broken]: a reference or buffer was given back twice, a pointer used after
    its release, or an assertion ended the process. *)
Record world := mkWorld { conn : connection; sends : sending; broken : bool }.

Definition init : world :=
  mkWorld (mkConn (mkCore None [] [] 0) 0 Idle true false false 0) (mkSending ∅ ∅ ∅ ∅ 0 []) false.

Definition on_conn (f : connection -> connection) (w : world) : world := mkWorld (f (conn w)) (sends w) (broken w).
Definition on_sends (f : sending -> sending) (w : world) : world := mkWorld (conn w) (f (sends w)) (broken w).
Definition set_broken (w : world) : world := mkWorld (conn w) (sends w) true.

Definition set_py p c := mkConn p (core_refs c) (native c) (reading c) (held c) (capsule c) (released c).
Definition set_core_refs n c := mkConn (py c) n (native c) (reading c) (held c) (capsule c) (released c).
Definition set_native p c := mkConn (py c) (core_refs c) p (reading c) (held c) (capsule c) (released c).
Definition set_reading b c := mkConn (py c) (core_refs c) (native c) b (held c) (capsule c) (released c).
Definition set_held b c := mkConn (py c) (core_refs c) (native c) (reading c) b (capsule c) (released c).
Definition new_capsule c := mkConn (py c) (core_refs c) (native c) (reading c) (held c) true (released c).
Definition s_websocket_capsule_destructor c :=
  mkConn (py c) (core_refs c) (native c) (reading c) (held c) false (S (released c)).

Definition set_closures x s := mkSending x (buffers s) (ops s) (frames s) (attempts s) (completed s).
Definition set_buffers x s := mkSending (closures s) x (ops s) (frames s) (attempts s) (completed s).
Definition set_ops x s := mkSending (closures s) (buffers s) x (frames s) (attempts s) (completed s).
Definition set_frames x s := mkSending (closures s) (buffers s) (ops s) x (attempts s) (completed s).
Definition next_attempt s := mkSending (closures s) (buffers s) (ops s) (frames s) (S (attempts s)) (completed s).
Definition log_completed x s := mkSending (closures s) (buffers s) (ops s) (frames s) (attempts s) (completed s ++ [x]).

(** ** References *)

Definition break_unless (ok : world -> bool) : M world unit :=
  modify (fun w => if ok w then w else set_broken w).

(** [Py_INCREF] and [Py_DECREF] of the core *)
Definition incref_core : M world unit := modify (on_conn (fun c => set_core_refs (S (core_refs c)) c)).
Definition decref_core : M world unit :=
  do! break_unless (fun w => negb (core_refs (conn w) =? 0)%nat);
  modify (on_conn (fun c => set_core_refs (core_refs c - 1) c)).

(** [PyCapsule_GetPointer]: the WebSocket is the native layer's or Python's. *)
Definition get_websocket : M world unit := break_unless (fun w => capsule (conn w)).

(** The WebSocket object is collected, and its capsule with it, when neither the
    user nor a closure of [send_frame] (which has it as [self]) refers to it. *)
Definition collected (w : world) : world :=
  if capsule (conn w) && negb (held (conn w)) && bool_decide (closures (sends w) = ∅)
  then on_conn s_websocket_capsule_destructor w else w.
Definition collect : M world unit := modify collected.

(** A method of the core, called with a reference; [WebSocket.close] in it uses
    the capsule; an exception that leaves it ends the process. *)
Definition call_method {A} (m : M core A) : M world A := fun w =>
  let '(r, c) := m (py (conn w)) in
  let ok := negb (core_refs (conn w) =? 0)%nat && is_ok r
            && ((closes c =? closes (py (conn w)))%nat || capsule (conn w)) in
  (r, (if ok then id else set_broken) (on_conn (set_py c) w)).

(** ** Sending frames *)

(** The [payload] argument: None, an object with a buffer, a str (None: its
    UTF-8 does not exist, a lone surrogate), or anything else. *)
Inductive payload_arg :=
  | PayloadNone
  | PayloadBuffer (data : list Byte.byte)
  | PayloadStr (utf8 : option (list Byte.byte))
  | PayloadOther.
#[global] Instance payload_arg_eq_dec : EqDecision payload_arg.
Proof. solve_decision. Defined.

(** The format z* of PyArg_ParseTuple *)
Definition parse_payload (p : payload_arg) : result (option (list Byte.byte)) :=
  match p with
  | PayloadNone => Ok None
  | PayloadBuffer data => Ok (Some data)
  | PayloadStr (Some utf8) => Ok (Some utf8)
  | PayloadStr None => Raise (BuiltinError "UnicodeEncodeError")
  | PayloadOther => Raise (TypeError "argument 3 must be read-only bytes-like object or None")
  end.

(** The bytes the caller means. *)
Definition asked_bytes (p : payload_arg) : list Byte.byte :=
  match p with PayloadBuffer data => data | PayloadStr (Some utf8) => utf8 | _ => [] end.

(** [aws_byte_cursor_from_array(payload_buffer.buf, payload_buffer.len)] *)
Definition aws_byte_cursor_from_array (buf : option (list Byte.byte)) : list Byte.byte := default [] buf.

Definition release_buffer (k : nat) : M world unit :=
  do! break_unless (fun w => bool_decide (k ∈ buffers (sends w)));
  modify (on_sends (fun s => set_buffers (buffers s ∖ {[k]}) s)).
Definition decref_closure (k : nat) : M world unit :=
  do! break_unless (fun w => bool_decide (k ∈ closures (sends w)));
  do! modify (on_sends (fun s => set_closures (closures s ∖ {[k]}) s));
  collect.

Definition s_websocket_send_op_destroy (k : nat) : M world unit :=
  let! op := gets (fun w => ops (sends w) !! k) in
  match op with
  | None => modify set_broken
  | Some op =>
      do! (if payload_buffer op is Some _ then release_buffer k else ret tt);
      do! decref_closure k;
      modify (on_sends (fun s => set_ops (delete k (ops s)) s))
  end.

(** [aws_byte_buf_write_to_capacity]: as much of the cursor as fits. *)
Definition aws_byte_buf_write_to_capacity (capacity : nat) (cursor : list Byte.byte)
    : list Byte.byte * list Byte.byte := (take capacity cursor, drop capacity cursor).

(** The native layer wants more of frame [k] in a buffer with [capacity] bytes
    of room. *)
Definition s_websocket_stream_outgoing_payload (k capacity : nat) : M world unit :=
  let! op := gets (fun w => ops (sends w) !! k) in
  match op with
  | None => modify set_broken
  | Some op =>
      let '(out, rest) := aws_byte_buf_write_to_capacity capacity (payload_cursor op) in
      modify (on_sends (fun s =>
        set_frames (alter (fun f => mkSent (f_opcode f) (f_fin f) (f_length f) (f_received f ++ out) (f_payload f)) k (frames s))
          (set_ops (<[k := mkOp (payload_buffer op) rest]> (ops s)) s)))
  end.

(** ** Headers of the handshake response

    A name that is not UTF-8 ends the process (the native layer accepts only
    tokens); a value that is not drops the whole list. *)
Inductive wrangled := Headers (l : list (string * string)) | Dropped | Aborted.
Fixpoint wrangle_headers (done header_array : list (string * string)) : wrangled :=
  match header_array with
  | [] => Headers done
  | (name, value) :: rest =>
      if negb (PyStr.utf8_valid name) then Aborted
      else if negb (PyStr.utf8_valid value) then Dropped
      else wrangle_headers (done ++ [(name, value)]) rest
  end.

Section Handlers.
Context `{NativeErrors}.

(** [err]: of aws_websocket_send_frame. *)
Definition websocket_send_frame (k : nat) (opcode : Opcode) (payload : payload_arg) (fin : bool) (err : Z)
    : M world unit :=
  let! buf := lift (parse_payload payload) in
  do! modify (on_sends (fun s =>
    set_buffers (if buf is Some _ then buffers s ∪ {[k]} else buffers s)
      (set_closures (closures s ∪ {[k]})
        (set_ops (<[k := mkOp buf (aws_byte_cursor_from_array buf)]> (ops s)) s))));
  do! get_websocket;
  if err =? 0 then
    modify (on_sends (fun s =>
      set_frames (<[k := mkSent (enum_value opcode) fin (Z.of_nat (length (default [] buf))) []
                            (asked_bytes payload)]> (frames s)) s))
  else
    do! s_websocket_send_op_destroy k;
    raise (PyErr_AwsLastError err).

(** [WebSocket.send_frame] *)
Definition send_frame (opcode : Z) (payload : payload_arg) (fin : bool) (err : Z) : M world unit :=
  let! k := gets (fun w => attempts (sends w)) in
  do! modify (on_sends next_attempt);
  let! args := lift (Ws.send_frame (fun o p f => Ok (o, p, f)) opcode payload fin) in
  let '(o, p, f) := args in
  websocket_send_frame k o p f err.

(** The user's functions, those given to send number [k] among them, and
    sys.excepthook. *)
Variables (on_connection_setup : callback -> result unit)
  (on_connection_shutdown on_incoming_frame_begin on_incoming_frame_payload
   on_incoming_frame_complete : option (callback -> result unit))
  (on_complete : nat -> option (callback -> result unit))
  (excepthook : py_exn -> result unit).

(** [WebSocket.close], by the user *)
Definition websocket_close : M world unit := get_websocket.
Definition close : M world unit :=
  do! modify (on_conn (fun c => set_py (log_close (py c)) c)); websocket_close.

Definition s_websocket_on_send_frame_complete (k : nat) (error_code : Z) : M world unit :=
  do! break_unless (fun w => bool_decide (k ∈ closures (sends w)));
  do! modify (on_sends (log_completed (k, error_code)));
  do! call_method (send_on_complete excepthook (on_complete k) error_code);
  s_websocket_send_op_destroy k.

(** [user_keeps]: the user's callback stored the WebSocket. *)
Definition s_websocket_on_connection_setup (error_code : Z) (status : option Z)
    (header_array : option (list (string * string))) (body : option (list Byte.byte)) (user_keeps : bool)
    : M world unit :=
  let success := error_code =? 0 in
  do! modify (on_conn (if success then new_capsule else id));
  let! headers := (match wrangle_headers [] <$> header_array with
                   | None | Some Dropped => ret None
                   | Some (Headers l) => ret (Some l)
                   | Some Aborted => do! modify set_broken; ret None
                   end) in
  do! call_method (_on_connection_setup on_connection_setup excepthook error_code 0 status headers body);
  do! modify (on_conn (set_held (success && user_keeps)));
  do! collect;
  if negb success then decref_core else ret tt.

Definition s_websocket_on_connection_shutdown (error_code : Z) : M world unit :=
  do! call_method (_on_connection_shutdown on_connection_shutdown excepthook error_code);
  decref_core.

(** The three frame callbacks, as the native layer calls them for a frame. *)
Definition incoming_frame (f : native_frame) : M world unit :=
  let! b := call_method (fun c =>
    match native_run_frame on_incoming_frame_begin on_incoming_frame_payload on_incoming_frame_complete excepthook f c with
    | Some (b, c') => (Ok b, c')
    | None => (Raise (RuntimeError "the process ended"), c)
    end) in
  modify (on_conn (set_reading b)).

(** ** Connecting and reading *)

(** What the binding makes of the arguments that are objects: each conversion
    may fail; TLS and proxy options may be None. *)
Record objects := mkObjects {
  bootstrap : result unit;
  socket_options : result unit;
  tls_options : option (result unit);
  proxy_options : option (result unit);
  handshake_request : result unit;
}.

(** [struct aws_websocket_client_connection_options] *)
Record client_connection_options := mkOptions {
  host : string;
  port : Z;
  has_tls : bool;
  has_proxy : bool;
  initial_window_size : Z;
  manual_window_management : bool;
}.

(** The formats I (the low 32 bits of any int) and n (a Py_ssize_t). *)
Definition parse_I (z : Z) : Z := z mod 2 ^ 32.
Definition parse_n (ssize_bits z : Z) : result Z :=
  if (- 2 ^ (ssize_bits - 1) <=? z) && (z <? 2 ^ (ssize_bits - 1)) then Ok z
  else Raise (OverflowError "Python int too large to convert to C ssize_t").

Definition check_objects (o : objects) : result unit :=
  let? _ := bootstrap o in
  let? _ := socket_options o in
  let? _ := default (Ok tt) (tls_options o) in
  let? _ := default (Ok tt) (proxy_options o) in
  handshake_request o.

Definition websocket_client_connect (ssize_bits : Z) (host : string) (port : Z) (o : objects)
    (manage_read_window : bool) (initial_read_window err : Z) : M world client_connection_options :=
  let! window := lift (parse_n ssize_bits initial_read_window) in
  do! lift (check_objects o);
  do! incref_core;
  if err =? 0 then
    do! modify (on_conn (set_native Connecting));
    ret (mkOptions host (parse_I port) (bool_decide (is_Some (tls_options o))) (bool_decide (is_Some (proxy_options o)))
           window manage_read_window)
  else do! decref_core; raise (PyErr_AwsLastError err).

Definition connect (ssize_bits : Z) (host : string) (port : option Z) (o : objects) (manage_read_window : bool)
    (initial_read_window : option Z) (err : Z) : M world client_connection_options :=
  let! args := lift (Ws.connect (fun p m w => Ok (p, m, w)) port manage_read_window initial_read_window) in
  let '(p, m, w) := args in
  websocket_client_connect ssize_bits host p o m w err.

(** [increment_read_window] to the size_t the native layer gets. *)
Definition increment_read_window (ssize_bits size : Z) : result Z :=
  if size <? 0 then Raise (ValueError "Increment size cannot be negative") else parse_n ssize_bits size.

(** ** Runs *)

Inductive event :=
  | Connect (ssize_bits : Z) (host : string) (port : option Z) (o : objects) (manage_read_window : bool)
      (initial_read_window : option Z) (err : Z)
  | ConnectionSetup (error_code : Z) (status : option Z) (header_array : option (list (string * string)))
      (body : option (list Byte.byte)) (user_keeps : bool)
  | Incoming (f : native_frame)
  | ConnectionShutdown (error_code : Z)
  | Send (opcode : Z) (payload : payload_arg) (fin : bool) (err : Z)
  | Stream (k capacity : nat)
  | SendDone (k : nat) (error_code : Z)
  | Close
  | Drop.                                  (** the user's last reference to the WebSocket *)

Definition handle (e : event) : M world unit :=
  match e with
  | Connect bits h p o m w err => do! connect bits h p o m w err; ret tt
  | ConnectionSetup err status headers body keeps =>
      do! modify (on_conn (set_native (if err =? 0 then Opened else Failed)));
      s_websocket_on_connection_setup err status headers body keeps
  | Incoming f => incoming_frame f
  | ConnectionShutdown err => do! modify (on_conn (set_native Shut)); s_websocket_on_connection_shutdown err
  | Send op payload fin err => send_frame op payload fin err
  | Stream k capacity => s_websocket_stream_outgoing_payload k capacity
  | SendDone k err => s_websocket_on_send_frame_complete k err
  | Close => close
  | Drop => do! modify (on_conn (set_held false)); collect
  end.
Definition step (w : world) (e : event) : world := (handle e w).2.
Definition run (l : list event) (w : world) : world := fold_left step l w.

(** What the native layer documents, and what a program can do: setup answers
    connect; header names are tokens; frames come while it reads, with opcodes
    of the protocol; shutdown comes after every send is complete; a closed
    WebSocket refuses sends; a frame is complete without error when as many
    bytes as its length were read; and the user calls what they hold. *)
Definition allowed (w : world) (e : event) : bool :=
  let c := conn w in
  match e with
  | Connect _ _ _ _ _ _ _ => bool_decide (native c = Idle)
  | ConnectionSetup _ _ headers _ _ =>
      bool_decide (native c = Connecting) && forallb (fun h => PyStr.utf8_valid h.1) (default [] headers)
  | Incoming f => bool_decide (native c = Opened) && reading c && bool_decide (is_Some (enum_of (E:=Opcode) (n_opcode f)))
  | ConnectionShutdown _ => bool_decide (native c = Opened) && bool_decide (ops (sends w) = ∅)
  | Send _ _ _ err => held c && (bool_decide (native c = Opened) || negb (err =? 0))
  | Stream k _ => bool_decide (is_Some (ops (sends w) !! k))
  | SendDone k err =>
      bool_decide (is_Some (ops (sends w) !! k)) &&
      (negb (err =? 0) ||
       match frames (sends w) !! k with
       | Some f => Z.of_nat (length (f_received f)) =? f_length f
       | None => false
       end)
  | Close => held c
  | Drop => held c
  end.
Fixpoint orderly (w : world) (l : list event) : bool :=
  match l with [] => true | e :: l' => allowed w e && orderly (step w e) l' end.

(** ** The books of a connection *)

(** Phases in which callbacks can come, and in which the user was given a
    WebSocket. *)
Definition live (p : phase) : bool := match p with Connecting | Opened => true | _ => false end.
Definition was_opened (p : phase) : bool := match p with Opened | Shut => true | _ => false end.

Record books (w : world) : Prop := {
  books_ok : broken w = false;
  books_frame : _current_incoming_frame (py (conn w)) = None;
  books_core : core_refs (conn w) = Nat.b2n (live (native (conn w)));
  books_capsule : held (conn w) = true \/ closures (sends w) <> ∅ -> capsule (conn w) = true;
  books_released : (released (conn w) + Nat.b2n (capsule (conn w)))%nat = Nat.b2n (was_opened (native (conn w)));
}.
(** Nothing refers to the WebSocket: it is collected. *)
Definition tidy (w : world) : Prop :=
  capsule (conn w) = true -> held (conn w) = true \/ closures (sends w) <> ∅.

(** A frame: its length is that of its payload; while it is being sent, what the
    native layer has and what is left make up the payload; afterwards it was
    answered, and read whole when there was no error. *)
Definition frame_ok (s : sending) (k : nat) (f : sent_frame) : Prop :=
  f_length f = Z.of_nat (length (f_payload f)) /\
  match ops s !! k with
  | Some op => f_received f ++ payload_cursor op = f_payload f /\ k ∉ (completed s).*1
  | None => f_received f `prefix_of` f_payload f /\
      exists e, (k, e) ∈ completed s /\ (e = 0 -> f_received f = f_payload f)
  end.

Record sends_ok (s : sending) : Prop := {
  sends_closures : closures s = dom (ops s);
  sends_buffers : forall k, k ∈ buffers s <-> exists op, ops s !! k = Some op /\ payload_buffer op <> None;
  sends_frames : map_Forall (frame_ok s) (frames s);
  sends_taken : dom (ops s) ∪ list_to_set (completed s).*1 = dom (frames s);
  sends_numbers : forall k, k ∈ dom (frames s) -> (k < attempts s)%nat;
  sends_once : NoDup (completed s).*1;
}.

(** The user's callbacks other than those of incoming frames. *)
Definition of_connection (k : callback) : bool :=
  match k with FrameBegin _ | FramePayload _ _ | FrameComplete _ _ => false | _ => true end.
Definition connection_calls (w : world) : list callback := List.filter of_connection (calls (py (conn w))).
Definition send_calls (s : sending) : list callback :=
  flat_map (fun '(k, e) => seen (on_complete k) (SendComplete (exn_of e))) (completed s).

(** What the user was told about the connection and the frames sent. *)
Definition history (w : world) : Prop :=
  match native (conn w) with
  | Idle | Connecting => connection_calls w = [] /\ completed (sends w) = []
  | Failed => (exists d, connection_calls w = [Setup d] /\ websocket d = None) /\ completed (sends w) = []
  | Opened => exists d, connection_calls w = Setup d :: send_calls (sends w) /\ websocket d <> None
  | Shut => exists d e, connection_calls w =
      Setup d :: send_calls (sends w) ++ seen on_connection_shutdown (Shutdown e) /\ websocket d <> None
  end.

Record inv (w : world) : Prop := {
  inv_books : books w;
  inv_tidy : tidy w;
  inv_sends : sends_ok (sends w);
  inv_open : ops (sends w) <> ∅ -> native (conn w) = Opened;
  inv_history : history w;
}.

Lemma ws_init_inv : inv init.
Proof.
  split; [by split; simpl; [..|intros [|]|]|done| |done|done].
  split; simpl; [set_solver| |apply map_Forall_empty|set_solver|set_solver|constructor].
  intros k. split; [set_solver|]. intros (op & Hop & _). by rewrite lookup_empty in Hop.
Qed.

(** Collecting makes the books tidy. *)
Lemma collected_books w : books w -> books (collected w) /\ tidy (collected w).
Proof.
  intros [H1 H2 H3 H4 H5]. unfold collected, tidy.
  destruct (capsule (conn w)) eqn:Hc, (held (conn w)) eqn:Hh; simpl; try (split; [split|]; simpl; intuition congruence).
  case_bool_decide as Hcl; (split; [split|]); simpl in *; try done; rewrite ?Hh, ?Hc; intuition (try congruence; lia).
Qed.
Lemma collected_same w : native (conn (collected w)) = native (conn w) /\ py (conn (collected w)) = py (conn w) /\
  sends (collected w) = sends w.
Proof. unfold collected. by destruct (_ && _). Qed.

(** ** Send operations *)

Definition dropped (k : nat) (s : sending) : sending :=
  mkSending (closures s ∖ {[k]}) (buffers s ∖ {[k]}) (delete k (ops s)) (frames s) (attempts s) (completed s).

Definition op_held (k : nat) (op : websocket_send_op) (s : sending) : Prop :=
  ops s !! k = Some op /\ k ∈ closures s /\ (k ∈ buffers s <-> payload_buffer op <> None).

Lemma ws_destroy_run k op w : op_held k op (sends w) ->
  s_websocket_send_op_destroy k w = (Ok tt, collected (on_sends (dropped k) w)).
Proof.
  intros (Hop & Hc & Hb). unfold s_websocket_send_op_destroy, bind at 1, gets. rewrite Hop.
  destruct w as [c [cl bu os fs n co] br]. cbn [sends closures buffers ops] in *.
  destruct (payload_buffer op) as [buf|] eqn:E.
  - unfold release_buffer, decref_closure, break_unless, collect, bind, modify, collected, on_sends.
    cbn [sends closures buffers]. rewrite (bool_decide_eq_true_2 (k ∈ bu)) by (by apply Hb).
    cbn [sends closures buffers set_buffers set_closures conn broken].
    rewrite (bool_decide_eq_true_2 (k ∈ cl)) by done.
    cbn [sends closures buffers set_buffers set_closures conn broken].
    by destruct (_ && _).
  - assert (bu ∖ {[k]} = bu) as Hbu by (assert (k ∉ bu) by (rewrite Hb; auto); set_solver).
    unfold decref_closure, break_unless, collect, bind, modify, ret, collected, on_sends, dropped.
    cbn [sends closures buffers ops set_buffers set_closures conn broken frames attempts completed].
    rewrite (bool_decide_eq_true_2 (k ∈ cl)) by done. rewrite Hbu.
    cbn [sends closures buffers set_buffers set_closures conn broken].
    by destruct (_ && _).
Qed.

Lemma held_op s k op : sends_ok s -> ops s !! k = Some op -> op_held k op s.
Proof.
  intros Hs Hop. split_and!; [done| |].
  - rewrite (sends_closures _ Hs). by apply elem_of_dom_2 in Hop.
  - rewrite (sends_buffers _ Hs). split; [|eauto]. intros (op' & Hop' & Hb). congruence.
Qed.

Lemma sends_fresh s k : sends_ok s -> (attempts s <= k)%nat ->
  ops s !! k = None /\ k ∉ closures s /\ k ∉ buffers s /\ frames s !! k = None /\ k ∉ (completed s).*1.
Proof.
  intros Hs Hk. assert (k ∉ dom (frames s)) as Hf by (intros ?%(sends_numbers _ Hs); lia).
  pose proof Hf as Hf'. rewrite <- (sends_taken _ Hs) in Hf.
  assert (k ∉ dom (ops s)) as Ho by set_solver.
  split_and!; [by apply not_elem_of_dom| | |by apply not_elem_of_dom|set_solver].
  - by rewrite (sends_closures _ Hs).
  - rewrite (sends_buffers _ Hs). intros (op & Hop & _). by apply elem_of_dom_2 in Hop.
Qed.

Lemma sends_next s : sends_ok s -> sends_ok (next_attempt s).
Proof. intros [? ? ? ? Hn ?]. split; try done. intros k Hk%Hn. simpl. lia. Qed.

(** A new operation, allocated before the native layer is asked. *)
Definition allocated (k : nat) (buf : option (list Byte.byte)) (s : sending) : sending :=
  mkSending (closures s ∪ {[k]}) (if buf is Some _ then buffers s ∪ {[k]} else buffers s)
    (<[k := mkOp buf (default [] buf)]> (ops s)) (frames s) (attempts s) (completed s).

Lemma allocated_held k buf s : k ∉ buffers s ->
  op_held k (mkOp buf (default [] buf)) (allocated k buf s).
Proof.
  intros Hb. split_and!; simpl; [by rewrite lookup_insert_eq|set_solver|].
  destruct buf; [split; [done|set_solver]|]. split; [done|by intros []].
Qed.

Lemma allocated_dropped k buf s : ops s !! k = None -> k ∉ closures s -> k ∉ buffers s ->
  dropped k (allocated k buf s) = s.
Proof.
  intros Ho Hc Hb. destruct s as [cl bu os fs n co]. unfold dropped, allocated. simpl in *.
  rewrite delete_insert_id by done. destruct buf; f_equal; set_solver.
Qed.

Lemma sends_take k buf fr s : sends_ok s -> (k < attempts s)%nat ->
  ops s !! k = None -> k ∉ buffers s -> frames s !! k = None -> k ∉ (completed s).*1 ->
  f_received fr = [] -> f_payload fr = default [] buf -> f_length fr = Z.of_nat (length (default [] buf)) ->
  sends_ok (set_frames (<[k := fr]> (frames s)) (allocated k buf s)).
Proof.
  intros Hs Hn Ho Hb Hf Hco H1 H2 H3. destruct Hs as [Sc Sb Sf St Sn So]. split; simpl.
  - rewrite dom_insert_L, Sc. set_solver.
  - intros j. destruct (decide (j = k)) as [->|Hne].
    + rewrite lookup_insert_eq. destruct buf as [buf|]; split; intros Hj.
      * by eexists.
      * set_solver.
      * done.
      * destruct Hj as (op & [= <-] & []). done.
    + rewrite lookup_insert_ne by done. rewrite <- Sb. destruct buf; set_solver.
  - apply map_Forall_insert; [done|]. split.
    + split; [by rewrite H3, H2|]. cbn. rewrite lookup_insert_eq. by rewrite H1, H2.
    + intros j f Hj. destruct (decide (j = k)) as [->|Hne]; [congruence|].
      specialize (Sf j f Hj). unfold frame_ok in *. simpl. by rewrite lookup_insert_ne.
  - rewrite !dom_insert_L. set_solver.
  - intros j. rewrite dom_insert_L. intros [->%elem_of_singleton|Hj]%elem_of_union; [done|by apply Sn].
  - done.
Qed.

(** The native layer reads a piece. *)
Lemma sends_stream k capacity op s : sends_ok s -> ops s !! k = Some op ->
  sends_ok (set_frames (alter (fun f => mkSent (f_opcode f) (f_fin f) (f_length f)
                                  (f_received f ++ take capacity (payload_cursor op)) (f_payload f)) k (frames s))
    (set_ops (<[k := mkOp (payload_buffer op) (drop capacity (payload_cursor op))]> (ops s)) s)).
Proof.
  intros [Sc Sb Sf St Sn So] Hop.
  assert (dom (<[k := mkOp (payload_buffer op) (drop capacity (payload_cursor op))]> (ops s)) = dom (ops s)) as Hd.
  { rewrite dom_insert_L. apply elem_of_dom_2 in Hop. set_solver. }
  split; simpl.
  - by rewrite Hd.
  - intros j. rewrite Sb. destruct (decide (j = k)) as [->|Hne].
    + rewrite lookup_insert_eq, Hop. split; intros (o & [= <-] & Ho); eauto.
    + by rewrite lookup_insert_ne.
  - intros j f Hj. unfold frame_ok. simpl. destruct (decide (j = k)) as [->|Hne].
    + rewrite lookup_alter_eq in Hj. destruct (frames s !! k) as [f0|] eqn:Hf; [|done]. injection Hj as <-.
      destruct (Sf k f0 Hf) as [Hl Hr]. rewrite Hop in Hr. rewrite lookup_insert_eq. simpl.
      rewrite <- app_assoc, take_drop. done.
    + rewrite lookup_alter_ne in Hj by done. specialize (Sf j f Hj). unfold frame_ok in Sf.
      by rewrite lookup_insert_ne.
  - by rewrite Hd, dom_alter_L.
  - intros j. rewrite dom_alter_L. apply Sn.
  - done.
Qed.

(** The frame is answered. *)
Lemma sends_finish k e op s : sends_ok s -> ops s !! k = Some op ->
  (e = 0 -> forall f, frames s !! k = Some f -> Z.of_nat (length (f_received f)) = f_length f) ->
  sends_ok (dropped k (log_completed (k, e) s)).
Proof.
  intros [Sc Sb Sf St Sn So] Hop He.
  assert (k ∈ dom (frames s)) as Hk by (rewrite <- St; apply elem_of_dom_2 in Hop; set_solver).
  assert (k ∉ (completed s).*1) as Hn.
  { apply elem_of_dom in Hk as [f Hf]. destruct (Sf k f Hf) as [_ Hr]. rewrite Hop in Hr. apply Hr. }
  split; simpl.
  - by rewrite dom_delete_L, Sc.
  - intros j. destruct (decide (j = k)) as [->|Hne].
    + rewrite lookup_delete_eq. split; [set_solver|by intros (? & ? & _)].
    + rewrite lookup_delete_ne by done. rewrite <- Sb. set_solver.
  - intros j f Hj. unfold frame_ok. simpl. destruct (decide (j = k)) as [->|Hne].
    + rewrite lookup_delete_eq. destruct (Sf k f Hj) as [Hl Hr]. rewrite Hop in Hr. destruct Hr as [Hr _].
      split_and!; [done|by eexists|]. exists e. split; [set_solver|]. intros He0. specialize (He He0 f Hj).
      rewrite Hl in He. rewrite <- Hr in He |- *. rewrite length_app in He.
      destruct (payload_cursor op); [by rewrite app_nil_r|simpl in He; lia].
    + specialize (Sf j f Hj). unfold frame_ok in Sf. rewrite lookup_delete_ne by done.
      rewrite fmap_app. destruct (ops s !! j); set_solver.
  - rewrite dom_delete_L, fmap_app, list_to_set_app_L. simpl. rewrite <- St.
    apply elem_of_dom_2 in Hop. apply set_eq. intros x. destruct (decide (x = k)); set_solver.
  - done.
  - rewrite fmap_app. simpl. apply NoDup_app. split_and!; [done| |apply NoDup_singleton].
    intros x Hx. set_solver.
Qed.

(** ** Every event keeps the books *)

Lemma call_method_run {A} (m : M core A) r c w : m (py (conn w)) = (Ok r, c) -> core_refs (conn w) <> 0%nat ->
  closes c = closes (py (conn w)) \/ capsule (conn w) = true ->
  call_method m w = (Ok r, on_conn (set_py c) w).
Proof.
  intros Hm Hr Hc. unfold call_method. rewrite Hm. simpl. f_equal.
  rewrite (proj2 (Nat.eqb_neq _ _) Hr). destruct Hc as [->| ->]; [by rewrite Nat.eqb_refl|by rewrite orb_true_r].
Qed.

Lemma get_websocket_run w : capsule (conn w) = true -> get_websocket w = (Ok tt, w).
Proof. intros Hc. unfold get_websocket, break_unless, modify. by rewrite Hc. Qed.

Lemma live_core w : books w -> live (native (conn w)) = true -> core_refs (conn w) <> 0%nat.
Proof. intros Hb Hl. by rewrite (books_core _ Hb), Hl. Qed.

Lemma held_not_collected w : held (conn w) = true -> collected w = w.
Proof. intros Hh. unfold collected. by rewrite Hh, andb_false_r. Qed.

Lemma no_capsule_collected w : capsule (conn w) = false -> collected w = w.
Proof. intros Hc. unfold collected. by rewrite Hc. Qed.

(** Changing the sends while the user has the WebSocket. *)
Lemma inv_sends_held w s' : inv w -> held (conn w) = true -> sends_ok s' -> completed s' = completed (sends w) ->
  (ops s' = ops (sends w) \/ native (conn w) = Opened) -> inv (on_sends (fun _ => s') w).
Proof.
  intros [[B1 B2 B3 B4 B5] T S O Hy] Hh Hs Hc Ho. split; simpl.
  - split; simpl; auto.
  - unfold tidy. simpl. auto.
  - done.
  - destruct Ho as [->|Ho]; auto.
  - unfold history, connection_calls, send_calls in *. simpl. by rewrite Hc.
Qed.

(** What a call of [send_frame] comes to: one more call, and a frame if the
    arguments are right and the native layer takes it. *)
Definition new_frame (o : Opcode) (payload : payload_arg) (buf : option (list Byte.byte)) (fin : bool) : sent_frame :=
  mkSent (enum_value o) fin (Z.of_nat (length (default [] buf))) [] (asked_bytes payload).
Definition sent_with (o : Opcode) (payload : payload_arg) (buf : option (list Byte.byte)) (fin : bool) (s : sending)
    : sending :=
  let k := attempts s in
  set_frames (<[k := new_frame o payload buf fin]> (frames s)) (allocated k buf (next_attempt s)).

Lemma send_result op payload fin err w : inv w -> held (conn w) = true ->
  step w (Send op payload fin err) =
    match enum_of (E:=Opcode) op, parse_payload payload with
    | Some o, Ok buf => on_sends (if err =? 0 then sent_with o payload buf fin else next_attempt) w
    | _, _ => on_sends next_attempt w
    end.
Proof.
  intros Hi Hh. unfold step, handle, send_frame. unfold bind at 1, gets. unfold bind at 1, modify.
  set (w1 := on_sends next_attempt w). unfold bind at 1, lift at 1. unfold Ws.send_frame, enum_call.
  destruct (enum_of op) as [o|]; [|done]. simpl. unfold websocket_send_frame, bind at 1, lift.
  destruct (parse_payload payload) as [buf|] eqn:Hp; [|done].
  destruct (sends_fresh (sends w) (attempts (sends w)) (inv_sends _ Hi)) as (F1 & F2 & F3 & _); [done|].
  unfold bind at 1, modify at 1.
  change (on_sends _ w1) with (on_sends (allocated (attempts (sends w)) buf) w1).
  unfold bind at 1. rewrite get_websocket_run by (apply (books_capsule _ (inv_books _ Hi)); by left).
  destruct (err =? 0); [done|].
  unfold bind. rewrite (ws_destroy_run (attempts (sends w)) (mkOp buf (default [] buf))) by by apply allocated_held.
  simpl. rewrite held_not_collected by done. unfold w1, on_sends. simpl. f_equal. by rewrite allocated_dropped.
Qed.

Lemma inv_send op payload fin err w : inv w -> allowed w (Send op payload fin err) = true ->
  inv (step w (Send op payload fin err)).
Proof.
  intros Hi [Hh Ha]%andb_true_iff. cbn in Hh, Ha. rewrite send_result by done.
  assert (inv (on_sends next_attempt w)) as Hn by (apply (inv_sends_held w); auto using sends_next, inv_sends).
  destruct (enum_of op) as [o|]; [|done]. destruct (parse_payload payload) as [buf|] eqn:Hp; [|done].
  destruct (err =? 0); [|done].
  destruct (sends_fresh (sends w) (attempts (sends w)) (inv_sends _ Hi)) as (F1 & F2 & F3 & F4 & F5); [done|].
  change (inv (on_sends (fun _ => sent_with o payload buf fin (sends w)) w)).
  apply inv_sends_held; [done..| |done|].
  - apply (sends_take (attempts (sends w)) buf (new_frame o payload buf fin) (next_attempt (sends w))); simpl;
      auto using sends_next, inv_sends. by destruct payload as [| |[]|]; simplify_eq/=.
  - right. by destruct (bool_decide_reflect (native (conn w) = Opened)).
Qed.

Lemma inv_stream k capacity w : inv w -> allowed w (Stream k capacity) = true -> inv (step w (Stream k capacity)).
Proof.
  intros [[B1 B2 B3 B4 B5] T S O Hy] [op Hop]%bool_decide_eq_true.
  unfold step, handle, s_websocket_stream_outgoing_payload, bind, gets, modify. rewrite Hop. simpl.
  split; simpl; [by split|done|by apply sends_stream| |done].
  intros _. apply O. intros E. by rewrite E, lookup_empty in Hop.
Qed.

Lemma inv_collected w : books w -> sends_ok (sends w) -> (ops (sends w) <> ∅ -> native (conn w) = Opened) ->
  history w -> inv (collected w).
Proof.
  intros Hb Hs Ho Hy. destruct (collected_books w Hb) as [Hb' Ht]. destruct (collected_same w) as (E1 & E2 & E3).
  split; [done|done|by rewrite E3|by rewrite E1, E3|].
  unfold history, connection_calls, send_calls in *. by rewrite E1, E2, E3.
Qed.

Lemma connection_calls_app w c l : calls c = calls (py (conn w)) ++ l ->
  List.filter of_connection (calls c) = connection_calls w ++ List.filter of_connection l.
Proof. intros ->. unfold connection_calls. by rewrite List.filter_app. Qed.
Lemma filter_no_calls l : Forall (fun k => of_connection k = false) l -> List.filter of_connection l = [].
Proof. induction 1 as [|k l Hk _ IH]; [done|]. cbn [List.filter]. by rewrite Hk. Qed.
Lemma filter_seen cb k : of_connection k = true -> List.filter of_connection (seen cb k) = seen cb k.
Proof. intros Hk. destruct cb; simpl; [by rewrite Hk|done]. Qed.
Lemma send_calls_app s k e :
  send_calls (log_completed (k, e) s) = send_calls s ++ seen (on_complete k) (SendComplete (exn_of e)).
Proof. unfold send_calls. simpl. rewrite flat_map_app. simpl. by rewrite app_nil_r. Qed.

Section Safe.
Hypothesis excepthook_returns : forall e, excepthook e = Ok tt.

Lemma inv_send_done k e w : inv w -> allowed w (SendDone k e) = true -> inv (step w (SendDone k e)).
Proof.
  intros Hi [[op Hop]%bool_decide_eq_true Ha]%andb_true_iff.
  pose proof Hi as [[B1 B2 B3 B4 B5] T S O Hy].
  destruct (held_op _ _ _ S Hop) as (_ & Hc & _).
  assert (native (conn w) = Opened) as Hn by (apply O; intros E; by rewrite E, lookup_empty in Hop).
  assert (closures (sends w) <> ∅) as Hcl by (intros E; rewrite E in Hc; by apply elem_of_empty in Hc).
  unfold step, handle, s_websocket_on_send_frame_complete, bind, break_unless, modify.
  rewrite bool_decide_eq_true_2 by done.
  destruct (send_complete_run excepthook excepthook_returns (on_complete k) e (py (conn w)))
    as (c & Hr & Hcalls & Hf & _).
  rewrite (call_method_run _ tt c);
    [|exact Hr|by apply (live_core w); [|rewrite Hn]|right; apply B4; by right].
  rewrite (ws_destroy_run k op) by exact (held_op _ _ _ S Hop).
  simpl. apply inv_collected; simpl.
  - split; simpl; [done|congruence|done| |done]. intros [|Hne]; apply B4; [by left|by right].
  - eapply (sends_finish k e op); [done..|]. intros -> f Hf'. rewrite Hf' in Ha. by apply Z.eqb_eq.
  - done.
  - unfold history in *. simpl in *. rewrite Hn in Hy |- *. destruct Hy as (d & Hd & Hw).
    exists d. split; [|done]. unfold connection_calls at 1. simpl.
    rewrite (connection_calls_app w c _ Hcalls), Hd, filter_seen by done.
    change (send_calls (dropped k (log_completed (k, e) (sends w)))) with (send_calls (log_completed (k, e) (sends w))).
    by rewrite send_calls_app.
Qed.

Lemma inv_incoming f w : inv w -> allowed w (Incoming f) = true -> inv (step w (Incoming f)).
Proof.
  intros Hi [[Hn%bool_decide_eq_true _]%andb_true_iff [o Ho]%bool_decide_eq_true]%andb_true_iff.
  apply enum_of_spec in Ho.
  pose proof Hi as [[B1 B2 B3 B4 B5] T S O Hy].
  destruct (frame_run on_incoming_frame_begin on_incoming_frame_payload on_incoming_frame_complete excepthook
    excepthook_returns o f (py (conn w))) as (c & Hr & Hcalls & Hf & Hcl); [done|].
  unfold step, handle, incoming_frame, bind.
  rewrite (call_method_run _ (expected_frame on_incoming_frame_begin on_incoming_frame_payload
    on_incoming_frame_complete o f).2 c); [|by rewrite Hr|by apply (live_core w); [|rewrite Hn]|by left].
  unfold modify. simpl. split; simpl; [by split|done|done|done|].
  unfold history in *. simpl in *. rewrite Hn in Hy |- *. destruct Hy as (d & Hd & Hw). exists d.
  split; [|done]. unfold connection_calls at 1. simpl. rewrite (connection_calls_app w c _ Hcalls), Hd.
  rewrite filter_no_calls; [by rewrite app_nil_r|]. by apply expected_frame_frame.
Qed.

Lemma wrangle_tokens headers (w : world) :
  forallb (fun h => PyStr.utf8_valid h.1) (default [] headers) = true ->
  exists r, (match wrangle_headers [] <$> headers with
     | None | Some Dropped => ret None
     | Some (Headers l) => ret (Some l)
     | Some Aborted => do! modify set_broken; ret None
     end : M world (option (list (string * string)))) w = (Ok r, w).
Proof.
  destruct headers as [l|]; simpl; [|by eexists]. intros Hl.
  assert (wrangle_headers [] l <> Aborted) as Ha.
  { generalize (@nil (string * string)). induction l as [|[n v] l IH]; intros acc; simpl in *; [done|].
    apply andb_true_iff in Hl as [Hn Hl]. rewrite Hn. simpl. destruct (PyStr.utf8_valid v); simpl; auto. }
  destruct (wrangle_headers [] l); [by eexists|by eexists|done].
Qed.

(** The books just before the callback of a successful, or a failed, setup, and
    after it. *)
Lemma ws_inv_setup e status headers body keeps w : inv w ->
  allowed w (ConnectionSetup e status headers body keeps) = true ->
  inv (step w (ConnectionSetup e status headers body keeps)).
Proof.
  intros [[B1 B2 B3 B4 B5] T S O Hy] [Hn%bool_decide_eq_true Hh]%andb_true_iff.
  unfold history in Hy. rewrite Hn in Hy, B3, B5. destruct Hy as [Hy Hco].
  assert (capsule (conn w) = false) as Hcap by (simpl in B5; destruct (capsule (conn w)); [simpl in B5; lia|done]).
  assert (ops (sends w) = ∅) as Hops.
  { destruct (decide (ops (sends w) = ∅)) as [|Hne]; [done|]. by rewrite (O Hne) in Hn. }
  assert (closures (sends w) = ∅) as Hcl by (rewrite (sends_closures _ S), Hops; set_solver).
  unfold step, handle, bind at 1, modify at 1. unfold s_websocket_on_connection_setup.
  set (w1 := on_conn (set_native (if e =? 0 then Opened else Failed)) w).
  unfold bind at 1, modify at 1.
  set (w2 := on_conn (if e =? 0 then new_capsule else id) w1).
  unfold bind at 1. destruct (wrangle_tokens headers w2 Hh) as [hs ->].
  destruct (ws_setup_run on_connection_setup excepthook excepthook_returns e 0 status hs body (py (conn w)))
    as (c & d & Hr & Hcalls & Hf & H0 & H1).
  assert (py (conn w2) = py (conn w)) as E2 by (unfold w2; by destruct (e =? 0)).
  assert (core_refs (conn w2) = 1%nat) as E3 by (unfold w2; by destruct (e =? 0)).
  unfold bind at 1. rewrite (call_method_run _ tt c); [|by rewrite E2|by rewrite E3|].
  2: { rewrite E2. destruct (Z.eqb_spec e 0) as [Hz|Hz]; [by right; unfold w2|]. left. by apply H1. }
  unfold bind, modify at 1, collect, modify at 1.
  destruct (Z.eqb_spec e 0) as [Hz|Hz]; simpl.
  - apply inv_collected; simpl.
    + split; simpl; try done; try congruence. rewrite Hcap in B5. simpl in B5. lia.
    + done.
    + done.
    + unfold history, connection_calls. simpl. exists d. rewrite (connection_calls_app w c _ Hcalls), Hy.
      unfold send_calls. rewrite Hco. destruct (H0 Hz) as (Hw & _). split; [done|congruence].
  - rewrite no_capsule_collected by done.
    unfold decref_core, break_unless, bind, modify. simpl. rewrite B3. simpl.
    split; simpl; try done.
    + split; simpl; try done; try congruence; [by rewrite B3|].
      intros [|Hne]; [done|by rewrite Hcl in Hne].
    + unfold tidy. simpl. by rewrite Hcap.
    + unfold history, connection_calls. simpl. rewrite (connection_calls_app w c _ Hcalls), Hy.
      split; [|done]. exists d. destruct (H1 Hz) as (Hw & _). done.
Qed.

Lemma ws_inv_shutdown e w : inv w -> allowed w (ConnectionShutdown e) = true -> inv (step w (ConnectionShutdown e)).
Proof.
  intros [[B1 B2 B3 B4 B5] T S O Hy] [Hn%bool_decide_eq_true Hops%bool_decide_eq_true]%andb_true_iff.
  destruct (shutdown_run on_connection_shutdown excepthook excepthook_returns e (py (conn w)))
    as (c & Hr & Hcalls & Hf & Hcl).
  unfold history in Hy. rewrite Hn in Hy, B3, B5. destruct Hy as (d & Hd & Hw).
  unfold step, handle, s_websocket_on_connection_shutdown, bind at 1, modify at 1. unfold bind at 1.
  rewrite (call_method_run _ tt c); [|done|simpl; by rewrite B3|by left].
  unfold decref_core, break_unless, bind, modify. simpl. rewrite B3. simpl.
  split; simpl; try done.
  - split; simpl; try done; [congruence|by rewrite B3].
  - unfold history, connection_calls. simpl. rewrite (connection_calls_app w c _ Hcalls), Hd.
    exists d, (exn_of e). split; [|done]. destruct on_connection_shutdown; simpl; by rewrite ?app_nil_r.
Qed.

Lemma ws_inv_connect bits h p o m win err w : inv w -> allowed w (Connect bits h p o m win err) = true ->
  inv (step w (Connect bits h p o m win err)).
Proof.
  intros Hi Hn%bool_decide_eq_true. pose proof Hi as [[B1 B2 B3 B4 B5] T S O Hy].
  unfold step, handle, connect, websocket_client_connect.
  rewrite Hn in B3, B5. unfold history in Hy. rewrite Hn in Hy.
  unfold bind at 1. unfold bind at 1, lift at 1.
  destruct (Ws.connect _ _ _ _) as [[[p' m'] w']|]; [|done]. unfold bind at 1, lift at 1.
  destruct (parse_n bits w') as [window|]; [|done]. unfold bind at 1, lift at 1.
  destruct (check_objects o); [|done]. unfold incref_core, bind, modify.
  destruct (err =? 0); simpl.
  - split; simpl; try done.
    + split; simpl; try done. by rewrite B3.
    + intros Hne. specialize (O Hne). congruence.
  - unfold decref_core, break_unless, bind, modify. simpl.
    split; simpl; try done. split; simpl; try done; [by rewrite B3, Hn|by rewrite Hn].
    unfold history, connection_calls in *. simpl. by rewrite Hn.
Qed.

Lemma inv_close w : inv w -> allowed w Close = true -> inv (step w Close).
Proof.
  cbn. intros [[B1 B2 B3 B4 B5] T S O Hy] Hh. rewrite B4 by by left. by split; [split|..].
Qed.

Lemma inv_drop w : inv w -> allowed w Drop = true -> inv (step w Drop).
Proof.
  cbn. intros [[B1 B2 B3 B4 B5] T S O Hy] Hh. unfold step, handle, bind, modify, collect.
  apply inv_collected; try done. split; simpl; try done. intros [|Hne]; [done|]. apply B4. by left.
Qed.

Lemma ws_inv_step e w : inv w -> allowed w e = true -> inv (step w e).
Proof.
  destruct e; auto using ws_inv_connect, ws_inv_setup, inv_incoming, ws_inv_shutdown, inv_send, inv_stream,
    inv_send_done, inv_close, inv_drop.
Qed.
Lemma ws_inv_run l w : inv w -> orderly w l = true -> inv (run l w).
Proof.
  revert w. induction l as [|e l IH]; intros w Hi Ho; simpl in *; [done|].
  apply andb_true_iff in Ho as [Ha Ho]. apply IH; [by apply ws_inv_step|done].
Qed.

(** *** A frame the native layer took stays what it is *)

Definition header (f : sent_frame) := (f_opcode f, f_fin f, f_length f, f_payload f).
Definition all_frames (w : world) : gmap nat sent_frame := frames (sends w).

Lemma keeps_on_conn g : preserves all_frames (modify (on_conn g)).
Proof. done. Qed.
Lemma keeps_break ok : preserves all_frames (break_unless ok).
Proof. intros w. unfold break_unless, modify. simpl. by destruct (ok w). Qed.
Lemma keeps_collect : preserves all_frames collect.
Proof. intros w. unfold all_frames. simpl. by destruct (collected_same w) as (_ & _ & ->). Qed.
Lemma keeps_call_method {A} (m : M core A) : preserves all_frames (call_method m).
Proof. intros w. unfold call_method. destruct (m _). simpl. by destruct (_ && _). Qed.
Lemma keeps_on_sends g : (forall s, frames (g s) = frames s) -> preserves all_frames (modify (on_sends g)).
Proof. intros Hg w. apply Hg. Qed.
#[local] Hint Resolve keeps_on_conn keeps_break keeps_collect keeps_call_method keeps_on_sends : py.

Lemma keeps_destroy k : preserves all_frames (s_websocket_send_op_destroy k).
Proof.
  apply preserves_bind; [apply preserves_gets|]. intros [op|]; [|done].
  unfold release_buffer, decref_closure.
  destruct (payload_buffer op); eauto 10 with py.
Qed.
#[local] Hint Resolve keeps_destroy : py.

Lemma step_keeps e w : match e with Send _ _ _ _ | Stream _ _ => False | _ => True end ->
  all_frames (step w e) = all_frames w.
Proof.
  assert (forall m : M world unit, preserves all_frames m -> all_frames (m w).2 = all_frames w) as Hp by auto.
  intros He. unfold step. apply Hp. destruct e; try done; simpl.
  - unfold connect, websocket_client_connect, incref_core, decref_core.
    repeat (apply preserves_bind; [|intros ?]); eauto 10 with py.
    destruct a as [[? ?] ?]. repeat (apply preserves_bind; [|intros ?]); eauto 10 with py.
    destruct (_ =? 0); eauto 10 with py.
  - unfold s_websocket_on_connection_setup, decref_core. cbv zeta.
    repeat (apply preserves_bind; [|intros ?]); eauto 10 with py.
    + destruct (wrangle_headers [] <$> header_array) as [[]|]; eauto 10 with py.
      apply preserves_bind; [by intros ?|eauto with py].
    + destruct (negb _); eauto 10 with py.
  - unfold incoming_frame. eauto 10 with py.
  - unfold s_websocket_on_connection_shutdown, decref_core. eauto 10 with py.
  - unfold s_websocket_on_send_frame_complete. eauto 10 with py.
  - unfold close, websocket_close, get_websocket. eauto 10 with py.
  - eauto 10 with py.
Qed.

Lemma step_headers e w k f : inv w -> allowed w e = true -> frames (sends w) !! k = Some f ->
  exists f', frames (sends (step w e)) !! k = Some f' /\ header f' = header f.
Proof.
  intros Hi Ha Hf.
  destruct e as [| | | |op payload fin err|j capacity| | |];
    try (change (frames (sends ?w)) with (all_frames w); rewrite step_keeps by done; by exists f).
  - apply andb_true_iff in Ha as [Hh _]. rewrite send_result by done.
    assert (k <> attempts (sends w)) as Hk.
    { apply elem_of_dom_2 in Hf. apply (sends_numbers _ (inv_sends _ Hi)) in Hf. lia. }
    destruct (enum_of op) as [o|]; [|by exists f]. destruct (parse_payload payload); [|by exists f].
    destruct (err =? 0); [|by exists f]. exists f. split; [|done]. simpl. by rewrite lookup_insert_ne.
  - apply bool_decide_eq_true in Ha as [op Hop].
    unfold step, handle, s_websocket_stream_outgoing_payload, bind, gets, modify. rewrite Hop. simpl.
    destruct (decide (k = j)) as [->|Hne].
    + rewrite lookup_alter_eq, Hf. by eexists.
    + rewrite lookup_alter_ne by done. by exists f.
Qed.

Lemma run_headers l w k f : inv w -> orderly w l = true -> frames (sends w) !! k = Some f ->
  exists f', frames (sends (run l w)) !! k = Some f' /\ header f' = header f.
Proof.
  revert w f. induction l as [|e l IH]; intros w f Hi Ho Hf; simpl in *; [by exists f|].
  apply andb_true_iff in Ho as [Ha Ho]. destruct (step_headers e w k f Hi Ha Hf) as (f1 & Hf1 & E1).
  destruct (IH _ f1 (ws_inv_step e w Hi Ha) Ho Hf1) as (f2 & Hf2 & E2). exists f2. split; [done|congruence].
Qed.

Lemma orderly_app l1 l2 w : orderly w (l1 ++ l2) = orderly w l1 && orderly (run l1 w) l2.
Proof. revert w. induction l1 as [|e l1 IH]; intros w; simpl; [done|]. by rewrite IH, andb_assoc. Qed.
Lemma run_app l1 l2 w : run (l1 ++ l2) w = run l2 (run l1 w).
Proof. apply fold_left_app. Qed.

(** Enough pieces of any positive size make the payload. *)
Lemma stream_whole n capacity k op w : (0 < capacity)%nat -> ops (sends w) !! k = Some op ->
  (length (payload_cursor op) <= n)%nat ->
  orderly w (replicate n (Stream k capacity)) = true /\
  exists op', ops (sends (run (replicate n (Stream k capacity)) w)) !! k = Some op' /\ payload_cursor op' = [].
Proof.
  intros Hc. revert op w. induction n as [|n IH]; intros op w Hop Hl; simpl.
  - split; [done|]. exists op. split; [done|]. by destruct (payload_cursor op); [|simpl in Hl; lia].
  - rewrite bool_decide_eq_true_2 by (by eexists). simpl. eapply IH.
    + unfold step, handle, s_websocket_stream_outgoing_payload, bind, gets, modify. rewrite Hop. simpl.
      by rewrite lookup_insert_eq.
    + simpl. rewrite length_drop. lia.
Qed.

(** C16: Frames are sent whole and answered once. In any orderly run of calls,
    native callbacks and drops, over any sizes of the native layer's buffers:
    every [send_frame] with an opcode of the protocol and a payload of bytes or
    text, which the native layer takes, becomes a frame with that opcode, that
    FIN bit and a length which is that of the payload; what the native layer has
    read of a frame is the beginning of its payload; a frame is either still
    being sent, and then reading with buffers of any positive size gives the
    whole payload, or its closure was called, once, and if it was called without
    an error then the whole payload was read. No other closure was called. *)
Theorem frames_sent_and_answered (l : list event) (Hl : orderly init l = true) :
  let s := sends (run l init) in
  (forall l1 o payload buf fin l2, l = l1 ++ Send (enum_value o) payload fin 0 :: l2 -> parse_payload payload = Ok buf ->
     exists f, frames s !! attempts (sends (run l1 init)) = Some f /\ f_opcode f = enum_value o /\ f_fin f = fin /\
       f_payload f = asked_bytes payload /\ f_length f = Z.of_nat (length (asked_bytes payload))) /\
  (forall k f, frames s !! k = Some f -> f_received f `prefix_of` f_payload f /\
     match ops s !! k with
     | Some op => k ∉ (completed s).*1 /\ forall capacity, (0 < capacity)%nat ->
         exists n f', orderly (run l init) (replicate n (Stream k capacity)) = true /\
           frames (sends (run (l ++ replicate n (Stream k capacity)) init)) !! k = Some f' /\
           f_received f' = f_payload f
     | None => exists e, (k, e) ∈ completed s /\ (e = 0 -> f_received f = f_payload f)
     end) /\
  NoDup (completed s).*1 /\ (forall k, k ∈ (completed s).*1 -> k ∈ dom (frames s)).
Proof.
  cbv zeta. pose proof (ws_inv_run l init ws_init_inv Hl) as Hi. pose proof (inv_sends _ Hi) as Hs.
  split_and!; [| |apply Hs|].
  - intros l1 o payload buf fin l2 -> Hp. rewrite orderly_app in Hl. apply andb_true_iff in Hl as [Hl1 Hl2].
    cbn [orderly] in Hl2. apply andb_true_iff in Hl2 as [Ha Hl2].
    pose proof (ws_inv_run l1 init ws_init_inv Hl1) as Hi1. rewrite run_app. cbn [run fold_left].
    pose proof Ha as [Hh _]%andb_true_iff.
    destruct (run_headers l2 (step (run l1 init) (Send (enum_value o) payload fin 0))
      (attempts (sends (run l1 init))) (new_frame o payload buf fin)) as (f & Hf & E); [by apply ws_inv_step|done| |].
    { rewrite send_result by done. rewrite enum_of_value, Hp. simpl. by rewrite lookup_insert_eq. }
    exists f. split; [done|]. unfold header in E. simpl in E. injection E as -> -> -> ->. split_and!; try done.
    do 2 f_equal. by destruct payload as [| |[]|]; simplify_eq/=.
  - intros k f Hf. pose proof (sends_frames _ Hs k f Hf) as [_ Hr]. destruct (ops _ !! k) as [op|] eqn:Hop; [|done].
    destruct Hr as [Hr Hn]. split_and!; [by eexists|done|]. intros capacity Hc.
    destruct (stream_whole (length (payload_cursor op)) capacity k op _ Hc Hop) as (Ho & op' & Hop' & Hcur); [done|].
    destruct (run_headers _ _ k f Hi Ho Hf) as (f' & Hf' & E).
    exists (length (payload_cursor op)), f'. rewrite run_app. split_and!; [exact Ho|exact Hf'|].
    pose proof (inv_sends _ (ws_inv_run _ _ Hi Ho)) as Hs'. destruct (sends_frames _ Hs' k f' Hf') as [_ Hr'].
    rewrite Hop', Hcur, app_nil_r in Hr'. unfold header in E. destruct Hr' as [-> _]. congruence.
  - intros k Hk. rewrite <- (sends_taken _ Hs). set_solver.
Qed.

(** C24: Everything the binding holds is given back, once and not too early. In
    any orderly run no reference or buffer is given back twice, no pointer used
    after its release, and no handler raises, which would end the process. The
    core is kept alive exactly while a callback about the connection can come.
    Closures and payload buffers are held for frames being sent only, and these
    keep the WebSocket alive: its native object is released, once, as soon as
    neither the user nor a frame being sent refers to it. The user was told of
    the setup, then of each answered frame, in order, then of the shutdown, and
    got a WebSocket just when the setup succeeded. *)
Theorem websocket_given_back (l : list event) (Hl : orderly init l = true) :
  let w := run l init in
  broken w = false /\
  core_refs (conn w) = Nat.b2n (live (native (conn w))) /\
  closures (sends w) = dom (ops (sends w)) /\ buffers (sends w) ⊆ dom (ops (sends w)) /\
  (ops (sends w) <> ∅ -> native (conn w) = Opened) /\
  (capsule (conn w) = true <-> held (conn w) = true \/ ops (sends w) <> ∅) /\
  (released (conn w) + Nat.b2n (capsule (conn w)))%nat = Nat.b2n (was_opened (native (conn w))) /\
  history w.
Proof.
  cbv zeta. destruct (ws_inv_run l init ws_init_inv Hl) as [[B1 B2 B3 B4 B5] T S O Hy].
  assert (closures (sends (run l init)) <> ∅ <-> ops (sends (run l init)) <> ∅) as Hne.
  { rewrite (sends_closures _ S). by rewrite dom_empty_iff_L. }
  split_and!; try done.
  - apply S.
  - intros k (op & Hop & _)%(sends_buffers _ S). by eapply elem_of_dom_2.
  - split; [intros [|]%T; [by left|right; by apply Hne]|]. intros [|]; apply B4; [by left|right; by apply Hne].
Qed.
End Safe.
End Handlers.

(** ** Arguments of connect *)

(** What the native layer gets of connect's arguments, when all are in range. *)
Lemma connect_exact `{NativeErrors} bits h port o manage win (w : world)
    (Hb : 2 <= bits) (Ho : check_objects o = Ok tt) (Hp : 0 <= default 0 port < 2 ^ 32)
    (Hw : manage = true -> exists n, win = Some n /\ 0 <= n < 2 ^ (bits - 1)) :
  (connect bits h port o manage win 0 w).1 =
    Ok (mkOptions h (default 0 port) (bool_decide (is_Some (tls_options o))) (bool_decide (is_Some (proxy_options o)))
         (if manage then default 0 win else 0) manage).
Proof.
  unfold connect, websocket_client_connect, Ws.connect, parse_n, parse_I, incref_core.
  assert (0 < 2 ^ (bits - 1)) as Hpos by (apply Z.pow_pos_nonneg; lia).
  destruct manage; [destruct (Hw eq_refl) as (n & -> & Hn)|]; simpl.
  - destruct (Z.ltb_spec n 0); [lia|]. munfold. rewrite (proj2 (Z.leb_le _ _)) by lia.
    rewrite (proj2 (Z.ltb_lt _ _)) by lia. simpl. rewrite Ho. simpl. by rewrite Z.mod_small by lia.
  - munfold. rewrite (proj2 (Z.leb_le _ _)) by lia. rewrite (proj2 (Z.ltb_lt _ _)) by lia. simpl. rewrite Ho. simpl.
    by rewrite Z.mod_small by lia.
Qed.

Definition demo_objects : objects := mkObjects (Ok tt) (Ok tt) None None (Ok tt).
(** The format I keeps the low 32 bits of a port that has more. *)
Example port_low_bits `{NativeErrors} (w : world) :
  port <$> (match (connect 64 "h" (Some (2 ^ 32 + 443)) demo_objects false None 0 w).1 with
            | Ok o => Some o | Raise _ => None end) = Some 443.
Proof. reflexivity. Qed.

(** One header value that is not UTF-8 drops all headers of the response. *)
Example one_value_drops_all :
  wrangle_headers [] [("Server", "x"); ("Name", String "233" EmptyString); ("Upgrade", "websocket")] = Dropped.
Proof. reflexivity. Qed.

(** ** A run *)

Definition demo_send : list Byte.byte := [Byte.x61; Byte.x62; Byte.x63; Byte.x64; Byte.x65].
Definition demo_start : list event :=
  [ Connect 64 "h" (Some 443) demo_objects false None 0;
    ConnectionSetup 0 (Some 101) (Some [("Upgrade", "websocket")]) None true ].
(** A frame read with a buffer of three bytes; one that is refused; then the
    user drops the WebSocket while a frame is being sent, which fails. *)
Definition demo_run : list event :=
  demo_start ++ Send 1 (PayloadStr (Some demo_send)) true 0 ::
  [ Stream 0 3; Stream 0 3; SendDone 0 0; Incoming demo_frame; Send 2 PayloadNone true 7;
    Send 2 (PayloadBuffer demo_send) false 0; Drop; Stream 2 1; SendDone 2 5; ConnectionShutdown 0 ].

Abbreviation demo_world l :=
  (run (H:=demo_errors) (fun _ => Ok tt) None None None None (fun _ => None) (fun _ => Ok tt) l init).

Lemma frames_sent_and_answered_witness :
  exists f e, frames (sends (demo_world demo_run)) !! 0%nat = Some f /\ f_length f = 5 /\
    f_received f `prefix_of` demo_send /\ (0%nat, e) ∈ completed (sends (demo_world demo_run)).
Proof.
  destruct (frames_sent_and_answered (H:=demo_errors) (fun _ => Ok tt) None None None None (fun _ => None)
    (fun _ => Ok tt) ltac:(reflexivity) demo_run ltac:(vm_compute; reflexivity)) as (H1 & H2 & _).
  destruct (H1 demo_start Opcode.TEXT (PayloadStr (Some demo_send)) (Some demo_send) true _ eq_refl eq_refl)
    as (f & Hf & _ & _ & Hp & Hlen).
  assert (attempts (sends (demo_world demo_start)) = 0%nat) as E by (vm_compute; reflexivity).
  rewrite E in Hf. specialize (H2 _ _ Hf) as [Hpre H2].
  assert (ops (sends (demo_world demo_run)) !! 0%nat = None) as E' by (vm_compute; reflexivity).
  rewrite E' in H2. destruct H2 as (e & He & _). rewrite Hp in Hpre. exists f, e. split; [exact Hf|].
  split; [exact Hlen|]. split; [exact Hpre|exact He].
Defined.

Lemma websocket_given_back_witness :
  let w := demo_world demo_run in
  broken w = false /\ core_refs (conn w) = 0%nat /\ released (conn w) = 1%nat.
Proof.
  cbv zeta.
  destruct (websocket_given_back (H:=demo_errors) (fun _ => Ok tt) None None None None (fun _ => None)
    (fun _ => Ok tt) ltac:(reflexivity) demo_run ltac:(vm_compute; reflexivity)) as (H1 & H2 & _).
  split; [exact H1|]. split; [rewrite H2; vm_compute; reflexivity|vm_compute; reflexivity].
Defined.
End WsNative.

(** ** The handshake request

    The native layer makes the message, with its header block; Python gets both,
    so that later edits are of what will be sent ([Messages]). *)
Module WsHandshake.
Import Headers HeaderEdits Messages.

Section Create.
Context {EN : NativeErrors} {B : Type} {NH : NativeHeaders B} {NE : NativeHeaderEdits B}.

(** [aws_http_message_new_websocket_handshake_request] for a path and a host: an
    error, or the method, path and headers of the message. *)
Variable native : string -> string -> Z + (string * string * list (string * string)).

Definition websocket_create_handshake_request (host path : string) : M (store B) (nat * nat) :=
  match native path host with
  | inl err => raise (PyErr_AwsLastError err)
  | inr (m, p, pairs) =>
      let! i := gets (fun s => length (blocks s)) in
      let! n := gets (fun s => length (natives s)) in
      do! modify (add_block (add_pairs http_headers_new pairs));
      do! modify (add_message (mkMessage (Some m) (Some p) i None));
      ret (n, i)
  end.

Definition create_handshake_request (host path : string) : M (store B) nat :=
  let! bindings := websocket_create_handshake_request host path in
  let '(http_request_binding, http_headers_binding) := bindings in
  _from_bindings http_request_binding http_headers_binding.

(** The new request shows the message the native layer made, and the objects of
    the program stay wired to what is sent, so that
    [Messages.request_shows_what_is_sent] goes on for it. *)
Lemma handshake_request_shown host path m p pairs s :
  wired s -> native path host = inr (m, p, pairs) ->
  exists i r s', create_handshake_request host path s = (Ok i, s') /\ wired s' /\
    requests s' !! i = Some r /\ method s' r = Some m /\ Messages.path s' r = Some p /\
    headers_of s' r = Some (iter (add_pairs http_headers_new pairs)) /\
    sent s' (_binding r) = Some (Some m, Some p, headers_items (add_pairs http_headers_new pairs), None).
Proof.
  intros Hw Hn. unfold create_handshake_request, websocket_create_handshake_request. rewrite Hn.
  set (n := length (natives s)). set (i := length (blocks s)).
  set (s1 := add_message (mkMessage (Some m) (Some p) i None) (add_block (add_pairs http_headers_new pairs) s)).
  exists (length (requests s)), (mkRequest n i None), (add_request (mkRequest n i None) s1).
  assert (natives s1 !! n = Some (mkMessage (Some m) (Some p) i None)) as Hm
    by (simpl; by rewrite lookup_app_r, Nat.sub_diag).
  assert (blocks s1 !! i = Some (add_pairs http_headers_new pairs)) as Hb
    by (simpl; by rewrite lookup_app_r, Nat.sub_diag).
  split; [reflexivity|]. split.
  - apply wired_add_request; [|by eexists]. apply wired_add_message; [|simpl; rewrite length_app; simpl; lia].
    apply wired_blocks; [done|]. rewrite length_app. lia.
  - unfold method, Messages.path, headers_of, sent. cbn [_binding _headers].
    change (natives (add_request _ s1)) with (natives s1). change (blocks (add_request _ s1)) with (blocks s1).
    rewrite Hm, Hb. simpl. rewrite lookup_app_r, Nat.sub_diag by done.
    change (blocks s ++ [add_pairs http_headers_new pairs]) with (blocks s1). by rewrite Hb.
Qed.
End Create.
End WsHandshake.
