(* ===== verification/EventStream.v ===== *)
(** * awscrt/eventstream: event-stream headers and the RPC client

    - [Header]: typed headers with their range checks, the tuples exchanged
      with the native layer, and the native conversion itself
      (source/event_stream_headers.c) on a platform with 32 or 64 bit [long];
    - [Rpc]: message argument conversion, the futures of connections,
      continuations and message flushes. *)
From S2P Require Import Prelude PyData Future.

Module HeaderType.
Inductive HeaderType :=
  | BOOL_TRUE
  | BOOL_FALSE
  | BYTE
  | INT16
  | INT32
  | INT64
  | BYTE_BUF
  | STRING
  | TIMESTAMP
  | UUID.
Definition HeaderType_value (e : HeaderType) : Z :=
  match e with
  | BOOL_TRUE => 0
  | BOOL_FALSE => 1
  | BYTE => 2
  | INT16 => 3
  | INT32 => 4
  | INT64 => 5
  | BYTE_BUF => 6
  | STRING => 7
  | TIMESTAMP => 8
  | UUID => 9
  end.
#[global] Instance HeaderType_eq_dec : EqDecision HeaderType.
Proof. solve_decision. Defined.
#[global] Instance HeaderType_IntEnum : IntEnum HeaderType.
Proof.
  refine {| enum_value := HeaderType_value; enum_members := [BOOL_TRUE; BOOL_FALSE; BYTE; INT16; INT32; INT64; BYTE_BUF; STRING; TIMESTAMP; UUID] |}.
  - solve_enum_complete.
  - solve_enum_nodup.
Defined.
End HeaderType.
Abbreviation HeaderType := HeaderType.HeaderType.

Module MessageType.
Inductive MessageType :=
  | APPLICATION_MESSAGE
  | APPLICATION_ERROR
  | PING
  | PING_RESPONSE
  | CONNECT
  | CONNECT_ACK
  | PROTOCOL_ERROR
  | INTERNAL_ERROR.
Definition MessageType_value (e : MessageType) : Z :=
  match e with
  | APPLICATION_MESSAGE => 0
  | APPLICATION_ERROR => 1
  | PING => 2
  | PING_RESPONSE => 3
  | CONNECT => 4
  | CONNECT_ACK => 5
  | PROTOCOL_ERROR => 6
  | INTERNAL_ERROR => 7
  end.
#[global] Instance MessageType_eq_dec : EqDecision MessageType.
Proof. solve_decision. Defined.
#[global] Instance MessageType_IntEnum : IntEnum MessageType.
Proof.
  refine {| enum_value := MessageType_value; enum_members := [APPLICATION_MESSAGE; APPLICATION_ERROR; PING; PING_RESPONSE; CONNECT; CONNECT_ACK; PROTOCOL_ERROR; INTERNAL_ERROR] |}.
  - solve_enum_complete.
  - solve_enum_nodup.
Defined.
End MessageType.
Abbreviation MessageType := MessageType.MessageType.

Module Header.

Abbreviation bytes := (list Byte.byte).

Definition _BYTE_MIN : Z := - 2 ^ 7.
Definition _BYTE_MAX : Z := 2 ^ 7 - 1.
Definition _INT16_MIN : Z := - 2 ^ 15.
Definition _INT16_MAX : Z := 2 ^ 15 - 1.
Definition _INT32_MIN : Z := - 2 ^ 31.
Definition _INT32_MAX : Z := 2 ^ 31 - 1.
Definition _INT64_MIN : Z := - 2 ^ 63.
Definition _INT64_MAX : Z := 2 ^ 63 - 1.

(** The Python values headers carry; a UUID by its 16 bytes. *)
Inductive pyval := VBool (b : bool) | VInt (z : Z) | VBytes (b : bytes) | VStr (s : string) | VUuid (b : bytes).
#[global] Instance pyval_eq_dec : EqDecision pyval.
Proof. solve_decision. Defined.

Record Header := mk { _name : string; _value : pyval; _type : HeaderType }.
#[global] Instance Header_eq_dec : EqDecision Header.
Proof. solve_decision. Defined.

Definition from_bool (name : string) (value : bool) : Header :=
  if value then mk name (VBool true) HeaderType.BOOL_TRUE else mk name (VBool false) HeaderType.BOOL_FALSE.

(** [value = int(value); if value < lo or value > hi: raise ValueError] *)
Definition ranged (lo hi : Z) (t : HeaderType) (name : string) (value : Z) : result Header :=
  if (value <? lo) || (value >? hi) then Raise (ValueError "Value does not fit")
  else Ok (mk name (VInt value) t).
Definition from_byte := ranged _BYTE_MIN _BYTE_MAX HeaderType.BYTE.
Definition from_int16 := ranged _INT16_MIN _INT16_MAX HeaderType.INT16.
Definition from_int32 := ranged _INT32_MIN _INT32_MAX HeaderType.INT32.
Definition from_int64 := ranged _INT64_MIN _INT64_MAX HeaderType.INT64.
Definition from_timestamp := ranged _INT64_MIN _INT64_MAX HeaderType.TIMESTAMP.
Definition from_byte_buf (name : string) (value : bytes) : Header := mk name (VBytes value) HeaderType.BYTE_BUF.
Definition from_string (name value : string) : Header := mk name (VStr value) HeaderType.STRING.
Definition from_uuid (name : string) (value : pyval) : result Header :=
  match value with
  | VUuid _ => Ok (mk name value HeaderType.UUID)
  | _ => Raise (TypeError "Value must be UUID")
  end.

(** [UUID(bytes=value)] *)
Definition UUID_of_bytes (value : pyval) : result pyval :=
  match value with
  | VBytes b => if bool_decide (length b = 16%nat) then Ok (VUuid b)
                else Raise (ValueError "bytes is not a 16-char string")
  | _ => Raise (TypeError "bytes expected")
  end.

(** The (name, value, type) tuples of the binding. *)
Definition binding_tuple : Type := string * pyval * Z.

Definition _from_binding_tuple (t : binding_tuple) : result Header :=
  let '(name, value, header_type) := t in
  let? ty := enum_call header_type in
  if bool_decide (ty = HeaderType.UUID)
  then let? value := UUID_of_bytes value in Ok (mk name value ty)
  else Ok (mk name value ty).

Definition _as_binding_tuple (h : Header) : result binding_tuple :=
  if bool_decide (_type h = HeaderType.UUID)
  then match _value h with
       | VUuid b => Ok (_name h, VBytes b, enum_value (_type h))
       | _ => Raise (AttributeError "bytes")
       end
  else Ok (_name h, _value h, enum_value (_type h)).

Definition _value_as (t : HeaderType) (h : Header) : result pyval :=
  if negb (bool_decide (_type h = t)) then Raise (TypeError "Header type") else Ok (_value h).
Definition value_as_bool (h : Header) : result bool :=
  if bool_decide (_type h = HeaderType.BOOL_TRUE) then Ok true
  else if bool_decide (_type h = HeaderType.BOOL_FALSE) then Ok false
  else Raise (TypeError "Header type").
Definition value_as_byte := _value_as HeaderType.BYTE.
Definition value_as_int16 := _value_as HeaderType.INT16.
Definition value_as_int32 := _value_as HeaderType.INT32.
Definition value_as_int64 := _value_as HeaderType.INT64.
Definition value_as_byte_buf := _value_as HeaderType.BYTE_BUF.
Definition value_as_string := _value_as HeaderType.STRING.
Definition value_as_timestamp := _value_as HeaderType.TIMESTAMP.
Definition value_as_uuid := _value_as HeaderType.UUID.

(** Headers the constructors can make. *)
Definition wf (h : Header) : Prop :=
  match _type h, _value h with
  | HeaderType.BOOL_TRUE, VBool b => b = true
  | HeaderType.BOOL_FALSE, VBool b => b = false
  | HeaderType.BYTE, VInt z => _BYTE_MIN <= z <= _BYTE_MAX
  | HeaderType.INT16, VInt z => _INT16_MIN <= z <= _INT16_MAX
  | HeaderType.INT32, VInt z => _INT32_MIN <= z <= _INT32_MAX
  | HeaderType.INT64, VInt z | HeaderType.TIMESTAMP, VInt z => _INT64_MIN <= z <= _INT64_MAX
  | HeaderType.BYTE_BUF, VBytes _ => True
  | HeaderType.STRING, VStr _ => True
  | HeaderType.UUID, VUuid b => length b = 16%nat
  | _, _ => False
  end.

Inductive constructed : Header -> Prop :=
  | c_bool n b : constructed (from_bool n b)
  | c_byte n z h : from_byte n z = Ok h -> constructed h
  | c_int16 n z h : from_int16 n z = Ok h -> constructed h
  | c_int32 n z h : from_int32 n z = Ok h -> constructed h
  | c_int64 n z h : from_int64 n z = Ok h -> constructed h
  | c_timestamp n z h : from_timestamp n z = Ok h -> constructed h
  | c_byte_buf n b : constructed (from_byte_buf n b)
  | c_string n s : constructed (from_string n s)
  | c_uuid n b h : length b = 16%nat -> from_uuid n (VUuid b) = Ok h -> constructed h.

Lemma ranged_Ok lo hi t n z h :
  ranged lo hi t n z = Ok h <-> lo <= z <= hi /\ h = mk n (VInt z) t.
Proof.
  unfold ranged. destruct (Z.ltb_spec z lo), (Z.gtb_spec z hi); simpl; naive_solver lia.
Qed.

Lemma constructed_wf h : constructed h -> wf h.
Proof.
  destruct 1 as [n [] | n z h E | n z h E | n z h E | n z h E | n z h E | | |n b h Hl E]; try done;
    try (by apply ranged_Ok in E as [? ->]).
  injection E as <-. exact Hl.
Qed.

(** ** The native side: source/event_stream_headers.c *)

(** Two's complement truncation to [w] bits. *)
Definition wrap (w z : Z) : Z := (z + 2 ^ (w - 1)) mod 2 ^ w - 2 ^ (w - 1).

#[local] Arguments wrap : simpl never.

Lemma wrap_id w z : 0 < w -> - 2 ^ (w - 1) <= z < 2 ^ (w - 1) -> wrap w z = z.
Proof.
  intros Hw Hz. unfold wrap. assert (2 ^ w = 2 * 2 ^ (w - 1)) as E.
  { replace w with (Z.succ (w - 1)) at 1 by lia. rewrite Z.pow_succ_r by lia. done. }
  rewrite Z.mod_small by lia. lia.
Qed.

Lemma wrap_range w z : 0 < w -> - 2 ^ (w - 1) <= wrap w z < 2 ^ (w - 1).
Proof.
  intros Hw. unfold wrap. assert (2 ^ w = 2 * 2 ^ (w - 1)) as E.
  { replace w with (Z.succ (w - 1)) at 1 by lia. rewrite Z.pow_succ_r by lia. done. }
  pose proof (Z.mod_pos_bound (z + 2 ^ (w - 1)) (2 ^ w)). lia.
Qed.

(** A header in the native list, with its value at the native width. *)
Inductive native_value :=
  | NBool (b : bool) | NByte (z : Z) | NInt16 (z : Z) | NInt32 (z : Z) | NInt64 (z : Z)
  | NBuf (b : bytes) | NStr (s : string) | NTimestamp (z : Z) | NUuid (b : bytes).

Section Native.
(** The width of the C type [long] (32 on Windows, 64 elsewhere), the longest
    header name, and the length of a string in UTF-8. *)
Variables (long_bits name_len_max : Z) (utf8_len : string -> Z).

Definition PyLong_AsLong (v : pyval) : result Z :=
  match v with
  | VInt z => if (- 2 ^ (long_bits - 1) <=? z) && (z <? 2 ^ (long_bits - 1)) then Ok z
              else Raise (OverflowError "Python int too large to convert to C long")
  | _ => Raise (TypeError "an integer is required")
  end.
Definition PyLong_AsLongLong (v : pyval) : result Z :=
  match v with
  | VInt z => if (- 2 ^ 63 <=? z) && (z <? 2 ^ 63) then Ok z
              else Raise (OverflowError "int too big to convert")
  | _ => Raise (TypeError "an integer is required")
  end.

#[local] Arguments PyLong_AsLong : simpl never.
#[local] Arguments PyLong_AsLongLong : simpl never.

(** A [Py_ssize_t] length passed where the native layer takes 16 bits, without a
    check: the value is cut to the length that is left. *)
Definition uint16_buf (b : bytes) : bytes := take (Z.to_nat (Z.of_nat (length b) mod 2 ^ 16)) b.

(** [s_add_native_header]; adding to the native list itself is taken to succeed. *)
Definition s_add_native_header (t : binding_tuple) : result (string * native_value) :=
  let '(name, value, type) := t in
  if utf8_len name >? name_len_max then Raise (ValueError "Header.name exceeds max length") else
  match enum_of (E:=HeaderType) type with
  | None => Raise (ValueError "Header.type has invalid value")
  | Some ty =>
      let? v := (match ty with
        | HeaderType.BOOL_TRUE => Ok (NBool true)
        | HeaderType.BOOL_FALSE => Ok (NBool false)
        | HeaderType.BYTE => let? z := PyLong_AsLong value in Ok (NByte (wrap 8 (wrap 32 z)))
        | HeaderType.INT16 => let? z := PyLong_AsLong value in Ok (NInt16 (wrap 16 (wrap 32 z)))
        | HeaderType.INT32 => let? z := PyLong_AsLong value in Ok (NInt32 (wrap 32 z))
        | HeaderType.INT64 => let? z := PyLong_AsLongLong value in Ok (NInt64 z)
        | HeaderType.BYTE_BUF =>
            match value with VBytes b => Ok (NBuf (uint16_buf b)) | _ => Raise (TypeError "a bytes-like object is required") end
        | HeaderType.STRING =>
            match value with
            | VStr s => if utf8_len s >? 65535 then Raise (ValueError "Header STRING value exceeds max length")
                        else Ok (NStr s)
            | _ => Raise (TypeError "bad argument type")
            end
        | HeaderType.TIMESTAMP => let? z := PyLong_AsLongLong value in Ok (NTimestamp z)
        | HeaderType.UUID =>
            match value with
            | VBytes b => if negb (bool_decide (length b = 16%nat))
                          then Raise (ValueError "UUID.bytes must be length 16") else Ok (NUuid b)
            | _ => Raise (TypeError "a bytes-like object is required")
            end
        end) in
      Ok (name, v)
  end.

(** [s_create_python_header_value] with the type; every integer goes through
    [PyLong_FromLong], which takes a C [long]. *)
Definition create_python_header (h : string * native_value) : binding_tuple :=
  let '(name, v) := h in
  let '(value, ty) := (match v with
    | NBool true => (VBool true, HeaderType.BOOL_TRUE)
    | NBool false => (VBool false, HeaderType.BOOL_FALSE)
    | NByte z => (VInt (wrap long_bits z), HeaderType.BYTE)
    | NInt16 z => (VInt (wrap long_bits z), HeaderType.INT16)
    | NInt32 z => (VInt (wrap long_bits z), HeaderType.INT32)
    | NInt64 z => (VInt (wrap long_bits z), HeaderType.INT64)
    | NBuf b => (VBytes b, HeaderType.BYTE_BUF)
    | NStr s => (VStr s, HeaderType.STRING)
    | NTimestamp z => (VInt (wrap long_bits z), HeaderType.TIMESTAMP)
    | NUuid b => (VBytes b, HeaderType.UUID)
    end) in
  (name, value, enum_value ty).

(** A header sent and received back: Python to native and native to Python. *)
Definition echo (h : Header) : result Header :=
  let? t := _as_binding_tuple h in
  let? n := s_add_native_header t in
  _from_binding_tuple (create_python_header n).

(** The lengths the native layer accepts. *)
Definition fits_lengths (h : Header) : Prop :=
  utf8_len (_name h) <= name_len_max /\
  match _value h with VStr s => utf8_len s <= 65535 | _ => True end.

(** The header with its integer truncated to a C [long], a buffer to 16 bits of
    length. *)
Definition truncated (h : Header) : Header :=
  match _value h with
  | VInt z => mk (_name h) (VInt (wrap long_bits z)) (_type h)
  | VBytes b => mk (_name h) (VBytes (uint16_buf b)) (_type h)
  | _ => h
  end.

Lemma uint16_buf_exact b : uint16_buf b = b <-> Z.of_nat (length b) < 2 ^ 16.
Proof.
  unfold uint16_buf. pose proof (Z.mod_pos_bound (Z.of_nat (length b)) (2 ^ 16) ltac:(lia)). split.
  - intros E. apply (f_equal length) in E. rewrite length_take in E. lia.
  - intros Hl. rewrite Z.mod_small, Nat2Z.id by lia. by apply firstn_all.
Qed.

(** The headers that are sent as they are. *)
Definition sent_whole (h : Header) : Prop :=
  match _value h with
  | VInt z => - 2 ^ (long_bits - 1) <= z < 2 ^ (long_bits - 1)
  | VBytes b => Z.of_nat (length b) <= 65535
  | _ => True
  end.

Lemma in_long z : 32 <= long_bits -> _INT32_MIN <= z <= _INT32_MAX ->
  - 2 ^ (long_bits - 1) <= z < 2 ^ (long_bits - 1).
Proof.
  intros Hb Hz. unfold _INT32_MIN, _INT32_MAX in Hz.
  assert (2 ^ 31 <= 2 ^ (long_bits - 1)) by (apply Z.pow_le_mono_r; lia). lia.
Qed.

Lemma AsLong_ok z : 32 <= long_bits -> _INT32_MIN <= z <= _INT32_MAX -> PyLong_AsLong (VInt z) = Ok z.
Proof.
  intros Hb Hz. pose proof (in_long z Hb Hz). unfold PyLong_AsLong.
  destruct (Z.leb_spec (- 2 ^ (long_bits - 1)) z), (Z.ltb_spec z (2 ^ (long_bits - 1))); simpl; lia || done.
Qed.

Lemma AsLongLong_ok z : _INT64_MIN <= z <= _INT64_MAX -> PyLong_AsLongLong (VInt z) = Ok z.
Proof.
  intros Hz. unfold PyLong_AsLongLong, _INT64_MIN, _INT64_MAX in *.
  destruct (Z.leb_spec (- 2 ^ 63) z), (Z.ltb_spec z (2 ^ 63)); simpl; lia || done.
Qed.

Lemma echo_truncated h :
  32 <= long_bits -> wf h -> fits_lengths h -> echo h = Ok (truncated h).
Proof.
  intros Hb Hwf [Hn Hs]. unfold echo, truncated.
  assert ((utf8_len (_name h) >? name_len_max) = false) as Hname
    by (destruct (Z.gtb_spec (utf8_len (_name h)) name_len_max); lia || done).
  destruct h as [n v t]. unfold wf in Hwf. simpl in *.
  unfold _as_binding_tuple, s_add_native_header. simpl.
  destruct t, v; try done; try subst b; cbn [bool_decide decide _type]; simpl;
    rewrite ?enum_of_value, Hname; simpl;
    rewrite ?AsLong_ok, ?AsLongLong_ok by (done || unfold _BYTE_MIN, _BYTE_MAX, _INT16_MIN,
      _INT16_MAX, _INT32_MIN, _INT32_MAX in *; lia); simpl;
    rewrite ?enum_call_value; simpl; try done.
  - rewrite (wrap_id 32) by (unfold _BYTE_MIN, _BYTE_MAX in *; lia).
    rewrite (wrap_id 8) by (unfold _BYTE_MIN, _BYTE_MAX in *; lia). done.
  - rewrite (wrap_id 32) by (unfold _INT16_MIN, _INT16_MAX in *; lia).
    rewrite (wrap_id 16) by (unfold _INT16_MIN, _INT16_MAX in *; lia). done.
  - rewrite (wrap_id 32) by (unfold _INT32_MIN, _INT32_MAX in *; lia). done.
  - destruct (Z.gtb_spec (utf8_len s) 65535); [lia|]. done.
  - rewrite bool_decide_true by done. simpl. by rewrite bool_decide_true by done.
Qed.

(** C17: Headers survive the trip through the native layer. A header made by any
    of the constructors whose name and string lengths are accepted comes back, and
    it comes back equal (name, type and value, no byte of an integer lost by the
    native casts) exactly when its integer, if it has one, fits a C [long] and its
    byte buffer, if it has one, has at most 65535 bytes. Otherwise, which takes a
    64-bit header on a platform with a 32-bit [long] or a longer buffer, whose
    length nothing checks, it comes back truncated, with its name and type. *)
Theorem header_echo (h : Header)
    (Hb : long_bits = 32 \/ long_bits = 64) (Hc : constructed h) (Hl : fits_lengths h) :
  exists h', echo h = Ok h' /\
    (h' = h <-> match _value h with
                | VInt z => - 2 ^ (long_bits - 1) <= z < 2 ^ (long_bits - 1)
                | VBytes b => Z.of_nat (length b) <= 65535
                | _ => True
                end) /\
    (long_bits = 64 -> (forall b, _value h = VBytes b -> Z.of_nat (length b) <= 65535) -> h' = h) /\
    (forall b, _value h = VBytes b ->
       _value h' = VBytes (take (Z.to_nat (Z.of_nat (length b) mod 65536)) b)) /\
    _name h' = _name h /\ _type h' = _type h.
Proof.
  pose proof (constructed_wf h Hc) as Hwf.
  exists (truncated h). split; [apply echo_truncated; [lia|done|done]|].
  assert (truncated h = h <-> sent_whole h) as Hiff.
  { unfold truncated, sent_whole. destruct h as [n v t]. simpl. destruct v; try done; split.
    - intros [= E]. rewrite <- E. apply wrap_range. lia.
    - intros Hz. by rewrite wrap_id by lia.
    - intros [= E]. apply uint16_buf_exact in E. lia.
    - intros Hz. f_equal. f_equal. apply uint16_buf_exact. lia. }
  split_and!; [exact Hiff| | | |]; try (unfold truncated; by destruct (_value h)).
  2:{ intros b Hv. unfold truncated. by rewrite Hv. }
  intros Hbits Hbuf. apply Hiff. unfold wf in Hwf. unfold sent_whole. rewrite Hbits.
  destruct h as [n v t]. simpl in *. destruct v; [done| |by apply Hbuf|done|done]. destruct t; try done;
    unfold _BYTE_MIN, _BYTE_MAX, _INT16_MIN, _INT16_MAX, _INT32_MIN, _INT32_MAX, _INT64_MIN, _INT64_MAX in Hwf; lia.
Qed.
End Native.

Lemma header_echo_witness :
  exists h', echo 32 127 (fun s => Z.of_nat (String.length s)) (mk "t" (VInt (2 ^ 40)) HeaderType.TIMESTAMP) = Ok h' /\
    h' <> mk "t" (VInt (2 ^ 40)) HeaderType.TIMESTAMP.
Proof.
  destruct (header_echo 32 127 (fun s => Z.of_nat (String.length s)) (mk "t" (VInt (2 ^ 40)) HeaderType.TIMESTAMP)
    (or_introl eq_refl) ltac:(apply (c_timestamp "t" (2 ^ 40)); reflexivity)
    ltac:(split; [vm_compute; discriminate | exact I])) as (h' & H1 & H2 & _).
  exists h'. split; [exact H1|]. intros E. apply H2 in E. cbn in E. lia.
Defined.

(** 65536 bytes are sent as none. *)
Example long_buffer_lost :
  echo 64 127 (fun s => Z.of_nat (String.length s)) (from_byte_buf "b" (replicate (Z.to_nat 65536) Byte.x00)) =
  Ok (from_byte_buf "b" []).
Proof. vm_compute. reflexivity. Qed.

(** A header only gives out a value of its own type: each typed getter
    returns the value the constructor was given when the types match and raises
    TypeError on every header of another type, and the ranged constructors
    accept exactly the values of their width. *)
Lemma typed_getters (h : Header) (t : HeaderType) (lo hi : Z) (ty : HeaderType) (n : string) (z : Z)
    (Hc : constructed h) :
  _value_as t h = (if bool_decide (_type h = t) then Ok (_value h) else Raise (TypeError "Header type")) /\
  (forall b, value_as_bool h = Ok b <-> _value h = VBool b) /\
  (forall v, value_as_int32 h = Ok v -> exists z, v = VInt z /\ _INT32_MIN <= z <= _INT32_MAX) /\
  (forall v, value_as_int64 h = Ok v -> exists z, v = VInt z /\ _INT64_MIN <= z <= _INT64_MAX) /\
  (forall v, value_as_uuid h = Ok v -> exists b, v = VUuid b /\ length b = 16%nat) /\
  ((exists h', ranged lo hi ty n z = Ok h') <-> lo <= z <= hi).
Proof.
  pose proof (constructed_wf h Hc) as Hwf. destruct h as [n0 v t0]. unfold wf in Hwf. simpl in *.
  split_and!.
  - unfold _value_as. simpl. by destruct (bool_decide (t0 = t)).
  - intros b. unfold value_as_bool. simpl. destruct t0, v; simpl; naive_solver.
  - intros w. unfold value_as_int32, _value_as. simpl. destruct t0, v; simpl; naive_solver.
  - intros w. unfold value_as_int64, _value_as. simpl. destruct t0, v; simpl; naive_solver.
  - intros w. unfold value_as_uuid, _value_as. simpl. destruct t0, v; simpl; naive_solver.
  - split; [intros [h' E]; by apply ranged_Ok in E as [? _] | intros Hz].
    eexists. apply ranged_Ok. by split.
Qed.

Lemma typed_getters_witness :
  value_as_bool (from_bool "b" true) = Ok true.
Proof.
  destruct (typed_getters (from_bool "b" true) HeaderType.BYTE 0 1 HeaderType.BYTE "n" 0 (c_bool _ _))
    as (_ & H & _). apply H. reflexivity.
Defined.
End Header.

(** ** The RPC client *)
Module Rpc.

Abbreviation bytes := (list Byte.byte).

(** [MessageFlag] *)
Definition MessageFlag_NONE : Z := 0.
Definition MessageFlag_CONNECTION_ACCEPTED : Z := 0x1.
Definition MessageFlag_TERMINATE_STREAM : Z := 0x2.

(** [[f(i) for i in l]] *)
Fixpoint map_result {A B} (f : A -> result B) (l : list A) : result (list B) :=
  match l with
  | [] => Ok []
  | x :: l' => let? y := f x in let? ys := map_result f l' in Ok (y :: ys)
  end.

Definition _to_binding_msg_args (headers : option (list Header.Header)) (payload : option bytes)
    (message_type : MessageType) (flags : option Z)
    : result (list Header.binding_tuple * bytes * MessageType * Z) :=
  let? hs := match headers with None => Ok [] | Some l => map_result Header._as_binding_tuple l end in
  Ok (hs, default [] payload, message_type, default MessageFlag_NONE flags).

Definition _from_binding_msg_args (headers : list Header.binding_tuple) (payload : option bytes)
    (message_type flags : Z) : result (list Header.Header * bytes * MessageType * Z) :=
  let? hs := map_result Header._from_binding_tuple headers in
  let? ty := enum_call message_type in
  Ok (hs, default [] payload, ty, flags).

(** A call of one of the user's handlers; [fut_done] is whether the future that
    goes with the event was already done when the handler ran. *)
Inductive call :=
  | OnConnectionSetup (connected : bool) (error : option py_exn) (fut_done : bool)
  | OnConnectionShutdown (reason : option py_exn) (fut_done : bool)
  | OnProtocolMessage (headers : list Header.Header) (payload : bytes) (message_type : MessageType) (flags : Z)
  | OnContinuationMessage (headers : list Header.Header) (payload : bytes) (message_type : MessageType) (flags : Z)
  | OnContinuationClosed (fut_done : bool)
  | OnFlush (error : option py_exn) (fut_done : bool).

(** The methods the native layer calls, on any state: [invoke] calls the user's
    handler, the lenses are the futures of the objects. *)
Section Methods.
Context `{NativeErrors} {S : Type} (invoke : call -> M S unit).

(** [try: handler(...) finally: future.set_exception / set_result] *)
Definition notify (l : lens S (future unit)) (k : bool -> call) (outcome : result unit) : M S unit :=
  let! f := gets (view l) in
  try_finally (invoke (k (Fut.done f))) (fut_complete l outcome).

Definition error_of (error_code : Z) : option py_exn :=
  if bool_decide (error_code = 0) then None else Some (from_code error_code).

Definition _on_connection_setup (_connect_future : lens S (future unit)) (error_code : Z) : M S unit :=
  notify _connect_future (OnConnectionSetup (bool_decide (error_code = 0)) (error_of error_code))
    (outcome_of error_code tt).

Definition _on_connection_shutdown (shutdown_future : lens S (future unit)) (error_code : Z) : M S unit :=
  notify shutdown_future (OnConnectionShutdown (error_of error_code)) (outcome_of error_code tt).

Definition _on_continuation_closed (closed_future : lens S (future unit)) : M S unit :=
  notify closed_future OnContinuationClosed (Ok tt).

(** [_on_message_flush], with the user's [on_flush] if there is one. *)
Definition _on_message_flush (bound_future : lens S (future unit)) (has_callback : bool) (error_code : Z)
    : M S unit :=
  if has_callback
  then notify bound_future (OnFlush (error_of error_code)) (outcome_of error_code tt)
  else fut_complete bound_future (outcome_of error_code tt).

Definition _on_protocol_message (headers : list Header.binding_tuple) (payload : option bytes)
    (message_type flags : Z) : M S unit :=
  let! args := lift (_from_binding_msg_args headers payload message_type flags) in
  let '(hs, p, ty, fl) := args in invoke (OnProtocolMessage hs p ty fl).

Definition _on_continuation_message (headers : list Header.binding_tuple) (payload : option bytes)
    (message_type flags : Z) : M S unit :=
  let! args := lift (_from_binding_msg_args headers payload message_type flags) in
  let '(hs, p, ty, fl) := args in invoke (OnContinuationMessage hs p ty fl).

(** The handler runs before the future is touched, and the future is completed
    whatever it does, provided it leaves the future open. *)
Lemma notify_run l k o s r s1 :
  view l s = Running -> invoke (k false) s = (r, s1) -> view l s1 = Running ->
  notify l k o s = (r, update l (Finished o) s1).
Proof.
  intros Hv Hi Hv1. unfold notify, bind, gets, try_finally. rewrite Hv. simpl. rewrite Hi.
  unfold fut_complete. rewrite Hv1. done.
Qed.
End Methods.

(** One of each object: [ClientConnection], [ClientContinuation] and the future
    of a flush; every future has been closed to cancellation at its creation. *)
Record state := mkState {
  shutdown_future : future unit;
  _connect_future : future unit;
  closed_future : future unit;
  flush_future : future unit;
  calls : list call;
}.
Definition init : state :=
  mkState Fut.uncancellable Fut.uncancellable Fut.uncancellable Fut.uncancellable [].

Definition shutdown_l : lens state (future unit) := Lens shutdown_future
  (fun f s => mkState f (_connect_future s) (closed_future s) (flush_future s) (calls s)).
Definition connect_l : lens state (future unit) := Lens _connect_future
  (fun f s => mkState (shutdown_future s) f (closed_future s) (flush_future s) (calls s)).
Definition closed_l : lens state (future unit) := Lens closed_future
  (fun f s => mkState (shutdown_future s) (_connect_future s) f (flush_future s) (calls s)).
Definition flush_l : lens state (future unit) := Lens flush_future
  (fun f s => mkState (shutdown_future s) (_connect_future s) (closed_future s) f (calls s)).

Section Handlers.
Context `{NativeErrors}.
(** The user's handler methods, which may raise anything. *)
Variable handler : call -> result unit.

Definition invoke (k : call) : M state unit := fun s =>
  (handler k, mkState (shutdown_future s) (_connect_future s) (closed_future s) (flush_future s) (calls s ++ [k])).

(** Any number of cancellation attempts by the user. *)
Definition user_cancels (s : state) : state :=
  mkState (Fut.cancel (shutdown_future s)).2 (Fut.cancel (_connect_future s)).2
    (Fut.cancel (closed_future s)).2 (Fut.cancel (flush_future s)).2 (calls s).

(** The futures of the RPC client are always resolved, exactly once, after
    the handler. Whatever the user tries to cancel and whatever the user's
    handler does (raise anything, system exits included), connection setup,
    connection shutdown, continuation close and message flush each call the
    handler once, with the error of the native code or without one and with the
    future still open, then complete their future with that same outcome, and
    let the handler's own exception through. *)
Lemma rpc_futures_resolved (error_code : Z) :
  let s := user_cancels init in
  (exists s', _on_connection_setup invoke connect_l error_code s =
      (handler (OnConnectionSetup (bool_decide (error_code = 0)) (error_of error_code) false), s') /\
    _connect_future s' = Finished (outcome_of error_code tt) /\
    calls s' = [OnConnectionSetup (bool_decide (error_code = 0)) (error_of error_code) false]) /\
  (exists s', _on_connection_shutdown invoke shutdown_l error_code s =
      (handler (OnConnectionShutdown (error_of error_code) false), s') /\
    shutdown_future s' = Finished (outcome_of error_code tt) /\
    calls s' = [OnConnectionShutdown (error_of error_code) false]) /\
  (exists s', _on_continuation_closed invoke closed_l s = (handler (OnContinuationClosed false), s') /\
    closed_future s' = Finished (Ok tt) /\ calls s' = [OnContinuationClosed false]) /\
  (forall has_callback, exists s', (_on_message_flush invoke flush_l has_callback error_code s).2 = s' /\
    ((_on_message_flush invoke flush_l has_callback error_code s).1 =
      if has_callback then handler (OnFlush (error_of error_code) false) else Ok tt) /\
    flush_future s' = Finished (outcome_of error_code tt) /\
    calls s' = if has_callback then [OnFlush (error_of error_code) false] else []).
Proof.
  cbv zeta. split_and!.
  - eexists. split_and!; [by apply notify_run|done|done].
  - eexists. split_and!; [by apply notify_run|done|done].
  - eexists. split_and!; [by apply notify_run|done|done].
  - intros [].
    + eexists. split_and!; [reflexivity| | |]; unfold _on_message_flush;
        (erewrite notify_run; [|done|done|done]; done).
    + eexists. split_and!; [reflexivity|done|done|done].
Qed.
End Handlers.

Lemma map_result_compose {A B C} (f : A -> result B) (g : B -> result C) (k : A -> C) l :
  (forall x, x ∈ l -> exists y, f x = Ok y /\ g y = Ok (k x)) ->
  exists ys, map_result f l = Ok ys /\ map_result g ys = Ok (map k l).
Proof.
  induction l as [|x l IH]; intros Hx; simpl; [by exists []|].
  destruct (Hx x) as (y & E1 & E2); [by left|].
  destruct IH as (ys & E3 & E4); [intros; apply Hx; by right|].
  exists (y :: ys). rewrite E1, E3. simpl. rewrite E2, E4. done.
Qed.

Lemma header_tuple_roundtrip h :
  Header.wf h -> exists t, Header._as_binding_tuple h = Ok t /\ Header._from_binding_tuple t = Ok h.
Proof.
  intros Hwf. unfold Header._as_binding_tuple, Header._from_binding_tuple. destruct h as [n v t].
  unfold Header.wf in Hwf. simpl in *.
  destruct t, v; try done; simpl; eexists; split; try reflexivity; simpl;
    rewrite ?enum_call_value; simpl; try done.
  by rewrite bool_decide_true.
Qed.

(** Message arguments round-trip: what [_to_binding_msg_args] hands to the
    native layer, read back with [_from_binding_msg_args], is the same message,
    with the documented defaults (no headers, empty payload, no flags) for what
    the caller left out. *)
Lemma msg_args_roundtrip (headers : option (list Header.Header)) (payload : option bytes)
    (message_type : MessageType) (flags : option Z)
    (Hc : Forall Header.constructed (default [] headers)) :
  exists hs p fl,
    _to_binding_msg_args headers payload message_type flags = Ok (hs, p, message_type, fl) /\
    _from_binding_msg_args hs (Some p) (enum_value message_type) fl =
      Ok (default [] headers, default [] payload, message_type, default 0 flags).
Proof.
  unfold _to_binding_msg_args, _from_binding_msg_args.
  destruct (map_result_compose Header._as_binding_tuple Header._from_binding_tuple (fun h => h)
    (default [] headers)) as (hs & E1 & E2).
  { intros h Hh. apply header_tuple_roundtrip, Header.constructed_wf. rewrite Forall_forall in Hc. by apply Hc. }
  exists hs, (default [] payload), (default MessageFlag_NONE flags).
  rewrite map_id in E2. rewrite E2, enum_call_value. split; [|done].
  destruct headers as [l|]; simpl in *; [by rewrite E1 | by injection E1 as <-].
Qed.

Lemma msg_args_roundtrip_witness :
  exists hs, _to_binding_msg_args (Some [Header.from_bool "b" true]) None MessageType.PING None =
    Ok (hs, [], MessageType.PING, 0).
Proof.
  destruct (msg_args_roundtrip (Some [Header.from_bool "b" true]) None MessageType.PING None
    ltac:(repeat constructor)) as (hs & p & fl & H & _).
  exists hs. injection H as <- <- <-. reflexivity.
Defined.
End Rpc.
