(* ===== verification/RpcClient.v ===== *)
(** * awscrt/eventstream/rpc.py at work: one connection and its streams

    The client connection with everything that hangs on it: the operations of
    [ClientConnection] and [ClientContinuation], the binding between them and
    the native library (source/event_stream_rpc_client_connection.c and
    ..._continuation.c) with the references that keep the Python objects alive
    for callbacks, and the native events. User code, called back at any event,
    may use every operation. [Session] is the abstract specification of what the
    futures tell the user. *)
From S2P Require Import Prelude Future Io EventStream.
Import EventStream.Rpc.

(** ** What the futures promise *)
Module Session.

(** A session as its user sees it: how far the connection is, which streams are
    closed, what has become of every message. *)
Inductive phase := Connecting | Refused (e : py_exn) | Up | Down (reason : result unit).
Record session := mkSession {
  conn : phase;
  streams : list bool;                       (** closed? *)
  sent : list (option (result unit));        (** None: not flushed yet *)
}.
Definition init : session := mkSession Connecting [] [].

(** The connection comes up or is refused, once; what is up goes down, once;
    streams and messages are added at any time, for it is the native library that
    takes or refuses them, and each is settled once. *)
Inductive step : session -> session -> Prop :=
  | up ss ms : step (mkSession Connecting ss ms) (mkSession Up ss ms)
  | refused e ss ms : step (mkSession Connecting ss ms) (mkSession (Refused e) ss ms)
  | down r ss ms : step (mkSession Up ss ms) (mkSession (Down r) ss ms)
  | open_stream p ss ms : step (mkSession p ss ms) (mkSession p (ss ++ [false]) ms)
  | close_stream p ss ms i : ss !! i = Some false -> step (mkSession p ss ms) (mkSession p (<[i:=true]> ss) ms)
  | queue p ss ms : step (mkSession p ss ms) (mkSession p ss (ms ++ [None]))
  | flush p ss ms i r : ms !! i = Some None -> step (mkSession p ss ms) (mkSession p ss (<[i:=Some r]> ms)).

Definition settled_in (a b : session) : Prop :=
  (forall i, streams a !! i = Some true -> streams b !! i = Some true) /\
  (forall i r, sent a !! i = Some (Some r) -> sent b !! i = Some (Some r)) /\
  (length (streams a) <= length (streams b))%nat /\ (length (sent a) <= length (sent b))%nat /\
  (forall e, conn a = Refused e -> conn b = Refused e) /\
  (forall r, conn a = Down r -> conn b = Down r).

Lemma step_settled a b : step a b -> settled_in a b.
Proof.
  unfold settled_in. destruct 1; simpl; split_and!; try done; try lia; intros;
    rewrite ?length_app, ?length_insert; simpl; try lia; try (by apply lookup_app_l_Some).
  - destruct (decide (i0 = i)) as [->|Hi]; [congruence|]. by rewrite list_lookup_insert_ne.
  - destruct (decide (i0 = i)) as [->|Hi]; [congruence|]. by rewrite list_lookup_insert_ne.
Qed.

(** What is settled stays settled. *)
Lemma steps_settled a b : rtc step a b -> settled_in a b.
Proof.
  induction 1 as [a|a b c Hab Hbc IH]; [by split_and!|].
  destruct (step_settled _ _ Hab) as (A1 & A2 & A3 & A4 & A5 & A6), IH as (B1 & B2 & B3 & B4 & B5 & B6).
  split_and!; eauto; lia.
Qed.

Lemma open_streams p ss ms n :
  rtc step (mkSession p ss ms) (mkSession p (ss ++ replicate n false) ms).
Proof.
  revert ss. induction n as [|n IH]; intros ss; simpl; [by rewrite app_nil_r|].
  eapply rtc_l; [apply open_stream|]. specialize (IH (ss ++ [false])). by rewrite <- app_assoc in IH.
Qed.
Lemma queue_messages p ss ms n :
  rtc step (mkSession p ss ms) (mkSession p ss (ms ++ replicate n None)).
Proof.
  revert ms. induction n as [|n IH]; intros ms; simpl; [by rewrite app_nil_r|].
  eapply rtc_l; [apply queue|]. specialize (IH (ms ++ [None])). by rewrite <- app_assoc in IH.
Qed.
End Session.

Module Client.

(** Where the native connection stands; [NIdle] before connect. *)
Inductive native_phase := NIdle | NConnecting | NRefused | NOpen | NDown.
(** Where the native continuation token stands. *)
Inductive token_phase := Fresh | Active | Closed.
#[global] Instance native_phase_eq_dec : EqDecision native_phase.
Proof. solve_decision. Defined.
#[global] Instance token_phase_eq_dec : EqDecision token_phase.
Proof. solve_decision. Defined.

(** A [ClientContinuation]; [cont_self] says that the binding holds the
    reference [self_py] to it. *)
Record continuation := mkCont {
  closed_future : future unit;
  cont_self : bool;
  token : token_phase;
}.
(** A message the native layer has accepted: the future and the callback bound
    in [partial(_on_message_flush, future, on_flush)], which the native layer
    holds until it is called. *)
Record message := mkMsg {
  flush_future : future unit;
  has_on_flush : bool;
  in_flight : bool;
}.

(** Whose handler is called. *)
Inductive target := TConn | TCont (c : nat) | TMsg (m : nat).
#[global] Instance target_eq_dec : EqDecision target.
Proof. solve_decision. Defined.

(** What the native layer is asked; a message is what [_to_binding_msg_args]
    made of it. *)
Abbreviation wire_args := (list Header.binding_tuple * bytes * MessageType * Z)%type.
Inductive request :=
  | RConnect (host_name : string) (port : Z) (bootstrap : nat) (socket_options : SocketOptions)
      (tls_connection_options : option Tls.TlsConnectionOptions)
  | RProtocolMessage (args : wire_args)
  | RNewStream
  | RActivate (c : nat) (operation : string) (args : wire_args)
  | RSendMessage (c : nat) (args : wire_args).

Record state := mkState {
  native : native_phase;
  connect_future : future unit;
  shutdown_future : future unit;
  conn_self : bool;                       (** the binding's [self_py] *)
  continuations : list continuation;      (** by their number *)
  messages : list message;
  log : list (target * call);             (** the calls of user handlers *)
  accepted : list request;                (** what the native layer accepted *)
  closes : list Z;                        (** codes given to the native close *)
  unraisable : list py_exn;               (** [PyErr_WriteUnraisable] *)
}.

(** [cls(host_name, port, handler)], whose futures are closed to cancellation. *)
Definition init : state :=
  mkState NIdle Fut.uncancellable Fut.uncancellable false [] [] [] [] [] [].

Definition set_native n (s : state) := mkState n (connect_future s) (shutdown_future s) (conn_self s)
  (continuations s) (messages s) (log s) (accepted s) (closes s) (unraisable s).
Definition set_conn_self b (s : state) := mkState (native s) (connect_future s) (shutdown_future s) b
  (continuations s) (messages s) (log s) (accepted s) (closes s) (unraisable s).
Definition set_continuations cs (s : state) := mkState (native s) (connect_future s) (shutdown_future s)
  (conn_self s) cs (messages s) (log s) (accepted s) (closes s) (unraisable s).
Definition set_messages ms (s : state) := mkState (native s) (connect_future s) (shutdown_future s)
  (conn_self s) (continuations s) ms (log s) (accepted s) (closes s) (unraisable s).
Definition add_log k (s : state) := mkState (native s) (connect_future s) (shutdown_future s) (conn_self s)
  (continuations s) (messages s) (log s ++ [k]) (accepted s) (closes s) (unraisable s).
Definition add_accepted r (s : state) := mkState (native s) (connect_future s) (shutdown_future s)
  (conn_self s) (continuations s) (messages s) (log s) (accepted s ++ [r]) (closes s) (unraisable s).
Definition add_close c (s : state) := mkState (native s) (connect_future s) (shutdown_future s) (conn_self s)
  (continuations s) (messages s) (log s) (accepted s) (closes s ++ [c]) (unraisable s).
Definition add_unraisable e (s : state) := mkState (native s) (connect_future s) (shutdown_future s)
  (conn_self s) (continuations s) (messages s) (log s) (accepted s) (closes s) (unraisable s ++ [e]).

Definition connect_l : lens state (future unit) := Lens connect_future
  (fun f s => mkState (native s) f (shutdown_future s) (conn_self s) (continuations s) (messages s) (log s)
     (accepted s) (closes s) (unraisable s)).
Definition shutdown_l : lens state (future unit) := Lens shutdown_future
  (fun f s => mkState (native s) (connect_future s) f (conn_self s) (continuations s) (messages s) (log s)
     (accepted s) (closes s) (unraisable s)).
Definition upd_cont (c : nat) (f : continuation -> continuation) (s : state) : state :=
  set_continuations (alter f c (continuations s)) s.
Definition upd_msg (m : nat) (f : message -> message) (s : state) : state :=
  set_messages (alter f m (messages s)) s.
Definition closed_l (c : nat) : lens state (future unit) := Lens
  (fun s => match continuations s !! c with Some x => closed_future x | None => Pending end)
  (fun f => upd_cont c (fun x => mkCont f (cont_self x) (token x))).
Definition flush_l (m : nat) : lens state (future unit) := Lens
  (fun s => match messages s !! m with Some x => flush_future x | None => Pending end)
  (fun f => upd_msg m (fun x => mkMsg f (has_on_flush x) (in_flight x))).

Definition is_connect (r : request) : bool := match r with RConnect _ _ _ _ _ => true | _ => false end.

(** The native library's answers, which may depend on everything that has
    happened. It accepts no second activation of a continuation, which
    [ClientContinuation.activate] documents ("may only be called once"); whether
    it takes streams and messages is up to it, at any time. *)
Class NativeRpc := {
  native_answer : state -> request -> option Z;     (** None: accepted; else an error code *)
  native_is_open : state -> bool;
  native_is_closed : state -> nat -> bool;
  AWS_ERROR_CRT_CALLBACK_EXCEPTION : Z;
  answer_activate : forall s c x op a, continuations s !! c = Some x -> token x <> Fresh ->
    native_answer s (RActivate c op a) <> None;
}.

(** The arguments of a message as the caller gives them. *)
Record msg_args := mkArgs {
  headers : option (list Header.Header);
  payload : option bytes;
  message_type : MessageType;
  flags : option Z;
  on_flush : bool;
}.

(** What user code can do with the objects it has been given. *)
Inductive user_op :=
  | UClose
  | USendProtocolMessage (a : msg_args)
  | UNewStream
  | UActivate (c : nat) (operation : string) (a : msg_args)
  | USendMessage (c : nat) (a : msg_args).

Section Client.
Context `{NativeErrors} `{NativeRpc}.
(** The width of C [long], the native limit on the length of header names and
    the length of a string in UTF-8. *)
Variables (long_bits name_len_max : Z) (utf8_len : string -> Z).

(** [aws_py_event_stream_native_headers_init]: the headers as the native layer
    takes them, or the exception of the first that cannot be converted. *)
Definition native_headers_init (hs : list Header.binding_tuple) : result (list (string * Header.native_value)) :=
  map_result (Header.s_add_native_header long_bits name_len_max utf8_len) hs.

(** [if (native call) { PyErr_SetAwsLastError(); ... }]: a request refused
    raises, one accepted is recorded. *)
Definition ask (r : request) : M state unit := fun s =>
  match native_answer s r with
  | None => (Ok tt, add_accepted r s)
  | Some code => (Raise (PyErr_AwsLastError code), s)
  end.

(** [event_stream_rpc_client_connection_connect]: the reference to the Python
    object is taken first, and dropped when connecting cannot start. *)
Definition native_connect (r : request) : M state unit :=
  do! modify (set_conn_self true);
  try_except is_BaseException
    (do! ask r; modify (set_native NConnecting))
    (fun e => do! modify (set_conn_self false); raise e).

(** [ClientConnection.connect], on the object it has just made: default socket
    options, and the default bootstrap, where the caller gives none. *)
Definition connect (get_bootstrap : result nat) (host_name : string) (port : Z) (bootstrap : option nat)
    (socket_options : option SocketOptions) (tls_connection_options : option Tls.TlsConnectionOptions)
    : M state unit :=
  let so := default SocketOptions_init socket_options in
  let! b := match bootstrap with Some b => ret b | None => lift get_bootstrap end in
  native_connect (RConnect host_name port b so tls_connection_options).

(** A fresh future and the closure bound to it, handed to the native layer with
    the message: they are dropped when the message is refused. The result is the
    number of the message, for its future. *)
Definition send (mk : wire_args -> request) (a : msg_args) : M state nat :=
  let! args := lift (_to_binding_msg_args (headers a) (payload a) (message_type a) (flags a)) in
  let! m := gets (fun s => length (messages s)) in
  let! _ := lift (native_headers_init args.1.1.1) in
  do! ask (mk args);
  do! modify (fun s => set_messages (messages s ++ [mkMsg Fut.uncancellable (on_flush a) true]) s);
  ret m.

(** [ClientConnection.send_protocol_message], [ClientContinuation.send_message] *)
Definition send_protocol_message (a : msg_args) : M state nat := send RProtocolMessage a.
Definition send_message (c : nat) (a : msg_args) : M state nat := send (RSendMessage c) a.

(** [ClientConnection.new_stream] *)
Definition new_stream : M state nat :=
  let! c := gets (fun s => length (continuations s)) in
  do! ask RNewStream;
  do! modify (fun s => set_continuations
    (continuations s ++ [mkCont Fut.uncancellable false Fresh]) s);
  ret c.

(** [ClientContinuation.activate]: the binding refuses while it holds a
    reference to the Python object, takes it, and drops it again when a header
    cannot be converted or the native layer refuses. *)
Definition activate (c : nat) (operation : string) (a : msg_args) : M state nat :=
  let! args := lift (_to_binding_msg_args (headers a) (payload a) (message_type a) (flags a)) in
  let! x := gets (fun s => continuations s !! c) in
  match x with
  | None => raise (UserError 0)          (* no such object *)
  | Some x =>
      if cont_self x then raise (RuntimeError "Continuation already activated")
      else
        do! modify (upd_cont c (fun x => mkCont (closed_future x) true (token x)));
        let! m := gets (fun s => length (messages s)) in
        do! try_except is_BaseException
          (let! _ := lift (native_headers_init args.1.1.1) in ask (RActivate c operation args))
          (fun e => do! modify (upd_cont c (fun x => mkCont (closed_future x) false (token x))); raise e);
        do! modify (upd_cont c (fun x => mkCont (closed_future x) true Active));
        do! modify (fun s => set_messages (messages s ++ [mkMsg Fut.uncancellable (on_flush a) true]) s);
        ret m
  end.

(** [ClientConnection.close] *)
Definition close : M state unit := modify (add_close 0).

(** [ClientConnection.is_open], [ClientContinuation.is_closed] *)
Definition is_open : M state bool := gets native_is_open.
Definition is_closed (c : nat) : M state bool := gets (fun s => native_is_closed s c).

Definition discard {A} (m : M state A) : state -> state := fun s => (m s).2.
Definition run_op (op : user_op) : state -> state :=
  match op with
  | UClose => discard close
  | USendProtocolMessage a => discard (send_protocol_message a)
  | UNewStream => discard new_stream
  | UActivate c o a => discard (activate c o a)
  | USendMessage c a => discard (send_message c a)
  end.
Definition run_ops (ops : list user_op) (s : state) : state := fold_left (fun s op => run_op op s) ops s.

(** The user's handlers: what they and other threads do with the connection
    before they return, and how they return. *)
Variable handler : state -> target -> call -> list user_op * result unit.

Definition invoke (t : target) (k : call) : M state unit := fun s =>
  let s1 := add_log (t, k) s in
  let (ops, r) := handler s1 t k in (r, run_ops ops s1).

(** *** Callbacks of the binding *)

(** The rest of a native callback after the Python method: an exception is
    reported as unraisable. *)
Definition or_unraisable (m : M state unit) (on_exn : state -> state) (s : state) : state :=
  match m s with
  | (Ok _, s') => s'
  | (Raise e, s') => on_exn (add_unraisable e s')
  end.

(** [s_on_connection_setup] *)
Definition s_on_connection_setup (error_code : Z) (s : state) : state :=
  let ok := error_code =? 0 in
  let s := set_native (if ok then NOpen else NRefused) s in
  let s := or_unraisable (_on_connection_setup (invoke TConn) connect_l error_code)
    (fun s => if ok then add_close AWS_ERROR_CRT_CALLBACK_EXCEPTION s else s) s in
  if ok then s else set_conn_self false s.

(** [s_on_connection_shutdown] *)
Definition s_on_connection_shutdown (error_code : Z) (s : state) : state :=
  let s := set_native NDown s in
  let s := or_unraisable (_on_connection_shutdown (invoke TConn) shutdown_l error_code) id s in
  set_conn_self false s.

(** [s_on_protocol_message], [s_on_continuation_message] *)
Definition s_on_protocol_message (hs : list Header.binding_tuple) (p : option bytes) (ty fl : Z) (s : state)
    : state := or_unraisable (_on_protocol_message (invoke TConn) hs p ty fl) id s.
Definition s_on_continuation_message (c : nat) (hs : list Header.binding_tuple) (p : option bytes) (ty fl : Z)
    (s : state) : state := or_unraisable (_on_continuation_message (invoke (TCont c)) hs p ty fl) id s.

(** [s_on_continuation_closed] *)
Definition s_on_continuation_closed (c : nat) (s : state) : state :=
  let s := upd_cont c (fun x => mkCont (closed_future x) (cont_self x) Closed) s in
  let s := or_unraisable (_on_continuation_closed (invoke (TCont c)) (closed_l c)) id s in
  upd_cont c (fun x => mkCont (closed_future x) false (token x)) s.

(** [aws_py_event_stream_rpc_client_on_message_flush]: the callback, then the
    reference to the closure goes. *)
Definition on_message_flush (m : nat) (error_code : Z) (s : state) : state :=
  let has_callback := match messages s !! m with Some x => has_on_flush x | None => false end in
  let s := or_unraisable (_on_message_flush (invoke (TMsg m)) (flush_l m) has_callback error_code) id s in
  upd_msg m (fun x => mkMsg (flush_future x) (has_on_flush x) false) s.

(** The user has the connection once setup has succeeded. *)
Definition visible (s : state) : Prop := native s = NOpen \/ native s = NDown.

(** One step: the user's thread calls an operation, or the event-loop thread
    delivers an event. Events come as the native library promises them: setup
    once after an accepted connect, shutdown once after a successful setup, a
    flush once for every accepted message, closed once for every activated
    continuation, messages in between. *)
Inductive step : state -> state -> Prop :=
  | step_connect s gb h p b so tls : native s = NIdle -> step s (discard (connect gb h p b so tls) s)
  | step_user s op : visible s -> step s (run_op op s)
  | step_setup s ec : native s = NConnecting -> step s (s_on_connection_setup ec s)
  | step_shutdown s ec : native s = NOpen -> step s (s_on_connection_shutdown ec s)
  | step_protocol s hs p ty fl : native s = NOpen -> step s (s_on_protocol_message hs p ty fl s)
  | step_flush s m x ec : messages s !! m = Some x -> in_flight x = true -> step s (on_message_flush m ec s)
  | step_closed s c x : continuations s !! c = Some x -> token x = Active ->
      step s (s_on_continuation_closed c s)
  | step_message s c x hs p ty fl : continuations s !! c = Some x -> token x = Active ->
      step s (s_on_continuation_message c hs p ty fl s).
Definition reachable (s : state) : Prop := rtc step init s.

(** *** What user code can change *)

Definition log_of (t : target) (s : state) : list call :=
  map snd (List.filter (fun p => bool_decide (p.1 = t)) (log s)).

(** A continuation as user code finds it and leaves it. *)
Definition cont_grow (x x' : continuation) : Prop :=
  x' = x \/ token x = Fresh /\ x' = mkCont (closed_future x) true Active.
Definition new_cont (x : continuation) : Prop :=
  x = mkCont Running false Fresh \/ x = mkCont Running true Active.
Definition new_msg (x : message) : Prop := flush_future x = Running /\ in_flight x = true.

(** User code leaves the connection, the futures and the calls alone; it
    activates continuations, and adds continuations and messages. *)
Record grows (s s' : state) : Prop := {
  g_native : native s' = native s;
  g_connect : connect_future s' = connect_future s;
  g_shutdown : shutdown_future s' = shutdown_future s;
  g_self : conn_self s' = conn_self s;
  g_log : log s' = log s;
  g_unraisable : unraisable s' = unraisable s;
  g_conts : forall c x, continuations s !! c = Some x ->
    exists x', continuations s' !! c = Some x' /\ cont_grow x x';
  g_new : forall c x', continuations s !! c = None -> continuations s' !! c = Some x' -> new_cont x';
  g_msgs : exists new, messages s' = messages s ++ new /\ Forall new_msg new;
}.

Lemma rgrows_refl s : grows s s.
Proof.
  constructor; try done.
  - intros c x Hx. exists x. split; [done|by left].
  - intros c x' Hn Hs. by rewrite Hn in Hs.
  - exists []. by rewrite app_nil_r.
Qed.

Lemma cont_grow_trans x y z : cont_grow x y -> cont_grow y z -> cont_grow x z.
Proof. intros [->|[H1 ->]] [->|[H2 ->]]; unfold cont_grow; simpl in *; auto. Qed.

Lemma new_cont_grow x y : new_cont x -> cont_grow x y -> new_cont y.
Proof. intros [->| ->] [->|[H1 ->]]; unfold new_cont; simpl in *; auto. Qed.

Lemma rgrows_trans s1 s2 s3 : grows s1 s2 -> grows s2 s3 -> grows s1 s3.
Proof.
  intros A B. constructor; try (by etransitivity; [apply B|apply A]).
  - intros c x Hx. destruct (g_conts _ _ A c x Hx) as (y & Hy & Hxy).
    destruct (g_conts _ _ B c y Hy) as (z & Hz & Hyz). exists z. split; [done|]. by eapply cont_grow_trans.
  - intros c z Hn Hz. destruct (continuations s2 !! c) as [y|] eqn:Hy.
    + destruct (g_conts _ _ B c y Hy) as (z' & Hz' & Hyz). simplify_eq.
      eapply new_cont_grow; [by eapply (g_new _ _ A)|done].
    + by eapply (g_new _ _ B).
  - destruct (g_msgs _ _ A) as (n1 & E1 & F1), (g_msgs _ _ B) as (n2 & E2 & F2).
    exists (n1 ++ n2). rewrite E2, E1, app_assoc. split; [done|]. by apply Forall_app.
Qed.

Lemma grows_msg s r has :
  grows s (set_messages (messages s ++ [mkMsg Fut.uncancellable has true]) (add_accepted r s)).
Proof.
  constructor; simpl; try done.
  - intros c x Hx. exists x. split; [done|by left].
  - intros c x' Hn Hs. by rewrite Hn in Hs.
  - eexists. split; [done|]. by repeat constructor.
Qed.

Lemma send_grows mk a s : grows s (discard (send mk a) s).
Proof.
  unfold discard, send, bind, lift, gets, modify, ask, ret.
  destruct (_to_binding_msg_args _ _ _ _) as [w|e]; simpl; [|apply rgrows_refl].
  destruct (native_headers_init _); simpl; [|apply rgrows_refl].
  destruct (native_answer s (mk w)) eqn:Ha; simpl; [apply rgrows_refl|]. apply grows_msg.
Qed.

Lemma new_stream_grows s : grows s (discard new_stream s).
Proof.
  unfold discard, new_stream, bind, gets, modify, ask, ret.
  destruct (native_answer s RNewStream) eqn:Ha; simpl; [apply rgrows_refl|].
  constructor; simpl; try done.
  - intros c x Hx. exists x. split; [by apply lookup_app_l_Some|by left].
  - intros c x' Hn Hs. apply lookup_app_Some in Hs as [Hs|[_ Hs]]; [by rewrite Hn in Hs|].
    apply list_lookup_singleton_Some in Hs as [_ <-]. by left.
  - exists []. by rewrite app_nil_r.
Qed.

Lemma upd_cont_self c x s : continuations s !! c = Some x -> cont_self x = false ->
  upd_cont c (fun x => mkCont (closed_future x) false (token x))
    (upd_cont c (fun x => mkCont (closed_future x) true (token x)) s) = s.
Proof.
  intros Hx Hs. destruct s as [n cf sf self conts ms lg ac cl un]. unfold upd_cont, set_continuations. simpl in *.
  f_equal. rewrite list_alter_alter_eq. rewrite <- (list_alter_id id conts c) at 2 by done.
  apply list_alter_ext; [|done]. intros y Hy. simplify_eq. destruct x. simpl in *. by subst.
Qed.

Lemma activate_grows c op a s : grows s (discard (activate c op a) s).
Proof.
  unfold discard, activate, bind, lift, gets, modify, ret, raise.
  destruct (_to_binding_msg_args _ _ _ _) as [w|e]; simpl; [|apply rgrows_refl].
  destruct (continuations s !! c) as [x|] eqn:Hx; simpl; [|apply rgrows_refl].
  destruct (cont_self x) eqn:Hs; simpl; [apply rgrows_refl|].
  set (s1 := upd_cont c _ s). unfold try_except, ask, bind.
  destruct (native_headers_init _); simpl;
    [|unfold s1; rewrite (upd_cont_self c x) by done; apply rgrows_refl].
  destruct (native_answer s1 (RActivate c op w)) eqn:Ha; simpl.
  - unfold s1. rewrite (upd_cont_self c x) by done. apply rgrows_refl.
  - assert (continuations s1 !! c = Some (mkCont (closed_future x) true (token x))) as Hx1
      by (unfold s1; simpl; by rewrite list_lookup_alter_eq, Hx).
    assert (token x = Fresh) as Ht.
    { destruct (decide (token x = Fresh)) as [|Hn]; [done|].
      by destruct (answer_activate s1 c _ op w Hx1 Hn). }
    constructor; simpl; try done.
    + intros d y Hy. destruct (decide (d = c)) as [->|Hd].
      * rewrite !list_lookup_alter_eq, Hx. simpl. simplify_eq. eexists. split; [done|]. by right.
      * rewrite !list_lookup_alter_ne by done. exists y. split; [done|by left].
    + intros d y Hn Hy. apply lookup_ge_None in Hn. apply lookup_lt_Some in Hy.
      rewrite !length_alter in Hy. lia.
    + eexists. split; [done|]. by repeat constructor.
Qed.

Lemma run_op_grows op s : grows s (run_op op s).
Proof.
  destruct op as [|a| |c o a|c a]; simpl.
  - constructor; simpl; try done.
    + intros c x Hx. exists x. split; [done|by left].
    + intros c x' Hn Hs. by rewrite Hn in Hs.
    + exists []. by rewrite app_nil_r.
  - by apply send_grows.
  - apply new_stream_grows.
  - apply activate_grows.
  - by apply send_grows.
Qed.

Lemma run_ops_grows ops s : grows s (run_ops ops s).
Proof.
  unfold run_ops. revert s. induction ops as [|op ops IH]; intros s; simpl; [apply rgrows_refl|].
  eapply rgrows_trans; [apply run_op_grows|apply IH].
Qed.

(** A handler call logs the call, and then grows. *)
Lemma invoke_grows t k s : exists r s1, invoke t k s = (r, s1) /\ grows (add_log (t, k) s) s1.
Proof.
  unfold invoke. destruct (handler _ t k) as [ops r]. eexists _, _. split; [done|]. apply run_ops_grows.
Qed.

(** *** Events, run through *)

(** The parts of a state the invariant and the specification are about. *)
Definition core (s : state) :=
  (native s, connect_future s, shutdown_future s, conn_self s, continuations s, messages s, log s).
Definition from_handler (r : result unit) : Prop := exists s t k, r = (handler s t k).2.
Definition errs (r : result unit) : list py_exn := match r with Ok _ => [] | Raise e => [e] end.

Lemma invoke_run t k s : exists r s1, invoke t k s = (r, s1) /\ grows (add_log (t, k) s) s1 /\ from_handler r.
Proof.
  unfold invoke. destruct (handler _ t k) as [ops r] eqn:Hh. eexists _, _. split_and!; [done|apply run_ops_grows|].
  exists (add_log (t, k) s), t, k. by rewrite Hh.
Qed.

Lemma or_unraisable_run m f s r s1 : m s = (r, s1) ->
  (forall s, core (f s) = core s /\ unraisable (f s) = unraisable s) ->
  core (or_unraisable m f s) = core s1 /\ unraisable (or_unraisable m f s) = unraisable s1 ++ errs r.
Proof.
  intros E Hf. unfold or_unraisable. rewrite E. destruct r as [[]|e]; simpl; [by rewrite app_nil_r|].
  by rewrite !(proj1 (Hf _)), !(proj2 (Hf _)).
Qed.

Lemma id_quiet s : core (id s) = core s /\ unraisable (id s) = unraisable s.
Proof. done. Qed.

Lemma core_upd_cont c f s s' : core s = core s' -> core (upd_cont c f s) = core (upd_cont c f s').
Proof. destruct s, s'. unfold core, upd_cont, set_continuations. simpl. intros; by simplify_eq. Qed.
Lemma core_upd_msg m f s s' : core s = core s' -> core (upd_msg m f s) = core (upd_msg m f s').
Proof. destruct s, s'. unfold core, upd_msg, set_messages. simpl. intros; by simplify_eq. Qed.
Lemma core_conn_self b s s' : core s = core s' -> core (set_conn_self b s) = core (set_conn_self b s').
Proof. destruct s, s'. unfold core, set_conn_self. simpl. intros; by simplify_eq. Qed.

(** A continuation that is past its activation is not touched by user code. *)
Lemma grows_past s s' c x : grows s s' -> continuations s !! c = Some x -> token x <> Fresh ->
  continuations s' !! c = Some x.
Proof. intros G Hx Ht. destruct (g_conts _ _ G c x Hx) as (x' & -> & [->|[? _]]); [done|by destruct Ht]. Qed.

Lemma grows_msg_at s s' m x : grows s s' -> messages s !! m = Some x -> messages s' !! m = Some x.
Proof. intros G Hx. destruct (g_msgs _ _ G) as (n & -> & _). by apply lookup_app_l_Some. Qed.

Lemma rpc_setup_run ec s : connect_future s = Running ->
  let k := OnConnectionSetup (bool_decide (ec = 0)) (error_of ec) false in
  exists r s1, grows (add_log (TConn, k) (set_native (if ec =? 0 then NOpen else NRefused) s)) s1 /\
    from_handler r /\
    core (s_on_connection_setup ec s) =
      core (set_conn_self (if ec =? 0 then conn_self s else false)
        (update connect_l (Finished (outcome_of ec tt)) s1)) /\
    unraisable (s_on_connection_setup ec s) = unraisable s ++ errs r.
Proof.
  intros Hc k. set (s0 := set_native (if ec =? 0 then NOpen else NRefused) s).
  destruct (invoke_run TConn k s0) as (r & s1 & Hi & G & Hr).
  pose proof (notify_run (invoke TConn) connect_l
    (OnConnectionSetup (bool_decide (ec = 0)) (error_of ec)) (outcome_of ec tt) s0 r s1 Hc Hi
    ltac:(simpl; by rewrite (g_connect _ _ G))) as Hn.
  destruct (or_unraisable_run _ (fun s => if ec =? 0 then add_close AWS_ERROR_CRT_CALLBACK_EXCEPTION s else s)
    s0 r _ Hn ltac:(by destruct (ec =? 0))) as [C U].
  exists r, s1. unfold s_on_connection_setup, _on_connection_setup. cbv zeta. fold s0.
  destruct (ec =? 0); (split_and!; [done|done| |etransitivity; [exact U|simpl; by rewrite (g_unraisable _ _ G)]]).
  - etransitivity; [exact C|]. pose proof (g_self _ _ G) as Hs. destruct s1. simpl in *. by subst.
  - by apply core_conn_self.
Qed.

Lemma rpc_shutdown_run ec s : shutdown_future s = Running ->
  let k := OnConnectionShutdown (error_of ec) false in
  exists r s1, grows (add_log (TConn, k) (set_native NDown s)) s1 /\ from_handler r /\
    core (s_on_connection_shutdown ec s) =
      core (set_conn_self false (update shutdown_l (Finished (outcome_of ec tt)) s1)) /\
    unraisable (s_on_connection_shutdown ec s) = unraisable s ++ errs r.
Proof.
  intros Hc k. destruct (invoke_run TConn k (set_native NDown s)) as (r & s1 & Hi & G & Hr).
  pose proof (notify_run (invoke TConn) shutdown_l (OnConnectionShutdown (error_of ec))
    (outcome_of ec tt) (set_native NDown s) r s1 Hc Hi ltac:(simpl; by rewrite (g_shutdown _ _ G))) as Hn.
  destruct (or_unraisable_run _ id _ r _ Hn id_quiet) as [C U].
  exists r, s1. split_and!; [done|done|by apply core_conn_self|].
  etransitivity; [exact U|]. simpl. by rewrite (g_unraisable _ _ G).
Qed.

Lemma closed_run c x s : continuations s !! c = Some x -> closed_future x = Running ->
  let s0 := upd_cont c (fun x => mkCont (closed_future x) (cont_self x) Closed) s in
  exists r s1, grows (add_log (TCont c, OnContinuationClosed false) s0) s1 /\ from_handler r /\
    continuations s1 !! c = Some (mkCont Running (cont_self x) Closed) /\
    core (s_on_continuation_closed c s) =
      core (upd_cont c (fun x => mkCont (closed_future x) false (token x))
        (update (closed_l c) (Finished (Ok tt)) s1)) /\
    unraisable (s_on_continuation_closed c s) = unraisable s ++ errs r.
Proof.
  intros Hx Hf s0. destruct (invoke_run (TCont c) (OnContinuationClosed false) s0) as (r & s1 & Hi & G & Hr).
  assert (continuations s0 !! c = Some (mkCont Running (cont_self x) Closed)) as H0'
    by (unfold s0; simpl; by rewrite list_lookup_alter_eq, Hx; simpl; rewrite Hf).
  assert (continuations s1 !! c = Some (mkCont Running (cont_self x) Closed)) as H1
    by by eapply grows_past; [exact G|exact H0'|].
  pose proof (notify_run (invoke (TCont c)) (closed_l c) OnContinuationClosed (Ok tt) s0 r s1
    ltac:(unfold closed_l, view; by rewrite H0') Hi ltac:(unfold closed_l, view; by rewrite H1)) as Hn.
  destruct (or_unraisable_run _ id s0 r _ Hn id_quiet) as [C U].
  exists r, s1. split_and!; [done|done|done|by apply core_upd_cont|].
  etransitivity; [exact U|]. simpl. by rewrite (g_unraisable _ _ G).
Qed.

(** A flush calls [on_flush] if there is one. *)
Lemma flush_run m x ec s : messages s !! m = Some x -> flush_future x = Running ->
  exists r s1,
    (if has_on_flush x then grows (add_log (TMsg m, OnFlush (error_of ec) false) s) s1 else s1 = s) /\
    (r = Ok tt \/ from_handler r) /\ messages s1 !! m = Some x /\
    core (on_message_flush m ec s) =
      core (upd_msg m (fun x => mkMsg (flush_future x) (has_on_flush x) false)
        (update (flush_l m) (Finished (outcome_of ec tt)) s1)) /\
    unraisable (on_message_flush m ec s) = unraisable s ++ errs r.
Proof.
  intros Hx Hf. unfold on_message_flush. rewrite Hx. unfold _on_message_flush.
  destruct (has_on_flush x) eqn:Hh.
  - destruct (invoke_run (TMsg m) (OnFlush (error_of ec) false) s) as (r & s1 & Hi & G & Hr).
    assert (messages s1 !! m = Some x) as H1 by by eapply grows_msg_at.
    pose proof (notify_run (invoke (TMsg m)) (flush_l m) (OnFlush (error_of ec)) (outcome_of ec tt) s r s1
      ltac:(simpl; by rewrite Hx) Hi ltac:(simpl; by rewrite H1)) as Hn.
    destruct (or_unraisable_run _ id s r _ Hn id_quiet) as [C U].
    exists r, s1. split_and!; [done|by right|done|by apply core_upd_msg|].
    etransitivity; [exact U|]. simpl. by rewrite (g_unraisable _ _ G).
  - exists (Ok tt), s. unfold or_unraisable, fut_complete. simpl. rewrite Hx, Hf. simpl.
    split_and!; [done|by left|done|done|by rewrite app_nil_r].
Qed.

Definition is_protocol (k : call) : Prop :=
  match k with OnProtocolMessage _ _ _ _ => True | _ => False end.
Definition is_cont_message (k : call) : Prop :=
  match k with OnContinuationMessage _ _ _ _ => True | _ => False end.

(** A message that cannot be decoded is reported and dropped; any other is
    given to the handler. *)
Lemma message_run (on_message : list Header.binding_tuple -> option bytes -> Z -> Z -> M state unit)
    (mk : list Header.Header -> bytes -> MessageType -> Z -> call) t hs p ty fl s :
  (forall hs p ty fl, on_message hs p ty fl =
    let! args := lift (_from_binding_msg_args hs p ty fl) in
    let '(hs, p, ty, fl) := args in invoke t (mk hs p ty fl)) ->
  (exists e, _from_binding_msg_args hs p ty fl = Raise e /\
    or_unraisable (on_message hs p ty fl) id s = add_unraisable e s) \/
  (exists hs' p' ty' fl' r s1, grows (add_log (t, mk hs' p' ty' fl') s) s1 /\ from_handler r /\
    core (or_unraisable (on_message hs p ty fl) id s) = core s1 /\
    unraisable (or_unraisable (on_message hs p ty fl) id s) = unraisable s ++ errs r).
Proof.
  intros Hm. destruct (_from_binding_msg_args hs p ty fl) as [[[[hs' p'] ty'] fl']|e] eqn:E.
  - right. destruct (invoke_run t (mk hs' p' ty' fl') s) as (r & s1 & Hi & G & Hr).
    assert (on_message hs p ty fl s = (r, s1)) as Hrun by (rewrite Hm, E; exact Hi).
    destruct (or_unraisable_run _ id s r s1 Hrun id_quiet) as [C U].
    exists hs', p', ty', fl', r, s1. split_and!; [done|done|done|].
    etransitivity; [exact U|]. by rewrite (g_unraisable _ _ G).
  - left. exists e. split; [done|]. unfold or_unraisable. by rewrite Hm, E.
Qed.

(** *** The invariant *)

(** The connection: its futures, the reference held for callbacks and the calls
    of its handler follow the native connection. *)
Definition conn_ok (n : native_phase) (connect shutdown : future unit) (self : bool) (calls : list call)
    : Prop :=
  match n with
  | NIdle | NConnecting =>
      connect = Running /\ shutdown = Running /\ calls = [] /\ self = bool_decide (n = NConnecting)
  | NRefused => exists ec, ec <> 0 /\ connect = Finished (Raise (from_code ec)) /\ shutdown = Running /\
      calls = [OnConnectionSetup false (Some (from_code ec)) false] /\ self = false
  | NOpen => exists msgs, Forall is_protocol msgs /\ connect = Finished (Ok tt) /\ shutdown = Running /\
      calls = OnConnectionSetup true None false :: msgs /\ self = true
  | NDown => exists msgs ec, Forall is_protocol msgs /\ connect = Finished (Ok tt) /\
      shutdown = Finished (outcome_of ec tt) /\
      calls = OnConnectionSetup true None false :: msgs ++ [OnConnectionShutdown (error_of ec) false] /\
      self = false
  end.

(** A continuation: messages, then the close, and nothing after it. *)
Definition cont_ok (x : continuation) (calls : list call) : Prop :=
  match token x with
  | Fresh => closed_future x = Running /\ cont_self x = false /\ calls = []
  | Active => closed_future x = Running /\ cont_self x = true /\ Forall is_cont_message calls
  | Closed => closed_future x = Finished (Ok tt) /\ cont_self x = false /\
      exists msgs, Forall is_cont_message msgs /\ calls = msgs ++ [OnContinuationClosed false]
  end.

(** An accepted message: its future and its callback get the same outcome. *)
Definition msg_ok (x : message) (calls : list call) : Prop :=
  if in_flight x then flush_future x = Running /\ calls = []
  else exists ec, flush_future x = Finished (outcome_of ec tt) /\
    calls = if has_on_flush x then [OnFlush (error_of ec) false] else [].

Definition conn_inv (s : state) : Prop :=
  conn_ok (native s) (connect_future s) (shutdown_future s) (conn_self s) (log_of TConn s).
Definition cont_inv (c : nat) (s : state) : Prop :=
  match continuations s !! c with
  | Some x => cont_ok x (log_of (TCont c) s)
  | None => log_of (TCont c) s = []
  end.
Definition msg_inv (m : nat) (s : state) : Prop :=
  match messages s !! m with
  | Some x => msg_ok x (log_of (TMsg m) s)
  | None => log_of (TMsg m) s = []
  end.
Record inv (s : state) : Prop := {
  i_conn : conn_inv s;
  i_cont : forall c, cont_inv c s;
  i_msg : forall m, msg_inv m s;
}.

Lemma inv_core s s' : core s = core s' -> inv s -> inv s'.
Proof.
  intros C [A B D]. injection C as E1 E2 E3 E4 E5 E6 E7. constructor.
  - unfold conn_inv, log_of in *. by rewrite <- E1, <- E2, <- E3, <- E4, <- E7.
  - intros c. specialize (B c). unfold cont_inv, log_of in *. by rewrite <- E5, <- E7.
  - intros m. specialize (D m). unfold msg_inv, log_of in *. by rewrite <- E6, <- E7.
Qed.

Lemma log_of_add t t' k s :
  log_of t (add_log (t', k) s) = log_of t s ++ if bool_decide (t' = t) then [k] else [].
Proof.
  unfold log_of. simpl. rewrite List.filter_app, map_app. simpl. by case_bool_decide.
Qed.

Lemma log_of_grows s s' t : grows s s' -> log_of t s' = log_of t s.
Proof. intros G. unfold log_of. by rewrite (g_log _ _ G). Qed.

Lemma conn_inv_grows s s' : grows s s' -> conn_inv s -> conn_inv s'.
Proof.
  intros G. unfold conn_inv. by rewrite (g_native _ _ G), (g_connect _ _ G), (g_shutdown _ _ G), (g_self _ _ G),
    (log_of_grows _ _ _ G).
Qed.

Lemma cont_inv_grows c s s' : grows s s' -> cont_inv c s -> cont_inv c s'.
Proof.
  intros G. unfold cont_inv. rewrite (log_of_grows _ _ _ G).
  destruct (continuations s !! c) as [x|] eqn:Hx.
  - destruct (g_conts _ _ G c x Hx) as (x' & -> & [->|[Ht ->]]); [done|].
    unfold cont_ok. rewrite Ht. simpl. intros (-> & _ & ->). done.
  - intros Hl. destruct (continuations s' !! c) as [x'|] eqn:Hx'; [|done].
    destruct (g_new _ _ G c x' Hx Hx') as [-> | ->]; by rewrite Hl.
Qed.

Lemma msg_inv_grows m s s' : grows s s' -> msg_inv m s -> msg_inv m s'.
Proof.
  intros G. unfold msg_inv. rewrite (log_of_grows _ _ _ G). destruct (g_msgs _ _ G) as (n & -> & Hn).
  destruct (messages s !! m) as [x|] eqn:Hx; [by rewrite (lookup_app_l_Some _ _ _ _ Hx)|].
  intros Hl. destruct ((messages s ++ n) !! m) as [x'|] eqn:Hx'; [|done].
  apply lookup_app_Some in Hx' as [Hx'|[_ Hx']]; [by rewrite Hx in Hx'|].
  rewrite Forall_lookup in Hn. apply Hn in Hx' as [Hf Hi]. unfold msg_ok. rewrite Hi. done.
Qed.

Lemma inv_grows s s' : grows s s' -> inv s -> inv s'.
Proof.
  intros G [A B D]. constructor; [by eapply conn_inv_grows|intros c|intros m];
    [by eapply cont_inv_grows|by eapply msg_inv_grows].
Qed.

(** Around a handler call on [t], the invariants of the other objects stay. *)
Lemma cont_inv_call c t k s : t <> TCont c -> cont_inv c s -> cont_inv c (add_log (t, k) s).
Proof.
  intros Ht. unfold cont_inv. rewrite log_of_add, bool_decide_false, app_nil_r by done. done.
Qed.
Lemma msg_inv_call m t k s : t <> TMsg m -> msg_inv m s -> msg_inv m (add_log (t, k) s).
Proof.
  intros Ht. unfold msg_inv. rewrite log_of_add, bool_decide_false, app_nil_r by done. done.
Qed.
Lemma conn_inv_call t k s : t <> TConn -> conn_inv s -> conn_inv (add_log (t, k) s).
Proof.
  intros Ht. unfold conn_inv. rewrite log_of_add, bool_decide_false, app_nil_r by done. done.
Qed.

Lemma error_code_cases ec : (ec =? 0) = bool_decide (ec = 0).
Proof. case_bool_decide; [by apply Z.eqb_eq|by apply Z.eqb_neq]. Qed.

(** What a call on [t] and the user's operations leave of the invariant. *)
Lemma others_inv t k s s1 : inv s -> grows (add_log (t, k) s) s1 ->
  (t <> TConn -> conn_inv s1) /\ (forall c, t <> TCont c -> cont_inv c s1) /\
  (forall m, t <> TMsg m -> msg_inv m s1) /\ log_of t s1 = log_of t s ++ [k].
Proof.
  intros [A B D] G. split_and!.
  - intros Ht. eapply conn_inv_grows; [exact G|]. by apply conn_inv_call.
  - intros c Ht. eapply cont_inv_grows; [exact G|]. by apply cont_inv_call.
  - intros m Ht. eapply msg_inv_grows; [exact G|]. by apply msg_inv_call.
  - rewrite (log_of_grows _ _ _ G), log_of_add, bool_decide_true by done. done.
Qed.

(** The same when the other objects are those of another state [s0]. *)
Lemma others_inv_core t k s s0 s1 :
  inv s -> continuations s0 = continuations s -> messages s0 = messages s -> log s0 = log s ->
  grows (add_log (t, k) s0) s1 ->
  (forall c, t <> TCont c -> cont_inv c s1) /\ (forall m, t <> TMsg m -> msg_inv m s1) /\
  log_of t s1 = log_of t s ++ [k].
Proof.
  intros [A B D] Ec Em El G. split_and!.
  - intros c Ht. eapply cont_inv_grows; [exact G|]. apply cont_inv_call; [done|].
    specialize (B c). unfold cont_inv, log_of in *. by rewrite Ec, El.
  - intros m Ht. eapply msg_inv_grows; [exact G|]. apply msg_inv_call; [done|].
    specialize (D m). unfold msg_inv, log_of in *. by rewrite Em, El.
  - rewrite (log_of_grows _ _ _ G), log_of_add, bool_decide_true by done. unfold log_of. by rewrite El.
Qed.

Lemma inv_connect s gb h p b so tls : native s = NIdle -> inv s -> inv (discard (connect gb h p b so tls) s).
Proof.
  intros Hn Hi. assert (conn_self s = false) as Hs
    by (pose proof (i_conn _ Hi) as C; unfold conn_inv, conn_ok in C; rewrite Hn in C; apply C).
  unfold discard, connect, native_connect, bind, modify, lift, ret, try_except, ask, raise.
  destruct b as [b|]; [|destruct gb as [b|e]; simpl; [|done]];
    (destruct (native_answer _ _); simpl;
    [by destruct s; simpl in *; subst
    |destruct Hi as [A B D]; constructor; [|exact B|exact D];
     unfold conn_inv, conn_ok in *; rewrite Hn in A; simpl; destruct A as (? & ? & ? & _); done]).
Qed.

Lemma inv_setup s ec : native s = NConnecting -> inv s -> inv (s_on_connection_setup ec s).
Proof.
  intros Hn Hi. pose proof (i_conn _ Hi) as A. unfold conn_inv, conn_ok in A. rewrite Hn in A.
  destruct A as (Hc & Hsf & Hl & Hself).
  destruct (rpc_setup_run ec s Hc) as (r & s1 & G & _ & C & _). eapply inv_core; [symmetry; exact C|].
  destruct (others_inv_core TConn _ s (set_native (if ec =? 0 then NOpen else NRefused) s) s1 Hi
    eq_refl eq_refl eq_refl G) as (B & D & L).
  constructor; [|intros c; by apply B|intros m; by apply D].
  unfold conn_inv. change (log_of TConn (set_conn_self _ _)) with (log_of TConn s1). rewrite L, Hl. simpl.
  rewrite (g_native _ _ G), (g_shutdown _ _ G). simpl. rewrite error_code_cases. unfold outcome_of, error_of.
  case_bool_decide as He; simpl.
  - exists []. rewrite Hself. done.
  - exists ec. done.
Qed.

Lemma inv_shutdown s ec : native s = NOpen -> inv s -> inv (s_on_connection_shutdown ec s).
Proof.
  intros Hn Hi. pose proof (i_conn _ Hi) as A. unfold conn_inv, conn_ok in A. rewrite Hn in A.
  destruct A as (msgs & Hm & Hc & Hsf & Hl & Hself).
  destruct (rpc_shutdown_run ec s Hsf) as (r & s1 & G & _ & C & _). eapply inv_core; [symmetry; exact C|].
  destruct (others_inv_core TConn _ s (set_native NDown s) s1 Hi eq_refl eq_refl eq_refl G) as (B & D & L).
  constructor; [|intros c; by apply B|intros m; by apply D].
  unfold conn_inv. change (log_of TConn (set_conn_self _ _)) with (log_of TConn s1). rewrite L, Hl. simpl.
  rewrite (g_native _ _ G), (g_connect _ _ G). simpl. exists msgs, ec. done.
Qed.

Lemma inv_protocol s hs p ty fl : native s = NOpen -> inv s -> inv (s_on_protocol_message hs p ty fl s).
Proof.
  intros Hn Hi. pose proof (i_conn _ Hi) as A. unfold conn_inv, conn_ok in A. rewrite Hn in A.
  destruct A as (msgs & Hm & Hc & Hsf & Hl & Hself).
  destruct (message_run (_on_protocol_message (invoke TConn)) OnProtocolMessage TConn hs p ty fl s
    ltac:(done)) as [(e & _ & E)|(hs' & p' & ty' & fl' & r & s1 & G & _ & C & _)].
  - unfold s_on_protocol_message. rewrite E. by eapply inv_core; [|exact Hi].
  - eapply inv_core; [symmetry; exact C|]. destruct (others_inv _ _ s s1 Hi G) as (_ & B & D & L).
    constructor; [|intros c; by apply B|intros m; by apply D].
    unfold conn_inv, conn_ok. rewrite L, Hl, (g_native _ _ G), (g_connect _ _ G), (g_shutdown _ _ G), (g_self _ _ G).
    simpl. rewrite Hn. exists (msgs ++ [OnProtocolMessage hs' p' ty' fl']). split_and!; try done.
    apply Forall_app. by repeat constructor.
Qed.

Lemma inv_cont_message s c x hs p ty fl : continuations s !! c = Some x -> token x = Active -> inv s ->
  inv (s_on_continuation_message c hs p ty fl s).
Proof.
  intros Hx Ht Hi. pose proof (i_cont _ Hi c) as A. unfold cont_inv in A. rewrite Hx in A.
  destruct (message_run (_on_continuation_message (invoke (TCont c))) OnContinuationMessage (TCont c) hs p ty fl s
    ltac:(done)) as [(e & _ & E)|(hs' & p' & ty' & fl' & r & s1 & G & _ & C & _)].
  - unfold s_on_continuation_message. rewrite E. by eapply inv_core; [|exact Hi].
  - eapply inv_core; [symmetry; exact C|]. destruct (others_inv _ _ s s1 Hi G) as (A' & B & D & L).
    constructor; [by apply A'| |intros m; by apply D].
    intros d. destruct (decide (d = c)) as [->|Hd]; [|apply B; congruence].
    unfold cont_inv. rewrite (grows_past _ _ c x G Hx) by by rewrite Ht.
    rewrite L. unfold cont_ok in *. rewrite Ht in *. destruct A as (? & ? & ?). split_and!; try done.
    apply Forall_app. by repeat constructor.
Qed.

Lemma inv_closed s c x : continuations s !! c = Some x -> token x = Active -> inv s ->
  inv (s_on_continuation_closed c s).
Proof.
  intros Hx Ht Hi. pose proof (i_cont _ Hi c) as A. unfold cont_inv, cont_ok in A. rewrite Hx, Ht in A.
  destruct A as (Hf & _ & Hl).
  destruct (closed_run c x s Hx Hf) as (r & s1 & G & _ & H1 & C & _). eapply inv_core; [symmetry; exact C|].
  destruct Hi as [A B D].
  assert (log_of (TCont c) s1 = log_of (TCont c) s ++ [OnContinuationClosed false]) as L
    by (rewrite (log_of_grows _ _ _ G), log_of_add, bool_decide_true by done; done).
  constructor.
  - change (conn_inv s1). eapply conn_inv_grows; [exact G|]. by apply conn_inv_call.
  - intros d. unfold cont_inv. change (log_of (TCont d) (upd_cont _ _ _)) with (log_of (TCont d) s1).
    simpl. destruct (decide (d = c)) as [->|Hd].
    + rewrite !list_lookup_alter_eq, H1. simpl. rewrite L. unfold cont_ok. simpl. eauto.
    + rewrite !list_lookup_alter_ne by done. change (cont_inv d s1). eapply cont_inv_grows; [exact G|].
      apply cont_inv_call; [congruence|]. specialize (B d). unfold cont_inv in *. simpl.
      rewrite list_lookup_alter_ne by done. exact B.
  - intros m. change (msg_inv m s1). eapply msg_inv_grows; [exact G|]. apply msg_inv_call; [done|exact (D m)].
Qed.

Lemma inv_flush s m x ec : messages s !! m = Some x -> in_flight x = true -> inv s ->
  inv (on_message_flush m ec s).
Proof.
  intros Hx Hf Hi. pose proof (i_msg _ Hi m) as A. unfold msg_inv, msg_ok in A. rewrite Hx, Hf in A.
  destruct A as (Hr & Hl).
  destruct (flush_run m x ec s Hx Hr) as (r & s1 & G & _ & H1 & C & _). eapply inv_core; [symmetry; exact C|].
  assert (conn_inv s1 /\ (forall c, cont_inv c s1) /\ (forall m', m' <> m -> msg_inv m' s1) /\
    log_of (TMsg m) s1 = if has_on_flush x then [OnFlush (error_of ec) false] else []) as (Ac & Bc & Dc & L).
  { destruct (has_on_flush x).
    - destruct (others_inv _ _ s s1 Hi G) as (A' & B & D & L). rewrite L, Hl.
      split_and!; [by apply A'|intros c; by apply B|intros m' Hm'; apply D; congruence|done].
    - subst. split_and!; [apply Hi|apply Hi|intros; apply Hi|done]. }
  constructor; [exact Ac|exact Bc|].
  intros m'. unfold msg_inv. change (log_of (TMsg m') (upd_msg _ _ _)) with (log_of (TMsg m') s1). simpl.
  destruct (decide (m' = m)) as [->|Hd].
  - rewrite !list_lookup_alter_eq, H1. simpl. rewrite L. unfold msg_ok. simpl. eauto.
  - rewrite !list_lookup_alter_ne by done. by apply Dc.
Qed.

Lemma inv_step s s' : step s s' -> inv s -> inv s'.
Proof.
  destruct 1; intros Hi.
  - by apply inv_connect.
  - eapply inv_grows; [apply run_op_grows|done].
  - by apply inv_setup.
  - by apply inv_shutdown.
  - by apply inv_protocol.
  - by eapply inv_flush.
  - by eapply inv_closed.
  - by eapply inv_cont_message.
Qed.

Lemma inv_init : inv init.
Proof. constructor; [done|intros c|intros m]; unfold cont_inv, msg_inv; simpl; by rewrite ?lookup_nil. Qed.

Lemma client_inv s : reachable s -> inv s.
Proof.
  intros Hr. cut (forall s0, inv s0 -> rtc step s0 s -> inv s); [intros Hc; exact (Hc init inv_init Hr)|].
  clear Hr. intros s0 Hi Hs. induction Hs as [|a b c Hab Hbc IH]; [done|]. apply IH. by eapply inv_step.
Qed.

(** *** Exceptions that reach nobody *)

Lemma map_result_raise {A B} (f : A -> result B) l e :
  map_result f l = Raise e -> exists x, f x = Raise e.
Proof.
  induction l as [|x l IH]; simpl; [done|]. destruct (f x) eqn:E; simpl; [|intros [= ->]; eauto].
  destruct (map_result f l); simpl; [done|]. auto.
Qed.

Lemma decode_error hs p ty fl e :
  _from_binding_msg_args hs p ty fl = Raise e -> e <> InvalidStateError.
Proof.
  unfold _from_binding_msg_args, enum_call. destruct (map_result _ hs) as [l|e'] eqn:E; simpl.
  - destruct (enum_of ty); simpl; congruence.
  - intros [= ->]. apply map_result_raise in E as [[[n v] t] E].
    unfold Header._from_binding_tuple, enum_call, Header.UUID_of_bytes in E.
    destruct (enum_of t); simpl in E; [|congruence]. case_bool_decide; [|done].
    destruct v; simpl in E; try congruence. case_bool_decide; simpl in E; congruence.
Qed.

Lemma unraisable_step s s' : (forall s t k, (handler s t k).2 <> Raise InvalidStateError) ->
  inv s -> step s s' -> InvalidStateError ∉ unraisable s -> InvalidStateError ∉ unraisable s'.
Proof.
  intros Hh Hi Hs Hu.
  assert (forall r l, from_handler r -> l = unraisable s ++ errs r -> InvalidStateError ∉ l) as Hadd.
  { intros r l (s0 & t & k & ->) ->. specialize (Hh s0 t k). destruct (handler s0 t k).2; set_solver. }
  destruct Hs as [s gb h p b so tls Hn|s op Hv|s ec Hn|s ec Hn|s hs p ty fl Hn|s m x ec Hx Hf|s c x Hx Ht
    |s c x hs p ty fl Hx Ht].
  - unfold discard, connect, native_connect, bind, modify, lift, ret, try_except, ask, raise.
    destruct b as [b|]; [|destruct gb as [b|e]; simpl; [|done]]; by destruct (native_answer _ _).
  - by rewrite (g_unraisable _ _ (run_op_grows op s)).
  - pose proof (i_conn _ Hi) as A. unfold conn_inv, conn_ok in A. rewrite Hn in A. destruct A as (Hc & _).
    destruct (rpc_setup_run ec s Hc) as (r & s1 & _ & Hr & _ & U). by eapply Hadd.
  - pose proof (i_conn _ Hi) as A. unfold conn_inv, conn_ok in A. rewrite Hn in A.
    destruct A as (msgs & _ & _ & Hc & _).
    destruct (rpc_shutdown_run ec s Hc) as (r & s1 & _ & Hr & _ & U). by eapply Hadd.
  - destruct (message_run (_on_protocol_message (invoke TConn)) OnProtocolMessage TConn hs p ty fl s
      ltac:(done)) as [(e & E & E')|(? & ? & ? & ? & r & s1 & _ & Hr & _ & U)]; [|by eapply Hadd].
    unfold s_on_protocol_message. rewrite E'. simpl. apply decode_error in E. set_solver.
  - pose proof (i_msg _ Hi m) as A. unfold msg_inv, msg_ok in A. rewrite Hx, Hf in A. destruct A as (Hr & _).
    destruct (flush_run m x ec s Hx Hr) as (r & s1 & _ & [->|Hr'] & _ & _ & ->); [set_solver|by eapply Hadd].
  - pose proof (i_cont _ Hi c) as A. unfold cont_inv, cont_ok in A. rewrite Hx, Ht in A. destruct A as (Hf & _).
    destruct (closed_run c x s Hx Hf) as (r & s1 & _ & Hr & _ & _ & U). by eapply Hadd.
  - destruct (message_run (_on_continuation_message (invoke (TCont c))) OnContinuationMessage (TCont c) hs p ty
      fl s ltac:(done)) as [(e & E & E')|(? & ? & ? & ? & r & s1 & _ & Hr & _ & U)]; [|by eapply Hadd].
    unfold s_on_continuation_message. rewrite E'. simpl. apply decode_error in E. set_solver.
Qed.

Lemma reachable_unraisable s : (forall s t k, (handler s t k).2 <> Raise InvalidStateError) ->
  reachable s -> InvalidStateError ∉ unraisable s.
Proof.
  intros Hh Hr.
  cut (forall s0, inv s0 -> InvalidStateError ∉ unraisable s0 -> rtc step s0 s -> InvalidStateError ∉ unraisable s).
  { intros Hc. apply (Hc init inv_init); [set_solver|exact Hr]. }
  clear Hr. intros s0 Hi Hu Hs. induction Hs as [|a b c Hab Hbc IH]; [done|].
  apply IH; [by eapply inv_step|by eapply unraisable_step].
Qed.

Lemma rpc_objects_facts s : reachable s ->
  conn_ok (native s) (connect_future s) (shutdown_future s) (conn_self s) (log_of TConn s) /\
  (forall c x, continuations s !! c = Some x -> cont_ok x (log_of (TCont c) s)) /\
  (forall m x, messages s !! m = Some x -> msg_ok x (log_of (TMsg m) s)).
Proof.
  intros Hs. destruct (client_inv s Hs) as [A B D]. split_and!; [exact A| |].
  - intros c x Hx. specialize (B c). unfold cont_inv in B. by rewrite Hx in B.
  - intros m x Hx. specialize (D m). unfold msg_inv in D. by rewrite Hx in D.
Qed.

(** C5: Futures, handlers and references keep in step. In every state a client
    can reach, whatever the user's handlers do (use the connection and its
    streams, raise anything) and whatever order the native events come in: each
    future is open exactly as long as the event that settles it is outstanding,
    and then holds the outcome the native layer reported; the handler has been
    called once for that event, with that outcome and before the future was
    settled, and never again; a stream's messages come before its close, a
    connection's between setup and shutdown; and the binding holds its reference
    to a Python object exactly while callbacks on it can come, so no callback
    finds it gone and nothing keeps the object alive afterwards. No completion
    ever fails with InvalidStateError. *)
Theorem rpc_objects_consistent (s : state) (Hs : reachable s) :
  conn_ok (native s) (connect_future s) (shutdown_future s) (conn_self s) (log_of TConn s) /\
  (forall c x, continuations s !! c = Some x -> cont_ok x (log_of (TCont c) s)) /\
  (forall m x, messages s !! m = Some x -> msg_ok x (log_of (TMsg m) s)) /\
  ((forall s t k, (handler s t k).2 <> Raise InvalidStateError) -> InvalidStateError ∉ unraisable s).
Proof.
  destruct (rpc_objects_facts s Hs) as (A & B & D). split_and!; [done|done|done|].
  intros Hh. by apply reachable_unraisable.
Qed.

(** *** Refinement *)

Definition abs (s : state) : Session.session := Session.mkSession
  (match connect_future s with
   | Finished (Ok _) => match shutdown_future s with Finished r => Session.Down r | _ => Session.Up end
   | Finished (Raise e) => Session.Refused e
   | _ => Session.Connecting
   end)
  (map (fun x => Fut.done (closed_future x)) (continuations s))
  (map (fun x => match flush_future x with Finished r => Some r | _ => None end) (messages s)).

Lemma abs_core s s' : core s = core s' -> abs s = abs s'.
Proof. intros C. injection C as E1 E2 E3 E4 E5 E6 E7. unfold abs. by rewrite E2, E3, E5, E6. Qed.

Lemma conts_grow s s' : grows s s' -> exists n,
  map (fun x => Fut.done (closed_future x)) (continuations s') =
  map (fun x => Fut.done (closed_future x)) (continuations s) ++ replicate n false.
Proof.
  intros G. exists (length (continuations s') - length (continuations s))%nat. apply list_eq. intros c.
  rewrite list_lookup_fmap. destruct (continuations s !! c) as [x|] eqn:Hx.
  - destruct (g_conts _ _ G c x Hx) as (x' & -> & Hg).
    rewrite (lookup_app_l_Some _ _ _ (Fut.done (closed_future x))) by (by rewrite list_lookup_fmap, Hx).
    simpl. by destruct Hg as [->|[_ ->]].
  - rewrite lookup_app_r by (rewrite length_map; by apply lookup_ge_None). rewrite length_map.
    apply lookup_ge_None in Hx as Hle.
    destruct (continuations s' !! c) as [x'|] eqn:Hx'; simpl.
    + assert (Fut.done (closed_future x') = false) as ->
        by (by destruct (g_new _ _ G c x' Hx Hx') as [-> | ->]).
      symmetry. apply lookup_replicate_2. apply lookup_lt_Some in Hx'. lia.
    + symmetry. apply lookup_replicate_None. apply lookup_ge_None in Hx'. lia.
Qed.

Lemma msgs_grow s s' : grows s s' -> exists n,
  map (fun x => match flush_future x with Finished r => Some r | _ => None end) (messages s') =
  map (fun x => match flush_future x with Finished r => Some r | _ => None end) (messages s) ++ replicate n None.
Proof.
  intros G. destruct (g_msgs _ _ G) as (new & -> & Hn). exists (length new). rewrite map_app. f_equal.
  induction Hn as [|x l [Hf _] _ IH]; simpl; [done|]. by rewrite Hf, IH.
Qed.

(** User code only adds streams and messages. *)
Lemma grows_abs s s' : grows s s' -> rtc Session.step (abs s) (abs s').
Proof.
  intros G. destruct (conts_grow _ _ G) as (a & Ea), (msgs_grow _ _ G) as (b & Eb).
  assert (abs s' = Session.mkSession (Session.conn (abs s)) (Session.streams (abs s) ++ replicate a false)
    (Session.sent (abs s) ++ replicate b None)) as ->.
  { unfold abs at 1. rewrite Ea, Eb, (g_connect _ _ G), (g_shutdown _ _ G). done. }
  etransitivity; [|by apply Session.queue_messages]. etransitivity; [|by apply Session.open_streams].
  by destruct (abs s).
Qed.

Lemma map_alter {A B} (f : A -> B) (g : A -> A) l i x : l !! i = Some x ->
  map f (alter g i l) = <[i := f (g x)]> (map f l).
Proof.
  intros Hx. apply list_eq. intros j. rewrite list_lookup_fmap. destruct (decide (j = i)) as [->|Hj].
  - rewrite list_lookup_alter_eq, Hx. simpl. rewrite list_lookup_insert_eq; [done|].
    rewrite length_map. by eapply lookup_lt_Some.
  - rewrite list_lookup_alter_ne, list_lookup_insert_ne, list_lookup_fmap by done. done.
Qed.

Lemma abs_step_setup s ec : native s = NConnecting -> inv s ->
  rtc Session.step (abs s) (abs (s_on_connection_setup ec s)).
Proof.
  intros Hn Hi. pose proof (i_conn _ Hi) as A. unfold conn_inv, conn_ok in A. rewrite Hn in A.
  destruct A as (Hc & Hsf & _). destruct (rpc_setup_run ec s Hc) as (r & s1 & G & _ & C & _).
  rewrite (abs_core _ _ C). etransitivity; [exact (grows_abs _ s1 G)|].
  apply rtc_once. unfold abs. simpl. rewrite (g_connect _ _ G), (g_shutdown _ _ G). simpl. rewrite Hc, Hsf.
    unfold outcome_of. case_bool_decide; [apply Session.up|apply Session.refused].
Qed.

Lemma abs_step_shutdown s ec : native s = NOpen -> inv s ->
  rtc Session.step (abs s) (abs (s_on_connection_shutdown ec s)).
Proof.
  intros Hn Hi. pose proof (i_conn _ Hi) as A. unfold conn_inv, conn_ok in A. rewrite Hn in A.
  destruct A as (msgs & _ & Hc & Hsf & _). destruct (rpc_shutdown_run ec s Hsf) as (r & s1 & G & _ & C & _).
  rewrite (abs_core _ _ C). etransitivity; [exact (grows_abs _ s1 G)|].
  apply rtc_once. unfold abs. simpl. rewrite (g_connect _ _ G), (g_shutdown _ _ G). simpl. rewrite Hc, Hsf.
  apply Session.down.
Qed.

Lemma abs_step_closed s c x : continuations s !! c = Some x -> token x = Active -> inv s ->
  rtc Session.step (abs s) (abs (s_on_continuation_closed c s)).
Proof.
  intros Hx Ht Hi. pose proof (i_cont _ Hi c) as A. unfold cont_inv, cont_ok in A. rewrite Hx, Ht in A.
  destruct A as (Hf & _). destruct (closed_run c x s Hx Hf) as (r & s1 & G & _ & H1 & C & _).
  rewrite (abs_core _ _ C).
  assert (abs (add_log (TCont c, OnContinuationClosed false)
    (upd_cont c (fun x => mkCont (closed_future x) (cont_self x) Closed) s)) = abs s) as E0.
  { unfold abs. simpl. rewrite (map_alter _ _ _ c x Hx). simpl. f_equal.
    apply list_insert_id. by rewrite list_lookup_fmap, Hx. }
  etransitivity; [rewrite <- E0; exact (grows_abs _ s1 G)|].
  apply rtc_once. unfold abs. simpl.
  rewrite (map_alter _ _ (alter _ c (continuations s1)) c (mkCont (Finished (Ok tt)) (cont_self x) Closed))
    by (by rewrite list_lookup_alter_eq, H1).
  simpl. rewrite (map_alter _ _ _ c _ H1). simpl. rewrite list_insert_insert_eq.
  apply Session.close_stream. by rewrite list_lookup_fmap, H1.
Qed.

Lemma abs_step_flush s m x ec : messages s !! m = Some x -> in_flight x = true -> inv s ->
  rtc Session.step (abs s) (abs (on_message_flush m ec s)).
Proof.
  intros Hx Hf Hi. pose proof (i_msg _ Hi m) as A. unfold msg_inv, msg_ok in A. rewrite Hx, Hf in A.
  destruct A as (Hr & _). destruct (flush_run m x ec s Hx Hr) as (r & s1 & G & _ & H1 & C & _).
  rewrite (abs_core _ _ C).
  assert (rtc Session.step (abs s) (abs s1)) as Hg.
  { destruct (has_on_flush x); [|by subst]. exact (grows_abs _ s1 G). }
  etransitivity; [exact Hg|]. apply rtc_once. unfold abs. simpl.
  rewrite (map_alter _ _ (alter _ m (messages s1)) m (mkMsg (Finished (outcome_of ec tt)) (has_on_flush x) (in_flight x)))
    by (by rewrite list_lookup_alter_eq, H1).
  simpl. rewrite (map_alter _ _ _ m _ H1). simpl. rewrite list_insert_insert_eq.
  apply Session.flush. by rewrite list_lookup_fmap, H1; simpl; rewrite Hr.
Qed.

Lemma abs_step s s' : step s s' -> inv s -> rtc Session.step (abs s) (abs s').
Proof.
  destruct 1 as [s gb h p b so tls Hn|s op Hv|s ec Hn|s ec Hn|s hs p ty fl Hn|s m x ec Hx Hf|s c x Hx Ht
    |s c x hs p ty fl Hx Ht]; intros Hi.
  - unfold discard, connect, native_connect, bind, modify, lift, ret, try_except, ask, raise.
    destruct b as [b|]; [|destruct gb as [b|e]; simpl; [|done]]; by destruct (native_answer _ _).
  - apply grows_abs, run_op_grows.
  - by apply abs_step_setup.
  - by apply abs_step_shutdown.
  - destruct (message_run (_on_protocol_message (invoke TConn)) OnProtocolMessage TConn hs p ty fl s
      ltac:(done)) as [(e & _ & E)|(? & ? & ? & ? & r & s1 & G & _ & C & _)].
    + unfold s_on_protocol_message. by rewrite E.
    + unfold s_on_protocol_message. rewrite (abs_core _ _ C). exact (grows_abs _ s1 G).
  - by eapply abs_step_flush.
  - by eapply abs_step_closed.
  - destruct (message_run (_on_continuation_message (invoke (TCont c))) OnContinuationMessage (TCont c) hs p ty
      fl s ltac:(done)) as [(e & _ & E)|(? & ? & ? & ? & r & s1 & G & _ & C & _)].
    + unfold s_on_continuation_message. by rewrite E.
    + unfold s_on_continuation_message. rewrite (abs_core _ _ C). exact (grows_abs _ s1 G).
Qed.


(** When everything accepted has been answered, nothing is left open: the
    connection's futures, every stream that was activated and every message are
    settled, and no reference to a Python object is held. A stream that was never
    activated keeps its [closed_future] open for ever. *)
Lemma quiescent_settled s : reachable s -> native s = NRefused \/ native s = NDown ->
  (forall c x, continuations s !! c = Some x -> token x <> Active) ->
  (forall m x, messages s !! m = Some x -> in_flight x = false) ->
  Fut.done (connect_future s) = true /\ (native s = NDown -> Fut.done (shutdown_future s) = true) /\
  conn_self s = false /\
  (forall c x, continuations s !! c = Some x -> cont_self x = false /\
    closed_future x = if bool_decide (token x = Fresh) then Running else Finished (Ok tt)) /\
  (forall m x, messages s !! m = Some x -> Fut.done (flush_future x) = true).
Proof.
  intros Hr Hn Hc Hm. destruct (rpc_objects_facts s Hr) as (A & B & D). split_and!.
  - unfold conn_ok in A. destruct Hn as [Hn|Hn]; rewrite Hn in A; [destruct A as (? & _ & -> & _)|
      destruct A as (? & ? & _ & -> & _)]; done.
  - intros Hd. unfold conn_ok in A. rewrite Hd in A. by destruct A as (? & ? & _ & _ & -> & _).
  - unfold conn_ok in A. destruct Hn as [Hn|Hn]; rewrite Hn in A; [by destruct A as (? & _ & _ & _ & _ & ->)|
      by destruct A as (? & ? & _ & _ & _ & _ & ->)].
  - intros c x Hx. specialize (B c x Hx). specialize (Hc c x Hx). unfold cont_ok in B.
    destruct (token x); [by destruct B as (-> & -> & _)|done|by destruct B as (-> & -> & _)].
  - intros m x Hx. specialize (D m x Hx). specialize (Hm m x Hx). unfold msg_ok in D. rewrite Hm in D.
    by destruct D as (ec & -> & _).
Qed.
End Client.

(** *** A run *)

Definition demo_answer (s : state) (r : request) : option Z :=
  if is_connect r then None
  else if bool_decide (native s = NOpen) then
    match r with
    | RActivate c _ _ =>
        match continuations s !! c with
        | Some x => if bool_decide (token x = Fresh) then None else Some 2
        | None => Some 2
        end
    | _ => None
    end
  else Some 1.

#[refine] Instance demo_rpc : NativeRpc := {|
  native_answer := demo_answer;
  native_is_open := fun s => bool_decide (native s = NOpen);
  native_is_closed := fun s c => bool_decide (token <$> continuations s !! c = Some Closed);
  AWS_ERROR_CRT_CALLBACK_EXCEPTION := 3 |}.
Proof.
  intros s c x op a Hx Ht. unfold demo_answer. simpl. case_bool_decide; [|done].
  by rewrite Hx, bool_decide_false.
Defined.

Definition demo_args (cb : bool) : msg_args := mkArgs None None MessageType.APPLICATION_MESSAGE None cb.
(** The handler opens a stream at setup, and raises at every other event. *)
Definition demo_handler (_ : state) (_ : target) (k : call) : list user_op * result unit :=
  match k with
  | OnConnectionSetup true _ _ => ([UNewStream; UActivate 0 "op" (demo_args true); UActivate 0 "op" (demo_args true)], Ok tt)
  | _ => ([USendMessage 0 (demo_args false)], Raise (UserError 7))
  end.

Abbreviation demo_connect := (discard (connect (H:=demo_errors) (Ok 0%nat) "host" 443 None None None) init).
Abbreviation demo_up := (s_on_connection_setup (H:=demo_errors) 64 127 (fun s => Z.of_nat (String.length s))
  demo_handler 0 demo_connect).
Abbreviation demo_flushed := (on_message_flush (H:=demo_errors) 64 127 (fun s => Z.of_nat (String.length s))
  demo_handler 0 0 demo_up).
Abbreviation demo_closed := (s_on_continuation_closed (H:=demo_errors) 64 127
  (fun s => Z.of_nat (String.length s)) demo_handler 0 demo_flushed).
Abbreviation demo_down := (s_on_connection_shutdown (H:=demo_errors) 64 127
  (fun s => Z.of_nat (String.length s)) demo_handler 9 demo_closed).
Abbreviation demo_reachable := (reachable (H:=demo_errors) 64 127 (fun s => Z.of_nat (String.length s)) demo_handler).

Lemma demo_closed_reachable : demo_reachable demo_closed.
Proof.
  apply rtc_l with (y := demo_connect); [by apply step_connect|].
  apply rtc_l with (y := demo_up); [by apply step_setup|].
  apply rtc_l with (y := demo_flushed); [by eapply step_flush; reflexivity|].
  apply rtc_l with (y := demo_closed); [by eapply step_closed; reflexivity|]. apply rtc_refl.
Qed.
Lemma demo_down_step : step (H:=demo_errors) 64 127 (fun s => Z.of_nat (String.length s)) demo_handler
  demo_closed demo_down.
Proof. by apply step_shutdown. Qed.

Lemma rpc_objects_consistent_witness :
  msg_ok (H:=demo_errors) (mkMsg (Finished (Ok tt)) true false) (log_of (TMsg 0) demo_closed) /\
  unraisable demo_closed = [UserError 7; UserError 7].
Proof.
  destruct (rpc_objects_consistent (H:=demo_errors) 64 127 (fun s => Z.of_nat (String.length s)) demo_handler
    demo_closed demo_closed_reachable) as (_ & _ & Hm & _).
  split; [exact (Hm 0%nat _ eq_refl)|]. vm_compute. reflexivity.
Defined.

End Client.
