(* ===== verification/Mqtt3.v ===== *)
(** * awscrt/mqtt.py: MQTT 3.1.1 connections

    - [Handshake]: the WebSocket handshake transform, shared in all but one
      detail with mqtt5.py, together with the native code that calls it;
    - [Mqtt3]: the options a Connection accepts, its operations and their
      futures, and the lifecycle callbacks. *)
From S2P Require Import Prelude PyData Future Mqtt5Types Io Http Metrics.

Module QoS3.
Inductive QoS3 :=
  | AT_MOST_ONCE
  | AT_LEAST_ONCE
  | EXACTLY_ONCE.
Definition QoS3_value (e : QoS3) : Z :=
  match e with
  | AT_MOST_ONCE => 0
  | AT_LEAST_ONCE => 1
  | EXACTLY_ONCE => 2
  end.
#[global] Instance QoS3_eq_dec : EqDecision QoS3.
Proof. solve_decision. Defined.
#[global] Instance QoS3_IntEnum : IntEnum QoS3.
Proof.
  refine {| enum_value := QoS3_value; enum_members := [AT_MOST_ONCE; AT_LEAST_ONCE; EXACTLY_ONCE] |}.
  - solve_enum_complete.
  - solve_enum_nodup.
Defined.
End QoS3.
Abbreviation QoS3 := QoS3.QoS3.

Module ConnectReturnCode.
Inductive ConnectReturnCode :=
  | ACCEPTED
  | UNACCEPTABLE_PROTOCOL_VERSION
  | IDENTIFIER_REJECTED
  | SERVER_UNAVAILABLE
  | BAD_USERNAME_OR_PASSWORD
  | NOT_AUTHORIZED.
Definition ConnectReturnCode_value (e : ConnectReturnCode) : Z :=
  match e with
  | ACCEPTED => 0
  | UNACCEPTABLE_PROTOCOL_VERSION => 1
  | IDENTIFIER_REJECTED => 2
  | SERVER_UNAVAILABLE => 3
  | BAD_USERNAME_OR_PASSWORD => 4
  | NOT_AUTHORIZED => 5
  end.
#[global] Instance ConnectReturnCode_eq_dec : EqDecision ConnectReturnCode.
Proof. solve_decision. Defined.
#[global] Instance ConnectReturnCode_IntEnum : IntEnum ConnectReturnCode.
Proof.
  refine {| enum_value := ConnectReturnCode_value; enum_members := [ACCEPTED; UNACCEPTABLE_PROTOCOL_VERSION; IDENTIFIER_REJECTED; SERVER_UNAVAILABLE; BAD_USERNAME_OR_PASSWORD; NOT_AUTHORIZED] |}.
  - solve_enum_complete.
  - solve_enum_nodup.
Defined.
End ConnectReturnCode.
Abbreviation ConnectReturnCode := ConnectReturnCode.ConnectReturnCode.

(** ** The WebSocket handshake transform *)
Module Handshake.

(** [done_future] is the future behind [WebsocketHandshakeTransformArgs];
    [completions] the native completions so far: with an error code (0 for
    success), with AWS_ERROR_HTTP_CALLBACK_FAILURE, or the last resort of the
    binding. *)
Inductive completion := WithCode (error_code : Z) | HttpCallbackFailure | FromBinding.
Record state := mkState { done_future : future unit; completions : list completion }.
Definition init : state := mkState Pending [].

Definition complete_native (c : completion) (s : state) : state :=
  mkState (done_future s) (completions s ++ [c]).

(** [aws_py_mqtt_ws_handshake_transform_complete]: "OOi" takes the error code
    as a C int; an exception with no code of its own is a callback failure. *)
Definition ws_handshake_transform_complete (exception : option py_exn) (error_code : Z) : M state unit :=
  if (error_code <? - 2 ^ 31) || (error_code >=? 2 ^ 31)
  then raise (OverflowError "signed integer is out of range for a C int")
  else modify (complete_native
                 (if bool_decide (is_Some exception) && (error_code =? 0)
                  then HttpCallbackFailure else WithCode error_code)).

(** The done callback [_on_complete]. *)
Definition _on_complete (outcome : result unit) : M state unit :=
  match outcome with
  | Ok _ => ws_handshake_transform_complete None 0
  | Raise e =>
      let error_code := match as_AwsCrtError e with Some (code, _, _) => code | None => 0 end in
      ws_handshake_transform_complete (Some e) error_code
  end.

(** [transform_args.set_done(exception)]: completing the future runs its done
    callback in the same call; the future logs what the callback raises and
    goes on. *)
Definition set_done (exception : option py_exn) : M state unit := fun s =>
  let outcome := match exception with None => Ok tt | Some e => Raise e end in
  match Fut.complete outcome (done_future s) with
  | Ok f => (Ok tt, (_on_complete outcome (mkState f (completions s))).2)
  | Raise e => (Raise e, s)
  end.

(** What the user's transform callback does: return, raise, or call [set_done]
    and go on with its outcome. *)
Inductive user := UReturn | URaise (e : py_exn) | USetDone (exception : option py_exn) (k : result unit -> user).

Fixpoint run_user (u : user) : M state unit :=
  match u with
  | UReturn => ret tt
  | URaise e => raise e
  | USetDone ex k => fun s => let (r, s') := set_done ex s in run_user (k r) s'
  end.

(** [except Exception as e: if not future.done(): transform_args.set_done(e)] *)
Definition on_exception (transform_args_bound : bool) (e : py_exn) : M state unit :=
  let! f := gets done_future in
  if negb (Fut.done f)
  then if transform_args_bound then set_done (Some e)
       else raise (UnboundLocalError "transform_args")
  else ret tt.

(** [_ws_handshake_transform] of mqtt5.py ([HttpRequest._from_bindings] inside
    the try) and of mqtt.py (outside). *)
Definition _ws_handshake_transform5 (from_bindings : result unit) (cb : option user) : M state unit :=
  match cb with
  | None => ws_handshake_transform_complete None 0
  | Some u =>
      match from_bindings with
      | Ok _ => try_except is_Exception (run_user u) (on_exception true)
      | Raise e => try_except is_Exception (raise e) (on_exception false)
      end
  end.
Definition _ws_handshake_transform3 (from_bindings : result unit) (cb : option user) : M state unit :=
  match cb with
  | None => ws_handshake_transform_complete None 0
  | Some u =>
      do! lift from_bindings;
      try_except is_Exception (run_user u) (on_exception true)
  end.

(** [s_ws_handshake_transform] of the binding: when the handler raises, it
    completes the handshake itself. *)
Definition native_transform (handler : M state unit) (s : state) : state :=
  match handler s with
  | (Ok _, s') => s'
  | (Raise _, s') => complete_native FromBinding s'
  end.

(** What the native handshake should be told when the transform is done with
    [exception]: nothing at all when its code is no C int. *)
Definition told (exception : option py_exn) : list completion :=
  match exception with
  | None => [WithCode 0]
  | Some e =>
      match as_AwsCrtError e with
      | None => [HttpCallbackFailure]
      | Some (code, _, _) =>
          if decide (- 2 ^ 31 <= code < 2 ^ 31)
          then [if decide (code = 0) then HttpCallbackFailure else WithCode code] else []
      end
  end.

(** The first [set_done] of the callback, and how the callback ends when only
    the first one is accepted. *)
Definition called (u : user) : option (option py_exn) :=
  match u with USetDone ex _ => Some ex | _ => None end.
Fixpoint ends (u : user) (done : bool) : result unit :=
  match u with
  | UReturn => Ok tt
  | URaise e => Raise e
  | USetDone _ k => ends (k (if done then Raise InvalidStateError else Ok tt)) true
  end.

Definition outcome (ex : option py_exn) : result unit :=
  match ex with None => Ok tt | Some e => Raise e end.

Lemma told_length ex :
  (length (told ex) <= 1)%nat /\
  (told ex = [] <-> exists e code name msg, ex = Some e /\ as_AwsCrtError e = Some (code, name, msg) /\
                                        ~ (- 2 ^ 31 <= code < 2 ^ 31)).
Proof.
  unfold told. destruct ex as [e|]; [|split; [simpl; lia | split; [done | by intros (? & ? & ? & ? & ? & _)]]].
  destruct (as_AwsCrtError e) as [[[code n] m]|] eqn:E.
  - destruct (decide (- 2 ^ 31 <= code < 2 ^ 31)) as [Hr|Hr]; (split; [simpl; lia|]).
    + split; [done|]. intros (? & ? & ? & ? & ? & ? & ?). by simplify_eq.
    + split; [|done]. intros _. by exists e, code, n, m.
  - split; [simpl; lia|]. split; [done|]. intros (? & ? & ? & ? & ? & ? & ?). by simplify_eq.
Qed.

Lemma on_complete_told ex s :
  (_on_complete (outcome ex) s).2 = mkState (done_future s) (completions s ++ told ex).
Proof.
  destruct s as [f l]. unfold _on_complete, outcome, told, ws_handshake_transform_complete.
  destruct ex as [e|]; [|done].
  destruct (as_AwsCrtError e) as [[[code n] m]|]; [|done].
  case_decide as Hr.
  - replace (_ || _) with false by lia. case_decide as H0; simpl.
    + by rewrite H0.
    + by replace (code =? 0) with false by lia.
  - replace (_ || _) with true by lia. simpl. by rewrite app_nil_r.
Qed.

Lemma set_done_open ex l : set_done ex (mkState Pending l) = (Ok tt, mkState (Finished (outcome ex)) (l ++ told ex)).
Proof.
  change (set_done ex _) with
    (Ok (A:=unit) tt, (_on_complete (outcome ex) (mkState (Finished (outcome ex)) l)).2).
  by rewrite on_complete_told.
Qed.

Lemma run_user_done u o l : run_user u (mkState (Finished o) l) = (ends u true, mkState (Finished o) l).
Proof. induction u as [|e|ex k IH]; [done..|]. apply IH. Qed.

Lemma run_user_open u : run_user u init =
  (ends u false, match called u with
                 | None => init
                 | Some ex => mkState (Finished (outcome ex)) (told ex)
                 end).
Proof.
  destruct u as [|e|ex k]; [done..|]. unfold init. cbn [run_user].
  rewrite set_done_open, run_user_done. done.
Qed.

(** The handler after a run of the callback [u]. *)
Lemma native_transform_runs u handler :
  handler = _ws_handshake_transform5 (Ok tt) (Some u) \/
  handler = _ws_handshake_transform3 (Ok tt) (Some u) ->
  native_transform handler init =
  match called u, ends u false with
  | None, Ok _ => init
  | None, Raise e => if is_Exception e then mkState (Finished (Raise e)) (told (Some e))
                     else mkState Pending [FromBinding]
  | Some ex, Ok _ => mkState (Finished (outcome ex)) (told ex)
  | Some ex, Raise e => mkState (Finished (outcome ex))
                          (told ex ++ if is_Exception e then [] else [FromBinding])
  end.
Proof.
  intros Hh.
  assert (handler init = try_except is_Exception (run_user u) (on_exception true) init) as E.
  { by destruct Hh as [-> | ->]. }
  unfold native_transform. rewrite E. unfold try_except. rewrite run_user_open.
  destruct (called u) as [ex|], (ends u false) as [[]|e]; [done| |done|];
    (destruct (is_Exception e) eqn:Ee; [|done]); unfold on_exception, bind, gets, init;
    cbn [done_future Fut.done negb].
  - simpl. by rewrite app_nil_r.
  - by rewrite set_done_open.
Qed.

(** C25: What the native handshake is told. Whatever the user's transform
    callback does with [set_done] and however it ends, in mqtt.py and mqtt5.py
    alike: the first [set_done] alone counts, and an Exception of a callback
    that has not called it is taken as its argument. The native handshake is
    then completed exactly once, with the code of an AwsCrtError, with
    AWS_ERROR_HTTP_CALLBACK_FAILURE for another exception, with 0 for none.
    There are two exceptions. An AwsCrtError whose code is no C int completes
    nothing, and as the future is done nothing ever will. A callback that
    raises outside Exception (KeyboardInterrupt, SystemExit) has the binding
    complete the handshake, for the second time if the callback had called
    [set_done]. A callback that returns without [set_done] leaves the
    handshake open: the first later [set_done] completes it as above and any
    other one raises and completes nothing. A request that cannot be built, and
    a client without a transform, complete it once. *)
Theorem handshake_completed_once (u : user) (handler : M state unit) (ex ex' : option py_exn)
    (Hh : handler = _ws_handshake_transform5 (Ok tt) (Some u) \/
          handler = _ws_handshake_transform3 (Ok tt) (Some u)) :
  let s := native_transform handler init in
  (length (told ex) <= 1)%nat /\
  (told ex = [] <-> exists e code name msg, ex = Some e /\ as_AwsCrtError e = Some (code, name, msg) /\
                                         ~ (- 2 ^ 31 <= code < 2 ^ 31)) /\
  completions s =
    match called u, ends u false with
    | None, Ok _ => []
    | None, Raise e => if is_Exception e then told (Some e) else [FromBinding]
    | Some first, Ok _ => told first
    | Some first, Raise e => told first ++ (if is_Exception e then [] else [FromBinding])
    end /\
  (let '(r1, s1) := set_done ex s in
   let '(r2, s2) := set_done ex' s1 in
   r2 = Raise InvalidStateError /\ completions s2 = completions s1 /\
   (called u = None /\ ends u false = Ok tt -> r1 = Ok tt /\ completions s1 = told ex) /\
   (is_Some (called u) -> r1 = Raise InvalidStateError /\ completions s1 = completions s)) /\
  (forall e cb, length (completions (native_transform (_ws_handshake_transform5 (Raise e) (Some cb)) init)) = 1%nat /\
             length (completions (native_transform (_ws_handshake_transform3 (Raise e) (Some cb)) init)) = 1%nat) /\
  (forall b, completions (native_transform (_ws_handshake_transform5 b None) init) = [WithCode 0] /\
             completions (native_transform (_ws_handshake_transform3 b None) init) = [WithCode 0]).
Proof.
  cbv zeta. rewrite (native_transform_runs u handler Hh). destruct (told_length ex) as [Hl He].
  split_and!; [done|done|..].
  - destruct (called u), (ends u false) as [|e]; try done; by destruct (is_Exception e).
  - destruct (called u) as [first|], (ends u false) as [[]|e]; [..|destruct (is_Exception e)];
      try (unfold init; rewrite set_done_open);
      cbn; split_and!; try done; try (by intros []); by intros [? ?].
  - intros e cb. split; [|done]. unfold native_transform, _ws_handshake_transform5, try_except.
    simpl. by destruct (is_Exception e).
  - done.
Qed.

(** A callback that finishes the handshake and then exits the interpreter, and
    one whose error has an impossible code. *)
Definition demo_exit : user := USetDone None (fun _ => URaise (UserBaseException 0)).
Definition demo_code : user := URaise (AwsCrtError (2 ^ 31) "n" "m").

Lemma handshake_completed_once_witness :
  completions (native_transform (_ws_handshake_transform5 (Ok tt) (Some demo_exit)) init) = [WithCode 0; FromBinding] /\
  completions (native_transform (_ws_handshake_transform3 (Ok tt) (Some demo_code)) init) = [].
Proof.
  split.
  - destruct (handshake_completed_once demo_exit _ None None (or_introl eq_refl)) as (_ & _ & H & _).
    exact H.
  - destruct (handshake_completed_once demo_code _ None None (or_intror eq_refl)) as (_ & _ & H & _).
    exact H.
Defined.
End Handshake.

(** ** Connections *)
Module Mqtt3.

(** [QoS.to_mqtt5], [mqtt5.QoS.to_mqtt3] and [_try_qos] *)
Definition to_mqtt5 (q : QoS3) : result QoS := enum_call (enum_value q).
Definition to_mqtt3 (q : QoS) : result QoS3 := enum_call (enum_value q).
Definition _try_qos3 (qos_value : Z) : option QoS3 :=
  match enum_call qos_value with Ok q => Some q | Raise _ => None end.

(** The arguments of [Connection.__init__]; callables by their presence. *)
Record options := mkOptions {
  client_version : Z;                           (** 5: the client is a mqtt5.Client *)
  client_tls_ctx : option Tls.ClientTlsContext;
  host_name : string;
  port : option Z;                              (** None: an mqtt5 client that was given none *)
  client_id : string;
  clean_session : bool;
  reconnect_min_timeout_secs : Z;
  reconnect_max_timeout_secs : Z;
  keep_alive_secs : Z;
  ping_timeout_ms : Z;
  protocol_operation_timeout_ms : Z;
  socket_options : option nat;
  websocket_proxy_options : option Proxy.HttpProxyOptions;
  proxy_options : option Proxy.HttpProxyOptions;
  disable_metrics : bool;
  metrics : option Metrics.AWSIoTMetrics;
}.

(** A [Connection]: the accepted options with the proxy and the metrics settled. *)
Record Connection := mkConnection {
  c_options : options;
  c_proxy_options : option Proxy.HttpProxyOptions;
  _metrics : option Metrics.AWSIoTMetrics;
}.

Definition Connection_init (win32 : bool) (crt_version : string) (o : options) : result Connection :=
  if reconnect_min_timeout_secs o >? reconnect_max_timeout_secs o
  then Raise (ValueError "'reconnect_min_timeout_secs' cannot exceed 'reconnect_max_timeout_secs'")
  else if keep_alive_secs o * 1000 <=? ping_timeout_ms o
  then Raise (ValueError "'keep_alive_secs' duration must be longer than 'ping_timeout_ms'")
  else if bool_decide (is_Some (proxy_options o)) && bool_decide (is_Some (websocket_proxy_options o))
  then Raise (ValueError "Both parameters may not be set.")
  else
    let proxy := match proxy_options o with Some p => Some p | None => websocket_proxy_options o end in
    if disable_metrics o then Ok (mkConnection o proxy None)
    else let? m := Metrics._create_metrics_mqtt3 win32 crt_version (metrics o) proxy (client_tls_ctx o) in
         Ok (mkConnection o proxy (Some m)).

(** *** Lifecycle callbacks *)

Section Callbacks.
Context `{NativeErrors}.

(** A call of one of the user's lifecycle callbacks. *)
Inductive lifecycle :=
  | Interrupted (error : py_exn)
  | Resumed (return_code : ConnectReturnCode) (session_present : bool)
  | Closed
  | Success (return_code : ConnectReturnCode) (session_present : bool)
  | Failure (error : py_exn).

(** [if cb: cb(...)], the arguments being built before the call. *)
Definition notify (cb : option (lifecycle -> result unit)) (arg : result lifecycle) : result (list lifecycle) :=
  match cb with
  | None => Ok []
  | Some f => let? a := arg in let? _ := f a in Ok [a]
  end.

Definition _on_connection_interrupted cb (error_code : Z) := notify cb (Ok (Interrupted (from_code error_code))).
Definition _on_connection_resumed cb (return_code : Z) (session_present : bool) :=
  notify cb (let? rc := enum_call return_code in Ok (Resumed rc session_present)).
Definition _on_connection_closed cb := notify cb (Ok Closed).
Definition _on_connection_success cb (return_code : Z) (session_present : bool) :=
  notify cb (let? rc := enum_call return_code in Ok (Success rc session_present)).
Definition _on_connection_failure cb (error_code : Z) := notify cb (Ok (Failure (from_code error_code))).

(** *** Operations and their futures *)

(** The dict an operation's future is given. *)
Inductive op_result :=
  | Connected (session_present : bool)
  | Disconnected
  | Packet (packet_id : Z)
  | Subscribed (packet_id : Z) (topic : string) (qos : QoS3)
  | Resubscribed (packet_id : option Z) (topics : list (string * option QoS3)).
#[global] Instance op_result_eq_dec : EqDecision op_result.
Proof. solve_decision. Defined.

(** The native callbacks, as closures over the operation's future. *)
Definition complete (r : result op_result) : M (future op_result) unit := fun f =>
  match Fut.complete r f with Ok f' => (Ok tt, f') | Raise e => (Raise e, f) end.

Definition on_connect (error_code return_code : Z) (session_present : bool) : M (future op_result) unit :=
  if negb (return_code =? 0)
  then let! rc := lift (enum_call (E:=ConnectReturnCode) return_code) in
       complete (Raise (ConnectRefused (enum_value rc)))
  else complete (outcome_of error_code (Connected session_present)).

Definition on_disconnect : M (future op_result) unit := complete (Ok Disconnected).

Definition suback (packet_id : Z) (topic : string) (qos error_code : Z) : M (future op_result) unit :=
  if negb (error_code =? 0) then complete (Raise (from_code error_code))
  else match _try_qos3 qos with
       | None => complete (Raise (SubscribeError topic))
       | Some q => complete (Ok (Subscribed packet_id topic q))
       end.

Definition unsuback (packet_id error_code : Z) : M (future op_result) unit :=
  complete (outcome_of error_code (Packet packet_id)).
Definition puback := unsuback.

Definition on_suback (packet_id : Z) (topic_qos_tuples : list (string * Z)) (error_code : Z)
    : M (future op_result) unit :=
  complete (outcome_of error_code
    (Resubscribed (Some packet_id) (map (fun '(topic, qos) => (topic, _try_qos3 qos)) topic_qos_tuples))).

(** [try: packet_id = native(...) except Exception as e: future.set_exception(e)],
    up to the return of the operation: its future and packet id. *)
Definition start (native : result Z) : result (future op_result * Z) :=
  match native with
  | Ok packet_id => Ok (Pending, packet_id)
  | Raise e => if is_Exception e then Ok (Finished (Raise e), 0) else Raise e
  end.

(** [connect], [reconnect] and [disconnect] have no packet id. *)
Definition connect (native : result unit) : result (future op_result) :=
  let? (f, _) := start (let? _ := native in Ok 0) in Ok f.
Definition reconnect := connect.
Definition disconnect := connect.

(** A QoS argument: this module's, mqtt5's, or something else. *)
Inductive qos_arg := Qos3 (q : QoS3) | Qos5 (q : QoS) | QosOther.
Definition convert_qos (q : qos_arg) : result Z :=
  match q with
  | Qos3 q => Ok (enum_value q)
  | Qos5 q => let? q := to_mqtt3 q in Ok (enum_value q)
  | QosOther => Raise AssertionError
  end.

(** A message callback, by what [inspect.signature] finds. *)
Inductive callback_arg := NoCallback | TakesAll | TakesTopicPayload | TakesNeither.
Definition _check_uses_old_message_callback_signature (c : callback_arg) : result bool :=
  match c with
  | TakesAll => Ok false
  | TakesTopicPayload => Ok true
  | _ => Raise (TypeError "missing a required argument")
  end.

(** What [callback_wrapper] calls the user's callback with. *)
Inductive message_call :=
  | OldCall (topic payload : string)
  | NewCall (topic payload : string) (dup : bool) (qos : QoS3) (retain : bool).
Definition callback_wrapper (uses_old_signature : bool) (topic payload : string) (dup : bool) (qos : Z)
    (retain : bool) : result message_call :=
  if uses_old_signature then Ok (OldCall topic payload)
  else let? q := enum_call qos in Ok (NewCall topic payload dup q retain).

(** The wrapper an argument leads to, if it is accepted: [on_message] and the
    first lines of [subscribe]. *)
Definition wrapper_of (c : callback_arg) : result (option bool) :=
  match c with
  | NoCallback => Ok None
  | _ => let? old := _check_uses_old_message_callback_signature c in Ok (Some old)
  end.

Definition subscribe (native : string -> Z -> option bool -> result Z) (topic : string) (qos : qos_arg)
    (callback : callback_arg) : result (future op_result * Z) :=
  let? wrapper := wrapper_of callback in
  start (let? q := convert_qos qos in native topic q wrapper).

(** [on_message]: the wrapper replaces the one set before, None takes it away. *)
Definition on_message (native : option bool -> result unit) (callback : callback_arg) : result unit :=
  let? wrapper := wrapper_of callback in native wrapper.

(** [Will] and what [get_stats] makes of the native tuple. *)
Record Will := mkWill { will_topic : string; will_qos : QoS3; will_payload : string; will_retain : bool }.
Record OperationStatisticsData := mkStats {
  incomplete_operation_count : Z;
  incomplete_operation_size : Z;
  unacked_operation_count : Z;
  unacked_operation_size : Z;
}.
Definition get_stats (native : result (Z * Z * Z * Z)) : result OperationStatisticsData :=
  let? (a, b, c, d) := native in Ok (mkStats a b c d).

Definition publish (native : string -> string -> Z -> bool -> result Z) (topic payload : string)
    (qos : qos_arg) (retain : bool) : result (future op_result * Z) :=
  start (let? q := convert_qos qos in native topic payload q retain).

Definition unsubscribe (native : string -> result Z) (topic : string) : result (future op_result * Z) :=
  start (native topic).

(** The native call returns None when there is nothing to resubscribe to. *)
Definition resubscribe_existing_topics (native : result (option Z))
    : result (future op_result * option Z) :=
  match native with
  | Ok (Some packet_id) => Ok (Pending, Some packet_id)
  | Ok None => Ok (Finished (Ok (Resubscribed None [])), None)
  | Raise e => if is_Exception e then Ok (Finished (Raise e), Some 0) else Raise e
  end.

(** Every acknowledgement resolves its operation's future with what the
    server said: a pending future is completed by connect, disconnect, suback,
    unsuback, puback and resubscribe callbacks with the native error if there is
    one, and otherwise with the packet's data; a subscription the server
    refused (a QoS outside the protocol) is reported as SubscribeError; a
    refused connection as its return code, if the code is one of the
    specification. On any other return code the connect callback raises and
    the future is left pending for good. *)
Lemma acks_resolve_futures (packet_id error_code return_code qos : Z) (topic : string)
    (session_present : bool) (tqs : list (string * Z)) :
  (match (if return_code =? 0 then Some (outcome_of error_code (Connected session_present))
          else (fun rc : ConnectReturnCode => Raise (ConnectRefused (enum_value rc))) <$> enum_of return_code) with
   | Some r => on_connect error_code return_code session_present Pending = (Ok tt, Finished r)
   | None => on_connect error_code return_code session_present Pending =
               (Raise (ValueError "not a valid member"), Pending)
   end) /\
  on_disconnect Pending = (Ok tt, Finished (Ok Disconnected)) /\
  suback packet_id topic qos error_code Pending =
    (Ok tt, Finished (if error_code =? 0
                      then match enum_of qos with
                           | Some q => Ok (Subscribed packet_id topic q)
                           | None => Raise (SubscribeError topic)
                           end
                      else Raise (from_code error_code))) /\
  unsuback packet_id error_code Pending = (Ok tt, Finished (outcome_of error_code (Packet packet_id))) /\
  on_suback packet_id tqs error_code Pending =
    (Ok tt, Finished (outcome_of error_code
       (Resubscribed (Some packet_id) (map (fun '(t, q) => (t, enum_of q)) tqs)))).
Proof.
  split_and!; try done.
  - unfold on_connect, bind, lift, enum_call. destruct (return_code =? 0); simpl; [done|].
    by destruct (enum_of return_code).
  - unfold suback, _try_qos3, enum_call. destruct (error_code =? 0); simpl; [|done].
    by destruct (enum_of qos).
  - unfold on_suback, complete. simpl. do 4 f_equal. apply map_ext. intros [t q].
    unfold _try_qos3, enum_call. by destruct (enum_of q).
Qed.

(** Starting an operation never loses an error: an exception of the native
    call (or a QoS that is not one) ends up in the returned future, with packet
    id 0, instead of being raised; otherwise the future is pending and carries
    the native packet id, the QoS of either enumeration having been passed on
    by value; and the only thing that is raised directly is a message callback
    with an unusable signature, before anything is sent. *)
Lemma operations_report_errors (native : string -> Z -> option bool -> result Z)
    (topic : string) (qos : qos_arg) (callback : callback_arg)
    (Hn : forall t q w e, native t q w = Raise e -> is_Exception e = true) :
  match wrapper_of callback with
  | Raise e => subscribe native topic qos callback = Raise e /\ e = TypeError "missing a required argument"
  | Ok w =>
      match qos with
      | QosOther => subscribe native topic qos callback = Ok (Finished (Raise AssertionError), 0)
      | _ => exists q, convert_qos qos = Ok q /\
          q = (match qos with Qos3 q => enum_value q | Qos5 q => enum_value q | QosOther => 0 end) /\
          subscribe native topic qos callback =
            match native topic q w with
            | Ok packet_id => Ok (Pending, packet_id)
            | Raise e => Ok (Finished (Raise e), 0)
            end
      end
  end.
Proof.
  unfold subscribe. destruct (wrapper_of callback) as [w|e] eqn:Ew; simpl.
  - destruct qos as [q|q|]; simpl; [| |done].
    + exists (enum_value q). split_and!; [done|done|]. unfold start.
      destruct (native topic (enum_value q) w) eqn:E; [done|]. by rewrite (Hn _ _ _ _ E).
    + assert (exists q3 : QoS3, to_mqtt3 q = Ok q3 /\ enum_value q3 = enum_value q) as (q3 & Eq & Ev).
      { unfold to_mqtt3. destruct q; eexists; split; reflexivity. }
      exists (enum_value q). rewrite Eq. simpl. rewrite Ev. split_and!; [done|done|]. unfold start.
      destruct (native topic (enum_value q) w) eqn:E; [done|]. by rewrite (Hn _ _ _ _ E).
  - split; [done|]. destruct callback; simpl in Ew; by simplify_eq.
Qed.
End Callbacks.

Lemma operations_report_errors_witness :
  subscribe (fun _ _ _ => Raise (AwsCrtError 5 "n" "m")) "t" (Qos5 QoS.AT_LEAST_ONCE) NoCallback =
  Ok (Finished (Raise (AwsCrtError 5 "n" "m")), 0).
Proof.
  destruct (operations_report_errors (fun _ _ _ => Raise (AwsCrtError 5 "n" "m")) "t"
    (Qos5 QoS.AT_LEAST_ONCE) NoCallback ltac:(intros t q w e [= <-]; reflexivity)) as (q & _ & _ & H).
  exact H.
Defined.
End Mqtt3.
