(* ===== verification/Mqtt5.v ===== *)
(** * awscrt/mqtt5.py: the MQTT5 client

    - [Publish]: the received-PUBLISH handler with its acknowledgement control
      closure, together with the native code that acknowledges;
    - [Events]: translation of native packets into Python packets, for every
      lifecycle event and received PUBLISH, with the strings that do not decode,
      against an abstract view of the packet;
    - [Ops]: the futures of publish, subscribe and unsubscribe;
    - [Client5]: the client's constructor and the MQTT 3.1.1 adapter. *)
From S2P Require Import Prelude PyData Future Mqtt5Types Io Http Metrics Mqtt3.

(** ** Received PUBLISH packets *)
Module Publish.

(** The two variables the closure [acquire_publish_acknowledgement_control]
    shares with the handler, and what was done natively: each invocation of the
    acknowledgement with its control id. *)
Record state := mkState { puback_taken : bool; callback_active : bool; native_acks : list Z }.
Definition init : state := mkState false true [].

(** The closure itself; the handle it returns is its control id. *)
Definition acquire (puback_control_id : Z) : M state Z := fun s =>
  if puback_taken s then
    (Raise (RuntimeError "acquire_publish_acknowledgement_control() may only be called once per received PUBLISH."), s)
  else if negb (callback_active s) then
    (Raise (RuntimeError "acquire_publish_acknowledgement_control() must be called within the on_publish_callback_fn callback."), s)
  else (Ok puback_control_id, mkState true (callback_active s) (native_acks s)).

(** What the user's callback does: return, raise, or try to take control of the
    acknowledgement and go on with the outcome. *)
Inductive user := UReturn | URaise (e : py_exn) | UAcquire (k : result Z -> user).

(** [data.acquire_publish_acknowledgement_control()]: the attribute is None
    when there is no control id. *)
Definition call_acquire (puback_control_id : Z) : M state Z :=
  if puback_control_id =? 0 then raise (TypeError "'NoneType' object is not callable")
  else acquire puback_control_id.

Fixpoint run_user (puback_control_id : Z) (u : user) : M state unit :=
  match u with
  | UReturn => ret tt
  | URaise e => raise e
  | UAcquire k => fun s => let (r, s') := call_acquire puback_control_id s in
                           run_user puback_control_id (k r) s'
  end.

(** [_on_publish] after the packet has been built; None: no callback. *)
Definition _on_publish (cb : option user) (puback_control_id : Z) : M state bool :=
  match cb with
  | None => ret false
  | Some u =>
      do! run_user puback_control_id u;
      do! modify (fun s => mkState (puback_taken s) false (native_acks s));
      gets puback_taken
  end.

(** [invoke_publish_acknowledgement] of the native client. *)
Definition native_ack (id : Z) (s : state) : state :=
  mkState (puback_taken s) (callback_active s) (native_acks s ++ [id]).

(** [s_on_publish_received] of the binding: an error or a false result makes it
    acknowledge. *)
Definition native_on_publish (cb : option user) (puback_control_id : Z) (s : state) : state :=
  match _on_publish cb puback_control_id s with
  | (Raise _, s') => if negb (puback_control_id =? 0) then native_ack puback_control_id s' else s'
  | (Ok b, s') => if negb (puback_control_id =? 0) && negb b then native_ack puback_control_id s' else s'
  end.

Lemma run_user_state id u s :
  callback_active s = true ->
  callback_active (run_user id u s).2 = true /\ native_acks (run_user id u s).2 = native_acks s /\
  (puback_taken s = true -> puback_taken (run_user id u s).2 = true) /\
  (id = 0 -> puback_taken (run_user id u s).2 = puback_taken s).
Proof.
  revert s. induction u as [|e|k IH]; intros s Ha; simpl; [done..|].
  unfold call_acquire, acquire, raise.
  destruct (Z.eqb_spec id 0) as [->|Hid]; simpl.
  - by apply IH.
  - destruct (puback_taken s) eqn:Et; [|rewrite Ha; simpl].
    + edestruct IH as (H1 & H2 & H3 & _); [exact Ha|].
      split_and!; [exact H1 | exact H2 | intros _; apply H3, Et | done].
    + destruct (IH (Ok id) (mkState true (callback_active s) (native_acks s)) Ha) as (H1 & H2 & H3 & _).
      rewrite Ha in *. split_and!; [exact H1 | exact H2 | intros _; by apply H3 | done].
Qed.

(** Attempts to take control that succeed while the callback runs. *)
Fixpoint successes (id : Z) (u : user) (s : state) : nat :=
  match u with
  | UAcquire k =>
      let (r, s') := call_acquire id s in
      ((if is_ok r then 1 else 0) + successes id (k r) s')%nat
  | _ => 0%nat
  end.

Lemma successes_taken id u s :
  callback_active s = true ->
  successes id u s = if puback_taken s then 0%nat
                     else if puback_taken (run_user id u s).2 then 1%nat else 0%nat.
Proof.
  revert s. induction u as [|e|k IH]; intros s Ha; simpl; [by destruct (puback_taken s)..|].
  unfold call_acquire, acquire, raise.
  destruct (Z.eqb_spec id 0) as [->|Hid]; simpl; [by rewrite IH|].
  destruct (puback_taken s) eqn:Et; simpl.
  - rewrite IH by done. by rewrite Et.
  - rewrite Ha. simpl. rewrite IH by done. simpl.
    destruct (run_user_state id (k (Ok id)) (mkState true (callback_active s) (native_acks s)) Ha)
      as (_ & _ & H3 & _). rewrite Ha in H3. by rewrite H3.
Qed.

(** C4: Every QoS 1 PUBLISH that reaches the handler is acknowledged by exactly
    one party. If the user's callback returns, the user got at most one handle
    however often it asked; the native layer acknowledges exactly when the user
    got none; and from then on the closure only raises, so no second handle can
    appear. A QoS 0 PUBLISH (control id 0) is acknowledged by nobody, and a
    client without a callback leaves every acknowledgement to the native
    layer. *)
Theorem publish_acknowledged_once (u : user) (id : Z)
    (Hr : (run_user id u init).1 = Ok tt) :
  let s := native_on_publish (Some u) id init in
  (successes id u init + length (native_acks s) = if (id =? 0)%Z then 0 else 1)%nat /\
  (successes id u init <= 1)%nat /\
  (forall a, a ∈ native_acks s -> a = id) /\
  (exists e, (acquire id s).1 = Raise e) /\
  native_acks (native_on_publish None id init) = (if id =? 0 then [] else [id]).
Proof.
  cbv zeta. pose proof (run_user_state id u init eq_refl) as (Ha & Hn & _ & H0).
  pose proof (successes_taken id u init eq_refl) as Hs. simpl in Hs.
  unfold native_on_publish, _on_publish, bind, modify, gets, ret.
  destruct (run_user id u init) as [r s] eqn:E. simpl in *. subst r.
  destruct (Z.eqb_spec id 0) as [->|Hid]; simpl.
  - rewrite (H0 eq_refl) in Hs. simpl in Hs. rewrite Hs, Hn. simpl. split_and!; try done; try lia.
    + intros a Hin. set_solver.
    + unfold acquire. simpl. destruct (puback_taken s); by eexists.
  - rewrite Hs. destruct (puback_taken s) eqn:Et; simpl; rewrite Hn; simpl; split_and!; try done; try lia;
      try (intros a Hin; set_solver); unfold acquire; simpl; eauto.
Qed.

(** When the user's callback raises, ownership breaks down. The native
    layer then acknowledges in every case, also when the callback had taken
    control before it raised, so the handle the user holds acknowledges a
    second time; and since the handler never marks the callback as over, the
    closure still hands out control after the callback, if it was not taken
    before. *)
Lemma raising_callback_double_ack (u : user) (id : Z) (e : py_exn)
    (Hid : id <> 0) (Hr : (run_user id u init).1 = Raise e) :
  let s := native_on_publish (Some u) id init in
  native_acks s = [id] /\ callback_active s = true /\
  (successes id u init = 1%nat <-> puback_taken s = true) /\
  (puback_taken s = false -> (acquire id s).1 = Ok id).
Proof.
  cbv zeta. pose proof (run_user_state id u init eq_refl) as (Ha & Hn & _ & _).
  pose proof (successes_taken id u init eq_refl) as Hs. simpl in Hs.
  unfold native_on_publish, _on_publish, bind.
  destruct (run_user id u init) as [r s] eqn:E. simpl in *. subst r.
  destruct (Z.eqb_spec id 0) as [|_]; [done|]. simpl. rewrite Hn, Hs. simpl. split_and!; try done.
  - by destruct (puback_taken s).
  - intros Ht. unfold acquire. simpl. by rewrite Ht, Ha.
Qed.

Definition demo_greedy : user := UAcquire (fun _ => UAcquire (fun _ => UReturn)).
Definition demo_take_and_raise : user := UAcquire (fun _ => URaise (UserError 1)).

Lemma publish_acknowledged_once_witness :
  native_acks (native_on_publish (Some demo_greedy) 9 init) = [] /\ successes 9 demo_greedy init = 1%nat.
Proof.
  destruct (publish_acknowledged_once demo_greedy 9 eq_refl) as (H & _).
  split; [reflexivity|]. cbv in H |- *. exact H.
Defined.

Lemma raising_callback_double_ack_witness :
  successes 9 demo_take_and_raise init = 1%nat /\
  native_acks (native_on_publish (Some demo_take_and_raise) 9 init) = [9].
Proof.
  destruct (raising_callback_double_ack demo_take_and_raise 9 (UserError 1) ltac:(discriminate) eq_refl)
    as (H1 & _ & H2 & _).
  split; [apply H2; reflexivity | exact H1].
Defined.
End Publish.

(** ** Packets received from the native client *)
Module Events.

(** *** The native packets (aws_mqtt5_packet_..._view), pointers as options;
    their strings are bytes *)

Record connack_view := mkConnackView {
  v_session_present : bool;
  v_reason_code : Z;
  v_session_expiry_interval : option Z;
  v_receive_maximum : option Z;
  v_maximum_qos : option Z;
  v_retain_available : option bool;
  v_maximum_packet_size : option Z;
  v_assigned_client_identifier : option string;
  v_topic_alias_maximum : option Z;
  v_reason_string : option string;
  v_user_properties : list (string * string);
  v_wildcard_subscriptions_available : option bool;
  v_subscription_identifiers_available : option bool;
  v_shared_subscriptions_available : option bool;
  v_server_keep_alive : option Z;
  v_response_information : option string;
  v_server_reference : option string;
}.

Record settings_view := mkSettingsView {
  n_maximum_qos : Z; n_session_expiry_interval : Z; n_receive_maximum_from_server : Z;
  n_maximum_packet_size_to_server : Z; n_topic_alias_maximum_to_server : Z;
  n_topic_alias_maximum_to_client : Z; n_server_keep_alive : Z; n_retain_available : bool;
  n_wildcard_subscriptions_available : bool; n_subscription_identifiers_available : bool;
  n_shared_subscriptions_available : bool; n_rejoined_session : bool; n_client_id : string;
}.

Record disconnect_view := mkDisconnectView {
  d_reason_code : Z; d_session_expiry_interval : option Z; d_reason_string : option string;
  d_user_properties : list (string * string); d_server_reference : option string;
}.

Record publish_view := mkPublishView {
  p_payload : string; p_qos : Z; p_retain : bool; p_topic : string; p_payload_format : option Z;
  p_message_expiry_interval : option Z; p_topic_alias : option Z; p_response_topic : option string;
  p_correlation_data : option string; p_subscription_identifiers : list Z;
  p_content_type : option string; p_user_properties : list (string * string);
}.

(** *** The flat argument lists the binding calls the handlers with: an
    optional number becomes a flag and a value, 0 when absent. *)

Record flagged A := mkFlagged { exists_ : bool; value_ : A }.
Arguments mkFlagged {A} _ _.
Arguments exists_ {A} _.
Arguments value_ {A} _.

Definition flag_Z (o : option Z) : flagged Z :=
  match o with Some z => mkFlagged true z | None => mkFlagged false 0 end.
Definition flag_bool (o : option bool) : flagged bool :=
  match o with Some b => mkFlagged true b | None => mkFlagged false false end.
(** [count > 0 ? list : Py_None] *)
Definition list_or_none {A} (l : list A) : option (list A) := match l with [] => None | _ => Some l end.

Record connack_args := mkConnackArgs {
  connack_session_present : bool;
  connack_reason_code : Z;
  connack_session_expiry_interval_sec : flagged Z;
  connack_receive_maximum : flagged Z;
  connack_maximum_qos : flagged Z;
  connack_retain_available : flagged bool;
  connack_maximum_packet_size : flagged Z;
  connack_assigned_client_identifier : option string;
  connack_topic_alias_maximum : flagged Z;     (** not passed with a failure *)
  connack_reason_string : option string;
  connack_user_properties_tuples : option (list (string * string));
  connack_wildcard_subscriptions_available : flagged bool;
  connack_subscription_identifiers_available : flagged bool;
  connack_shared_subscriptions_available : flagged bool;
  connack_server_keep_alive : flagged Z;
  connack_response_information : option string;
  connack_server_reference : option string;
}.

(** The arguments of a connection failure without a CONNACK. *)
Definition no_connack : connack_args :=
  mkConnackArgs false 0 (mkFlagged false 0) (mkFlagged false 0) (mkFlagged false 0) (mkFlagged false false)
    (mkFlagged false 0) None (mkFlagged false 0) None None (mkFlagged false false) (mkFlagged false false)
    (mkFlagged false false) (mkFlagged false 0) None None.

(** [if exists: packet.field = value] on a field that starts as None *)
Definition if_exists {A} (f : flagged A) : option A := if exists_ f then Some (value_ f) else None.

(** *** The handlers *)

Inductive event :=
  | Stopped
  | AttemptingConnect
  | ConnectSuccess (connack_packet : ConnackPacket) (negotiated_settings : NegotiatedSettings)
  | ConnectFailure (connack_packet : option ConnackPacket) (exception : py_exn)
  | Disconnect (disconnect_packet : option DisconnectPacket) (exception : py_exn)
  | Received (publish_packet : PublishPacket).

(** The CONNACK of [_on_lifecycle_connection_success]. *)
Definition success_connack (a : connack_args) : ConnackPacket := {|
  ConnackPacket.session_present := Some (connack_session_present a);
  ConnackPacket.reason_code := _try_connect_reason_code (connack_reason_code a);
  ConnackPacket.session_expiry_interval_sec := if_exists (connack_session_expiry_interval_sec a);
  ConnackPacket.receive_maximum := if_exists (connack_receive_maximum a);
  ConnackPacket.maximum_qos :=
    if exists_ (connack_maximum_qos a) then _try_qos (value_ (connack_maximum_qos a)) else None;
  ConnackPacket.retain_available := if_exists (connack_retain_available a);
  ConnackPacket.maximum_packet_size := if_exists (connack_maximum_packet_size a);
  ConnackPacket.assigned_client_identifier := connack_assigned_client_identifier a;
  ConnackPacket.topic_alias_maximum := if_exists (connack_topic_alias_maximum a);
  ConnackPacket.reason_string := connack_reason_string a;
  ConnackPacket.user_properties := _init_user_properties (connack_user_properties_tuples a);
  ConnackPacket.wildcard_subscriptions_available := if_exists (connack_wildcard_subscriptions_available a);
  ConnackPacket.subscription_identifiers_available := if_exists (connack_subscription_identifiers_available a);
  ConnackPacket.shared_subscription_available := if_exists (connack_shared_subscriptions_available a);
  ConnackPacket.server_keep_alive_sec := if_exists (connack_server_keep_alive a);
  ConnackPacket.response_information := connack_response_information a;
  ConnackPacket.server_reference := connack_server_reference a;
|}.

(** The CONNACK of [_on_lifecycle_connection_failure], which has no
    topic_alias_maximum argument. *)
Definition failure_connack (a : connack_args) : ConnackPacket := {|
  ConnackPacket.session_present := Some (connack_session_present a);
  ConnackPacket.reason_code := _try_connect_reason_code (connack_reason_code a);
  ConnackPacket.session_expiry_interval_sec := if_exists (connack_session_expiry_interval_sec a);
  ConnackPacket.receive_maximum := if_exists (connack_receive_maximum a);
  ConnackPacket.maximum_qos :=
    if exists_ (connack_maximum_qos a) then _try_qos (value_ (connack_maximum_qos a)) else None;
  ConnackPacket.retain_available := if_exists (connack_retain_available a);
  ConnackPacket.maximum_packet_size := if_exists (connack_maximum_packet_size a);
  ConnackPacket.assigned_client_identifier := connack_assigned_client_identifier a;
  ConnackPacket.topic_alias_maximum := None;
  ConnackPacket.reason_string := connack_reason_string a;
  ConnackPacket.user_properties := _init_user_properties (connack_user_properties_tuples a);
  ConnackPacket.wildcard_subscriptions_available := if_exists (connack_wildcard_subscriptions_available a);
  ConnackPacket.subscription_identifiers_available := if_exists (connack_subscription_identifiers_available a);
  ConnackPacket.shared_subscription_available := if_exists (connack_shared_subscriptions_available a);
  ConnackPacket.server_keep_alive_sec := if_exists (connack_server_keep_alive a);
  ConnackPacket.response_information := connack_response_information a;
  ConnackPacket.server_reference := connack_server_reference a;
|}.

(** The settings arguments are the view itself, except for the client id. *)
Definition negotiated (n : settings_view) (settings_client_id : option string) : NegotiatedSettings := {|
  NegotiatedSettings.maximum_qos := _try_qos (n_maximum_qos n);
  NegotiatedSettings.session_expiry_interval_sec := n_session_expiry_interval n;
  NegotiatedSettings.receive_maximum_from_server := n_receive_maximum_from_server n;
  NegotiatedSettings.maximum_packet_size_to_server := n_maximum_packet_size_to_server n;
  NegotiatedSettings.topic_alias_maximum_to_server := n_topic_alias_maximum_to_server n;
  NegotiatedSettings.topic_alias_maximum_to_client := n_topic_alias_maximum_to_client n;
  NegotiatedSettings.server_keep_alive_sec := n_server_keep_alive n;
  NegotiatedSettings.retain_available := n_retain_available n;
  NegotiatedSettings.wildcard_subscriptions_available := n_wildcard_subscriptions_available n;
  NegotiatedSettings.subscription_identifiers_available := n_subscription_identifiers_available n;
  NegotiatedSettings.shared_subscriptions_available := n_shared_subscriptions_available n;
  NegotiatedSettings.rejoined_session := n_rejoined_session n;
  NegotiatedSettings.client_id := settings_client_id;
|}.

Section Handlers.
Context `{NativeErrors}.
(** UTF-8 bytes as a [str]: None when they do not decode. *)
Variable decode_utf8 : string -> option string.

(** [if cb is None: return] then build the data and call it: the event the
    callback gets, if any. *)
Definition deliver (has_cb : bool) (e : event) : option event := if has_cb then Some e else None.

Definition _on_lifecycle_stopped (has_cb : bool) := deliver has_cb Stopped.
Definition _on_lifecycle_attempting_connect (has_cb : bool) := deliver has_cb AttemptingConnect.

Definition _on_lifecycle_connection_success (has_cb : bool) (a : connack_args) (n : settings_view)
    (settings_client_id : option string) :=
  deliver has_cb (ConnectSuccess (success_connack a) (negotiated n settings_client_id)).

Definition _on_lifecycle_connection_failure (has_cb : bool) (error_code : Z)
    (connack_packet_exists : bool) (a : connack_args) :=
  deliver has_cb (if connack_packet_exists
                  then ConnectFailure (Some (failure_connack a)) (from_code error_code)
                  else ConnectFailure None (from_code error_code)).

Definition _on_lifecycle_disconnection (has_cb : bool) (error_code : Z) (disconnect_packet_exists : bool)
    (reason_code : Z) (session_expiry_interval_sec : flagged Z) (reason_string : option string)
    (user_properties_tuples : option (list (string * string))) (server_reference : option string) :=
  deliver has_cb (if disconnect_packet_exists
    then Disconnect (Some {|
           DisconnectPacket.reason_code := _try_disconnect_reason_code reason_code;
           DisconnectPacket.session_expiry_interval_sec := if_exists session_expiry_interval_sec;
           DisconnectPacket.reason_string := reason_string;
           DisconnectPacket.user_properties := _init_user_properties user_properties_tuples;
           DisconnectPacket.server_reference := server_reference |}) (from_code error_code)
    else Disconnect None (from_code error_code)).

(** The packet that [_on_publish] builds from the binding's arguments. *)
Definition publish_packet_of (payload : string) (qos : Z) (retain : bool) (topic : string)
    (payload_format_indicator message_expiry_interval_sec topic_alias : flagged Z)
    (response_topic correlation_data : option string)
    (subscription_identifiers_tuples : option (list Z)) (content_type : option string)
    (user_properties_tuples : option (list (string * string))) : PublishPacket := {|
  PublishPacket.payload := Bytes payload;
  PublishPacket.qos := _try_qos qos;
  PublishPacket.retain := retain;
  PublishPacket.topic := topic;
  PublishPacket.payload_format_indicator :=
    if exists_ payload_format_indicator
    then _try_payload_format_indicator (value_ payload_format_indicator) else None;
  PublishPacket.message_expiry_interval_sec := if_exists message_expiry_interval_sec;
  PublishPacket.topic_alias := if_exists topic_alias;
  PublishPacket.response_topic := response_topic;
  PublishPacket.correlation_data_bytes := Bytes <$> correlation_data;
  PublishPacket.correlation_data := match correlation_data with
                                    | Some d => Str <$> decode_utf8 d | None => None end;
  PublishPacket.subscription_identifiers := subscription_identifiers_tuples;
  PublishPacket.content_type := content_type;
  PublishPacket.user_properties := _init_user_properties user_properties_tuples;
|}.

(** *** The binding's side of each event: strings are decoded (format s-hash of
    [Py_BuildValue]) and flags computed. An exception is reported as unraisable
    and no handler is called: the result is that exception, or what the user's
    callback gets. *)

Definition as_str (b : string) : result string :=
  match decode_utf8 b with Some s => Ok s | None => Raise (BuiltinError "UnicodeDecodeError") end.
Definition as_optional_str (o : option string) : result (option string) :=
  match o with Some b => let? s := as_str b in Ok (Some s) | None => Ok None end.

(** [s_aws_set_user_properties_to_PyObject] *)
Fixpoint set_user_properties (l : list (string * string)) : result (list (string * string)) :=
  match l with
  | [] => Ok []
  | (name, value) :: l' =>
      match as_str name, as_str value with
      | Ok n, Ok v => let? l'' := set_user_properties l' in Ok ((n, v) :: l'')
      | _, _ => Raise (TypeError "Publish Packet User Property is not a valid string")
      end
  end.

Definition flatten_connack (v : connack_view) : result connack_args :=
  let? user_properties_list := set_user_properties (v_user_properties v) in
  let? assigned_client_identifier := as_optional_str (v_assigned_client_identifier v) in
  let? reason_string := as_optional_str (v_reason_string v) in
  let? response_information := as_optional_str (v_response_information v) in
  let? server_reference := as_optional_str (v_server_reference v) in
  Ok {|
    connack_session_present := v_session_present v;
    connack_reason_code := v_reason_code v;
    connack_session_expiry_interval_sec := flag_Z (v_session_expiry_interval v);
    connack_receive_maximum := flag_Z (v_receive_maximum v);
    connack_maximum_qos := flag_Z (v_maximum_qos v);
    connack_retain_available := flag_bool (v_retain_available v);
    connack_maximum_packet_size := flag_Z (v_maximum_packet_size v);
    connack_assigned_client_identifier := assigned_client_identifier;
    connack_topic_alias_maximum := flag_Z (v_topic_alias_maximum v);
    connack_reason_string := reason_string;
    connack_user_properties_tuples := list_or_none user_properties_list;
    connack_wildcard_subscriptions_available := flag_bool (v_wildcard_subscriptions_available v);
    connack_subscription_identifiers_available := flag_bool (v_subscription_identifiers_available v);
    connack_shared_subscriptions_available := flag_bool (v_shared_subscriptions_available v);
    connack_server_keep_alive := flag_Z (v_server_keep_alive v);
    connack_response_information := response_information;
    connack_server_reference := server_reference;
  |}.

(** [s_lifecycle_event_connection_success]; an empty client id is passed as
    None. *)
Definition native_success (has_cb : bool) (v : connack_view) (n : settings_view) : result (option event) :=
  let? a := flatten_connack v in
  let? client_id := as_optional_str (if bool_decide (n_client_id n = EmptyString) then None
                                     else Some (n_client_id n)) in
  Ok (_on_lifecycle_connection_success has_cb a n client_id).

(** [s_lifecycle_event_connection_failure] *)
Definition native_failure (has_cb : bool) (error_code : Z) (v : option connack_view) : result (option event) :=
  match v with
  | Some v => let? a := flatten_connack v in
              Ok (_on_lifecycle_connection_failure has_cb error_code true a)
  | None => Ok (_on_lifecycle_connection_failure has_cb error_code false no_connack)
  end.

(** [s_lifecycle_event_disconnection] *)
Definition native_disconnection (has_cb : bool) (error_code : Z) (v : option disconnect_view)
    : result (option event) :=
  match v with
  | Some d =>
      let? user_properties_list := set_user_properties (d_user_properties d) in
      let? reason_string := as_optional_str (d_reason_string d) in
      let? server_reference := as_optional_str (d_server_reference d) in
      Ok (_on_lifecycle_disconnection has_cb error_code true (d_reason_code d)
            (flag_Z (d_session_expiry_interval d)) reason_string
            (list_or_none user_properties_list) server_reference)
  | None => Ok (_on_lifecycle_disconnection has_cb error_code false 0 (mkFlagged false 0) None None None)
  end.

(** [s_on_publish_received] up to the callback: the packet for it, or the
    exception on the way and whether a control id is then acknowledged: user
    properties fail before the call of [_on_publish], other strings in it. *)
Inductive received := Handed (publish_packet : PublishPacket) | Dropped (e : py_exn) (acknowledges : bool).
Definition native_publish (v : publish_view) : received :=
  match set_user_properties (p_user_properties v) with
  | Raise e => Dropped e false
  | Ok user_properties_list =>
      match (let? topic := as_str (p_topic v) in
             let? response_topic := as_optional_str (p_response_topic v) in
             let? content_type := as_optional_str (p_content_type v) in
             Ok (publish_packet_of (p_payload v) (p_qos v) (p_retain v) topic (flag_Z (p_payload_format v))
                   (flag_Z (p_message_expiry_interval v)) (flag_Z (p_topic_alias v)) response_topic
                   (p_correlation_data v) (list_or_none (p_subscription_identifiers v)) content_type
                   (list_or_none user_properties_list))) with
      | Raise e => Dropped e true
      | Ok p => Handed p
      end
  end.

(** All of [s_on_publish_received]: the user's callback, if any, is run on the
    packet as [Publish] says. *)
Definition s_on_publish_received (cb : option (PublishPacket -> Publish.user)) (puback_control_id : Z)
    (v : publish_view) (s : Publish.state) : Publish.state :=
  match native_publish v with
  | Handed p => Publish.native_on_publish ((fun u => u p) <$> cb) puback_control_id s
  | Dropped _ acknowledges =>
      if acknowledges && negb (puback_control_id =? 0) then Publish.native_ack puback_control_id s else s
  end.

(** *** What the user should see: the packet, field by field, its strings
    decoded *)

Definition text (b : string) : string := default EmptyString (decode_utf8 b).
Definition decodes (b : string) : bool := bool_decide (is_Some (decode_utf8 b)).
Definition texts (l : list (string * string)) : list (string * string) :=
  map (fun '(n, v) => (text n, text v)) l.

Definition props_of (l : list (string * string)) : option (list UserProperty) :=
  match l with [] => None | _ => Some (map (fun '(n, v) => UserProperty.mk n v) l) end.

Definition connack_of (v : connack_view) : ConnackPacket :=
  ConnackPacket.mk (Some (v_session_present v)) (enum_of (v_reason_code v)) (v_session_expiry_interval v)
    (v_receive_maximum v) (v_maximum_qos v ≫= enum_of) (v_retain_available v) (v_maximum_packet_size v)
    (text <$> v_assigned_client_identifier v) (v_topic_alias_maximum v) (text <$> v_reason_string v)
    (props_of (texts (v_user_properties v))) (v_wildcard_subscriptions_available v)
    (v_subscription_identifiers_available v) (v_shared_subscriptions_available v)
    (v_server_keep_alive v) (text <$> v_response_information v) (text <$> v_server_reference v).
Definition settings_of (n : settings_view) : NegotiatedSettings :=
  NegotiatedSettings.mk (enum_of (n_maximum_qos n)) (n_session_expiry_interval n)
    (n_receive_maximum_from_server n) (n_maximum_packet_size_to_server n) (n_topic_alias_maximum_to_server n)
    (n_topic_alias_maximum_to_client n) (n_server_keep_alive n) (n_retain_available n)
    (n_wildcard_subscriptions_available n) (n_subscription_identifiers_available n)
    (n_shared_subscriptions_available n) (n_rejoined_session n)
    (if String.eqb (n_client_id n) "" then None else Some (text (n_client_id n))).
Definition disconnect_of (d : disconnect_view) : DisconnectPacket :=
  DisconnectPacket.mk (enum_of (d_reason_code d)) (d_session_expiry_interval d) (text <$> d_reason_string d)
    (props_of (texts (d_user_properties d))) (text <$> d_server_reference d).
Definition publish_of (p : publish_view) : PublishPacket :=
  PublishPacket.mk (Bytes (p_payload p)) (enum_of (p_qos p)) (p_retain p) (text (p_topic p))
    (p_payload_format p ≫= enum_of) (p_message_expiry_interval p) (p_topic_alias p) (text <$> p_response_topic p)
    (Bytes <$> p_correlation_data p) (Str <$> (p_correlation_data p ≫= decode_utf8))
    (list_or_none (p_subscription_identifiers p)) (text <$> p_content_type p) (props_of (texts (p_user_properties p))).

(** The strings of a packet that have to decode: its user properties, and the
    others. *)
Definition prop_strings (l : list (string * string)) : list string := flat_map (fun '(n, v) => [n; v]) l.
Definition connack_strings (v : connack_view) : list string :=
  option_list (v_assigned_client_identifier v) ++ option_list (v_reason_string v) ++
  option_list (v_response_information v) ++ option_list (v_server_reference v).
Definition settings_strings (n : settings_view) : list string :=
  if String.eqb (n_client_id n) "" then [] else [n_client_id n].

(** The exception when some do not, or the value. *)
Definition if_decodes {A} (props : list (string * string)) (others : list string) (a : A) : result A :=
  if negb (forallb decodes (prop_strings props))
  then Raise (TypeError "Publish Packet User Property is not a valid string")
  else if negb (forallb decodes others) then Raise (BuiltinError "UnicodeDecodeError") else Ok a.

(** The view with the topic alias maximum dropped. *)
Definition without_alias (v : connack_view) : connack_view :=
  mkConnackView (v_session_present v) (v_reason_code v) (v_session_expiry_interval v) (v_receive_maximum v)
    (v_maximum_qos v) (v_retain_available v) (v_maximum_packet_size v) (v_assigned_client_identifier v)
    None (v_reason_string v) (v_user_properties v) (v_wildcard_subscriptions_available v)
    (v_subscription_identifiers_available v) (v_shared_subscriptions_available v) (v_server_keep_alive v)
    (v_response_information v) (v_server_reference v).

Lemma if_exists_Z o : if_exists (flag_Z o) = o.
Proof. by destruct o. Qed.
Lemma if_exists_bool o : if_exists (flag_bool o) = o.
Proof. by destruct o. Qed.
Lemma flag_enum {E} `{IntEnum E} (o : option Z) :
  (if exists_ (flag_Z o) then try_enum (E:=E) (value_ (flag_Z o)) else None) = o ≫= enum_of.
Proof. destruct o as [z|]; simpl; [apply try_enum_enum_of|done]. Qed.
Lemma init_props l : _init_user_properties (list_or_none l) = props_of l.
Proof. by destruct l. Qed.

Lemma as_str_decodes b : as_str b = if decodes b then Ok (text b) else Raise (BuiltinError "UnicodeDecodeError").
Proof. unfold as_str, decodes, text. by destruct (decode_utf8 b). Qed.

Lemma as_optional_str_decodes o : as_optional_str o =
  if forallb decodes (option_list o) then Ok (text <$> o) else Raise (BuiltinError "UnicodeDecodeError").
Proof. destruct o as [b|]; simpl; [|done]. rewrite as_str_decodes, andb_true_r. by destruct (decodes b). Qed.

Lemma set_user_properties_decodes l : set_user_properties l =
  if forallb decodes (prop_strings l) then Ok (texts l)
  else Raise (TypeError "Publish Packet User Property is not a valid string").
Proof.
  induction l as [|[n v] l IH]; simpl; [done|]. rewrite !as_str_decodes.
  destruct (decodes n), (decodes v); simpl; try done. rewrite IH. by destruct (forallb _ _).
Qed.

Lemma settings_client_id n :
  as_optional_str (if bool_decide (n_client_id n = EmptyString) then None else Some (n_client_id n)) =
  if forallb decodes (settings_strings n)
  then Ok (if String.eqb (n_client_id n) "" then None else Some (text (n_client_id n)))
  else Raise (BuiltinError "UnicodeDecodeError").
Proof. rewrite as_optional_str_decodes. unfold settings_strings. by destruct (n_client_id n). Qed.

Ltac decode :=
  rewrite ?forallb_app;
  repeat match goal with |- context [forallb decodes ?l] => destruct (forallb decodes l) end.

Lemma success_faithful has_cb v n : native_success has_cb v n =
  if_decodes (v_user_properties v) (connack_strings v ++ settings_strings n)
    (if has_cb then Some (ConnectSuccess (connack_of v) (settings_of n)) else None).
Proof.
  unfold native_success, flatten_connack, if_decodes, connack_strings.
  rewrite settings_client_id, set_user_properties_decodes, !as_optional_str_decodes. decode; try done.
  unfold rbind, _on_lifecycle_connection_success, deliver, success_connack, connack_of, negotiated, settings_of,
    _try_connect_reason_code, _try_qos. simpl.
  by rewrite !if_exists_Z, !if_exists_bool, flag_enum, init_props, !try_enum_enum_of.
Qed.

Lemma failure_faithful has_cb error_code v : native_failure has_cb error_code (Some v) =
  if_decodes (v_user_properties v) (connack_strings v)
    (if has_cb then Some (ConnectFailure (Some (connack_of (without_alias v))) (from_code error_code)) else None).
Proof.
  unfold native_failure, flatten_connack, if_decodes, connack_strings.
  rewrite set_user_properties_decodes, !as_optional_str_decodes. decode; try done.
  unfold rbind, _on_lifecycle_connection_failure, deliver, failure_connack, connack_of,
    _try_connect_reason_code, _try_qos. simpl.
  by rewrite !if_exists_Z, !if_exists_bool, flag_enum, init_props, try_enum_enum_of.
Qed.

Lemma disconnection_faithful has_cb error_code d : native_disconnection has_cb error_code (Some d) =
  if_decodes (d_user_properties d) (option_list (d_reason_string d) ++ option_list (d_server_reference d))
    (if has_cb then Some (Disconnect (Some (disconnect_of d)) (from_code error_code)) else None).
Proof.
  unfold native_disconnection, if_decodes.
  rewrite set_user_properties_decodes, !as_optional_str_decodes. decode; try done.
  unfold rbind, _on_lifecycle_disconnection, deliver, disconnect_of, _try_disconnect_reason_code.
  by rewrite if_exists_Z, init_props, try_enum_enum_of.
Qed.

Lemma publish_faithful p : native_publish p =
  match if_decodes (p_user_properties p)
          (p_topic p :: option_list (p_response_topic p) ++ option_list (p_content_type p)) (publish_of p) with
  | Ok packet => Handed packet
  | Raise e => Dropped e (forallb decodes (prop_strings (p_user_properties p)))
  end.
Proof.
  unfold native_publish, if_decodes. cbn [forallb].
  rewrite set_user_properties_decodes, as_str_decodes, !as_optional_str_decodes, forallb_app.
  destruct (forallb decodes (prop_strings _)); [|done]. destruct (decodes (p_topic p)); [|done].
  decode; try done. unfold rbind, publish_packet_of, publish_of, _try_qos, _try_payload_format_indicator. simpl.
  rewrite !if_exists_Z, init_props, flag_enum, try_enum_enum_of. by destruct (p_correlation_data p).
Qed.

(** C20: What the user sees is what was received. Through the flat argument
    lists of the binding and the handlers, each CONNACK with its negotiated
    settings, each DISCONNECT and each PUBLISH whose strings are UTF-8 reaches
    the callback field by field as the native packet had it: absent fields are
    None and never a default, codes outside the enumerations are None, a
    failure without a packet has None for it and always its exception, and
    nothing is called when the user gave no callback. The one field lost is the
    topic alias maximum of a CONNACK that refused the connection. A packet with
    a string that is not UTF-8 reaches nobody: the event is lost to an
    unraisable exception, TypeError for a user property and UnicodeDecodeError
    otherwise. A PUBLISH lost in this way is acknowledged by the binding, except
    when a user property is to blame: then nobody acknowledges it. *)
Theorem events_faithful (has_cb : bool) (v : connack_view) (n : settings_view) (d : disconnect_view)
    (p : publish_view) (error_code : Z) (cb : option (PublishPacket -> Publish.user)) (id : Z) :
  native_success has_cb v n =
    if_decodes (v_user_properties v) (connack_strings v ++ settings_strings n)
      (if has_cb then Some (ConnectSuccess (connack_of v) (settings_of n)) else None) /\
  native_failure has_cb error_code (Some v) =
    if_decodes (v_user_properties v) (connack_strings v)
      (if has_cb then Some (ConnectFailure (Some (connack_of (without_alias v))) (from_code error_code)) else None) /\
  native_failure has_cb error_code None =
    Ok (if has_cb then Some (ConnectFailure None (from_code error_code)) else None) /\
  native_disconnection has_cb error_code (Some d) =
    if_decodes (d_user_properties d) (option_list (d_reason_string d) ++ option_list (d_server_reference d))
      (if has_cb then Some (Disconnect (Some (disconnect_of d)) (from_code error_code)) else None) /\
  native_disconnection has_cb error_code None =
    Ok (if has_cb then Some (Disconnect None (from_code error_code)) else None) /\
  match if_decodes (p_user_properties p)
          (p_topic p :: option_list (p_response_topic p) ++ option_list (p_content_type p)) (publish_of p) with
  | Ok packet =>
      native_publish p = Handed packet /\
      s_on_publish_received cb id p Publish.init =
        Publish.native_on_publish ((fun u => u packet) <$> cb) id Publish.init
  | Raise _ =>
      Publish.native_acks (s_on_publish_received cb id p Publish.init) =
        if forallb decodes (prop_strings (p_user_properties p)) && negb (id =? 0) then [id] else []
  end.
Proof.
  split_and!; [apply success_faithful|apply failure_faithful|done|apply disconnection_faithful|done|].
  unfold s_on_publish_received. rewrite publish_faithful.
  destruct (if_decodes _ _ _); [done|]. by destruct (_ && _).
Qed.
End Handlers.
End Events.

(** ** Operations and their futures *)
Module Ops.
Section Ops.
Context `{NativeErrors}.

Definition self_future {V} : lens (future V) (future V) := Lens (fun f => f) (fun f _ => f).

(** [PublishCompletionData] *)
Record PublishCompletionData := mkCompletion { puback_ : option PubackPacket }.

Definition tuples := option (list (string * string)).

(** The closure [puback] of [Client.publish]: the packet is filled in after it
    has been stored in the completion data, only for QoS 1. *)
Definition puback (error_code qos reason_code : Z) (reason_string : option string)
    (user_properties_tuples : tuples) : M (future PublishCompletionData) unit :=
  let puback_packet := PubackPacket.default in
  if negb (error_code =? 0) then set_exception self_future (from_code error_code)
  else
    let puback_packet :=
      if qos =? 1 then PubackPacket.mk (_try_puback_reason_code reason_code) reason_string
                         (_init_user_properties user_properties_tuples)
      else puback_packet in
    set_result self_future (mkCompletion (Some puback_packet)).

(** [for x in l] where [l] may be None *)
Definition iterate {A} (l : option (list A)) : result (list A) :=
  match l with Some l => Ok l | None => Raise (TypeError "'NoneType' object is not iterable") end.

(** The closures [suback] of [Client.subscribe] and [unsuback] of
    [Client.unsubscribe]. *)
Definition suback (error_code : Z) (reason_codes : option (list Z)) (reason_string : option string)
    (user_properties_tuples : tuples) : M (future SubackPacket) unit :=
  if negb (error_code =? 0) then set_exception self_future (from_code error_code)
  else
    let! codes := lift (iterate reason_codes) in
    set_result self_future (SubackPacket.mk reason_string (_init_user_properties user_properties_tuples)
                              (Some (map _try_suback_reason_code codes))).
Definition unsuback (error_code : Z) (reason_codes : option (list Z)) (reason_string : option string)
    (user_properties_tuples : tuples) : M (future UnsubackPacket) unit :=
  if negb (error_code =? 0) then set_exception self_future (from_code error_code)
  else
    let! codes := lift (iterate reason_codes) in
    set_result self_future (UnsubackPacket.mk reason_string (_init_user_properties user_properties_tuples)
                              (Some (map _try_unsuback_reason_code codes))).

(** *** The binding's completion functions: what does not decode in a packet is
    reported as unraisable, and the closure is not called. *)
Variable decode_utf8 : string -> option string.
#[local] Abbreviation set_user_properties := (Events.set_user_properties decode_utf8).
#[local] Abbreviation as_optional_str := (Events.as_optional_str decode_utf8).

Record ack_view := mkAckView {
  a_reason_codes : list Z;
  a_reason_string : option string;
  a_user_properties : list (string * string);
}.

(** [s_on_publish_complete_fn]; a PUBACK has one reason code, and 0 stands for
    it when there is no packet. *)
Definition native_puback (error_code qos : Z) (reason_code : Z) (v : option ack_view)
    : M (future PublishCompletionData) unit :=
  match v with
  | Some v =>
      let! user_properties_list := lift (set_user_properties (a_user_properties v)) in
      let! reason_string := lift (as_optional_str (a_reason_string v)) in
      puback error_code qos reason_code reason_string
        (if error_code =? 0 then Events.list_or_none user_properties_list else None)
  | None => puback error_code qos 0 None None
  end.

(** [s_on_subscribe_complete_fn], [s_on_unsubscribe_complete_fn]: empty lists
    are passed as None. *)
Definition ack_arguments (error_code : Z) (v : option ack_view)
    : result (option (list Z) * option string * tuples) :=
  match v with
  | Some v =>
      let? user_properties_list := set_user_properties (a_user_properties v) in
      let? reason_string := as_optional_str (a_reason_string v) in
      Ok (if error_code =? 0 then Events.list_or_none (a_reason_codes v) else None, reason_string,
          if error_code =? 0 then Events.list_or_none user_properties_list else None)
  | None => Ok (None, None, None)
  end.
Definition native_suback (error_code : Z) (v : option ack_view) : M (future SubackPacket) unit :=
  let! arguments := lift (ack_arguments error_code v) in
  let '(codes, reason_string, props) := arguments in suback error_code codes reason_string props.
Definition native_unsuback (error_code : Z) (v : option ack_view) : M (future UnsubackPacket) unit :=
  let! arguments := lift (ack_arguments error_code v) in
  let '(codes, reason_string, props) := arguments in unsuback error_code codes reason_string props.

(** *** Starting an operation: an exception of the native call is raised. *)

(** The arguments of [mqtt5_client_publish]: the packet, with the correlation
    data settled. *)
Definition publish_arguments (p : PublishPacket) : PublishPacket * option blob :=
  (p, blob_or (PublishPacket.correlation_data_bytes p) (PublishPacket.correlation_data p)).
Definition publish (native : PublishPacket * option blob -> result unit) (p : PublishPacket)
    : result (future PublishCompletionData) :=
  let? _ := native (publish_arguments p) in Ok Pending.

(** *** What the user should get *)

(** A future that is still open takes the outcome; on a finished or cancelled
    one the closure raises and changes nothing. *)
Definition settle {V} (r : result V) (f : future V) : result unit * future V :=
  if Fut.done f then (Raise InvalidStateError, f) else (Ok tt, Finished r).

Lemma fut_complete_settle {V} (r : result V) (f : future V) : fut_complete self_future r f = settle r f.
Proof.
  unfold settle. destruct (Fut.done f) eqn:Ed; [by apply (fut_complete_done self_future)|].
  by rewrite (fut_complete_ok self_future).
Qed.

(** The packet of an acknowledgement, its codes in the order of the topics. *)
Definition text_of_reason (v : ack_view) : option string := Events.text decode_utf8 <$> a_reason_string v.
Definition props_of_ack (v : ack_view) : option (list UserProperty) :=
  Events.props_of (Events.texts decode_utf8 (a_user_properties v)).
Definition puback_of (code : Z) (v : option ack_view) : PubackPacket :=
  match v with
  | Some v => PubackPacket.mk (enum_of code) (text_of_reason v) (props_of_ack v)
  | None => PubackPacket.mk (enum_of 0) None None
  end.
Definition suback_of (v : ack_view) : SubackPacket :=
  SubackPacket.mk (text_of_reason v) (props_of_ack v) (Some (map enum_of (a_reason_codes v))).
Definition unsuback_of (v : ack_view) : UnsubackPacket :=
  UnsubackPacket.mk (text_of_reason v) (props_of_ack v) (Some (map enum_of (a_reason_codes v))).

(** The exception of the binding when a string of the packet is not UTF-8. *)
Definition undecodable (v : option ack_view) : option py_exn :=
  match v with
  | Some v => match Events.if_decodes decode_utf8 (a_user_properties v) (option_list (a_reason_string v)) tt with
              | Raise e => Some e | Ok _ => None end
  | None => None
  end.

(** What settles the future of a subscription: None when nothing does. *)
Definition ack_result {P} (packet : ack_view -> P) (e : Z) (v : option ack_view) : option (result P) :=
  if negb (e =? 0) then Some (Raise (from_code e))
  else match v with
       | Some w => match a_reason_codes w with [] => None | _ => Some (Ok (packet w)) end
       | None => None
       end.
Definition answered {P} (packet : ack_view -> P) (e : Z) (v : option ack_view) (f : future P)
    : result unit * future P :=
  match undecodable v, ack_result packet e v with
  | Some x, _ => (Raise x, f)
  | None, Some r => settle r f
  | None, None => (Raise (TypeError "'NoneType' object is not iterable"), f)
  end.

Lemma ack_arguments_decode e v :
  ack_arguments e v =
  match undecodable v with
  | Some x => Raise x
  | None => Ok match v with
               | Some w => (if e =? 0 then Events.list_or_none (a_reason_codes w) else None, text_of_reason w,
                            if e =? 0 then Events.list_or_none (Events.texts decode_utf8 (a_user_properties w)) else None)
               | None => (None, None, None)
               end
  end.
Proof.
  destruct v as [v|]; [|done]. unfold ack_arguments, undecodable, Events.if_decodes.
  rewrite Events.set_user_properties_decodes, Events.as_optional_str_decodes.
  destruct (forallb _ (Events.prop_strings _)); [|done]. by destruct (forallb _ _).
Qed.

Lemma native_suback_answered e v f : native_suback e v f = answered suback_of e v f.
Proof.
  unfold native_suback, bind, lift. rewrite ack_arguments_decode. unfold answered.
  destruct (undecodable v) as [x|]; [done|]. unfold ack_result.
  destruct v as [v|]; cbn; unfold suback, set_exception, set_result;
    destruct (e =? 0); simpl; try apply fut_complete_settle; [|done].
  unfold suback_of, props_of_ack. destruct (a_reason_codes v) as [|c l] eqn:Ev; [done|].
  unfold bind, lift. simpl. rewrite fut_complete_settle, Events.init_props.
  do 4 f_equal. rewrite <- (map_ext _try_suback_reason_code _ (try_enum_enum_of (E:=SubackReasonCode))). simpl.
  by rewrite <- try_enum_enum_of.
Qed.

Lemma native_unsuback_answered e v f : native_unsuback e v f = answered unsuback_of e v f.
Proof.
  unfold native_unsuback, bind, lift. rewrite ack_arguments_decode. unfold answered.
  destruct (undecodable v) as [x|]; [done|]. unfold ack_result.
  destruct v as [v|]; cbn; unfold unsuback, set_exception, set_result;
    destruct (e =? 0); simpl; try apply fut_complete_settle; [|done].
  unfold unsuback_of, props_of_ack. destruct (a_reason_codes v) as [|c l] eqn:Ev; [done|].
  unfold bind, lift. simpl. rewrite fut_complete_settle, Events.init_props.
  do 4 f_equal. rewrite <- (map_ext _try_unsuback_reason_code _ (try_enum_enum_of (E:=UnsubackReasonCode))). simpl.
  by rewrite <- try_enum_enum_of.
Qed.

(** C28: How the future of an MQTT5 operation is resolved by its completion. A
    packet with a reason string or a user property that is not UTF-8, whatever
    the outcome, leaves it open: the binding drops the completion. Otherwise an
    error completes it with that error and none of the packet; a success with
    the packet, its reason string, user properties and reason codes in order,
    unknown codes as None; a publish that is not QoS 1 (which has no packet)
    with an empty PUBACK. A future the user has cancelled is left as it is and
    the closure raises InvalidStateError. A subscription acknowledged without
    any reason code is lost too: the closure raises TypeError and the future
    stays open. *)
Theorem operations_resolved (e qos code : Z) (v : option ack_view) (f : future PublishCompletionData)
    (fs : future SubackPacket) (fu : future UnsubackPacket) :
  native_puback e qos code v f =
    match undecodable v with
    | Some x => (Raise x, f)
    | None => settle (if e =? 0
                      then Ok (mkCompletion (Some (if qos =? 1 then puback_of code v else PubackPacket.mk None None None)))
                      else Raise (from_code e)) f
    end /\
  native_suback e v fs = answered suback_of e v fs /\
  native_unsuback e v fu = answered unsuback_of e v fu /\
  (undecodable v = None <-> match v with
     | Some w => forallb (Events.decodes decode_utf8) (option_list (a_reason_string w)) = true /\
                 forallb (fun '(x, y) => Events.decodes decode_utf8 x && Events.decodes decode_utf8 y)
                   (a_user_properties w) = true
     | None => True end).
Proof.
  split_and!; [|apply native_suback_answered|apply native_unsuback_answered|].
  - unfold native_puback, puback, set_exception, set_result, _try_puback_reason_code.
    destruct v as [v|]; cbn [undecodable puback_of].
    + unfold bind, lift, Events.if_decodes.
      rewrite Events.set_user_properties_decodes, Events.as_optional_str_decodes.
      destruct (forallb _ (Events.prop_strings _)); [|done]. destruct (forallb _ (option_list _)); [|done]. simpl.
      destruct (e =? 0); simpl; rewrite fut_complete_settle; [|done].
      by rewrite try_enum_enum_of, Events.init_props.
    + destruct (e =? 0); simpl; rewrite fut_complete_settle; [|done]. by rewrite try_enum_enum_of.
  - destruct v as [v|]; [|done]. unfold undecodable, Events.if_decodes.
    assert (forallb (Events.decodes decode_utf8) (Events.prop_strings (a_user_properties v)) =
            forallb (fun '(x, y) => Events.decodes decode_utf8 x && Events.decodes decode_utf8 y) (a_user_properties v)) as ->.
    { induction (a_user_properties v) as [|[x y] l IH]; simpl; [done|]. by rewrite IH, andb_assoc. }
    destruct (forallb (fun _ => _) _), (forallb _ (option_list _)); simpl; naive_solver.
Qed.
End Ops.

Lemma operations_resolved_witness :
  let v := mkAckView [0; 2; 77] None [("k", "v")] in
  native_suback (H:=demo_errors) Some 0 (Some v) Pending =
    (Ok tt, Finished (Ok (SubackPacket.mk None (Some [UserProperty.mk "k" "v"])
       (Some [Some SubackReasonCode.GRANTED_QOS_0; Some SubackReasonCode.GRANTED_QOS_2; None])))) /\
  native_unsuback (H:=demo_errors) (fun _ => None) 1 (Some v) Pending =
    (Raise (TypeError "Publish Packet User Property is not a valid string"), Pending).
Proof.
  intros v. destruct (operations_resolved (H:=demo_errors) Some 0 1 0 (Some v) Pending Pending Pending) as (_ & H1 & _).
  destruct (operations_resolved (H:=demo_errors) (fun _ => None) 1 1 0 (Some v) Pending Pending Pending)
    as (_ & _ & H2 & _).
  split; [rewrite H1; reflexivity | rewrite H2; reflexivity].
Defined.
End Ops.

(** ** The client object *)
Module Client5.
Import Metrics.Metrics.

Section Client5.
(** [signature(callback).bind(None)] succeeds. *)
Variable takes_one_argument : nat -> bool.

Definition _check_callback (callback : option nat) : result (option nat) :=
  match callback with
  | Some c => if takes_one_argument c then Ok (Some c) else Raise (TypeError "Callable should take one argument")
  | None => Ok None
  end.

Record _ClientCore := mkCore {
  _ws_handshake_transform_cb : option nat;
  _on_publish_cb : option nat;
  _on_lifecycle_stopped_cb : option nat;
  _on_lifecycle_attempting_connect_cb : option nat;
  _on_lifecycle_connection_success_cb : option nat;
  _on_lifecycle_connection_failure_cb : option nat;
  _on_lifecycle_disconnection_cb : option nat;
  _disable_metrics : bool;
}.

Definition _ClientCore_init (o : ClientOptions) : result _ClientCore :=
  let? ws := _check_callback (websocket_handshake_transform o) in
  let? pub := _check_callback (on_publish_callback_fn o) in
  let? stopped := _check_callback (on_lifecycle_event_stopped_fn o) in
  let? attempting := _check_callback (on_lifecycle_event_attempting_connect_fn o) in
  let? success := _check_callback (on_lifecycle_event_connection_success_fn o) in
  let? failure := _check_callback (on_lifecycle_event_connection_failure_fn o) in
  let? disconnection := _check_callback (on_lifecycle_event_disconnection_fn o) in
  Ok (mkCore ws pub stopped attempting success failure disconnection (disable_metrics o)).

(** The arguments of [mqtt5_client_new]; what the client options hold and is
    passed as it is stays in [a_options]. *)
Record new_arguments := mkArguments {
  a_options : ClientOptions;
  a_bootstrap : nat;
  a_socket_options : nat;
  a_connect : ConnectPacket;
  a_is_will_none : bool;
  a_will : PublishPacket;
  a_will_correlation_data : option blob;
  a_websocket_is_none : bool;
  a_enable_metrics : bool;
  a_metrics : option AWSIoTMetrics;
  a_core : _ClientCore;
}.

(** [_Mqtt5to3AdapterOptions] *)
Record adapter := mkAdapter {
  ad_host_name : string;
  ad_port : option Z;
  ad_client_id : string;
  ad_socket_options : nat;
  ad_min_reconnect_delay_ms : Z;
  ad_max_reconnect_delay_ms : Z;
  ad_ping_timeout_ms : Z;
  ad_keep_alive_secs : Z;
  ad_ack_timeout_secs : Z;
  ad_clean_session : bool;
  ad_disable_metrics : bool;
}.
Definition _Mqtt5to3AdapterOptions (host_name : string) (port : option Z) (client_id : option string)
    (socket_options : nat) (min_reconnect_delay_ms max_reconnect_delay_ms ping_timeout_ms keep_alive_secs
    ack_timeout_secs : option Z) (clean_session : bool) (disable_metrics : bool) : adapter :=
  mkAdapter host_name port (default EmptyString client_id) socket_options
    (default 5 min_reconnect_delay_ms) (default 60 max_reconnect_delay_ms) (default 3000 ping_timeout_ms)
    (default 1200 keep_alive_secs) (default 0 ack_timeout_secs) clean_session disable_metrics.

Record Client := mkClient {
  _metrics : option AWSIoTMetrics;
  client_tls_ctx : option Tls.ClientTlsContext;
  _binding : nat;
  adapter_options : adapter;
}.

(** [b < REJOIN_ALWAYS if b else True], an IntEnum being false when it is 0 *)
Definition clean_session_of (session_behavior : option ClientSessionBehaviorType) : bool :=
  match session_behavior with
  | Some b => if enum_value b =? 0 then true
              else enum_value b <? enum_value ClientSessionBehaviorType.REJOIN_ALWAYS
  | None => true
  end.

(** [Client.__init__]: [static_default] is the outcome of
    [ClientBootstrap.get_or_create_static_default()], [new_socket_options] a
    fresh [SocketOptions()], [native_new] the call of the binding. *)
Definition Client_init (win32 : bool) (crt_version : string) (static_default : result nat)
    (new_socket_options : nat) (native_new : new_arguments -> result nat) (o : ClientOptions) : result Client :=
  let? core := _ClientCore_init o in
  let? bootstrap_ := (match bootstrap o with Some b => Ok b | None => static_default end) in
  let connect := default ConnectPacket.default (connect_options o) in
  let socket := default new_socket_options (socket_options o) in
  let? metrics_ := (if disable_metrics o then Ok None
                    else let? m := _create_metrics_mqtt5 win32 crt_version o in Ok (Some m)) in
  let '(is_will_none, will) := match ConnectPacket.will connect with
                               | None => (true, PublishPacket.default)
                               | Some w => (false, w)
                               end in
  let? binding := native_new {|
    a_options := o; a_bootstrap := bootstrap_; a_socket_options := socket; a_connect := connect;
    a_is_will_none := is_will_none; a_will := will;
    a_will_correlation_data := blob_or (PublishPacket.correlation_data_bytes will) (PublishPacket.correlation_data will);
    a_websocket_is_none := negb (bool_decide (is_Some (websocket_handshake_transform o)));
    a_enable_metrics := negb (disable_metrics o); a_metrics := metrics_; a_core := core |} in
  Ok {| _metrics := metrics_; client_tls_ctx := tls_ctx o; _binding := binding;
        adapter_options :=
          _Mqtt5to3AdapterOptions (host_name o) (port o) (ConnectPacket.client_id connect) socket
            (min_reconnect_delay_ms o) (max_reconnect_delay_ms o) (ping_timeout_ms o)
            (ConnectPacket.keep_alive_interval_sec connect) (ack_timeout_sec o)
            (clean_session_of (session_behavior o)) (disable_metrics o) |}.

(** [Client.stop]: the arguments of [mqtt5_client_stop]. *)
Definition stop (disconnect_packet : option DisconnectPacket) : bool * DisconnectPacket :=
  match disconnect_packet with
  | None => (true, DisconnectPacket.default)
  | Some p => (false, p)
  end.

(** [Client.get_stats] *)
Record OperationStatisticsData := mkStats {
  incomplete_operation_count : Z; incomplete_operation_size : Z;
  unacked_operation_count : Z; unacked_operation_size : Z;
}.
Definition get_stats (result : Z * Z * Z * Z) : OperationStatisticsData :=
  let '(a, b, c, d) := result in mkStats a b c d.

(** [Client.new_connection]: the options of the MQTT 3.1.1 connection. *)
Definition connection_options (c : Client) : Mqtt3.options :=
  let a := adapter_options c in {|
  Mqtt3.client_version := 5;
  Mqtt3.client_tls_ctx := client_tls_ctx c;
  Mqtt3.host_name := ad_host_name a;
  Mqtt3.port := ad_port a;
  Mqtt3.client_id := ad_client_id a;
  Mqtt3.clean_session := ad_clean_session a;
  Mqtt3.reconnect_min_timeout_secs := ad_min_reconnect_delay_ms a;
  Mqtt3.reconnect_max_timeout_secs := ad_max_reconnect_delay_ms a;
  Mqtt3.keep_alive_secs := ad_keep_alive_secs a;
  Mqtt3.ping_timeout_ms := ad_ping_timeout_ms a;
  Mqtt3.protocol_operation_timeout_ms := ad_ack_timeout_secs a * 1000;
  Mqtt3.socket_options := Some (ad_socket_options a);
  Mqtt3.websocket_proxy_options := None;
  Mqtt3.proxy_options := None;
  Mqtt3.disable_metrics := ad_disable_metrics a;
  Mqtt3.metrics := None |}.
Definition new_connection (win32 : bool) (crt_version : string) (c : Client) : result Mqtt3.Connection :=
  Mqtt3.Connection_init win32 crt_version (connection_options c).

Lemma Client_init_adapter win32 v sd so nn o c :
  Client_init win32 v sd so nn o = Ok c ->
  client_tls_ctx c = tls_ctx o /\
  let connect := default ConnectPacket.default (connect_options o) in
  adapter_options c =
    _Mqtt5to3AdapterOptions (host_name o) (port o) (ConnectPacket.client_id connect)
      (default so (socket_options o)) (min_reconnect_delay_ms o) (max_reconnect_delay_ms o) (ping_timeout_ms o)
      (ConnectPacket.keep_alive_interval_sec connect) (ack_timeout_sec o)
      (clean_session_of (session_behavior o)) (disable_metrics o).
Proof.
  unfold Client_init. intros Hc.
  destruct (_ClientCore_init o); simpl in Hc; [|done].
  destruct (match bootstrap o with Some b => Ok b | None => sd end); simpl in Hc; [|done].
  destruct (if disable_metrics o then Ok None else _); simpl in Hc; [|done].
  destruct (ConnectPacket.will _); simpl in Hc; (destruct (nn _); simpl in Hc; [|done]); by simplify_eq.
Qed.

(** C30: An MQTT 3.1.1 connection made from an mqtt5 client keeps the client's
    settings: host, port, TLS, id, keep-alive, ping and operation timeout (in
    milliseconds), a clean session unless the behaviour is REJOIN_ALWAYS, no
    metrics exactly if they are disabled. But the reconnect delays, which are
    milliseconds in the mqtt5 options, become its timeouts in seconds, number
    for number, and are checked against the defaults 5 and 60: making the
    connection raises ValueError exactly if the minimum (default 5) exceeds the
    maximum (default 60), or the keep-alive (default 1200 s) is not longer than
    the ping timeout (default 3000 ms). *)
Theorem adapter_connection (win32 : bool) (v : string) (static_default : result nat) (so : nat)
    (native_new : new_arguments -> result nat) (o : ClientOptions) (c : Client)
    (Hc : Client_init win32 v static_default so native_new o = Ok c) :
  let connect := default ConnectPacket.default (connect_options o) in
  let min_ms := default 5 (min_reconnect_delay_ms o) in
  let max_ms := default 60 (max_reconnect_delay_ms o) in
  let keep_alive := default 1200 (ConnectPacket.keep_alive_interval_sec connect) in
  let ping := default 3000 (ping_timeout_ms o) in
  ((exists msg, new_connection win32 v c = Raise (ValueError msg)) <->
     max_ms < min_ms \/ keep_alive * 1000 <= ping) /\
  (min_ms <= max_ms -> ping < keep_alive * 1000 ->
   exists conn, new_connection win32 v c = Ok conn /\
    let k := Mqtt3.c_options conn in
    Mqtt3.host_name k = host_name o /\ Mqtt3.port k = port o /\ Mqtt3.client_tls_ctx k = tls_ctx o /\
    Mqtt3.client_id k = default EmptyString (ConnectPacket.client_id connect) /\
    Mqtt3.clean_session k = negb (bool_decide (session_behavior o = Some ClientSessionBehaviorType.REJOIN_ALWAYS)) /\
    Mqtt3.reconnect_min_timeout_secs k = min_ms /\ Mqtt3.reconnect_max_timeout_secs k = max_ms /\
    Mqtt3.keep_alive_secs k = keep_alive /\ Mqtt3.ping_timeout_ms k = ping /\
    Mqtt3.protocol_operation_timeout_ms k = 1000 * default 0 (ack_timeout_sec o) /\
    (Mqtt3._metrics conn = None <-> disable_metrics o = true)).
Proof.
  apply Client_init_adapter in Hc as [Ht Ha]. cbv zeta in Ha |- *.
  unfold new_connection, Mqtt3.Connection_init, connection_options. rewrite Ht, Ha. simpl.
  set (min_ms := default 5 _). set (max_ms := default 60 _). set (ka := default 1200 _). set (ping := default 3000 _).
  split.
  - destruct (Z.gtb_spec min_ms max_ms); simpl; [split; [intros _; by left|eauto]|].
    destruct (Z.leb_spec (ka * 1000) ping); simpl; [split; [intros _; by right|eauto]|].
    destruct (disable_metrics o); (split; [intros [? ?]; done | lia]).
  - intros Hmin Hp. destruct (Z.gtb_spec min_ms max_ms); [lia|].
    destruct (Z.leb_spec (ka * 1000) ping); [lia|]. simpl. unfold clean_session_of.
    destruct (disable_metrics o); eexists; (split; [done|]); simpl;
      split_and!; try done; try lia; by destruct (session_behavior o) as [[]|].
Qed.
End Client5.

(** A client that waits at least a second before it reconnects. *)
Definition demo_options : ClientOptions :=
  mkClientOptions "example.com" (Some 8883) (Some 1%nat) None None None None None None None None None
    (Some 1000) None None None None None None None None None None None None true None.
Definition demo_client : Client :=
  match Client_init (fun _ => true) false "1.0" (Ok 0%nat) 0%nat (fun _ => Ok 7%nat) demo_options with
  | Ok c => c
  | Raise _ => mkClient None None 0 (mkAdapter "" None "" 0 0 0 0 0 0 false false)
  end.

Lemma adapter_connection_witness :
  exists msg, new_connection false "1.0" demo_client = Raise (ValueError msg).
Proof.
  destruct (adapter_connection (fun _ => true) false "1.0" (Ok 0%nat) 0 (fun _ => Ok 7%nat) demo_options demo_client eq_refl)
    as [H _].
  apply H. left. reflexivity.
Defined.
End Client5.
