(* ===== verification/Mqtt5Native.v ===== *)
(** * awscrt/mqtt5.py with source/mqtt5_client.c: packets on their way out

    How the binding reads the Python packets of publish, subscribe, unsubscribe
    and stop into native packets: integers with the width of the native field,
    enumerations, strings and sequences of objects, with the exception for each
    thing it does not accept; and what a peer that receives the native packet
    sees ([Mqtt5.Events]). Native strings are UTF-8 bytes. *)
From S2P Require Import Prelude PyData Future Mqtt5Types Mqtt5.

Module Marshal.
Import Mqtt5.Events.

(** ** Values *)

(** [PyObject_GetAsOptionalUint32] and the like for a field of [w] bits, read
    through a C integer of [c_bits] bits. *)
Definition PyObject_GetAsOptionalUint (c_bits w : Z) (o : option Z) : result (option Z) :=
  match o with
  | None => Ok None
  | Some z =>
      if negb ((- 2 ^ (c_bits - 1) <=? z) && (z <? 2 ^ (c_bits - 1)))
      then Raise (OverflowError "Cannot convert to a C unsigned integer")
      else if z <? 0 then Raise (OverflowError "cannot be negative")
      else if 2 ^ w - 1 <? z then Raise (OverflowError "too large to convert")
      else Ok (Some z)
  end.

(** The native [long long] has 64 bits, [long] at least 32. *)
Definition PyObject_GetAsOptionalUint32 (o : option Z) : result (option Z) := PyObject_GetAsOptionalUint 64 32 o.
Definition PyObject_GetAsOptionalUint16 (long_bits : Z) (o : option Z) : result (option Z) :=
  PyObject_GetAsOptionalUint long_bits 16 o.

(** [PyObject_GetIntEnum] and [PyObject_GetAttrAsIntEnum]: an attribute set to
    None is no int. *)
Definition PyObject_GetIntEnum {E} `{IntEnum E} (o : option E) : result Z :=
  match o with Some e => Ok (enum_value e) | None => Raise (TypeError "not a valid enum") end.
Definition PyObject_GetAttrAsIntEnum {E} `{IntEnum E} (o : option E) : result Z :=
  match o with
  | Some e => Ok (enum_value e)
  | None => Raise (AttributeError "required integral enumeration attribute is None")
  end.

(** A sequence argument: a list or tuple, or something else. *)
Inductive sequence_arg (A : Type) := Sequence (l : list A) | NotASequence.
#[global] Arguments Sequence {A} _.
#[global] Arguments NotASequence {A}.

(** A string attribute or element: a [str], None or another object. *)
Inductive str_arg := PyStr_ (s : string) | NotAStr.

(** [aws_get_optional_user_properties_from_PyObject]: None and an empty
    sequence are no properties. *)
Definition user_properties_view (props : option (list UserProperty)) : list (string * string) :=
  match props with
  | None => []
  | Some l => map (fun p => (UserProperty.name p, UserProperty.value p)) l
  end.

Lemma as_uint_spec c_bits w o : 0 < w < c_bits ->
  PyObject_GetAsOptionalUint c_bits w o =
  match o with
  | None => Ok None
  | Some z => if (0 <=? z) && (z <? 2 ^ w) then Ok (Some z)
              else Raise (OverflowError (if negb ((- 2 ^ (c_bits - 1) <=? z) && (z <? 2 ^ (c_bits - 1)))
                                         then "Cannot convert to a C unsigned integer"
                                         else if z <? 0 then "cannot be negative" else "too large to convert"))
  end.
Proof.
  intros Hw. destruct o as [z|]; [|done]. unfold PyObject_GetAsOptionalUint.
  assert (2 ^ w <= 2 ^ (c_bits - 1)) by (apply Z.pow_le_mono_r; lia).
  assert (0 < 2 ^ (c_bits - 1)) by (apply Z.pow_pos_nonneg; lia).
  destruct (Z.leb_spec (- 2 ^ (c_bits - 1)) z), (Z.ltb_spec z (2 ^ (c_bits - 1))); simpl;
    destruct (Z.leb_spec 0 z), (Z.ltb_spec z (2 ^ w)); simpl; try lia; try done.
  all: destruct (Z.ltb_spec z 0); try lia; try done.
  all: destruct (Z.ltb_spec (2 ^ w - 1) z); try lia; done.
Qed.

Definition fits (w : Z) (o : option Z) : bool :=
  match o with None => true | Some z => (0 <=? z) && (z <? 2 ^ w) end.

Lemma as_uint_ok c_bits w o : 0 < w < c_bits -> fits w o = true -> PyObject_GetAsOptionalUint c_bits w o = Ok o.
Proof. intros Hw Hf. rewrite as_uint_spec by done. destruct o; simpl in *; [by rewrite Hf|done]. Qed.

Lemma as_uint_raises c_bits w o : 0 < w < c_bits -> fits w o = false ->
  exists m, PyObject_GetAsOptionalUint c_bits w o = Raise (OverflowError m).
Proof.
  intros Hw Hf. rewrite as_uint_spec by done. destruct o as [z|]; simpl in *; [|done].
  rewrite Hf. by eexists.
Qed.

(** ** Packets *)
Section Packets.
Context `{NativeErrors}.
(** The width of C [long] and the encoding of strings, inverse to decoding. *)
Variables (long_bits : Z) (encode_utf8 : string -> string) (decode_utf8 : string -> option string).

(** A buffer argument (format z-star): the bytes of a bytes-like object or of a
    string. *)
Definition buffer_of (b : blob) : string := match b with Bytes s => s | Str s => encode_utf8 s end.

Definition encode_props (props : option (list UserProperty)) : list (string * string) :=
  map (fun '(n, v) => (encode_utf8 n, encode_utf8 v)) (user_properties_view props).

(** [aws_py_mqtt5_client_publish], up to the native call. *)
Definition publish_view_of (args : PublishPacket * option blob) : result publish_view :=
  let '(p, correlation_data) := args in
  let? qos := PyObject_GetIntEnum (PublishPacket.qos p) in
  let? expiry := PyObject_GetAsOptionalUint32 (PublishPacket.message_expiry_interval_sec p) in
  let? topic_alias := PyObject_GetAsOptionalUint16 long_bits (PublishPacket.topic_alias p) in
  Ok (mkPublishView (buffer_of (PublishPacket.payload p)) qos (PublishPacket.retain p)
        (encode_utf8 (PublishPacket.topic p))
        (enum_value <$> PublishPacket.payload_format_indicator p) expiry topic_alias
        (encode_utf8 <$> PublishPacket.response_topic p) (buffer_of <$> correlation_data) []
        (encode_utf8 <$> PublishPacket.content_type p) (encode_props (PublishPacket.user_properties p))).

(** The native client's answer to a packet (None: accepted). *)
Definition call_native {V} (native : V -> option Z) (view : result V) : result unit :=
  let? v := view in
  match native v with Some e => Raise (PyErr_AwsLastError e) | None => Ok tt end.
Definition mqtt5_client_publish (native : publish_view -> option Z) (args : PublishPacket * option blob)
    : result unit := call_native native (publish_view_of args).

(** Subscriptions *)
Record Subscription := mkSubscription {
  topic_filter : str_arg;
  qos : option QoS;
  no_local : bool;
  retain_as_published : bool;
  retain_handling_type : option RetainHandlingType;
}.
Record SubscribePacket := mkSubscribe {
  subscriptions : sequence_arg Subscription;
  subscription_identifier : option Z;
  sub_user_properties : option (list UserProperty);
}.
Record UnsubscribePacket := mkUnsubscribe {
  topic_filters : sequence_arg str_arg;
  unsub_user_properties : option (list UserProperty);
}.

Record subscription_view := mkSubscriptionView {
  s_topic_filter : string; s_qos : Z; s_no_local : bool; s_retain_as_published : bool; s_retain_handling_type : Z;
}.
Record subscribe_view := mkSubscribeView {
  v_subscriptions : list subscription_view; v_subscription_identifier : option Z;
  v_sub_user_properties : list (string * string);
}.
Record unsubscribe_view := mkUnsubscribeView {
  v_topic_filters : list string; v_unsub_user_properties : list (string * string);
}.

Fixpoint collect {A B} (f : A -> result B) (l : list A) : result (list B) :=
  match l with
  | [] => Ok []
  | x :: l' => let? y := f x in let? ys := collect f l' in Ok (y :: ys)
  end.
Definition each {A B} (f : A -> result B) (o : sequence_arg A) : result (list B) :=
  match o with Sequence l => collect f l | NotASequence => Raise (TypeError "argument must be of list or tuple") end.

(** [aws_init_subscription_from_PyObject] *)
Definition subscription_from_PyObject (s : Subscription) : result subscription_view :=
  match topic_filter s with
  | NotAStr => Raise (TypeError "bad argument type for built-in operation")
  | PyStr_ f =>
      let? q := PyObject_GetAttrAsIntEnum (qos s) in
      let? t := PyObject_GetAttrAsIntEnum (retain_handling_type s) in
      Ok (mkSubscriptionView (encode_utf8 f) q (no_local s) (retain_as_published s) t)
  end.

Definition subscribe_view_of (p : SubscribePacket) : result subscribe_view :=
  let? subs := each subscription_from_PyObject (subscriptions p) in
  let? id := PyObject_GetAsOptionalUint32 (subscription_identifier p) in
  Ok (mkSubscribeView subs id (encode_props (sub_user_properties p))).
Definition mqtt5_client_subscribe (native : subscribe_view -> option Z) (p : SubscribePacket) : result unit :=
  call_native native (subscribe_view_of p).

Definition topic_filter_of (f : str_arg) : result string :=
  match f with PyStr_ s => Ok (encode_utf8 s) | NotAStr => Raise (TypeError "topic filter is not a valid string") end.
Definition unsubscribe_view_of (p : UnsubscribePacket) : result unsubscribe_view :=
  let? fs := each topic_filter_of (topic_filters p) in
  Ok (mkUnsubscribeView fs (encode_props (unsub_user_properties p))).
Definition mqtt5_client_unsubscribe (native : unsubscribe_view -> option Z) (p : UnsubscribePacket) : result unit :=
  call_native native (unsubscribe_view_of p).

(** [Client.subscribe] and [unsubscribe]: the future, unless the call raises. *)
Definition subscribe (native : subscribe_view -> option Z) (p : SubscribePacket) : result (future SubackPacket) :=
  let? _ := mqtt5_client_subscribe native p in Ok Pending.
Definition unsubscribe (native : unsubscribe_view -> option Z) (p : UnsubscribePacket)
    : result (future UnsubackPacket) :=
  let? _ := mqtt5_client_unsubscribe native p in Ok Pending.

(** [aws_py_mqtt5_client_stop] on the arguments [Client5.stop] makes: no packet,
    or a DISCONNECT. *)
Definition disconnect_view_of (args : bool * DisconnectPacket) : result (option disconnect_view) :=
  let '(is_disconnect_packet_none, p) := args in
  if is_disconnect_packet_none then Ok None
  else
    let? code := PyObject_GetIntEnum (DisconnectPacket.reason_code p) in
    let? expiry := PyObject_GetAsOptionalUint32 (DisconnectPacket.session_expiry_interval_sec p) in
    Ok (Some (mkDisconnectView code expiry (encode_utf8 <$> DisconnectPacket.reason_string p)
               (encode_props (DisconnectPacket.user_properties p))
               (encode_utf8 <$> DisconnectPacket.server_reference p))).
Definition mqtt5_client_stop (native : option disconnect_view -> option Z) (args : bool * DisconnectPacket)
    : result unit := call_native native (disconnect_view_of args).

(** [start] and [invoke_publish_acknowledgement]; the format K takes any int
    modulo 2^64. *)
Definition start (native : option Z) : result unit :=
  match native with Some e => Raise (PyErr_AwsLastError e) | None => Ok tt end.
Definition invoke_publish_acknowledgement (native : Z -> option Z) (control_id : Z) : result unit :=
  match native (control_id mod 2 ^ 64) with Some e => Raise (PyErr_AwsLastError e) | None => Ok tt end.

(** [_try_manual_puback_result] names a class that does not exist: the NameError
    is caught and every value gives None. *)
Definition _try_manual_puback_result (value : Z) : option Z := None.

(** ** What gets through *)

Hypothesis long_wide : 32 <= long_bits.
Hypothesis decode_encode : forall s, decode_utf8 (encode_utf8 s) = Some s.

Definition publish_valid (p : PublishPacket) : bool :=
  (if PublishPacket.qos p is Some _ then true else false) &&
  fits 32 (PublishPacket.message_expiry_interval_sec p) && fits 16 (PublishPacket.topic_alias p).

(** No properties and an empty sequence of them are the same. *)
Definition some_props (o : option (list UserProperty)) : option (list UserProperty) :=
  match o with Some [] => None | _ => o end.
Definition text_of (b : blob) : option blob :=
  match b with Str s => Some (Str s) | Bytes d => Str <$> decode_utf8 d end.

(** The packet a receiver of [p] sees: bytes where there was a string, the
    correlation data both ways, no subscription identifiers. *)
Definition seen_by_receiver (p : PublishPacket) : PublishPacket :=
  let data := blob_or (PublishPacket.correlation_data_bytes p) (PublishPacket.correlation_data p) in
  PublishPacket.mk (Bytes (buffer_of (PublishPacket.payload p))) (PublishPacket.qos p) (PublishPacket.retain p)
    (PublishPacket.topic p) (PublishPacket.payload_format_indicator p) (PublishPacket.message_expiry_interval_sec p)
    (PublishPacket.topic_alias p) (PublishPacket.response_topic p)
    ((fun d => Bytes (buffer_of d)) <$> data) (data ≫= text_of) None (PublishPacket.content_type p)
    (some_props (PublishPacket.user_properties p)).

Lemma decodes_encode s : decodes decode_utf8 (encode_utf8 s) = true /\ text decode_utf8 (encode_utf8 s) = s.
Proof. unfold decodes, text. by rewrite decode_encode. Qed.

Lemma text_encode (o : option string) : text decode_utf8 <$> (encode_utf8 <$> o) = o.
Proof. destruct o as [s|]; simpl; [|done]. by rewrite (proj2 (decodes_encode s)). Qed.

Lemma decodes_option (o : option string) : forallb (decodes decode_utf8) (option_list (encode_utf8 <$> o)) = true.
Proof. destruct o as [s|]; simpl; [|done]. by rewrite (proj1 (decodes_encode s)). Qed.

Lemma decodes_props o : forallb (decodes decode_utf8) (prop_strings (encode_props o)) = true.
Proof.
  destruct o as [l|]; [|done]. unfold encode_props. simpl.
  induction l as [|p l IH]; simpl; [done|]. by rewrite !(proj1 (decodes_encode _)).
Qed.

Lemma props_echo o : props_of (texts decode_utf8 (encode_props o)) = some_props o.
Proof.
  assert (texts decode_utf8 (encode_props o) = user_properties_view o) as ->.
  { destruct o as [l|]; [|done]. unfold encode_props. simpl.
    induction l as [|p l IH]; simpl; [done|]. by rewrite !(proj2 (decodes_encode _)), IH. }
  destruct o as [[|p l]|]; simpl; [done| |done]. unfold props_of. f_equal. simpl. f_equal; [by destruct p|].
  induction l as [|[n v] l IH]; simpl; [done|]. by rewrite IH.
Qed.

Lemma publish_view_echo p : publish_valid p = true ->
  exists v, publish_view_of (Ops.publish_arguments p) = Ok v /\
    native_publish decode_utf8 v = Handed (seen_by_receiver p).
Proof.
  unfold publish_valid. rewrite !andb_true_iff. intros [[Hq He] Ha].
  unfold publish_view_of, Ops.publish_arguments, PyObject_GetAsOptionalUint32, PyObject_GetAsOptionalUint16.
  destruct (PublishPacket.qos p) as [q|] eqn:Eq; [|done]. cbn [PyObject_GetIntEnum rbind].
  rewrite !as_uint_ok by (done || lia). cbn [rbind]. eexists. split; [done|].
  rewrite publish_faithful. unfold if_decodes, publish_of, seen_by_receiver. simpl.
  rewrite decodes_props, (proj1 (decodes_encode _)), forallb_app, !decodes_option. simpl.
  rewrite !text_encode, (proj2 (decodes_encode _)), props_echo, enum_of_value, Eq. do 2 f_equal.
  - destruct (PublishPacket.payload_format_indicator p); simpl; [apply enum_of_value|done].
  - by destruct (blob_or _ _).
  - destruct (blob_or _ _) as [[d|d]|]; simpl; [done| |done]. by rewrite decode_encode.
Qed.

(** C19: A published packet arrives as it was given: with a QoS, a message expiry
    of 32 bits and a topic alias of 16 (or none), the binding hands the native
    client one packet, [publish] returns a pending future or raises the client's
    refusal, and a receiver of that packet sees the same payload, topic, QoS,
    retain flag, properties and correlation data (bytes and text); any other
    packet is refused with TypeError or OverflowError before the client sees it. *)
Theorem publish_echo (native : publish_view -> option Z) (p : PublishPacket) :
  if publish_valid p then
    exists v, publish_view_of (Ops.publish_arguments p) = Ok v /\ native_publish decode_utf8 v = Handed (seen_by_receiver p) /\
      Ops.publish (mqtt5_client_publish native) p =
        match native v with Some e => Raise (PyErr_AwsLastError e) | None => Ok Pending end
  else exists e, (forall native, Ops.publish (mqtt5_client_publish native) p = Raise e) /\
    ((exists m, e = TypeError m) \/ exists m, e = OverflowError m).
Proof.
  destruct (publish_valid p) eqn:Hv.
  - destruct (publish_view_echo p Hv) as (v & Hp & He). exists v. split_and!; [done|done|].
    unfold Ops.publish, mqtt5_client_publish, call_native. rewrite Hp. simpl. by destruct (native v).
  - unfold publish_valid in Hv. unfold Ops.publish, mqtt5_client_publish, call_native, publish_view_of,
      Ops.publish_arguments, PyObject_GetAsOptionalUint32, PyObject_GetAsOptionalUint16.
    destruct (PublishPacket.qos p) as [q|]; cbn [PyObject_GetIntEnum rbind]; [|by eexists; eauto].
    destruct (fits 32 _) eqn:Hf; simpl in Hv.
    + rewrite as_uint_ok by (done || lia). simpl.
      destruct (as_uint_raises long_bits 16 (PublishPacket.topic_alias p) ltac:(lia) Hv) as [m ->]. simpl. eauto.
    + destruct (as_uint_raises 64 32 (PublishPacket.message_expiry_interval_sec p) ltac:(lia) Hf) as [m ->].
      simpl. eauto.
Qed.

(** The DISCONNECT a program stops with, as the peer sees it. *)
Definition disconnect_seen (p : DisconnectPacket) : DisconnectPacket :=
  DisconnectPacket.mk (DisconnectPacket.reason_code p) (DisconnectPacket.session_expiry_interval_sec p)
    (DisconnectPacket.reason_string p) (some_props (DisconnectPacket.user_properties p))
    (DisconnectPacket.server_reference p).

Lemma disconnect_echo p error_code : fits 32 (DisconnectPacket.session_expiry_interval_sec p) = true ->
  match DisconnectPacket.reason_code p with
  | None => exists m, disconnect_view_of (Client5.stop (Some p)) = Raise (TypeError m)
  | Some _ => exists v, disconnect_view_of (Client5.stop (Some p)) = Ok (Some v) /\
      native_disconnection decode_utf8 true error_code (Some v) =
        Ok (Some (Disconnect (Some (disconnect_seen p)) (from_code error_code)))
  end.
Proof.
  intros Hf. unfold disconnect_view_of, Client5.stop, PyObject_GetAsOptionalUint32.
  destruct (DisconnectPacket.reason_code p) as [c|] eqn:Ec; cbn [PyObject_GetIntEnum rbind]; [|by eexists].
  rewrite as_uint_ok by (done || lia). cbn [rbind]. eexists. split; [done|].
  rewrite disconnection_faithful. unfold if_decodes, disconnect_of, disconnect_seen. simpl.
  rewrite decodes_props, forallb_app, !decodes_option. simpl.
  by rewrite !text_encode, props_echo, enum_of_value, Ec.
Qed.

(** The native view of a subscription, None if the binding must refuse it. *)
Definition subscription_spec (s : Subscription) : option subscription_view :=
  match topic_filter s, qos s, retain_handling_type s with
  | PyStr_ f, Some q, Some t =>
      Some (mkSubscriptionView (encode_utf8 f) (enum_value q) (no_local s) (retain_as_published s) (enum_value t))
  | _, _, _ => None
  end.

Lemma collect_spec {A B} (f : A -> result B) (g : A -> option B) l :
  (forall x, match g x with Some y => f x = Ok y | None => exists e, f x = Raise e end) ->
  match mapM g l with Some ys => collect f l = Ok ys | None => exists e, collect f l = Raise e end.
Proof.
  intros Hf. induction l as [|x l IH]; simpl; [done|]. specialize (Hf x).
  destruct (g x) as [y|]; simpl; [|by destruct Hf as [e ->]; eexists].
  rewrite Hf. simpl. destruct (mapM g l) as [ys|]; simpl; [by rewrite IH|]. by destruct IH as [e ->]; eexists.
Qed.

(** [subscribe] gives the native client exactly the subscriptions, in order, or
    raises before it sees anything. *)
Lemma subscribe_marshalled (native : subscribe_view -> option Z) (l : list Subscription) (id : option Z)
    (props : option (list UserProperty)) :
  match mapM subscription_spec l with
  | Some subs =>
      if fits 32 id
      then subscribe native (mkSubscribe (Sequence l) id props) =
           match native (mkSubscribeView subs id (encode_props props)) with
           | Some e => Raise (PyErr_AwsLastError e) | None => Ok Pending end
      else exists m, subscribe native (mkSubscribe (Sequence l) id props) = Raise (OverflowError m)
  | None => exists e, forall native, subscribe native (mkSubscribe (Sequence l) id props) = Raise e
  end.
Proof.
  assert (Hs : forall s, match subscription_spec s with Some v => subscription_from_PyObject s = Ok v
                         | None => exists e, subscription_from_PyObject s = Raise e end).
  { intros [[f|] [q|] nl rap [t|]]; unfold subscription_from_PyObject; simpl; try done; by eexists. }
  pose proof (collect_spec _ _ l Hs) as Hc.
  unfold subscribe, mqtt5_client_subscribe, call_native, subscribe_view_of, each, PyObject_GetAsOptionalUint32. simpl.
  destruct (mapM subscription_spec l) as [subs|].
  - rewrite Hc. simpl. destruct (fits 32 id) eqn:Hf.
    + rewrite as_uint_ok by (done || lia). simpl. by destruct (native _).
    + destruct (as_uint_raises 64 32 id ltac:(lia) Hf) as [m ->]. by eexists.
  - destruct Hc as [e ->]. by exists e.
Qed.
End Packets.

(** A packet with text, and one whose topic alias does not fit. *)
Definition demo_packet (topic_alias : option Z) : PublishPacket :=
  PublishPacket.mk (Str "hi") (Some QoS.AT_LEAST_ONCE) false "t" None (Some 60) topic_alias None
    None (Some (Str "id")) None None (Some []).

Lemma publish_echo_witness :
  exists v, publish_view_of 64 id (Ops.publish_arguments (demo_packet (Some 7))) = Ok v /\
    native_publish Some v = Handed (PublishPacket.mk (Bytes "hi") (Some QoS.AT_LEAST_ONCE) false "t" None (Some 60) (Some 7)
      None (Some (Bytes "id")) (Some (Str "id")) None None None).
Proof.
  pose proof (publish_echo (H:=demo_errors) 64 id Some ltac:(lia) (fun s => eq_refl) (fun _ => None)
    (demo_packet (Some 7))) as Hp.
  vm_compute publish_valid in Hp. destruct Hp as (v & H1 & H2 & _). exists v. split; [exact H1|].
  rewrite H2. vm_compute. reflexivity.
Defined.

Example topic_alias_too_large :
  Ops.publish (mqtt5_client_publish (H:=demo_errors) 64 id (fun _ => None)) (demo_packet (Some 65536)) =
  Raise (OverflowError "too large to convert").
Proof. done. Qed.
End Marshal.
