(* ===== verification/HttpNative.v ===== *)
(** * awscrt/http.py with source/http_connection.c: the life of a client connection

    The binding of a connection counts its owners: whoever waits for the setup,
    the capsule Python has, and the native thread until shutdown. The last one
    gives back the reference to the [_HttpClientConnectionCore]. [ConnNative] runs
    the handlers of [Http.Conn] under this count, in any order of what the native
    layer and the user do; [InitialSettings] converts the settings of HTTP/2. *)
From S2P Require Import Prelude PyData Future Mqtt5Types Mqtt5 Mqtt5Native Io Http.

Module ConnNative.
Import Http.Conn.

(** What the native layer can still call: setup after connect, shutdown after a
    successful setup. *)
Inductive phase := Idle | Connecting | Opened | Failed | Shut.
#[global] Instance phase_eq_dec : EqDecision phase.
Proof. solve_decision. Defined.

(** - [py]: the core; [core_ref]: the binding has a reference to it;
    - [ref_count]: of the binding; at 0 it is destroyed;
    - [native]: of the native layer; [capsule]: the capsule is alive; [held]: the
      result of the connect future, the connection, refers to it; [released]:
      calls of aws_http_connection_release;
    - [misuse]: the binding was used or released after its end; [unraisable]:
      exceptions reported with PyErr_WriteUnraisable. *)
Record world := mkWorld {
  py : core;
  core_ref : bool;
  ref_count : nat;
  native : phase;
  capsule : bool;
  held : bool;
  released : nat;
  misuse : bool;
  unraisable : list py_exn;
}.
Definition init (c : core) : world := mkWorld c false 0 Idle false false 0 false [].

Definition set_py x w := mkWorld x (core_ref w) (ref_count w) (native w) (capsule w) (held w) (released w) (misuse w) (unraisable w).
Definition set_core_ref x w := mkWorld (py w) x (ref_count w) (native w) (capsule w) (held w) (released w) (misuse w) (unraisable w).
Definition set_ref_count x w := mkWorld (py w) (core_ref w) x (native w) (capsule w) (held w) (released w) (misuse w) (unraisable w).
Definition set_native x w := mkWorld (py w) (core_ref w) (ref_count w) x (capsule w) (held w) (released w) (misuse w) (unraisable w).
Definition set_capsule x w := mkWorld (py w) (core_ref w) (ref_count w) (native w) x (held w) (released w) (misuse w) (unraisable w).
Definition set_held x w := mkWorld (py w) (core_ref w) (ref_count w) (native w) (capsule w) x (released w) (misuse w) (unraisable w).
Definition release_native w := mkWorld (py w) (core_ref w) (ref_count w) (native w) (capsule w) (held w) (S (released w)) (misuse w) (unraisable w).
Definition set_misuse w := mkWorld (py w) (core_ref w) (ref_count w) (native w) (capsule w) (held w) (released w) true (unraisable w).
Definition report x w := mkWorld (py w) (core_ref w) (ref_count w) (native w) (capsule w) (held w) (released w) (misuse w) (unraisable w ++ [x]).

(** [s_connection_destroy], and the two operations of the count. *)
Definition s_connection_destroy : M world unit := modify (set_core_ref false).
Definition aws_ref_count_release : M world unit := fun w =>
  match ref_count w with
  | O => (Ok tt, set_misuse w)
  | S O => s_connection_destroy (set_ref_count 0 w)
  | S n => (Ok tt, set_ref_count n w)
  end.
Definition aws_ref_count_acquire : M world unit := modify (fun w =>
  (if (ref_count w =? 0)%nat then set_misuse else id) (set_ref_count (S (ref_count w)) w)).

Definition s_connection_capsule_destructor : M world unit :=
  do! modify (fun w => release_native (set_capsule false w)); aws_ref_count_release.
(** The capsule is collected when the connection object is. *)
Definition decref_capsule : M world unit := fun w =>
  if capsule w && negb (held w) then s_connection_capsule_destructor w else (Ok tt, w).

(** A method of the core, with [if (result) Py_DECREF(result) else
    PyErr_WriteUnraisable]. *)
Definition call_method (m : M core unit) : M world unit := fun w =>
  let '(r, c) := m (py w) in
  let w := set_py c (if core_ref w then w else set_misuse w) in
  (Ok tt, match r with Ok _ => w | Raise e => report e w end).

Section Handlers.
Context `{NativeErrors}.

(** The connection is the result of the connect future, or nobody has it. *)
Definition delivered (c : core) : bool :=
  match connect_future c with Finished (Ok _) => true | _ => false end.

Definition s_on_client_connection_setup (error_code http_version : Z) : M world unit :=
  let success := error_code =? 0 in
  do! (if success then do! aws_ref_count_acquire; modify (set_capsule true) else ret tt);
  do! call_method (_on_connection_setup 0 error_code http_version);
  do! modify (fun w => set_held (success && delivered (py w)) w);
  do! (if success then ret tt else aws_ref_count_release);
  decref_capsule.

Definition s_on_connection_shutdown (error_code : Z) : M world unit :=
  do! call_method (_on_shutdown error_code); aws_ref_count_release.

(** [bootstrap]: the first conversion, before the binding is allocated;
    [options]: all others; [err]: of aws_http_client_connect. *)
Definition http_client_connection_new (bootstrap options : result unit) (err : Z) : M world unit :=
  do! lift bootstrap;
  do! modify (set_ref_count 1);
  match options with
  | Raise e => do! aws_ref_count_release; raise e
  | Ok _ =>
      do! modify (set_core_ref true);
      if err =? 0 then modify (set_native Connecting)
      else do! aws_ref_count_release; raise (PyErr_AwsLastError err)
  end.

(** The end of [_generic_new]: an exception goes into the future. *)
Definition generic_new (bootstrap options : result unit) (err : Z) : M world unit :=
  try_except is_Exception (http_client_connection_new bootstrap options err)
    (fun e w => let '(r, c) := set_exception connect_l e (py w) in (r, set_py c w)).

Inductive event :=
  | New (bootstrap options : result unit) (err : Z)
  | ConnectionSetup (error_code : Z) (version : HttpVersion)
  | ConnectionShutdown (error_code : Z)
  | Cancel                                  (** of the connect future *)
  | Drop.                                   (** the connection is collected *)
Definition handle (e : event) : M world unit :=
  match e with
  | New b o err => generic_new b o err
  | ConnectionSetup err v =>
      do! modify (set_native (if err =? 0 then Opened else Failed));
      s_on_client_connection_setup err (enum_value v)
  | ConnectionShutdown err => do! modify (set_native Shut); s_on_connection_shutdown err
  | Cancel => modify (fun w => set_py (update connect_l (Fut.cancel (connect_future (py w))).2 (py w)) w)
  | Drop => do! modify (set_held false); decref_capsule
  end.
Definition step (w : world) (e : event) : world := (handle e w).2.
Definition run (l : list event) (w : world) : world := fold_left step l w.

(** An attempt is made once; setup answers it; shutdown follows a setup that
    succeeded; what nobody has cannot be dropped. *)
Definition allowed (w : world) (e : event) : bool :=
  match e with
  | New b o err => bool_decide (native w = Idle) && bool_decide (connect_future (py w) = Pending)
  | ConnectionSetup _ _ => bool_decide (native w = Connecting)
  | ConnectionShutdown _ => bool_decide (native w = Opened)
  | Cancel => true
  | Drop => held w
  end.
Fixpoint orderly (w : world) (l : list event) : bool :=
  match l with [] => true | e :: l' => allowed w e && orderly (step w e) l' end.

(** ** The books *)

Definition idle_shutdown (c : core) : Prop := _shutdown_future c = None \/ _shutdown_future c = Some Pending.

Lemma setup_effect c ec (v : HttpVersion) : fresh c -> connect_future c = Pending \/ connect_future c = Cancelled ->
  let c' := (_on_connection_setup 0 ec (enum_value v) c).2 in
  Fut.done (connect_future c') = true /\ idle_shutdown c'.
Proof.
  intros Hf Hp. pose proof (setup_any c 0 ec v Hf) as Hs. cbv zeta in *.
  destruct (_on_connection_setup _ _ _ _) as [r c']. destruct Hs as (_ & E1 & E2 & _). simpl.
  split; [rewrite E1; by destruct Hp as [-> | ->]|]. unfold idle_shutdown. rewrite E2. destruct (is_ok _); auto.
Qed.

Lemma shutdown_effect c e : idle_shutdown c ->
  exists c', _on_shutdown e c = (Ok tt, c') /\ connect_future c' = connect_future c /\
    _shutdown_future c' = match _shutdown_future c with
                          | Some _ => Some (Finished (outcome_of e tt))
                          | None => None
                          end.
Proof. intros [Hs|Hs]; unfold _on_shutdown; munfold; rewrite Hs; simpl; eauto. Qed.

Record books (w : world) : Prop := {
  conn_misuse : misuse w = false;
  conn_core : core_ref w = negb (ref_count w =? 0)%nat;
  conn_held : held w = capsule w;
  conn_phase :
    match native w with
    | Idle => ref_count w = 0%nat /\ capsule w = false /\ released w = 0%nat /\ fresh (py w)
    | Connecting => ref_count w = 1%nat /\ capsule w = false /\ released w = 0%nat /\ fresh (py w) /\
        (connect_future (py w) = Pending \/ connect_future (py w) = Cancelled)
    | Failed => ref_count w = 0%nat /\ capsule w = false /\ released w = 0%nat /\
        Fut.done (connect_future (py w)) = true
    | Opened => ref_count w = S (Nat.b2n (capsule w)) /\ (released w + Nat.b2n (capsule w) = 1)%nat /\
        Fut.done (connect_future (py w)) = true /\ idle_shutdown (py w)
    | Shut => ref_count w = Nat.b2n (capsule w) /\ (released w + Nat.b2n (capsule w) = 1)%nat /\
        Fut.done (connect_future (py w)) = true /\
        forall f, _shutdown_future (py w) = Some f -> Fut.done f = true
    end;
}.

Lemma books_new b o err w : books w -> allowed w (New b o err) = true -> books (step w (New b o err)).
Proof.
  intros [B1 B2 B3 B4] [Hn%bool_decide_eq_true Hp%bool_decide_eq_true]%andb_true_iff.
  rewrite Hn in B4. destruct B4 as (R & C & L & F & F'). rewrite R in B2.
  assert (forall e, books ((let '(r, c) := set_exception connect_l e (py w) in (r, set_py c w)).2)) as Hx.
  { intros e. unfold set_exception. rewrite fut_complete_ok by (simpl; by rewrite Hp). simpl.
    split; simpl; rewrite ?R, ?Hn; done. }
  destruct w as [c cr rc n cap h rl mi un]. cbn in *. subst.
  unfold step, handle, generic_new, try_except, http_client_connection_new, bind, lift, modify, raise.
  destruct b as [|e]; [|by destruct (is_Exception e); [apply Hx|split]].
  destruct o as [|e]; simpl; [|by destruct (is_Exception e); [apply Hx|split]].
  destruct (err =? 0); simpl; [|by apply Hx]. split; simpl; split_and?; auto; by split.
Qed.

#[local] Opaque _on_connection_setup.
Lemma books_setup e v w : books w -> allowed w (ConnectionSetup e v) = true -> books (step w (ConnectionSetup e v)).
Proof.
  intros [B1 B2 B3 B4] Hn%bool_decide_eq_true. rewrite Hn in B4. destruct B4 as (R & C & L & F & Fp).
  destruct (setup_effect (py w) e v F Fp) as [Hd Hs].
  destruct (_on_connection_setup 0 e (enum_value v) (py w)) as [r c'] eqn:E. cbn [snd] in Hd, Hs.
  destruct w as [c cr rc n cap h rl mi un]. cbn [py] in E. cbn in B1, B2, B3, R, C, L, Hn. subst.
  unfold step, handle, s_on_client_connection_setup, call_method, decref_capsule, bind, modify, ret.
  cbn [py set_native]. destruct (Z.eqb_spec e 0) as [He|He]; cbn; rewrite E; destruct r as [[]|x]; cbn;
    try (destruct (delivered c'); cbn); (split; cbn; split_and?; auto).
Qed.

#[local] Transparent _on_connection_setup.

Lemma books_shutdown e w : books w -> allowed w (ConnectionShutdown e) = true -> books (step w (ConnectionShutdown e)).
Proof.
  intros [B1 B2 B3 B4] Hn%bool_decide_eq_true. rewrite Hn in B4. destruct B4 as (R & L & F & S).
  destruct (shutdown_effect (py w) e S) as (c' & Hr & E1 & E2).
  assert (forall f, _shutdown_future c' = Some f -> Fut.done f = true) as Hf.
  { rewrite E2. by destruct (_shutdown_future (py w)); intros ? [= <-]. }
  destruct w as [c cr rc n cap h rl mi un]. cbn [py] in *. cbn in B1, B2, B3, R, L, Hn. subst.
  unfold step, handle, s_on_connection_shutdown, call_method, bind, modify. cbn [py set_native]. rewrite Hr. destruct cap; (split; cbn; rewrite ?E1; split_and?; auto).
Qed.

Lemma books_cancel w : books w -> books (step w Cancel).
Proof.
  intros [B1 B2 B3 B4]. split; simpl; try done. destruct (native w); simpl in *; try done.
  - destruct B4 as (R & C & L & F & [-> | ->]); split_and!; simpl; auto.
  - destruct B4 as (R & C & L & F). split_and!; try done. by destruct (connect_future (py w)).
  - destruct B4 as (R & C & F & S). split_and!; try done. by destruct (connect_future (py w)).
  - destruct B4 as (R & C & F & S). split_and!; try done. by destruct (connect_future (py w)).
Qed.

Lemma books_drop w : books w -> allowed w Drop = true -> books (step w Drop).
Proof.
  intros [B1 B2 B3 B4] Hh. cbn in Hh. destruct w as [c cr rc n cap h rl mi un]. cbn in *. subst.
  destruct n; simpl in *; destruct_and?; subst; try done.
  - assert (rl = 0%nat) as -> by lia. split; simpl; auto.
  - assert (rl = 0%nat) as -> by lia. split; simpl; auto.
Qed.

(** Everything of a connection is given back once. In any run of an attempt the
    binding is not used or released after its end; it lives, and keeps the core
    alive, while the setup is awaited, the capsule is held or the shutdown is to
    come; the native connection of a successful setup is released exactly when
    nobody has the connection: at once if the handler refused it (another
    version) or the attempt was cancelled. After the last callback the connect
    future is done, and so is the shutdown future of a connection. *)
Theorem http_connection_given_back (c : core) (l : list event) (Hc : fresh c) (Hl : orderly (init c) l = true) :
  let w := run l (init c) in
  misuse w = false /\ core_ref w = negb (ref_count w =? 0)%nat /\ held w = capsule w /\
  match native w with
  | Idle | Failed => ref_count w = 0%nat /\ released w = 0%nat
  | Connecting => ref_count w = 1%nat /\ released w = 0%nat
  | Opened => ref_count w = S (Nat.b2n (held w)) /\ released w = Nat.b2n (negb (held w))
  | Shut => ref_count w = Nat.b2n (held w) /\ released w = Nat.b2n (negb (held w)) /\
      forall f, _shutdown_future (py w) = Some f -> Fut.done f = true
  end /\
  (native w <> Idle -> native w <> Connecting -> Fut.done (connect_future (py w)) = true).
Proof.
  cbv zeta. assert (books (run l (init c))) as [B1 B2 B3 B4].
  { assert (books (init c)) as Hb by by split. revert Hb Hl. generalize (init c).
    induction l as [|e l IH]; intros w Hb Hl; simpl in *; [done|]. apply andb_true_iff in Hl as [Ha Hl].
    apply IH; [|done]. destruct e; auto using books_new, books_setup, books_shutdown, books_cancel, books_drop. }
  split_and!; try done; destruct (native _); simpl in *; destruct_and?; rewrite ?B3; try done;
    destruct (capsule _); simpl in *; split_and?; try done; lia.
Qed.
End Handlers.

(** An HTTP/2 connection that turns out to be HTTP/1.1 is refused by the core
    and released at once; one that is cancelled before the setup, too. *)
Definition demo_new : event := New (Ok tt) (Ok tt) 0.
Lemma http_connection_given_back_witness :
  let w := run (H:=demo_errors) [demo_new; Cancel; ConnectionSetup 0 HttpVersion.Http2] (init demo_core) in
  misuse w = false /\ native w = Opened /\ released w = 1%nat.
Proof.
  cbv zeta.
  destruct (http_connection_given_back (H:=demo_errors) demo_core
    [demo_new; Cancel; ConnectionSetup 0 HttpVersion.Http2] (conj eq_refl eq_refl) ltac:(vm_compute; reflexivity))
    as (H1 & _). split; [exact H1|]. split; vm_compute; reflexivity.
Defined.
Example refused_version_released :
  let w := run (H:=demo_errors) [demo_new; ConnectionSetup 0 HttpVersion.Http1_1] (init demo_core) in
  (released w, ref_count w, held w) = (1%nat, 1%nat, false).
Proof. vm_compute. reflexivity. Qed.
End ConnNative.

(** ** Initial settings of HTTP/2 *)
Module InitialSettings.
Import Http.Settings Marshal.

(** The [initial_settings] argument: no check asks for a list. *)
Inductive settings_arg := SettingsList (l : list Http2Setting) | NotAList.

(** [PyList_Size]: -1 and an exception for anything else. *)
Definition PyList_Size (a : settings_arg) : Z :=
  match a with SettingsList l => Z.of_nat (length l) | NotAList => -1 end.

Definition convert_setting (s : Http2Setting) : result (Z * Z) :=
  let? id := PyObject_GetAttrAsIntEnum (Some (Settings.id s)) in
  let? value := PyObject_GetAsOptionalUint32 (Some (Settings.value s)) in
  Ok (id, default 0 value).

(** [s_convert_http2_settings]: the number of elements asked of the allocator
    (none for an empty list), as a size_t, and then the array; None after an
    allocation that no list asks for, which is up to the allocator. *)
Definition allocation (a : settings_arg) : option Z :=
  let n := PyList_Size a in if n =? 0 then None else Some (n mod 2 ^ 64).
Fixpoint convert_all (l : list Http2Setting) : result (list (Z * Z)) :=
  match l with
  | [] => Ok []
  | s :: rest => let? p := convert_setting s in let? ps := convert_all rest in Ok (p :: ps)
  end.
Definition s_convert_http2_settings (a : settings_arg) : option (result (list (Z * Z))) :=
  match a with SettingsList l => Some (convert_all l) | NotAList => None end.

(** Valid settings reach the native layer as they are. *)
Lemma settings_sent_exactly l : Forall in_range l ->
  s_convert_http2_settings (SettingsList l) = Some (Ok (map (fun s => (enum_value (id s), value s)) l)) /\
  allocation (SettingsList l) = (if l is [] then None else Some (Z.of_nat (length l) mod 2 ^ 64)).
Proof.
  intros Hl. split; [|by destruct l]. simpl. f_equal. induction Hl as [|s l Hs _ IH]; [done|]. cbn [convert_all map].
  assert (fits 32 (Some (value s)) = true) as Hf.
  { unfold in_range in Hs. unfold fits. apply andb_true_iff. split; [apply Z.leb_le|apply Z.ltb_lt];
      destruct (id s); simpl in Hs; lia. }
  unfold convert_setting, PyObject_GetAsOptionalUint32. rewrite as_uint_ok by (done || lia). simpl. by rewrite IH.
Qed.

(** A tuple of settings asks for 2^64 - 1 of them. *)
Example tuple_of_settings : allocation NotAList = Some (2 ^ 64 - 1).
Proof. reflexivity. Qed.
End InitialSettings.
