(* ===== verification/Mqtt3Native.v ===== *)
(** * awscrt/mqtt.py with source/mqtt_client_connection.c: callbacks and their references

    The operations of an MQTT 3.1.1 connection hand Python callbacks to the
    native client, which calls them later from its event loop. The binding owns
    a reference for each and gives it back exactly when the native client is
    done with it.

    - [Native3]: operations from the Python method to the native call and back
      through the native callback to the future, over a state with the
      references the binding owns; runs of any operations and callbacks;
    - [Connect3]: what connect hands to the native client;
    - [Lifetime3]: making the binding and taking it down. *)
From stdpp Require Export gmultiset.
From S2P Require Import Prelude PyData Future Mqtt5Types Mqtt5 Mqtt5Native Mqtt3.

Module Native3.
Import Mqtt3.

(** ** Python objects and the state *)

(** The objects handed over as callbacks: None, the closure an operation makes
    over its future (by the number of the future), and the wrapper of the user's
    message callback number [h]. *)
Inductive pyobj := PyNone | Completion (k : nat) | Wrapper (h : nat) (uses_old_signature : bool).
#[global] Instance pyobj_eq_dec : EqDecision pyobj.
Proof. solve_decision. Defined.
Definition pyobj_code (o : pyobj) : option nat + nat * bool :=
  match o with PyNone => inl None | Completion k => inl (Some k) | Wrapper h b => inr (h, b) end.
Definition pyobj_decode (c : option nat + nat * bool) : pyobj :=
  match c with inl None => PyNone | inl (Some k) => Completion k | inr (h, b) => Wrapper h b end.
#[global] Instance pyobj_countable : Countable pyobj.
Proof. refine (inj_countable' pyobj_code pyobj_decode _). by intros [| |]. Defined.

(** What the native client will call when an operation it took is complete,
    with the callback that goes along as user data. *)
Inductive completion_fn := PublishComplete | SubackCallback | UnsubackCallback | SubackMultiCallback | OnDisconnect.
Record slot := mkSlot { fn : completion_fn; userdata : pyobj }.

(** - [refs]: the references the binding owns; [misuse]: a reference was given
      back that it did not own, or an object was called that nothing kept alive;
    - [futures]: of all operations so far;
    - [on_connect], [on_any_publish]: the members of the binding;
    - [any_handler], [pending], [topics]: what the native client has: the handler
      of every message, the operations under way, the handlers of subscriptions;
    - [delivered]: the calls of user functions; [notified]: of lifecycle
      callbacks; [unraisable]: exceptions reported with PyErr_WriteUnraisable. *)
Record world := mkWorld {
  refs : gmultiset pyobj;
  misuse : bool;
  futures : list (future op_result);
  on_connect : option pyobj;
  on_any_publish : option pyobj;
  any_handler : option pyobj;
  pending : list slot;
  topics : list pyobj;
  delivered : list (nat * message_call);
  notified : list lifecycle;
  unraisable : list py_exn;
}.
Definition init : world := mkWorld ∅ false [] None None None [] [] [] [] [].

Definition set_refs r s := mkWorld r (misuse s) (futures s) (on_connect s) (on_any_publish s) (any_handler s)
  (pending s) (topics s) (delivered s) (notified s) (unraisable s).
Definition set_misuse s := mkWorld (refs s) true (futures s) (on_connect s) (on_any_publish s) (any_handler s)
  (pending s) (topics s) (delivered s) (notified s) (unraisable s).
Definition set_futures f s := mkWorld (refs s) (misuse s) f (on_connect s) (on_any_publish s) (any_handler s)
  (pending s) (topics s) (delivered s) (notified s) (unraisable s).
Definition set_on_connect o s := mkWorld (refs s) (misuse s) (futures s) o (on_any_publish s) (any_handler s)
  (pending s) (topics s) (delivered s) (notified s) (unraisable s).
Definition set_on_any_publish o s := mkWorld (refs s) (misuse s) (futures s) (on_connect s) o (any_handler s)
  (pending s) (topics s) (delivered s) (notified s) (unraisable s).
Definition set_any_handler o s := mkWorld (refs s) (misuse s) (futures s) (on_connect s) (on_any_publish s) o
  (pending s) (topics s) (delivered s) (notified s) (unraisable s).
Definition set_pending p s := mkWorld (refs s) (misuse s) (futures s) (on_connect s) (on_any_publish s)
  (any_handler s) p (topics s) (delivered s) (notified s) (unraisable s).
Definition set_topics t s := mkWorld (refs s) (misuse s) (futures s) (on_connect s) (on_any_publish s)
  (any_handler s) (pending s) t (delivered s) (notified s) (unraisable s).
Definition deliver_call c s := mkWorld (refs s) (misuse s) (futures s) (on_connect s) (on_any_publish s)
  (any_handler s) (pending s) (topics s) (delivered s ++ [c]) (notified s) (unraisable s).
Definition notify_calls l s := mkWorld (refs s) (misuse s) (futures s) (on_connect s) (on_any_publish s)
  (any_handler s) (pending s) (topics s) (delivered s) (notified s ++ l) (unraisable s).
Definition report e s := mkWorld (refs s) (misuse s) (futures s) (on_connect s) (on_any_publish s)
  (any_handler s) (pending s) (topics s) (delivered s) (notified s) (unraisable s ++ [e]).

(** ** References and calls *)

Definition Py_INCREF (o : pyobj) : M world unit := modify (fun s => set_refs (refs s ⊎ {[+ o +]}) s).
Definition Py_DECREF (o : pyobj) : M world unit := modify (fun s =>
  if decide (o ∈ refs s) then set_refs (refs s ∖ {[+ o +]}) s else set_misuse s).
Definition Py_XDECREF (o : option pyobj) : M world unit :=
  match o with Some o => Py_DECREF o | None => ret tt end.

(** [PyObject_CallFunction] on an object that something must keep alive, and
    [if (result) Py_DECREF(result) else PyErr_WriteUnraisable]. *)
Definition PyObject_CallFunction (o : pyobj) (call : M world unit) : M world unit :=
  do! modify (fun s => if decide (o ∈ refs s) then s else set_misuse s); call.
Definition or_unraisable (call : M world unit) : M world unit :=
  try_except is_BaseException call (fun e => modify (report e)).

(** Run a closure over its future. *)
Definition on_future (k : nat) (m : M (future op_result) unit) : M world unit := fun s =>
  match futures s !! k with
  | Some f => let (r, f') := m f in (r, set_futures (<[k := f']> (futures s)) s)
  | None => (Raise (UnboundLocalError "future"), s)
  end.
Definition run_completion (o : pyobj) (m : M (future op_result) unit) : M world unit :=
  match o with Completion k => on_future k m | _ => raise (TypeError "not a completion") end.

Section Native.
Context `{NativeErrors}.
(** The aws error of a Python exception that has no error of its own. *)
Variable AWS_ERROR_UNKNOWN : Z.

(** ** Native callbacks

    What the native client says when an operation is complete; [dead]: the
    connection it names is NULL, and the callback does nothing at all. *)
Record ack := mkAck {
  dead : bool;
  packet_id : Z;
  ack_topic : string;
  ack_qos : Z;
  error_code : Z;
  topic_subacks : list (option string * Z);       (** None: a topic that is not UTF-8 *)
}.

Definition s_publish_complete (a : ack) (callback : pyobj) : M world unit :=
  if dead a then ret tt else
  do! (if bool_decide (callback = PyNone) then ret tt
       else or_unraisable (PyObject_CallFunction callback
              (run_completion callback (puback (packet_id a) (error_code a)))));
  Py_DECREF callback.

Definition s_suback_callback (a : ack) (callback : pyobj) : M world unit :=
  if dead a then ret tt else
  do! or_unraisable (PyObject_CallFunction callback
        (run_completion callback (suback (packet_id a) (ack_topic a) (ack_qos a) (error_code a))));
  Py_DECREF callback.

Definition s_unsuback_callback (a : ack) (callback : pyobj) : M world unit :=
  if dead a then ret tt else
  do! or_unraisable (PyObject_CallFunction callback
        (run_completion callback (unsuback (packet_id a) (error_code a))));
  Py_DECREF callback.

(** The list of pairs, unless a topic cannot be decoded. *)
Definition topic_qos_list (l : list (option string * Z)) : option (list (string * Z)) :=
  mapM (fun '(t, q) => (fun t => (t, q)) <$> t) l.
Definition s_suback_multi_callback (a : ack) (callback : pyobj) : M world unit :=
  if dead a then ret tt else
  let '(l, error) :=
    if negb (error_code a =? 0) then ([], error_code a)
    else match topic_qos_list (topic_subacks a) with
         | Some l => (l, 0)
         | None => ([], AWS_ERROR_UNKNOWN)
         end in
  do! or_unraisable (PyObject_CallFunction callback
        (run_completion callback (on_suback (packet_id a) l error)));
  Py_DECREF callback.

Definition s_on_disconnect (a : ack) (callback : pyobj) : M world unit :=
  if dead a then ret tt else
  do! or_unraisable (PyObject_CallFunction callback (run_completion callback on_disconnect));
  Py_DECREF callback.

Definition complete_slot (a : ack) (p : slot) : M world unit :=
  match fn p with
  | PublishComplete => s_publish_complete a (userdata p)
  | SubackCallback => s_suback_callback a (userdata p)
  | UnsubackCallback => s_unsuback_callback a (userdata p)
  | SubackMultiCallback => s_suback_multi_callback a (userdata p)
  | OnDisconnect => s_on_disconnect a (userdata p)
  end.

Definition s_on_connect (is_dead : bool) (error_code return_code : Z) (session_present : bool) : M world unit :=
  if is_dead then ret tt else
  let! c := gets on_connect in
  match c with
  | None => ret tt
  | Some callback =>
      do! modify (set_on_connect None);
      do! or_unraisable (PyObject_CallFunction callback
            (run_completion callback (Mqtt3.on_connect error_code return_code session_present)));
      Py_DECREF callback
  end.

(** A message, its topic None when it is not UTF-8, and the user's function. *)
Record message := mkMessage { m_topic : option string; m_payload : string; m_dup : bool; m_qos : Z; m_retain : bool }.
Definition call_wrapper (o : pyobj) (m : message) (user : message_call -> result unit) : M world unit :=
  match m_topic m, o with
  | None, _ => raise (BuiltinError "UnicodeDecodeError")
  | Some topic, Wrapper h old =>
      let! c := lift (callback_wrapper old topic (m_payload m) (m_dup m) (m_qos m) (m_retain m)) in
      do! modify (deliver_call (h, c));
      lift (user c)
  | Some _, _ => raise (TypeError "not a message callback")
  end.
Definition s_subscribe_callback (is_dead : bool) (m : message) (user : message_call -> result unit) (callback : pyobj)
    : M world unit :=
  if is_dead then ret tt
  else if bool_decide (callback = PyNone) then ret tt
  else or_unraisable (PyObject_CallFunction callback (call_wrapper callback m user)).
Definition s_callback_cleanup (callback : pyobj) : M world unit := Py_DECREF callback.

(** [s_on_connection_success] and the like: a method of the connection, when it
    is still alive. *)
Definition s_on_lifecycle (is_dead : bool) (self_alive : bool) (call : result (list lifecycle)) : M world unit :=
  if is_dead then ret tt
  else if self_alive then or_unraisable (let! l := lift call in modify (notify_calls l))
  else ret tt.

(** ** Operations of the binding

    The native client answers with a packet id and its last error; it has taken
    the operation, and the user data with it, unless the id is 0. [parsed] is
    what PyArg_ParseTuple makes of the arguments that are not callbacks. *)
Record answer := mkAnswer { msg_id : Z; aws_last_error : Z }.
Definition native_call (a : answer) (taken : world -> world) : M world Z :=
  do! modify (if msg_id a =? 0 then id else taken); ret (msg_id a).
Definition new_pending (p : slot) (s : world) : world := set_pending (pending s ++ [p]) s.

Definition client_connection_publish (parsed : result unit) (qos_val : Z) (puback_callback : pyobj) (native : answer)
    : M world Z :=
  do! lift parsed;
  if 2 <=? qos_val then raise (ValueError "") else
  do! Py_INCREF puback_callback;
  let! id := native_call native (new_pending (mkSlot PublishComplete puback_callback)) in
  if id =? 0 then do! Py_DECREF puback_callback; raise (PyErr_AwsLastError (aws_last_error native))
  else ret id.

Definition client_connection_subscribe (parsed : result unit) (callback suback_callback : pyobj) (native : answer)
    : M world Z :=
  do! lift parsed;
  do! Py_INCREF callback;
  do! Py_INCREF suback_callback;
  let! id := native_call native (fun s =>
    set_topics (topics s ++ [callback]) (new_pending (mkSlot SubackCallback suback_callback) s)) in
  if id =? 0 then
    do! Py_DECREF callback; do! Py_DECREF suback_callback; raise (PyErr_AwsLastError (aws_last_error native))
  else ret id.

Definition client_connection_unsubscribe (parsed : result unit) (unsuback_callback : pyobj) (native : answer)
    : M world Z :=
  do! lift parsed;
  do! Py_INCREF unsuback_callback;
  let! id := native_call native (new_pending (mkSlot UnsubackCallback unsuback_callback)) in
  if id =? 0 then do! Py_DECREF unsuback_callback; raise (PyErr_AwsLastError (aws_last_error native))
  else ret id.

Definition client_connection_resubscribe_existing_topics (suback_callback : pyobj) (native : answer) : M world Z :=
  do! Py_INCREF suback_callback;
  let! id := native_call native (new_pending (mkSlot SubackMultiCallback suback_callback)) in
  if id =? 0 then
    do! Py_DECREF suback_callback;
    if negb (aws_last_error native =? 0) then raise (PyErr_AwsLastError (aws_last_error native)) else ret id
  else ret id.

Definition client_connection_disconnect (on_disconnect : pyobj) (err : Z) : M world unit :=
  do! Py_INCREF on_disconnect;
  do! modify (if err =? 0 then new_pending (mkSlot OnDisconnect on_disconnect) else id);
  if negb (err =? 0) then do! Py_DECREF on_disconnect; raise (PyErr_AwsLastError err)
  else ret tt.

(** [Py_CLEAR(py_connection->on_connect)] *)
Definition clear_on_connect : M world unit :=
  let! c := gets on_connect in do! modify (set_on_connect None); Py_XDECREF c.
Definition store_on_connect (callback : pyobj) : M world unit :=
  if bool_decide (callback = PyNone) then ret tt
  else do! Py_INCREF callback; modify (set_on_connect (Some callback)).

(** [options]: everything before the callback is stored ([Connect3]); [metrics]:
    setting the metrics, whose failure is only logged while the exception it set
    stays, so that the interpreter makes a SystemError of the return value;
    [err]: of the native connect. *)
Definition client_connection_connect (parsed options metrics : result unit) (callback : pyobj) (err : Z)
    : M world unit :=
  do! lift parsed;
  let! c := gets on_connect in
  if bool_decide (is_Some c) then raise (RuntimeError "Connection already in progress") else
  do! lift options;
  do! store_on_connect callback;
  if err =? 0 then match metrics with Ok _ => ret tt | Raise _ => raise (BuiltinError "SystemError") end
  else do! clear_on_connect; raise (PyErr_AwsLastError err).

Definition client_connection_reconnect (callback : pyobj) (err : Z) : M world unit :=
  let! c := gets on_connect in
  if bool_decide (is_Some c) then raise (RuntimeError "Connection already in progress") else
  do! store_on_connect callback;
  if err =? 0 then ret tt else do! clear_on_connect; raise (PyErr_AwsLastError err).

Definition client_connection_on_message (callback : pyobj) (err : Z) : M world unit :=
  if negb (err =? 0) then raise (PyErr_AwsLastError err) else
  do! modify (set_any_handler (if bool_decide (callback = PyNone) then None else Some callback));
  let! old := gets on_any_publish in
  do! Py_XDECREF old;
  do! modify (set_on_any_publish (Some callback));
  Py_INCREF callback.

(** ** Methods of the Python Connection

    [start_on m]: a new future, and [try: m except Exception as e:
    future.set_exception(e)]; the result is the future and what the method
    returns beside it, 0 after an exception. *)
Definition new_future : M world nat := fun s => (Ok (length (futures s)), set_futures (futures s ++ [Pending]) s).
Definition settle (k : nat) (r : result op_result) : M world unit := on_future k (complete r).
Definition start_on (m : nat -> M world Z) : M world (nat * Z) :=
  let! k := new_future in
  let! id := try_except is_Exception (m k) (fun e => do! settle k (Raise e); ret 0) in
  ret (k, id).
Definition no_id (m : M world unit) : M world Z := do! m; ret 0.

Definition publish (parsed : result unit) (qos : qos_arg) (native : answer) : M world (nat * Z) :=
  start_on (fun k =>
    let! q := lift (convert_qos qos) in client_connection_publish parsed q (Completion k) native).

(** The wrapper of the user's function number [h], or None; an unusable
    function raises before anything else is done with the future. *)
Definition wrapper_obj (c : callback_arg) (h : nat) : result pyobj :=
  let? w := wrapper_of c in Ok (match w with Some old => Wrapper h old | None => PyNone end).
Definition subscribe (parsed : result unit) (qos : qos_arg) (callback : callback_arg) (h : nat) (native : answer)
    : M world (nat * Z) :=
  let! w := lift (wrapper_obj callback h) in
  start_on (fun k =>
    do! lift (let? _ := convert_qos qos in Ok tt);
    client_connection_subscribe parsed w (Completion k) native).
Definition unsubscribe (parsed : result unit) (native : answer) : M world (nat * Z) :=
  start_on (fun k => client_connection_unsubscribe parsed (Completion k) native).

(** [if packet_id is None]: the binding returns an int whatever happens. *)
Definition resubscribe_existing_topics (native : answer) : M world (nat * Z) :=
  start_on (fun k => client_connection_resubscribe_existing_topics (Completion k) native).
Definition connect (parsed options metrics : result unit) (err : Z) : M world (nat * Z) :=
  start_on (fun k => no_id (client_connection_connect parsed options metrics (Completion k) err)).
Definition reconnect (err : Z) : M world (nat * Z) :=
  start_on (fun k => no_id (client_connection_reconnect (Completion k) err)).
Definition disconnect (err : Z) : M world (nat * Z) :=
  start_on (fun k => no_id (client_connection_disconnect (Completion k) err)).
Definition on_message (callback : callback_arg) (h : nat) (err : Z) : M world unit :=
  let! w := lift (wrapper_obj callback h) in client_connection_on_message w err.

(** ** Runs

    What can happen next, by a thread of the program or by the event loop. Each
    is one piece under the interpreter lock. *)
Inductive event :=
  | Publish (parsed : result unit) (qos : qos_arg) (native : answer)
  | Subscribe (parsed : result unit) (qos : qos_arg) (callback : callback_arg) (h : nat) (native : answer)
  | Unsubscribe (parsed : result unit) (native : answer)
  | Resubscribe (native : answer)
  | Connect (parsed options metrics : result unit) (err : Z)
  | Reconnect (err : Z)
  | Disconnect (err : Z)
  | OnMessage (callback : callback_arg) (h : nat) (err : Z)
  | Cancel (k : nat)                                 (** [future.cancel()] by the user *)
  | Acked (i : nat) (a : ack)                        (** operation [i] of those pending is complete *)
  | Connack (is_dead : bool) (err return_code : Z) (session_present : bool)
  | Message (j : nat) (is_dead : bool) (m : message) (user : message_call -> result unit)
  | AnyMessage (is_dead : bool) (m : message) (user : message_call -> result unit)
  | TopicRemoved (j : nat)                           (** the native client drops subscription [j] *)
  | Lifecycle (is_dead self_alive : bool) (call : result (list lifecycle)).

Definition as_unit {A} (m : M world A) : M world unit := do! m; ret tt.
Definition handle (e : event) : M world unit := fun s =>
  match e with
  | Publish parsed qos native => as_unit (publish parsed qos native) s
  | Subscribe parsed qos callback h native => as_unit (subscribe parsed qos callback h native) s
  | Unsubscribe parsed native => as_unit (unsubscribe parsed native) s
  | Resubscribe native => as_unit (resubscribe_existing_topics native) s
  | Connect parsed options metrics err => as_unit (connect parsed options metrics err) s
  | Reconnect err => as_unit (reconnect err) s
  | Disconnect err => as_unit (disconnect err) s
  | OnMessage callback h err => on_message callback h err s
  | Cancel k => (Ok tt, set_futures (alter (fun f => (Fut.cancel f).2) k (futures s)) s)
  | Acked i a =>
      match pending s !! i with
      | Some p => complete_slot a p (set_pending (delete i (pending s)) s)
      | None => (Ok tt, s)
      end
  | Connack is_dead err rc sp => s_on_connect is_dead err rc sp s
  | Message j is_dead m user =>
      match topics s !! j with Some o => s_subscribe_callback is_dead m user o s | None => (Ok tt, s) end
  | AnyMessage is_dead m user =>
      match any_handler s with Some o => s_subscribe_callback is_dead m user o s | None => (Ok tt, s) end
  | TopicRemoved j =>
      match topics s !! j with
      | Some o => s_callback_cleanup o (set_topics (delete j (topics s)) s)
      | None => (Ok tt, s)
      end
  | Lifecycle is_dead alive call => s_on_lifecycle is_dead alive call s
  end.
Definition run (es : list event) (s : world) : world := fold_left (fun s e => (handle e s).2) es s.

(** ** The books: references against obligations

    [books] is what a call into Python code leaves alone. *)
Definition books (s : world) :=
  (refs s, misuse s, on_connect s, on_any_publish s, any_handler s, pending s, topics s).

Definition of_option (o : option pyobj) : gmultiset pyobj := match o with Some o => {[+ o +]} | None => ∅ end.
Definition owned (s : world) : gmultiset pyobj :=
  of_option (on_connect s) ⊎ of_option (on_any_publish s) ⊎
  list_to_set_disj (map userdata (pending s)) ⊎ list_to_set_disj (topics s).

(** The binding owns one reference for each obligation, and beside these the
    [lost] ones; the handler of every message is what the binding keeps alive. *)
Definition accounts (lost : gmultiset pyobj) (s : world) : Prop :=
  refs s = owned s ⊎ lost /\ misuse s = false /\
  (any_handler s = None \/ any_handler s = on_any_publish s).

Lemma accounts_books lost s s' : books s' = books s -> accounts lost s -> accounts lost s'.
Proof.
  unfold books, accounts, owned. intros [= E1 E2 E3 E4 E5 E6 E7].
  by rewrite E1, E2, E3, E4, E5, E6, E7.
Qed.

(** What running Python code may do to the state: leave the books alone, and
    settle futures but never open one again. *)
Definition python_step (s s' : world) : Prop :=
  books s' = books s /\ length (futures s') = length (futures s) /\
  forall k f', futures s' !! k = Some f' -> Fut.done f' = false ->
    exists f, futures s !! k = Some f /\ Fut.done f = false.
Definition runs_python (m : M world unit) : Prop := forall s, python_step s (m s).2.

#[local] Instance python_step_preorder : PreOrder python_step.
Proof.
  split.
  - intros s. unfold python_step. split_and!; eauto.
  - intros s1 s2 s3 (B1 & L1 & F1) (B2 & L2 & F2). split_and!; [congruence..|].
    intros k f Hk Hf. destruct (F2 k f Hk Hf) as (f2 & Hk2 & Hf2). eauto.
Qed.

(** A closure that only ever completes its future. *)
Definition completes (m : M (future op_result) unit) : Prop :=
  forall f, Fut.done (m f).2 = false -> Fut.done f = false.
Lemma complete_completes r : completes (complete r).
Proof. intros f. unfold complete. destruct f; simpl; done. Qed.
Lemma on_connect_completes err rc sp : completes (Mqtt3.on_connect err rc sp).
Proof.
  intros f. unfold Mqtt3.on_connect, bind, lift. destruct (negb (rc =? 0)); [|apply complete_completes].
  destruct (enum_call rc); [apply complete_completes|done].
Qed.

Lemma on_future_python k m : completes m -> runs_python (on_future k m).
Proof.
  intros Hm s. unfold on_future. destruct (futures s !! k) as [f|] eqn:Hk; [|done].
  specialize (Hm f). destruct (m f) as [r f']. simpl in *. split_and!; [done|simpl; by rewrite length_insert|].
  simpl. intros k' g. destruct (decide (k' = k)) as [->|Hne].
  - rewrite list_lookup_insert_eq by (by eapply lookup_lt_Some). intros [= ->]. eauto.
  - rewrite list_lookup_insert_ne by done. eauto.
Qed.
Lemma run_completion_python o m : completes m -> runs_python (run_completion o m).
Proof. intros Hm. destruct o; simpl; [by intros s|by apply on_future_python|by intros s]. Qed.
Lemma call_wrapper_python o m user : runs_python (call_wrapper o m user).
Proof.
  intros s. unfold call_wrapper. destruct (m_topic m), o as [|k|h old]; try reflexivity.
  munfold. destruct (callback_wrapper _ _ _ _ _ _); [|reflexivity]. split_and!; simpl; eauto.
Qed.

(** A call of an object that something keeps alive: its exceptions stay there. *)
Lemma call_python o m s : o ∈ refs s -> runs_python m ->
  or_unraisable (PyObject_CallFunction o m) s =
    (Ok tt, match (m s).1 with Ok _ => (m s).2 | Raise e => report e (m s).2 end) /\
  python_step s (or_unraisable (PyObject_CallFunction o m) s).2.
Proof.
  intros Ho Hm. unfold or_unraisable, try_except, PyObject_CallFunction, bind, modify.
  rewrite decide_True by done. specialize (Hm s). destruct (m s) as [[[]|e] s1]; (split; [done|]); [done|].
  destruct Hm as (?&?&?). split_and!; done.
Qed.

Lemma decref_held o s : o ∈ refs s -> Py_DECREF o s = (Ok tt, set_refs (refs s ∖ {[+ o +]}) s).
Proof. intros Ho. unfold Py_DECREF, modify. by rewrite decide_True. Qed.

Lemma sum_delete {A} (f : A -> pyobj) (l : list A) i x : l !! i = Some x ->
  (list_to_set_disj (map f l) : gmultiset pyobj) = {[+ f x +]} ⊎ list_to_set_disj (map f (delete i l)).
Proof.
  intros Hi. rewrite <- list_to_set_disj_cons, <- (map_cons f). apply list_to_set_disj_perm.
  apply Permutation_map. by apply delete_Permutation.
Qed.

Lemma owned_decomposed lost s : accounts lost s ->
  (forall i p, pending s !! i = Some p ->
     userdata p ∈ refs s /\
     accounts (lost ⊎ {[+ userdata p +]}) (set_pending (delete i (pending s)) s)) /\
  (forall j o, topics s !! j = Some o ->
     o ∈ refs s /\ accounts (lost ⊎ {[+ o +]}) (set_topics (delete j (topics s)) s)) /\
  (forall o, on_connect s = Some o ->
     o ∈ refs s /\ accounts (lost ⊎ {[+ o +]}) (set_on_connect None s)) /\
  (forall o, any_handler s = Some o -> o ∈ refs s).
Proof.
  intros (Hr & Hm & Ha). unfold accounts, owned in *. simpl. split_and!.
  - intros i p Hi. rewrite Hr, (sum_delete userdata _ _ _ Hi).
    split; [multiset_solver|]. split_and!; [multiset_solver|done|done].
  - intros j o Hj. pose proof (sum_delete id _ _ _ Hj) as Hp. rewrite !map_id in Hp. rewrite Hr, Hp.
    split; [multiset_solver|]. split_and!; [multiset_solver|done|done].
  - intros o Ho. rewrite Hr, Ho. simpl. split; [multiset_solver|]. split_and!; [multiset_solver|done|done].
  - intros o Ho. rewrite Hr. destruct Ha as [Ha|Ha]; [congruence|]. rewrite <- Ha, Ho. simpl. multiset_solver.
Qed.

(** Give back a reference that is no longer owed. *)
Lemma accounts_decref lost o s : accounts (lost ⊎ {[+ o +]}) s ->
  exists s', Py_DECREF o s = (Ok tt, s') /\ accounts lost s' /\ futures s' = futures s /\
    (on_connect s', pending s', unraisable s') = (on_connect s, pending s, unraisable s).
Proof.
  intros (Hr & Hm & Ha). rewrite decref_held by (rewrite Hr; multiset_solver).
  eexists. split; [done|]. split; [|done]. split_and!; simpl; [|done..].
  change (owned (set_refs _ s)) with (owned s). rewrite Hr. multiset_solver.
Qed.

(** ** Well-formed states

    Every object the native client has is of the kind its callback calls. *)
Definition is_completion (n : nat) (o : pyobj) : Prop := exists k, o = Completion k /\ (k < n)%nat.
Definition is_handler (o : pyobj) : Prop := match o with Completion _ => False | _ => True end.
Record well_formed (s : world) : Prop := {
  wf_pending : Forall (fun p => is_completion (length (futures s)) (userdata p)) (pending s);
  wf_connect : forall o, on_connect s = Some o -> is_completion (length (futures s)) o;
  wf_topics : Forall is_handler (topics s);
  wf_any : forall o, any_handler s = Some o -> is_handler o;
}.
Definition inv (lost : gmultiset pyobj) (s : world) : Prop := accounts lost s /\ well_formed s.

(** The callbacks that are still to come for an operation. *)
Definition waiting (s : world) : list pyobj := option_list (on_connect s) ++ map userdata (pending s).

Lemma inv_python lost s s' : python_step s s' -> inv lost s -> inv lost s'.
Proof.
  intros (Hb & Hl & _) [Ha [W1 W2 W3 W4]]. split; [by eapply accounts_books|].
  unfold books in Hb. injection Hb as E1 E2 E3 E4 E5 E6 E7. split; rewrite ?Hl, ?E3, ?E5, ?E6, ?E7; done.
Qed.
Lemma waiting_python s s' : python_step s s' -> waiting s' = waiting s.
Proof. intros ([= E1 E2 E3 E4 E5 E6 E7] & _). unfold waiting. by rewrite E3, E6. Qed.

(** What the future of an operation is told when the operation is complete. *)
Definition slot_result (a : ack) (f : completion_fn) : result op_result :=
  match f with
  | PublishComplete | UnsubackCallback =>
      if error_code a =? 0 then Ok (Packet (packet_id a)) else Raise (from_code (error_code a))
  | SubackCallback =>
      if error_code a =? 0
      then match enum_of (ack_qos a) with
           | Some q => Ok (Subscribed (packet_id a) (ack_topic a) q)
           | None => Raise (SubscribeError (ack_topic a))
           end
      else Raise (from_code (error_code a))
  | SubackMultiCallback =>
      if error_code a =? 0
      then match topic_qos_list (topic_subacks a) with
           | Some l => Ok (Resubscribed (Some (packet_id a)) (map (fun '(t, q) => (t, enum_of q)) l))
           | None =>
               if AWS_ERROR_UNKNOWN =? 0 then Ok (Resubscribed (Some (packet_id a)) [])
               else Raise (from_code AWS_ERROR_UNKNOWN)
           end
      else Raise (from_code (error_code a))
  | OnDisconnect => Ok Disconnected
  end.

(** What the future of a connection attempt is told: the server's return code,
    else the error of the native client. *)
Definition connack_result (err return_code : Z) (session_present : bool) : result op_result :=
  if return_code =? 0
  then if err =? 0 then Ok (Connected session_present) else Raise (from_code err)
  else Raise (ConnectRefused return_code).

Lemma on_connect_known err rc sp : 0 <= rc <= 5 ->
  Mqtt3.on_connect err rc sp = complete (connack_result err rc sp).
Proof.
  intros Hrc. unfold Mqtt3.on_connect, connack_result. rewrite outcome_of_eqb.
  assert (rc = 0 \/ rc = 1 \/ rc = 2 \/ rc = 3 \/ rc = 4 \/ rc = 5) as Hc by lia.
  by destruct Hc as [->|[->|[->|[->|[->| ->]]]]].
Qed.

Lemma try_qos_map (l : list (string * Z)) :
  map (fun '(t, q) => (t, _try_qos3 q)) l = map (fun '(t, q) => (t, enum_of q)) l.
Proof. apply map_ext. intros [t q]. unfold _try_qos3, enum_call. by destruct (enum_of q). Qed.

Lemma complete_slot_spec a f k :
  complete_slot a (mkSlot f (Completion k)) =
  if dead a then ret tt
  else do! or_unraisable (PyObject_CallFunction (Completion k) (on_future k (complete (slot_result a f))));
       Py_DECREF (Completion k).
Proof.
  unfold complete_slot. destruct f; simpl; try done.
  - unfold s_publish_complete, puback, unsuback. by rewrite outcome_of_eqb.
  - unfold s_suback_callback, suback, _try_qos3, enum_call. destruct (dead a); [done|]. simpl.
    destruct (error_code a =? 0); simpl; [|done]. by destruct (enum_of (ack_qos a)).
  - unfold s_unsuback_callback, unsuback. by rewrite outcome_of_eqb.
  - unfold s_suback_multi_callback, on_suback. destruct (dead a); [done|]. simpl.
    destruct (error_code a =? 0) eqn:E; simpl.
    + destruct (topic_qos_list (topic_subacks a)); simpl; [by rewrite try_qos_map|by rewrite outcome_of_eqb].
    + by rewrite outcome_of_eqb, E.
Qed.

(** A callback of the native client: it calls an object it will not need again
    and gives the reference back. *)
Lemma native_callback lost s o m : inv (lost ⊎ {[+ o +]}) s -> runs_python m ->
  exists s', (do! or_unraisable (PyObject_CallFunction o m); Py_DECREF o) s = (Ok tt, s') /\
    inv lost s' /\ waiting s' = waiting s /\ futures s' = futures (m s).2 /\
    unraisable s' = match (m s).1 with Ok _ => unraisable (m s).2 | Raise e => unraisable (m s).2 ++ [e] end.
Proof.
  intros Hi Hm. assert (Ho : o ∈ refs s) by (destruct Hi as [(-> & _) _]; multiset_solver).
  destruct (call_python o m s Ho Hm) as [E Hs]. unfold bind. rewrite E in *. simpl in Hs.
  pose proof (inv_python _ _ _ Hs Hi) as [Ha Hw]. pose proof (waiting_python _ _ Hs) as Hwt.
  destruct (accounts_decref lost o _ Ha) as (s' & Ed & Ha' & Hf & Hu). rewrite Ed. exists s'.
  pose proof Ed as Es. rewrite decref_held in Es by (destruct Ha as (-> & _); multiset_solver).
  injection Es as <-. split_and!; [done|..].
  - split; [done|]. by destruct Hw.
  - done.
  - simpl. by destruct (m s) as [[[]|e] s1].
  - simpl. by destruct (m s) as [[[]|e] s1].
Qed.

(** Every unsettled future has a callback to come. *)
Definition answered (s : world) : Prop :=
  forall k f, futures s !! k = Some f -> Fut.done f = false -> Completion k ∈ waiting s.

Lemma answered_python s s' : python_step s s' -> answered s -> answered s'.
Proof.
  intros Hs Ha k f Hk Hf. rewrite (waiting_python _ _ Hs). destruct Hs as (_ & _ & Hd).
  destruct (Hd k f Hk Hf) as (g & Hg & Hdg). by eapply Ha.
Qed.

Lemma on_future_lookup k m s k' f f0 : futures s !! k = Some f0 ->
  futures (on_future k m s).2 !! k' = Some f -> if decide (k' = k) then f = (m f0).2 else futures s !! k' = Some f.
Proof.
  intros H0. unfold on_future. rewrite H0. destruct (m f0) as [r f1]. simpl. case_decide as Hk.
  - subst. rewrite list_lookup_insert_eq by (by eapply lookup_lt_Some). congruence.
  - by rewrite list_lookup_insert_ne.
Qed.
Lemma complete_settles r f : Fut.done (complete r f).2 = true.
Proof. by destruct f. Qed.

(** The callback for future [k] settles it; the others wait as before. *)
Lemma answered_after k m s s0 s' : answered s -> (k < length (futures s))%nat ->
  futures s0 = futures s -> futures s' = futures (on_future k m s0).2 ->
  (forall f, Fut.done (m f).2 = true) ->
  (forall o, o ∈ waiting s -> o <> Completion k -> o ∈ waiting s') -> answered s'.
Proof.
  intros Ha Hk E0 E' Hm Hw k' f Hk' Hf. rewrite E' in Hk'.
  destruct (lookup_lt_is_Some_2 _ _ Hk) as [f0 H0]. rewrite <- E0 in H0.
  pose proof (on_future_lookup _ _ _ _ _ _ H0 Hk') as Hl. case_decide as Hd.
  - subst. by rewrite Hm in Hf.
  - rewrite E0 in Hl. apply Hw; [by eapply Ha|congruence].
Qed.

(** The references a callback on a dead connection leaves behind. *)
Definition lost_by (e : event) (s : world) : gmultiset pyobj :=
  match e with
  | Acked i a => if dead a then match pending s !! i with Some p => {[+ userdata p +]} | None => ∅ end else ∅
  | _ => ∅
  end.

Lemma wf_set_pending i s : well_formed s -> well_formed (set_pending (delete i (pending s)) s).
Proof. intros [W1 W2 W3 W4]. split; simpl; [by apply Forall_delete|done..]. Qed.
Lemma wf_set_topics j s : well_formed s -> well_formed (set_topics (delete j (topics s)) s).
Proof. intros [W1 W2 W3 W4]. split; simpl; [done..| |done]. by apply Forall_delete. Qed.
Lemma wf_drop_connect s : well_formed s -> well_formed (set_on_connect None s).
Proof. intros [W1 W2 W3 W4]. by split. Qed.

Lemma waiting_delete i p s o : pending s !! i = Some p -> o ∈ waiting s -> o <> userdata p ->
  o ∈ waiting (set_pending (delete i (pending s)) s).
Proof.
  unfold waiting. simpl. intros Hi Ho Hn. rewrite (Permutation_map userdata (delete_Permutation _ _ _ Hi)) in Ho.
  simpl in Ho. set_solver.
Qed.

Lemma handle_acked lost i a s : inv lost s ->
  (handle (Acked i a) s).1 = Ok tt /\ inv (lost ⊎ lost_by (Acked i a) s) (handle (Acked i a) s).2 /\
  (dead a = false -> answered s -> answered (handle (Acked i a) s).2).
Proof.
  intros [Ha Hw]. simpl. destruct (pending s !! i) as [[f o]|] eqn:Hi.
  2:{ destruct (dead a); split_and!; try done; split; try done;
        by replace (lost ⊎ ∅) with lost by multiset_solver. }
  assert (is_completion (length (futures s)) o) as (k & -> & Hk).
  { pose proof (wf_pending _ Hw) as Hp. rewrite Forall_lookup in Hp. by apply (Hp i (mkSlot f o)). }
  destruct (owned_decomposed _ _ Ha) as (Hd & _). destruct (Hd _ _ Hi) as [_ Ha0]. clear Hd. simpl in Ha0.
  set (s0 := set_pending (delete i (pending s)) s) in *.
  assert (inv (lost ⊎ {[+ Completion k +]}) s0) as Hi0 by (split; [done|by apply wf_set_pending]).
  rewrite complete_slot_spec. destruct (dead a); [done|].
  set (m := complete (slot_result a f)).
  destruct (native_callback lost s0 (Completion k) (on_future k m) Hi0
    (on_future_python _ _ (complete_completes _))) as (s' & E & Hinv & Hwt & Hf & _).
  rewrite E. simpl. split_and!; [done|by replace (lost ⊎ ∅) with lost by multiset_solver|].
  intros _ Hans. apply (answered_after k m s s0 s'); try done; [apply complete_settles|].
  intros o Ho Hn. rewrite Hwt. by eapply (waiting_delete i (mkSlot f (Completion k))).
Qed.

Definition known_code (return_code : Z) : bool :=
  (return_code =? 0) || (if enum_of (E:=ConnectReturnCode) return_code is Some _ then true else false).

Lemma on_connect_settles err rc sp f : known_code rc = true -> Fut.done (Mqtt3.on_connect err rc sp f).2 = true.
Proof.
  unfold known_code, Mqtt3.on_connect, bind, lift, enum_call. destruct (rc =? 0); simpl.
  - intros _. apply complete_settles.
  - destruct (enum_of rc); [|done]. intros _. apply complete_settles.
Qed.

Lemma s_on_connect_spec err rc sp s :
  s_on_connect false err rc sp s =
  match on_connect s with
  | None => (Ok tt, s)
  | Some o => (do! or_unraisable (PyObject_CallFunction o (run_completion o (Mqtt3.on_connect err rc sp)));
               Py_DECREF o) (set_on_connect None s)
  end.
Proof. unfold s_on_connect, bind, gets. simpl. by destruct (on_connect s). Qed.

Lemma handle_connack lost d err rc sp s : inv lost s ->
  (handle (Connack d err rc sp) s).1 = Ok tt /\ inv lost (handle (Connack d err rc sp) s).2 /\
  (known_code rc = true -> answered s -> answered (handle (Connack d err rc sp) s).2).
Proof.
  intros Hi. pose proof Hi as [Ha Hw]. cbn [handle]. destruct d; [by split_and!|].
  rewrite s_on_connect_spec. destruct (on_connect s) as [o|] eqn:Ho; [|by split_and!].
  destruct (wf_connect _ Hw o Ho) as (k & -> & Hk).
  destruct (owned_decomposed _ _ Ha) as (_ & _ & Hc & _). destruct (Hc _ Ho) as [_ Ha0].
  assert (inv (lost ⊎ {[+ Completion k +]}) (set_on_connect None s)) as Hi0 by (split; [done|by apply wf_drop_connect]).
  simpl run_completion.
  destruct (native_callback lost (set_on_connect None s) (Completion k) (on_future k (Mqtt3.on_connect err rc sp)) Hi0
    (on_future_python _ _ (on_connect_completes _ _ _))) as (s' & E & Hinv & Hwt & Hf & _).
  rewrite E. simpl. split_and!; [done|done|]. intros Hrc Hans.
  apply (answered_after k (Mqtt3.on_connect err rc sp) s (set_on_connect None s) s'); try done.
  - intros f. by apply on_connect_settles.
  - intros o Hin Hn. rewrite Hwt. unfold waiting in *. rewrite Ho in Hin. simpl in *. set_solver.
Qed.

(** A message to a handler something keeps alive. *)
Lemma message_python d m user o s : o ∈ refs s ->
  (s_subscribe_callback d m user o s).1 = Ok tt /\ python_step s (s_subscribe_callback d m user o s).2.
Proof.
  intros Ho. unfold s_subscribe_callback. destruct d; [done|]. case_bool_decide; [done|].
  destruct (call_python o _ s Ho (call_wrapper_python o m user)) as [E Hs]. rewrite E in *. done.
Qed.

Lemma lifecycle_python d alive call s :
  (s_on_lifecycle d alive call s).1 = Ok tt /\ python_step s (s_on_lifecycle d alive call s).2.
Proof.
  unfold s_on_lifecycle, or_unraisable. destruct d; [done|]. destruct alive; [|done]. munfold.
  destruct call; simpl; (split; [done|]); split_and!; simpl; eauto.
Qed.

Lemma cancel_python k s : python_step s (handle (Cancel k) s).2.
Proof.
  simpl. split_and!; [done|simpl; by rewrite length_alter|]. simpl. intros k' f'.
  destruct (decide (k' = k)) as [->|Hn].
  - rewrite list_lookup_alter_eq. destruct (futures s !! k) as [f|]; simpl; [|done].
    intros [= <-]. exists f. split; [done|]. by destruct f.
  - rewrite list_lookup_alter_ne by done. eauto.
Qed.

Lemma handle_topic_removed lost j s : inv lost s ->
  (handle (TopicRemoved j) s).1 = Ok tt /\ inv lost (handle (TopicRemoved j) s).2 /\
  (answered s -> answered (handle (TopicRemoved j) s).2).
Proof.
  intros [Ha Hw]. simpl. destruct (topics s !! j) as [o|] eqn:Hj; [|done].
  destruct (owned_decomposed _ _ Ha) as (_ & Ht & _). destruct (Ht _ _ Hj) as [_ Ha0].
  destruct (accounts_decref lost o _ Ha0) as (s' & E & Ha' & Hf & [= E1 E2 E3]).
  unfold s_callback_cleanup. pose proof E as Es. rewrite decref_held in Es by (destruct Ha0 as (-> & _); multiset_solver).
  injection Es as <-. rewrite E. simpl. split_and!; [done| |].
  - split; [done|]. pose proof (wf_set_topics j s Hw) as []. by split.
  - done.
Qed.

(** The callbacks of the event loop, and a cancellation. *)
Definition is_callback (e : event) : bool :=
  match e with
  | Cancel _ | Acked _ _ | Connack _ _ _ _ | Message _ _ _ _ | AnyMessage _ _ _ | TopicRemoved _ | Lifecycle _ _ _ => true
  | _ => false
  end.
Definition raises_Exceptions {A} (r : result A) : bool := match r with Ok _ => true | Raise e => is_Exception e end.

(** Nothing unforeseen: no callback on a dead connection, a return code of the
    protocol, a resubscription that is sent or refused, and argument errors
    that are Exceptions. *)
Definition orderly (e : event) : bool :=
  match e with
  | Publish parsed _ _ | Subscribe parsed _ _ _ _ | Unsubscribe parsed _ => raises_Exceptions parsed
  | Connect parsed options _ _ => raises_Exceptions parsed && raises_Exceptions options
  | Resubscribe native => negb ((msg_id native =? 0) && (aws_last_error native =? 0))
  | Acked _ a => negb (dead a)
  | Connack _ _ rc _ => known_code rc
  | _ => true
  end.

Definition event_ok (e : event) : Prop := forall lost s, inv lost s ->
  inv (lost ⊎ lost_by e s) (handle e s).2 /\ (orderly e = true -> answered s -> answered (handle e s).2) /\
  (is_callback e = true -> (handle e s).1 = Ok tt).

Lemma event_ok_python e s lost : lost_by e s = ∅ -> python_step s (handle e s).2 ->
  (is_callback e = true -> (handle e s).1 = Ok tt) -> inv lost s ->
  inv (lost ⊎ lost_by e s) (handle e s).2 /\ (orderly e = true -> answered s -> answered (handle e s).2) /\
  (is_callback e = true -> (handle e s).1 = Ok tt).
Proof.
  intros -> Hs Hr Hi. split_and!; [|intros _; by apply answered_python|done].
  replace (lost ⊎ ∅) with lost by multiset_solver. by eapply inv_python.
Qed.

Lemma callbacks_ok e : is_callback e = true -> event_ok e.
Proof.
  intros He lost s Hi. pose proof Hi as [Ha Hw]. destruct (owned_decomposed _ _ Ha) as (_ & Ht & _ & Hany).
  destruct e as [| | | | | | | |k|i a|d err rc sp|j d m user|d m user|j|d alive call]; try done.
  - apply event_ok_python; [done|apply cancel_python|done|done].
  - destruct (handle_acked lost i a s Hi) as (H1 & H2 & H3). split_and!; try done.
    simpl. intros Ho. apply H3. by destruct (dead a).
  - destruct (handle_connack lost d err rc sp s Hi) as (H1 & H2 & H3).
    split_and!; try done. change (lost_by _ _) with (∅ : gmultiset pyobj).
    by replace (lost ⊎ ∅) with lost by multiset_solver.
  - apply event_ok_python; [done|..|done]; cbn [handle]; (destruct (topics s !! j) as [o|] eqn:Hj; [|done]);
      destruct (Ht _ _ Hj) as [Ho _]; by destruct (message_python d m user o s Ho).
  - apply event_ok_python; [done|..|done]; cbn [handle]; (destruct (any_handler s) as [o|] eqn:Hj; [|done]);
      by destruct (message_python d m user o s (Hany _ eq_refl)).
  - destruct (handle_topic_removed lost j s Hi) as (H1 & H2 & H3). split_and!; try done.
    change (lost_by _ _) with (∅ : gmultiset pyobj). by replace (lost ⊎ ∅) with lost by multiset_solver.
  - apply event_ok_python; [done|..|done]; cbn [handle]; by destruct (lifecycle_python d alive call s).
Qed.

(** ** Operations *)

(** A reference taken and given back leaves no trace. *)
Lemma decref_fresh o s : Py_DECREF o (set_refs (refs s ⊎ {[+ o +]}) s) = (Ok tt, s).
Proof.
  rewrite decref_held by (simpl; multiset_solver). simpl. destruct s. unfold set_refs. simpl.
  do 3 f_equal. multiset_solver.
Qed.

(** The part of an operation inside its try block, over future [k]. *)
Definition op_ok (good : bool) (k : nat) (m : M world Z) : Prop :=
  forall lost s, inv lost s -> (k < length (futures s))%nat ->
  inv lost (m s).2 /\ futures (m s).2 = futures s /\
  (forall o, o ∈ waiting s -> o ∈ waiting (m s).2) /\
  (good = true -> match (m s).1 with Ok _ => Completion k ∈ waiting (m s).2 | Raise e => is_Exception e = true end).

Lemma op_ok_raise good k e : (good = true -> is_Exception e = true) -> op_ok good k (raise e).
Proof. intros He lost s Hi Hk. done. Qed.
Lemma op_ok_lift {A} good k (r : result A) m : (good = true -> raises_Exceptions r = true) ->
  (forall a, op_ok good k (m a)) -> op_ok good k (bind (lift r) m).
Proof. intros Hr Hm. destruct r as [a|e]; [apply Hm|by apply op_ok_raise]. Qed.

(** The state after the native client took an operation. *)
Definition taken (f : completion_fn) (o : pyobj) (s : world) : world :=
  new_pending (mkSlot f o) (set_refs (refs s ⊎ {[+ o +]}) s).
Lemma taken_inv lost f k s : inv lost s -> (k < length (futures s))%nat ->
  inv lost (taken f (Completion k) s) /\ waiting (taken f (Completion k) s) = waiting s ++ [Completion k].
Proof.
  intros [(Hr & Hm & Ha) [W1 W2 W3 W4]] Hk. unfold waiting. simpl. rewrite map_app. split; [|by rewrite app_assoc].
  split; [|split; simpl; try done].
  - split_and!; simpl; [|done|done]. unfold owned in *. simpl. rewrite Hr, map_app, list_to_set_disj_app. simpl.
    multiset_solver.
  - apply Forall_app. split; [done|]. apply Forall_singleton. by exists k.
Qed.

(** [Py_INCREF(callback)], the native call, [Py_DECREF(callback)] if it was refused. *)
Lemma op_ok_submit good k f (refused : bool) (id : Z) (after : M world Z) :
  (forall s, refused = true -> (after s).2 = s) ->
  (good = true -> forall s, refused = true -> exists e, (after s).1 = Raise e /\ is_Exception e = true) ->
  op_ok good k (do! Py_INCREF (Completion k);
    do! modify (if refused then Datatypes.id else new_pending (mkSlot f (Completion k)));
    if refused then do! Py_DECREF (Completion k); after else ret id).
Proof.
  intros Hs Hr lost s Hi Hk. unfold bind, Py_INCREF, modify. destruct refused.
  - unfold Datatypes.id. rewrite decref_fresh. rewrite Hs by done. split_and!; [done..|].
    intros Hg. by destruct (Hr Hg s eq_refl) as (e & -> & He).
  - destruct (taken_inv lost f k s Hi Hk) as [Ht Hw]. simpl. unfold taken in *. split_and!; [done..| |].
    + intros o Ho. rewrite Hw. set_solver.
    + intros _. rewrite Hw. set_solver.
Qed.

Lemma op_ok_ext good k m m' : (forall s, m s = m' s) -> op_ok good k m -> op_ok good k m'.
Proof. intros E Hm lost s Hi Hk. rewrite <- E. by apply Hm. Qed.

Ltac submits refused := intros ?; unfold native_call; munfold; destruct refused; reflexivity.

Lemma publish_op good k parsed q native : (good = true -> raises_Exceptions parsed = true) ->
  op_ok good k (client_connection_publish parsed q (Completion k) native).
Proof.
  intros Hp. apply op_ok_lift; [done|]. intros _. destruct (2 <=? q); [by apply op_ok_raise|].
  eapply op_ok_ext; [|apply (op_ok_submit good k PublishComplete (msg_id native =? 0) (msg_id native)
    (raise (PyErr_AwsLastError (aws_last_error native))))]; [|done|eauto].
  submits (msg_id native =? 0).
Qed.
Lemma unsubscribe_op good k parsed native : (good = true -> raises_Exceptions parsed = true) ->
  op_ok good k (client_connection_unsubscribe parsed (Completion k) native).
Proof.
  intros Hp. apply op_ok_lift; [done|]. intros _.
  eapply op_ok_ext; [|apply (op_ok_submit good k UnsubackCallback (msg_id native =? 0) (msg_id native)
    (raise (PyErr_AwsLastError (aws_last_error native))))]; [|done|eauto].
  submits (msg_id native =? 0).
Qed.
Lemma resubscribe_op k native :
  op_ok (negb ((msg_id native =? 0) && (aws_last_error native =? 0))) k
    (client_connection_resubscribe_existing_topics (Completion k) native).
Proof.
  eapply op_ok_ext; [|apply (op_ok_submit _ k SubackMultiCallback (msg_id native =? 0) (msg_id native)
    (if negb (aws_last_error native =? 0) then raise (PyErr_AwsLastError (aws_last_error native))
     else ret (msg_id native)))].
  - intros s. destruct (aws_last_error native =? 0) eqn:E;
      unfold client_connection_resubscribe_existing_topics; rewrite ?E; revert s; submits (msg_id native =? 0).
  - intros s _. by destruct (negb (aws_last_error native =? 0)).
  - intros Hg s Hr. rewrite Hr in Hg. destruct (aws_last_error native =? 0); [done|]. by eexists.
Qed.
Lemma disconnect_op good k err : op_ok good k (no_id (client_connection_disconnect (Completion k) err)).
Proof.
  eapply op_ok_ext; [|apply (op_ok_submit good k OnDisconnect (negb (err =? 0)) 0 (raise (PyErr_AwsLastError err)))];
    [|done|eauto].
  unfold no_id, client_connection_disconnect. submits (err =? 0).
Qed.

(** The callback of a connection attempt, stored while there is none. *)
Definition storing (k : nat) (s : world) : world :=
  set_on_connect (Some (Completion k)) (set_refs (refs s ⊎ {[+ Completion k +]}) s).
Lemma storing_inv lost k s : inv lost s -> (k < length (futures s))%nat -> on_connect s = None ->
  inv lost (storing k s) /\ waiting (storing k s) = Completion k :: waiting s.
Proof.
  intros [(Hr & Hm & Ha) [W1 W2 W3 W4]] Hk Hn. unfold waiting. simpl. rewrite Hn. split; [|done].
  split; [|split; simpl; try done].
  - split_and!; simpl; [|done|done]. unfold owned in *. simpl. rewrite Hr, Hn. simpl. multiset_solver.
  - intros o [= <-]. by exists k.
Qed.
Lemma clear_storing k s : on_connect s = None -> clear_on_connect (storing k s) = (Ok tt, s).
Proof.
  intros Hn. unfold clear_on_connect, bind, gets, modify. simpl.
  replace (set_on_connect None (storing k s)) with (set_refs (refs s ⊎ {[+ Completion k +]}) s)
    by (destruct s; simpl in *; by subst).
  apply decref_fresh.
Qed.

(** What connect and reconnect have in common. *)
Definition attempt (options last : result unit) (k : nat) (err : Z) : M world unit :=
  let! c := gets on_connect in
  if bool_decide (is_Some c) then raise (RuntimeError "Connection already in progress") else
  do! lift options;
  do! store_on_connect (Completion k);
  if err =? 0 then lift last else do! clear_on_connect; raise (PyErr_AwsLastError err).

Lemma attempt_spec options last k err s :
  no_id (attempt options last k err) s =
  match on_connect s, options with
  | Some _, _ => (Raise (RuntimeError "Connection already in progress"), s)
  | None, Raise e => (Raise e, s)
  | None, Ok _ =>
      if err =? 0 then (let? _ := last in Ok 0, storing k s) else (Raise (PyErr_AwsLastError err), s)
  end.
Proof.
  unfold no_id, attempt. destruct (on_connect s) as [o|] eqn:Hn.
  - unfold bind, gets. by rewrite Hn.
  - pose proof (clear_storing k s Hn) as Hc. unfold bind, gets, lift. rewrite Hn. simpl.
    destruct options as [[]|e]; [|done]. unfold modify. fold (storing k s). destruct (err =? 0); [by destruct last|].
    by rewrite Hc.
Qed.

Lemma attempt_op good k options last err :
  (good = true -> raises_Exceptions options = true) -> raises_Exceptions last = true ->
  op_ok good k (no_id (attempt options last k err)).
Proof.
  intros Ho Hl lost s Hi Hk. rewrite attempt_spec. destruct (on_connect s) as [o|] eqn:Hn; [done|].
  destruct options as [[]|e]; [|done]. destruct (err =? 0); [|done].
  destruct (storing_inv lost k s Hi Hk Hn) as [Hs Hw].
  destruct last as [[]|e]; simpl; (split_and!; [done|done|..]); try done; rewrite Hw; set_solver.
Qed.
Lemma connect_op good k parsed options metrics err :
  (good = true -> raises_Exceptions parsed && raises_Exceptions options = true) ->
  op_ok good k (no_id (client_connection_connect parsed options metrics (Completion k) err)).
Proof.
  rewrite andb_true_iff. intros Hg. destruct parsed as [[]|e]; [|apply op_ok_raise; naive_solver].
  eapply op_ok_ext; [|apply (attempt_op good k options
    (match metrics with Ok _ => Ok tt | Raise _ => Raise (BuiltinError "SystemError") end) err)];
    [by destruct metrics|naive_solver|by destruct metrics].
Qed.
Lemma reconnect_op good k err : op_ok good k (no_id (client_connection_reconnect (Completion k) err)).
Proof. by apply (attempt_op good k (Ok tt) (Ok tt) err). Qed.

Lemma decref_under w o s :
  Py_DECREF w (set_refs (refs s ⊎ {[+ w +]} ⊎ {[+ o +]}) s) = (Ok tt, set_refs (refs s ⊎ {[+ o +]}) s).
Proof.
  rewrite <- (decref_fresh w (set_refs (refs s ⊎ {[+ o +]}) s)). f_equal.
  unfold set_refs. simpl. f_equal. multiset_solver.
Qed.

Lemma subscribe_op good k parsed w native : (good = true -> raises_Exceptions parsed = true) -> is_handler w ->
  op_ok good k (client_connection_subscribe parsed w (Completion k) native).
Proof.
  intros Hp Hw. apply op_ok_lift; [done|]. intros _ lost s Hi Hk.
  set (s1 := set_refs (refs s ⊎ {[+ w +]}) s).
  assert ((do! Py_INCREF w; do! Py_INCREF (Completion k); let! id := native_call native (fun s =>
    set_topics (topics s ++ [w]) (new_pending (mkSlot SubackCallback (Completion k)) s)) in
    if id =? 0 then do! Py_DECREF w; do! Py_DECREF (Completion k); raise (PyErr_AwsLastError (aws_last_error native))
    else ret id) s =
    if msg_id native =? 0 then (Raise (PyErr_AwsLastError (aws_last_error native)), s)
    else (Ok (msg_id native), set_topics (topics s ++ [w]) (taken SubackCallback (Completion k) s1))) as ->.
  { unfold native_call, bind. change (Py_INCREF w s) with (Ok tt : result unit, s1). cbn beta iota.
    change (Py_INCREF (Completion k) s1) with (Ok tt : result unit, set_refs (refs s ⊎ {[+ w +]} ⊎ {[+ Completion k +]}) s).
    unfold modify, ret. cbn beta iota. destruct (msg_id native =? 0); [|done].
    unfold Datatypes.id. by rewrite decref_under, decref_fresh. }
  destruct (msg_id native =? 0); [done|]. destruct Hi as [(Hr & Hm & Ha) [W1 W2 W3 W4]]. simpl.
  split_and!; [|done|..].
  - split; [|split; simpl; try done].
    + split_and!; simpl; [|done|done]. unfold owned in *. simpl.
      rewrite Hr, map_app, !list_to_set_disj_app. simpl. multiset_solver.
    + apply Forall_app. split; [done|]. apply Forall_singleton. by exists k.
    + apply Forall_app. split; [done|]. by apply Forall_singleton.
  - intros o Ho. unfold waiting in *. simpl. rewrite map_app. set_solver.
  - intros _. unfold waiting. simpl. rewrite map_app. set_solver.
Qed.

Lemma on_message_inv lost w err s : inv lost s -> is_handler w ->
  inv lost (client_connection_on_message w err s).2 /\ futures (client_connection_on_message w err s).2 = futures s /\
  waiting (client_connection_on_message w err s).2 = waiting s.
Proof.
  intros Hi Hw. unfold client_connection_on_message. destruct (negb (err =? 0)); [done|].
  unfold bind, modify, gets, Py_INCREF, Py_XDECREF. simpl. destruct Hi as [(Hr & Hm & Ha) [W1 W2 W3 W4]].
  destruct (on_any_publish s) as [old|] eqn:Ho; simpl.
  - rewrite decide_True by (rewrite Hr; unfold owned; rewrite Ho; simpl; multiset_solver). simpl.
    split; [|done]. split; [|split; simpl; try done].
    + split_and!; simpl; [|done|case_bool_decide; naive_solver]. unfold owned in *. simpl. rewrite Hr, Ho. simpl.
      multiset_solver.
    + case_bool_decide; naive_solver.
  - split; [|done]. split; [|split; simpl; try done].
    + split_and!; simpl; [|done|case_bool_decide; naive_solver]. unfold owned in *. simpl. rewrite Hr, Ho. simpl.
      multiset_solver.
    + case_bool_decide; naive_solver.
Qed.

Lemma settle_spec k r s f0 : futures s !! k = Some f0 ->
  python_step s (settle k r s).2 /\
  forall k' f, futures (settle k r s).2 !! k' = Some f ->
    if decide (k' = k) then Fut.done f = true else futures s !! k' = Some f.
Proof.
  intros H0. split; [apply on_future_python, complete_completes|]. intros k' f Hf.
  pose proof (on_future_lookup _ _ _ _ _ _ H0 Hf) as Hd. case_decide; [|done]. subst. apply complete_settles.
Qed.

(** A method: its future is settled at once with the exception of the call, or
    has a callback to come. *)
Lemma start_on_ok good m lost s : (forall k, op_ok good k (m k)) -> inv lost s ->
  inv lost (start_on m s).2 /\ (good = true -> answered s -> answered (start_on m s).2).
Proof.
  intros Hm [Ha [W1 W2 W3 W4]]. set (k := length (futures s)). set (s1 := set_futures (futures s ++ [Pending]) s).
  assert (Hl : length (futures s1) = S k) by (simpl; rewrite length_app; simpl; lia).
  assert (inv lost s1) as Hi1.
  { assert (Hw : forall o, is_completion k o -> is_completion (length (futures s1)) o).
    { intros o (k' & -> & Hk'). exists k'. rewrite Hl. split; [done|lia]. }
    split; [by eapply accounts_books|]. split; simpl; [|naive_solver|done..].
    eapply Forall_impl; [exact W1|]. intros p. apply Hw. }
  assert (Hk : (k < length (futures s1))%nat) by (rewrite Hl; lia).
  destruct (Hm k lost s1 Hi1 Hk) as (Hi & Hf & Hw & Hg).
  assert (Hold : forall s', (forall o, o ∈ waiting s1 -> o ∈ waiting s') ->
    (forall k' f, futures s' !! k' = Some f -> k' <> k -> futures s1 !! k' = Some f) ->
    (forall f, futures s' !! k = Some f -> Fut.done f = false -> Completion k ∈ waiting s') ->
    answered s -> answered s').
  { intros s' Hws Hfs Hks Hans k' f Hk' Hd. destruct (decide (k' = k)) as [->|Hn]; [by eapply Hks|].
    apply Hws. apply Hans with f; [|done]. apply Hfs in Hk'; [|done]. simpl in Hk'.
    apply lookup_app_Some in Hk' as [?|[Hge Hk']]; [done|]. apply list_lookup_singleton_Some in Hk' as [? _].
    unfold k in *. lia. }
  unfold start_on, new_future, bind, try_except. fold k s1. cbn beta iota.
  destruct (m k s1) as [[id|e] s2]; simpl in *.
  - split; [done|]. intros Hgood. apply Hold; [done|by rewrite Hf|]. intros _ _ _. by apply Hg.
  - destruct (is_Exception e); simpl.
    + destruct (lookup_lt_is_Some_2 _ _ Hk) as [f0 H0]. rewrite <- Hf in H0.
      destruct (settle_spec k (Raise e) s2 f0 H0) as [Hs Hl'].
      destruct (settle k (Raise e) s2) as [[[]|e'] s3]; simpl in *.
      all: split; [by eapply inv_python|]; intros _; apply Hold; [intros o Ho; rewrite (waiting_python _ _ Hs); auto|..].
      1,3: intros k' f Hk' Hn; specialize (Hl' k' f Hk'); rewrite decide_False in Hl' by done; congruence.
      all: intros f Hk' Hd; specialize (Hl' k f Hk'); rewrite decide_True in Hl' by done; congruence.
    + split; [done|]. intros Hgood. by specialize (Hg Hgood).
Qed.

Lemma wrapper_obj_handler c h w : wrapper_obj c h = Ok w -> is_handler w.
Proof. unfold wrapper_obj, wrapper_of. destruct c; simpl; intros [= <-]; done. Qed.
Lemma convert_qos_Exception q : raises_Exceptions (convert_qos q) = true.
Proof. by destruct q as [|[]|]. Qed.

Lemma as_unit_state {A} (m : M world A) s : (as_unit m s).2 = (m s).2.
Proof. unfold as_unit, bind, ret. by destruct (m s) as [[]]. Qed.

Lemma operations_ok e : is_callback e = false -> event_ok e.
Proof.
  intros He lost s Hi. assert (lost_by e s = ∅ /\ is_callback e = false) as [-> ->] by by destruct e.
  replace (lost ⊎ ∅) with lost by multiset_solver.
  assert (inv lost (handle e s).2 /\ (orderly e = true -> answered s -> answered (handle e s).2)) as [? ?];
    [|by split_and!].
  destruct e as [parsed q native|parsed q c h native|parsed native|native|parsed options metrics err|err|err|c h err
    | | | | | | |]; try done; cbn [handle]; rewrite ?as_unit_state.
  - apply start_on_ok; [|done]. intros k. apply op_ok_lift; [intros _; apply convert_qos_Exception|].
    intros z. by apply publish_op.
  - unfold subscribe. destruct (wrapper_obj c h) as [w|x] eqn:Hw; [|done]. apply start_on_ok; [|done].
    intros k. apply op_ok_lift; [intros _; pose proof (convert_qos_Exception q); by destruct (convert_qos q)|].
    intros _. apply subscribe_op; [done|by eapply wrapper_obj_handler].
  - apply start_on_ok; [|done]. intros k. by apply unsubscribe_op.
  - apply start_on_ok; [|done]. intros k. apply resubscribe_op.
  - apply start_on_ok; [|done]. intros k. by apply connect_op.
  - apply start_on_ok; [|done]. intros k. apply reconnect_op.
  - apply start_on_ok; [|done]. intros k. apply disconnect_op.
  - unfold on_message. destruct (wrapper_obj c h) as [w|x] eqn:Hw; [|done].
    destruct (on_message_inv lost w err s Hi (wrapper_obj_handler _ _ _ Hw)) as (H1 & H2 & H3).
    split; [done|]. intros _ Ha k f. change (on_message c h err s) with (on_message c h err s).
    unfold bind, lift. rewrite H2, H3. apply Ha.
Qed.

Lemma event_ok_all e : event_ok e.
Proof. destruct (is_callback e) eqn:He; [by apply callbacks_ok|by apply operations_ok]. Qed.

(** ** What every run keeps *)

Fixpoint lost_along (es : list event) (s : world) : gmultiset pyobj :=
  match es with [] => ∅ | e :: es => lost_by e s ⊎ lost_along es (handle e s).2 end.

Lemma init_inv : inv ∅ init.
Proof. split; [split_and!; [by vm_compute|done|by left]|]. by split. Qed.

Lemma run_inv es lost s : inv lost s -> inv (lost ⊎ lost_along es s) (run es s).
Proof.
  revert lost s. induction es as [|e es IH]; intros lost s Hi; simpl.
  - by replace (lost ⊎ ∅) with lost by multiset_solver.
  - destruct (event_ok_all e lost s Hi) as [H1 _].
    replace (lost ⊎ (lost_by e s ⊎ lost_along es (handle e s).2)) with (lost ⊎ lost_by e s ⊎ lost_along es (handle e s).2)
      by multiset_solver. by apply IH.
Qed.

Lemma run_answered es s lost : inv lost s -> forallb orderly es = true -> answered s -> answered (run es s).
Proof.
  revert lost s. induction es as [|e es IH]; intros lost s Hi Ho Ha; simpl in *; [done|].
  apply andb_true_iff in Ho as [Ho1 Ho2]. destruct (event_ok_all e lost s Hi) as (H1 & H2 & _).
  eapply IH; eauto.
Qed.

Definition on_dead_connection (e : event) : bool := match e with Acked _ a => dead a | _ => false end.
Lemma lost_none es s : forallb (fun e => negb (on_dead_connection e)) es = true -> lost_along es s = ∅.
Proof.
  revert s. induction es as [|e es IH]; intros s; simpl; [done|]. rewrite andb_true_iff. intros [He Hes].
  rewrite IH by done. assert (lost_by e s = ∅) as ->; [|multiset_solver].
  destruct e; try done. simpl in *. by destruct (dead a).
Qed.

(** ** Which exceptions are reported *)

(** The exceptions an event can report: the future of a completion is settled
    already, the server's number is not one of the enumeration, a topic is not
    UTF-8, or what the user's function raises. *)
Definition foreseen (e : event) (x : py_exn) : Prop :=
  match e with
  | Acked _ _ => x = InvalidStateError
  | Connack _ _ _ _ => x = InvalidStateError \/ x = ValueError "not a valid member"
  | Message _ _ _ user | AnyMessage _ _ user =>
      x = BuiltinError "UnicodeDecodeError" \/ x = ValueError "not a valid member" \/ exists c, user c = Raise x
  | Lifecycle _ _ call => call = Raise x
  | _ => False
  end.

Lemma complete_raises r f x : (complete r f).1 = Raise x -> x = InvalidStateError.
Proof. destruct f; simpl; intros; by simplify_eq. Qed.
Lemma on_connect_raises err rc sp f x : (Mqtt3.on_connect err rc sp f).1 = Raise x ->
  x = InvalidStateError \/ x = ValueError "not a valid member".
Proof.
  unfold Mqtt3.on_connect, bind, lift. destruct (negb (rc =? 0)); [|intros ?%complete_raises; by left].
  unfold enum_call. destruct (enum_of rc); simpl; [intros ?%complete_raises; by left|].
  intros [= <-]. by right.
Qed.

Lemma on_future_spec k m s f0 : futures s !! k = Some f0 ->
  (on_future k m s).1 = (m f0).1 /\ unraisable (on_future k m s).2 = unraisable s.
Proof. intros H0. unfold on_future. rewrite H0. by destruct (m f0). Qed.

Lemma call_wrapper_raises o m user s x : is_handler o -> o <> PyNone ->
  (call_wrapper o m user s).1 = Raise x ->
  x = BuiltinError "UnicodeDecodeError" \/ x = ValueError "not a valid member" \/ exists c, user c = Raise x.
Proof.
  intros Hh Hn. unfold call_wrapper. destruct (m_topic m) as [topic|]; [|intros [= <-]; by left].
  destruct o as [|k|h old]; [done|done|]. unfold bind, lift, modify, callback_wrapper, rbind, enum_call.
  destruct old; [|destruct (enum_of (m_qos m))]; simpl; [eauto..|]. intros [= <-]. by right; left.
Qed.
Lemma call_wrapper_unraisable o m user : preserves unraisable (call_wrapper o m user).
Proof.
  intros s. unfold call_wrapper. destruct (m_topic m), o as [|k|h old]; try done.
  munfold. by destruct (callback_wrapper _ _ _ _ _ _).
Qed.

Lemma message_unraisable d m user o s : o ∈ refs s -> is_handler o ->
  exists l, unraisable (s_subscribe_callback d m user o s).2 = unraisable s ++ l /\
    Forall (fun x => x = BuiltinError "UnicodeDecodeError" \/ x = ValueError "not a valid member" \/
                     exists c, user c = Raise x) l.
Proof.
  intros Ho Hh. unfold s_subscribe_callback. destruct d; [exists []; by rewrite app_nil_r|].
  case_bool_decide as Hn; [exists []; by rewrite app_nil_r|].
  destruct (call_python o _ s Ho (call_wrapper_python o m user)) as [-> _]. simpl.
  pose proof (call_wrapper_unraisable o m user s) as Hu. pose proof (call_wrapper_raises o m user s) as Hx.
  destruct (call_wrapper o m user s) as [[[]|x] s']; simpl in *; rewrite Hu.
  - exists []. by rewrite app_nil_r.
  - exists [x]. split; [done|]. apply Forall_singleton. by apply Hx.
Qed.

Lemma preserves_start_on m : (forall k, preserves unraisable (m k)) -> preserves unraisable (start_on m).
Proof.
  intros Hm. apply preserves_bind; [done|]. intros k. apply preserves_bind; [|done].
  apply preserves_try_except; [done|]. intros e. apply preserves_bind; [|done]. intros s.
  unfold settle, on_future. destruct (futures s !! k) as [f|]; [|done]. by destruct (complete _ f).
Qed.

Lemma preserves_modify {X} (g : world -> X) f : (forall s, g (f s) = g s) -> preserves g (modify f).
Proof. done. Qed.
Lemma silent_decref o : preserves unraisable (Py_DECREF o).
Proof. intros s. unfold Py_DECREF, modify. simpl. by case_decide. Qed.
Ltac silent := repeat first
  [ progress intros | apply preserves_start_on | apply preserves_bind | apply silent_decref | done
  | apply preserves_modify; intros; by repeat case_match
  | match goal with |- preserves _ (if ?b then _ else _) => destruct b
                  | |- preserves _ (match ?x with _ => _ end) => destruct x end
  | progress unfold as_unit, no_id, clear_on_connect, store_on_connect, native_call, Py_XDECREF, Py_INCREF ].

Lemma operations_silent e : is_callback e = false -> preserves unraisable (handle e).
Proof.
  intros He. destruct e as [parsed q native|parsed q c h native|parsed native|native|parsed options metrics err|err|err
    |c h err| | | | | | |]; try done; unfold handle;
  unfold publish, client_connection_publish, subscribe, client_connection_subscribe, unsubscribe,
    client_connection_unsubscribe, resubscribe_existing_topics, client_connection_resubscribe_existing_topics,
    connect, client_connection_connect, reconnect, client_connection_reconnect, disconnect,
    client_connection_disconnect, on_message, client_connection_on_message; silent.
Qed.

(** One event adds only exceptions foreseen for it. *)
Lemma event_unraisable e lost s : inv lost s ->
  exists l, unraisable (handle e s).2 = unraisable s ++ l /\ Forall (foreseen e) l.
Proof.
  intros Hi. pose proof Hi as [Ha Hw]. destruct (owned_decomposed _ _ Ha) as (Hp & Ht & Hc & Hany).
  assert (Hnone : forall s', unraisable s' = unraisable s -> exists l, unraisable s' = unraisable s ++ l /\ Forall (foreseen e) l)
    by (intros s' ->; exists []; by rewrite app_nil_r).
  assert (Hcall : forall s0 k m, inv (lost ⊎ {[+ Completion k +]}) s0 -> completes m -> (k < length (futures s0))%nat ->
    (forall f x, (m f).1 = Raise x -> foreseen e x) ->
    exists l, unraisable ((do! or_unraisable (PyObject_CallFunction (Completion k) (on_future k m)); Py_DECREF (Completion k)) s0).2
      = unraisable s0 ++ l /\ Forall (foreseen e) l).
  { intros s0 k m Hi0 Hm Hk Hx.
    destruct (native_callback lost s0 _ _ Hi0 (on_future_python k m Hm)) as (s' & -> & _ & _ & _ & Hu).
    destruct (lookup_lt_is_Some_2 _ _ Hk) as [f0 H0]. destruct (on_future_spec k m s0 f0 H0) as [E1 E2].
    simpl. rewrite Hu, E1, E2. destruct ((m f0).1) as [[]|x] eqn:E; [exists []; by rewrite app_nil_r|].
    exists [x]. split; [done|]. apply Forall_singleton. by eapply Hx. }
  destruct (is_callback e) eqn:He; [|by apply Hnone, operations_silent].
  destruct e as [| | | | | | | |k|i a|d err rc sp|j d m user|d m user|j|d alive call]; try done; cbn [handle].
  - by apply Hnone.
  - destruct (pending s !! i) as [[f o]|] eqn:Hi'; [|by apply Hnone].
    assert (is_completion (length (futures s)) o) as (k & -> & Hk).
    { pose proof (wf_pending _ Hw) as HF. rewrite Forall_lookup in HF. by apply (HF i (mkSlot f o)). }
    rewrite complete_slot_spec. destruct (dead a); [by apply Hnone|]. destruct (Hp _ _ Hi') as [_ Ha0].
    apply (Hcall (set_pending (delete i (pending s)) s)); [by split; [|apply wf_set_pending]|apply complete_completes|done|].
    intros f' x. apply complete_raises.
  - destruct d; [by apply Hnone|]. rewrite s_on_connect_spec. destruct (on_connect s) as [o|] eqn:Ho; [|by apply Hnone].
    destruct (wf_connect _ Hw o Ho) as (k & -> & Hk). destruct (Hc _ eq_refl) as [_ Ha0].
    apply (Hcall (set_on_connect None s)); [by split; [|apply wf_drop_connect]|apply on_connect_completes|done|].
    intros f' x. apply on_connect_raises.
  - destruct (topics s !! j) as [o|] eqn:Hj; [|by apply Hnone]. destruct (Ht _ _ Hj) as [Ho _].
    apply message_unraisable; [done|]. pose proof (wf_topics _ Hw) as HF. rewrite Forall_lookup in HF. by eapply HF.
  - destruct (any_handler s) as [o|] eqn:Hj; [|by apply Hnone]. apply message_unraisable; [by apply Hany|].
    by apply (wf_any _ Hw).
  - destruct (topics s !! j) as [o|]; [|by apply Hnone]. apply Hnone. by rewrite silent_decref.
  - unfold s_on_lifecycle, or_unraisable. destruct d; [by apply Hnone|]. destruct alive; [|by apply Hnone]. munfold.
    destruct call as [l|x]; [by apply Hnone|]. exists [x]. split; [done|]. by apply Forall_singleton.
Qed.

Lemma run_unraisable es lost s : inv lost s ->
  exists l, unraisable (run es s) = unraisable s ++ l /\ Forall (fun x => exists e, In e es /\ foreseen e x) l.
Proof.
  revert lost s. induction es as [|e es IH]; intros lost s Hi; simpl.
  - exists []. by rewrite app_nil_r.
  - destruct (event_ok_all e lost s Hi) as [H1 _]. destruct (event_unraisable e lost s Hi) as (l1 & E1 & F1).
    destruct (IH _ _ H1) as (l2 & E2 & F2). exists (l1 ++ l2). rewrite E2, E1, app_assoc. split; [done|].
    apply Forall_app. split; [eapply Forall_impl; [exact F1|]; eauto|].
    eapply Forall_impl; [exact F2|]. naive_solver.
Qed.

Lemma complete_lookup k r s f0 : futures s !! k = Some f0 ->
  futures (on_future k (complete r) s).2 !! k = Some (if Fut.done f0 then f0 else Finished r).
Proof.
  intros H0. unfold on_future. rewrite H0. unfold complete.
  destruct f0; simpl; by rewrite list_lookup_insert_eq by (by eapply lookup_lt_Some).
Qed.

Lemma acked_settles lost s i f k f0 a : inv lost s -> dead a = false ->
  pending s !! i = Some (mkSlot f (Completion k)) -> futures s !! k = Some f0 ->
  futures (handle (Acked i a) s).2 !! k = Some (if Fut.done f0 then f0 else Finished (slot_result a f)).
Proof.
  intros [Ha Hw] Hd Hi H0. cbn [handle]. rewrite Hi, complete_slot_spec, Hd.
  destruct (owned_decomposed _ _ Ha) as (Hp & _). destruct (Hp _ _ Hi) as [_ Ha0].
  destruct (native_callback lost (set_pending (delete i (pending s)) s) (Completion k)
    (on_future k (complete (slot_result a f)))) as (s' & -> & _ & _ & Hf & _).
  - split; [done|by apply wf_set_pending].
  - apply on_future_python, complete_completes.
  - simpl. rewrite Hf. by apply complete_lookup.
Qed.

Lemma connack_settles lost s err rc sp k f0 : inv lost s -> 0 <= rc <= 5 ->
  on_connect s = Some (Completion k) -> futures s !! k = Some f0 ->
  futures (handle (Connack false err rc sp) s).2 !! k =
    Some (if Fut.done f0 then f0 else Finished (connack_result err rc sp)).
Proof.
  intros [Ha Hw] Hrc Ho H0. cbn [handle]. rewrite s_on_connect_spec, Ho. simpl run_completion.
  rewrite on_connect_known by done. destruct (owned_decomposed _ _ Ha) as (_ & _ & Hc & _).
  destruct (Hc _ Ho) as [_ Ha0].
  destruct (native_callback lost (set_on_connect None s) (Completion k)
    (on_future k (complete (connack_result err rc sp)))) as (s' & -> & _ & _ & Hf & _).
  - split; [done|by apply wf_drop_connect].
  - apply on_future_python, complete_completes.
  - simpl. rewrite Hf. by apply complete_lookup.
Qed.

Lemma resubscribe_nothing s :
  (handle (Resubscribe (mkAnswer 0 0)) s).2 = set_futures (futures s ++ [Pending]) s.
Proof.
  cbn [handle]. rewrite as_unit_state. unfold resubscribe_existing_topics, start_on, new_future, bind at 1. cbn beta iota.
  set (s1 := set_futures _ s). set (k := length (futures s)).
  assert (client_connection_resubscribe_existing_topics (Completion k) (mkAnswer 0 0) s1 = (Ok 0, s1)) as E.
  { clearbody s1. unfold client_connection_resubscribe_existing_topics, native_call, bind, Py_INCREF, modify, ret.
    cbn -[Py_DECREF].
    by rewrite decref_fresh. }
  unfold bind, try_except. by rewrite E.
Qed.

(** C14: The binding of an MQTT 3.1.1 connection never misuses a reference.
    Whatever operations a program starts (with any arguments, any answer of the
    native client and any cancellation) and in whatever order their callbacks
    come, the binding owns one reference for each obligation - the callback of a
    connection attempt, the handler of all messages, each operation under way,
    each subscription - beside those of callbacks that came on a dead
    connection, which it never gives back; no reference is given back twice, no
    object is called that nothing keeps alive, and no exception leaves a native
    callback. When the connection is terminated with nothing under way, all
    references are given back but one: a callback of a connection attempt that
    was never answered. *)
Theorem references_accounted (es : list event) :
  let s := run es init in
  misuse s = false /\ refs s = owned s ⊎ lost_along es init /\
  (forallb (fun e => negb (on_dead_connection e)) es = true -> lost_along es init = ∅) /\
  (forall e, is_callback e = true -> (handle e s).1 = Ok tt) /\
  (pending s = [] -> topics s = [] -> lost_along es init = ∅ ->
     refs (Py_XDECREF (on_any_publish s) s).2 = of_option (on_connect s)).
Proof.
  cbv zeta. pose proof (run_inv es ∅ init init_inv) as Hi.
  replace (∅ ⊎ lost_along es init) with (lost_along es init) in Hi by multiset_solver.
  pose proof Hi as [(Hr & Hm & Ha) Hw]. split_and!; [done|done|apply lost_none|..].
  - intros e He. by destruct (event_ok_all e _ _ Hi) as (_ & _ & H3); auto.
  - intros Hp Ht Hl. unfold owned in Hr. rewrite Hp, Ht, Hl in Hr. simpl in Hr.
    destruct (on_any_publish (run es init)) as [o|]; cbn [Py_XDECREF of_option] in *.
    + rewrite decref_held by (rewrite Hr; simpl; multiset_solver). cbn. rewrite Hr. simpl. multiset_solver.
    + cbn. rewrite Hr. simpl. multiset_solver.
Qed.

(** C9: Every operation of an MQTT 3.1.1 connection is answered: in any orderly
    run (no dead connection, return codes of the protocol, no resubscription
    that is neither sent nor refused) a future that is not settled has a native
    callback to come, and that callback settles it with what the server or the
    native client said: an acknowledgement with [slot_result], the answer to a
    connection attempt with the server's return code if it refused, else with the
    native client's error if there is one, else with whether a session was
    resumed; so when nothing is under way every future is settled.
    A resubscription that is neither sent nor refused leaves its future pending
    with no callback to come. *)
Theorem operations_answered (es : list event) (Ho : forallb orderly es = true) :
  let s := run es init in
  (forall k f, futures s !! k = Some f -> Fut.done f = false -> Completion k ∈ waiting s) /\
  (pending s = [] -> on_connect s = None -> forall k f, futures s !! k = Some f -> Fut.done f = true) /\
  (forall i f k f0 a, pending s !! i = Some (mkSlot f (Completion k)) -> dead a = false ->
     futures s !! k = Some f0 ->
     futures (handle (Acked i a) s).2 !! k = Some (if Fut.done f0 then f0 else Finished (slot_result a f))) /\
  (forall k f0 err rc sp, on_connect s = Some (Completion k) -> 0 <= rc <= 5 -> futures s !! k = Some f0 ->
     futures (handle (Connack false err rc sp) s).2 !! k = Some
       (if Fut.done f0 then f0
        else Finished (if negb (rc =? 0) then Raise (ConnectRefused rc)
                       else if negb (err =? 0) then Raise (from_code err) else Ok (Connected sp)))) /\
  (let s' := (handle (Resubscribe (mkAnswer 0 0)) s).2 in
   futures s' !! length (futures s) = Some Pending /\ waiting s' = waiting s).
Proof.
  cbv zeta. pose proof (run_inv es ∅ init init_inv) as Hi.
  assert (Ha : answered (run es init)) by (eapply run_answered; [apply init_inv|done|by intros k f]).
  split_and!; [done|..].
  - intros Hp Hc k f Hk. destruct (Fut.done f) eqn:Hd; [done|]. specialize (Ha k f Hk Hd).
    unfold waiting in Ha. rewrite Hp, Hc in Ha. simpl in Ha. set_solver.
  - intros i f k f0 a Hp Hd H0. by eapply acked_settles.
  - intros k f0 err rc sp Hc Hrc H0. rewrite (connack_settles _ _ err rc sp k f0 Hi Hrc Hc H0).
    unfold connack_result. by destruct (rc =? 0), (err =? 0).
  - rewrite resubscribe_nothing. simpl. by rewrite list_lookup_middle.
  - by rewrite resubscribe_nothing.
Qed.

(** C27: Every callback gets the objects it expects. In any run each object the
    native client holds is of the kind its callback calls - a closure over an
    existing future for an operation or a connection attempt, a message wrapper
    or None for a subscription and for the handler of all messages - so no call
    fails for its object, and what is reported as unraisable is only what the
    event itself brings: a future that is settled already (by cancellation or by
    an earlier failure), a number outside the enumeration in a CONNACK or a
    message, a topic that is not UTF-8, or an exception of the user's function. *)
Theorem callbacks_well_typed (es : list event) :
  let s := run es init in
  well_formed s /\ Forall (fun x => exists e, In e es /\ foreseen e x) (unraisable s).
Proof.
  cbv zeta. pose proof (run_inv es ∅ init init_inv) as [_ Hw]. split; [done|].
  by destruct (run_unraisable es ∅ init init_inv) as (l & -> & Hl).
Qed.
End Native.

(** A session: connect, subscribe, publish twice, one of them refused, a message,
    the acknowledgements. *)
Definition demo_ack (id : Z) : ack := mkAck false id "t" 1 0 [].
Definition demo_events : list event :=
  [Connect (Ok tt) (Ok tt) (Ok tt) 0; Connack false 0 0 false;
   Subscribe (Ok tt) (Qos3 QoS3.AT_LEAST_ONCE) TakesAll 7 (mkAnswer 1 0);
   Publish (Ok tt) (Qos3 QoS3.AT_LEAST_ONCE) (mkAnswer 2 0);
   Publish (Ok tt) (Qos3 QoS3.EXACTLY_ONCE) (mkAnswer 3 0);
   Acked 0 (demo_ack 1); Message 0 false (mkMessage (Some "t") "x" false 1 false) (fun _ => Raise (UserError 1));
   Cancel 2; Acked 0 (demo_ack 2); TopicRemoved 0].

Lemma operations_answered_witness :
  let s := run (H:=demo_errors) 3 (take 3 demo_events) init in
  let s1 := run (H:=demo_errors) 3 (take 1 demo_events) init in
  futures (handle (H:=demo_errors) 3 (Acked 0 (demo_ack 1)) s).2 !! 1%nat =
    Some (Finished (Ok (Subscribed 1 "t" QoS3.AT_LEAST_ONCE))) /\
  futures (handle (H:=demo_errors) 3 (Connack false 7 0 false) s1).2 !! 0%nat =
    Some (Finished (Raise (from_code (H:=demo_errors) 7))).
Proof.
  destruct (operations_answered (H:=demo_errors) 3 (take 3 demo_events) eq_refl) as (_ & _ & H & _).
  destruct (operations_answered (H:=demo_errors) 3 (take 1 demo_events) eq_refl) as (_ & _ & _ & H1 & _).
  split; [refine (H 0%nat SubackCallback 1%nat Pending (demo_ack 1) _ eq_refl _); vm_compute; reflexivity|].
  refine (H1 0%nat Pending 7 0 false _ _ _); [vm_compute; reflexivity|lia|vm_compute; reflexivity].
Defined.

Example demo_run :
  let s := run (H:=demo_errors) 3 demo_events init in
  futures s = [Finished (Ok (Connected false)); Finished (Ok (Subscribed 1 "t" QoS3.AT_LEAST_ONCE));
               Cancelled; Finished (Raise (ValueError ""))] /\
  unraisable s = [UserError 1; InvalidStateError] /\ refs s = ∅ /\
  delivered s = [(7%nat, NewCall "t" "x" false QoS3.AT_LEAST_ONCE false)].
Proof. by vm_compute. Qed.

(** Metrics that cannot be set: connect reports an error while the attempt goes
    on, and its answer finds the future settled. *)
Example metrics_failure :
  let s := run (H:=demo_errors) 3 [Connect (Ok tt) (Ok tt) (Raise (RuntimeError "metrics")) 0; Connack false 0 0 true] init in
  futures s = [Finished (Raise (BuiltinError "SystemError"))] /\ unraisable s = [InvalidStateError].
Proof. by vm_compute. Qed.
End Native3.

(** ** What connect hands to the native client *)
Module Connect3.
Import Mqtt3 Mqtt5Native.Marshal.

(** A Will as the binding finds it: nothing checks its members before. *)
Inductive bytes_arg := PyBytes (s : string) | NotBytes.
Record raw_will := mkRawWill {
  w_topic : str_arg; w_qos : option QoS3; w_payload : bytes_arg; w_retain : option bool;
}.
Definition raw_of (w : Will) : raw_will :=
  mkRawWill (PyStr_ (will_topic w)) (Some (will_qos w)) (PyBytes (will_payload w)) (Some (will_retain w)).

(** [PyObject_GetAttrAsBool] on an attribute that is None or has a truth value *)
Definition PyObject_GetAttrAsBool (b : option bool) : result bool :=
  match b with Some b => Ok b | None => Raise (AttributeError "required boolean attribute is None") end.

Definition will_view : Type := string * Z * bool * string.
Definition s_set_will (w : raw_will) : result will_view :=
  match w_topic w with
  | NotAStr => Raise (TypeError "Will.topic must be str type")
  | PyStr_ topic =>
      let? qos := PyObject_GetAttrAsIntEnum (w_qos w) in
      match w_payload w with
      | NotBytes => Raise (TypeError "Will.payload must be bytes type")
      | PyBytes payload => let? retain := PyObject_GetAttrAsBool (w_retain w) in Ok (topic, qos, retain, payload)
      end
  end.

(** The arguments of connect that are not objects of their own; the formats H,
    I and K take the low bits of any int. *)
Record connect_args := mkConnectArgs {
  a_options : options;                          (** client id, host, port, timeouts, clean session *)
  a_will : option raw_will;
  a_username : option string;
  a_password : option string;
}.
Record connect_view := mkConnectView {
  v_host_name : string; v_port : Z; v_client_id : string;
  v_keep_alive_time_secs : Z; v_ping_timeout_ms : Z; v_protocol_operation_timeout_ms : Z;
  v_reconnect_timeout : Z * Z; v_clean_session : bool;
  v_will : option will_view; v_login : option (string * option string);
}.
Definition connect_view_of (a : connect_args) : result connect_view :=
  let o := a_options a in
  match port o with
  | None => Raise (TypeError "an integer is required")
  | Some p =>
      let? will := match a_will a with None => Ok None | Some w => let? v := s_set_will w in Ok (Some v) end in
      Ok (mkConnectView (host_name o) (p mod 2 ^ 32) (client_id o) (keep_alive_secs o mod 2 ^ 16)
            (ping_timeout_ms o mod 2 ^ 32) (protocol_operation_timeout_ms o mod 2 ^ 32)
            (reconnect_min_timeout_secs o mod 2 ^ 64, reconnect_max_timeout_secs o mod 2 ^ 64) (clean_session o)
            will ((fun u => (u, a_password a)) <$> a_username a))
  end.

(** Options that fit their fields. *)
Definition in_range (o : options) : bool :=
  (if port o is Some p then fits 32 (Some p) else false) && fits 16 (Some (keep_alive_secs o)) &&
  fits 32 (Some (ping_timeout_ms o)) && fits 32 (Some (protocol_operation_timeout_ms o)) &&
  fits 64 (Some (reconnect_min_timeout_secs o)) && fits 64 (Some (reconnect_max_timeout_secs o)).

Lemma fits_mod w z : 0 <= w -> fits w (Some z) = true -> z mod 2 ^ w = z.
Proof.
  intros Hw. simpl. rewrite andb_true_iff, Z.leb_le, Z.ltb_lt. intros [H1 H2]. by apply Z.mod_small.
Qed.

(** Options in range and a proper Will reach the native client as they are, and
    the native keep alive is still longer than the ping timeout. *)
Lemma connect_view_exact win32 crt o c (w : option Will) u p :
  Connection_init win32 crt o = Ok c -> in_range o = true ->
  exists v, connect_view_of (mkConnectArgs o (raw_of <$> w) u p) = Ok v /\
    Some (v_port v) = port o /\ v_keep_alive_time_secs v = keep_alive_secs o /\
    v_ping_timeout_ms v = ping_timeout_ms o /\ v_protocol_operation_timeout_ms v = protocol_operation_timeout_ms o /\
    v_reconnect_timeout v = (reconnect_min_timeout_secs o, reconnect_max_timeout_secs o) /\
    (v_reconnect_timeout v).1 <= (v_reconnect_timeout v).2 /\
    v_ping_timeout_ms v < v_keep_alive_time_secs v * 1000 /\
    v_will v = (fun w => (will_topic w, enum_value (will_qos w), will_retain w, will_payload w)) <$> w.
Proof.
  unfold in_range. rewrite !andb_true_iff. intros Hc Hr. destruct Hr as (((((Hp & Hk) & Hpt) & Hpo) & Hmin) & Hmax).
  unfold connect_view_of. simpl. destruct (port o) as [pt|]; [|done].
  unfold Connection_init in Hc. destruct (_ >? _) eqn:Hord; [done|]. destruct (_ <=? _) eqn:Hka; [done|].
  apply Z.leb_gt in Hka. rewrite Z.gtb_ltb in Hord. apply Z.ltb_ge in Hord.
  assert (match raw_of <$> w with None => Ok None | Some w => let? v := s_set_will w in Ok (Some v) end =
    Ok ((fun w => (will_topic w, enum_value (will_qos w), will_retain w, will_payload w)) <$> w)) as -> by by destruct w.
  simpl. eexists. split; [done|]. simpl. rewrite !fits_mod by (done || lia). by split_and!.
Qed.

Definition demo_options (keep_alive : Z) : options :=
  mkOptions 3 None "host" (Some 8883) "id" true 5 60 keep_alive 3000 0 None None None true None.

(** A keep alive of 65536 s passes the checks of [Connection.__init__] and is
    sent as 0, which turns keeping alive off. *)
Example keep_alive_lost :
  is_ok (Connection_init false "1" (demo_options 65536)) = true /\
  (let? v := connect_view_of (mkConnectArgs (demo_options 65536) None None None) in Ok (v_keep_alive_time_secs v)) = Ok 0.
Proof. by vm_compute. Qed.

(** A password without a user name is left out. *)
Example password_alone :
  (let? v := connect_view_of (mkConnectArgs (demo_options 60) None None (Some "secret")) in Ok (v_login v)) = Ok None.
Proof. by vm_compute. Qed.
End Connect3.

(** ** The life of a binding *)
Module Lifetime3.

(** The native connection and whether its termination handler is set, the two
    references of the binding, how often its memory was released, and whether a
    null pointer was given to Py_DECREF. *)
Record binding := mkBinding {
  native : bool; termination_handler : bool; self_proxy : bool; client : bool; released : nat; crashed : bool;
}.
Definition finish_destruction (b : binding) : binding :=
  mkBinding (native b) (termination_handler b) false false (S (released b))
    (crashed b || negb (self_proxy b) || negb (client b)).

(** Releasing the last reference of the native connection ends it, and the
    native layer then calls the termination handler. *)
Definition connection_release (b : binding) : binding :=
  if native b then
    let b := mkBinding false (termination_handler b) (self_proxy b) (client b) (released b) (crashed b) in
    if termination_handler b then finish_destruction b else b
  else b.
Definition on_error (b : binding) : binding :=
  let b := connection_release b in
  mkBinding (native b) (termination_handler b) (self_proxy b) (client b) (S (released b)) (crashed b).

(** [steps]: the outcome of each call after the termination handler is set (the
    other handlers, WebSockets, the weak reference, the capsule), in order. *)
Definition connection_new (client_version : Z) (native_ok termination_ok : bool) (steps : list bool)
    : result unit * option binding :=
  if negb ((client_version =? 3) || (client_version =? 5))
  then (Raise (TypeError "Mqtt Client version not supported. Failed to create connection."), None)
  else
    let failed b := (Raise (RuntimeError "native"), Some (on_error b)) in
    if negb native_ok then failed (mkBinding false false false false 0 false)
    else if negb termination_ok then failed (mkBinding true false false false 0 false)
    else if forallb id steps then (Ok tt, Some (mkBinding true true true true 0 false))
    else failed (mkBinding true true false false 0 false).

(** The destructor of the capsule: disconnect, and release the native connection
    in the callback of that, or at once when the native layer refuses. *)
Definition destructor (disconnect_refused callback_dead : bool) (b : binding) : binding :=
  if disconnect_refused then connection_release b
  else if callback_dead then b
  else connection_release b.

(** A binding that was made is released exactly once when its object goes,
    whether the connection was up or not, unless the native layer reports a dead
    connection; making one fails cleanly up to the termination handler, and
    after that releases the memory twice and gives away null pointers. *)
Lemma binding_released_once v n t steps refused :
  match connection_new v n t steps with
  | (Ok _, Some b) => destructor refused false b = mkBinding false true false false 1 false
  | (Ok _, None) => False
  | (Raise _, None) => v <> 3 /\ v <> 5
  | (Raise _, Some b) => native b = false /\
      if n && t then released b = 2%nat /\ crashed b = true else released b = 1%nat /\ crashed b = false
  end.
Proof.
  unfold connection_new. destruct (v =? 3) eqn:E3, (v =? 5) eqn:E5; simpl; try lia.
  all: destruct n, t, (forallb id steps), refused; done.
Qed.
End Lifetime3.
