(* ===== verification/Mqtt5New.v ===== *)
(** * awscrt/mqtt5.py with source/mqtt5_client.c: making a client

    What [Client.__init__] and aws_py_mqtt5_client_new make of the client
    options ([NewClient]): the native options field by field, those of the socket
    (source/io.c) and of the proxy (source/http_proxy.c) included, with the
    exception for a value that does not fit its field. Strings are those that
    have a UTF-8 encoding. *)
From S2P Require Import Prelude PyData Future Mqtt5Types Io Http Metrics Mqtt5 Mqtt5Native.

Module NewClient.
Import Metrics.Metrics Mqtt5.Client5 Mqtt5.Events Marshal.

(** [PyObject_GetAsOptionalUint64]: PyLong_AsUnsignedLongLong does the checks. *)
Definition PyObject_GetAsOptionalUint64 (o : option Z) : result (option Z) :=
  match o with
  | None => Ok None
  | Some z => if (0 <=? z) && (z <? 2 ^ 64) then Ok (Some z)
              else Raise (OverflowError "Cannot convert to a C uint64_t")
  end.
(** [PyObject_GetAsOptionalIntEnum] *)
Definition PyObject_GetAsOptionalIntEnum {E} `{IntEnum E} (o : option E) : option Z := enum_value <$> o.

(** The native structures. *)
Record topic_alias_view := mkTopicAliasView {
  ta_outbound_behavior : Z; ta_outbound_cache_max_size : Z; ta_inbound_behavior : Z; ta_inbound_cache_size : Z;
}.
Record connect_view := mkConnectView {
  co_client_id : option string; co_keep_alive_interval_seconds : Z;
  co_username : option string; co_password : option string; co_session_expiry_interval_seconds : option Z;
  co_request_response_information : option bool; co_request_problem_information : option bool;
  co_receive_maximum : option Z; co_maximum_packet_size_bytes : option Z; co_will_delay_interval_seconds : option Z;
  co_user_properties : list (string * string); co_will : option publish_view;
}.
Record socket_view := mkSocketView {
  so_domain : Z; so_type : Z; so_connect_timeout_ms : Z; so_keepalive : bool;
  so_keep_alive_interval_sec : Z; so_keep_alive_timeout_sec : Z; so_keep_alive_max_failed_probes : Z;
}.
Record proxy_view := mkProxyView {
  pr_host : string; pr_port : Z; pr_tls_options : option Tls.TlsConnectionOptions; pr_auth_type : Z;
  pr_auth_username : option string; pr_auth_password : option string; pr_connection_type : Z;
}.
Record metrics_view := mkMetricsView { mv_library_name : string; mv_entries : list (string * string) }.
Record client_view := mkClientView {
  cv_host_name : string; cv_port : Z; cv_bootstrap : nat; cv_socket_options : socket_view;
  cv_http_proxy_options : option proxy_view; cv_tls : option Tls.ClientTlsContext;
  cv_session_behavior : Z; cv_extended_validation : Z; cv_offline_queue_behavior : Z; cv_retry_jitter_mode : Z;
  cv_min_reconnect_delay_ms : Z; cv_max_reconnect_delay_ms : Z;
  cv_min_connected_time_to_reset_reconnect_delay_ms : Z;
  cv_ping_timeout_ms : Z; cv_connack_timeout_ms : Z; cv_ack_timeout_seconds : Z;
  cv_topic_aliasing_options : option topic_alias_view;
  cv_connect_options : connect_view; cv_metrics : option metrics_view; cv_websocket : bool;
}.

Section NewClient.
Context `{NativeErrors}.
(** The width of C [long] and the encoding of strings. *)
Variables (long_bits : Z) (encode_utf8 : string -> string).
(** What the [SocketOptions] object of an identity holds. *)
Variable socket_options_of : nat -> SocketOptions.

(** [PyObject_GetAttrAsUint32], [PyObject_GetAttrAsUint16] on an int *)
Definition PyObject_GetAttrAsUint32 (z : Z) : result Z :=
  let? v := PyObject_GetAsOptionalUint32 (Some z) in Ok (default (2 ^ 32 - 1) v).
Definition PyObject_GetAttrAsUint16 (z : Z) : result Z :=
  let? v := PyObject_GetAsOptionalUint16 long_bits (Some z) in Ok (default (2 ^ 16 - 1) v).

(** [aws_py_socket_options_init] *)
Definition aws_py_socket_options_init (o : SocketOptions) : result socket_view :=
  let? connect_timeout := PyObject_GetAttrAsUint32 (Io.connect_timeout_ms o) in
  let? interval := PyObject_GetAttrAsUint16 (Io.keep_alive_interval_secs o) in
  let? timeout := PyObject_GetAttrAsUint16 (Io.keep_alive_timeout_secs o) in
  let? probes := PyObject_GetAttrAsUint16 (Io.keep_alive_max_probes o) in
  Ok (mkSocketView (enum_value (Io.domain o)) (enum_value (Io.type o)) connect_timeout (Io.keep_alive o)
        interval timeout probes).

(** [aws_py_http_proxy_options_init] *)
Definition aws_py_http_proxy_options_init (p : Proxy.HttpProxyOptions) : result proxy_view :=
  let? port := PyObject_GetAttrAsUint32 (Proxy.port p) in
  Ok (mkProxyView (Proxy.host_name p) port (Proxy.tls_connection_options p) (enum_value (Proxy.auth_type p))
        (Proxy.auth_username p) (Proxy.auth_password p) (enum_value (Proxy.connection_type p))).

(** [s_py_topic_aliasing_options_init] on zeroed options *)
Definition s_py_topic_aliasing_options_init (t : TopicAliasingOptions) : result topic_alias_view :=
  let out := PyObject_GetAsOptionalIntEnum (TopicAliasingOptions.outbound_behavior t) in
  let? out_size := PyObject_GetAsOptionalUint16 long_bits (TopicAliasingOptions.outbound_cache_max_size t) in
  let inb := PyObject_GetAsOptionalIntEnum (TopicAliasingOptions.inbound_behavior t) in
  let? in_size := PyObject_GetAsOptionalUint16 long_bits (TopicAliasingOptions.inbound_cache_max_size t) in
  Ok (mkTopicAliasView (default 0 out) (default 0 out_size) (default 0 inb) (default 0 in_size)).

(** [aws_py_metrics_parse] *)
Definition aws_py_metrics_parse (m : AWSIoTMetrics) : metrics_view :=
  mkMetricsView (library_name m) (map (fun e => (key e, value e)) (default [] (metadata_entries m))).

Definition KEEP_ALIVE_INTERVAL_SECONDS : Z := 1200.

(** The CONNECT and the Will part of [aws_py_mqtt5_client_new] *)
Definition will_view_of (a : new_arguments) : result (option publish_view) :=
  if a_is_will_none a then Ok None
  else
    let w := a_will a in
    let? qos := PyObject_GetIntEnum (PublishPacket.qos w) in
    let? expiry := PyObject_GetAsOptionalUint32 (PublishPacket.message_expiry_interval_sec w) in
    Ok (Some (mkPublishView (buffer_of encode_utf8 (PublishPacket.payload w)) qos (PublishPacket.retain w)
      (PublishPacket.topic w) (PyObject_GetAsOptionalIntEnum (PublishPacket.payload_format_indicator w)) expiry None
      (PublishPacket.response_topic w) (buffer_of encode_utf8 <$> a_will_correlation_data a) []
      (PublishPacket.content_type w) (user_properties_view (PublishPacket.user_properties w)))).
Definition connect_view_of (a : new_arguments) : result connect_view :=
  let c := a_connect a in
  let? keep_alive := PyObject_GetAsOptionalUint16 long_bits (ConnectPacket.keep_alive_interval_sec c) in
  let? expiry := PyObject_GetAsOptionalUint32 (ConnectPacket.session_expiry_interval_sec c) in
  let? receive_maximum := PyObject_GetAsOptionalUint16 long_bits (ConnectPacket.receive_maximum c) in
  let? maximum_packet_size := PyObject_GetAsOptionalUint32 (ConnectPacket.maximum_packet_size c) in
  let? will_delay := PyObject_GetAsOptionalUint32 (ConnectPacket.will_delay_interval_sec c) in
  let? will := will_view_of a in
  Ok (mkConnectView (ConnectPacket.client_id c) (default KEEP_ALIVE_INTERVAL_SECONDS keep_alive)
        (ConnectPacket.username c) (ConnectPacket.password c) expiry
        (ConnectPacket.request_response_information c) (ConnectPacket.request_problem_information c)
        receive_maximum maximum_packet_size will_delay (user_properties_view (ConnectPacket.user_properties c)) will).

(** [aws_py_mqtt5_client_new] up to the native call. The port is read with the
    format I, which takes the low 32 bits of any int and no None. The third
    delay is stored where the first one was. *)
Definition client_view_of (a : new_arguments) : result client_view :=
  let o := a_options a in
  match port o with
  | None => Raise (TypeError "an integer is required")
  | Some p =>
      let? socket := aws_py_socket_options_init (socket_options_of (a_socket_options a)) in
      let? proxy := match http_proxy_options o with
                    | None => Ok None
                    | Some h => let? v := aws_py_http_proxy_options_init h in Ok (Some v)
                    end in
      let? min_reconnect := PyObject_GetAsOptionalUint64 (min_reconnect_delay_ms o) in
      let? max_reconnect := PyObject_GetAsOptionalUint64 (max_reconnect_delay_ms o) in
      let? min_connected := PyObject_GetAsOptionalUint64 (min_connected_time_to_reset_reconnect_delay_ms o) in
      let client_options_min_reconnect_delay_ms := default 0 min_reconnect in
      let client_options_min_reconnect_delay_ms := default client_options_min_reconnect_delay_ms min_connected in
      let? ping := PyObject_GetAsOptionalUint32 (ping_timeout_ms o) in
      let? connack := PyObject_GetAsOptionalUint32 (connack_timeout_ms o) in
      let? ack := PyObject_GetAsOptionalUint32 (ack_timeout_sec o) in
      let? aliasing := match topic_aliasing_options o with
                       | None => Ok None
                       | Some t => let? v := s_py_topic_aliasing_options_init t in Ok (Some v)
                       end in
      let? connect := connect_view_of a in
      Ok (mkClientView (host_name o) (p mod 2 ^ 32) (a_bootstrap a) socket proxy (tls_ctx o)
            (default 0 (PyObject_GetAsOptionalIntEnum (session_behavior o)))
            (default 0 (PyObject_GetAsOptionalIntEnum (extended_validation_and_flow_control_options o)))
            (default 0 (PyObject_GetAsOptionalIntEnum (offline_queue_behavior o)))
            (default 0 (PyObject_GetAsOptionalIntEnum (retry_jitter_mode o)))
            client_options_min_reconnect_delay_ms (default 0 max_reconnect) 0
            (default 0 ping) (default 0 connack) (default 0 ack) aliasing connect
            (if a_enable_metrics a then aws_py_metrics_parse <$> a_metrics a else None)
            (negb (a_websocket_is_none a)))
  end.

(** [native]: the native client's answer to the options. *)
Definition mqtt5_client_new (native : client_view -> result nat) (a : new_arguments) : result nat :=
  let? v := client_view_of a in native v.

(** ** What reaches the native client *)
Hypothesis long_wide : 32 <= long_bits.

Definition aliasing_fits (t : TopicAliasingOptions) : bool :=
  fits 16 (TopicAliasingOptions.outbound_cache_max_size t) && fits 16 (TopicAliasingOptions.inbound_cache_max_size t).
Definition will_fits (w : PublishPacket) : bool :=
  (if PublishPacket.qos w is Some _ then true else false) && fits 32 (PublishPacket.message_expiry_interval_sec w).
Definition connect_fits (c : ConnectPacket) : bool :=
  fits 16 (ConnectPacket.keep_alive_interval_sec c) && fits 32 (ConnectPacket.session_expiry_interval_sec c) &&
  fits 16 (ConnectPacket.receive_maximum c) && fits 32 (ConnectPacket.maximum_packet_size c) &&
  fits 32 (ConnectPacket.will_delay_interval_sec c) &&
  match ConnectPacket.will c with None => true | Some w => will_fits w end.
Definition socket_fits (o : SocketOptions) : bool :=
  fits 32 (Some (Io.connect_timeout_ms o)) && fits 16 (Some (Io.keep_alive_interval_secs o)) &&
  fits 16 (Some (Io.keep_alive_timeout_secs o)) && fits 16 (Some (Io.keep_alive_max_probes o)).
(** [s]: the socket options that are used. *)
Definition options_fit (o : ClientOptions) (s : nat) : bool :=
  (if port o is Some _ then true else false) && socket_fits (socket_options_of s) &&
  match http_proxy_options o with None => true | Some h => fits 32 (Some (Proxy.port h)) end &&
  fits 64 (min_reconnect_delay_ms o) && fits 64 (max_reconnect_delay_ms o) &&
  fits 64 (min_connected_time_to_reset_reconnect_delay_ms o) &&
  fits 32 (ping_timeout_ms o) && fits 32 (connack_timeout_ms o) && fits 32 (ack_timeout_sec o) &&
  match topic_aliasing_options o with None => true | Some t => aliasing_fits t end &&
  connect_fits (default ConnectPacket.default (connect_options o)).

(** The native options the given ones stand for; 0 is the native default. *)
Definition expected_socket (o : SocketOptions) : socket_view := {|
  so_domain := enum_value (Io.domain o); so_type := enum_value (Io.type o);
  so_connect_timeout_ms := Io.connect_timeout_ms o; so_keepalive := Io.keep_alive o;
  so_keep_alive_interval_sec := Io.keep_alive_interval_secs o;
  so_keep_alive_timeout_sec := Io.keep_alive_timeout_secs o;
  so_keep_alive_max_failed_probes := Io.keep_alive_max_probes o |}.
Definition expected_proxy (p : Proxy.HttpProxyOptions) : proxy_view := {|
  pr_host := Proxy.host_name p; pr_port := Proxy.port p; pr_tls_options := Proxy.tls_connection_options p;
  pr_auth_type := enum_value (Proxy.auth_type p); pr_auth_username := Proxy.auth_username p;
  pr_auth_password := Proxy.auth_password p; pr_connection_type := enum_value (Proxy.connection_type p) |}.
Definition expected_aliasing (t : TopicAliasingOptions) : topic_alias_view :=
  mkTopicAliasView (default 0 (enum_value <$> TopicAliasingOptions.outbound_behavior t))
    (default 0 (TopicAliasingOptions.outbound_cache_max_size t))
    (default 0 (enum_value <$> TopicAliasingOptions.inbound_behavior t))
    (default 0 (TopicAliasingOptions.inbound_cache_max_size t)).
Definition expected_will (w : PublishPacket) : publish_view :=
  mkPublishView (buffer_of encode_utf8 (PublishPacket.payload w))
    (match PublishPacket.qos w with Some q => enum_value q | None => 0 end) (PublishPacket.retain w)
    (PublishPacket.topic w) (enum_value <$> PublishPacket.payload_format_indicator w)
    (PublishPacket.message_expiry_interval_sec w) None (PublishPacket.response_topic w)
    (buffer_of encode_utf8 <$> blob_or (PublishPacket.correlation_data_bytes w) (PublishPacket.correlation_data w)) []
    (PublishPacket.content_type w) (user_properties_view (PublishPacket.user_properties w)).
Definition expected_connect (c : ConnectPacket) : connect_view :=
  mkConnectView (ConnectPacket.client_id c) (default 1200 (ConnectPacket.keep_alive_interval_sec c))
    (ConnectPacket.username c) (ConnectPacket.password c) (ConnectPacket.session_expiry_interval_sec c)
    (ConnectPacket.request_response_information c) (ConnectPacket.request_problem_information c)
    (ConnectPacket.receive_maximum c) (ConnectPacket.maximum_packet_size c) (ConnectPacket.will_delay_interval_sec c)
    (user_properties_view (ConnectPacket.user_properties c)) (expected_will <$> ConnectPacket.will c).
Definition expected (o : ClientOptions) (b s : nat) (m : option AWSIoTMetrics)
    (min_reconnect min_connected : Z) : client_view :=
  mkClientView (host_name o) (match port o with Some p => p mod 2 ^ 32 | None => 0 end) b
    (expected_socket (socket_options_of s)) (expected_proxy <$> http_proxy_options o) (tls_ctx o)
    (default 0 (enum_value <$> session_behavior o))
    (default 0 (enum_value <$> extended_validation_and_flow_control_options o))
    (default 0 (enum_value <$> offline_queue_behavior o)) (default 0 (enum_value <$> retry_jitter_mode o))
    min_reconnect (default 0 (max_reconnect_delay_ms o)) min_connected
    (default 0 (ping_timeout_ms o)) (default 0 (connack_timeout_ms o)) (default 0 (ack_timeout_sec o))
    (expected_aliasing <$> topic_aliasing_options o)
    (expected_connect (default ConnectPacket.default (connect_options o)))
    (aws_py_metrics_parse <$> m) (bool_decide (is_Some (websocket_handshake_transform o))).

(** A checked conversion: the value, or an OverflowError. *)
Inductive checked {A} (ok : bool) (a : A) : result A -> Prop :=
  | Checked : ok = true -> checked ok a (Ok a)
  | Refused e : ok = false -> (exists m, e = TypeError m \/ e = OverflowError m) -> checked ok a (Raise e).

Lemma checked_uint c_bits w o : 0 < w < c_bits -> checked (fits w o) o (PyObject_GetAsOptionalUint c_bits w o).
Proof.
  intros Hw. destruct (fits w o) eqn:Hf.
  - rewrite as_uint_ok by done. by constructor.
  - destruct (as_uint_raises c_bits w o Hw Hf) as [m ->]. constructor; [done|]. eauto.
Qed.
Lemma checked_uint64 o : checked (fits 64 o) o (PyObject_GetAsOptionalUint64 o).
Proof.
  destruct o as [z|]; [|by constructor]. unfold PyObject_GetAsOptionalUint64, fits.
  destruct ((0 <=? z) && (z <? 2 ^ 64)); constructor; eauto.
Qed.
Lemma checked_bind {A B} ok1 ok2 (a : A) (b : B) r k :
  checked ok1 a r -> checked ok2 b (k a) -> checked (ok1 && ok2) b (rbind r k).
Proof.
  intros [-> | e -> He] Hk; simpl; [done|]. by constructor.
Qed.
Lemma checked_ret {A} (a : A) : checked true a (Ok a).
Proof. by constructor. Qed.
Lemma checked_ok {A} ok ok' (a : A) r : ok = ok' -> checked ok a r -> checked ok' a r.
Proof. by intros ->. Qed.

Ltac check := repeat first
  [ apply checked_ret | eapply checked_bind; [first [apply checked_uint64 | apply checked_uint; lia]|] ].

Lemma checked_uint32 z : checked (fits 32 (Some z)) z (PyObject_GetAttrAsUint32 z).
Proof.
  eapply checked_ok; [|eapply checked_bind; [apply checked_uint; lia|apply checked_ret]]. by rewrite andb_true_r.
Qed.
Lemma checked_uint16 z : checked (fits 16 (Some z)) z (PyObject_GetAttrAsUint16 z).
Proof.
  eapply checked_ok; [|eapply checked_bind; [apply checked_uint; lia|apply checked_ret]]. by rewrite andb_true_r.
Qed.
Lemma checked_socket o : checked (socket_fits o) (expected_socket o) (aws_py_socket_options_init o).
Proof.
  unfold aws_py_socket_options_init. eapply checked_ok;
    [|repeat first [apply checked_ret | eapply checked_bind; [first [apply checked_uint32 | apply checked_uint16]|]]].
  unfold socket_fits. by rewrite andb_true_r, !andb_assoc.
Qed.
Lemma checked_proxy o :
  checked (match o with None => true | Some h => fits 32 (Some (Proxy.port h)) end) (expected_proxy <$> o)
    (match o with None => Ok None | Some h => let? v := aws_py_http_proxy_options_init h in Ok (Some v) end).
Proof.
  destruct o as [h|]; [|by constructor]. unfold aws_py_http_proxy_options_init. eapply checked_ok;
    [|eapply checked_bind; [eapply checked_bind; [apply checked_uint32|apply checked_ret]|apply checked_ret]].
  by rewrite !andb_true_r.
Qed.

Lemma checked_aliasing t : checked (aliasing_fits t) (expected_aliasing t) (s_py_topic_aliasing_options_init t).
Proof.
  unfold s_py_topic_aliasing_options_init, PyObject_GetAsOptionalUint16. eapply checked_ok; [|check].
  unfold aliasing_fits. by rewrite andb_true_r.
Qed.

(** The arguments [Client.__init__] makes. *)
Definition args_of (o : ClientOptions) (b s : nat) (m : option AWSIoTMetrics) (core : _ClientCore) : new_arguments :=
  let connect := default ConnectPacket.default (connect_options o) in
  let will := default PublishPacket.default (ConnectPacket.will connect) in {|
    a_options := o; a_bootstrap := b; a_socket_options := s; a_connect := connect;
    a_is_will_none := negb (bool_decide (is_Some (ConnectPacket.will connect))); a_will := will;
    a_will_correlation_data := blob_or (PublishPacket.correlation_data_bytes will) (PublishPacket.correlation_data will);
    a_websocket_is_none := negb (bool_decide (is_Some (websocket_handshake_transform o)));
    a_enable_metrics := negb (disable_metrics o); a_metrics := m; a_core := core |}.

Lemma checked_will o b s m core :
  let c := default ConnectPacket.default (connect_options o) in
  checked (match ConnectPacket.will c with None => true | Some w => will_fits w end) (expected_will <$> ConnectPacket.will c)
    (will_view_of (args_of o b s m core)).
Proof.
  cbv zeta. unfold will_view_of, args_of. simpl. destruct (ConnectPacket.will _) as [w|]; simpl; [|by constructor].
  unfold will_fits, expected_will. destruct (PublishPacket.qos w) as [q|]; simpl; [|constructor; eauto].
  eapply checked_ok; [|unfold PyObject_GetAsOptionalUint32; check]. by rewrite andb_true_r.
Qed.

Lemma checked_connect o b s m core :
  let c := default ConnectPacket.default (connect_options o) in
  checked (connect_fits c) (expected_connect c) (connect_view_of (args_of o b s m core)).
Proof.
  cbv zeta. unfold connect_view_of, PyObject_GetAsOptionalUint16, PyObject_GetAsOptionalUint32.
  eapply checked_ok; [|check; eapply checked_bind; [apply checked_will|apply checked_ret]].
  unfold connect_fits. simpl a_connect. by rewrite andb_true_r, !andb_assoc.
Qed.

Lemma checked_client o b s m core : (disable_metrics o = true -> m = None) ->
  checked (options_fit o s)
    (expected o b s m (default (default 0 (min_reconnect_delay_ms o)) (min_connected_time_to_reset_reconnect_delay_ms o)) 0)
    (client_view_of (args_of o b s m core)).
Proof.
  intros Hm. unfold client_view_of, options_fit, expected. simpl a_options.
  destruct (port o) as [p|]; [|constructor; eauto].
  assert (Ha : checked (match topic_aliasing_options o with None => true | Some t => aliasing_fits t end)
    (expected_aliasing <$> topic_aliasing_options o)
    (match topic_aliasing_options o with
     | None => Ok None
     | Some t => let? v := s_py_topic_aliasing_options_init t in Ok (Some v)
     end)).
  { destruct (topic_aliasing_options o) as [t|]; [|by constructor]. simpl.
    by destruct (checked_aliasing t) as [-> | e -> He]; constructor. }
  assert (Hmet : (if a_enable_metrics (args_of o b s m core) then aws_py_metrics_parse <$> m else None) =
    aws_py_metrics_parse <$> m) by (simpl; destruct (disable_metrics o); [by rewrite Hm|done]).
  unfold PyObject_GetAsOptionalUint32. eapply checked_ok;
    [|eapply checked_bind; [apply checked_socket|]; eapply checked_bind; [apply checked_proxy|]; check;
      eapply checked_bind; [exact Ha|]; eapply checked_bind; [apply checked_connect|]].
  2:{ simpl a_metrics. rewrite Hmet. simpl a_websocket_is_none. rewrite negb_involutive. apply checked_ret. }
  by rewrite andb_true_r, !andb_assoc.
Qed.

End NewClient.

(** Both delays are given: the second one is what the native client waits. *)
Definition demo_options : ClientOptions :=
  mkClientOptions "example.com" (Some 8883) (Some 1%nat) None None None None None None None None None
    (Some 1000) (Some 120000) (Some 30000) None None None None None None None None None None true None.


Example reconnect_delay_overwritten :
  (let? v := client_view_of 64 id (fun _ => SocketOptions_init) (args_of demo_options 1 0 None (mkCore None None None None None None None true)) in
   Ok (cv_min_reconnect_delay_ms v, cv_min_connected_time_to_reset_reconnect_delay_ms v)) = Ok (30000, 0).
Proof. by vm_compute. Qed.
End NewClient.
