(* ===== verification/Cbor.v ===== *)
(** * awscrt/cbor.py and source/cbor.c: CBOR encoding of Python values

    - [NativeCbor]: the interface of the element codec of aws-c-common, which
      writes and reads one CBOR element at a time;
    - [Encoder]: the typed writers of [AwsCborEncoder] and the recursive
      [write_data_item];
    - [Decoder]: the typed readers and the recursive [pop_next_data_item], with
      its limit on nesting;
    - [CborSpec]: the two are inverse to each other, and the decoder's
      behaviour at the limit. *)
From S2P Require Import Prelude PyData Exports Future.

Module AwsCborType.
Inductive AwsCborType :=
  | Unknown
  | UnsignedInt
  | NegativeInt
  | Float
  | Bytes
  | Text
  | ArrayStart
  | MapStart
  | Tag
  | Bool
  | Null
  | Undefined
  | Break
  | IndefBytes
  | IndefStr
  | IndefArray
  | IndefMap.
Definition AwsCborType_value (e : AwsCborType) : Z :=
  match e with
  | Unknown => 0
  | UnsignedInt => 1
  | NegativeInt => 2
  | Float => 3
  | Bytes => 4
  | Text => 5
  | ArrayStart => 6
  | MapStart => 7
  | Tag => 8
  | Bool => 9
  | Null => 10
  | Undefined => 11
  | Break => 12
  | IndefBytes => 13
  | IndefStr => 14
  | IndefArray => 15
  | IndefMap => 16
  end.
#[global] Instance AwsCborType_eq_dec : EqDecision AwsCborType.
Proof. solve_decision. Defined.
#[global] Instance AwsCborType_IntEnum : IntEnum AwsCborType.
Proof.
  refine {| enum_value := AwsCborType_value; enum_members := [Unknown; UnsignedInt; NegativeInt; Float; Bytes; Text; ArrayStart; MapStart; Tag; Bool; Null; Undefined; Break; IndefBytes; IndefStr; IndefArray; IndefMap] |}.
  - solve_enum_complete.
  - solve_enum_nodup.
Defined.
End AwsCborType.
Abbreviation AwsCborType := AwsCborType.AwsCborType.

(** ** Python values and CBOR elements *)

#[local] Set Warnings "-register-all".

(** Python objects the codec distinguishes, by exact type; floats are abstract.
    A [str] is given by its UTF-8 bytes. *)
Inductive pyval (F : Type) :=
  | VNone
  | VBool (b : bool)
  | VInt (z : Z)
  | VFloat (f : F)
  | VBytes (b : string)
  | VText (s : string)
  | VList (l : list (pyval F))
  | VDict (d : list (pyval F * pyval F))
  | VOther (tag : Z).
Arguments VNone {F}.
Arguments VBool {F} b.
Arguments VInt {F} z.
Arguments VFloat {F} f.
Arguments VBytes {F} b.
Arguments VText {F} s.
Arguments VList {F} l.
Arguments VDict {F} d.
Arguments VOther {F} tag.

(** Induction that reaches the elements of lists and dicts. *)
Section PyvalInd.
Context {F : Type} (P : pyval F -> Prop).
Hypothesis (Hnone : P VNone) (Hbool : forall b, P (VBool b)) (Hint : forall z, P (VInt z))
  (Hfloat : forall f, P (VFloat f)) (Hbytes : forall b, P (VBytes b)) (Htext : forall s, P (VText s))
  (Hlist : forall l, Forall P l -> P (VList l))
  (Hdict : forall d, Forall (fun kv => P kv.1 /\ P kv.2) d -> P (VDict d))
  (Hother : forall t, P (VOther t)).

Fixpoint pyval_ind' (v : pyval F) : P v :=
  match v with
  | VNone => Hnone
  | VBool b => Hbool b
  | VInt z => Hint z
  | VFloat f => Hfloat f
  | VBytes b => Hbytes b
  | VText s => Htext s
  | VList l => Hlist l (list_ind (Forall P) (Forall_nil_2 P) (fun x l IH => Forall_cons_2 P x l (pyval_ind' x) IH) l)
  | VDict d => Hdict d (list_ind (Forall (fun kv => P kv.1 /\ P kv.2)) (Forall_nil_2 _)
      (fun '(k, v) d IH => Forall_cons_2 (fun kv => P kv.1 /\ P kv.2) (k, v) d (conj (pyval_ind' k) (pyval_ind' v)) IH) d)
  | VOther t => Hother t
  end.
End PyvalInd.

(** CBOR elements: heads with their argument, strings, simple values. *)
Inductive token (F : Type) :=
  | TUint (z : Z)
  | TNegint (z : Z)
  | TFloat (f : F)
  | TBytes (b : string)
  | TText (s : string)
  | TArray (n : Z)
  | TMap (n : Z)
  | TTag (n : Z)
  | TBool (b : bool)
  | TNull
  | TUndefined
  | TBreak
  | TIndefBytes
  | TIndefStr
  | TIndefArray
  | TIndefMap.
Arguments TUint {F} z.
Arguments TNegint {F} z.
Arguments TFloat {F} f.
Arguments TBytes {F} b.
Arguments TText {F} s.
Arguments TArray {F} n.
Arguments TMap {F} n.
Arguments TTag {F} n.
Arguments TBool {F} b.
Arguments TNull {F}.
Arguments TUndefined {F}.
Arguments TBreak {F}.
Arguments TIndefBytes {F}.
Arguments TIndefStr {F}.
Arguments TIndefArray {F}.
Arguments TIndefMap {F}.

Definition token_type {F} (t : token F) : AwsCborType :=
  match t with
  | TUint _ => AwsCborType.UnsignedInt
  | TNegint _ => AwsCborType.NegativeInt
  | TFloat _ => AwsCborType.Float
  | TBytes _ => AwsCborType.Bytes
  | TText _ => AwsCborType.Text
  | TArray _ => AwsCborType.ArrayStart
  | TMap _ => AwsCborType.MapStart
  | TTag _ => AwsCborType.Tag
  | TBool _ => AwsCborType.Bool
  | TNull => AwsCborType.Null
  | TUndefined => AwsCborType.Undefined
  | TBreak => AwsCborType.Break
  | TIndefBytes => AwsCborType.IndefBytes
  | TIndefStr => AwsCborType.IndefStr
  | TIndefArray => AwsCborType.IndefArray
  | TIndefMap => AwsCborType.IndefMap
  end.

Definition u64 (z : Z) : bool := (0 <=? z) && (z <? 2 ^ 64).

(** Arguments of heads are 64-bit. *)
Definition token_ok {F} (t : token F) : bool :=
  match t with
  | TUint z | TNegint z | TArray z | TMap z | TTag z => u64 z
  | _ => true
  end.

(** The number an element stands for. *)
Definition number {F} (t : token F) : option (pyval F) :=
  match t with
  | TUint z => Some (VInt z)
  | TNegint z => Some (VInt (-1 - z))
  | TFloat f => Some (VFloat f)
  | _ => None
  end.

(** *** The element codec of aws-c-common

    A is the type of bytes. One element is written at a time and read back;
    a float is written as the smallest element that loses no precision, which
    may be an integer. *)
Class NativeCbor (A F : Type) := {
  enc : token F -> list A;
  float_token : F -> token F;
  dec : list A -> option (token F * list A);
  CBOR_INVALID : py_exn;                       (** AWS_ERROR_INVALID_CBOR *)
  CBOR_UNEXPECTED_TYPE : py_exn;               (** AWS_ERROR_CBOR_UNEXPECTED_TYPE *)
  dec_enc : forall t r, token_ok t = true -> dec (enc t ++ r) = Some (t, r);
  dec_suffix : forall s t r, dec s = Some (t, r) -> exists p, p <> [] /\ s = p ++ r;
  dec_ok : forall s t r, dec s = Some (t, r) -> token_ok t = true;
  float_token_number : forall f, is_Some (number (float_token f));
  float_token_ok : forall f, token_ok (float_token f) = true;
}.

(** ** The encoder *)
Module Encoder.
Section Encoder.
Context {A F : Type} `{NativeCbor A F}.
(** The width of the C type [long]: 64, or 32 on Windows. *)
Variable long_bits : Z.
(** [str] objects that can be encoded as UTF-8 (no lone surrogates). *)
Variable utf8_ok : string -> bool.

(** The state is what has been written so far. *)
Definition put (t : token F) : M (list A) unit := modify (fun s => s ++ enc t).

(** [reset]: the extension module has no such function. [get_encoded_data]. *)
Definition reset : M (list A) unit := lift (Exports.native_attribute "cbor_encoder_reset").
Definition get_encoded_data : M (list A) (list A) := gets (fun s => s).

(** [PyLong_AsUnsignedLongLong] in S_ENCODER_WRITE_PYOBJECT *)
Definition as_u64 (z : Z) : result Z :=
  if u64 z then Ok z else Raise (TypeError "Failed to convert Python object to uint64_t").

Definition write_uint (z : Z) : M (list A) unit := let! z := lift (as_u64 z) in put (TUint z).
Definition write_negint (z : Z) : M (list A) unit := let! z := lift (as_u64 z) in put (TNegint z).

(** [AwsCborEncoder.write_int] *)
Definition write_int (val : Z) : M (list A) unit :=
  if val >=? 0 then write_uint val else write_negint (-1 - val).

(** [write_array_start], [write_map_start] and [write_tag], by their element *)
Definition write_start (head : Z -> token F) (number_entries : Z) : M (list A) unit :=
  if (number_entries <? 0) || (number_entries >? 2 ^ 64) then raise (ValueError "must be between 0 and 2^64")
  else let! z := lift (as_u64 number_entries) in put (head z).
Definition write_array_start := write_start TArray.
Definition write_map_start := write_start TMap.
Definition write_tag := write_start TTag.

Definition write_float (f : F) : M (list A) unit := modify (fun s => s ++ enc (float_token f)).
Definition write_bytes (b : string) : M (list A) unit := put (TBytes b).
Definition write_text (s : string) : M (list A) unit :=
  if utf8_ok s then put (TText s) else raise (TypeError "Failed to convert Python object to aws_byte_cursor").
Definition write_bool (b : bool) : M (list A) unit := put (TBool b).
Definition write_epoch_time (f : F) : M (list A) unit := do! put (TTag 1); write_float f.

(** [aws_py_cbor_encoder_write_simple_types] *)
Definition write_simple_types (t : AwsCborType) : M (list A) unit :=
  match t with
  | AwsCborType.Null => put TNull
  | AwsCborType.Undefined => put TUndefined
  | AwsCborType.IndefArray => put TIndefArray
  | AwsCborType.IndefMap => put TIndefMap
  | AwsCborType.IndefBytes => put TIndefBytes
  | AwsCborType.IndefStr => put TIndefStr
  | AwsCborType.Break => put TBreak
  | _ => raise (ValueError "Not supported simple type")
  end.

(** [s_cbor_encoder_write_pylong]: the two's complement arithmetic of [long]
    and [uint64_t]; C leaves [-val] undefined for the least [long], what the
    usual hardware computes is written out. *)
Definition wrap_long (z : Z) : Z :=
  (z + 2 ^ (long_bits - 1)) mod 2 ^ long_bits - 2 ^ (long_bits - 1).
Definition write_pylong (z : Z) : M (list A) unit :=
  if (- 2 ^ (long_bits - 1) <=? z) && (z <? 2 ^ (long_bits - 1)) then
    if 0 <=? z then put (TUint z)
    else put (TNegint ((wrap_long (- z) mod 2 ^ 64 - 1) mod 2 ^ 64))
  else if z <? 0 then
    if u64 (- z - 1) then put (TNegint (- z - 1))
    else raise (OverflowError "The integer is too large, BigNumber is not supported yet.")
  else
    if u64 z then put (TUint z)
    else raise (OverflowError "The integer is too large, BigNumber is not supported yet.").

(** [s_cbor_encoder_write_pyobject], [..._pylist], [..._pydict] *)
Fixpoint write_data_item (v : pyval F) : M (list A) unit :=
  match v with
  | VNone => put TNull
  | VInt z => write_pylong z
  | VFloat f => write_float f
  | VBool b => write_bool b
  | VBytes b => write_bytes b
  | VText s => write_text s
  | VList l =>
      do! put (TArray (Z.of_nat (length l)));
      (fix items (l : list (pyval F)) : M (list A) unit :=
         match l with
         | [] => ret tt
         | x :: l => do! write_data_item x; items l
         end) l
  | VDict d =>
      do! put (TMap (Z.of_nat (length d)));
      (fix pairs (d : list (pyval F * pyval F)) : M (list A) unit :=
         match d with
         | [] => ret tt
         | (k, v) :: d => do! (do! write_data_item k; write_data_item v); pairs d
         end) d
  | VOther _ => raise (ValueError "Not supported type")
  end.
Definition write_list (l : list (pyval F)) : M (list A) unit := write_data_item (VList l).
Definition write_dict (d : list (pyval F * pyval F)) : M (list A) unit := write_data_item (VDict d).
End Encoder.
End Encoder.

(** ** The decoder *)

(** A call returns or raises, with the input that is left, or has undefined
    behaviour in C: a null pointer is dereferenced or a reference released
    that is not owned. *)
Inductive answer (A X : Type) :=
  | Normal (r : result X) (rest : list A)
  | Undefined_.
Arguments Normal {A X} r rest.
Arguments Undefined_ {A X}.

Module Decoder.
Section Decoder.
Context {A F : Type} `{NativeCbor A F}.
(** UTF-8 validity of a text element; whether a list of a given size can be
    allocated; Python's equality of dict keys. *)
Variable utf8_ok : string -> bool.
Variable can_allocate : Z -> bool.
Variable py_eq : pyval F -> pyval F -> bool.
(** The callback [on_epoch_time]. *)
Variable on_epoch_time : option (pyval F -> result (pyval F)).

Definition D (X : Type) : Type := list A -> answer A X.
Definition dret {X} (x : X) : D X := fun s => Normal (Ok x) s.
Definition draise {X} (e : py_exn) : D X := fun s => Normal (Raise e) s.
Definition dbind {X Y} (m : D X) (k : X -> D Y) : D Y := fun s =>
  match m s with
  | Normal (Ok x) s' => k x s'
  | Normal (Raise e) s' => Normal (Raise e) s'
  | Undefined_ => Undefined_
  end.

(** [aws_cbor_decoder_peek_type] and [..._consume_next_single_element]; a
    malformed element leaves the input as it is. *)
Definition peek : D (token F) := fun s =>
  match dec s with
  | Some (t, _) => Normal (Ok t) s
  | None => Normal (Raise CBOR_INVALID) s
  end.
Definition consume : D unit := fun s =>
  match dec s with
  | Some (_, r) => Normal (Ok tt) r
  | None => Normal (Raise CBOR_INVALID) s
  end.

(** [peek_next_type] of the Python class *)
Definition peek_next_type : D AwsCborType := dbind peek (fun t =>
  match enum_of (enum_value (token_type t)) with
  | Some ty => dret ty
  | None => draise (ValueError "not a valid AwsCborType")
  end).

(** The typed readers [aws_cbor_decoder_pop_next_...]: an element of another
    type stays in the input. *)
Definition pop_as {X} (sel : token F -> option X) : D X := fun s =>
  match dec s with
  | Some (t, r) => match sel t with
                   | Some x => Normal (Ok x) r
                   | None => Normal (Raise CBOR_UNEXPECTED_TYPE) s
                   end
  | None => Normal (Raise CBOR_INVALID) s
  end.
Definition pop_next_unsigned_int := pop_as (fun t => match t with TUint z => Some z | _ => None end).
Definition pop_negative := pop_as (fun t => match t with TNegint z => Some z | _ => None end).
(** [AwsCborDecoder.pop_next_negative_int] *)
Definition pop_next_negative_int : D Z := dbind pop_negative (fun z => dret (-1 - z)).
Definition pop_next_double := pop_as (fun t => match t with TFloat f => Some f | _ => None end).
Definition pop_next_bool := pop_as (fun t => match t with TBool b => Some b | _ => None end).
Definition pop_next_bytes := pop_as (fun t => match t with TBytes b => Some b | _ => None end).
Definition pop_next_text : D string :=
  dbind (pop_as (fun t => match t with TText s => Some s | _ => None end)) (fun s =>
    if utf8_ok s then dret s else draise (BuiltinError "UnicodeDecodeError")).
Definition pop_next_array_start := pop_as (fun t => match t with TArray n => Some n | _ => None end).
Definition pop_next_map_start := pop_as (fun t => match t with TMap n => Some n | _ => None end).
Definition pop_next_tag_val := pop_as (fun t => match t with TTag n => Some n | _ => None end).

(** [get_remaining_bytes] of the Python class, on the native count of bytes
    that are left. *)
Definition get_remaining_bytes (src : list A) (remaining_length : Z) : list A :=
  if remaining_length <=? 0 then []
  else
    let start_idx := Z.of_nat (length src) - remaining_length in
    (* a negative start counts from the end *)
    drop (Z.to_nat (if start_idx <? 0 then start_idx + Z.of_nat (length src) else start_idx)) src.

Definition PY_SSIZE_T_MAX : Z := 2 ^ 63 - 1.

(** [PyDict_SetItem]: lists and dicts cannot be keys; an equal key stays and
    gets the new value. *)
Definition hashable (v : pyval F) : bool := match v with VList _ | VDict _ => false | _ => true end.
Fixpoint dict_insert (d : list (pyval F * pyval F)) (k v : pyval F) : list (pyval F * pyval F) :=
  match d with
  | [] => [(k, v)]
  | (k', v') :: d => if py_eq k' k then (k', v) :: d else (k', v') :: dict_insert d k v
  end.
Definition set_item (d : list (pyval F * pyval F)) (k v : pyval F) : D (list (pyval F * pyval F)) :=
  if hashable k then dret (dict_insert d k v) else draise (TypeError "unhashable type").

(** The loops of the list and dict readers; [item] reads one data item. *)
Fixpoint items (n : nat) (item : D (pyval F)) : D (list (pyval F)) :=
  match n with
  | O => dret []
  | S n => dbind item (fun x => dbind (items n item) (fun l => dret (x :: l)))
  end.

(** Key and value are both read, even when the key fails; the exception of the
    key stays the one raised. *)
Definition pair (item : D (pyval F)) (d : list (pyval F * pyval F)) : D (list (pyval F * pyval F)) := fun s =>
  match item s with
  | Undefined_ => Undefined_
  | Normal key s1 =>
      match item s1 with
      | Undefined_ => Undefined_
      | Normal value s2 =>
          match key, value with
          | Ok k, Ok v => set_item d k v s2
          | _, Raise e => Normal (Raise e) s2
          | Raise e, Ok _ => Normal (Raise e) s2
          end
      end
  end.
Fixpoint pairs (n : nat) (item : D (pyval F)) (d : list (pyval F * pyval F)) : D (list (pyval F * pyval F)) :=
  match n with
  | O => dret d
  | S n => dbind (pair item d) (pairs n item)
  end.

(** [while (out_type != BREAK)]: read parts until the break, and consume it.
    [truncated] is what a failing peek leads to; [fuel] bounds the number of
    parts. *)
Fixpoint until_break {X} (fuel : nat) (truncated : D X) (part : X -> D X) (x : X) : D X := fun s =>
  match dec s with
  | None => truncated s
  | Some (TBreak, r) => Normal (Ok x) r
  | Some _ =>
      match fuel with
      | O => Normal (Raise CBOR_INVALID) s
      | S fuel => dbind (part x) (until_break fuel truncated part) s
      end
  end.
(** Each part takes at least one byte, so the length of the input is enough. *)
Definition loop {X} (truncated : D X) (part : X -> D X) (x : X) : D X := fun s =>
  until_break (length s) truncated part x s.
(** The loops over arrays and maps do not look at the outcome of the first
    peek: a malformed input goes on to the first part. *)
Definition loop_unchecked {X} (truncated : D X) (part : X -> D X) (x : X) : D X := fun s =>
  match dec s with None => part x s | Some _ => loop truncated part x s end.

(** [s_cbor_decoder_pop_next_data_item_to_py_list] and [..._to_py_dict]. When an
    indefinite map ends without a break after some pair, the last key and value
    are released a second time. *)
Definition pop_list (item : D (pyval F)) : D (pyval F) :=
  dbind peek (fun t =>
    match t with
    | TArray n =>
        dbind consume (fun _ =>
        if n >? PY_SSIZE_T_MAX then draise (OverflowError "number of array is too large to fit.")
        else if negb (can_allocate n) then draise (BuiltinError "MemoryError")
        else dbind (items (Z.to_nat n) item) (fun l => dret (VList l)))
    | TIndefArray =>
        dbind consume (fun _ =>
        dbind (loop_unchecked (draise CBOR_INVALID) (fun l => dbind item (fun x => dret (l ++ [x]))) [])
          (fun l => dret (VList l)))
    | _ => draise CBOR_UNEXPECTED_TYPE
    end).
Definition pop_map (item : D (pyval F)) : D (pyval F) :=
  dbind peek (fun t =>
    match t with
    | TMap n =>
        dbind consume (fun _ =>
        if n >? PY_SSIZE_T_MAX then draise (OverflowError "number of dict is too large to fit.")
        else dbind (pairs (Z.to_nat n) item []) (fun d => dret (VDict d)))
    | TIndefMap =>
        dbind consume (fun _ =>
        dbind (loop_unchecked (fun _ => Undefined_) (pair item) []) (fun d => dret (VDict d)))
    | _ => draise CBOR_UNEXPECTED_TYPE
    end).

(** [s_cbor_decoder_pop_next_inf_bytes_to_py_bytes], [..._inf_string_to_py_str] *)
Definition pop_inf_bytes : D (pyval F) :=
  dbind consume (fun _ =>
  dbind (loop (draise CBOR_INVALID) (fun b => dbind pop_next_bytes (fun p => dret (String.append b p))) EmptyString)
    (fun b => dret (VBytes b))).
Definition pop_inf_text : D (pyval F) :=
  dbind consume (fun _ =>
  dbind (loop (draise CBOR_INVALID) (fun b => dbind pop_next_text (fun p => dret (String.append b p))) EmptyString)
    (fun b => dret (VText b))).

(** [AwsCborDecoder._on_epoch_time_callback] *)
Definition _on_epoch_time_callback (epoch_secs : pyval F) : result (pyval F) :=
  match on_epoch_time with Some f => f epoch_secs | None => Ok epoch_secs end.

(** [s_cbor_decoder_pop_next_tag_to_pyobject]: the value is used and released
    without a check for NULL. *)
Definition pop_tag (item : D (pyval F)) : D (pyval F) :=
  dbind pop_next_tag_val (fun tag =>
    if tag =? 1 then
      dbind peek (fun t =>
        match number t with
        | Some _ => fun s =>
            match item s with
            | Normal (Ok v) s' => Normal (_on_epoch_time_callback v) s'
            | Normal (Raise _) _ | Undefined_ => Undefined_
            end
        | None => draise CBOR_UNEXPECTED_TYPE
        end)
    else draise (ValueError "Unsupported tag value")).

(** [s_cbor_decoder_pop_next_data_item_to_pyobject]; [levels] is what is left of
    the 128 levels. *)
Fixpoint pop_item (levels : nat) : D (pyval F) :=
  match levels with
  | O => draise RecursionError
  | S levels =>
      dbind peek (fun t =>
        match t with
        | TUint _ => dbind pop_next_unsigned_int (fun z => dret (VInt z))
        | TNegint _ => dbind pop_negative (fun z => dret (VInt (-1 - z)))
        | TFloat _ => dbind pop_next_double (fun f => dret (VFloat f))
        | TBytes _ => dbind pop_next_bytes (fun b => dret (VBytes b))
        | TText _ => dbind pop_next_text (fun s => dret (VText s))
        | TBool _ => dbind pop_next_bool (fun b => dret (VBool b))
        | TNull | TUndefined => dbind consume (fun _ => dret VNone)
        | TMap _ | TIndefMap => pop_map (pop_item levels)
        | TArray _ | TIndefArray => pop_list (pop_item levels)
        | TIndefBytes => pop_inf_bytes
        | TIndefStr => pop_inf_text
        | TTag _ => pop_tag (pop_item levels)
        | TBreak => draise CBOR_UNEXPECTED_TYPE
        end)
  end.

Definition s_cbor_max_decode_depth : nat := 128.
Definition pop_next_data_item : D (pyval F) := pop_item s_cbor_max_decode_depth.
Definition pop_next_list : D (pyval F) := pop_list (pop_item s_cbor_max_decode_depth).
Definition pop_next_map : D (pyval F) := pop_map (pop_item s_cbor_max_decode_depth).
End Decoder.
End Decoder.

(** ** What they promise *)
Module CborSpec.
Import Encoder Decoder.
Section CborSpec.
Context {A F : Type} `{NativeCbor A F}.
Variable long_bits : Z.
Variable utf8_ok : string -> bool.
Variable can_allocate : Z -> bool.
Variable py_eq : pyval F -> pyval F -> bool.
Variable on_epoch_time : option (pyval F -> result (pyval F)).
Hypothesis Hlong : long_bits = 32 \/ long_bits = 64.

#[local] Abbreviation write := (write_data_item long_bits utf8_ok).
#[local] Abbreviation pop := (pop_item utf8_ok can_allocate py_eq on_epoch_time).

(** Integers the encoder writes correctly: the 64-bit CBOR range; where [long]
    has 32 bits, its least value is not one of them. *)
Definition int_ok (z : Z) : bool :=
  (- 2 ^ 64 <=? z) && (z <? 2 ^ 64) && ((long_bits =? 64) || negb (z =? - 2 ^ (long_bits - 1))).

(** Values that can be written and read back: supported types, lists that fit
    in memory, and dicts as Python builds them, with hashable and pairwise
    unequal keys. *)
Fixpoint distinct (ks : list (pyval F)) : bool :=
  match ks with
  | [] => true
  | k :: ks => forallb (fun k' => negb (py_eq k k')) ks && distinct ks
  end.
Definition size_ok (n : nat) : bool := (Z.of_nat n <=? PY_SSIZE_T_MAX) && can_allocate (Z.of_nat n).
Fixpoint storable (v : pyval F) : bool :=
  match v with
  | VNone | VBool _ | VFloat _ | VBytes _ => true
  | VInt z => int_ok z
  | VText s => utf8_ok s
  | VList l => size_ok (length l) && forallb storable l
  | VDict d => size_ok (length d) && forallb (fun '(k, v) => storable k && storable v) d &&
               forallb hashable (map fst d) && distinct (map fst d)
  | VOther _ => false
  end.

(** Levels of nesting, 1 for a scalar. *)
Fixpoint depth (v : pyval F) : nat :=
  match v with
  | VList l => S (list_max (map depth l))
  | VDict d => S (list_max (map (fun '(k, v) => Nat.max (depth k) (depth v)) d))
  | _ => 1
  end.

(** The encoding of a value, element by element. *)
Fixpoint enc_val (v : pyval F) : list A :=
  match v with
  | VNone => enc TNull
  | VBool b => enc (TBool b)
  | VInt z => enc (if 0 <=? z then TUint z else TNegint (-1 - z))
  | VFloat f => enc (float_token f)
  | VBytes b => enc (TBytes b)
  | VText s => enc (TText s)
  | VList l => enc (TArray (Z.of_nat (length l))) ++ flat_map enc_val l
  | VDict d => enc (TMap (Z.of_nat (length d))) ++ flat_map (fun '(k, v) => enc_val k ++ enc_val v) d
  | VOther _ => []
  end.

(** The value that is read back: a float comes back as the number its smallest
    encoding stands for. *)
Fixpoint norm (v : pyval F) : pyval F :=
  match v with
  | VFloat f => default v (number (float_token f))
  | VList l => VList (map norm l)
  | VDict d => VDict (map (fun '(k, v) => (norm k, norm v)) d)
  | _ => v
  end.

(** *** Encoding *)

Lemma wrap_small y : - 2 ^ (long_bits - 1) <= y < 2 ^ (long_bits - 1) -> wrap_long long_bits y = y.
Proof. unfold wrap_long. destruct Hlong as [-> | ->]; simpl Z.sub; intros Hy; rewrite Z.mod_small by lia; lia. Qed.

(** [(uint64_t)(-val) - 1] is [-1 - val], the least 64-bit [long] included. *)
Lemma negint_arg z : - 2 ^ (long_bits - 1) <= z < 0 -> int_ok z = true ->
  (wrap_long long_bits (- z) mod 2 ^ 64 - 1) mod 2 ^ 64 = -1 - z.
Proof.
  unfold int_ok. intros Hz Hi. destruct (decide (z = - 2 ^ (long_bits - 1))) as [->|Hn].
  - destruct Hlong as [-> | ->]; [simpl in Hi; lia | by vm_compute].
  - rewrite wrap_small by lia. destruct Hlong as [-> | ->]; simpl Z.sub in *;
      rewrite (Z.mod_small (- z)), Z.mod_small by lia; lia.
Qed.

Lemma write_pylong_ok z s : int_ok z = true ->
  write_pylong long_bits z s = (Ok tt, s ++ enc (if 0 <=? z then TUint z else TNegint (-1 - z))).
Proof.
  intros Hz. pose proof Hz as Hr. unfold int_ok in Hr. unfold write_pylong, put, modify, u64.
  destruct (Z.leb_spec 0 z).
  - replace (z <? 0) with false by lia. replace (z <? 2 ^ 64) with true by lia.
    simpl. by case_match.
  - replace (z <? 0) with true by lia. case_match.
    + by rewrite negint_arg by (done || lia).
    + replace ((0 <=? - z - 1) && (- z - 1 <? 2 ^ 64)) with true by lia. do 4 f_equal. lia.
Qed.

Lemma write_enc v s : storable v = true -> write v s = (Ok tt, s ++ enc_val v).
Proof.
  revert s. induction v as [|b|z|f|b|t|l IH|d IH|t] using pyval_ind'; intros s Hv; simpl in *; try done.
  - by apply write_pylong_ok.
  - unfold write_text. by rewrite Hv.
  - apply andb_prop in Hv as [_ Hv]. unfold bind, put at 1, modify.
    rewrite app_assoc. generalize (s ++ enc (TArray (Z.of_nat (length l)))). clear s.
    induction IH as [|x l Hx _ IHl]; intros s; simpl in *; [by rewrite app_nil_r|].
    apply andb_prop in Hv as [H1 H2]. unfold bind. rewrite Hx, IHl by done. by rewrite app_assoc.
  - apply andb_prop in Hv as [Hv _]. apply andb_prop in Hv as [Hv _]. apply andb_prop in Hv as [_ Hv].
    unfold bind, put at 1, modify.
    rewrite app_assoc. generalize (s ++ enc (TMap (Z.of_nat (length d)))). clear s.
    induction IH as [|[k x] d [Hk Hx] _ IHd]; intros s; simpl in *; [by rewrite app_nil_r|].
    apply andb_prop in Hv as [H1 H2]. apply andb_prop in H1 as [H0 H1].
    unfold bind. rewrite Hk, Hx by done. unfold bind in IHd. rewrite IHd by done. by rewrite !app_assoc.
Qed.

(** *** Decoding what was encoded *)

Lemma dec_app t r : token_ok t = true -> dec (enc t ++ r) = Some (t, r).
Proof. apply dec_enc. Qed.

(** Either the value is read back or it is too deep for the levels left. *)
Definition read_back {X} (ok : bool) (a : answer A X) (x : X) (rest : list A) : Prop :=
  if ok then a = Normal (Ok x) rest else exists s, a = Normal (Raise RecursionError) s.

Definition pops (n : nat) (v : pyval F) : Prop :=
  storable v = true -> forall rest, read_back (depth v <=? n)%nat (pop n (enc_val v ++ rest)) (norm v) rest.

Lemma depth_pos v : (1 <= depth v)%nat.
Proof. destruct v; simpl; lia. Qed.

Lemma pops_0 v : pops 0 v.
Proof.
  intros _ rest. unfold read_back. pose proof (depth_pos v).
  destruct (Nat.leb_spec (depth v) 0); [lia|]. simpl. by eexists.
Qed.

Lemma pop_token n t rest : token_ok t = true ->
  pop (S n) (enc t ++ rest) =
  match t with
  | TUint z => Normal (Ok (VInt z)) rest
  | TNegint z => Normal (Ok (VInt (-1 - z))) rest
  | TFloat f => Normal (Ok (VFloat f)) rest
  | TBytes b => Normal (Ok (VBytes b)) rest
  | TText s => if utf8_ok s then Normal (Ok (VText s)) rest
               else Normal (Raise (BuiltinError "UnicodeDecodeError")) rest
  | TBool b => Normal (Ok (VBool b)) rest
  | TNull | TUndefined => Normal (Ok VNone) rest
  | _ => pop (S n) (enc t ++ rest)
  end.
Proof.
  intros Ht. destruct t; try done; simpl; unfold dbind, peek; rewrite dec_app by done; simpl;
    rewrite ?dec_app by done; try done;
    unfold pop_next_unsigned_int, pop_negative, pop_next_double, pop_next_bytes, pop_next_text, pop_next_bool,
      pop_as, consume, dbind; rewrite dec_app by done; try done.
  by destruct (utf8_ok s).
Qed.

Lemma pop_number t v n rest : token_ok t = true -> number t = Some v ->
  pop (S n) (enc t ++ rest) = Normal (Ok v) rest.
Proof. intros Ht Hv. rewrite pop_token by done. by destruct t; simplify_eq/=. Qed.

Lemma leb_max a b n : (Nat.max a b <=? n)%nat = (a <=? n)%nat && (b <=? n)%nat.
Proof. destruct (Nat.leb_spec a n), (Nat.leb_spec b n), (Nat.leb_spec (Nat.max a b) n); simpl; lia. Qed.

Lemma items_enc n l rest : Forall (pops n) l -> forallb storable l = true ->
  read_back (list_max (map depth l) <=? n)%nat (items (length l) (pop n) (flat_map enc_val l ++ rest))
    (map norm l) rest.
Proof.
  induction 1 as [|x l Hx _ IH] in rest |- *; intros Hs; simpl in *; [done|].
  apply andb_prop in Hs as [Hsx Hs]. specialize (Hx Hsx (flat_map enc_val l ++ rest)).
  specialize (IH rest Hs). rewrite <- app_assoc. unfold read_back, dbind in *.
  rewrite leb_max. destruct (depth x <=? n)%nat; simpl.
  - rewrite Hx. destruct (list_max (map depth l) <=? n)%nat; [by rewrite IH|].
    destruct IH as [s ->]. by eexists.
  - destruct Hx as [s ->]. by eexists.
Qed.

Lemma dict_insert_fresh d k v :
  Forall (fun kv => py_eq kv.1 k = false) d -> dict_insert py_eq d k v = d ++ [(k, v)].
Proof. induction 1 as [|[k' v'] d Hk _ IH]; simpl in *; [done|]. by rewrite Hk, IH. Qed.

Lemma hashable_norm k : hashable (norm k) = hashable k.
Proof. destruct k; try done. simpl. destruct (float_token f); done. Qed.

Lemma hashable_depth k : hashable k = true -> depth k = 1%nat.
Proof. by destruct k. Qed.

(** Python's comparison does not see the difference [norm] makes. *)
Hypothesis py_eq_norm : forall a b, py_eq (norm a) (norm b) = py_eq a b.

Definition norm_pair (kv : pyval F * pyval F) : pyval F * pyval F := (norm kv.1, norm kv.2).

Lemma pairs_enc n d acc rest :
  Forall (fun kv => pops n kv.1 /\ pops n kv.2) d ->
  forallb (fun '(k, v) => storable k && storable v) d = true ->
  forallb hashable (map fst d) = true -> distinct (map fst d) = true ->
  Forall (fun kv => Forall (fun k => py_eq kv.1 k = false) (map fst d)) acc ->
  read_back (list_max (map (fun '(k, v) => Nat.max (depth k) (depth v)) d) <=? n)%nat
    (pairs py_eq (length d) (pop n) (map norm_pair acc) (flat_map (fun '(k, v) => enc_val k ++ enc_val v) d ++ rest))
    (map norm_pair (acc ++ d)) rest.
Proof.
  induction d as [|[k v] d IH] in acc, rest |- *; simpl; intros Hp Hs Hh Hd Ha; [by rewrite app_nil_r|].
  apply Forall_cons in Hp as [[Hk Hv] Hp]. simpl in Hk, Hv.
  apply andb_prop in Hs as [Hs1 Hs]. apply andb_prop in Hs1 as [Hsk Hsv].
  apply andb_prop in Hh as [Hhk Hh]. apply andb_prop in Hd as [Hdk Hd].
  set (tail := flat_map (fun '(k, v) => enc_val k ++ enc_val v) d ++ rest).
  specialize (Hk Hsk (enc_val v ++ tail)). specialize (Hv Hsv tail).
  rewrite hashable_depth in * by done. rewrite <- !app_assoc. fold tail.
  unfold read_back, dbind, pair in *. rewrite !leb_max. destruct (Nat.leb_spec 1 n) as [Hn|Hn]; simpl.
  - rewrite Hk. destruct (depth v <=? n)%nat; simpl; [|destruct Hv as [s ->]; by eexists].
    rewrite Hv. unfold set_item. rewrite hashable_norm, Hhk.
    rewrite dict_insert_fresh; last first.
    { apply Forall_map. eapply Forall_impl; [exact Ha|]. intros [k' v'] Hx. simpl in *.
      apply Forall_cons in Hx as [Hx _]. by rewrite py_eq_norm. }
    unfold dret. specialize (IH (acc ++ [(k, v)]) rest Hp Hs Hh Hd).
    rewrite map_app, <- app_assoc in IH. simpl in IH. apply IH. apply Forall_app. split.
    + eapply Forall_impl; [exact Ha|]. intros kv Hx. by apply Forall_cons in Hx as [_ Hx].
    + repeat constructor. simpl. apply Forall_forall. intros k' Hin. rewrite forallb_forall in Hdk.
      apply list_elem_of_In, Hdk in Hin. by destruct (py_eq k k').
  - assert (n = 0%nat) as -> by lia. simpl. by eexists.
Qed.

Lemma u64_of_nat n : (n <= Z.to_nat PY_SSIZE_T_MAX)%nat -> u64 (Z.of_nat n) = true.
Proof. unfold u64, PY_SSIZE_T_MAX. intros Hn. destruct (Z.leb_spec 0 (Z.of_nat n)), (Z.ltb_spec (Z.of_nat n) (2 ^ 64)); simpl; lia. Qed.

Lemma size_ok_inv n : size_ok n = true ->
  u64 (Z.of_nat n) = true /\ (Z.of_nat n >? PY_SSIZE_T_MAX) = false /\ can_allocate (Z.of_nat n) = true.
Proof.
  unfold size_ok. intros [Hn Ha]%andb_prop. apply Z.leb_le in Hn. split_and!; [|lia|done].
  apply u64_of_nat. lia.
Qed.

Lemma int_token_ok z : int_ok z = true -> token_ok (F:=F) (if 0 <=? z then TUint z else TNegint (-1 - z)) = true.
Proof. unfold int_ok. intros Hz. destruct (Z.leb_spec 0 z); simpl; unfold u64; lia. Qed.

Lemma pops_list n l : Forall (pops n) l -> pops (S n) (VList l).
Proof.
  intros Hl Hs rest. simpl in Hs. apply andb_prop in Hs as [Hn Hs].
  destruct (size_ok_inv _ Hn) as (Hu & Hm & Hc). pose proof (items_enc n l rest Hl Hs) as Hi.
  simpl. unfold dbind at 1, peek. rewrite <- app_assoc, dec_app by done.
  unfold pop_list, dbind at 1, peek. rewrite dec_app by done.
  unfold dbind at 1, consume. rewrite dec_app by done. rewrite Hm, Hc. simpl.
  rewrite Nat2Z.id. unfold dbind, read_back in *.
  destruct (list_max (map depth l) <=? n)%nat; [by rewrite Hi|]. destruct Hi as [s ->]. by eexists.
Qed.

Lemma pops_dict n d : Forall (fun kv => pops n kv.1 /\ pops n kv.2) d -> pops (S n) (VDict d).
Proof.
  intros Hp Hs rest. simpl in Hs.
  apply andb_prop in Hs as [Hs Hd]. apply andb_prop in Hs as [Hs Hh]. apply andb_prop in Hs as [Hn Hs].
  destruct (size_ok_inv _ Hn) as (Hu & Hm & _).
  pose proof (pairs_enc n d [] rest Hp Hs Hh Hd (Forall_nil_2 _)) as Hi. simpl in Hi.
  simpl. unfold dbind at 1, peek. rewrite <- app_assoc, dec_app by done.
  unfold pop_map, dbind at 1, peek. rewrite dec_app by done.
  unfold dbind at 1, consume. rewrite dec_app by done. rewrite Hm.
  rewrite Nat2Z.id. unfold dbind, read_back in *.
  destruct (list_max _ <=? n)%nat; [|destruct Hi as [s ->]; by eexists].
  rewrite Hi. unfold dret. do 3 f_equal. apply map_ext. by intros [k v].
Qed.

Lemma pops_all v n : pops n v.
Proof.
  revert n. induction v as [|b|z|f|b|t|l IH|d IH|t] using pyval_ind'; intros [|n]; try apply pops_0.
  all: try (apply pops_list; eapply Forall_impl; [exact IH|]; auto; fail).
  all: try (apply pops_dict; eapply Forall_impl; [exact IH|]; simpl; intros ? [? ?]; auto; fail).
  all: intros Hs rest; simpl in Hs; try done; unfold read_back; cbn [depth Nat.leb enc_val norm].
  - by rewrite pop_token.
  - by rewrite pop_token.
  - rewrite pop_token by by apply int_token_ok. destruct (Z.leb_spec 0 z); [done|]. do 3 f_equal. lia.
  - pose proof (float_token_number (A:=A) f) as [v Hv]. rewrite Hv. simpl.
    apply pop_number; [apply float_token_ok | done].
  - by rewrite pop_token.
  - rewrite pop_token by done. by rewrite Hs.
Qed.

(** C8: What the CBOR encoder writes, the decoder reads back. Every supported
    value, however it is nested out of lists and dicts, is written without an
    error and read back from any input that starts with its encoding, element
    order and dict order included, leaving exactly the rest of the input; only
    floats may come back as the integer of the same value. The one limit is
    asymmetric: the encoder nests without bound, and a value of more than 128
    levels can be written but is refused with RecursionError when read. *)
Theorem cbor_roundtrip (v : pyval F) (rest : list A) (Hv : storable v = true) :
  let '(r, encoded) := write v [] in
  r = Ok tt /\
  if (depth v <=? s_cbor_max_decode_depth)%nat
  then pop_next_data_item utf8_ok can_allocate py_eq on_epoch_time (encoded ++ rest) = Normal (Ok (norm v)) rest
  else exists s, pop_next_data_item utf8_ok can_allocate py_eq on_epoch_time (encoded ++ rest) =
                 Normal (Raise RecursionError) s.
Proof.
  rewrite (write_enc v [] Hv). split; [done|]. exact (pops_all v s_cbor_max_decode_depth Hv rest).
Qed.
(** *** Errors of the encoder *)

Fixpoint encodable (v : pyval F) : bool :=
  match v with
  | VNone | VBool _ | VFloat _ | VBytes _ => true
  | VInt z => (- 2 ^ 64 <=? z) && (z <? 2 ^ 64)
  | VText s => utf8_ok s
  | VList l => forallb encodable l
  | VDict d => forallb (fun '(k, v) => encodable k && encodable v) d
  | VOther _ => false
  end.

(** What a write does to the buffer and whether it raises. *)
Definition writes (ok : bool) (m : M (list A) unit) : Prop := forall s,
  s `prefix_of` (m s).2 /\ is_ok (m s).1 = ok /\
  (forall e, (m s).1 = Raise e -> is_Exception e = true).

Lemma writes_put t : writes true (put t).
Proof. intros s. simpl. split_and!; [by eexists|done|done]. Qed.

Lemma writes_bind b1 b2 m k : writes b1 m -> writes b2 k -> writes (b1 && b2) (bind m (fun _ => k)).
Proof.
  intros Hm Hk s. destruct (Hm s) as (H1 & H2 & H3). unfold bind.
  destruct (m s) as [[[]|e] s']; simpl in *; subst b1; [|done].
  destruct (Hk s') as (H4 & H5 & H6). split_and!; [by transitivity s'|done|done].
Qed.

Lemma writes_raise e : is_Exception e = true -> writes false (raise e).
Proof. intros He s. simpl. split_and!; [done|done|by intros ? [= ->]]. Qed.

Lemma writes_pylong z : writes ((- 2 ^ 64 <=? z) && (z <? 2 ^ 64)) (write_pylong long_bits z).
Proof.
  unfold write_pylong. destruct (_ && (z <? 2 ^ (long_bits - 1))) eqn:Er.
  - replace ((- 2 ^ 64 <=? z) && (z <? 2 ^ 64)) with true by (destruct Hlong as [-> | ->]; simpl in Er; lia).
    destruct (0 <=? z); apply writes_put.
  - unfold u64. destruct (Z.ltb_spec z 0); case_match.
    + replace ((- 2 ^ 64 <=? z) && (z <? 2 ^ 64)) with true by lia. apply writes_put.
    + replace ((- 2 ^ 64 <=? z) && (z <? 2 ^ 64)) with false by lia. by apply writes_raise.
    + replace ((- 2 ^ 64 <=? z) && (z <? 2 ^ 64)) with true by lia. apply writes_put.
    + replace ((- 2 ^ 64 <=? z) && (z <? 2 ^ 64)) with false by lia. by apply writes_raise.
Qed.

Lemma writes_data_item v : writes (encodable v) (write v).
Proof.
  induction v as [|b|z|f|b|t|l IH|d IH|t] using pyval_ind'; simpl; try apply writes_put.
  - apply writes_pylong.
  - unfold write_text. destruct (utf8_ok t); [apply writes_put|by apply writes_raise].
  - apply (writes_bind true); [apply writes_put|].
    induction IH as [|x l Hx _ IHl]; simpl; [by intros s|]. by apply writes_bind.
  - apply (writes_bind true); [apply writes_put|].
    induction IH as [|[k x] d [Hk Hx] _ IHd]; simpl; [by intros s|].
    apply writes_bind; [by apply writes_bind|done].
  - by apply writes_raise.
Qed.

(** C33: The encoder refuses exactly what CBOR as implemented cannot carry. It
    succeeds if and only if every part of the value is of a supported type,
    its integers are in the 64-bit CBOR range and its text is valid Unicode;
    otherwise it raises an ordinary exception, and what was written before
    stays a prefix of the buffer, followed by the parts before the offending
    one. [write_int] writes the same element as the generic writer, or raises
    like it, with one exception: where the C [long] has 32 bits (Windows) its
    least value, -2^31, is in range and written as a different number by the
    generic writer. *)
Theorem encoder_reports (v : pyval F) (z : Z) (s : list A) :
  s `prefix_of` (write v s).2 /\
  ((write v s).1 = Ok tt <-> encodable v = true) /\
  (forall e, (write v s).1 = Raise e -> is_Exception e = true) /\
  (int_ok z = true -> write_int z s = write (VInt z) s) /\
  (z < - 2 ^ 64 \/ 2 ^ 64 <= z -> exists e, write_int z s = (Raise e, s)) /\
  (long_bits = 32 -> write_int (- 2 ^ 31) s = (Ok tt, s ++ enc (TNegint (2 ^ 31 - 1))) /\
                     write (VInt (- 2 ^ 31)) s = (Ok tt, s ++ enc (TNegint (2 ^ 64 - 2 ^ 31 - 1)))).
Proof.
  destruct (writes_data_item v s) as (H1 & H2 & H3).
  split_and!; try done.
  - rewrite <- H2. destruct (write v s) as [[[]|e] s']; done.
  - intros Hz. simpl. rewrite write_pylong_ok by done. unfold int_ok in Hz.
    unfold write_int, write_uint, write_negint, as_u64, u64, bind, lift.
    rewrite Z.geb_leb. destruct (Z.leb_spec 0 z).
    + by replace (z <? 2 ^ 64) with true by lia.
    + by replace ((0 <=? -1 - z) && (-1 - z <? 2 ^ 64)) with true by lia.
  - intros Hz. unfold write_int, write_uint, write_negint, as_u64, u64, bind, lift.
    rewrite Z.geb_leb. destruct (Z.leb_spec 0 z).
    + replace (z <? 2 ^ 64) with false by lia. by eexists.
    + replace ((0 <=? -1 - z) && (-1 - z <? 2 ^ 64)) with false by lia. by eexists.
  - intros Hl. clear H1 H2 H3. by subst long_bits.
Qed.

(** *** Progress of the decoder *)

(** What a reader leaves is a suffix of its input, and after success it is
    shorter if [strict]. *)
Definition consumes {X} (strict : bool) (m : list A -> answer A X) : Prop := forall s,
  match m s with
  | Normal r s' => s' `suffix_of` s /\ (strict = true -> is_ok r = true -> (length s' < length s)%nat)
  | Undefined_ => True
  end.

Lemma consumes_weaken {X} b (m : D X) : consumes b m -> consumes false m.
Proof. intros Hm s. specialize (Hm s). destruct (m s); [|done]. by destruct Hm. Qed.

Lemma consumes_dret {X} (x : X) : consumes false (dret x).
Proof. done. Qed.
Lemma consumes_draise {X} b e : consumes b (draise (X:=X) e).
Proof. done. Qed.
Lemma consumes_undefined {X} b : consumes (X:=X) b (fun _ => Undefined_).
Proof. done. Qed.

Lemma consumes_dbind {X Y} b1 b2 (m : D X) (k : X -> D Y) :
  consumes b1 m -> (forall x, consumes b2 (k x)) -> consumes (b1 || b2) (dbind m k).
Proof.
  intros Hm Hk s. specialize (Hm s). unfold dbind. destruct (m s) as [[x|e] s'|]; [|split; [apply Hm|done]|done].
  specialize (Hk x s'). destruct (k x s') as [r s''|]; [|done].
  destruct Hm as [Hm1 Hm2], Hk as [Hk1 Hk2]. split; [by transitivity s'|].
  intros Hb Hr. apply suffix_length in Hm1, Hk1. destruct b1; simpl in *; [specialize (Hm2 eq_refl eq_refl); lia|].
  specialize (Hk2 Hb Hr). lia.
Qed.

Lemma dec_suffix_of s t r : dec (A:=A) (F:=F) s = Some (t, r) -> r `suffix_of` s /\ (length r < length s)%nat.
Proof.
  intros (p & Hp & ->)%dec_suffix. split; [by eexists|]. rewrite length_app. destruct p; [done|]. simpl. lia.
Qed.

Lemma consumes_peek : consumes false peek.
Proof. intros s. unfold peek. destruct (dec s) as [[t r]|]; done. Qed.
Lemma consumes_consume : consumes true consume.
Proof. intros s. unfold consume. destruct (dec s) as [[t r]|] eqn:E; [|done]. by apply dec_suffix_of in E as [??]. Qed.
Lemma consumes_pop_as {X} (sel : token F -> option X) : consumes true (pop_as sel).
Proof.
  intros s. unfold pop_as. destruct (dec s) as [[t r]|] eqn:E; [|done].
  apply dec_suffix_of in E as [??]. by destruct (sel t).
Qed.

Lemma consumes_until_break {X} fuel truncated (part : X -> D X) x :
  consumes true truncated -> (forall y, consumes false (part y)) -> consumes true (until_break fuel truncated part x).
Proof.
  intros Ht Hp. revert x. induction fuel as [|fuel IH]; intros x s; simpl;
    (destruct (dec s) as [[t r]|] eqn:E; [|exact (Ht s)]); apply dec_suffix_of in E as [E1 E2].
  - by destruct t.
  - destruct t; try exact (consumes_dbind false true _ _ (Hp x) IH s). done.
Qed.

Lemma consumes_loop {X} truncated (part : X -> D X) x :
  consumes true truncated -> (forall y, consumes false (part y)) -> consumes true (loop truncated part x).
Proof. intros Ht Hp s. by apply (consumes_until_break (length s)). Qed.

Lemma consumes_loop_unchecked {X} truncated (part : X -> D X) x :
  consumes true truncated -> (forall y, consumes false (part y)) -> consumes false (loop_unchecked truncated part x).
Proof.
  intros Ht Hp s. unfold loop_unchecked. destruct (dec s); [|apply Hp].
  exact (consumes_weaken _ _ (consumes_loop truncated part x Ht Hp) s).
Qed.

Lemma consumes_pair b (item : D (A:=A) (pyval F)) d : consumes b item -> consumes b (pair py_eq item d).
Proof.
  intros Hi s. unfold pair. pose proof (Hi s) as H1. destruct (item s) as [rk s1|]; [|done].
  pose proof (Hi s1) as H2. destruct (item s1) as [rv s2|]; [|done].
  destruct H1 as [H1 H1'], H2 as [H2 H2'].
  assert (s2 `suffix_of` s) as Hs by by transitivity s1.
  destruct rk as [k|e], rv as [v|e']; try done. unfold set_item.
  destruct (hashable k); (split; [done|]); [|done]. intros Hb _. apply suffix_length in H1.
  specialize (H2' Hb eq_refl). lia.
Qed.

Lemma consumes_items n (item : D (A:=A) (pyval F)) : consumes false item -> consumes false (items n item).
Proof.
  intros Hi. induction n as [|n IH]; [done|]. simpl.
  apply (consumes_dbind false false); [done|]. intros x. by apply (consumes_dbind false false).
Qed.
Lemma consumes_pairs n (item : D (A:=A) (pyval F)) d : consumes false item -> consumes false (pairs py_eq n item d).
Proof.
  intros Hi. revert d. induction n as [|n IH]; intros d; [done|]. simpl.
  apply (consumes_dbind false false); [by apply consumes_pair|]. exact IH.
Qed.

#[local] Hint Resolve consumes_dret consumes_draise consumes_undefined consumes_peek consumes_consume
  consumes_pop_as consumes_items consumes_pairs consumes_pair consumes_loop consumes_loop_unchecked : core.

Lemma consumes_pop_list (item : D (A:=A) (pyval F)) : consumes false item -> consumes true (pop_list can_allocate item).
Proof.
  intros Hi. apply (consumes_dbind false true); [done|]. intros t. destruct t; try done.
  - apply (consumes_dbind true false); [done|]. intros _. repeat (case_match; try done).
    apply (consumes_dbind false false); auto.
  - apply (consumes_dbind true false); [done|]. intros _.
    apply (consumes_dbind false false); [|done]. apply consumes_loop_unchecked; [done|].
    intros l. by apply (consumes_dbind false false).
Qed.

Lemma consumes_pop_map (item : D (A:=A) (pyval F)) : consumes false item -> consumes true (pop_map py_eq item).
Proof.
  intros Hi. apply (consumes_dbind false true); [done|]. intros t. destruct t; try done.
  - apply (consumes_dbind true false); [done|]. intros _. case_match; [done|].
    apply (consumes_dbind false false); auto.
  - apply (consumes_dbind true false); [done|]. intros _.
    apply (consumes_dbind false false); [|done]. apply consumes_loop_unchecked; auto.
Qed.

Lemma consumes_text : consumes true (pop_next_text utf8_ok).
Proof. apply (consumes_dbind true false); [apply consumes_pop_as|]. intros s. by case_match. Qed.

Lemma consumes_inf_bytes : consumes true pop_inf_bytes.
Proof.
  apply (consumes_dbind true false); [done|]. intros _. apply (consumes_dbind false false); [|done].
  apply (consumes_weaken true), consumes_loop; [done|]. intros b.
  apply (consumes_weaken true), (consumes_dbind true false); [apply consumes_pop_as|done].
Qed.
Lemma consumes_inf_text : consumes true (pop_inf_text utf8_ok).
Proof.
  apply (consumes_dbind true false); [done|]. intros _. apply (consumes_dbind false false); [|done].
  apply (consumes_weaken true), consumes_loop; [done|]. intros b.
  apply (consumes_weaken true), (consumes_dbind true false); [apply consumes_text|done].
Qed.

Lemma consumes_pop_tag (item : D (A:=A) (pyval F)) : consumes false item -> consumes true (pop_tag on_epoch_time item).
Proof.
  intros Hi. apply (consumes_dbind true false); [apply consumes_pop_as|]. intros tag.
  case_match; [|done]. apply (consumes_dbind false false); [done|]. intros t. case_match; [|done].
  intros s. specialize (Hi s). destruct (item s) as [[v|e] s'|]; try done. by destruct Hi.
Qed.

Lemma consumes_pop n : consumes true (pop n).
Proof.
  induction n as [|n IH]; [done|]. simpl. apply (consumes_dbind false true); [done|].
  apply consumes_weaken in IH. intros t.
  destruct t; auto using consumes_pop_list, consumes_pop_map, consumes_pop_tag, consumes_inf_bytes, consumes_inf_text;
    try (apply (consumes_dbind true false); [apply consumes_pop_as || apply consumes_text || done|done]).
Qed.

Lemma dec_nil : dec (A:=A) (F:=F) [] = None.
Proof.
  destruct (dec []) as [[t r]|] eqn:E; [|done]. apply dec_suffix_of in E as [_ E]. simpl in E. lia.
Qed.

(** With parts that take something, any fuel from the length of the input on
    gives the same result. *)
Lemma until_break_fuel {X} truncated (part : X -> D X) fuel fuel' x s :
  (forall y, consumes true (part y)) -> (length s <= fuel)%nat -> (length s <= fuel')%nat ->
  until_break fuel truncated part x s = until_break fuel' truncated part x s.
Proof.
  intros Hp. revert fuel' x s. induction fuel as [|fuel IH]; intros fuel' x s Hl Hl'.
  - destruct s; simpl in Hl; [|lia]. destruct fuel'; simpl; by rewrite dec_nil.
  - destruct s as [|a s]; [destruct fuel'; simpl; by rewrite dec_nil|].
    destruct fuel' as [|fuel']; [simpl in Hl'; lia|]. cbn [until_break].
    destruct (dec (a :: s)) as [[t r]|]; [|done].
    assert (dbind (part x) (until_break fuel truncated part) (a :: s) =
            dbind (part x) (until_break fuel' truncated part) (a :: s)) as ->; [|done].
    unfold dbind. pose proof (Hp x (a :: s)) as Hx. destruct (part x (a :: s)) as [[y|e] s'|]; try done.
    destruct Hx as [_ Hx]. specialize (Hx eq_refl eq_refl). apply IH; lia.
Qed.

(** *** Inputs that are safe

    What the decoder reads of an input is a sequence of elements; two kinds are
    dangerous ([decoder_undefined]): the start of an indefinite-length map, and
    the tag of an epoch time. *)
Definition advance (s s' : list A) : Prop := exists t : token F, dec s = Some (t, s').
Definition harmless (t : token F) : bool :=
  match t with TIndefMap => false | TTag z => negb (z =? 1) | _ => true end.
Definition clean (s : list A) : Prop :=
  forall s' t r, rtc advance s s' -> dec s' = Some (t, r) -> harmless t = true.
(** On such an input [m] answers, and has read whole elements. *)
Definition defined {X} (m : D (A:=A) X) : Prop :=
  forall s, clean s -> exists r s', m s = Normal r s' /\ rtc advance s s'.

Lemma clean_rtc s s' : clean s -> rtc advance s s' -> clean s'.
Proof. intros Hc Hs s2 t r Hr. apply Hc. by transitivity s'. Qed.
Lemma clean_head s t r : clean s -> dec s = Some (t, r) -> harmless t = true.
Proof. intros Hc. by apply Hc. Qed.
Lemma advance_head s (t : token F) r : dec s = Some (t, r) -> rtc advance s r.
Proof. intros E. apply rtc_once. by exists t. Qed.

Lemma defined_dret {X} (x : X) : defined (dret x).
Proof. intros s _. by eexists _, _. Qed.
Lemma defined_draise {X} e : defined (draise (X:=X) e).
Proof. intros s _. by eexists _, _. Qed.
Lemma defined_dbind {X Y} (m : D X) (k : X -> D Y) : defined m -> (forall x, defined (k x)) -> defined (dbind m k).
Proof.
  intros Hm Hk s Hs. destruct (Hm s Hs) as (r & s1 & E & H1). unfold dbind. rewrite E.
  destruct r as [x|e]; [|by eexists _, _].
  destruct (Hk x s1) as (r & s2 & E2 & H2); [by eapply clean_rtc|]. exists r, s2. split; [done|]. by transitivity s1.
Qed.
Lemma defined_peek {X} (k : token F -> D X) :
  (forall t, harmless t = true -> defined (k t)) -> defined (dbind peek k).
Proof.
  intros Hk s Hs. unfold dbind, peek. destruct (dec s) as [[t r]|] eqn:E; [|by eexists _, _].
  apply Hk; [by eapply clean_head|done].
Qed.
Lemma defined_consume : defined consume.
Proof.
  intros s _. unfold consume. destruct (dec s) as [[t r]|] eqn:E; eexists _, _; (split; [done|]); [|done].
  by eapply advance_head.
Qed.
Lemma defined_pop_as {X} (sel : token F -> option X) : defined (pop_as sel).
Proof.
  intros s _. unfold pop_as. destruct (dec s) as [[t r]|] eqn:E; [|by eexists _, _].
  destruct (sel t); eexists _, _; (split; [done|]); [|done]. by eapply advance_head.
Qed.
#[local] Hint Resolve defined_dret defined_draise defined_consume defined_pop_as : core.

Lemma defined_until_break {X} fuel truncated (part : X -> D X) x :
  defined truncated -> (forall y, defined (part y)) -> defined (until_break fuel truncated part x).
Proof.
  intros Ht Hp. revert x. induction fuel as [|fuel IH]; intros x s Hs; simpl;
    (destruct (dec s) as [[t r]|] eqn:E; [|by apply Ht]); apply advance_head in E.
  - destruct t; by eexists _, _.
  - destruct t; try (exact (defined_dbind _ _ (Hp x) IH s Hs)). by eexists _, _.
Qed.
Lemma defined_loop {X} truncated (part : X -> D X) x :
  defined truncated -> (forall y, defined (part y)) -> defined (loop truncated part x).
Proof. intros Ht Hp s. by apply (defined_until_break (length s)). Qed.
Lemma defined_items n (item : D (A:=A) (pyval F)) : defined item -> defined (items n item).
Proof.
  intros Hi. induction n as [|n IH]; simpl; [done|]. apply defined_dbind; [done|]. intros x. by apply defined_dbind.
Qed.
Lemma defined_pair (item : D (A:=A) (pyval F)) d : defined item -> defined (pair py_eq item d).
Proof.
  intros Hi s Hs. destruct (Hi s Hs) as (r1 & s1 & E1 & H1).
  destruct (Hi s1) as (r2 & s2 & E2 & H2); [by eapply clean_rtc|]. unfold pair. rewrite E1, E2.
  assert (rtc advance s s2) by by transitivity s1. unfold set_item.
  destruct r1 as [k|], r2; try destruct (hashable k); by eexists _, _.
Qed.
Lemma defined_pairs n (item : D (A:=A) (pyval F)) d : defined item -> defined (pairs py_eq n item d).
Proof.
  intros Hi. revert d. induction n as [|n IH]; intros d; simpl; [done|].
  apply defined_dbind; [by apply defined_pair|done].
Qed.
Lemma defined_text : defined (pop_next_text utf8_ok).
Proof. apply defined_dbind; [done|]. intros x. by destruct (utf8_ok x). Qed.

Lemma defined_pop_list (item : D (A:=A) (pyval F)) : defined item -> defined (pop_list can_allocate item).
Proof.
  intros Hi. apply defined_peek. intros t _. destruct t; try done; (apply defined_dbind; [done|]; intros _).
  - repeat (case_match; try done). apply defined_dbind; [by apply defined_items|done].
  - apply defined_dbind; [|done]. intros s Hs. unfold loop_unchecked.
    assert (forall l, defined (dbind item (fun x => dret (l ++ [x])))) as Hp by (intros l; by apply defined_dbind).
    destruct (dec s); [by apply defined_loop|by apply Hp].
Qed.
Lemma defined_pop_map (item : D (A:=A) (pyval F)) : defined item -> defined (pop_map py_eq item).
Proof.
  intros Hi. apply defined_peek. intros t Ht. destruct t; try done. apply defined_dbind; [done|]. intros _.
  case_match; [done|]. apply defined_dbind; [by apply defined_pairs|done].
Qed.
Lemma defined_pop_tag (item : D (A:=A) (pyval F)) : defined (pop_tag on_epoch_time item).
Proof.
  intros s Hs. unfold pop_tag, dbind, pop_next_tag_val, pop_as.
  destruct (dec s) as [[t r]|] eqn:E; [|by exists (Raise CBOR_INVALID), s]. pose proof (clean_head _ _ _ Hs E) as Hh.
  apply advance_head in E. destruct t; try by exists (Raise CBOR_UNEXPECTED_TYPE), s. apply negb_true_iff in Hh. rewrite Hh.
  by exists (Raise (ValueError "Unsupported tag value")), r.
Qed.
Lemma defined_inf_bytes : defined (pop_inf_bytes (F:=F)).
Proof.
  apply defined_dbind; [done|]. intros _. apply defined_dbind; [|done]. apply defined_loop; [done|].
  intros b. apply defined_dbind; [apply defined_pop_as|done].
Qed.
Lemma defined_inf_text : defined (pop_inf_text (F:=F) utf8_ok).
Proof.
  apply defined_dbind; [done|]. intros _. apply defined_dbind; [|done]. apply defined_loop; [done|].
  intros b. apply defined_dbind; [apply defined_text|done].
Qed.
Lemma defined_pop n : defined (pop n).
Proof.
  induction n as [|n IH]; simpl; [done|]. apply defined_peek. intros t Ht.
  destruct t; auto using defined_pop_list, defined_pop_map, defined_pop_tag, defined_inf_bytes, defined_inf_text;
    apply defined_dbind; done || apply defined_pop_as || apply defined_text.
Qed.

(** C32: The decoder always answers, and moves forward. On any input whatever,
    well-formed or not, it returns a value and leaves a proper suffix of its
    input, or raises and leaves a suffix - unless it leaves the realm of Python
    ([decoder_undefined] shows how), which takes an element of the input that starts an
    indefinite-length map or is the tag of an epoch time: on inputs without
    these it always answers. Its loops over indefinite arrays, maps, byte and
    text strings need no more rounds than there are bytes left: any larger bound
    gives the same result, so they terminate. *)
Theorem decoder_progress (s : list A) (levels fuel : nat) (truncated : D (list (pyval F * pyval F)))
    (d : list (pyval F * pyval F)) (l : list (pyval F)) (acc : string) :
  match pop_next_data_item utf8_ok can_allocate py_eq on_epoch_time s with
  | Normal (Ok _) s' => s' `suffix_of` s /\ (length s' < length s)%nat
  | Normal (Raise _) s' => s' `suffix_of` s
  | Undefined_ => ~ clean s
  end /\
  until_break (length s + fuel) truncated (pair py_eq (pop levels)) d s =
    loop truncated (pair py_eq (pop levels)) d s /\
  until_break (length s + fuel) (draise CBOR_INVALID) (fun l => dbind (pop levels) (fun x => dret (l ++ [x]))) l s =
    loop (draise CBOR_INVALID) (fun l => dbind (pop levels) (fun x => dret (l ++ [x]))) l s /\
  until_break (length s + fuel) (draise CBOR_INVALID)
      (fun b => dbind pop_next_bytes (fun p => dret (String.append b p))) acc s =
    loop (draise CBOR_INVALID) (fun b => dbind pop_next_bytes (fun p => dret (String.append b p))) acc s /\
  until_break (length s + fuel) (draise CBOR_INVALID)
      (fun b => dbind (pop_next_text utf8_ok) (fun p => dret (String.append b p))) acc s =
    loop (draise CBOR_INVALID) (fun b => dbind (pop_next_text utf8_ok) (fun p => dret (String.append b p))) acc s.
Proof.
  split_and!.
  - pose proof (consumes_pop s_cbor_max_decode_depth s) as Hc. unfold pop_next_data_item.
    pose proof (defined_pop s_cbor_max_decode_depth s) as Hd.
    destruct (pop _ s) as [[v|e] s'|]; [|by destruct Hc|by intros (r & s' & E & _)%Hd].
    destruct Hc as [Hc1 Hc2]. auto.
  - apply until_break_fuel; [|lia|done]. intros y. apply consumes_pair, consumes_pop.
  - apply until_break_fuel; [|lia|done]. intros y. apply (consumes_dbind true false); [apply consumes_pop|done].
  - apply until_break_fuel; [|lia|done]. intros y. apply (consumes_dbind true false); [apply consumes_pop_as|done].
  - apply until_break_fuel; [|lia|done]. intros y. apply (consumes_dbind true false); [apply consumes_text|done].
Qed.

(** *** Undefined behaviour *)

(** [n] arrays of one element around an encoding, and around a value. *)
Fixpoint nested (n : nat) (inner : list A) : list A :=
  match n with O => inner | S n => enc (TArray 1) ++ nested n inner end.
Fixpoint nested_val (n : nat) (v : pyval F) : pyval F :=
  match n with O => v | S n => VList [nested_val n v] end.

Lemma pop_nested n m inner (Ha : can_allocate 1 = true) :
  pop (n + m) (nested n inner) =
  match pop m inner with
  | Normal (Ok v) r => Normal (Ok (nested_val n v)) r
  | a => a
  end.
Proof.
  induction n as [|n IH]; simpl; [by destruct (pop m inner) as [[?|?] ?|]|].
  unfold dbind at 1, peek. rewrite dec_app by done.
  unfold pop_list, dbind at 1, peek. rewrite dec_app by done.
  unfold dbind at 1, consume. rewrite dec_app by done. rewrite Ha. simpl.
  unfold dbind. rewrite IH. by destruct (pop m inner) as [[?|?] ?|].
Qed.

Lemma nested_add n m inner : nested (n + m) inner = nested n (nested m inner).
Proof. induction n as [|n IH]; simpl; [done|]. by rewrite IH. Qed.

Lemma pop_epoch m z rest : u64 z = true ->
  pop m (enc (TTag 1) ++ enc (TUint z) ++ rest) =
  match m with
  | O => Normal (Raise RecursionError) (enc (TTag 1) ++ enc (TUint z) ++ rest)
  | 1%nat => Undefined_
  | _ => Normal (_on_epoch_time_callback on_epoch_time (VInt z)) rest
  end.
Proof.
  intros Hz. destruct m as [|m]; [done|]. simpl. unfold dbind at 1, peek. rewrite dec_app by done.
  unfold pop_tag, dbind, pop_next_tag_val, pop_as, peek. rewrite dec_app by done. simpl.
  rewrite dec_app by done. simpl. destruct m as [|m]; [done|].
  by rewrite (pop_number (TUint z) (VInt z)).
Qed.

Lemma epoch_at N n z rest : can_allocate 1 = true -> u64 z = true ->
  pop (S N) (nested n (enc (TTag 1) ++ enc (TUint z) ++ rest)) =
  if (n <? N)%nat then
    match _on_epoch_time_callback on_epoch_time (VInt z) with
    | Ok x => Normal (Ok (nested_val n x)) rest
    | Raise e => Normal (Raise e) rest
    end
  else if (n =? N)%nat then Undefined_
  else Normal (Raise RecursionError) (nested (n - S N) (enc (TTag 1) ++ enc (TUint z) ++ rest)).
Proof.
  intros Ha Hz. destruct (Nat.ltb_spec n N); [|destruct (Nat.eqb_spec n N) as [->|]].
  - replace (S N) with (n + S (S (N - S n)))%nat by lia. rewrite pop_nested, pop_epoch by done.
    by destruct (_on_epoch_time_callback _ _).
  - replace (S N) with (N + 1)%nat by lia. by rewrite pop_nested, pop_epoch.
  - set (tail := enc (TTag 1) ++ _). replace n with (S N + (n - S N))%nat at 1 by lia.
    rewrite nested_add. replace (S N) with (S N + 0)%nat at 1 by lia. by rewrite pop_nested.
Qed.

Lemma truncated_map N k v : storable k = true -> hashable k = true -> storable v = true -> (depth v <= S N)%nat ->
  pop (S (S N)) (enc TIndefMap ++ enc_val k ++ enc_val v) = Undefined_.
Proof.
  intros Hk Hh Hv Hd. pose proof (pops_all k (S N) Hk (enc_val v)) as Pk. pose proof (pops_all v (S N) Hv []) as Pv.
  rewrite hashable_depth in Pk by done. unfold read_back in Pk, Pv.
  apply Nat.leb_le in Hd. rewrite Hd, app_nil_r in Pv. clear Hd. change (1 <=? S N)%nat with true in Pk.
  remember (S N) as M. clear HeqM N. simpl.
  unfold dbind at 1, peek. rewrite dec_app by done.
  unfold pop_map, dbind at 1, peek. rewrite dec_app by done.
  unfold dbind at 1, consume. rewrite dec_app by done.
  unfold dbind, loop_unchecked, loop. destruct (dec (enc_val k ++ enc_val v)) as [[t r]|] eqn:Ed.
  - assert (Hs : length (enc_val k ++ enc_val v) <> 0%nat).
    { intros Hl%nil_length_inv. rewrite Hl, dec_nil in Ed. done. }
    destruct (length (enc_val k ++ enc_val v)) as [|fuel]; [done|]. cbn [until_break]. rewrite Ed.
    assert (t <> TBreak) as Ht.
    { intros ->. destruct M; [done|]. simpl in Pk. unfold dbind, peek in Pk. by rewrite Ed in Pk. }
    unfold dbind, pair. rewrite Pk, Pv. unfold set_item. rewrite hashable_norm, Hh. unfold dret.
    destruct fuel; cbn [until_break]; rewrite dec_nil; by destruct t.
  - exfalso. destruct M; [done|]. simpl in Pk. unfold dbind, peek in Pk. by rewrite Ed in Pk.
Qed.

(** C38: Two inputs on which the decoder leaves the realm of Python. An epoch
    time (tag 1 and a number) inside 127 nested arrays passes the depth check
    as a tag but not as its number, and the null result of the number is
    released: undefined behaviour, between the normal answer for fewer arrays
    and the RecursionError for more. And an indefinite-length map whose input
    ends after a pair, before the break, releases the last key and value a
    second time, at every level that is not too deep. *)
Theorem decoder_undefined (z : Z) (n : nat) (rest : list A) (k v : pyval F)
    (Hz : u64 z = true) (Ha : can_allocate 1 = true)
    (Hk : storable k = true) (Hh : hashable k = true) (Hv : storable v = true) (Hd : (depth v <= 127)%nat) :
  pop_next_data_item utf8_ok can_allocate py_eq on_epoch_time
      (nested n (enc (TTag 1) ++ enc (TUint z) ++ rest)) =
    (if (n <? 127)%nat then
       match _on_epoch_time_callback on_epoch_time (VInt z) with
       | Ok x => Normal (Ok (nested_val n x)) rest
       | Raise e => Normal (Raise e) rest
       end
     else if (n =? 127)%nat then Undefined_
     else Normal (Raise RecursionError) (nested (n - 128) (enc (TTag 1) ++ enc (TUint z) ++ rest))) /\
  pop_next_data_item utf8_ok can_allocate py_eq on_epoch_time (enc TIndefMap ++ enc_val k ++ enc_val v) = Undefined_.
Proof.
  split; [by apply (epoch_at 127) | by apply (truncated_map 126)].
Qed.
End CborSpec.

(** *** A codec to evaluate with: bytes are whole elements, floats are halves. *)
Definition demo_float (f : Z) : token Z :=
  if Z.even f && u64 (f / 2) then TUint (f / 2) else TFloat f.
Definition demo_dec (l : list (token Z)) : option (token Z * list (token Z)) :=
  match l with
  | t :: r => if token_ok t then Some (t, r) else None
  | [] => None
  end.
#[refine] Instance demo_codec : NativeCbor (token Z) Z := {|
  enc := fun t => [t];
  float_token := demo_float;
  dec := demo_dec;
  CBOR_INVALID := AwsCrtError 39 "AWS_ERROR_INVALID_CBOR" "";
  CBOR_UNEXPECTED_TYPE := AwsCrtError 38 "AWS_ERROR_CBOR_UNEXPECTED_TYPE" "";
|}.
Proof.
  - intros t r Ht. simpl. by rewrite Ht.
  - intros [|t' s] t r; simpl; [done|]. destruct (token_ok t'); [|done]. intros [= -> ->]. by exists [t].
  - intros [|t' s] t r; simpl; [done|]. destruct (token_ok t') eqn:E; [|done]. by intros [= -> ->].
  - intros f. unfold demo_float. case_match; by eexists.
  - intros f. unfold demo_float. destruct (Z.even f); [|done]. by destruct (u64 (f / 2)) eqn:E.
Defined.

(** Python's equality on scalars: numbers by value. *)
Definition demo_number (v : pyval Z) : option Z :=
  match v with
  | VInt z => Some (2 * z)
  | VBool b => Some (if b then 2 else 0)
  | VFloat f => Some f
  | _ => None
  end.
Definition demo_eq (a b : pyval Z) : bool :=
  match a, b with
  | VText s, VText t | VBytes s, VBytes t => bool_decide (s = t)
  | VNone, VNone => true
  | _, _ => match demo_number a, demo_number b with
            | Some x, Some y => x =? y
            | _, _ => false
            end
  end.

Lemma demo_number_norm v : demo_number (norm v) = demo_number v.
Proof.
  destruct v; try done. simpl. unfold demo_float. destruct (Z.even f) eqn:Ee; [|done].
  destruct (u64 (f / 2)); [|done]. simpl. f_equal. symmetry.
  apply Z.even_spec in Ee as [k ->]. by rewrite (Z.mul_comm 2 k), Z.div_mul, Z.mul_comm.
Qed.

Lemma demo_eq_norm a b : demo_eq (norm a) (norm b) = demo_eq a b.
Proof.
  pose proof (demo_number_norm a) as Ha. pose proof (demo_number_norm b) as Hb.
  destruct a, b; simpl in *; try done;
    repeat match goal with |- context [demo_float ?f] => destruct (demo_float f) eqn:? end; simpl in *;
    simplify_eq; done.
Qed.

Definition demo_value : pyval Z :=
  VDict [(VText "a", VList [VInt (-5); VFloat 4; VFloat 3]); (VInt 2, VNone)].
Definition all_ok {X} (_ : X) : bool := true.

Lemma cbor_roundtrip_witness :
  pop_next_data_item all_ok all_ok demo_eq None ((write_data_item 64 all_ok demo_value []).2 ++ [TBreak]) =
  Normal (Ok (VDict [(VText "a", VList [VInt (-5); VInt 2; VFloat 3]); (VInt 2, VNone)])) [TBreak].
Proof.
  exact (proj2 (cbor_roundtrip 64 all_ok all_ok demo_eq None (or_intror eq_refl) demo_eq_norm
    demo_value [TBreak] eq_refl)).
Defined.

Lemma encoder_reports_witness :
  (write_data_item (H:=demo_codec) 32 all_ok (VInt (- 2 ^ 31)) []).2 = [TNegint (2 ^ 64 - 2 ^ 31 - 1)] /\
  (exists e, write_int (H:=demo_codec) (2 ^ 64) [] = (Raise e, [])).
Proof.
  destruct (encoder_reports (H:=demo_codec) 32 all_ok (or_introl eq_refl) VNone (2 ^ 64) [])
    as (_ & _ & _ & _ & H1 & H2).
  split; [by rewrite (proj2 (H2 eq_refl)) | apply H1; right; lia].
Defined.

Lemma decoder_undefined_witness :
  pop_next_data_item (H:=demo_codec) all_ok all_ok demo_eq None (nested 127 [TTag 1; TUint 0]) = Undefined_ /\
  pop_next_data_item (H:=demo_codec) all_ok all_ok demo_eq None [TIndefMap; TText "k"; TText "v"] = Undefined_.
Proof.
  destruct (decoder_undefined 64 all_ok all_ok demo_eq None demo_eq_norm 0 127 []
    (VText "k") (VText "v") eq_refl eq_refl eq_refl eq_refl eq_refl ltac:(simpl; lia)) as [H1 H2].
  split; [exact H1 | exact H2].
Defined.

Lemma decoder_progress_witness :
  until_break (H:=demo_codec) 5 (fun _ => Undefined_) (pair demo_eq (pop_item all_ok all_ok demo_eq None 1)) []
      [TText "k"; TText "v"; TBreak] = Normal (Ok [(VText "k", VText "v")]) [].
Proof.
  destruct (decoder_progress (H:=demo_codec) all_ok all_ok demo_eq None
    [TText "k"; TText "v"; TBreak] 1 2 (fun _ => Undefined_) [] [] EmptyString) as (_ & H1 & _).
  exact H1.
Defined.
End CborSpec.
