(* ===== verification/CborApi.v ===== *)
(** * awscrt/cbor.py: indefinite-length items and the decoder object

    Documents written piece by piece with [write_indef_..._start] and
    [write_break], and how the decoder reads them back ([Indefinite]); the state
    of an [AwsCborDecoder], which keeps the Python source object and the native
    reader apart ([DecoderObject]). *)
From S2P Require Import Prelude PyData Exports Future Cbor.

#[local] Set Warnings "-register-all".

Module Indefinite.
Import Encoder Decoder CborSpec.

(** ** Writing *)
Section Writers.
Context {A F : Type} `{NativeCbor A F}.
Variable long_bits : Z.
Variable utf8_ok : string -> bool.

Definition write_null : M (list A) unit := write_simple_types AwsCborType.Null.
Definition write_undefined : M (list A) unit := write_simple_types AwsCborType.Undefined.
Definition write_indef_array_start : M (list A) unit := write_simple_types AwsCborType.IndefArray.
Definition write_indef_map_start : M (list A) unit := write_simple_types AwsCborType.IndefMap.
Definition write_indef_bytes_start : M (list A) unit := write_simple_types AwsCborType.IndefBytes.
Definition write_indef_text_start : M (list A) unit := write_simple_types AwsCborType.IndefStr.
Definition write_break : M (list A) unit := write_simple_types AwsCborType.Break.

(** A document as a program writes it: values of known length with
    [write_data_item], everything else between a start and a break. *)
Inductive doc :=
  | Value (v : pyval F)
  | Undef
  | Array (l : list doc)
  | Map (l : list (doc * doc))
  | Bytes (chunks : list string)
  | Text (chunks : list string).

(** [for x in l: body(x)] *)
Section Each.
Context {X : Type} (body : X -> M (list A) unit).
Fixpoint each (l : list X) : M (list A) unit :=
  match l with [] => ret tt | x :: l => do! body x; each l end.
End Each.

Fixpoint write_doc (d : doc) : M (list A) unit :=
  match d with
  | Value v => write_data_item long_bits utf8_ok v
  | Undef => write_undefined
  | Array l => do! write_indef_array_start; do! each write_doc l; write_break
  | Map l => do! write_indef_map_start; do! each (fun '(k, v) => do! write_doc k; write_doc v) l; write_break
  | Bytes l => do! write_indef_bytes_start; do! each write_bytes l; write_break
  | Text l => do! write_indef_text_start; do! each (write_text utf8_ok) l; write_break
  end.
End Writers.
Arguments doc : clear implicits.
Arguments Value {F} v.
Arguments Undef {F}.
Arguments Array {F} l.
Arguments Map {F} l.
Arguments Bytes {F} chunks.
Arguments Text {F} chunks.

(** Induction that reaches the parts of a document. *)
Section DocInd.
Context {F : Type} (P : doc F -> Prop).
Hypothesis (Hvalue : forall v, P (Value v)) (Hundef : P Undef) (Hbytes : forall l, P (Bytes l))
  (Htext : forall l, P (Text l)) (Harray : forall l, Forall P l -> P (Array l))
  (Hmap : forall l, Forall (fun kv => P kv.1 /\ P kv.2) l -> P (Map l)).
Fixpoint doc_ind' (d : doc F) : P d :=
  match d with
  | Value v => Hvalue v
  | Undef => Hundef
  | Bytes l => Hbytes l
  | Text l => Htext l
  | Array l => Harray l (list_ind (Forall P) (Forall_nil_2 P) (fun x l IH => Forall_cons_2 P x l (doc_ind' x) IH) l)
  | Map l => Hmap l (list_ind (Forall (fun kv => P kv.1 /\ P kv.2)) (Forall_nil_2 _)
      (fun '(k, v) l IH => Forall_cons_2 (fun kv => P kv.1 /\ P kv.2) (k, v) l (conj (doc_ind' k) (doc_ind' v)) IH) l)
  end.
End DocInd.

Section Reading.
Context {A F : Type} `{NativeCbor A F}.
Variable long_bits : Z.
Variable utf8_ok : string -> bool.
Variable can_allocate : Z -> bool.
Variable py_eq : pyval F -> pyval F -> bool.
Variable on_epoch_time : option (pyval F -> result (pyval F)).
Hypothesis Hlong : long_bits = 32 \/ long_bits = 64.
Hypothesis py_eq_norm : forall a b, py_eq (norm a) (norm b) = py_eq a b.

#[local] Abbreviation pop := (pop_item utf8_ok can_allocate py_eq on_epoch_time).
#[local] Abbreviation storable := (storable long_bits utf8_ok can_allocate py_eq).

(** The Python value a document stands for. *)
Fixpoint value_of (d : doc F) : pyval F :=
  match d with
  | Value v => v
  | Undef => VNone
  | Array l => VList (map value_of l)
  | Map l => VDict (map (fun '(k, v) => (value_of k, value_of v)) l)
  | Bytes l => VBytes (fold_left String.append l EmptyString)
  | Text l => VText (fold_left String.append l EmptyString)
  end.

Definition keys (l : list (doc F * doc F)) : list (pyval F) := map (fun kv => value_of kv.1) l.

(** The documents that can be written and read back: the values in them, with no
    limit on the number of parts; every chunk of text is valid by itself. *)
Fixpoint doc_ok (d : doc F) : bool :=
  match d with
  | Value v => storable v
  | Undef | Bytes _ => true
  | Array l => forallb doc_ok l
  | Map l => forallb (fun '(k, v) => doc_ok k && doc_ok v) l && forallb hashable (keys l) && distinct py_eq (keys l)
  | Text l => forallb utf8_ok l
  end.

Fixpoint enc_doc (d : doc F) : list A :=
  match d with
  | Value v => enc_val v
  | Undef => enc TUndefined
  | Array l => enc TIndefArray ++ flat_map enc_doc l ++ enc TBreak
  | Map l => enc TIndefMap ++ flat_map (fun '(k, v) => enc_doc k ++ enc_doc v) l ++ enc TBreak
  | Bytes l => enc TIndefBytes ++ flat_map (fun b => enc (TBytes b)) l ++ enc TBreak
  | Text l => enc TIndefStr ++ flat_map (fun s => enc (TText s)) l ++ enc TBreak
  end.

Lemma each_enc {X} (body : X -> M (list A) unit) (f : X -> list A) l s :
  Forall (fun x => forall s, body x s = (Ok tt, s ++ f x)) l -> each body l s = (Ok tt, s ++ flat_map f l).
Proof.
  intros Hl. revert s. induction Hl as [|x l Hx _ IH]; intros s; simpl; [by rewrite app_nil_r|].
  unfold bind. by rewrite Hx, IH, app_assoc.
Qed.

Lemma write_doc_enc d s : doc_ok d = true -> write_doc long_bits utf8_ok d s = (Ok tt, s ++ enc_doc d).
Proof.
  assert (Hsum : forall (start : token F) (m : M (list A) unit) body r,
    (forall s, m s = (Ok tt, s ++ body)) ->
    bind (put start) (fun _ => bind m (fun _ => put TBreak)) r = (Ok tt, r ++ enc start ++ body ++ enc TBreak)).
  { intros start m body r Hm. unfold bind, put, modify. rewrite Hm. by rewrite !app_assoc. }
  revert s. induction d as [v| |l|l|l IH|l IH] using doc_ind'; intros s Hd; simpl in Hd.
  - by apply write_enc with can_allocate py_eq.
  - done.
  - apply Hsum. intros s'. apply each_enc. by apply Forall_true.
  - apply Hsum. intros s'. apply each_enc. apply Forall_forall. intros x Hx s0. unfold write_text.
    rewrite forallb_forall in Hd. by rewrite Hd by by apply list_elem_of_In.
  - apply Hsum. intros s'. apply each_enc. rewrite Forall_forall in *. intros x Hx s0.
    rewrite forallb_forall in Hd. apply IH; [done|]. by apply Hd, list_elem_of_In.
  - apply Hsum. intros s'. apply each_enc. rewrite Forall_forall in *. intros [k v] Hx s0.
    apply andb_prop in Hd as [Hd _]. apply andb_prop in Hd as [Hd _]. rewrite forallb_forall in Hd.
    pose proof (Hd _ (proj1 (list_elem_of_In _ _) Hx)) as Hkv. apply andb_prop in Hkv as [Hk Hv].
    destruct (IH _ Hx) as [IHk IHv]. unfold bind. by rewrite IHk, IHv, app_assoc.
Qed.
(** *** Reading the parts up to the break *)

(** The first element of an item is no break. *)
Definition starts (s : list A) : Prop :=
  exists (t : token F) r, s = enc t ++ r /\ token_ok t = true /\ t <> TBreak.

Lemma enc_nonempty (t : token F) : token_ok t = true -> enc t <> [].
Proof.
  intros Ht E. destruct (dec_suffix (enc t) t []) as (p & Hp & He).
  - rewrite <- (app_nil_r (enc t)) at 1. by apply dec_enc.
  - rewrite E in He. by destruct p.
Qed.

Lemma starts_dec s rest : starts s -> exists (t : token F) r, dec (s ++ rest) = Some (t, r) /\ t <> TBreak.
Proof.
  intros (t & r & -> & Ht & Hb). exists t, (r ++ rest). rewrite <- app_assoc. by rewrite dec_enc.
Qed.

Lemma starts_length s : starts s -> (0 < length s)%nat.
Proof.
  intros (t & r & -> & Ht & _). pose proof (enc_nonempty t Ht). rewrite length_app.
  destruct (enc t); [done|]. simpl. lia.
Qed.

Lemma starts_enc (t : token F) r : token_ok t = true -> t <> TBreak -> starts (enc t ++ r).
Proof. intros Ht Hb. by exists t, r. Qed.
Lemma starts_token (t : token F) : token_ok t = true -> t <> TBreak -> starts (enc t).
Proof. intros Ht Hb. exists t, []. by rewrite app_nil_r. Qed.

(** A loop up to the break reads parts that are each read right, under an
    invariant of what has been read and what is left. *)
Section Parts.
Context {X T : Type} (part : X -> D (A:=A) X) (truncated : D (A:=A) X) (f : T -> list A) (step : X -> T -> X)
  (ok : T -> bool) (I : X -> list T -> Prop).
Hypothesis parts_start : forall x t l, I x (t :: l) -> starts (f t).
Hypothesis parts_step : forall x t l, I x (t :: l) ->
  I (step x t) l /\ forall rest, read_back (ok t) (part x (f t ++ rest)) (step x t) rest.

Lemma until_break_parts l x fuel rest : I x l -> (length l <= fuel)%nat ->
  read_back (forallb ok l) (until_break fuel truncated part x (flat_map f l ++ enc TBreak ++ rest))
    (fold_left step l x) rest.
Proof.
  revert x fuel. induction l as [|t l IH]; intros x fuel HI Hf; simpl in *.
  - destruct fuel; simpl; by rewrite dec_app.
  - destruct fuel as [|fuel]; [lia|]. destruct (parts_step x t l HI) as [HI' Hs].
    rewrite <- app_assoc. specialize (Hs (flat_map f l ++ enc TBreak ++ rest)).
    destruct (starts_dec (f t) (flat_map f l ++ enc TBreak ++ rest) (parts_start x t l HI)) as (tk & r & Hd & Hb).
    simpl. rewrite Hd. specialize (IH (step x t) fuel HI' ltac:(lia)).
    assert (Hgo : read_back (ok t && forallb ok l)
      (dbind (part x) (until_break fuel truncated part) (f t ++ flat_map f l ++ enc TBreak ++ rest))
      (fold_left step l (step x t)) rest).
    { unfold read_back, dbind in *. destruct (ok t); simpl; [by rewrite Hs|]. destruct Hs as [s ->]. by eexists. }
    by destruct tk.
Qed.

Lemma parts_length l x : I x l -> (length l <= length (flat_map f l))%nat.
Proof.
  revert x. induction l as [|t l IH]; intros x HI; simpl; [lia|]. rewrite length_app.
  pose proof (starts_length _ (parts_start x t l HI)). destruct (parts_step x t l HI) as [HI' _].
  specialize (IH _ HI'). lia.
Qed.

Lemma loop_parts l x rest : I x l ->
  read_back (forallb ok l) (loop truncated part x (flat_map f l ++ enc TBreak ++ rest)) (fold_left step l x) rest /\
  loop_unchecked truncated part x (flat_map f l ++ enc TBreak ++ rest) =
  loop truncated part x (flat_map f l ++ enc TBreak ++ rest).
Proof.
  intros HI. split.
  - apply until_break_parts; [done|]. rewrite length_app. pose proof (parts_length l x HI). lia.
  - unfold loop_unchecked. destruct l as [|t l]; simpl; [by rewrite dec_app|].
    rewrite <- app_assoc.
    destruct (starts_dec (f t) (flat_map f l ++ enc TBreak ++ rest) (parts_start x t l HI)) as (tk & r & -> & _). done.
Qed.
End Parts.

Lemma enc_doc_starts d : doc_ok d = true -> starts (enc_doc d).
Proof.
  destruct d as [v| |l|l|l|l]; intros Hd; simpl; try by apply starts_enc.
  - simpl in Hd. destruct v as [|b|z|f|b|s|l|l|tag]; simpl in Hd |- *; try done; try (by apply starts_token).
    + apply starts_token; [by apply int_token_ok with long_bits|]. by destruct (0 <=? z).
    + apply starts_token; [apply float_token_ok|]. intros E.
      destruct (float_token_number (A:=A) f) as [v Hv]. by rewrite E in Hv.
    + apply starts_enc; [|done]. simpl. do 1 apply andb_prop in Hd as [Hd _].
      by destruct (size_ok_inv _ _ Hd).
    + apply starts_enc; [|done]. simpl. do 3 apply andb_prop in Hd as [Hd _].
      by destruct (size_ok_inv _ _ Hd).
  - by apply starts_token.
Qed.
(** *** Reading documents *)

Definition pops_doc (n : nat) (d : doc F) : Prop :=
  doc_ok d = true -> forall rest,
  read_back (depth (value_of d) <=? n)%nat (pop n (enc_doc d ++ rest)) (norm (value_of d)) rest.

Lemma fold_left_snoc {X Y} (g : X -> Y) l acc : fold_left (fun acc x => acc ++ [g x]) l acc = acc ++ map g l.
Proof.
  revert acc. induction l as [|x l IH]; intros acc; simpl; [by rewrite app_nil_r|]. by rewrite IH, <- app_assoc.
Qed.

Lemma forallb_depth {X} (g : X -> nat) l n :
  forallb (fun x => (g x <=? n)%nat) l = (list_max (map g l) <=? n)%nat.
Proof. induction l as [|x l IH]; simpl; [done|]. by rewrite leb_max, IH. Qed.

Lemma forallb_const {X} (l : list X) : forallb (fun _ => true) l = true.
Proof. by induction l. Qed.

(** One level of an indefinite item: its start is consumed and the loop runs. *)
Lemma pop_start n (t : token F) r : token_ok t = true ->
  pop (S n) (enc t ++ r) =
  match t with
  | TIndefArray => dbind (loop_unchecked (draise CBOR_INVALID) (fun l => dbind (pop n) (fun x => dret (l ++ [x]))) [])
                     (fun l => dret (VList l)) r
  | TIndefMap => dbind (loop_unchecked (fun _ => Undefined_) (pair py_eq (pop n)) []) (fun d => dret (VDict d)) r
  | TIndefBytes => dbind (loop (draise CBOR_INVALID)
                     (fun b => dbind pop_next_bytes (fun p => dret (String.append b p))) EmptyString)
                     (fun b => dret (VBytes b)) r
  | TIndefStr => dbind (loop (draise CBOR_INVALID)
                   (fun b => dbind (pop_next_text utf8_ok) (fun p => dret (String.append b p))) EmptyString)
                   (fun b => dret (VText b)) r
  | _ => pop (S n) (enc t ++ r)
  end.
Proof.
  intros Ht. destruct t; try done; simpl; unfold dbind at 1, peek; rewrite dec_app by done;
    unfold pop_list, pop_map, pop_inf_bytes, pop_inf_text, dbind, peek, consume; by rewrite !dec_app by done.
Qed.

Lemma pops_array n l : Forall (pops_doc n) l -> pops_doc (S n) (Array l).
Proof.
  intros Hl Hd rest. simpl in Hd. cbn [enc_doc]. rewrite <- !app_assoc, pop_start by done.
  pose (I := fun (_ : list (pyval F)) l => Forall (pops_doc n) l /\ forallb doc_ok l = true).
  pose (part := fun l => dbind (pop n) (fun x => dret (A:=A) (l ++ [x]))).
  destruct (loop_parts part (draise CBOR_INVALID) enc_doc (fun acc d => acc ++ [norm (value_of d)])
    (fun d => (depth (value_of d) <=? n)%nat) I) with (l := l) (x := @nil (pyval F)) (rest := rest) as [Hr Hu].
  - intros x d l' [_ Ho]. simpl in Ho. apply andb_prop in Ho as [Ho _]. by apply enc_doc_starts.
  - intros x d l' [Hp Ho]. simpl in Ho. apply andb_prop in Ho as [Ho Ho']. apply Forall_cons in Hp as [Hp Hp'].
    split; [by split|]. intros rest'. specialize (Hp Ho rest'). unfold part, dbind, read_back in *.
    destruct (_ <=? n)%nat; [by rewrite Hp|]. destruct Hp as [s ->]. by eexists.
  - by split.
  - fold part. unfold dbind. rewrite Hu. rewrite fold_left_snoc, forallb_depth in Hr. simpl in Hr |- *.
    rewrite <- (map_map value_of depth), <- (map_map value_of norm) in Hr. unfold read_back in *.
    destruct (list_max _ <=? n)%nat; [by rewrite Hr|]. destruct Hr as [s ->]. by eexists.
Qed.

Lemma pops_bytes n l : pops_doc (S n) (Bytes l).
Proof.
  intros _ rest. cbn [enc_doc]. rewrite <- !app_assoc, pop_start by done.
  pose (part := fun b => dbind (A:=A) pop_next_bytes (fun p => dret (String.append b p))).
  destruct (loop_parts part (draise CBOR_INVALID) (fun b => enc (TBytes b)) String.append
    (fun _ => true) (fun _ _ => True)) with (l := l) (x := EmptyString) (rest := rest) as [Hr _].
  - intros ? ? ? _. by apply starts_token.
  - intros x b l' _. split; [done|]. intros rest'. unfold part, dbind, pop_next_bytes, pop_as. by rewrite dec_app.
  - done.
  - fold part. unfold dbind. rewrite forallb_const in Hr. simpl in Hr |- *. by rewrite Hr.
Qed.

Lemma pops_text n l : pops_doc (S n) (Text l).
Proof.
  intros Hd rest. simpl in Hd. cbn [enc_doc]. rewrite <- !app_assoc, pop_start by done.
  pose (part := fun b => dbind (A:=A) (pop_next_text utf8_ok) (fun p => dret (String.append b p))).
  destruct (loop_parts part (draise CBOR_INVALID) (fun b => enc (TText b)) String.append
    (fun _ => true) (fun _ l => forallb utf8_ok l = true)) with (l := l) (x := EmptyString) (rest := rest) as [Hr _].
  - intros ? ? ? _. by apply starts_token.
  - intros x b l' Ho. simpl in Ho. apply andb_prop in Ho as [Ho Ho']. split; [done|]. intros rest'.
    unfold part, dbind, pop_next_text, dbind, pop_as. rewrite dec_app by done. by rewrite Ho.
  - done.
  - fold part. unfold dbind. rewrite forallb_const in Hr. simpl in Hr |- *. by rewrite Hr.
Qed.

Definition norm_doc (kv : doc F * doc F) : pyval F * pyval F := (norm (value_of kv.1), norm (value_of kv.2)).
Definition pair_depth (kv : doc F * doc F) : nat := Nat.max (depth (value_of kv.1)) (depth (value_of kv.2)).

(** What is left to read of a map: items that can be read, with hashable keys
    unequal to each other and to those read already. *)
Definition map_inv (n : nat) (acc : list (pyval F * pyval F)) (l : list (doc F * doc F)) : Prop :=
  Forall (fun kv => (pops_doc n kv.1 /\ doc_ok kv.1 = true) /\ pops_doc n kv.2 /\ doc_ok kv.2 = true) l /\
  forallb hashable (keys l) = true /\ distinct py_eq (keys l) = true /\
  exists read : list (pyval F * pyval F), acc = map norm_pair read /\
    Forall (fun kv => Forall (fun k => py_eq kv.1 k = false) (keys l)) read.

Lemma map_inv_step n acc kv l : map_inv n acc (kv :: l) ->
  map_inv n (acc ++ [norm_doc kv]) l /\
  forall rest, read_back (pair_depth kv <=? n)%nat
    (pair py_eq (pop n) acc ((enc_doc kv.1 ++ enc_doc kv.2) ++ rest)) (acc ++ [norm_doc kv]) rest.
Proof.
  intros (Hp & Hh & Hd & read & -> & Hr). apply Forall_cons in Hp as [[[Hk Hok] [Hv Hov]] Hp].
  simpl in Hh, Hd. apply andb_prop in Hh as [Hhk Hh]. apply andb_prop in Hd as [Hdk Hd]. split.
  - split_and!; [done|done|done|]. exists (read ++ [(value_of kv.1, value_of kv.2)]).
    rewrite map_app. split; [done|]. apply Forall_app. split.
    + eapply Forall_impl; [exact Hr|]. intros x Hx. by apply Forall_cons in Hx as [_ Hx].
    + repeat constructor. simpl. apply Forall_forall. intros k' Hin. rewrite forallb_forall in Hdk.
      apply list_elem_of_In, Hdk in Hin. by destruct (py_eq _ k').
  - intros rest. rewrite <- app_assoc. specialize (Hk Hok (enc_doc kv.2 ++ rest)). specialize (Hv Hov rest).
    unfold pair_depth, pair, read_back in *. rewrite leb_max. rewrite (hashable_depth (value_of kv.1)) in * by done.
    destruct (Nat.leb_spec 1 n) as [Hn|Hn].
    + rewrite Hk. simpl. destruct (depth (value_of kv.2) <=? n)%nat; [|destruct Hv as [s ->]; by eexists].
      rewrite Hv. unfold set_item. rewrite hashable_norm, Hhk. rewrite dict_insert_fresh; [done|].
      apply Forall_map. eapply Forall_impl; [exact Hr|]. intros [k' v'] Hx. simpl in *.
      apply Forall_cons in Hx as [Hx _]. by rewrite py_eq_norm.
    + assert (n = 0%nat) as -> by lia. simpl. by eexists.
Qed.

Lemma pops_map n l : Forall (fun kv => pops_doc n kv.1 /\ pops_doc n kv.2) l -> pops_doc (S n) (Map l).
Proof.
  intros Hl Hd rest. simpl in Hd. apply andb_prop in Hd as [Hd Hdist]. apply andb_prop in Hd as [Ho Hh].
  cbn [enc_doc]. rewrite <- !app_assoc, pop_start by done.
  assert (Hi : map_inv n [] l).
  { split_and!; [|done|done|by exists []]. rewrite Forall_forall in *. intros [k v] Hin.
    rewrite forallb_forall in Ho. pose proof (Ho _ (proj1 (list_elem_of_In _ _) Hin)) as Hkv.
    apply andb_prop in Hkv as [??]. by destruct (Hl _ Hin). }
  destruct (loop_parts (pair py_eq (pop n)) (fun _ => Undefined_) (fun kv => enc_doc kv.1 ++ enc_doc kv.2)
    (fun acc kv => acc ++ [norm_doc kv]) (fun kv => (pair_depth kv <=? n)%nat) (map_inv n))
    with (l := l) (x := @nil (pyval F * pyval F)) (rest := rest) as [Hr Hu]; [|apply map_inv_step|done|].
  - intros x kv l' (Hp & _). apply Forall_cons in Hp as [[[_ Hok] _] _].
    destruct (enc_doc_starts _ Hok) as (t & r & -> & Ht & Hb). exists t, (r ++ enc_doc kv.2). by rewrite <- app_assoc.
  - assert (flat_map (fun '(k, v) => enc_doc k ++ enc_doc v) l = flat_map (fun kv => enc_doc kv.1 ++ enc_doc kv.2) l) as ->
      by (apply flat_map_ext; by intros []).
    unfold dbind. rewrite Hu. rewrite fold_left_snoc, forallb_depth in Hr. simpl in Hr |- *.
    assert (map pair_depth l = map (fun '(k, v) => Nat.max (depth k) (depth v))
      (map (fun '(k, v) => (value_of k, value_of v)) l)) as Hm by (rewrite map_map; apply map_ext; by intros []).
    rewrite <- Hm. unfold read_back in *. destruct (list_max _ <=? n)%nat; [|destruct Hr as [s ->]; by eexists].
    rewrite Hr. unfold dret. do 3 f_equal. rewrite map_map. apply map_ext. by intros [].
Qed.

Lemma pops_doc_0 d : pops_doc 0 d.
Proof.
  intros _ rest. unfold read_back. destruct (Nat.leb_spec (depth (value_of d)) 0) as [Hp|_]; [|by eexists].
  pose proof (depth_pos (value_of d)). lia.
Qed.

Lemma pops_docs d n : pops_doc n d.
Proof.
  revert n. induction d as [v| |l|l|l IH|l IH] using doc_ind'; intros [|n]; try apply pops_doc_0.
  - intros Hd rest. by apply pops_all with long_bits.
  - intros _ rest. unfold read_back. cbn [value_of depth Nat.leb enc_doc norm]. by rewrite pop_token.
  - apply pops_bytes.
  - apply pops_text.
  - apply pops_array. eapply Forall_impl; [exact IH|]. auto.
  - apply pops_map. eapply Forall_impl; [exact IH|]. simpl. intros ? [? ?]. auto.
Qed.

(** C11: However a document is written - values whole, or lists, dicts, bytes and
    text in parts between a start and a break, at any depth - every write
    succeeds and the decoder reads back the value as it would if it had been
    written whole, parts joined and in order, leaving exactly the rest of the
    input; beyond 128 levels it raises RecursionError. *)
Theorem indefinite_roundtrip (d : doc F) (rest : list A) (Hd : doc_ok d = true) :
  let '(r, encoded) := write_doc long_bits utf8_ok d [] in
  r = Ok tt /\
  if (depth (value_of d) <=? s_cbor_max_decode_depth)%nat
  then pop_next_data_item utf8_ok can_allocate py_eq on_epoch_time (encoded ++ rest) =
       Normal (Ok (norm (value_of d))) rest
  else exists s, pop_next_data_item utf8_ok can_allocate py_eq on_epoch_time (encoded ++ rest) =
                 Normal (Raise RecursionError) s.
Proof. rewrite (write_doc_enc d [] Hd). split; [done|]. exact (pops_docs d s_cbor_max_decode_depth Hd rest). Qed.
End Reading.

(** A dict in parts, with a value in a whole list and one in chunks. *)
Definition demo_doc : doc Z :=
  Map [(Value (VText "a"), Array [Value (VInt 1); Undef]); (Text ["b"; "c"], Bytes ["x"; "yz"])].

Lemma indefinite_roundtrip_witness :
  pop_next_data_item all_ok all_ok demo_eq None ((write_doc 64 all_ok demo_doc []).2 ++ [TBreak]) =
  Normal (Ok (VDict [(VText "a", VList [VInt 1; VNone]); (VText "bc", VBytes "xyz")])) [TBreak].
Proof.
  exact (proj2 (indefinite_roundtrip 64 all_ok all_ok demo_eq None (or_intror eq_refl) demo_eq_norm
    demo_doc [TBreak] eq_refl)).
Defined.
End Indefinite.

Module DecoderObject.
Import Decoder CborSpec.

Section DecoderObject.
Context {A F : Type} `{NativeCbor A F}.
Variable utf8_ok : string -> bool.
Variable can_allocate : Z -> bool.
Variable py_eq : pyval F -> pyval F -> bool.
Variable on_epoch_time : option (pyval F -> result (pyval F)).
(** [aws_cbor_decoder_consume_next_whole_data_item]: it moves forward. *)
Variable consume_item : D (A:=A) unit.
Hypothesis consume_item_suffix : consumes false consume_item.

(** A source: bytes, or an object that gives no bytes to C. *)
Inductive source := Src (b : list A) | NoBytes.

(** The attribute [_src], and what the native reader, which was given a pointer
    into the first source, has left. *)
Record decoder := mkDecoder { _src : source; reader : list A }.

Definition AwsCborDecoder_init (src : source) : result decoder :=
  match src with
  | Src b => Ok (mkDecoder src b)
  | NoBytes => Raise (TypeError "a bytes-like object is required")
  end.

(** The methods that read, without their results. *)
Inductive read_op :=
  | PeekType | ConsumeElement | ConsumeDataItem | PopUnsignedInt | PopNegativeInt | PopDouble | PopBool | PopBytes
  | PopText | PopArrayStart | PopMapStart | PopTagVal | PopList | PopMap | PopDataItem.
Definition drop_result {X} (m : D (A:=A) X) : D unit := dbind m (fun _ => dret tt).
Definition consume_next_whole_data_item : D (A:=A) unit := consume_item.
Definition read (o : read_op) : D (A:=A) unit :=
  match o with
  | PeekType => drop_result peek_next_type
  | ConsumeElement => consume
  | ConsumeDataItem => consume_next_whole_data_item
  | PopUnsignedInt => drop_result pop_next_unsigned_int
  | PopNegativeInt => drop_result pop_next_negative_int
  | PopDouble => drop_result pop_next_double
  | PopBool => drop_result pop_next_bool
  | PopBytes => drop_result pop_next_bytes
  | PopText => drop_result (pop_next_text utf8_ok)
  | PopArrayStart => drop_result pop_next_array_start
  | PopMapStart => drop_result pop_next_map_start
  | PopTagVal => drop_result pop_next_tag_val
  | PopList => drop_result (pop_next_list utf8_ok can_allocate py_eq on_epoch_time)
  | PopMap => drop_result (pop_next_map utf8_ok can_allocate py_eq on_epoch_time)
  | PopDataItem => drop_result (pop_next_data_item utf8_ok can_allocate py_eq on_epoch_time)
  end.

(** Reads in sequence, failing or not; None: undefined behaviour. *)
Fixpoint run_reads (l : list read_op) (d : decoder) : option decoder :=
  match l with
  | [] => Some d
  | o :: l => match read o (reader d) with
              | Normal _ rest => run_reads l (mkDecoder (_src d) rest)
              | Undefined_ => None
              end
  end.

Definition get_remaining_bytes_len (d : decoder) : Z := Z.of_nat (length (reader d)).
(** [get_remaining_bytes]; [len] of an object that is no bytes is not modelled
    (it may raise). *)
Definition get_remaining_bytes (d : decoder) : option (list A) :=
  match _src d with
  | Src b => Some (Decoder.get_remaining_bytes b (get_remaining_bytes_len d))
  | NoBytes => if get_remaining_bytes_len d <=? 0 then Some [] else None
  end.

(** [reset_src]: the attribute is assigned, then a function that the extension
    module does not define is called. *)
Definition reset_src (src : source) : M decoder unit :=
  do! modify (fun d => mkDecoder src (reader d));
  lift (Exports.native_attribute "cbor_decoder_reset_src").

Lemma consumes_drop {X} b (m : D (A:=A) X) : consumes b m -> consumes false (drop_result m).
Proof.
  intros Hm. apply (consumes_dbind false false); [by apply consumes_weaken with b|]. intros x. apply consumes_dret.
Qed.

Lemma consumes_read o : consumes false (read o).
Proof.
  destruct o; simpl; try (apply (consumes_drop true); apply consumes_pop_as).
  - apply (consumes_drop false). apply (consumes_dbind false false); [apply consumes_peek|].
    intros t s. by destruct (enum_of _).
  - apply consumes_weaken with true. apply consumes_consume.
  - exact consume_item_suffix.
  - apply (consumes_drop true). apply (consumes_dbind true false); [apply consumes_pop_as|]. done.
  - apply (consumes_drop true), consumes_text.
  - apply (consumes_drop true), consumes_pop_list, (consumes_weaken true), consumes_pop.
  - apply (consumes_drop true), consumes_pop_map, (consumes_weaken true), consumes_pop.
  - apply (consumes_drop true), consumes_pop.
Qed.

Lemma remaining_bytes_suffix (b rest : list A) : rest `suffix_of` b ->
  Decoder.get_remaining_bytes b (Z.of_nat (length rest)) = rest.
Proof.
  intros [p ->]. unfold Decoder.get_remaining_bytes. rewrite length_app.
  destruct (Z.leb_spec (Z.of_nat (length rest)) 0) as [H0|H0].
  - assert (rest = []) as -> by (apply nil_length_inv; lia). done.
  - cbv zeta. assert (Z.of_nat (length p + length rest) - Z.of_nat (length rest) = Z.of_nat (length p)) as -> by lia.
    destruct (Z.ltb_spec (Z.of_nat (length p)) 0); [lia|]. rewrite Nat2Z.id. apply drop_app_length.
Qed.

Lemma run_reads_suffix l d d' : run_reads l d = Some d' -> _src d' = _src d /\ reader d' `suffix_of` reader d.
Proof.
  revert d. induction l as [|o l IH]; intros d Hr; simpl in Hr; [by simplify_eq|].
  pose proof (consumes_read o (reader d)) as Hc. destruct (read o (reader d)) as [r rest|]; [|done].
  destruct Hc as [Hc _], (IH _ Hr) as [H1 H2]. split; [done|]. by transitivity rest.
Qed.

(** After any reads, whether they succeeded or not, the bytes that are left are
    the end of the source and [get_remaining_bytes] gives exactly them; and
    [reset_src] always raises AttributeError, leaves the native reader on the old
    source, and makes [get_remaining_bytes] cut the new one. *)
Lemma decoder_position (b c : list A) (l : list read_op) (d d' : decoder) :
  AwsCborDecoder_init (Src b) = Ok d -> run_reads l d = Some d' ->
  (exists p, b = p ++ reader d') /\ get_remaining_bytes d' = Some (reader d') /\
  exists d2, reset_src (Src c) d' = (Raise (AttributeError "cbor_decoder_reset_src"), d2) /\
    reader d2 = reader d' /\
    get_remaining_bytes d2 = Some (Decoder.get_remaining_bytes c (Z.of_nat (length (reader d')))).
Proof.
  simpl. intros [= <-] Hr. destruct (run_reads_suffix _ _ _ Hr) as [Hs Hsuf]. simpl in *. split_and!.
  - exact Hsuf.
  - unfold get_remaining_bytes. rewrite Hs. f_equal. by apply remaining_bytes_suffix.
  - by eexists.
Qed.
End DecoderObject.

(** Two elements read of three, then a reset to a shorter source. *)
Example reset_src_shorter :
  let d := mkDecoder (Src [TUint 1; TNull; TBool true]) [TNull; TBool true] in
  get_remaining_bytes (reset_src (Src [TUint 7]) d).2 = Some [TUint (F:=Z) 7].
Proof. by vm_compute. Qed.
End DecoderObject.
