(* ===== verification/S3.v ===== *)
(** * awscrt/s3.py: S3 meta requests

    - the options of a client and of a request, with the defaults the native
      layer expects;
    - [S3Request]: the callbacks of [_S3RequestCore], the native code that calls
      them, and how a request finishes. *)
From S2P Require Import Prelude Future.

Module S3RequestType.
Inductive S3RequestType :=
  | DEFAULT
  | GET_OBJECT
  | PUT_OBJECT.
Definition S3RequestType_value (e : S3RequestType) : Z :=
  match e with
  | DEFAULT => 0
  | GET_OBJECT => 1
  | PUT_OBJECT => 2
  end.
#[global] Instance S3RequestType_eq_dec : EqDecision S3RequestType.
Proof. solve_decision. Defined.
#[global] Instance S3RequestType_IntEnum : IntEnum S3RequestType.
Proof.
  refine {| enum_value := S3RequestType_value; enum_members := [DEFAULT; GET_OBJECT; PUT_OBJECT] |}.
  - solve_enum_complete.
  - solve_enum_nodup.
Defined.
End S3RequestType.
Abbreviation S3RequestType := S3RequestType.S3RequestType.

Module S3RequestTlsMode.
Inductive S3RequestTlsMode :=
  | ENABLED
  | DISABLED.
Definition S3RequestTlsMode_value (e : S3RequestTlsMode) : Z :=
  match e with
  | ENABLED => 0
  | DISABLED => 1
  end.
#[global] Instance S3RequestTlsMode_eq_dec : EqDecision S3RequestTlsMode.
Proof. solve_decision. Defined.
#[global] Instance S3RequestTlsMode_IntEnum : IntEnum S3RequestTlsMode.
Proof.
  refine {| enum_value := S3RequestTlsMode_value; enum_members := [ENABLED; DISABLED] |}.
  - solve_enum_complete.
  - solve_enum_nodup.
Defined.
End S3RequestTlsMode.
Abbreviation S3RequestTlsMode := S3RequestTlsMode.S3RequestTlsMode.

Module S3ChecksumAlgorithm.
Inductive S3ChecksumAlgorithm :=
  | CRC32C
  | CRC32
  | SHA1
  | SHA256
  | CRC64NVME
  | SHA512
  | XXHASH64
  | XXHASH3
  | XXHASH128.
Definition S3ChecksumAlgorithm_value (e : S3ChecksumAlgorithm) : Z :=
  match e with
  | CRC32C => 1
  | CRC32 => 2
  | SHA1 => 3
  | SHA256 => 4
  | CRC64NVME => 5
  | SHA512 => 6
  | XXHASH64 => 7
  | XXHASH3 => 8
  | XXHASH128 => 9
  end.
#[global] Instance S3ChecksumAlgorithm_eq_dec : EqDecision S3ChecksumAlgorithm.
Proof. solve_decision. Defined.
#[global] Instance S3ChecksumAlgorithm_IntEnum : IntEnum S3ChecksumAlgorithm.
Proof.
  refine {| enum_value := S3ChecksumAlgorithm_value; enum_members := [CRC32C; CRC32; SHA1; SHA256; CRC64NVME; SHA512; XXHASH64; XXHASH3; XXHASH128] |}.
  - solve_enum_complete.
  - solve_enum_nodup.
Defined.
End S3ChecksumAlgorithm.
Abbreviation S3ChecksumAlgorithm := S3ChecksumAlgorithm.S3ChecksumAlgorithm.

Module S3ChecksumLocation.
Inductive S3ChecksumLocation :=
  | HEADER
  | TRAILER.
Definition S3ChecksumLocation_value (e : S3ChecksumLocation) : Z :=
  match e with
  | HEADER => 1
  | TRAILER => 2
  end.
#[global] Instance S3ChecksumLocation_eq_dec : EqDecision S3ChecksumLocation.
Proof. solve_decision. Defined.
#[global] Instance S3ChecksumLocation_IntEnum : IntEnum S3ChecksumLocation.
Proof.
  refine {| enum_value := S3ChecksumLocation_value; enum_members := [HEADER; TRAILER] |}.
  - solve_enum_complete.
  - solve_enum_nodup.
Defined.
End S3ChecksumLocation.
Abbreviation S3ChecksumLocation := S3ChecksumLocation.S3ChecksumLocation.

(** ** Options *)
Module S3Options.

Record S3ChecksumConfig := mkChecksum {
  algorithm : option S3ChecksumAlgorithm;
  location : option S3ChecksumLocation;
  validate_response : bool;
}.
(** Throughputs are given in whole Gbps. *)
Record S3FileIoOptions := mkFio { should_stream : bool; disk_throughput_gbps : Z; direct_io : bool }.

(** [0 if x is None else x] *)
Definition or_zero (o : option Z) : Z := match o with None => 0 | Some z => z end.

(** The four values the file options become. *)
Definition fio_arguments (fio_options : option S3FileIoOptions) : bool * bool * Z * bool :=
  match fio_options with
  | None => (false, false, 0, false)
  | Some f => (true, should_stream f, disk_throughput_gbps f, direct_io f)
  end.

(** [S3Client.__init__]: the settings [s3_client_new] gets. *)
Record client_arguments := mkClientArguments {
  ca_bootstrap : nat; ca_region : string; ca_tls_mode : Z; ca_part_size : Z;
  ca_multipart_upload_threshold : Z; ca_throughput_target_gbps : Z; ca_memory_limit : Z;
  ca_fio : bool * bool * Z * bool; ca_max_active_connections_override : Z;
}.
Definition S3Client_init (static_default : result nat) (bootstrap : option nat) (region : string)
    (tls_mode : option S3RequestTlsMode) (has_signing_config has_credential_provider : bool)
    (part_size multipart_upload_threshold throughput_target_gbps memory_limit : option Z)
    (fio_options : option S3FileIoOptions) (max_active_connections_override : option Z)
    : result client_arguments :=
  if has_credential_provider && has_signing_config
  then Raise (ValueError "'credential_provider' has been deprecated in favor of 'signing_config'.")
  else
    let? b := (match bootstrap with Some b => Ok b | None => static_default end) in
    Ok (mkClientArguments b region (or_zero (enum_value <$> tls_mode)) (or_zero part_size)
          (or_zero multipart_upload_threshold) (or_zero throughput_target_gbps) (or_zero memory_limit)
          (fio_arguments fio_options) (or_zero max_active_connections_override)).

(** [S3Request.__init__]: the settings [s3_client_make_meta_request] gets. *)
Record request_arguments := mkRequestArguments {
  ra_type : S3RequestType; ra_operation_name : option string; ra_checksum_algorithm : Z;
  ra_checksum_location : Z; ra_validate_response_checksum : bool; ra_part_size : Z;
  ra_multipart_upload_threshold : Z; ra_fio : bool * bool * Z * bool; ra_max_active_connections_override : Z;
}.
Definition S3Request_init (type : S3RequestType) (operation_name : option string)
    (checksum_config : option S3ChecksumConfig) (part_size multipart_upload_threshold : option Z)
    (fio_options : option S3FileIoOptions) (max_active_connections_override : option Z)
    : result request_arguments :=
  if bool_decide (type = S3RequestType.DEFAULT) && bool_decide (default EmptyString operation_name = EmptyString)
  then Raise (ValueError "'operation_name' must be set when using S3RequestType.DEFAULT")
  else
    let '(checksum_algorithm, checksum_location, validate_response_checksum) :=
      match checksum_config with
      | None => (0, 0, false)
      | Some c => (or_zero (enum_value <$> algorithm c), or_zero (enum_value <$> location c), validate_response c)
      end in
    Ok (mkRequestArguments type operation_name checksum_algorithm checksum_location validate_response_checksum
          (or_zero part_size) (or_zero multipart_upload_threshold) (fio_arguments fio_options)
          (or_zero max_active_connections_override)).
End S3Options.

(** ** A request at work *)
Module S3Request.
Section S3Request.
Context `{NativeErrors}.

(** What [on_done] is called with. *)
Record done_arguments := mkDone {
  error : option py_exn;
  error_headers : option (list (string * string));
  error_body : option string;
  error_operation_name : option string;
  status_code : option Z;
  did_validate_checksum : bool;
  checksum_validation_algorithm : option S3ChecksumAlgorithm;
}.

(** The state of [_S3RequestCore]; the calls of [on_done] and [on_progress] so
    far. *)
Record core := mkCore {
  _python_callback_exception : option py_exn;
  _finished_future : future unit;
  done_calls : list done_arguments;
  progress_calls : list Z;
  shutdown_event : bool;
}.
Definition init : core := mkCore None Pending [] [] false.

Definition finished : lens core (future unit) := Lens _finished_future
  (fun f s => mkCore (_python_callback_exception s) f (done_calls s) (progress_calls s) (shutdown_event s)).

(** [_on_headers] and [_on_body], by what the user's callback does this time;
    None: there is no callback. The result is what the method returns. *)
Definition call_guarded (cb : option (result unit)) : M core (option bool) :=
  match cb with
  | None => ret None
  | Some r =>
      try_except is_BaseException (do! lift r; ret (Some true)) (fun e =>
        do! modify (fun s => mkCore (Some e) (_finished_future s) (done_calls s) (progress_calls s) (shutdown_event s));
        ret (Some false))
  end.
Definition _on_headers := call_guarded.
Definition _on_body := call_guarded.

(** [s_s3_request_on_headers], [s_s3_request_on_body]: true is success, false
    fails the request with AWS_ERROR_CRT_CALLBACK_EXCEPTION. *)
Definition native_callback (cb : option (result unit)) (s : core) : bool * core :=
  match call_guarded cb s with
  | (Raise _, s') => (false, s')
  | (Ok r, s') => (negb (bool_decide (r = Some false)), s')
  end.

Definition _on_shutdown : M core unit :=
  modify (fun s => mkCore (_python_callback_exception s) (_finished_future s) (done_calls s) (progress_calls s) true).

(** [_on_progress], the callback by what it does this time *)
Definition _on_progress (cb : option (result unit)) (progress : Z) : M core unit :=
  match cb with
  | None => ret tt
  | Some r => do! modify (fun s => mkCore (_python_callback_exception s) (_finished_future s) (done_calls s)
                                    (progress_calls s ++ [progress]) (shutdown_event s));
              lift r
  end.

Definition CALLBACK_EXCEPTION : string := "AWS_ERROR_CRT_CALLBACK_EXCEPTION".

(** The exception of [_on_finish] for a nonzero error code. *)
Definition finish_exception (stored : option py_exn) (error_code : Z) (status_code : option Z)
    (error_headers : option (list (string * string))) (error_body error_operation_name : option string) : py_exn :=
  let error := from_code error_code in
  match as_AwsCrtError error with
  | None => error
  | Some (code, name, message) =>
      match (if bool_decide (name = CALLBACK_EXCEPTION) then stored else None) with
      | Some e => e
      | None =>
          match status_code, error_headers with
          | Some status, Some headers =>
              S3ResponseError code name message status headers error_body error_operation_name
          | _, _ => error
          end
      end
  end.

(** [_on_finish], the callback [on_done] by what it does. *)
Definition _on_finish (on_done : option (result unit)) (error_code status : Z)
    (error_headers : option (list (string * string))) (error_body error_operation_name : option string)
    (did_validate_checksum : bool) (checksum_validation_algorithm : Z) : M core unit :=
  let status_code := if status =? 0 then None else Some status in
  let! stored := gets _python_callback_exception in
  let error := if negb (error_code =? 0)
               then Some (finish_exception stored error_code status_code error_headers error_body error_operation_name)
               else None in
  do! (match error with Some e => set_exception finished e | None => set_result finished tt end);
  let! algorithm :=
    (if negb (checksum_validation_algorithm =? 0)
     then let! a := lift (enum_call checksum_validation_algorithm) in ret (Some a)
     else ret None) in
  match on_done with
  | None => ret tt
  | Some r =>
      do! modify (fun s => mkCore (_python_callback_exception s) (_finished_future s)
            (done_calls s ++ [mkDone error error_headers error_body error_operation_name status_code
                                did_validate_checksum algorithm]) (progress_calls s) (shutdown_event s));
      lift r
  end.

(** A run of header and body callbacks before the end. *)
Definition run_callbacks (cbs : list (option (result unit))) (s : core) : core :=
  fold_left (fun s cb => (native_callback cb s).2) cbs s.

(** The exception of the last callback that raised. *)
Fixpoint last_raised (cbs : list (option (result unit))) (e : option py_exn) : option py_exn :=
  match cbs with
  | [] => e
  | Some (Raise e') :: cbs => last_raised cbs (Some e')
  | _ :: cbs => last_raised cbs e
  end.

Lemma native_callback_spec cb s :
  native_callback cb s =
  match cb with
  | Some (Raise e) => (false, mkCore (Some e) (_finished_future s) (done_calls s) (progress_calls s) (shutdown_event s))
  | _ => (true, s)
  end.
Proof. by destruct cb as [[[]|e]|]. Qed.

Lemma run_callbacks_spec cbs s :
  run_callbacks cbs s =
  mkCore (last_raised cbs (_python_callback_exception s)) (_finished_future s) (done_calls s) (progress_calls s)
    (shutdown_event s).
Proof.
  unfold run_callbacks. revert s. induction cbs as [|cb cbs IH]; intros s; simpl; [by destruct s|].
  rewrite native_callback_spec. destruct cb as [[[]|e]|]; simpl; by rewrite IH.
Qed.

(** The outcome a finished request should report. *)
Definition outcome (cbs : list (option (result unit))) (error_code status : Z)
    (headers : option (list (string * string))) (body op : option string) : result unit :=
  if error_code =? 0 then Ok tt
  else Raise (match get_corresponding_builtin_exception error_code with
              | Some builtin => BuiltinError builtin
              | None =>
                  let name := get_error_name error_code in
                  let message := get_error_message error_code in
                  match last_raised cbs None with
                  | Some e => if bool_decide (name = CALLBACK_EXCEPTION) then e
                              else match headers with
                                   | Some h => if status =? 0 then AwsCrtError error_code name message
                                               else S3ResponseError error_code name message status h body op
                                   | None => AwsCrtError error_code name message
                                   end
                  | None => match headers with
                            | Some h => if status =? 0 then AwsCrtError error_code name message
                                        else S3ResponseError error_code name message status h body op
                            | None => AwsCrtError error_code name message
                            end
                  end
              end).

Lemma finish_outcome cbs code status headers body op : code <> 0 ->
  Raise (finish_exception (last_raised cbs None) code (if status =? 0 then None else Some status) headers body op) =
  outcome cbs code status headers body op.
Proof.
  intros Hc. unfold outcome, finish_exception, from_code. apply Z.eqb_neq in Hc. rewrite Hc.
  destruct (get_corresponding_builtin_exception code); simpl; [done|].
  destruct (last_raised cbs None); case_bool_decide; destruct (status =? 0), headers; done.
Qed.

(** C34: An S3 request ends with one outcome, told the same way to everyone. A
    raising header or body callback fails the request and, if the native layer
    then reports that a callback failed, the last such exception itself is the
    error; a failure with a response becomes S3ResponseError with its status,
    headers, body and operation; other errors stay as they are; error code 0
    is success. The future is completed first, then [on_done] is called once,
    with the same error. If the user has cancelled the future, or the native
    layer reports a checksum algorithm this version does not know, the handler
    raises and [on_done] is never called, in the second case with the future
    completed. *)
Theorem request_finishes (cbs : list (option (result unit))) (on_done : result unit) (code status : Z)
    (headers : option (list (string * string))) (body op : option string) (validated : bool) (alg : Z)
    (f : future unit) :
  let s := run_callbacks cbs (mkCore None f [] [] false) in
  let '(r, s') := _on_finish (Some on_done) code status headers body op validated alg s in
  let out := outcome cbs code status headers body op in
  if Fut.done f then r = Raise InvalidStateError /\ _finished_future s' = f /\ done_calls s' = []
  else
    _finished_future s' = Finished out /\
    match (if alg =? 0 then Some None else Some <$> enum_of alg) with
    | None => r = Raise (ValueError "not a valid member") /\ done_calls s' = []
    | Some a =>
        r = on_done /\
        done_calls s' = [mkDone (match out with Ok _ => None | Raise e => Some e end) headers body op
                           (if status =? 0 then None else Some status) validated a]
    end.
Proof.
  cbv zeta. rewrite run_callbacks_spec. unfold _on_finish. simpl.
  unfold bind, gets, set_exception, set_result. simpl.
  destruct (Fut.done f) eqn:Ed.
  - destruct (negb (code =? 0)); by rewrite (fut_complete_done finished).
  - destruct (Z.eqb_spec code 0) as [->|Hc]; simpl.
    + rewrite (fut_complete_ok finished) by done. simpl. unfold enum_call.
      destruct (alg =? 0); simpl; [by destruct on_done|]. by destruct (enum_of alg); simpl; destruct on_done.
    + rewrite (fut_complete_ok finished) by done. rewrite <- finish_outcome by done. simpl. unfold enum_call.
      destruct (alg =? 0); simpl; [by destruct on_done|]. by destruct (enum_of alg); simpl; destruct on_done.
Qed.
End S3Request.

Lemma request_finishes_witness :
  let '(r, s) := _on_finish (H:=demo_errors) (Some (Ok tt)) 14341 0 None None None false 0
    (run_callbacks [Some (Ok tt); Some (Raise (UserError 7)); None] init) in
  _finished_future s = Finished (Raise (UserError 7)) /\ length (done_calls s) = 1%nat.
Proof.
  pose proof (request_finishes (H:=demo_errors) [Some (Ok tt); Some (Raise (UserError 7)); None] (Ok tt)
    14341 0 None None None false 0 Pending) as (H1 & _ & H2).
  split; [exact H1 | reflexivity].
Defined.
End S3Request.
