(* ===== verification/Auth.v ===== *)
(** * awscrt/auth.py: credentials and signing

    - [Credentials]: the expiration time of credentials, there and back;
    - [Signing]: the signing configuration, whose attributes live in the native
      binding (source/auth_signing_config.c), and [replace];
    - [AuthFutures]: the futures of get_credentials and aws_sign_request;
    - [Providers]: the constructors of credentials providers and how
      get_credentials ends (source/auth_credentials.c). *)
From S2P Require Import Prelude Future.

Module AwsSigningAlgorithm.
Inductive AwsSigningAlgorithm :=
  | V4
  | V4_ASYMMETRIC
  | V4_S3EXPRESS.
Definition AwsSigningAlgorithm_value (e : AwsSigningAlgorithm) : Z :=
  match e with
  | V4 => 0
  | V4_ASYMMETRIC => 1
  | V4_S3EXPRESS => 2
  end.
#[global] Instance AwsSigningAlgorithm_eq_dec : EqDecision AwsSigningAlgorithm.
Proof. solve_decision. Defined.
#[global] Instance AwsSigningAlgorithm_IntEnum : IntEnum AwsSigningAlgorithm.
Proof.
  refine {| enum_value := AwsSigningAlgorithm_value; enum_members := [V4; V4_ASYMMETRIC; V4_S3EXPRESS] |}.
  - solve_enum_complete.
  - solve_enum_nodup.
Defined.
End AwsSigningAlgorithm.
Abbreviation AwsSigningAlgorithm := AwsSigningAlgorithm.AwsSigningAlgorithm.

Module AwsSignatureType.
Inductive AwsSignatureType :=
  | HTTP_REQUEST_HEADERS
  | HTTP_REQUEST_QUERY_PARAMS.
Definition AwsSignatureType_value (e : AwsSignatureType) : Z :=
  match e with
  | HTTP_REQUEST_HEADERS => 0
  | HTTP_REQUEST_QUERY_PARAMS => 1
  end.
#[global] Instance AwsSignatureType_eq_dec : EqDecision AwsSignatureType.
Proof. solve_decision. Defined.
#[global] Instance AwsSignatureType_IntEnum : IntEnum AwsSignatureType.
Proof.
  refine {| enum_value := AwsSignatureType_value; enum_members := [HTTP_REQUEST_HEADERS; HTTP_REQUEST_QUERY_PARAMS] |}.
  - solve_enum_complete.
  - solve_enum_nodup.
Defined.
End AwsSignatureType.
Abbreviation AwsSignatureType := AwsSignatureType.AwsSignatureType.

Module AwsSignedBodyHeaderType.
Inductive AwsSignedBodyHeaderType :=
  | NONE
  | X_AMZ_CONTENT_SHA_256.
Definition AwsSignedBodyHeaderType_value (e : AwsSignedBodyHeaderType) : Z :=
  match e with
  | NONE => 0
  | X_AMZ_CONTENT_SHA_256 => 1
  end.
#[global] Instance AwsSignedBodyHeaderType_eq_dec : EqDecision AwsSignedBodyHeaderType.
Proof. solve_decision. Defined.
#[global] Instance AwsSignedBodyHeaderType_IntEnum : IntEnum AwsSignedBodyHeaderType.
Proof.
  refine {| enum_value := AwsSignedBodyHeaderType_value; enum_members := [NONE; X_AMZ_CONTENT_SHA_256] |}.
  - solve_enum_complete.
  - solve_enum_nodup.
Defined.
End AwsSignedBodyHeaderType.
Abbreviation AwsSignedBodyHeaderType := AwsSignedBodyHeaderType.AwsSignedBodyHeaderType.

Module Credentials.

(** [AwsCredentials._NONEXPIRING_TIMESTAMP] *)
Definition _NONEXPIRING_TIMESTAMP : Z := 0xFFFFFFFFFFFFFFFF.
(** The last second of year 9999 in UTC, which [fromtimestamp] accepts. *)
Definition MAX_TIMESTAMP : Z := 253402300799.

(** What [credentials_new] is given. *)
Record AwsCredentials := mkCredentials {
  access_key_id : string;
  secret_access_key : string;
  session_token : option string;
  expiration_timestamp : Z;
}.

(** A datetime is its [timestamp()], in microseconds; [int] truncates. *)
Definition AwsCredentials_init (access_key_id secret_access_key : string) (session_token : option string)
    (expiration : option Z) : result AwsCredentials :=
  match expiration with
  | None => Ok (mkCredentials access_key_id secret_access_key session_token _NONEXPIRING_TIMESTAMP)
  | Some us =>
      let t := Z.quot us 1000000 in
      if (t <? 0) || (t >=? _NONEXPIRING_TIMESTAMP) then Raise (OverflowError "expiration datetime out of range")
      else Ok (mkCredentials access_key_id secret_access_key session_token t)
  end.

(** The property [expiration]: a datetime in UTC, in microseconds. *)
Definition expiration (c : AwsCredentials) : result (option Z) :=
  let timestamp := expiration_timestamp c in
  if timestamp =? _NONEXPIRING_TIMESTAMP then Ok None
  else if timestamp >? MAX_TIMESTAMP then Raise (ValueError "year is out of range")
  else Ok (Some (timestamp * 1000000)).

Lemma expiration_roundtrip a s t (us : Z) : 0 <= us <= MAX_TIMESTAMP * 1000000 ->
  exists c, AwsCredentials_init a s t (Some us) = Ok c /\
    exists us', expiration c = Ok (Some us') /\ us' <= us < us' + 1000000.
Proof.
  intros Hu. unfold AwsCredentials_init, expiration, MAX_TIMESTAMP, _NONEXPIRING_TIMESTAMP in *.
  rewrite Z.quot_div_nonneg by lia.
  pose proof (Z.div_mod us 1000000 ltac:(lia)). pose proof (Z.mod_pos_bound us 1000000 ltac:(lia)).
  destruct (Z.ltb_spec (us / 1000000) 0), (Z.geb_spec (us / 1000000) 0xFFFFFFFFFFFFFFFF); try lia.
  simpl. eexists. split; [done|]. simpl.
  destruct (Z.eqb_spec (us / 1000000) 18446744073709551615), (Z.gtb_spec (us / 1000000) 253402300799); try lia.
  eexists. split; [done|]. lia.
Qed.
End Credentials.

(** ** The signing configuration *)
Module Signing.

(** The keyword arguments of [AwsSigningConfig], named by [_attributes].
    Callables and providers are given by an identifier, datetimes in
    microseconds. *)
Record arguments := mkArguments {
  algorithm : AwsSigningAlgorithm;
  signature_type : AwsSignatureType;
  credentials_provider : option nat;
  region : string;
  service : string;
  date : option Z;
  should_sign_header : option nat;
  use_double_uri_encode : bool;
  should_normalize_uri_path : bool;
  signed_body_value : option string;
  signed_body_header_type : AwsSignedBodyHeaderType;
  expiration_in_seconds : option Z;
  omit_session_token : bool;
}.

(** The native binding: 0 and the empty string stand for None. *)
Record config_binding := mkBinding {
  n_algorithm : Z;
  n_signature_type : Z;
  py_credentials_provider : option nat;     (** None: the null pointer *)
  n_region : string;
  n_service : string;
  py_date : Z;
  n_use_double_uri_encode : bool;
  n_should_normalize_uri_path : bool;
  n_signed_body_value : string;
  n_signed_body_header : Z;
  n_expiration_in_seconds : Z;
  n_omit_session_token : bool;
}.

Record AwsSigningConfig := mkConfig {
  _binding : config_binding;
  _priv_should_sign_cb : option nat;
}.

(** [aws_py_signing_config_new]; the format K takes an integer modulo 2^64. *)
Definition signing_config_new (a : arguments) (date : Z) (expiration_in_seconds : Z) : config_binding := {|
  n_algorithm := enum_value (algorithm a);
  n_signature_type := enum_value (signature_type a);
  py_credentials_provider := credentials_provider a;
  n_region := region a;
  n_service := service a;
  py_date := date;
  n_use_double_uri_encode := use_double_uri_encode a;
  n_should_normalize_uri_path := should_normalize_uri_path a;
  n_signed_body_value := default EmptyString (signed_body_value a);
  n_signed_body_header := enum_value (signed_body_header_type a);
  n_expiration_in_seconds := expiration_in_seconds mod 2 ^ 64;
  n_omit_session_token := omit_session_token a;
|}.

(** [AwsSigningConfig.__init__]; [now] is the time it reads. *)
Definition AwsSigningConfig_init (now : Z) (a : arguments) : result AwsSigningConfig :=
  let? _ := assert_that (match signed_body_value a with
                         | None => true
                         | Some s => bool_decide (s <> EmptyString)
                         end) in
  let? _ := assert_that (match expiration_in_seconds a with None => true | Some e => e >? 0 end) in
  let d := match date a with None => now | Some d => d end in
  let e := match expiration_in_seconds a with None => 0 | Some e => e end in
  Ok (mkConfig (signing_config_new a d e) (should_sign_header a)).

(** The properties. *)
Definition get_algorithm (c : AwsSigningConfig) : result AwsSigningAlgorithm := enum_call (n_algorithm (_binding c)).
Definition get_signature_type (c : AwsSigningConfig) : result AwsSignatureType :=
  enum_call (n_signature_type (_binding c)).
(** [aws_py_signing_config_get_credentials_provider] returns the pointer it
    has; a null pointer without an exception makes the interpreter raise. *)
Definition get_credentials_provider (c : AwsSigningConfig) : result (option nat) :=
  match py_credentials_provider (_binding c) with
  | Some p => Ok (Some p)
  | None => Raise (BuiltinError "SystemError")
  end.
Definition get_signed_body_value (c : AwsSigningConfig) : option string :=
  let s := n_signed_body_value (_binding c) in
  if bool_decide (s = EmptyString) then None else Some s.
Definition get_signed_body_header_type (c : AwsSigningConfig) : result AwsSignedBodyHeaderType :=
  enum_call (n_signed_body_header (_binding c)).
Definition get_expiration_in_seconds (c : AwsSigningConfig) : option Z :=
  let e := n_expiration_in_seconds (_binding c) in
  if e =? 0 then None else Some e.

(** [{x: getattr(self, x) for x in AwsSigningConfig._attributes}], in order. *)
Definition attributes (c : AwsSigningConfig) : result arguments :=
  let b := _binding c in
  let? algorithm_ := get_algorithm c in
  let? signature_type_ := get_signature_type c in
  let? credentials_provider_ := get_credentials_provider c in
  let? header_type := get_signed_body_header_type c in
  Ok {|
    algorithm := algorithm_;
    signature_type := signature_type_;
    credentials_provider := credentials_provider_;
    region := n_region b;
    service := n_service b;
    date := Some (py_date b);
    should_sign_header := _priv_should_sign_cb c;
    use_double_uri_encode := n_use_double_uri_encode b;
    should_normalize_uri_path := n_should_normalize_uri_path b;
    signed_body_value := get_signed_body_value c;
    signed_body_header_type := header_type;
    expiration_in_seconds := get_expiration_in_seconds c;
    omit_session_token := n_omit_session_token b;
  |}.

(** The keyword arguments of [replace]: those given, and their values. *)
Record keywords := mkKeywords {
  k_algorithm : option AwsSigningAlgorithm;
  k_signature_type : option AwsSignatureType;
  k_credentials_provider : option (option nat);
  k_region : option string;
  k_service : option string;
  k_date : option (option Z);
  k_should_sign_header : option (option nat);
  k_use_double_uri_encode : option bool;
  k_should_normalize_uri_path : option bool;
  k_signed_body_value : option (option string);
  k_signed_body_header_type : option AwsSignedBodyHeaderType;
  k_expiration_in_seconds : option (option Z);
  k_omit_session_token : option bool;
}.
(** [kwargs.get(x, old)] for every attribute. *)
Definition override (old : arguments) (k : keywords) : arguments := {|
  algorithm := default (algorithm old) (k_algorithm k);
  signature_type := default (signature_type old) (k_signature_type k);
  credentials_provider := default (credentials_provider old) (k_credentials_provider k);
  region := default (region old) (k_region k);
  service := default (service old) (k_service k);
  date := default (date old) (k_date k);
  should_sign_header := default (should_sign_header old) (k_should_sign_header k);
  use_double_uri_encode := default (use_double_uri_encode old) (k_use_double_uri_encode k);
  should_normalize_uri_path := default (should_normalize_uri_path old) (k_should_normalize_uri_path k);
  signed_body_value := default (signed_body_value old) (k_signed_body_value k);
  signed_body_header_type := default (signed_body_header_type old) (k_signed_body_header_type k);
  expiration_in_seconds := default (expiration_in_seconds old) (k_expiration_in_seconds k);
  omit_session_token := default (omit_session_token old) (k_omit_session_token k);
|}.

(** [replace]: the current value of every attribute is read, also of those that
    are replaced. *)
Definition replace (now : Z) (c : AwsSigningConfig) (k : keywords) : result AwsSigningConfig :=
  let? old := attributes c in
  AwsSigningConfig_init now (override old k).

(** The wrapper and the native callback of [should_sign_header], by the outcome
    of the user's function: an exception counts as true. *)
Definition s_should_sign_header (user : result bool) : bool :=
  match user with Ok b => b | Raise _ => true end.

(** Arguments the constructor accepts, with an expiration that fits 64 bits. *)
Definition valid (a : arguments) : Prop :=
  signed_body_value a <> Some EmptyString /\
  match expiration_in_seconds a with None => True | Some e => 0 < e < 2 ^ 64 end.

(** The arguments with the date settled. *)
Definition with_date (now : Z) (a : arguments) : arguments :=
  {| algorithm := algorithm a; signature_type := signature_type a; credentials_provider := credentials_provider a;
     region := region a; service := service a; date := Some (default now (date a));
     should_sign_header := should_sign_header a; use_double_uri_encode := use_double_uri_encode a;
     should_normalize_uri_path := should_normalize_uri_path a; signed_body_value := signed_body_value a;
     signed_body_header_type := signed_body_header_type a; expiration_in_seconds := expiration_in_seconds a;
     omit_session_token := omit_session_token a |}.

Lemma init_ok now a : valid a -> exists c, AwsSigningConfig_init now a = Ok c.
Proof.
  intros [Hs He]. unfold AwsSigningConfig_init.
  assert (match signed_body_value a with None => true | Some s => bool_decide (s <> EmptyString) end = true) as ->.
  { destruct (signed_body_value a); [|done]. apply bool_decide_true. congruence. }
  destruct (expiration_in_seconds a) as [e|]; simpl; [|by eexists].
  destruct (Z.gtb_spec e 0); [by eexists|lia].
Qed.

Lemma init_attributes now a c : valid a -> AwsSigningConfig_init now a = Ok c ->
  attributes c = if credentials_provider a is Some _ then Ok (with_date now a) else Raise (BuiltinError "SystemError").
Proof.
  intros [Hs He] Hc. unfold AwsSigningConfig_init in Hc.
  destruct (assert_that _) in Hc; simpl in Hc; [|done].
  destruct (assert_that _) in Hc; simpl in Hc; [|done]. injection Hc as <-.
  unfold attributes, get_algorithm, get_signature_type, get_credentials_provider, get_signed_body_header_type. simpl.
  rewrite !enum_call_value. simpl. destruct (credentials_provider a) as [p|] eqn:Ep; [|done]. simpl.
  unfold with_date, get_signed_body_value, get_expiration_in_seconds. simpl. rewrite Ep. do 2 f_equal.
  - destruct (signed_body_value a) as [s|]; [|done]. simpl. rewrite bool_decide_false; [done|]. congruence.
  - destruct (expiration_in_seconds a) as [e|]; [|done]. rewrite Z.mod_small by lia.
    destruct (Z.eqb_spec e 0); [lia|done].
Qed.

(** An attribute after [replace]: what was given for it, else what it was. *)
Definition chosen {A} (given : option A) (old : A) : A := match given with Some x => x | None => old end.

(** [r] are the attributes of a configuration made from [a] at time [now] and
    replaced by [k] at time [now']. *)
Definition replaced (now now' : Z) (a : arguments) (k : keywords) (r : arguments) : Prop :=
  algorithm r = chosen (k_algorithm k) (algorithm a) /\
  signature_type r = chosen (k_signature_type k) (signature_type a) /\
  credentials_provider r = chosen (k_credentials_provider k) (credentials_provider a) /\
  region r = chosen (k_region k) (region a) /\
  service r = chosen (k_service k) (service a) /\
  date r = match k_date k with
           | Some (Some d) => Some d
           | Some None => Some now'
           | None => Some (match date a with Some d => d | None => now end)
           end /\
  should_sign_header r = chosen (k_should_sign_header k) (should_sign_header a) /\
  use_double_uri_encode r = chosen (k_use_double_uri_encode k) (use_double_uri_encode a) /\
  should_normalize_uri_path r = chosen (k_should_normalize_uri_path k) (should_normalize_uri_path a) /\
  signed_body_value r = chosen (k_signed_body_value k) (signed_body_value a) /\
  signed_body_header_type r = chosen (k_signed_body_header_type k) (signed_body_header_type a) /\
  expiration_in_seconds r = chosen (k_expiration_in_seconds k) (expiration_in_seconds a) /\
  omit_session_token r = chosen (k_omit_session_token k) (omit_session_token a).

(** What is given must be as good as for a new configuration. *)
Definition valid_keywords (k : keywords) : Prop :=
  k_signed_body_value k <> Some (Some EmptyString) /\
  match k_expiration_in_seconds k with Some (Some e) => 0 < e < 2 ^ 64 | _ => True end.

Lemma override_valid now a k : valid a -> valid_keywords k -> valid (override (with_date now a) k).
Proof.
  intros [Hs He] [Ks Ke]. unfold valid, override, with_date. simpl.
  destruct (k_signed_body_value k), (k_expiration_in_seconds k); simpl; split; try done; congruence.
Qed.

Lemma override_replaced now now' a k : replaced now now' a k (with_date now' (override (with_date now a) k)).
Proof.
  unfold replaced, with_date, override, chosen. simpl.
  split_and!; try by match goal with |- context [default _ ?o] => destruct o end.
  by destruct (k_date k) as [[d|]|], (date a).
Qed.

(** C35: A signing configuration gives its attributes back, and [replace] changes
    exactly the attributes it is told to: reading the new configuration gives,
    for each of the thirteen attributes, the value given for it, else the old
    one, a date of None being settled when the object is made, although None is stored as 0 or as an empty string
    in between. This takes a credentials provider. Without one the property
    [credentials_provider] raises SystemError (the binding returns a null
    pointer), and so does every call of [replace], even one that supplies a
    provider. *)
Theorem signing_config_replace (now now' : Z) (a : arguments) (k : keywords) (c : AwsSigningConfig)
    (Ha : valid a) (Hc : AwsSigningConfig_init now a = Ok c) :
  match credentials_provider a with
  | None => get_credentials_provider c = Raise (BuiltinError "SystemError") /\
            replace now' c k = Raise (BuiltinError "SystemError")
  | Some _ =>
      attributes c = Ok (with_date now a) /\
      (valid_keywords k ->
       exists c', replace now' c k = Ok c' /\
         (chosen (k_credentials_provider k) (credentials_provider a) <> None ->
          exists r, attributes c' = Ok r /\ replaced now now' a k r))
  end.
Proof.
  pose proof (init_attributes now a c Ha Hc) as Hat. unfold replace.
  destruct (credentials_provider a) as [p|] eqn:Ep.
  - split; [done|]. intros Hk. rewrite Hat. cbn [rbind].
    pose proof (override_valid now a k Ha Hk) as Hv.
    destruct (init_ok now' _ Hv) as [c' Hc']. exists c'. split; [done|]. intros Hp.
    exists (with_date now' (override (with_date now a) k)). split; [|apply override_replaced].
    rewrite (init_attributes now' _ c' Hv Hc'). simpl. rewrite Ep. by destruct (k_credentials_provider k) as [[|]|].
  - rewrite Hat. simpl. split; [|done]. unfold AwsSigningConfig_init in Hc.
    destruct (assert_that _) in Hc; simpl in Hc; [|done].
    destruct (assert_that _) in Hc; simpl in Hc; [|done]. injection Hc as <-.
    unfold get_credentials_provider. simpl. by rewrite Ep.
Qed.

Definition demo_arguments (provider : option nat) : arguments :=
  mkArguments AwsSigningAlgorithm.V4 AwsSignatureType.HTTP_REQUEST_HEADERS provider "us-east-1" "s3" None None
    true true None AwsSignedBodyHeaderType.NONE (Some 300) false.
Definition demo_keywords : keywords :=
  mkKeywords None None None (Some "eu-west-1"%string) None None None None None None None (Some None) None.
Definition demo_config (provider : option nat) : AwsSigningConfig :=
  mkConfig (signing_config_new (demo_arguments provider) 5 300) None.

Lemma demo_valid provider : valid (demo_arguments provider).
Proof. split; [discriminate | simpl; lia]. Defined.

Lemma signing_config_replace_witness :
  (exists c' r, replace 9 (demo_config (Some 1%nat)) demo_keywords = Ok c' /\
     attributes c' = Ok r /\ region r = "eu-west-1"%string /\ service r = "s3"%string) /\
  replace 9 (demo_config None) demo_keywords = Raise (BuiltinError "SystemError").
Proof.
  pose proof (signing_config_replace 5 9 (demo_arguments (Some 1%nat)) demo_keywords (demo_config (Some 1%nat))
    (demo_valid _) eq_refl) as [_ H1].
  pose proof (signing_config_replace 5 9 (demo_arguments None) demo_keywords (demo_config None)
    (demo_valid _) eq_refl) as [_ H2].
  split; [|exact H2].
  destruct H1 as (c' & H3 & H4); [split; [discriminate | simpl; exact I]|].
  destruct H4 as (r & H5 & _ & _ & _ & H6 & H7 & _); [discriminate|].
  exists c', r. split_and!; [exact H3|exact H5|exact H6|exact H7].
Defined.
End Signing.

(** ** Futures *)
Module AuthFutures.
Section AuthFutures.
Context `{NativeErrors}.

Definition self_future {V} : lens (future V) (future V) := Lens (fun f => f) (fun f _ => f).

(** The closures [_on_complete] of [get_credentials] and [aws_sign_request]:
    [v] is what the future is to hold on success. *)
Definition _on_complete {V} (error_code : Z) (v : result V) : M (future V) unit :=
  try_except is_Exception
    (if negb (error_code =? 0) then set_exception self_future (from_code error_code)
     else let! v := lift v in set_result self_future v)
    (fun e => set_exception self_future e).

(** [get_credentials]: an exception of the native call goes into the future;
    [aws_sign_request]: it is raised. *)
Definition get_credentials {V} (native : result unit) : result (future V) :=
  match native with
  | Ok _ => Ok Pending
  | Raise e => if is_Exception e then Ok (Finished (Raise e)) else Raise e
  end.
Definition aws_sign_request {V} (native : result unit) : result (future V) :=
  let? _ := native in Ok Pending.

(** An open future is always completed; on a closed one (the user cancelled)
    the second attempt raises as well, and the future stays as it is. *)
Lemma on_complete_settles {V} error_code (v : result V) f :
  (forall e, v = Raise e -> is_Exception e = true) ->
  _on_complete error_code v f =
  if Fut.done f then (Raise InvalidStateError, f)
  else (Ok tt, Finished (if error_code =? 0 then v else Raise (from_code error_code))).
Proof.
  intros Hv. unfold _on_complete, try_except, set_exception, set_result, bind, lift.
  destruct (error_code =? 0); simpl; [destruct v as [v|e]; simpl|];
    rewrite ?(Hv e) by done; destruct f; done.
Qed.
End AuthFutures.
End AuthFutures.

(** ** Credentials as native objects, and credentials providers *)
Module Providers.
Import Credentials.

(** The strings of the native credentials, and the getters; an empty session
    token counts as none ([s_credentials_get_member_str]). *)
Definition get_access_key_id (c : AwsCredentials) : string := access_key_id c.
Definition get_secret_access_key (c : AwsCredentials) : string := secret_access_key c.
Definition get_session_token (c : AwsCredentials) : option string :=
  match session_token c with Some EmptyString => None | t => t end.
(** [_from_binding] wraps the native object; [__deepcopy__] is the object
    itself (it is immutable). *)
Definition _from_binding (binding : AwsCredentials) : AwsCredentials := binding.
Definition deepcopy (self : AwsCredentials) : AwsCredentials := self.

(** What a custom provider's callable does when it is called: it raises, or
    returns credentials or something else. *)
Inductive returned := RCredentials (c : AwsCredentials) | ROther.

(** An element of a sequence argument: of the right class, or not. *)
Inductive login_arg := Login (provider token : string) | NotALogin.
Inductive sequence_arg (A : Type) := Sequence (l : list A) | NotASequence.
#[global] Arguments Sequence {A} _.
#[global] Arguments NotASequence {A}.

(** A provider as the native layer is asked to make it. *)
Inductive provider :=
  | ChainDefault (bootstrap : nat)
  | Static (access_key_id secret_access_key : string) (session_token : option string)
  | Profile (bootstrap : nat) (profile_name config_file_name credentials_file_name : option string)
  | Process (profile_to_use : option string)
  | Environment
  | Chain (providers : list nat)
  | Delegate (get_credentials : result returned)
  | Cognito (endpoint identity : string) (tls_ctx bootstrap : nat) (logins : list (string * string))
      (custom_role_arn : option string) (proxied : bool)
  | X509 (endpoint thing_name role_alias : string) (tls_ctx bootstrap : nat) (proxied : bool).

Section Making.
Context `{NativeErrors}.
(** The native layer's refusal of a provider, if any, and the default bootstrap. *)
Variables (native : provider -> option Z) (static_default : result nat).

(** [AwsCredentialsProvider(binding)] on the capsule made for [p] *)
Definition make (p : provider) : result provider :=
  match native p with Some e => Raise (PyErr_AwsLastError e) | None => Ok p end.

Definition bootstrap_or_default (client_bootstrap : option nat) : result nat :=
  match client_bootstrap with Some b => Ok b | None => static_default end.

Definition new_default_chain (client_bootstrap : option nat) : result provider :=
  let? b := bootstrap_or_default client_bootstrap in make (ChainDefault b).
Definition new_static (access_key_id secret_access_key : string) (session_token : option string) : result provider :=
  make (Static access_key_id secret_access_key session_token).
Definition new_profile (client_bootstrap : option nat)
    (profile_name config_filepath credentials_filepath : option string) : result provider :=
  let? b := bootstrap_or_default client_bootstrap in
  make (Profile b profile_name config_filepath credentials_filepath).
Definition new_process (profile_to_use : option string) : result provider := make (Process profile_to_use).
Definition new_environment : result provider := make Environment.

(** [aws_py_credentials_provider_new_chain]: elements are identifiers of
    providers, or None for an object of another class. *)
Fixpoint chain_elements (l : list (option nat)) : result (list nat) :=
  match l with
  | [] => Ok []
  | Some p :: l' => let? r := chain_elements l' in Ok (p :: r)
  | None :: _ => Raise (TypeError "Expected valid 'AwsCredentialsProvider'")
  end.
Definition new_chain (providers : sequence_arg (option nat)) : result provider :=
  match providers with
  | NotASequence => Raise (TypeError "Expected sequence of AwsCredentialsProviders")
  | Sequence [] => Raise (ValueError "Must supply at least one AwsCredentialsProvider.")
  | Sequence l => let? ps := chain_elements l in make (Chain ps)
  end.

Definition new_delegate (get_credentials : result returned) : result provider := make (Delegate get_credentials).

(** The loop over [logins] in [aws_py_credentials_provider_new_cognito]. *)
Fixpoint login_pairs (l : list login_arg) : result (list (string * string)) :=
  match l with
  | [] => Ok []
  | Login p t :: l' => let? r := login_pairs l' in Ok ((p, t) :: r)
  | NotALogin :: _ => Raise (TypeError "cognito credentials provider: logins[%zu] is invalid, should be type (str, str)")
  end.
Definition new_cognito (endpoint identity : string) (tls_ctx : nat) (logins : option (sequence_arg login_arg))
    (custom_role_arn : option string) (client_bootstrap : option nat) (http_proxy_options : bool)
    : result provider :=
  let? b := bootstrap_or_default client_bootstrap in
  let? ls := (match logins with
              | None => Ok []
              | Some NotASequence => Raise (TypeError "Expected sequence of login token tuples")
              | Some (Sequence l) => login_pairs l
              end) in
  make (Cognito endpoint identity tls_ctx b ls custom_role_arn http_proxy_options).

Definition new_x509 (endpoint thing_name role_alias : string) (tls_ctx : nat) (client_bootstrap : option nat)
    (http_proxy_options : bool) : result provider :=
  let? b := bootstrap_or_default client_bootstrap in
  make (X509 endpoint thing_name role_alias tls_ctx b http_proxy_options).
End Making.

(** *** Getting credentials *)
Section Getting.
Context `{NativeErrors}.

(** What [aws_credentials_provider_get_credentials] does: fail at once, or call
    back later with an error code or credentials. *)
Inductive answer := Refused (error_code : Z) | Later (r : Z + AwsCredentials).

(** The code the native library gives to that failure. *)
Variable AWS_AUTH_CREDENTIALS_PROVIDER_DELEGATE_FAILURE : Z.

(** [s_credentials_provider_delegate_get_credentials]: an exception (reported
    as unraisable) and a result that is no AwsCredentials are the same failure. *)
Definition s_credentials_provider_delegate_get_credentials (call : result returned) : answer :=
  match call with
  | Ok (RCredentials c) => Later (inr c)
  | Ok ROther | Raise _ => Refused AWS_AUTH_CREDENTIALS_PROVIDER_DELEGATE_FAILURE
  end.

(** A delegate provider answers with its function; the others are native. *)
Variable native_answer : provider -> answer.
Definition provider_answer (p : provider) : answer :=
  match p with
  | Delegate f => s_credentials_provider_delegate_get_credentials f
  | _ => native_answer p
  end.

(** [get_credentials] from the call to the end: the future the user gets, in
    the state it has after the native layer's answer. *)
Definition settled_future (p : provider) : result (future AwsCredentials) :=
  match provider_answer p with
  | Refused e => AuthFutures.get_credentials (Raise (PyErr_AwsLastError e))
  | Later r =>
      let? f := AuthFutures.get_credentials (V:=AwsCredentials) (Ok tt) in
      Ok (match r with
          | inl e => AuthFutures._on_complete e (Raise (TypeError "no credentials")) f
          | inr c => AuthFutures._on_complete 0 (Ok (_from_binding c)) f
          end).2
  end.

(** [get_credentials] never raises and settles its future with what the
    provider answers: credentials; the exception of a native error code that
    comes with the callback; and, for a custom provider whose function raises
    (whatever it raises) or returns no AwsCredentials, a RuntimeError that names
    the delegate failure, the function's own exception being lost. *)
Lemma credentials_future_settled (p : provider) :
  (forall e, provider_answer p = Later (inl e) -> e <> 0) ->
  settled_future p = Ok (Finished match p with
    | Delegate (Ok (RCredentials c)) => Ok c
    | Delegate _ => Raise (PyErr_AwsLastError AWS_AUTH_CREDENTIALS_PROVIDER_DELEGATE_FAILURE)
    | _ => match native_answer p with
           | Refused e => Raise (PyErr_AwsLastError e)
           | Later (inl e) => Raise (from_code e)
           | Later (inr c) => Ok c
           end
    end).
Proof.
  intros He. unfold settled_future.
  assert (Hr : forall e, is_Exception (PyErr_AwsLastError e) = true) by done.
  assert (Hl : forall r, provider_answer p = Later r ->
    Ok (match r with
        | inl e => AuthFutures._on_complete e (Raise (TypeError "no credentials")) Pending
        | inr c => AuthFutures._on_complete 0 (Ok (_from_binding c)) Pending
        end).2 = Ok (Finished match r with inl e => Raise (from_code e) | inr c => Ok c end)).
  { intros [e|c] Hp.
    - rewrite AuthFutures.on_complete_settles by (by intros ? [= <-]). simpl.
      specialize (He e Hp). by destruct (Z.eqb_spec e 0).
    - by rewrite AuthFutures.on_complete_settles. }
  destruct p as [| | | | | |[[c|]|x]| |]; simpl in *; try done; try (by apply (Hl (inr c))).
  all: destruct (native_answer _) as [e|r]; [done|]; simpl in *; rewrite (Hl r) by done; by destruct r.
Qed.
End Getting.

Lemma credentials_future_settled_witness :
  settled_future (H:=demo_errors) 6147 (fun _ => Later (inl 5)) (Delegate (Raise (UserBaseException 3))) =
    Ok (Finished (Raise (PyErr_AwsLastError (H:=demo_errors) 6147))) /\
  settled_future (H:=demo_errors) 6147 (fun _ => Later (inl 5)) Environment =
    Ok (Finished (Raise (from_code (H:=demo_errors) 5))).
Proof.
  split.
  - apply (credentials_future_settled (H:=demo_errors) 6147 (fun _ => Later (inl 5))). done.
  - apply (credentials_future_settled (H:=demo_errors) 6147 (fun _ => Later (inl 5))). by intros e [= <-].
Defined.
End Providers.
