(* ===== verification/AuthSigner.v ===== *)
(** * awscrt/auth.py with source/auth_signer.c: signing a request

    [aws_sign_request] starts a signing that a native thread finishes: it applies
    the result to the native message, which the request object shows
    ([HttpMessage.Messages]), and calls the closure over the future
    ([Auth.AuthFutures]). The binding keeps the request, the configuration and
    the closure alive until then. *)
From stdpp Require Export gmultiset.
From S2P Require Import Prelude PyData Future Io Http HttpMessage Auth.

Module Signer.
Import Headers HeaderEdits Messages.

(** Objects the binding refers to: a request, a signing configuration, the
    closure of call number [k]. *)
Inductive pyobj := Request (i : nat) | Config (c : nat) | Closure (k : nat).
#[global] Instance pyobj_eq_dec : EqDecision pyobj.
Proof. solve_decision. Defined.
#[global] Instance pyobj_countable : Countable pyobj.
Proof.
  refine (inj_countable' (fun o => match o with Request i => inl i | Config c => inr (inl c) | Closure k => inr (inr k) end)
    (fun c => match c with inl i => Request i | inr (inl c) => Config c | inr (inr k) => Closure k end) _).
  by intros [| |].
Defined.

(** [struct async_signing_data], by the number of its call; [has_signable]: the
    signable was made. *)
Record async_signing_data := mkData {
  py_http_request : nat;
  http_request : nat;                       (** the native message *)
  py_signing_config : nat;
  has_signable : bool;
}.

(** - [objects]: requests and messages; [futures]: of all calls so far, those
      that raised included; [accepted]: the calls the native layer took, with
      their request;
    - [jobs]: the allocated data; [refs]: references the binding owns;
      [signables]: those not destroyed; [misuse]: a reference or signable was
      given back twice, or freed data used;
    - [unraisable]: exceptions reported with PyErr_WriteUnraisable. *)
Record world (B : Type) := mkWorld {
  objects : store B;
  futures : list (future nat);
  accepted : list (nat * nat);
  jobs : gmap nat async_signing_data;
  refs : gmultiset pyobj;
  signables : gset nat;
  misuse : bool;
  unraisable : list py_exn;
}.
#[global] Arguments mkWorld {B}.
#[global] Arguments objects {B}.
#[global] Arguments futures {B}.
#[global] Arguments accepted {B}.
#[global] Arguments jobs {B}.
#[global] Arguments refs {B}.
#[global] Arguments signables {B}.
#[global] Arguments misuse {B}.
#[global] Arguments unraisable {B}.

Section Signer.
Context {EN : NativeErrors} {B : Type} {NH : NativeHeaders B} {NE : NativeHeaderEdits B}.

Definition init : world B := mkWorld Messages.empty [] [] ∅ ∅ ∅ false [].
Definition set_objects x (w : world B) : world B := mkWorld x (futures w) (accepted w) (jobs w) (refs w) (signables w) (misuse w) (unraisable w).
Definition set_futures x (w : world B) : world B := mkWorld (objects w) x (accepted w) (jobs w) (refs w) (signables w) (misuse w) (unraisable w).
Definition accept x (w : world B) : world B := mkWorld (objects w) (futures w) (accepted w ++ [x]) (jobs w) (refs w) (signables w) (misuse w) (unraisable w).
Definition set_jobs x (w : world B) : world B := mkWorld (objects w) (futures w) (accepted w) x (refs w) (signables w) (misuse w) (unraisable w).
Definition set_refs x (w : world B) : world B := mkWorld (objects w) (futures w) (accepted w) (jobs w) x (signables w) (misuse w) (unraisable w).
Definition set_signables x (w : world B) : world B := mkWorld (objects w) (futures w) (accepted w) (jobs w) (refs w) x (misuse w) (unraisable w).
Definition set_misuse (w : world B) : world B := mkWorld (objects w) (futures w) (accepted w) (jobs w) (refs w) (signables w) true (unraisable w).
Definition report x (w : world B) : world B := mkWorld (objects w) (futures w) (accepted w) (jobs w) (refs w) (signables w) (misuse w) (unraisable w ++ [x]).

Definition Py_INCREF (o : pyobj) : M (world B) unit := modify (fun w => set_refs ({[+ o +]} ⊎ refs w) w).
Definition Py_DECREF (o : pyobj) : M (world B) unit := modify (fun w =>
  if decide (o ∈ refs w) then set_refs (refs w ∖ {[+ o +]}) w else set_misuse w).
Definition aws_signable_destroy (k : nat) : M (world B) unit := modify (fun w =>
  if decide (k ∈ signables w) then set_signables (signables w ∖ {[k]}) w else set_misuse w).

Definition s_async_signing_data_destroy (k : nat) : M (world B) unit :=
  let! d := gets (fun w => jobs w !! k) in
  match d with
  | None => modify set_misuse
  | Some d =>
      do! Py_DECREF (Request (py_http_request d));
      do! Py_DECREF (Config (py_signing_config d));
      do! Py_DECREF (Closure k);
      do! (if has_signable d then aws_signable_destroy k else ret tt);
      modify (fun w => set_jobs (delete k (jobs w)) w)
  end.

(** [aws_apply_signing_result_to_http_request]: what it makes of the path and
    the header block, and its error (0: none). The native thread calls it without
    the interpreter lock; an edit by another thread comes before or after it. *)
Variable R : Type.
Variable apply : R -> option string * B -> option string * B * Z.

Definition apply_to_message (r : R) (n : nat) : M (store B) Z := fun s =>
  match natives s !! n with
  | None => (Ok 0, s)
  | Some m =>
      match blocks s !! m_headers m with
      | None => (Ok 0, s)
      | Some b =>
          let '(p, b', err) := apply r (m_path m, b) in
          (Ok err, mkStore (<[m_headers m := b']> (blocks s))
                     (<[n := mkMessage (m_method m) p (m_headers m) (m_body m)]> (natives s)) (requests s))
      end
  end.

Definition on_objects {A} (m : M (store B) A) : M (world B) A := fun w =>
  let '(r, s) := m (objects w) in (r, set_objects s w).

(** The closure [_on_complete] of call [k], over its future, for a request; an
    exception that leaves it is only reported. *)
Definition call_closure (k : nat) (error_code : Z) (http_request : nat) : M (world B) unit := fun w =>
  let w := if decide (Closure k ∈ refs w) then w else set_misuse w in
  match futures w !! k with
  | None => (Ok tt, set_misuse w)
  | Some f =>
      let '(r, f') := AuthFutures._on_complete error_code (Ok http_request) f in
      let w := set_futures (<[k := f']> (futures w)) w in
      (Ok tt, match r with Ok _ => w | Raise e => report e w end)
  end.

Definition s_signing_complete (k : nat) (error_code : Z) (signing_result : R) : M (world B) unit :=
  let! d := gets (fun w => jobs w !! k) in
  match d with
  | None => modify set_misuse
  | Some d =>
      let! error_code := (if error_code =? 0 then on_objects (apply_to_message signing_result (http_request d))
                          else ret error_code) in
      do! call_closure k error_code (py_http_request d);
      s_async_signing_data_destroy k
  end.

(** [signable_err]: of aws_signable_new_http_request; [err]: of aws_sign_request_aws. *)
Definition sign_request_aws (k http_request signing_config : nat) (signable_err err : Z) : M (world B) unit :=
  let! request := gets (fun w => requests (objects w) !! http_request) in
  match request with
  | None => raise (TypeError "Expected HttpMessageBase")
  | Some request =>
      do! Py_INCREF (Request http_request);
      do! Py_INCREF (Config signing_config);
      do! Py_INCREF (Closure k);
      do! modify (fun w => set_jobs (<[k := mkData http_request (_binding request) signing_config false]> (jobs w)) w);
      if negb (signable_err =? 0) then do! s_async_signing_data_destroy k; raise (PyErr_AwsLastError signable_err) else
      do! modify (fun w => set_signables (signables w ∪ {[k]})
        (set_jobs (<[k := mkData http_request (_binding request) signing_config true]> (jobs w)) w));
      if negb (err =? 0) then do! s_async_signing_data_destroy k; raise (PyErr_AwsLastError err)
      else modify (accept (k, http_request))
  end.

(** [aws_sign_request]: the number of the future it returns. *)
Definition aws_sign_request (http_request signing_config : nat) (signable_err err : Z) : M (world B) nat :=
  let! k := gets (fun w => length (futures w)) in
  do! modify (fun w => set_futures (futures w ++ [Pending]) w);
  do! sign_request_aws k http_request signing_config signable_err err;
  ret k.

(** What happens, in any order: the program changes requests, signs, cancels a
    future; the native layer finishes a signing it has. *)
Inductive event :=
  | Edit (o : op)
  | Sign (http_request signing_config : nat) (signable_err err : Z)
  | Signed (k : nat) (error_code : Z) (signing_result : R)
  | Cancel (k : nat).
Definition handle (e : event) : M (world B) unit :=
  match e with
  | Edit o => on_objects (run_op o)
  | Sign i c e1 e2 => do! aws_sign_request i c e1 e2; ret tt
  | Signed k e r => s_signing_complete k e r
  | Cancel k => modify (fun w => set_futures (alter (fun f => (Fut.cancel f).2) k (futures w)) w)
  end.
Definition step (w : world B) (e : event) : world B := (handle e w).2.
Definition run (l : list event) (w : world B) : world B := fold_left step l w.
Definition allowed (w : world B) (e : event) : bool :=
  match e with Signed k _ _ => bool_decide (is_Some (jobs w !! k)) | _ => true end.
Fixpoint orderly (w : world B) (l : list event) : bool :=
  match l with [] => true | e :: l' => allowed w e && orderly (step w e) l' end.

(** ** A request object stays on its message *)

Definition bound_to (i n : nat) (s : store B) : Prop := _binding <$> requests s !! i = Some n.
Definition keeps {A} (m : M (store B) A) : Prop := forall i n s, bound_to i n s -> bound_to i n (m s).2.

Lemma bound_bind {A C} (m : M (store B) A) (k : A -> M (store B) C) :
  keeps m -> (forall a, keeps (k a)) -> keeps (bind m k).
Proof.
  intros Hm Hk i n s Hs. specialize (Hm i n s Hs). unfold bind. destruct (m s) as [[a|e] s']; [by apply Hk|done].
Qed.
Lemma keeps_same {A} (m : M (store B) A) : preserves (requests (B:=B)) m -> keeps m.
Proof. intros Hm i n s Hs. unfold bound_to. by rewrite Hm. Qed.
Lemma keeps_add_request r : keeps (modify (add_request r)).
Proof.
  intros i n s Hs. unfold bound_to in *. simpl. destruct (requests s !! i) eqn:E; [|done].
  by rewrite (lookup_app_l_Some _ _ _ _ E).
Qed.
Lemma keeps_set_attribute i b : keeps (modify (set_attribute i b)).
Proof.
  intros j n s Hs. unfold bound_to in *. simpl. destruct (decide (i = j)) as [->|Hne].
  - rewrite list_lookup_alter_eq. by destruct (requests s !! j).
  - by rewrite list_lookup_alter_ne.
Qed.
Lemma same_on_block i m : preserves (requests (B:=B)) (on_block i m).
Proof. intros s. unfold on_block. destruct (blocks s !! i); [|done]. by destruct (m _). Qed.
Lemma bound_on_request i m : (forall r, keeps (m r)) -> keeps (on_request i m).
Proof.
  intros Hm. apply bound_bind; [by apply keeps_same|]. intros [r|]; [apply Hm|by apply keeps_same].
Qed.

Create HintDb objects discriminated.
#[local] Hint Resolve bound_bind keeps_add_request keeps_set_attribute bound_on_request : objects.
#[local] Hint Extern 1 (keeps (gets _)) => (apply keeps_same; done) : objects.
#[local] Hint Extern 1 (keeps (ret _)) => (apply keeps_same; done) : objects.
#[local] Hint Extern 1 (keeps (lift _)) => (apply keeps_same; done) : objects.
#[local] Hint Extern 1 (keeps (modify (add_block _))) => (apply keeps_same; done) : objects.
#[local] Hint Extern 1 (keeps (modify (add_message _))) => (apply keeps_same; done) : objects.
#[local] Hint Extern 1 (keeps (modify (alter_message _ _))) => (apply keeps_same; done) : objects.
#[local] Hint Extern 1 (keeps (on_block _ _)) => (apply keeps_same; apply same_on_block) : objects.

Lemma keeps_body_setter i st : keeps (body_stream_setter i st).
Proof. unfold body_stream_setter. auto 8 with objects. Qed.
Lemma keeps_init n h b : keeps (HttpMessageBase_init n h b).
Proof.
  unfold HttpMessageBase_init. destruct (truthy b); auto 8 using keeps_body_setter with objects.
Qed.
Lemma keeps_new_headers l : keeps (HttpHeaders_new l).
Proof.
  unfold HttpHeaders_new. apply bound_bind; [auto with objects|]. intros i.
  destruct l as [[[|]| |]|]; auto 8 with objects.
Qed.
Lemma keeps_new_request m p h b : keeps (HttpRequest_init m p h b).
Proof.
  unfold HttpRequest_init, http_message_new_request, method_setter, path_setter.
  destruct h; auto 12 using keeps_init, keeps_new_headers with objects.
Qed.
Lemma run_op_keeps o : keeps (run_op o).
Proof.
  destruct o; simpl; unfold _from_bindings, method_setter, path_setter;
    auto 8 using keeps_init, keeps_new_headers, keeps_body_setter with objects.
  - apply bound_bind; [auto with objects|]. intros n. case_match; [|auto with objects].
    apply bound_bind; [apply keeps_new_request|auto with objects].
  - apply bound_bind; [auto with objects|]. intros []; [|auto with objects].
    apply bound_bind; [apply keeps_init|auto with objects].
Qed.
Lemma apply_keeps r n : keeps (apply_to_message r n).
Proof.
  apply keeps_same. intros s. unfold apply_to_message. destruct (natives s !! n) as [m|]; [|done].
  destruct (blocks s !! m_headers m); [|done]. by destruct (apply _ _) as [[]].
Qed.

(** ** The books *)

Definition refs_of (k : nat) (d : async_signing_data) : gmultiset pyobj :=
  {[+ Request (py_http_request d) +]} ⊎ ({[+ Config (py_signing_config d) +]} ⊎ {[+ Closure k +]}).
Definition owned (js : gmap nat async_signing_data) : gmultiset pyobj :=
  map_fold (fun k d acc => refs_of k d ⊎ acc) ∅ js.

Lemma swap_refs (x y z : gmultiset pyobj) : x ⊎ (y ⊎ z) = y ⊎ (x ⊎ z).
Proof. multiset_solver. Qed.
Lemma owned_insert k d js : js !! k = None -> owned (<[k := d]> js) = refs_of k d ⊎ owned js.
Proof. intros Hk. apply (map_fold_insert_L (fun k d acc => refs_of k d ⊎ acc)); [|done]. intros. apply swap_refs. Qed.
Lemma owned_delete k d js : js !! k = Some d -> owned js = refs_of k d ⊎ owned (delete k js).
Proof. intros Hk. apply (map_fold_delete_L (fun k d acc => refs_of k d ⊎ acc)); [|done]. intros. apply swap_refs. Qed.

Lemma decref_run o X w : refs w = {[+ o +]} ⊎ X -> Py_DECREF o w = (Ok tt, set_refs X w).
Proof.
  intros Hr. unfold Py_DECREF, modify. rewrite decide_True by (rewrite Hr; multiset_solver).
  do 2 f_equal. rewrite Hr. multiset_solver.
Qed.

Lemma signer_destroy_run k d X w : jobs w !! k = Some d -> refs w = refs_of k d ⊎ X ->
  (if has_signable d then k ∈ signables w else k ∉ signables w) ->
  s_async_signing_data_destroy k w =
    (Ok tt, set_jobs (delete k (jobs w)) (set_signables (signables w ∖ {[k]}) (set_refs X w))).
Proof.
  intros Hj Hr Hs. unfold s_async_signing_data_destroy, bind at 1, gets. rewrite Hj.
  unfold bind at 1. rewrite (decref_run _ ({[+ Config (py_signing_config d) +]} ⊎ ({[+ Closure k +]} ⊎ X)))
    by (rewrite Hr; unfold refs_of; multiset_solver).
  unfold bind at 1. rewrite (decref_run _ ({[+ Closure k +]} ⊎ X)) by done.
  unfold bind at 1. rewrite (decref_run _ X) by done.
  unfold bind, aws_signable_destroy, modify, ret. destruct (has_signable d); simpl.
  - by rewrite decide_True.
  - replace (signables w ∖ {[k]}) with (signables w); [done|set_solver].
Qed.

(** What became of the future of an accepted call. *)
Definition answer_of (running : bool) (i : nat) (f : future nat) : Prop :=
  if running then f = Pending \/ f = Cancelled
  else f = Cancelled \/ f = Finished (Ok i) \/ exists e, e <> 0 /\ f = Finished (Raise (from_code e)).

Record inv (w : world B) : Prop := {
  inv_misuse : misuse w = false;
  inv_refs : refs w = owned (jobs w);
  inv_signables : signables w = dom (jobs w);
  inv_jobs : map_Forall (fun k d => has_signable d = true /\ (k, py_http_request d) ∈ accepted w /\
    bound_to (py_http_request d) (http_request d) (objects w)) (jobs w);
  inv_futures : forall k i, (k, i) ∈ accepted w ->
    exists f, futures w !! k = Some f /\ answer_of (bool_decide (k ∈ dom (jobs w))) i f;
  inv_once : NoDup (accepted w).*1;
  inv_wired : wired (objects w);
}.

Lemma signer_init_inv : inv init.
Proof.
  split; simpl; [done|unfold owned; by rewrite map_fold_empty|by rewrite dom_empty_L|apply map_Forall_empty| |
    constructor|by split].
  intros k i Hin. by apply not_elem_of_nil in Hin.
Qed.

Lemma inv_fresh w k : inv w -> (length (futures w) <= k)%nat ->
  jobs w !! k = None /\ k ∉ signables w /\ k ∉ (accepted w).*1.
Proof.
  intros Hi Hk. assert (k ∉ (accepted w).*1) as Ha.
  { intros ([k' i] & -> & Hin)%list_elem_of_fmap. simpl in Hk.
    destruct (inv_futures _ Hi _ _ Hin) as (f & Hf%lookup_lt_Some & _). lia. }
  assert (jobs w !! k = None) as Hj.
  { destruct (jobs w !! k) as [d|] eqn:E; [|done]. destruct (inv_jobs _ Hi k d E) as (_ & Hin & _).
    destruct Ha. by apply (list_elem_of_fmap_2 fst) in Hin. }
  split_and!; [done| |done]. rewrite (inv_signables _ Hi). by apply not_elem_of_dom.
Qed.

(** Another future, pending, whose call is not accepted (yet). *)
Lemma inv_new_future w : inv w -> inv (set_futures (futures w ++ [Pending]) w).
Proof.
  intros [H1 H2 H3 H4 H5 H6 H7]. split; simpl; try done.
  intros k i Hin. destruct (H5 k i Hin) as (f & Hf & Ha). exists f. split; [by apply lookup_app_l_Some|done].
Qed.

(** A call the native layer takes. *)
Definition taken (k i n c : nat) (w : world B) : world B :=
  let d := mkData i n c true in
  mkWorld (objects w) (futures w) (accepted w ++ [(k, i)]) (<[k := d]> (jobs w)) (refs_of k d ⊎ refs w)
    (signables w ∪ {[k]}) (misuse w) (unraisable w).

Lemma refs_three k d X :
  {[+ Closure k +]} ⊎ ({[+ Config (py_signing_config d) +]} ⊎ ({[+ Request (py_http_request d) +]} ⊎ X)) =
  refs_of k d ⊎ X.
Proof. unfold refs_of. multiset_solver. Qed.

Ltac fields := cbn [fst snd objects futures accepted jobs refs signables misuse unraisable accept set_signables set_jobs
  set_refs has_signable].

Lemma sign_run k i c e1 e2 w : jobs w !! k = None -> k ∉ signables w ->
  (sign_request_aws k i c e1 e2 w).2 =
    match requests (objects w) !! i with
    | Some r => if (e1 =? 0) && (e2 =? 0) then taken k i (_binding r) c w else w
    | None => w
    end.
Proof.
  intros Hj Hs. unfold sign_request_aws, bind at 1, gets. destruct (requests (objects w) !! i) as [r|]; [|done].
  destruct w as [ob fu ac js rf sg mi un]. cbn [objects jobs signables] in *.
  assert (sg ∖ {[k]} = sg) as E1 by set_solver. assert ((sg ∪ {[k]}) ∖ {[k]} = sg) as E2 by set_solver.
  unfold Py_INCREF, bind at 1, modify at 1. unfold bind at 1, modify at 1. unfold bind at 1, modify at 1.
  unfold bind at 1, modify at 1. fields. destruct (e1 =? 0) eqn:He1; cbn [negb andb].
  - unfold bind at 1, modify at 1. fields. rewrite insert_insert_eq. destruct (e2 =? 0) eqn:He2; cbn [negb].
    + unfold modify, taken. fields. by rewrite <- (refs_three k (mkData i (_binding r) c true)).
    + unfold bind. rewrite (signer_destroy_run k (mkData i (_binding r) c true) rf); fields.
      * unfold raise. fields. rewrite delete_insert_id by done. by rewrite E2.
      * by rewrite lookup_insert_eq.
      * by rewrite <- (refs_three k (mkData i (_binding r) c true)).
      * set_solver.
  - unfold bind. rewrite (signer_destroy_run k (mkData i (_binding r) c false) rf); fields.
    + unfold raise. fields. rewrite delete_insert_id by done. by rewrite E1.
    + by rewrite lookup_insert_eq.
    + by rewrite <- (refs_three k (mkData i (_binding r) c false)).
    + done.
Qed.

Lemma inv_taken k i c r f w : inv w -> jobs w !! k = None -> k ∉ (accepted w).*1 -> futures w !! k = Some f ->
  f = Pending -> requests (objects w) !! i = Some r -> inv (taken k i (_binding r) c w).
Proof.
  intros [H1 H2 H3 H4 H5 H6 H7] Hj Ha Hf -> Hr. split; simpl; try done.
  - by rewrite owned_insert, H2.
  - rewrite dom_insert_L, H3. set_solver.
  - apply map_Forall_insert; [done|]. split.
    + simpl. split_and!; [done|set_solver|]. unfold bound_to. by rewrite Hr.
    + intros k' d Hk'. destruct (H4 k' d Hk') as (E1 & E2 & E3). split_and!; [done|set_solver|done].
  - intros k' i' [Hin|[= -> ->]%list_elem_of_singleton]%elem_of_app.
    + destruct (H5 k' i' Hin) as (f & Hf' & Hans). exists f. split; [done|].
      assert (k' <> k) as Hne by (intros ->; by apply (list_elem_of_fmap_2 fst) in Hin).
      rewrite dom_insert_L. destruct (decide (k' ∈ dom (jobs w))).
      * rewrite bool_decide_eq_true_2 in Hans |- * by set_solver. done.
      * rewrite bool_decide_eq_false_2 in Hans |- * by set_solver. done.
    + exists Pending. split; [done|]. rewrite bool_decide_eq_true_2 by (rewrite dom_insert_L; set_solver). by left.
  - rewrite fmap_app. apply NoDup_app. split_and!; [done| |apply NoDup_singleton]. set_solver.
Qed.

(** The result of a signing on the message. *)
Definition signed_store (n : nat) (m : message) (p : option string) (b : B) (s : store B) : store B :=
  mkStore (<[m_headers m := b]> (blocks s)) (<[n := mkMessage (m_method m) p (m_headers m) (m_body m)]> (natives s))
    (requests s).

Lemma apply_run r n m b p b' rc s : natives s !! n = Some m -> blocks s !! m_headers m = Some b ->
  apply r (m_path m, b) = (p, b', rc) -> apply_to_message r n s = (Ok rc, signed_store n m p b' s).
Proof. intros Hm Hb Ha. unfold apply_to_message. by rewrite Hm, Hb, Ha. Qed.

Lemma signed_wired n m p b s : wired s -> natives s !! n = Some m -> wired (signed_store n m p b s).
Proof.
  intros [H1 H2] Hm. split; simpl.
  - rewrite length_insert. apply Forall_insert; [done|]. simpl. by apply (Forall_lookup_1 _ _ _ _ H1 Hm).
  - eapply Forall_impl; [exact H2|]. intros r (m' & Hl & Hh & Hbody). unfold request_ok. simpl.
    destruct (decide (n = _binding r)) as [->|Hne].
    + rewrite list_lookup_insert_eq by (by eapply lookup_lt_Some). eexists. split; [done|]. simpl.
      assert (m' = m) as -> by congruence. done.
    + rewrite list_lookup_insert_ne by done. eauto.
Qed.

(** Completing the signing of call [k]: [s] is the store after it, [code] the
    error the closure is called with. *)
Definition finished (k : nat) (d : async_signing_data) (code : Z) (s : store B) (f : future nat) (w : world B)
    : world B :=
  mkWorld s
    (<[k := if Fut.done f then f
            else Finished (if code =? 0 then Ok (py_http_request d) else Raise (from_code code))]> (futures w))
    (accepted w) (delete k (jobs w)) (owned (delete k (jobs w))) (signables w ∖ {[k]}) (misuse w)
    (unraisable w ++ if Fut.done f then [InvalidStateError] else []).

Lemma signer_complete_run k e r d f code s w : inv w -> jobs w !! k = Some d -> futures w !! k = Some f ->
  (if e =? 0 then on_objects (apply_to_message r (http_request d)) else ret e) w = (Ok code, set_objects s w) ->
  step w (Signed k e r) = finished k d code s f w.
Proof.
  intros Hi Hj Hf Hc. unfold step, handle, s_signing_complete, bind at 1, gets. rewrite Hj.
  unfold bind at 1. rewrite Hc. unfold bind at 1.
  assert (refs w = refs_of k d ⊎ owned (delete k (jobs w))) as Hr by (by rewrite (inv_refs _ Hi), <- owned_delete).
  destruct (inv_jobs _ Hi k d Hj) as (Hsig & _).
  assert (Closure k ∈ refs w) as Hcl by (rewrite Hr; unfold refs_of; multiset_solver).
  unfold call_closure. cbn [refs set_objects futures]. rewrite decide_True by done.
  cbn [refs set_objects futures]. rewrite Hf. rewrite AuthFutures.on_complete_settles by done.
  assert (k ∈ signables w) as Hk by (rewrite (inv_signables _ Hi); by eapply elem_of_dom_2).
  unfold finished.
  destruct (Fut.done f); erewrite (signer_destroy_run k d (owned (delete k (jobs w)))); try done; try by rewrite Hsig.
  cbn [snd]. by rewrite app_nil_r.
Qed.

Lemma job_objects w k d : inv w -> jobs w !! k = Some d ->
  exists req m b, requests (objects w) !! py_http_request d = Some req /\ _binding req = http_request d /\
    natives (objects w) !! http_request d = Some m /\ m_headers m = _headers req /\
    blocks (objects w) !! m_headers m = Some b.
Proof.
  intros Hi Hj. destruct (inv_jobs _ Hi k d Hj) as (_ & _ & Hb). destruct (inv_wired _ Hi) as [W1 W2].
  unfold bound_to in Hb. destruct (requests (objects w) !! py_http_request d) as [req|] eqn:Hr; [|done].
  injection Hb as Hb. destruct (Forall_lookup_1 _ _ _ _ W2 Hr) as (m & Hm & Hh & _). rewrite Hb in Hm.
  destruct (lookup_lt_is_Some_2 _ _ (Forall_lookup_1 _ _ _ _ W1 Hm)) as [b Hblk]. by exists req, m, b.
Qed.

Lemma job_future w k d : inv w -> jobs w !! k = Some d ->
  exists f, futures w !! k = Some f /\ (f = Pending \/ f = Cancelled).
Proof.
  intros Hi Hj. destruct (inv_jobs _ Hi k d Hj) as (_ & Ha & _).
  destruct (inv_futures _ Hi _ _ Ha) as (f & Hf & Hans).
  rewrite bool_decide_eq_true_2 in Hans by (by eapply elem_of_dom_2). eauto.
Qed.

Lemma inv_finished k d code s f w : inv w -> jobs w !! k = Some d -> futures w !! k = Some f ->
  wired s -> (forall i n, bound_to i n (objects w) -> bound_to i n s) -> inv (finished k d code s f w).
Proof.
  intros Hi Hj Hf Hs Hb. pose proof Hi as [H1 H2 H3 H4 H5 H6 H7]. split; simpl; try done.
  - by rewrite dom_delete_L, H3.
  - intros k' d' Hk'. apply lookup_delete_Some in Hk' as [_ Hk'].
    destruct (H4 k' d' Hk') as (E1 & E2 & E3). auto.
  - intros k' i Hin. destruct (H5 k' i Hin) as (f' & Hf' & Hans). rewrite dom_delete_L.
    destruct (decide (k' = k)) as [->|Hne].
    + assert (f' = f) as -> by congruence. rewrite list_lookup_insert_eq by (by eapply lookup_lt_Some).
      eexists. split; [done|]. rewrite bool_decide_eq_false_2 by set_solver.
      destruct (H4 k d Hj) as (_ & Hin' & _). rewrite bool_decide_eq_true_2 in Hans by (by eapply elem_of_dom_2).
      assert (py_http_request d = i) as <-.
      { apply list_elem_of_lookup in Hin as [x Hx]. apply list_elem_of_lookup in Hin' as [y Hy].
        assert (x = y) as ->; [|congruence].
        eapply (NoDup_lookup _ _ _ k H6); rewrite list_lookup_fmap; [by rewrite Hx|by rewrite Hy]. }
      destruct Hans as [-> | ->]; simpl; [|by left]. right. destruct (Z.eqb_spec code 0); eauto.
    + rewrite list_lookup_insert_ne by done. exists f'. split; [done|].
      destruct (decide (k' ∈ dom (jobs w))).
      * rewrite bool_decide_eq_true_2 in Hans |- * by set_solver. done.
      * rewrite bool_decide_eq_false_2 in Hans |- * by set_solver. done.
Qed.

Lemma inv_edit o w : inv w -> inv (step w (Edit o)).
Proof.
  intros [H1 H2 H3 H4 H5 H6 H7]. unfold step, handle, on_objects.
  pose proof (run_op_wired o (objects w) H7) as Hw. pose proof (run_op_keeps o) as Hk.
  destruct (run_op o (objects w)) as [r s] eqn:E. split; simpl; try done.
  - intros k d Hj. destruct (H4 k d Hj) as (E1 & E2 & E3). split_and!; [done..|].
    specialize (Hk _ _ _ E3). by rewrite E in Hk.
Qed.

Lemma inv_cancel k w : inv w -> inv (step w (Cancel k)).
Proof.
  intros [H1 H2 H3 H4 H5 H6 H7]. split; simpl; try done.
  intros k' i Hin. destruct (H5 k' i Hin) as (f & Hf & Hans). destruct (decide (k = k')) as [->|Hne].
  - rewrite list_lookup_alter_eq, Hf. simpl. eexists. split; [done|].
    case_bool_decide; simpl in *; [destruct Hans as [-> | ->]; auto|].
    destruct Hans as [-> | [-> | (e & ? & ->)]]; eauto.
  - rewrite list_lookup_alter_ne by done. eauto.
Qed.

Lemma inv_sign i c e1 e2 w : inv w -> inv (step w (Sign i c e1 e2)).
Proof.
  intros Hi. unfold step, handle, aws_sign_request. unfold bind at 1. unfold bind at 1, gets.
  unfold bind at 1, modify. set (k := length (futures w)). set (w1 := set_futures (futures w ++ [Pending]) w).
  assert (inv w1) as Hi1 by by apply inv_new_future.
  destruct (inv_fresh w k Hi) as (F1 & F2 & F3); [done|].
  pose proof (sign_run k i c e1 e2 w1 F1 F2) as Hs.
  assert (inv (sign_request_aws k i c e1 e2 w1).2) as Hi2.
  { rewrite Hs. destruct (requests (objects w1) !! i) as [r|] eqn:Hr; [|done]. destruct (_ && _); [|done].
    apply (inv_taken k i c r Pending); try done. simpl. subst k. by rewrite lookup_app_r, Nat.sub_diag. }
  unfold bind, ret. by destruct (sign_request_aws k i c e1 e2 w1) as [[[]|] w2].
Qed.

(** What finishing a signing does, in the terms of the program: [code] is the
    error the future reports. *)
Lemma signed_step k e r d w : inv w -> jobs w !! k = Some d ->
  exists req m b f, requests (objects w) !! py_http_request d = Some req /\
    natives (objects w) !! _binding req = Some m /\ m_headers m = _headers req /\
    blocks (objects w) !! _headers req = Some b /\ futures w !! k = Some f /\
    let '(p, b', rc) := apply r (m_path m, b) in
    step w (Signed k e r) =
      finished k d (if e =? 0 then rc else e)
        (if e =? 0 then signed_store (_binding req) m p b' (objects w) else objects w) f w.
Proof.
  intros Hi Hj. destruct (job_objects w k d Hi Hj) as (req & m & b & R1 & R2 & R3 & R4 & R5).
  destruct (job_future w k d Hi Hj) as (f & Hf & _). exists req, m, b, f.
  rewrite R4 in R5. split_and!; [done|by rewrite R2|done..|].
  destruct (apply r (m_path m, b)) as [[p b'] rc] eqn:Ha. apply (signer_complete_run k e r d f); try done.
  destruct (e =? 0); unfold on_objects; [|by destruct w].
  erewrite apply_run; [rewrite R2; done|done|by rewrite R4|done].
Qed.

Lemma inv_signed k e r w : inv w -> allowed w (Signed k e r) = true -> inv (step w (Signed k e r)).
Proof.
  intros Hi [d Hj]%bool_decide_eq_true.
  destruct (signed_step k e r d w Hi Hj) as (req & m & b & f & R1 & R2 & R3 & R4 & Hf & Hs).
  destruct (apply r (m_path m, b)) as [[p b'] rc]. rewrite Hs. pose proof (inv_wired _ Hi) as Hw.
  apply inv_finished; [done..| |]; destruct (e =? 0); auto using signed_wired.
Qed.

Lemma signer_inv_step e w : inv w -> allowed w e = true -> inv (step w e).
Proof. destruct e; auto using inv_edit, inv_sign, inv_signed, inv_cancel. Qed.
Lemma signer_inv_run l w : inv w -> orderly w l = true -> inv (run l w).
Proof.
  revert w. induction l as [|e l IH]; intros w Hi Ho; simpl in *; [done|].
  apply andb_true_iff in Ho as [Ha Ho]. apply IH; [by apply signer_inv_step|done].
Qed.

(** C29: Every signing is answered once, by the request that was signed. Whatever
    a program does meanwhile (it edits the request through any object that
    shares it, signs it again, cancels a future), in any order of native
    completions: the binding owns exactly the references of the signings under
    way; the future of a call it took is open, or cancelled, while the signing
    runs, and when that ends becomes the request, or the exception of a non-zero
    error, unless it was cancelled. A signing that succeeds has put its result
    on the request as it is then: the object in the future shows the new path
    and headers and they are what will be sent. One that failed in the native
    signer changed nothing. *)
Theorem signing_answered (l : list event) (Hl : orderly init l = true) :
  let w := run l init in
  misuse w = false /\ refs w = owned (jobs w) /\ signables w = dom (jobs w) /\ NoDup (accepted w).*1 /\
  (forall k i, (k, i) ∈ accepted w ->
     exists f, futures w !! k = Some f /\ answer_of (bool_decide (k ∈ dom (jobs w))) i f) /\
  (forall k d e r, jobs w !! k = Some d ->
     let w' := step w (Signed k e r) in
     (k, py_http_request d) ∈ accepted w /\ jobs w' = delete k (jobs w) /\
     exists req m b f, requests (objects w) !! py_http_request d = Some req /\
       natives (objects w) !! _binding req = Some m /\ blocks (objects w) !! _headers req = Some b /\
       futures w !! k = Some f /\
       let '(p, b', rc) := apply r (m_path m, b) in
       let code := if e =? 0 then rc else e in
       futures w' !! k = Some (if Fut.done f then f else
         Finished (if code =? 0 then Ok (py_http_request d) else Raise (from_code code))) /\
       (e <> 0 -> objects w' = objects w) /\
       (e = 0 -> requests (objects w') !! py_http_request d = Some req /\
          sent (objects w') (_binding req) = Some (method (objects w') req, p, headers_items b', m_body m) /\
          path (objects w') req = p /\ headers_of (objects w') req = Some (Ok (headers_items b')))).
Proof.
  cbv zeta. pose proof (signer_inv_run l init signer_init_inv Hl) as Hi. pose proof Hi as [H1 H2 H3 H4 H5 H6 H7].
  split_and!; try done. intros k d e r Hj. destruct (H4 k d Hj) as (_ & Ha & _). split; [done|].
  destruct (signed_step k e r d _ Hi Hj) as (req & m & b & f & R1 & R2 & R3 & R4 & Hf & Hs).
  destruct (apply r (m_path m, b)) as [[p b'] rc] eqn:Happ. rewrite Hs. split; [done|].
  exists req, m, b, f. rewrite Happ. split_and!; try done.
  - cbn [finished futures]. by rewrite list_lookup_insert_eq by (by eapply lookup_lt_Some).
  - intros He. destruct (Z.eqb_spec e 0); done.
  - intros ->. simpl. split; [done|]. unfold sent, method, path, headers_of, signed_store.
    cbn [natives blocks]. rewrite list_lookup_insert_eq by (by eapply lookup_lt_Some).
    assert ((<[m_headers m:=b']> (blocks (objects (run l init)))) !! _headers req = Some b') as Hb'
      by (rewrite R3, list_lookup_insert_eq by (by eapply lookup_lt_Some); done).
    simpl. rewrite R3 in Hb' |- *. rewrite Hb'. simpl. by rewrite iter_items.
Qed.
End Signer.

(** A signer that adds a header. *)
Definition demo_apply (signature : string) (x : option string * list (string * string))
    : option string * list (string * string) * Z := (x.1, x.2 ++ [("Authorization", signature)]%string, 0).
Definition demo_run : list (event string) :=
  [ Edit _ (NewHeaders (Some (ASequence [APair "Host" "h"])));
    Edit _ (NewRequest "GET" "/" (Some 0%nat) no_body);
    Sign _ 0 7 0 0;
    Edit _ (EditHeaders 0 (AddPairs (ASequence [APair "a" "1"]))) ].
Abbreviation demo_world := (run (EN:=demo_errors) (B:=list (string * string)) string demo_apply demo_run init).

(** A header added while the signing runs is in the request it resolves to. *)
Lemma signing_answered_witness :
  exists w' req, w' = step (EN:=demo_errors) string demo_apply demo_world (Signed _ 0 0 "sig"%string) /\
    futures w' !! 0%nat = Some (Finished (Ok 0%nat)) /\ requests (objects w') !! 0%nat = Some req /\
    headers_of (objects w') req = Some (Ok [("Host", "h"); ("a", "1"); ("Authorization", "sig")]%string).
Proof.
  destruct (signing_answered (EN:=demo_errors) (B:=list (string * string)) string demo_apply demo_run
    ltac:(vm_compute; reflexivity)) as (_ & _ & _ & _ & _ & H).
  destruct (H 0%nat (mkData 0 0 7 true) 0 "sig"%string ltac:(vm_compute; reflexivity))
    as (_ & _ & req & m & b & f & R1 & R2 & R3 & Hf & Hrest).
  vm_compute in R1. injection R1 as <-. vm_compute in R2. injection R2 as <-. vm_compute in R3. injection R3 as <-.
  vm_compute in Hf. injection Hf as <-. cbn [demo_apply fst snd m_path] in Hrest.
  destruct Hrest as (H1 & _ & H2). destruct (H2 eq_refl) as (H3 & _ & _ & H4).
  eexists _, _. split; [reflexivity|]. split; [exact H1|]. split; [exact H3|exact H4].
Defined.
End Signer.
