(* ===== verification/S3Native.v ===== *)
(** * awscrt/s3.py with source/s3_client.c and s3_meta_request.c

    [Lock]: [CrossProcessLock] over the operating system's named locks.
    [Progress]: how the binding batches the bytes transferred before it tells
    Python, and the end of a request. [Making]: clients and requests as the
    native layer gets them, and which signing configuration is used. *)
From S2P Require Import Prelude PyData Future S3 Auth.

(** ** Locks between processes *)
Module Lock.

(** The operating system's locks, by name: [try_acquire] fails with the code of
    AWS_MUTEX_CALLER_NOT_OWNER when the name is taken, by this process or
    another one. *)
Class NativeLocks (W : Type) := {
  owned : W -> string -> bool;
  try_acquire : W -> string -> Z + W;
  release_lock : W -> string -> W;
  try_acquire_law : forall w n, match try_acquire w n with
    | inl _ => owned w n = true
    | inr w' => owned w n = false /\ forall m, owned w' m = bool_decide (m = n) || owned w m
    end;
  release_law : forall w n m, owned (release_lock w n) m = negb (bool_decide (m = n)) && owned w m;
}.

(** A lock object: [cross_process_lock_binding] with its name and whether it has
    the lock. The objects of all processes are in one list. *)
Record CrossProcessLock := mkLock { lock_scope_name : string; lock : bool }.
Record state (W : Type) := mkState { system : W; objects : list CrossProcessLock }.
#[global] Arguments mkState {W} _ _.
#[global] Arguments system {W} _.
#[global] Arguments objects {W} _.

Section Ops.
Context {EN : NativeErrors} {W : Type} {NL : NativeLocks W}.

Definition CrossProcessLock_init (lock_scope_name : string) : M (state W) nat :=
  let! i := gets (fun s => length (objects s)) in
  do! modify (fun s => mkState (system s) (objects s ++ [mkLock lock_scope_name false]));
  ret i.

Definition set_lock (i : nat) (held : bool) (w : W) (s : state W) : state W :=
  mkState w (alter (fun l => mkLock (lock_scope_name l) held) i (objects s)).

(** An object that has the lock already keeps it. *)
Definition acquire (i : nat) : M (state W) unit := fun s =>
  match objects s !! i with
  | None => (Ok tt, s)
  | Some l =>
      if lock l then (Ok tt, s)
      else match try_acquire (system s) (lock_scope_name l) with
           | inl e => (Raise (PyErr_AwsLastError e), s)
           | inr w => (Ok tt, set_lock i true w s)
           end
  end.

Definition release (i : nat) : M (state W) unit := fun s =>
  match objects s !! i with
  | Some (mkLock n true) => (Ok tt, set_lock i false (release_lock (system s) n) s)
  | _ => (Ok tt, s)
  end.

Definition enter := acquire.
Definition exit := release.

(** [with lock: body] *)
Definition with_lock {A} (i : nat) (body : M (state W) A) : M (state W) A :=
  do! enter i; try_finally body (exit i).

(** The capsule's destructor gives the lock back. *)
Definition s_s3_cross_process_lock_destructor := release.

Inductive op := New (name : string) | Acquire (i : nat) | Release (i : nat) | Destroy (i : nat).
Definition run_op (o : op) : M (state W) unit :=
  match o with
  | New n => do! CrossProcessLock_init n; ret tt
  | Acquire i => acquire i
  | Release i => release i
  | Destroy i => s_s3_cross_process_lock_destructor i
  end.
Definition run_ops (l : list op) (s : state W) : state W := fold_left (fun s o => (run_op o s).2) l s.

(** The object [i] has the lock of name [n]. *)
Definition holds (s : state W) (i : nat) (n : string) : Prop := objects s !! i = Some (mkLock n true).
Record consistent (s : state W) : Prop := {
  holds_owned : forall i n, holds s i n -> owned (system s) n = true;
  holds_unique : forall i j n, holds s i n -> holds s j n -> i = j;
}.

Lemma holds_alter s i b w j n : holds (set_lock i b w s) j n ->
  if decide (i = j) then b = true /\ exists l, objects s !! i = Some l /\ lock_scope_name l = n else holds s j n.
Proof.
  unfold holds, set_lock. simpl. destruct (decide (i = j)) as [<-|Hne].
  - rewrite list_lookup_alter_eq. destruct (objects s !! i) as [l|]; simpl; [|done].
    intros [= <- ->]. eauto.
  - by rewrite list_lookup_alter_ne.
Qed.

Lemma acquire_consistent i s : consistent s -> consistent (acquire i s).2.
Proof.
  intros [Ho Hu]. unfold acquire. destruct (objects s !! i) as [[n h]|] eqn:Hi; [|done]. simpl.
  destruct h; [done|]. pose proof (try_acquire_law (system s) n) as Hl.
  destruct (try_acquire (system s) n) as [e|w]; [done|]. destruct Hl as [Hf Hw]. simpl.
  assert (Hnew : forall j m, holds (set_lock i true w s) j m -> (j = i /\ m = n) \/ (j <> i /\ holds s j m)).
  { intros j m Hj. apply holds_alter in Hj. destruct (decide (i = j)) as [<-|Hne]; [|auto].
    destruct Hj as (_ & l & Hl & <-). rewrite Hi in Hl. injection Hl as <-. by left. }
  assert (Hno : forall j, ~ holds s j n) by (intros j Hj%Ho; congruence).
  split.
  - intros j m Hj. simpl. rewrite Hw. apply orb_true_iff. destruct (Hnew j m Hj) as [[_ ->]|[_ Hh]].
    + left. by apply bool_decide_eq_true.
    + right. by apply (Ho j).
  - intros j k m Hj Hk. destruct (Hnew j m Hj) as [[-> Hm]|[_ Hj']], (Hnew k m Hk) as [[-> Hm']|[_ Hk']]; subst.
    + done.
    + by destruct (Hno k).
    + by destruct (Hno j).
    + by apply (Hu j k m).
Qed.

Lemma release_consistent i s : consistent s -> consistent (release i s).2.
Proof.
  intros [Ho Hu]. unfold release. destruct (objects s !! i) as [[n []]|] eqn:Hi; [|done..]. simpl.
  assert (Hold : forall w j m, holds (set_lock i false w s) j m -> j <> i /\ holds s j m).
  { intros w j m Hj. apply holds_alter in Hj. by destruct (decide (i = j)) as [<-|Hne]; [destruct Hj|]. }
  split.
  - intros j m Hj. simpl. apply Hold in Hj as [Hne Hj]. rewrite release_law, (Ho j m Hj), andb_true_r.
    apply negb_true_iff, bool_decide_eq_false. intros ->. by apply Hne, (Hu j i n).
  - intros j k m Hj Hk. apply Hold in Hj as [_ Hj]. apply Hold in Hk as [_ Hk]. by apply (Hu j k m).
Qed.

Lemma run_op_consistent o s : consistent s -> consistent (run_op o s).2.
Proof.
  destruct o as [n|i|i|i]; simpl; intros Hs.
  - destruct Hs as [Ho Hu]. unfold holds in *. split; unfold holds; simpl.
    + intros i m Hi. apply lookup_app_Some in Hi as [Hi|[_ Hi]]; [by apply (Ho i)|].
      by apply list_lookup_singleton_Some in Hi as [_ Hi].
    + intros i j m Hi Hj. apply lookup_app_Some in Hi as [Hi|[_ Hi]], Hj as [Hj|[_ Hj]];
        [by apply (Hu i j m)|..]; exfalso.
      all: repeat match goal with H : [_] !! _ = Some _ |- _ => apply list_lookup_singleton_Some in H as [_ H]; done end.
  - by apply acquire_consistent.
  - by apply release_consistent.
  - by apply release_consistent.
Qed.

Lemma run_ops_consistent l s : consistent s -> consistent (run_ops l s).
Proof.
  unfold run_ops. revert s. induction l as [|o l IH]; intros s Hs; [done|]. apply IH. by apply run_op_consistent.
Qed.

Lemma holds_excludes s i n : consistent s -> holds s i n -> exists e, try_acquire (system s) n = inl e.
Proof.
  intros [Ho _] Hi. pose proof (try_acquire_law (system s) n) as Hl.
  destruct (try_acquire (system s) n) as [e|w]; [by exists e|]. destruct Hl as [Hf _].
  specialize (Ho i n Hi). congruence.
Qed.

(** C37: A [with] block on a cross-process lock has the lock to itself: after
    any history of lock objects made, acquired, released and destroyed in any
    processes, a block on an object without the lock either raises RuntimeError
    and does not run its body (always so if another object has a lock of that
    name), or runs it in a state where this object has the lock and no other
    does; afterwards the object has no lock, whatever the body did, and the
    outcome is the body's. *)
Theorem with_lock_exclusive {A} (w : W) (l : list op) (i : nat) (n : string) (body : M (state W) A)
    (Hi : objects (run_ops l (mkState w [])) !! i = Some (mkLock n false)) :
  let s := run_ops l (mkState w []) in
  ((exists e, with_lock i body s = (Raise (PyErr_AwsLastError e), s)) \/
   ((forall j, ~ holds s j n) /\
    exists s1, holds s1 i n /\ (forall j, holds s1 j n -> j = i) /\
      (with_lock i body s).1 = (body s1).1 /\ forall m, ~ holds (with_lock i body s).2 i m)).
Proof.
  cbv zeta. assert (Hs : consistent (run_ops l (mkState w []))) by (apply run_ops_consistent; by split).
  revert Hi Hs. generalize (run_ops l (mkState w [])). intros s Hi Hs.
  pose proof (acquire_consistent i s Hs) as Hs1.
  unfold with_lock, enter, bind. unfold acquire in *. rewrite Hi in *. simpl in *.
  destruct (try_acquire (system s) n) as [e|w1] eqn:Ht; [left; by exists e|right].
  split. { intros j Hj. destruct (holds_excludes s j n Hs Hj) as [e He]. congruence. }
  assert (Hh : holds (set_lock i true w1 s) i n)
    by (unfold holds, set_lock; simpl; by rewrite list_lookup_alter_eq, Hi).
  exists (set_lock i true w1 s). split_and!; [done| | |].
  - intros j Hj. by apply (holds_unique _ Hs1 j i n).
  - simpl. unfold try_finally. destruct (body (set_lock i true w1 s)) as [r s2]. simpl.
    unfold exit, release. by destruct (objects s2 !! i) as [[m []]|].
  - intros m. simpl. unfold try_finally. destruct (body (set_lock i true w1 s)) as [r s2]. simpl.
    unfold exit, release. destruct (objects s2 !! i) as [[k []]|] eqn:E; simpl;
      intros Hm; unfold holds in Hm; simpl in Hm; try congruence.
    by rewrite list_lookup_alter_eq, E in Hm.
Qed.
End Ops.

(** The locks as the list of the names taken. *)
#[global] Instance list_locks : NativeLocks (list string).
Proof.
  refine {|
    owned := fun w n => bool_decide (n ∈ w);
    try_acquire := fun w n => if bool_decide (n ∈ w) then inl 47 else inr (n :: w);
    release_lock := fun w n => List.filter (fun m => negb (bool_decide (m = n))) w |}.
  - intros w n. case_bool_decide as Hn; [done|]. split; [done|]. intros m.
    apply eq_true_iff_eq. rewrite orb_true_iff, !bool_decide_eq_true, !list_elem_of_In. simpl.
    intuition congruence.
  - intros w n m. apply eq_true_iff_eq. rewrite andb_true_iff, !bool_decide_eq_true.
    rewrite !list_elem_of_In, List.filter_In. tauto.
Defined.

Lemma with_lock_exclusive_witness :
  (with_lock (EN:=demo_errors) (W:=list string) 1 (ret tt)
    (run_ops (EN:=demo_errors) [New "a"; New "a"; Acquire 0; Release 0] (mkState [] []))).1 = Ok tt.
Proof.
  destruct (with_lock_exclusive (EN:=demo_errors) (NL:=list_locks) []
    [New "a"; New "a"; Acquire 0; Release 0] 1 "a" (ret tt) ltac:(vm_compute; reflexivity))
    as [(e & He)|(_ & s1 & _ & _ & H1 & _)].
  - exfalso. vm_compute in He. discriminate He.
  - rewrite H1. reflexivity.
Defined.

(** Blocks do not nest: the end of the inner block releases the lock the outer
    block relies on. *)
Example nested_with_releases :
  let body := with_lock (EN:=demo_errors) (W:=list string) 0 (ret tt) in
  let s := (bind (enter (EN:=demo_errors) 0) (fun _ => body) (mkState [] [mkLock "a" false])).2 in
  system s = [].
Proof. vm_compute. done. Qed.
End Lock.

(** ** Progress reports and the end of a request *)
Module Progress.
Import S3Request.

(** [s3_meta_request_binding]: bytes not reported yet, the time of the last
    report (nanoseconds), and the Python object. *)
Record s3_meta_request_binding := mkBinding {
  size_transferred : Z;
  last_sampled_time : Z;
  py_core : core;
}.

Definition aws_add_u64_checked (a b : Z) : option Z := if a + b <? 2 ^ 64 then Some (a + b) else None.
Definition aws_sub_u64_checked (a b : Z) : option Z := if a <? b then None else Some (a - b).
Definition NANOS_PER_SEC : Z := 1000000000.

Section Native.
Context `{NativeErrors}.

(** [s_record_progress] at the clock reading [clock] (None: the clock fails):
    whether to report now, false as well when a step fails. *)
Definition s_record_progress (length : Z) (clock : option Z) (b : s3_meta_request_binding)
    : bool * s3_meta_request_binding :=
  match aws_add_u64_checked (size_transferred b) length with
  | None => (false, b)
  | Some size =>
      let b := mkBinding size (last_sampled_time b) (py_core b) in
      match clock with
      | None => (false, b)
      | Some now =>
          match aws_sub_u64_checked now (last_sampled_time b) with
          | None => (false, b)
          | Some nanos =>
              if nanos / NANOS_PER_SEC >=? 1 then (true, mkBinding size now (py_core b)) else (false, b)
          end
      end
  end.

(** Call [_on_progress] with the bytes not reported yet; an exception changes
    nothing here. *)
Definition report (cb : option (result unit)) (b : s3_meta_request_binding) : s3_meta_request_binding :=
  mkBinding 0 (last_sampled_time b) (_on_progress cb (size_transferred b) (py_core b)).2.

(** [s_s3_request_on_progress], [cb] being what the user's callback does if it
    is called. *)
Definition s_s3_request_on_progress (length : Z) (clock : option Z) (cb : option (result unit))
    (b : s3_meta_request_binding) : s3_meta_request_binding :=
  let '(report_progress, b) := s_record_progress length clock b in
  if report_progress then report cb b else b.

(** [s_s3_request_on_finish]: on success the rest is reported first. *)
Definition s_s3_request_on_finish (cb on_done : option (result unit)) (error_code status : Z)
    (error_headers : option (list (string * string))) (error_body error_operation_name : option string)
    (did_validate : bool) (validation_algorithm : Z) (b : s3_meta_request_binding) : s3_meta_request_binding :=
  let b := if negb (size_transferred b =? 0) && (error_code =? 0) then report cb b else b in
  mkBinding (size_transferred b) (last_sampled_time b)
    (_on_finish on_done error_code status error_headers error_body error_operation_name did_validate
       validation_algorithm (py_core b)).2.

(** A transfer: for each part the bytes, the clock and the callback's behaviour. *)
Definition transfer := list (Z * option Z * result unit).
Definition run_transfer (has_cb : bool) (l : transfer) (b : s3_meta_request_binding) : s3_meta_request_binding :=
  fold_left (fun b '(n, clock, r) => s_s3_request_on_progress n clock (if has_cb then Some r else None) b) l b.
Definition total (l : transfer) : Z := foldr Z.add 0 (map (fun p => p.1.1) l).
Definition sum (l : list Z) : Z := foldr Z.add 0 l.

Lemma sum_app l z : sum (l ++ [z]) = sum l + z.
Proof. induction l as [|x l IH]; simpl; lia. Qed.

Lemma on_progress_calls r z c : progress_calls (_on_progress (Some r) z c).2 = progress_calls c ++ [z].
Proof. done. Qed.

Lemma on_finish_calls on_done code status h body op v alg c :
  progress_calls (_on_finish on_done code status h body op v alg c).2 = progress_calls c.
Proof.
  assert (Hf : forall r, preserves progress_calls (fut_complete finished r)).
  { intros r s. unfold fut_complete. by destruct (Fut.complete _ _). }
  unfold _on_finish. apply (preserves_bind progress_calls); [auto with py|]. intros e.
  apply (preserves_bind progress_calls); [destruct (negb (code =? 0)); apply Hf|]. intros _.
  apply (preserves_bind progress_calls); [destruct (negb (alg =? 0)); auto with py|]. intros a.
  destruct on_done; [|auto with py]. apply (preserves_bind progress_calls); [done|auto with py].
Qed.

(** What a binding has reported and what it has not, against what it was given,
    and the time that has passed. *)
Definition accounts (start given : Z) (b : s3_meta_request_binding) : Prop :=
  0 <= size_transferred b /\ sum (progress_calls (py_core b)) + size_transferred b = given /\
  Forall (Z.le 0) (progress_calls (py_core b)) /\
  Z.of_nat (length (progress_calls (py_core b))) * NANOS_PER_SEC <= last_sampled_time b - start.

Lemma progress_step start given n clock r b :
  0 <= n -> given + n < 2 ^ 64 -> accounts start given b ->
  accounts start (given + n) (s_s3_request_on_progress n clock (Some r) b).
Proof.
  intros Hn Hlt (Hs & Hsum & Hpos & Ht). unfold s_s3_request_on_progress, s_record_progress, aws_add_u64_checked.
  assert (0 <= sum (progress_calls (py_core b))).
  { clear -Hpos. induction Hpos; simpl; lia. }
  destruct (Z.ltb_spec (size_transferred b + n) (2 ^ 64)); [|lia].
  assert (Hkeep : accounts start (given + n) (mkBinding (size_transferred b + n) (last_sampled_time b) (py_core b)))
    by (unfold accounts; simpl; split_and!; [lia|lia|done|done]).
  destruct clock as [now|]; [|done]. unfold aws_sub_u64_checked. simpl.
  destruct (Z.ltb_spec now (last_sampled_time b)); [done|].
  destruct (Z.geb_spec ((now - last_sampled_time b) / NANOS_PER_SEC) 1) as [Hsec|]; [|done].
  unfold report, accounts. cbn [py_core size_transferred last_sampled_time].
  rewrite on_progress_calls. split_and!; [lia| | |].
  - rewrite sum_app. lia.
  - apply Forall_app. split; [done|]. constructor; [lia|done].
  - rewrite length_app. simpl. unfold NANOS_PER_SEC in *.
    pose proof (Z.mul_div_le (now - last_sampled_time b) 1000000000 ltac:(lia)). lia.
Qed.

Lemma transfer_accounts start given l b :
  Forall (fun p => 0 <= p.1.1) l -> given + total l < 2 ^ 64 -> accounts start given b ->
  accounts start (given + total l) (run_transfer true l b).
Proof.
  unfold run_transfer. revert given b. induction l as [|[[n clock] r] l IH]; intros given b Hl Hlt Hb;
    unfold total in *; simpl in *; [by rewrite Z.add_0_r|].
  inversion Hl; subst; simpl in *. rewrite Z.add_assoc in *. apply IH; [done|done|].
  apply progress_step; [done| |done].
  assert (0 <= foldr Z.add 0 (map (fun p : Z * option Z * result unit => p.1.1) l)); [|lia].
  clear -H3. induction H3; simpl; lia.
Qed.

(** C36: Progress adds up: in a transfer of fewer than 2^64 bytes the bytes
    reported to [on_progress] and those still held back are together the bytes
    transferred, whatever the clock does and whether the callback raises;
    reports come at most once a second; a request that succeeds reports the
    rest before it finishes, so that the reports add up to the whole transfer,
    and one that fails reports nothing more. *)
Theorem progress_accounted (start : Z) (l : transfer) (r : result unit) (on_done : option (result unit))
    (code status : Z) (headers : option (list (string * string))) (body op : option string)
    (validated : bool) (alg : Z)
    (Hl : Forall (fun p => 0 <= p.1.1) l) (Ht : total l < 2 ^ 64) :
  let b := run_transfer true l (mkBinding 0 start init) in
  let b' := s_s3_request_on_finish (Some r) on_done code status headers body op validated alg b in
  sum (progress_calls (py_core b)) + size_transferred b = total l /\
  Forall (Z.le 0) (progress_calls (py_core b)) /\
  Z.of_nat (length (progress_calls (py_core b))) * NANOS_PER_SEC <= last_sampled_time b - start /\
  if code =? 0 then sum (progress_calls (py_core b')) = total l
  else progress_calls (py_core b') = progress_calls (py_core b).
Proof.
  cbv zeta. destruct (transfer_accounts start 0 l (mkBinding 0 start init) Hl Ht) as (Hs & Hsum & Hpos & Hlen).
  { unfold accounts. simpl. split_and!; [lia|done|done|lia]. }
  rewrite Z.add_0_l in Hsum. split_and!; [done|done|done|].
  unfold s_s3_request_on_finish. cbn [py_core]. rewrite on_finish_calls.
  destruct (Z.eqb_spec code 0) as [->|Hc]; [|by rewrite andb_false_r].
  destruct (Z.eqb_spec (size_transferred (run_transfer true l (mkBinding 0 start init))) 0) as [E|_]; simpl.
  - lia.
  - rewrite sum_app. lia.
Qed.
End Native.

(** Parts at 0.5 s (held back), 1.2 s (reported with the first) and an
    unreadable clock; the rest comes at the end. *)
Lemma progress_accounted_witness :
  let b := s_s3_request_on_finish (H:=demo_errors) (Some (Ok tt)) None 0 200 None None None false 0
    (run_transfer true [(10, Some 500000000, Ok tt); (5, Some 1200000000, Raise (UserError 1)); (7, None, Ok tt)]
       (mkBinding 0 0 init)) in
  sum (progress_calls (py_core b)) = 22 /\ progress_calls (py_core b) = [15; 7].
Proof.
  destruct (progress_accounted (H:=demo_errors) 0
    [(10, Some 500000000, Ok tt); (5, Some 1200000000, Raise (UserError 1)); (7, None, Ok tt)]
    (Ok tt) None 0 200 None None None false 0
    ltac:(repeat constructor; simpl; lia) ltac:(vm_compute; reflexivity)) as (_ & _ & _ & Hsum).
  split; [exact Hsum | reflexivity].
Defined.
End Progress.

(** ** Making clients and requests *)
Module Making.
Import S3Options.

(** How requests are signed: with a configuration object, or with the native
    S3 default for a region and a provider, or not at all (anonymous). *)
Inductive signing := FromConfig (config : nat) | S3Default (region : string) (provider : nat) | Anonymous.

(** The choice in [aws_py_s3_client_new] ... *)
Definition client_signing (signing_config credential_provider : option nat) (region : string) : signing :=
  match signing_config, credential_provider with
  | Some c, _ => FromConfig c
  | None, Some p => S3Default region p
  | None, None => Anonymous
  end.
(** ... and in [aws_py_s3_client_make_meta_request] (None: the client's). *)
Definition request_signing (signing_config credential_provider : option nat) (region : string) : option signing :=
  match credential_provider, signing_config with
  | Some p, _ => Some (S3Default region p)
  | None, Some c => Some (FromConfig c)
  | None, None => None
  end.

(** The format K: any Python int, modulo 2^64. *)
Definition parse_K (z : Z) : Z := z mod 2 ^ 64.

(** [_S3ClientCore]: what the client keeps alive. *)
Record _S3ClientCore := mkClientCore {
  core_bootstrap : nat;
  core_credential_provider : option nat;
  core_signing_config : option nat;
  core_tls_connection_options : option nat;
}.

(** An element of [network_interface_names]. *)
Inductive name_arg := NameStr (s : string) | NotStr.
Fixpoint network_interface_names (l : list name_arg) : result (list string) :=
  match l with
  | [] => Ok []
  | NameStr s :: l' => let? r := network_interface_names l' in Ok (s :: r)
  | NotStr :: _ => Raise (TypeError "Expected all network_interface_names elements to be strings.")
  end.

Record S3Client := mkClient {
  _region : string;
  native_part_size : Z;
  native_multipart_upload_threshold : Z;
  native_memory_limit : Z;
  native_max_active_connections_override : Z;
  native_signing : signing;
  native_interfaces : list string;
  _core : _S3ClientCore;
}.

Section Making.
Context `{NativeErrors}.

(** [S3Client(...)]: the Python defaults ([S3Options.S3Client_init]), the
    parsing in C and the native client ([native]: its error, if any). *)
Definition S3Client_new (native : option Z) (static_default : result nat) (bootstrap : option nat)
    (region : string) (tls_mode : option S3RequestTlsMode)
    (signing_config credential_provider tls_connection_options : option nat)
    (part_size multipart_upload_threshold throughput_target_gbps memory_limit : option Z)
    (interfaces : option (list name_arg)) (fio_options : option S3FileIoOptions)
    (max_active_connections_override : option Z) : result S3Client :=
  let? a := S3Client_init static_default bootstrap region tls_mode
              (if signing_config is Some _ then true else false) (if credential_provider is Some _ then true else false)
              part_size multipart_upload_threshold throughput_target_gbps memory_limit fio_options
              max_active_connections_override in
  let? names := network_interface_names (default [] interfaces) in
  match native with
  | Some e => Raise (PyErr_AwsLastError e)
  | None =>
      Ok (mkClient region (parse_K (ca_part_size a)) (parse_K (ca_multipart_upload_threshold a))
            (parse_K (ca_memory_limit a)) (parse_K (ca_max_active_connections_override a))
            (client_signing signing_config credential_provider region) names
            (mkClientCore (ca_bootstrap a) credential_provider signing_config tls_connection_options))
  end.

Record S3Request := mkS3Request {
  r_type : Z;
  r_operation_name : option string;
  r_checksum : Z * Z * bool;
  r_part_size : Z;
  r_multipart_upload_threshold : Z;
  r_max_active_connections_override : Z;
  r_signing : option signing;
}.

(** [S3Client.make_request]: a request in the client's region. *)
Definition make_request (native : option Z) (self : S3Client) (type : S3RequestType)
    (operation_name : option string) (signing_config credential_provider : option nat)
    (checksum_config : option S3ChecksumConfig) (part_size multipart_upload_threshold : option Z)
    (fio_options : option S3FileIoOptions) (max_active_connections_override : option Z) : result S3Request :=
  let? a := S3Request_init type operation_name checksum_config part_size multipart_upload_threshold
              fio_options max_active_connections_override in
  match native with
  | Some e => Raise (PyErr_AwsLastError e)
  | None =>
      Ok (mkS3Request (enum_value (ra_type a)) (ra_operation_name a)
            (ra_checksum_algorithm a, ra_checksum_location a, ra_validate_response_checksum a)
            (parse_K (ra_part_size a)) (parse_K (ra_multipart_upload_threshold a))
            (parse_K (ra_max_active_connections_override a))
            (request_signing signing_config credential_provider (_region self)))
  end.

(** The signing in force for a request of a client. *)
Definition effective_signing (self : S3Client) (r : S3Request) : signing :=
  default (native_signing self) (r_signing r).

(** A client never has both a configuration and a provider; a request may, and
    then its provider wins: the configuration is not looked at. *)
Lemma signing_choice native sd b region tls sc cp tlso ps mt tt_ ml ni fio mac client
    native' type op sc' cp' cc ps' mt' fio' mac' r :
  S3Client_new native sd b region tls sc cp tlso ps mt tt_ ml ni fio mac = Ok client ->
  make_request native' client type op sc' cp' cc ps' mt' fio' mac' = Ok r ->
  (sc = None \/ cp = None) /\
  effective_signing client r =
    match cp', sc', sc, cp with
    | Some p, _, _, _ => S3Default region p
    | None, Some c, _, _ => FromConfig c
    | None, None, Some c, _ => FromConfig c
    | None, None, None, Some p => S3Default region p
    | None, None, None, None => Anonymous
    end.
Proof.
  unfold S3Client_new, make_request, S3Client_init.
  intros Hc Hr. destruct sc, cp; simpl in Hc; [done|..].
  all: destruct (match b with Some b => Ok b | None => sd end); simpl in Hc; [|done].
  all: destruct (network_interface_names _); simpl in Hc; [|done].
  all: destruct native; [done|]; injection Hc as <-; simpl in Hr.
  all: destruct (S3Request_init _ _ _ _ _ _ _); simpl in Hr; [|done].
  all: destruct native'; [done|]; injection Hr as <-; unfold effective_signing; simpl.
  all: split; [auto|by destruct cp', sc'].
Qed.

(** Sizes out of range are not refused: a negative part size is a huge one. *)
Example negative_part_size : parse_K (-1) = 18446744073709551615.
Proof. done. Qed.

(** [create_default_s3_signing_config] *)
Definition create_default_s3_signing_config (now : Z) (region : string) (credential_provider : nat)
    : result Signing.AwsSigningConfig :=
  Signing.AwsSigningConfig_init now
    (Signing.mkArguments AwsSigningAlgorithm.V4 AwsSignatureType.HTTP_REQUEST_HEADERS (Some credential_provider)
       region "s3" None None false false (Some "UNSIGNED-PAYLOAD"%string)
       AwsSignedBodyHeaderType.X_AMZ_CONTENT_SHA_256 None false).

Lemma default_s3_signing_config_ok now region p :
  exists c, create_default_s3_signing_config now region p = Ok c /\
    Signing.get_signed_body_value c = Some "UNSIGNED-PAYLOAD"%string /\
    Signing.get_credentials_provider c = Ok (Some p).
Proof. by eexists. Qed.

(** [get_recommended_throughput_target_gbps], in thousandths of Gbps. *)
Definition get_recommended_throughput_target_gbps (max_value : Z) : option Z :=
  if max_value >? 0 then Some max_value else None.
End Making.
End Making.
