(* ===== verification/Logging.v ===== *)
(** * awscrt/logging.py: native logs as Python logs

    The native logger has levels 1 (fatal) to 6 (trace) and passes on what is at
    most its own level; Python loggers pass on what is at least theirs. *)
From S2P Require Import Prelude Future Io.

Module LogSubject.
Inductive LogSubject :=
  | COMMON_GENERAL
  | COMMON_TASK_SCHEDULER
  | IO_GENERAL
  | IO_EVENT_LOOP
  | IO_SOCKET
  | IO_SOCKET_HANDLER
  | IO_TLS
  | IO_ALPN
  | IO_DNS
  | IO_PKI
  | IO_CHANNEL
  | IO_CHANNEL_BOOTSTRAP
  | IO_FILE_UTILS
  | IO_SHARED_LIBRARY
  | HTTP_GENERAL
  | HTTP_CONNECTION
  | HTTP_SERVER
  | HTTP_STREAM
  | HTTP_CONNECTION_MANAGER
  | HTTP_WEBSOCKET
  | HTTP_WEBSOCKET_SETUP
  | EVENT_STREAM_GENERAL
  | EVENT_STREAM_CHANNEL_HANDLER
  | EVENT_STREAM_RPC_SERVER
  | EVENT_STREAM_RPC_CLIENT
  | MQTT_GENERAL
  | MQTT_CLIENT
  | MQTT_TOPIC_TREE
  | AUTH_GENERAL
  | AUTH_PROFILE
  | AUTH_CREDENTIALS_PROVIDER
  | AUTH_SIGNING
  | CAL_GENERAL
  | CAL_ECC
  | CAL_HASH
  | CAL_HMAC
  | CAL_DER
  | CAL_LIBCRYPTO_RESOLVE
  | CAL_RSA
  | CAL_ED25519
  | S3_GENERAL
  | S3_CLIENT
  | SDKUTILS_GENERAL
  | SDKUTILS_PROFILE
  | SDKUTILS_ENDPOINTS_PARSING
  | SDKUTILS_ENDPOINTS_RESOLVE
  | SDKUTILS_ENDPOINTS_GENERAL
  | SDKUTILS_PARTITIONS_PARSING
  | SDKUTILS_ENDPOINTS_REGEX.
Definition LogSubject_value (e : LogSubject) : Z :=
  match e with
  | COMMON_GENERAL => 0
  | COMMON_TASK_SCHEDULER => 1
  | IO_GENERAL => 1024
  | IO_EVENT_LOOP => 1025
  | IO_SOCKET => 1026
  | IO_SOCKET_HANDLER => 1027
  | IO_TLS => 1028
  | IO_ALPN => 1029
  | IO_DNS => 1030
  | IO_PKI => 1031
  | IO_CHANNEL => 1032
  | IO_CHANNEL_BOOTSTRAP => 1033
  | IO_FILE_UTILS => 1034
  | IO_SHARED_LIBRARY => 1035
  | HTTP_GENERAL => 2048
  | HTTP_CONNECTION => 2049
  | HTTP_SERVER => 2050
  | HTTP_STREAM => 2051
  | HTTP_CONNECTION_MANAGER => 2052
  | HTTP_WEBSOCKET => 2053
  | HTTP_WEBSOCKET_SETUP => 2054
  | EVENT_STREAM_GENERAL => 4096
  | EVENT_STREAM_CHANNEL_HANDLER => 4097
  | EVENT_STREAM_RPC_SERVER => 4098
  | EVENT_STREAM_RPC_CLIENT => 4099
  | MQTT_GENERAL => 5120
  | MQTT_CLIENT => 5121
  | MQTT_TOPIC_TREE => 5122
  | AUTH_GENERAL => 6144
  | AUTH_PROFILE => 6145
  | AUTH_CREDENTIALS_PROVIDER => 6146
  | AUTH_SIGNING => 6147
  | CAL_GENERAL => 7168
  | CAL_ECC => 7169
  | CAL_HASH => 7170
  | CAL_HMAC => 7171
  | CAL_DER => 7172
  | CAL_LIBCRYPTO_RESOLVE => 7173
  | CAL_RSA => 7174
  | CAL_ED25519 => 7175
  | S3_GENERAL => 14336
  | S3_CLIENT => 14337
  | SDKUTILS_GENERAL => 15360
  | SDKUTILS_PROFILE => 15361
  | SDKUTILS_ENDPOINTS_PARSING => 15362
  | SDKUTILS_ENDPOINTS_RESOLVE => 15363
  | SDKUTILS_ENDPOINTS_GENERAL => 15364
  | SDKUTILS_PARTITIONS_PARSING => 15365
  | SDKUTILS_ENDPOINTS_REGEX => 15366
  end.
#[global] Instance LogSubject_eq_dec : EqDecision LogSubject.
Proof. solve_decision. Defined.
#[global] Instance LogSubject_IntEnum : IntEnum LogSubject.
Proof.
  refine {| enum_value := LogSubject_value; enum_members := [COMMON_GENERAL; COMMON_TASK_SCHEDULER; IO_GENERAL; IO_EVENT_LOOP; IO_SOCKET; IO_SOCKET_HANDLER; IO_TLS; IO_ALPN; IO_DNS; IO_PKI; IO_CHANNEL; IO_CHANNEL_BOOTSTRAP; IO_FILE_UTILS; IO_SHARED_LIBRARY; HTTP_GENERAL; HTTP_CONNECTION; HTTP_SERVER; HTTP_STREAM; HTTP_CONNECTION_MANAGER; HTTP_WEBSOCKET; HTTP_WEBSOCKET_SETUP; EVENT_STREAM_GENERAL; EVENT_STREAM_CHANNEL_HANDLER; EVENT_STREAM_RPC_SERVER; EVENT_STREAM_RPC_CLIENT; MQTT_GENERAL; MQTT_CLIENT; MQTT_TOPIC_TREE; AUTH_GENERAL; AUTH_PROFILE; AUTH_CREDENTIALS_PROVIDER; AUTH_SIGNING; CAL_GENERAL; CAL_ECC; CAL_HASH; CAL_HMAC; CAL_DER; CAL_LIBCRYPTO_RESOLVE; CAL_RSA; CAL_ED25519; S3_GENERAL; S3_CLIENT; SDKUTILS_GENERAL; SDKUTILS_PROFILE; SDKUTILS_ENDPOINTS_PARSING; SDKUTILS_ENDPOINTS_RESOLVE; SDKUTILS_ENDPOINTS_GENERAL; SDKUTILS_PARTITIONS_PARSING; SDKUTILS_ENDPOINTS_REGEX] |}.
  - solve_enum_complete.
  - solve_enum_nodup.
Defined.
End LogSubject.
Abbreviation LogSubject := LogSubject.LogSubject.

Module Logging.

(** The levels of the module logging. *)
Definition NOTSET : Z := 0.
Definition DEBUG : Z := 10.
Definition INFO : Z := 20.
Definition WARNING : Z := 30.
Definition ERROR : Z := 40.
Definition CRITICAL : Z := 50.

(** [_CRT_TO_PY_LEVEL.get(crt_level, logging.DEBUG)] *)
Definition _CRT_TO_PY_LEVEL (crt_level : Z) : Z :=
  match crt_level with
  | 0 => NOTSET
  | 1 => CRITICAL
  | 2 => ERROR
  | 3 => WARNING
  | 4 => INFO
  | _ => DEBUG
  end.

(** [_PY_TO_CRT_LEVEL[level]]: None is a KeyError. *)
Definition _PY_TO_CRT_LEVEL (level : Z) : option LogLevel :=
  if level =? NOTSET then Some LogLevel.NoLogs
  else if level =? CRITICAL then Some LogLevel.Fatal
  else if level =? ERROR then Some LogLevel.Error
  else if level =? WARNING then Some LogLevel.Warn
  else if level =? INFO then Some LogLevel.Info
  else if level =? DEBUG then Some LogLevel.Trace
  else None.
Definition crt_level_of (level : Z) : result Z :=
  match _PY_TO_CRT_LEVEL level with
  | Some l => Ok (enum_value l)
  | None => Raise (ValueError "Invalid log level")
  end.

(** [_PACKAGE_ID_TO_MODULE.get(package_id, 'unknown')] *)
Definition _PACKAGE_ID_TO_MODULE (package_id : Z) : string :=
  match package_id with
  | 0 => "common"
  | 1 => "io"
  | 2 => "http"
  | 4 => "event-stream"
  | 5 => "mqtt"
  | 6 => "auth"
  | 7 => "cal"
  | 14 => "s3"
  | 15 => "sdkutils"
  | _ => "unknown"
  end.

(** One record given to a Python logger, and the name the thread has then. *)
Record record := mkRecord { logger : string; level : Z; message : string; thread : string }.

(** [_python_logging_callback] on a thread of a given name. *)
Definition _python_logging_callback (current_thread : string) (crt_level : Z) (message : string)
    (subject_id : Z) (subject_name : string) (thread_name : option string) : record :=
  let module := _PACKAGE_ID_TO_MODULE (Z.shiftr subject_id 10) in
  let thread :=
    match thread_name with
    | Some n => if String.prefix "Dummy" current_thread then n else current_thread
    | None => current_thread
    end in
  mkRecord (String.append "awscrt." (String.append module (String.append "." subject_name)))
    (_CRT_TO_PY_LEVEL crt_level) message thread.

(** [init_logging]: the level the native logger gets and the level of the
    logger awscrt afterwards, from the one it had. *)
Definition init_logging (level root_level : Z) : result (Z * Z) :=
  let? crt := crt_level_of level in
  Ok (crt, if root_level =? NOTSET then _CRT_TO_PY_LEVEL crt else root_level).
(** [set_log_level], [log]: the native level *)
Definition set_log_level (level : Z) : result Z := crt_level_of level.
Definition log (level : Z) (subject : LogSubject) : result (Z * Z) :=
  let? crt := crt_level_of level in Ok (crt, enum_value subject).

(** What the native logger and the logger awscrt let through. *)
Definition native_enabled (native_level crt_level : Z) : bool := (1 <=? crt_level) && (crt_level <=? native_level).
Definition py_enabled (root_level level : Z) : bool := root_level <=? level.

(** The levels of the two worlds that correspond. *)
Definition level_pairs : list (Z * Z) :=
  [(NOTSET, 0); (CRITICAL, 1); (ERROR, 2); (WARNING, 3); (INFO, 4); (DEBUG, 6)].

Lemma crt_level_of_spec lvl :
  match crt_level_of lvl with
  | Ok c => (lvl, c) ∈ level_pairs
  | Raise e => e = ValueError "Invalid log level" /\ ~ lvl ∈ map fst level_pairs
  end.
Proof.
  unfold crt_level_of, _PY_TO_CRT_LEVEL, level_pairs.
  repeat match goal with |- context [?a =? ?b] => destruct (Z.eqb_spec a b) as [->|] end; simpl;
    try set_solver.
Qed.

Lemma levels_agree lvl c crt_level : (lvl, c) ∈ level_pairs -> lvl <> NOTSET -> 1 <= crt_level <= 6 ->
  native_enabled c crt_level = py_enabled lvl (_CRT_TO_PY_LEVEL crt_level) /\ _CRT_TO_PY_LEVEL c = lvl.
Proof.
  intros Hin Hn Hl.
  assert (crt_level = 1 \/ crt_level = 2 \/ crt_level = 3 \/ crt_level = 4 \/ crt_level = 5 \/ crt_level = 6) as Hc by lia.
  unfold level_pairs in Hin. rewrite !elem_of_cons, elem_of_nil in Hin.
  repeat (destruct Hin as [Hin|Hin]; [injection Hin as -> ->; try done;
    repeat (destruct Hc as [->|Hc]; [done|]); by subst|]). done.
Qed.

(** One call sets up both ends of the log. After [init_logging] with a level
    the module documents, on a logger awscrt that had none, the native logger
    passes on exactly the messages whose Python level the logger awscrt lets
    through, so no message crosses the binding only to be dropped and none is
    missing; a level the user had set on it is kept; a level that is not one of
    Python's raises ValueError before anything is changed; and every subject of
    the library is logged under the name of a known package. *)
Lemma logging_levels_agree (lvl root crt_level : Z) (subject : LogSubject) (current msg name : string)
    (Hc : 1 <= crt_level <= 6) :
  match init_logging lvl NOTSET with
  | Ok (native, root') =>
      lvl <> NOTSET ->
      native_enabled native crt_level =
        py_enabled root' (level (_python_logging_callback current crt_level msg (enum_value subject) name None)) /\
      root' = lvl /\ (root <> NOTSET -> init_logging lvl root = Ok (native, root))
  | Raise e => ~ lvl ∈ [NOTSET; CRITICAL; ERROR; WARNING; INFO; DEBUG] /\ e = ValueError "Invalid log level" /\
               init_logging lvl root = Raise e
  end /\
  _PACKAGE_ID_TO_MODULE (Z.shiftr (enum_value subject) 10) <> "unknown"%string.
Proof.
  split; [|by destruct subject].
  pose proof (crt_level_of_spec lvl) as Hs. unfold init_logging.
  destruct (crt_level_of lvl) as [c|e]; simpl; [|destruct Hs as [He Hn]; done].
  intros Hn. destruct (levels_agree lvl c crt_level Hs Hn Hc) as [H1 H2]. rewrite H2.
  split_and!; [done|done|]. intros Hr. apply Z.eqb_neq in Hr. by rewrite Hr.
Qed.

Lemma logging_levels_agree_witness :
  init_logging INFO NOTSET = Ok (4, INFO) /\ native_enabled 4 5 = false.
Proof.
  destruct (logging_levels_agree INFO WARNING 5 LogSubject.S3_CLIENT "Dummy-1" "m" "S3Client" ltac:(lia)) as [H _].
  simpl in H. destruct (H ltac:(discriminate)) as (H1 & _).
  split; [reflexivity | exact H1].
Defined.
End Logging.

(** ** The native logger (source/module.c)

    [init_logging] and [set_log_level] of awscrt/io.py, and the slot both ways
    of logging compete for. *)
Module NativeLogger.
Import Future.

Inductive destination := Stdout | Stderr | File (path : string) | PythonCallback.

(** [s_logger_init] with the logger that was set. *)
Record state := mkState { s_logger_init : bool; to : option destination; level : Z }.
Definition init : state := mkState false None 0.

(** [memcmp] of the first [min] of the two lengths. *)
Fixpoint agree (a b : string) : bool :=
  match a, b with
  | String x a', String y b' => bool_decide (x = y) && agree a' b'
  | _, _ => true
  end.

Definition destination_of (file_path : string) : destination :=
  if agree "stdout" file_path then Stdout
  else if agree "stderr" file_path then Stderr
  else File file_path.

(** The format [b]. *)
Definition is_byte (z : Z) : bool := (0 <=? z) && (z <=? 255).

Section Native.
Context `{NativeErrors}.
(** [aws_logger_init_standard]: its error, if any; and AWS_ERROR_INVALID_STATE. *)
Variables (init_standard : destination -> option Z) (INVALID_STATE : Z).

Definition initialized_twice : py_exn :=
  RuntimeError "Invalid state: logger cannot be initialized multiple times.".

(** A failed argument parse becomes a bare ValueError. *)
Definition aws_py_init_logging (log_level : Z) (file_name : string) : M state unit :=
  if negb (is_byte log_level) then raise (ValueError EmptyString)
  else
    let! taken := gets s_logger_init in
    if taken : bool then raise initialized_twice
    else
      let d := destination_of file_name in
      match init_standard d with
      | Some e => raise (PyErr_AwsLastError e)
      | None => modify (fun _ => mkState true (Some d) log_level)
      end.

Definition aws_py_set_log_level (log_level : Z) : M state unit :=
  let! taken := gets s_logger_init in
  if negb taken then raise initialized_twice
  else if negb (is_byte log_level) then raise (ValueError EmptyString)
  else modify (fun s => mkState (s_logger_init s) (to s) log_level).

Definition aws_py_init_python_logging (log_level : Z) : M state unit :=
  let! taken := gets s_logger_init in
  if taken : bool then raise (PyErr_AwsLastError INVALID_STATE)
  else modify (fun _ => mkState true (Some PythonCallback) log_level).

(** [awscrt.io.init_logging] and [set_log_level] *)
Definition init_logging (log_level : option Z) (file_name : option string) : M state unit :=
  match log_level, file_name with
  | Some l, Some f => aws_py_init_logging l f
  | _, _ => raise AssertionError
  end.
Definition set_log_level (log_level : option Z) : M state unit :=
  match log_level with Some l => aws_py_set_log_level l | None => raise AssertionError end.

Inductive op :=
  | InitLogging (log_level : option Z) (file_name : option string)
  | SetLevel (log_level : option Z)
  | InitPython (log_level : Z).
Definition run_op (o : op) : M state unit :=
  match o with
  | InitLogging l f => init_logging l f
  | SetLevel l => set_log_level l
  | InitPython l => aws_py_init_python_logging l
  end.
Definition run_ops (l : list op) (s : state) : state := fold_left (fun s o => (run_op o s).2) l s.

(** The operation that takes the slot, if it is free. *)
Definition takes (o : op) : option (destination * Z) :=
  match o with
  | InitLogging (Some l) (Some f) =>
      if is_byte l then match init_standard (destination_of f) with None => Some (destination_of f, l) | Some _ => None end
      else None
  | InitPython l => Some (PythonCallback, l)
  | _ => None
  end.
(** The state that follows from a history: the first operation that can take
    the slot decides the destination, and later [SetLevel]s the level. *)
Fixpoint expected (l : list op) : option (destination * Z) :=
  match l with
  | [] => None
  | o :: l' => match takes o with
               | Some (d, lvl) =>
                   Some (d, fold_left (fun lvl o => match o with SetLevel (Some z) => if is_byte z then z else lvl | _ => lvl end) l' lvl)
               | None => expected l'
               end
  end.

Lemma run_taken l d lvl :
  run_ops l (mkState true (Some d) lvl) =
  mkState true (Some d) (fold_left (fun lvl o => match o with SetLevel (Some z) => if is_byte z then z else lvl | _ => lvl end) l lvl).
Proof.
  unfold run_ops. revert lvl. induction l as [|o l IH]; intros lvl; [done|]. simpl. rewrite <- IH. f_equal.
  destruct o as [[z|] [f|]|[z|]|z]; simpl; unfold aws_py_init_logging, aws_py_set_log_level,
    aws_py_init_python_logging, bind, gets; simpl; try done; by destruct (is_byte z).
Qed.

Lemma run_expected l :
  run_ops l init = match expected l with Some (d, lvl) => mkState true (Some d) lvl | None => init end.
Proof.
  induction l as [|o l IH]; [done|].
  change (run_ops (o :: l) init) with (run_ops l (run_op o init).2). cbn [expected].
  destruct o as [[z|] [f|]|[z|]|z]; simpl; unfold aws_py_init_logging, aws_py_set_log_level,
    aws_py_init_python_logging, bind, gets, modify; simpl; try done.
  - destruct (is_byte z); simpl; [|done]. destruct (init_standard _); simpl; [done|]. apply run_taken.
  - apply run_taken.
Qed.

(** There is one logger, set once: after any operations its destination is
    that of the first call of either kind that succeeded and never changes,
    every later initialisation raises and changes nothing, the
    level is the last one given that fits a byte, and changing the level before
    any initialisation raises. The destination of a file name is the standard
    output when the name and "stdout" agree as far as the shorter goes (so "",
    "std" and "stdout.log" too), then the error output in the same way, and the
    file otherwise. *)
Lemma one_logger (l : list op) (log_level : Z) (name : option string) (file_name : string) :
  let s := run_ops l init in
  match expected l with
  | Some (d, lvl) =>
      s = mkState true (Some d) lvl /\
      (exists m, init_logging (Some log_level) name s = (Raise m, s)) /\
      aws_py_init_python_logging log_level s = (Raise (PyErr_AwsLastError INVALID_STATE), s)
  | None => s = init /\ set_log_level (Some log_level) s = (Raise initialized_twice, s)
  end /\
  (destination_of file_name = Stdout <-> (exists r, "stdout"%string = String.append file_name r) \/
                                         (exists r, file_name = String.append "stdout" r)).
Proof.
  cbv zeta. rewrite run_expected. split.
  - destruct (expected l) as [[d lvl]|]; [|done]. split_and!; [done| |done].
    unfold init_logging, aws_py_init_logging, bind, gets.
    destruct name, (is_byte log_level); simpl; by eexists.
  - assert (Ha : forall a b, agree a b = true <->
      (exists r, a = String.append b r) \/ (exists r, b = String.append a r)).
    { induction a as [|x a IH]; intros b; simpl.
      - split; [intros _; right; by exists b|done].
      - destruct b as [|y b]; [split; [intros _; left; by exists (String x a)|done]|].
        rewrite andb_true_iff, bool_decide_eq_true, IH. split.
        + intros [-> [[r ->]|[r ->]]]; [left|right]; by exists r.
        + intros [[r Hr]|[r Hr]]; simplify_eq/=; injection Hr as -> ->; split; eauto. }
    rewrite <- Ha. unfold destination_of. destruct (agree "stdout" file_name); [done|].
    destruct (agree "stderr" file_name); done.
Qed.
End Native.

Example destinations :
  map destination_of [""; "std"; "stdout.log"; "stderr2"; "/tmp/log"]%string =
  [Stdout; Stdout; Stdout; Stderr; File "/tmp/log"].
Proof. done. Qed.
End NativeLogger.
