(* ===== verification/RequestResponse.v ===== *)
(** * awscrt/mqtt_request_response.py: request-response over MQTT

    The options are dataclasses whose [validate] checks the types of the fields
    at run time, so fields are dynamic values here; requests complete a future,
    streams call two listeners. *)
From S2P Require Import Prelude Future.

Module SubscriptionStatusEventType.
Inductive SubscriptionStatusEventType :=
  | SUBSCRIPTION_ESTABLISHED
  | SUBSCRIPTION_LOST
  | SUBSCRIPTION_HALTED.
Definition SubscriptionStatusEventType_value (e : SubscriptionStatusEventType) : Z :=
  match e with
  | SUBSCRIPTION_ESTABLISHED => 0
  | SUBSCRIPTION_LOST => 1
  | SUBSCRIPTION_HALTED => 2
  end.
#[global] Instance SubscriptionStatusEventType_eq_dec : EqDecision SubscriptionStatusEventType.
Proof. solve_decision. Defined.
#[global] Instance SubscriptionStatusEventType_IntEnum : IntEnum SubscriptionStatusEventType.
Proof.
  refine {| enum_value := SubscriptionStatusEventType_value; enum_members := [SUBSCRIPTION_ESTABLISHED; SUBSCRIPTION_LOST; SUBSCRIPTION_HALTED] |}.
  - solve_enum_complete.
  - solve_enum_nodup.
Defined.
End SubscriptionStatusEventType.
Abbreviation SubscriptionStatusEventType := SubscriptionStatusEventType.SubscriptionStatusEventType.

Module RequestResponse.

(** Python values by what [isinstance] and [callable] find; a str and a bytes
    object are sequences too. *)
#[local] Set Warnings "-register-all".
Inductive pyobj :=
  | PNone
  | PStr (s : string)
  | PBytes (b : string)
  | PInt (z : Z)
  | PBool (b : bool)
  | PCallable (id : nat)
  | PSequence (l : list pyobj)
  | PPath (topic correlation_token_json_path : pyobj)     (** ResponsePath *)
  | POther (tag : Z).

Definition is_str (v : pyobj) : bool := match v with PStr _ => true | _ => false end.
Definition is_bytes (v : pyobj) : bool := match v with PBytes _ => true | _ => false end.
Definition is_int (v : pyobj) : bool := match v with PInt _ | PBool _ => true | _ => false end.
Definition is_none (v : pyobj) : bool := match v with PNone => true | _ => false end.
Definition is_callable (v : pyobj) : bool := match v with PCallable _ => true | _ => false end.

(** The characters of a str are strs, the elements of a bytes object ints. *)
Fixpoint elements_of (f : Ascii.ascii -> pyobj) (s : string) : list pyobj :=
  match s with
  | EmptyString => []
  | String c s => f c :: elements_of f s
  end.
Definition sequence_elements (v : pyobj) : option (list pyobj) :=
  match v with
  | PSequence l => Some l
  | PStr s => Some (elements_of (fun c => PStr (String c EmptyString)) s)
  | PBytes b => Some (elements_of (fun c => PInt (Z.of_N (Ascii.N_of_ascii c))) b)
  | _ => None
  end.

(** [for x in l: check x] *)
Fixpoint check_all (check : pyobj -> result unit) (l : list pyobj) : result unit :=
  match l with
  | [] => Ok tt
  | x :: l => let? _ := check x in check_all check l
  end.

(** [ResponsePath.validate], as a method of any object *)
Definition ResponsePath_validate (v : pyobj) : result unit :=
  match v with
  | PPath topic path =>
      let? _ := assert_that (is_str topic) in assert_that (is_str path || is_none path)
  | _ => Raise (AttributeError "validate")
  end.

Record RequestOptions := mkRequestOptions {
  subscription_topic_filters : pyobj;
  response_paths : pyobj;
  publish_topic : pyobj;
  payload : pyobj;
  correlation_token : pyobj;
}.
Definition RequestOptions_validate (o : RequestOptions) : result unit :=
  let? filters := match sequence_elements (subscription_topic_filters o) with
                  | Some l => Ok l | None => Raise AssertionError end in
  let? _ := check_all (fun f => assert_that (is_str f)) filters in
  let? paths := match sequence_elements (response_paths o) with
                | Some l => Ok l | None => Raise AssertionError end in
  let? _ := check_all ResponsePath_validate paths in
  let? _ := assert_that (is_str (publish_topic o)) in
  let? _ := assert_that (is_bytes (payload o)) in
  assert_that (is_str (correlation_token o) || is_none (correlation_token o)).

Record StreamingOperationOptions := mkStreamingOptions {
  subscription_topic_filter : pyobj;
  subscription_status_listener : pyobj;
  incoming_publish_listener : pyobj;
}.
Definition StreamingOperationOptions_validate (o : StreamingOperationOptions) : result unit :=
  let? _ := assert_that (is_str (subscription_topic_filter o)) in
  let? _ := assert_that (is_callable (subscription_status_listener o) || is_none (subscription_status_listener o)) in
  assert_that (is_callable (incoming_publish_listener o) || is_none (incoming_publish_listener o)).

Record ClientOptions := mkClientOptions {
  max_request_response_subscriptions : pyobj;
  max_streaming_subscriptions : pyobj;
  operation_timeout_in_seconds : pyobj;
}.
Definition ClientOptions_validate (o : ClientOptions) : result unit :=
  let? _ := assert_that (is_int (max_request_response_subscriptions o)) in
  let? _ := assert_that (is_int (max_streaming_subscriptions o)) in
  assert_that (is_int (operation_timeout_in_seconds o)).

Section Client.
Context `{NativeErrors}.

(** [Client.__init__]: which native constructor is called. *)
Inductive protocol := From5 | From311.
Definition Client_init (protocol_client : protocol) (o : ClientOptions) (native : protocol -> result nat)
    : result nat :=
  let? _ := ClientOptions_validate o in native protocol_client.

(** [Response]: topic and payload *)
Definition Response : Type := string * option string.
Definition self_future {V} : lens (future V) (future V) := Lens (fun f => f) (fun f _ => f).

(** The closure [on_request_complete]. *)
Definition on_request_complete (error_code : Z) (topic : string) (payload : option string)
    : M (future Response) unit :=
  if negb (error_code =? 0) then set_exception self_future (from_code error_code)
  else set_result self_future (topic, payload).

(** [make_request]: exceptions of the validation and of the native call are
    raised. *)
Definition make_request (native : RequestOptions -> result unit) (o : RequestOptions)
    : result (future Response) :=
  let? _ := RequestOptions_validate o in
  let? _ := native o in
  Ok Pending.

(** What the listeners of a stream are called with; the type of the status
    event is passed on as the number the native layer gave. *)
Inductive stream_event :=
  | SubscriptionStatusEvent (type : Z) (error : option py_exn)
  | IncomingPublishEvent (topic : string) (payload : string).

Definition on_subscription_status_event (o : StreamingOperationOptions) (event_type error_code : Z)
    : option stream_event :=
  if is_none (subscription_status_listener o) then None
  else Some (SubscriptionStatusEvent event_type
               (if negb (error_code =? 0) then Some (from_code error_code) else None)).
Definition on_incoming_publish_event (o : StreamingOperationOptions) (topic payload : string)
    : option stream_event :=
  if is_none (incoming_publish_listener o) then None else Some (IncomingPublishEvent topic payload).

Definition create_stream (native : pyobj -> result nat) (o : StreamingOperationOptions) : result nat :=
  let? _ := StreamingOperationOptions_validate o in native (subscription_topic_filter o).

(** Types of well-formed options. *)
Definition path_typed (v : pyobj) : bool :=
  match v with PPath t p => is_str t && (is_str p || is_none p) | _ => false end.
Definition typed (o : RequestOptions) : bool :=
  match sequence_elements (subscription_topic_filters o), sequence_elements (response_paths o) with
  | Some fs, Some ps =>
      forallb is_str fs && forallb path_typed ps && is_str (publish_topic o) && is_bytes (payload o) &&
      (is_str (correlation_token o) || is_none (correlation_token o))
  | _, _ => false
  end.

Lemma assert_that_spec b : assert_that b = if b then Ok tt else Raise AssertionError.
Proof. by destruct b. Qed.

Lemma check_all_spec check (p : pyobj -> bool) l :
  (forall x, if p x then check x = Ok tt else exists e, check x = Raise e /\
     (e = AssertionError \/ e = AttributeError "validate")) ->
  if forallb p l then check_all check l = Ok tt
  else exists e, check_all check l = Raise e /\ (e = AssertionError \/ e = AttributeError "validate").
Proof.
  intros Hp. induction l as [|x l IH]; simpl; [done|]. specialize (Hp x).
  destruct (p x); simpl; [by rewrite Hp|]. destruct Hp as (e & -> & He). by exists e.
Qed.

Lemma path_validate_spec v :
  if path_typed v then ResponsePath_validate v = Ok tt
  else exists e, ResponsePath_validate v = Raise e /\ (e = AssertionError \/ e = AttributeError "validate").
Proof.
  destruct v as [| | | | | | |t p|]; simpl; try (eexists; split; [done|by right]).
  rewrite !assert_that_spec. destruct (is_str t); simpl; [|eexists; split; [done|by left]].
  destruct (is_str p || is_none p); [done|]. eexists; split; [done|by left].
Qed.

Lemma validate_spec o :
  if typed o then RequestOptions_validate o = Ok tt
  else exists e, RequestOptions_validate o = Raise e /\ (e = AssertionError \/ e = AttributeError "validate").
Proof.
  unfold typed, RequestOptions_validate. rewrite !assert_that_spec.
  destruct (sequence_elements (subscription_topic_filters o)) as [fs|]; simpl; [|by eexists; split; [|left]].
  pose proof (check_all_spec (fun f => assert_that (is_str f)) is_str fs) as Hf.
  destruct (sequence_elements (response_paths o)) as [ps|]; simpl.
  - pose proof (check_all_spec ResponsePath_validate path_typed ps path_validate_spec) as Hp.
    destruct (forallb is_str fs); simpl.
    + rewrite Hf by (intros x; destruct (is_str x); eauto). simpl.
      destruct (forallb path_typed ps); simpl; [rewrite Hp; simpl|destruct Hp as (e & -> & He); by exists e].
      destruct (is_str (publish_topic o)); simpl; [|by eexists; split; [|left]].
      destruct (is_bytes (payload o)); simpl; [|by eexists; split; [|left]].
      destruct (_ || _); [done|by eexists; split; [|left]].
    + destruct Hf as (e & -> & He); [intros x; destruct (is_str x); eauto|]. by exists e.
  - destruct (forallb is_str fs).
    + rewrite Hf by (intros x; destruct (is_str x); eauto). by eexists; split; [|left].
    + destruct Hf as (e & -> & He); [intros x; destruct (is_str x); eauto|]. by exists e.
Qed.

(** A request reaches the native layer exactly if every field of its
    options has its documented type (a single str counting as a sequence of
    strs); otherwise it raises AssertionError or AttributeError and nothing is
    sent. The future of a request that was sent is completed with the native
    error, or with the topic and payload of the response; if the user has
    cancelled it, the closure raises InvalidStateError and it stays cancelled.
    A stream's listeners get every event as it came, with an error exactly if
    its code is not 0. *)
Lemma requests_checked (native : RequestOptions -> result unit) (o : RequestOptions)
    (so : StreamingOperationOptions) (error_code event_type : Z) (topic pl : string) (body : option string) :
  (if typed o then make_request native o = (let? _ := native o in Ok Pending)
   else exists e, (forall native', make_request native' o = Raise e) /\
          (e = AssertionError \/ e = AttributeError "validate")) /\
  on_request_complete error_code topic body Pending =
    (Ok tt, Finished (outcome_of error_code (topic, body))) /\
  on_request_complete error_code topic body Cancelled = (Raise InvalidStateError, Cancelled) /\
  (StreamingOperationOptions_validate so = Ok tt ->
   on_subscription_status_event so event_type error_code =
     (if is_callable (subscription_status_listener so)
      then Some (SubscriptionStatusEvent event_type
                   (if error_code =? 0 then None else Some (from_code error_code)))
      else None) /\
   on_incoming_publish_event so topic pl =
     (if is_callable (incoming_publish_listener so) then Some (IncomingPublishEvent topic pl) else None)).
Proof.
  split_and!.
  - pose proof (validate_spec o) as Hv. unfold make_request. destruct (typed o); [by rewrite Hv|].
    destruct Hv as (e & Hv & He). exists e. split; [|done]. intros native'. by rewrite Hv.
  - unfold on_request_complete, outcome_of. destruct (Z.eqb_spec error_code 0) as [->|Hn]; simpl; [done|].
    by rewrite bool_decide_false.
  - unfold on_request_complete. by destruct (error_code =? 0).
  - unfold StreamingOperationOptions_validate. rewrite !assert_that_spec. intros Hv.
    unfold on_subscription_status_event, on_incoming_publish_event.
    destruct (is_str _); simpl in Hv; [|done].
    destruct (subscription_status_listener so), (incoming_publish_listener so); try done; simpl;
      by destruct (error_code =? 0).
Qed.
End Client.

Lemma requests_checked_witness :
  let o := mkRequestOptions (PStr "topic") (PSequence [PStr "path"]) (PStr "t") (PBytes "p") PNone in
  (exists e, make_request (fun _ => Ok tt) o = Raise e) /\
  on_subscription_status_event (H:=demo_errors) (mkStreamingOptions (PStr "t") (PCallable 1) PNone) 1 5 =
    Some (SubscriptionStatusEvent 1 (Some (AwsCrtError 5 "AWS_ERROR_UNKNOWN" "message"))).
Proof.
  intros o.
  destruct (requests_checked (H:=demo_errors) (fun _ => Ok tt) o
    (mkStreamingOptions (PStr "t") (PCallable 1) PNone) 5 1 "t" "p" None) as (H1 & _ & _ & H2).
  split; [destruct H1 as (e & H1 & _); exists e; apply H1 | exact (proj1 (H2 eq_refl))].
Defined.
End RequestResponse.
