(* ===== verification/Canary.v ===== *)
(** * src/codebuild: the canary wrapper

    CanaryWrapper.py runs the canary application, posts metrics about it to
    CloudWatch, watches the alarms on them, and at the end cuts a ticket, stores
    the log and sends an email. Here: the classes of CanaryWrapper_Classes.py
    ([Snapshot], [Monitors], [S3Watch]), the metric functions, and the script
    itself ([Wrapper]). Services (boto3, psutil, subprocess) answer calls as
    parameters that may depend on everything called so far; the calls are the
    observable behaviour. Printed messages and the bodies of emails are left out. *)
From stdpp Require Import pretty.
From S2P Require Import Prelude PyData.
#[local] Open Scope string_scope.
#[local] Open Scope Z_scope.

(** ** Calls to the outside *)
Module Services.

Inductive client := Sts | Cloudwatch | S3 | Lambda.
Inductive source := CpuUsage | MemoryValue | MemoryPercent.

Inductive call :=
  | MakeClient (c : client)
  | GetCallerIdentity
  | PutMetricAlarm (alarm metric : string) (threshold : Z)
  | PutTicketAlarm (alarm arn : string)
  | DescribeAlarms (metric : string)
  | DeleteAlarms (alarm : string)
  | SetAlarmState (alarm : string)
  | PutMetricData (data : list (string * Z))
  | PutDashboard
  | DeleteDashboards
  | UploadFile (key : string)
  | InvokeLambda (subject : string)
  | Psutil (s : source)
  | Popen (command : string)
  | PsutilProcess
  | Poll
  | Terminate
  | Wait.

#[global] Instance client_eq_dec : EqDecision client.
Proof. solve_decision. Defined.
#[global] Instance source_eq_dec : EqDecision source.
Proof. solve_decision. Defined.
#[global] Instance call_eq_dec : EqDecision call.
Proof. solve_decision. Defined.

(** Answers, given the calls made before (latest first): an outcome; the alarms
    of a metric with whether each is in the ALARM state; a reading; the exit
    codes of the canary and of [tee] once both have ended. *)
Class World := {
  serve : list call -> call -> result unit;
  alarms_of : list call -> string -> result (list (string * bool));
  reading : list call -> source -> result Z;
  ended : list call -> result (option (Z * Z));
}.
End Services.

(** ** DataSnapshot *)
Module Snapshot.
Import Services.

Record Metric := mkMetric {
  metric_name : string;
  metric_function : option source;
  metric_alarm_threshold : option Z;
  metric_alarm_name : string;
  metric_value : option Z;
  reports_to_skip : Z;
  metric_alarm_severity : Z;
}.
Record Widget := mkWidget { widget_name : string; metric_list : list string }.

(** The arguments of the constructor that are kept. *)
Record config := mkConfig {
  git_hash : string;
  git_repo_name : string;
  git_hash_as_namespace : bool;
  datetime_string : option string;
  cloudwatch_make_dashboard : bool;
  cloudwatch_teardown_alarms_on_complete : bool;
  cloudwatch_teardown_dashboard_on_complete : bool;
  s3_bucket_upload_on_complete : bool;
}.

(** The object, the module variable [cache_cpu_psutil_process], and the calls
    made, latest first. A client is there or None; [output_to_file] is true
    while messages go to the file. *)
Record state := mkState {
  metrics : list Metric;
  metrics_numbers : list (list (option Z));
  metric_report_number : nat;
  perform_final_initialization : bool;
  abort_due_to_internal_error : option string;
  abort_due_to_credentials : bool;
  has_cloudwatch : bool;
  has_s3 : bool;
  has_lambda : bool;
  output_to_file : bool;
  cloudwatch_dashboard_widgets : list Widget;
  cache_cpu_psutil_process : option nat;
  calls : list call;
}.

Definition set_metrics (l : list Metric) (s : state) : state :=
  mkState l (metrics_numbers s) (metric_report_number s) (perform_final_initialization s)
    (abort_due_to_internal_error s) (abort_due_to_credentials s) (has_cloudwatch s) (has_s3 s) (has_lambda s)
    (output_to_file s) (cloudwatch_dashboard_widgets s) (cache_cpu_psutil_process s) (calls s).
Definition set_numbers (l : list (list (option Z))) (s : state) : state :=
  mkState (metrics s) l (metric_report_number s) (perform_final_initialization s)
    (abort_due_to_internal_error s) (abort_due_to_credentials s) (has_cloudwatch s) (has_s3 s) (has_lambda s)
    (output_to_file s) (cloudwatch_dashboard_widgets s) (cache_cpu_psutil_process s) (calls s).
Definition set_report (n : nat) (first : bool) (s : state) : state :=
  mkState (metrics s) (metrics_numbers s) n first
    (abort_due_to_internal_error s) (abort_due_to_credentials s) (has_cloudwatch s) (has_s3 s) (has_lambda s)
    (output_to_file s) (cloudwatch_dashboard_widgets s) (cache_cpu_psutil_process s) (calls s).
Definition set_abort (reason : string) (creds : bool) (s : state) : state :=
  mkState (metrics s) (metrics_numbers s) (metric_report_number s) (perform_final_initialization s)
    (Some reason) creds (has_cloudwatch s) (has_s3 s) (has_lambda s)
    (output_to_file s) (cloudwatch_dashboard_widgets s) (cache_cpu_psutil_process s) (calls s).
Definition set_clients (cw s3 l : bool) (s : state) : state :=
  mkState (metrics s) (metrics_numbers s) (metric_report_number s) (perform_final_initialization s)
    (abort_due_to_internal_error s) (abort_due_to_credentials s) cw s3 l
    (output_to_file s) (cloudwatch_dashboard_widgets s) (cache_cpu_psutil_process s) (calls s).
Definition set_output (b : bool) (s : state) : state :=
  mkState (metrics s) (metrics_numbers s) (metric_report_number s) (perform_final_initialization s)
    (abort_due_to_internal_error s) (abort_due_to_credentials s) (has_cloudwatch s) (has_s3 s) (has_lambda s)
    b (cloudwatch_dashboard_widgets s) (cache_cpu_psutil_process s) (calls s).
Definition set_widgets (l : list Widget) (s : state) : state :=
  mkState (metrics s) (metrics_numbers s) (metric_report_number s) (perform_final_initialization s)
    (abort_due_to_internal_error s) (abort_due_to_credentials s) (has_cloudwatch s) (has_s3 s) (has_lambda s)
    (output_to_file s) l (cache_cpu_psutil_process s) (calls s).
Definition set_cache (p : option nat) (s : state) : state :=
  mkState (metrics s) (metrics_numbers s) (metric_report_number s) (perform_final_initialization s)
    (abort_due_to_internal_error s) (abort_due_to_credentials s) (has_cloudwatch s) (has_s3 s) (has_lambda s)
    (output_to_file s) (cloudwatch_dashboard_widgets s) p (calls s).
Definition add_call (c : call) (s : state) : state :=
  mkState (metrics s) (metrics_numbers s) (metric_report_number s) (perform_final_initialization s)
    (abort_due_to_internal_error s) (abort_due_to_credentials s) (has_cloudwatch s) (has_s3 s) (has_lambda s)
    (output_to_file s) (cloudwatch_dashboard_widgets s) (cache_cpu_psutil_process s) (c :: calls s).

Section Snapshot.
Context `{World}.
Variable cfg : config.

Definition ask {A} (c : call) (answer : list call -> result A) : M state A := fun s =>
  (answer (calls s), add_call c s).
Definition call_service (c : call) : M state unit := ask c (fun h => serve h c).

(** [except Exception as e: ...] around a call: whether it succeeded. *)
Definition attempt (m : M state unit) (handler : M state unit) : M state unit :=
  try_except is_Exception m (fun _ => handler).
Definition abort (reason : string) : M state unit := fun s =>
  (Ok tt, set_abort reason (abort_due_to_credentials s) s).

(** A method of a client that may be None. *)
Definition with_client {A} (there : state -> bool) (method : string) (m : M state A) : M state A :=
  let! b := gets there in if b : bool then m else raise (AttributeError method).
Definition cloudwatch (c : call) : M state unit := with_client has_cloudwatch "cloudwatch" (call_service c).

(** The constructor; a failing check ends it early. *)
Definition init_state : state :=
  mkState [] [] 0 true None false false false false false [] None [].
Definition make_client (c : client) (reason : string) (k : M state unit) : M state unit := fun s =>
  match call_service (MakeClient c) s with
  | (Ok _, s') => k s'
  | (Raise e, s') => if is_Exception e then abort reason s' else (Raise e, s')
  end.
Definition git_namespace_text : string := git_repo_name cfg ++ "-" ++ git_hash cfg.
(** [git_metric_namespace] *)
Definition git_metric_namespace (fixed_text : string) : string :=
  if git_hash_as_namespace cfg then
    match datetime_string cfg with
    | None => git_namespace_text
    | Some d => git_repo_name cfg ++ "/" ++ d ++ "-" ++ git_hash cfg
    end
  else fixed_text.
Definition DataSnapshot_init (output_log_filepath : option string) : M state unit := fun s =>
  match (do! call_service (MakeClient Sts); call_service GetCallerIdentity) s with
  | (Raise e, s') =>
      if is_Exception e then (Ok tt, set_abort "AWS credentials are NOT valid!" true s') else (Raise e, s')
  | (Ok _, s') =>
      (make_client Cloudwatch "Could not make Cloudwatch client!"
        (do! modify (set_clients true false false);
         make_client S3 "Could not make S3 client!"
           (do! modify (set_clients true true false);
            make_client Lambda "Could not make Lambda client!"
              (do! modify (set_clients true true true);
               modify (set_output (if output_log_filepath is Some _ then true else false)))))) s'
  end.

(** *** Metrics *)

(** [get_metric_total_cpu_usage]: the first poll of a process is skipped. The
    other two functions read the memory. *)
Definition get_metric_total_cpu_usage (psutil_process : option nat) : M state (option Z) :=
  match psutil_process with
  | None => ret None
  | Some p =>
      try_except is_Exception
        (let! cached := gets cache_cpu_psutil_process in
         let! v := ask (Psutil CpuUsage) (fun h => reading h CpuUsage) in
         if bool_decide (cached = Some p) then ret (Some v)
         else do! modify (set_cache (Some p)); ret None)
        (fun _ => ret None)
  end.
Definition get_metric_memory (src : source) (psutil_process : option nat) : M state (option Z) :=
  match psutil_process with
  | None => ret None
  | Some _ =>
      try_except is_Exception
        (let! v := ask (Psutil src) (fun h => reading h src) in ret (Some v)) (fun _ => ret None)
  end.
Definition get_metric_total_memory_usage_value := get_metric_memory MemoryValue.
Definition get_metric_total_memory_usage_percent := get_metric_memory MemoryPercent.
Definition run_function (f : source) : option nat -> M state (option Z) :=
  match f with
  | CpuUsage => get_metric_total_cpu_usage
  | MemoryValue => get_metric_total_memory_usage_value
  | MemoryPercent => get_metric_total_memory_usage_percent
  end.

Definition set_value (v : option Z) (m : Metric) : Metric :=
  mkMetric (metric_name m) (metric_function m) (metric_alarm_threshold m) (metric_alarm_name m) v
    (reports_to_skip m) (metric_alarm_severity m).
Definition skip_one (m : Metric) : Metric :=
  mkMetric (metric_name m) (metric_function m) (metric_alarm_threshold m) (metric_alarm_name m) (metric_value m)
    (reports_to_skip m - 1) (metric_alarm_severity m).

(** [DataSnapshot_Metric.get_metric_value]; the metric is changed. *)
Definition get_metric_value (psutil_process : option nat) (m : Metric) : M state Metric :=
  match metric_function m with
  | None => ret m
  | Some f => let! v := run_function f psutil_process in ret (set_value v m)
  end.
(** [get_metric_cloudwatch_dictionary]: the name and value to send, if any. *)
Definition get_metric_cloudwatch_dictionary (m : Metric) : option (string * Z) * Metric :=
  if reports_to_skip m >? 0 then (None, skip_one m)
  else ((fun v => (metric_name m, v)) <$> metric_value m, m).

(** [register_metric] *)
Definition register_metric (new_metric_name : string) (new_metric_function : option source)
    (new_metric_alarm_threshold : option Z) (new_metric_reports_to_skip new_metric_alarm_severity : Z)
    : M state unit :=
  modify (fun s =>
    set_numbers (metrics_numbers s ++ [[]])
      (set_metrics (metrics s ++
        [mkMetric new_metric_name new_metric_function new_metric_alarm_threshold
           (new_metric_name ++ "-" ++ git_repo_name cfg ++ "-" ++ git_hash cfg) None
           new_metric_reports_to_skip new_metric_alarm_severity]) s)).

Definition metric_report_non_zero_count : nat := 4.
(** A new value at the front, at most four kept; and whether the four are all
    zero or missing. *)
Definition push_number (v : option Z) (l : list (option Z)) : list (option Z) :=
  take metric_report_non_zero_count (v :: l).
Definition all_zero (l : list (option Z)) : bool :=
  (length l =? metric_report_non_zero_count)%nat &&
  forallb (fun v => bool_decide (v = None \/ v = Some 0)) l.

(** The loop of [post_metrics] over the metrics and their numbers. *)
Definition update_metric (psutil_process : option nat) (i : nat) : M state unit :=
  let! o := gets (fun s => metrics s !! i) in
  match o with
  | None => ret tt
  | Some m =>
      let! m := get_metric_value psutil_process m in
      do! modify (fun s => set_metrics (<[i := m]> (metrics s)) s);
      modify (fun s => set_numbers (alter (push_number (metric_value m)) i (metrics_numbers s)) s)
  end.

(** *** CloudWatch *)

Definition has_alarm (m : Metric) : bool := if metric_alarm_threshold m is Some _ then true else false.

(** [_add_cloudwatch_metric_alarm]; failing is only printed. *)
Definition _add_cloudwatch_metric_alarm (m : Metric) : M state unit :=
  let! cw := gets has_cloudwatch in
  if negb cw then ret tt
  else attempt (cloudwatch (PutMetricAlarm (metric_alarm_name m) (metric_name m)
                               (default 0 (metric_alarm_threshold m)))) (ret tt).

Definition _cleanup_cloudwatch_dashboard : M state unit :=
  if cloudwatch_teardown_dashboard_on_complete cfg then
    attempt (cloudwatch DeleteDashboards) (abort "Cloudwatch dashboard cleaning function failed due to exception")
  else ret tt.
Definition _init_cloudwatch_pre_first_run_dashboard : M state unit :=
  attempt (do! _cleanup_cloudwatch_dashboard; cloudwatch PutDashboard)
    (abort "Cloudwatch client could not make dashboard due to exception").
Definition _init_cloudwatch_pre_first_run : M state unit :=
  let! l := gets metrics in
  do! mfor l (fun m => if has_alarm m then _add_cloudwatch_metric_alarm m else ret tt);
  if cloudwatch_make_dashboard cfg then _init_cloudwatch_pre_first_run_dashboard else ret tt.

(** [_cleanup_cloudwatch_alarms]: the first failure ends the loop. *)
Definition _cleanup_cloudwatch_alarms : M state unit :=
  if cloudwatch_teardown_alarms_on_complete cfg then
    attempt (let! l := gets metrics in
             mfor l (fun m => if has_alarm m then cloudwatch (DeleteAlarms (metric_alarm_name m)) else ret tt))
      (ret tt)
  else ret tt.

Definition export_metrics_cloudwatch : M state unit :=
  let! cw := gets has_cloudwatch in
  if negb cw then abort "Could not export Cloudwatch metrics due to no Cloudwatch client initialized!"
  else
    let! l := gets metrics in
    let out := map get_metric_cloudwatch_dictionary l in
    do! modify (set_metrics (map snd out));
    match omap fst out with
    | [] => ret tt
    | data => attempt (cloudwatch (PutMetricData data))
                (abort "Could not export Cloudwatch metrics due to exception in Cloudwatch client!")
    end.

Definition post_metrics (psutil_process : option nat) : M state unit :=
  let! first := gets perform_final_initialization in
  do! (if first : bool then
         do! modify (fun s => set_report (metric_report_number s) false s); _init_cloudwatch_pre_first_run
       else ret tt);
  let! n := gets (fun s => length (metrics s)) in
  do! mfor (seq 0 n) (update_metric psutil_process);
  do! modify (fun s => set_report (S (metric_report_number s)) (perform_final_initialization s) s);
  export_metrics_cloudwatch.

(** *** Alarms *)

(** [_check_cloudwatch_alarm_state_metric]: no alarm, or the first in state ALARM
    with the severity. *)
Definition _check_cloudwatch_alarm_state_metric (m : Metric) : M state (bool * option string * Z) :=
  let! l := with_client has_cloudwatch "describe_alarms_for_metric"
              (ask (DescribeAlarms (metric_name m)) (fun h => alarms_of h (metric_name m))) in
  match find (fun a => snd a) l with
  | Some a => ret (false, Some a.1, metric_alarm_severity m)
  | None => ret (true, None, metric_alarm_severity m)
  end.

(** Python's [x in s] on strings, and [s == False] for a string [s]. *)
Fixpoint str_contains (x s : string) : bool :=
  String.prefix x s || match s with EmptyString => false | String _ s' => str_contains x s' end.
Definition str_eq_False (s : string) : bool := false.

(** [_check_cloudwatch_alarm_states]. The test [x in name == False] is a chained
    comparison: [x in name and name == False]. *)
Fixpoint check_states (l : list Metric) : M state (list (string * Z)) :=
  match l with
  | [] => ret []
  | m :: l =>
      let! (fine, name, severity) := _check_cloudwatch_alarm_state_metric m in
      let! rest := check_states l in
      ret (match name with
           | Some n => if str_contains "Alive_Alarm" n && str_eq_False n then
                         if fine : bool then rest else (n, severity) :: rest
                       else rest
           | None => rest
           end)
  end.
Definition get_cloudwatch_alarm_results : M state (list (string * Z)) :=
  let! l := gets metrics in check_states l.

(** *** S3, email *)

(** [export_result_to_s3_bucket(copy_output_log=True, log_is_error)]: after the
    copy [output_to_file] holds a file object and no longer equals True. *)
Definition log_key (log_is_error : bool) : string :=
  git_repo_name cfg ++ "/" ++ (if log_is_error then "Failed_Logs/" else "") ++
  (match datetime_string cfg with None => "" | Some d => d ++ "/" end) ++ git_hash cfg ++ ".log".
Definition export_result_to_s3_bucket (log_is_error : bool) : M state unit :=
  let! s3 := gets has_s3 in
  if negb s3 then abort "S3 client not initialized and therefore cannot send log to S3"
  else
    do! modify (set_output false);
    attempt (call_service (UploadFile (log_key log_is_error)))
      (abort "S3 client had exception and therefore could not upload log!").

(** [cleanup] *)
Definition cleanup (error_occurred : bool) : M state unit :=
  do! (if s3_bucket_upload_on_complete cfg then export_result_to_s3_bucket error_occurred else ret tt);
  do! _cleanup_cloudwatch_alarms;
  if cloudwatch_make_dashboard cfg then _cleanup_cloudwatch_dashboard else ret tt.

(** [lambda_send_email]: a missing client raises inside the [try]. *)
Definition lambda_send_email (subject : string) : M state unit :=
  attempt (with_client has_lambda "invoke" (call_service (InvokeLambda subject)))
    (abort "Lambda email function had an exception!").

(** *** Dashboard widgets *)

Definition _find_cloudwatch_widget (name : string) (s : state) : option (nat * Widget) :=
  list_find (fun w => widget_name w = name) (cloudwatch_dashboard_widgets s).
Definition with_list (f : list string -> list string) (w : Widget) : Widget := mkWidget (widget_name w) (f (metric_list w)).
Definition edit_widget (name : string) (f : list string -> list string) : M state unit := fun s =>
  match _find_cloudwatch_widget name s with
  | None => (Ok tt, s)
  | Some (i, _) => (Ok tt, set_widgets (alter (with_list f) i (cloudwatch_dashboard_widgets s)) s)
  end.
Definition register_metric_to_dashboard_widget (name metric : string) : M state unit :=
  edit_widget name (fun l => (l ++ [metric])%list).
(** [list.remove]: the first occurrence; that there is none is only printed. *)
Fixpoint remove_first (x : string) (l : list string) : list string :=
  match l with [] => [] | y :: l => if bool_decide (x = y) then l else y :: remove_first x l end.
Definition remove_metric_from_dashboard_widget (name metric : string) : M state unit :=
  edit_widget name (remove_first metric).
Definition register_dashboard_widget (new_widget_name : string) (metrics_to_add : list string) : M state unit :=
  let! w := gets (_find_cloudwatch_widget new_widget_name) in
  do! (match w with
       | None => modify (fun s => set_widgets (cloudwatch_dashboard_widgets s ++ [mkWidget new_widget_name []]) s)
       | Some _ => ret tt
       end);
  mfor metrics_to_add (register_metric_to_dashboard_widget new_widget_name).
End Snapshot.
End Snapshot.

(** ** The monitors *)
Module Monitors.
Import Services Snapshot.

Record SnapshotMonitor := mkSnapshotMonitor {
  had_internal_error : option string;
  error_due_to_credentials : bool;
  can_cut_ticket : bool;
  has_cut_ticket : bool;
  cloudwatch_current_alarms_triggered : list string;
  metric_post_timer : Z;
  metric_post_timer_time : Z;
}.
Record ApplicationMonitor := mkApplicationMonitor {
  application_process : bool;
  application_process_psutil : option nat;
  error_has_occurred : option string;
  error_code : Z;
}.
Record state := mkState { snap : Snapshot.state; mon : SnapshotMonitor; app : ApplicationMonitor }.

Definition set_mon (f : SnapshotMonitor -> SnapshotMonitor) : M state unit :=
  modify (fun s => mkState (snap s) (f (mon s)) (app s)).
Definition set_app (f : ApplicationMonitor -> ApplicationMonitor) : M state unit :=
  modify (fun s => mkState (snap s) (mon s) (f (app s))).
(** An operation of the snapshot. *)
Definition on_snap {A} (m : M Snapshot.state A) : M state A := fun s =>
  match m (snap s) with (r, s') => (r, mkState s' (mon s) (app s)) end.

Definition internal_error (reason : string) (m : SnapshotMonitor) : SnapshotMonitor :=
  mkSnapshotMonitor (Some reason) (error_due_to_credentials m) (can_cut_ticket m) (has_cut_ticket m)
    (cloudwatch_current_alarms_triggered m) (metric_post_timer m) (metric_post_timer_time m).
Definition set_can_cut (b : bool) (m : SnapshotMonitor) : SnapshotMonitor :=
  mkSnapshotMonitor (had_internal_error m) (error_due_to_credentials m) b (has_cut_ticket m)
    (cloudwatch_current_alarms_triggered m) (metric_post_timer m) (metric_post_timer_time m).
Definition set_cut (m : SnapshotMonitor) : SnapshotMonitor :=
  mkSnapshotMonitor (had_internal_error m) (error_due_to_credentials m) (can_cut_ticket m) true
    (cloudwatch_current_alarms_triggered m) (metric_post_timer m) (metric_post_timer_time m).
Definition set_alarms (l : list string) (m : SnapshotMonitor) : SnapshotMonitor :=
  mkSnapshotMonitor (had_internal_error m) (error_due_to_credentials m) (can_cut_ticket m) (has_cut_ticket m)
    l (metric_post_timer m) (metric_post_timer_time m).
Definition add_timer (z : Z) (m : SnapshotMonitor) : SnapshotMonitor :=
  mkSnapshotMonitor (had_internal_error m) (error_due_to_credentials m) (can_cut_ticket m) (has_cut_ticket m)
    (cloudwatch_current_alarms_triggered m) (metric_post_timer m + z) (metric_post_timer_time m).
Definition app_error (reason : string) (code : Z) (a : ApplicationMonitor) : ApplicationMonitor :=
  mkApplicationMonitor (application_process a) (application_process_psutil a) (Some reason) code.
Definition set_process (b : bool) (a : ApplicationMonitor) : ApplicationMonitor :=
  mkApplicationMonitor b (application_process_psutil a) (error_has_occurred a) (error_code a).
Definition set_psutil (p : nat) (a : ApplicationMonitor) : ApplicationMonitor :=
  mkApplicationMonitor (application_process a) (Some p) (error_has_occurred a) (error_code a).

(** *** Tickets *)

Record ticket_arguments := mkTicket {
  ticket_category : string; ticket_type : string; ticket_item : string; ticket_group : string;
}.
Fixpoint replace_char (a b : Ascii.ascii) (s : string) : string :=
  match s with
  | EmptyString => EmptyString
  | String c s => String (if bool_decide (c = a) then b else c) (replace_char a b s)
  end.
(** The ARN, with every space replaced. *)
Definition ticket_arn (severity : Z) (t : ticket_arguments) (allow_duplicates : bool) : string :=
  replace_char " "%char "+"%char
    ("arn:aws:cloudwatch::cwa-internal:ticket:" ++ pretty severity ++ ":" ++ ticket_category t ++ ":" ++
     ticket_type t ++ ":" ++ ticket_item t ++ ":" ++ ticket_group t ++ ":" ++
     (if allow_duplicates then "DO-NOT-DEDUPE" else "")).

Section Monitors.
Context `{World}.
Variable cfg : config.

Definition ticket_alarm_name : string := git_repo_name cfg ++ "-" ++ git_hash cfg ++ "-AUTO-TICKET".
(** [cut_ticket_using_cloudwatch]: each failure ends it quietly, except that of
    removing the alarm at the end, which is raised. *)
Definition cut_ticket_using_cloudwatch (severity : Z) (t : ticket_arguments) (allow_duplicates : bool)
    : M Snapshot.state unit := fun s =>
  let quiet (c : call) (k : M Snapshot.state unit) : M Snapshot.state unit := fun s =>
    match call_service c s with
    | (Ok _, s') => k s'
    | (Raise e, s') => if is_Exception e then (Ok tt, s') else (Raise e, s')
    end in
  quiet (MakeClient Cloudwatch)
    (quiet (PutTicketAlarm ticket_alarm_name (ticket_arn severity t allow_duplicates))
      (quiet (SetAlarmState ticket_alarm_name) (call_service (DeleteAlarms ticket_alarm_name)))) s.
Definition cut_ticket_using_cloudwatch_from_args (severity : Z) (t : ticket_arguments) : M Snapshot.state unit :=
  if severity >=? 6 then ret tt else cut_ticket_using_cloudwatch severity t false.

(** *** SnapshotMonitor *)

(** The constructor, on a snapshot that may have failed: that one is cleaned up
    at once. *)
Definition SnapshotMonitor_init (wrapper_metrics_wait_time : Z) : M Snapshot.state SnapshotMonitor :=
  let! aborted := gets abort_due_to_internal_error in
  match aborted with
  | Some _ =>
      let! creds := gets abort_due_to_credentials in
      do! cleanup cfg false;
      ret (mkSnapshotMonitor (Some "Could not initialize DataSnapshot. Likely credentials are not setup!") creds
             false false [] 0 0)
  | None => ret (mkSnapshotMonitor None false false false [] 0 wrapper_metrics_wait_time)
  end.
(** [register_metric] of the monitor: an exception is an internal error. *)
Definition monitor_register_metric (name : string) (f : option source) (threshold : option Z)
    (reports_to_skip severity : Z) : M state unit :=
  try_except is_Exception (on_snap (register_metric cfg name f threshold reports_to_skip severity))
    (fun _ => set_mon (internal_error "Could not register metric in data snapshot due to exception")).

Definition check_alarms_for_new_alarms (triggered : list (string * Z)) : M state unit :=
  match triggered with
  | [] => set_mon (set_alarms [])
  | _ =>
      let! old := gets (fun s => cloudwatch_current_alarms_triggered (mon s)) in
      let names := map fst triggered in
      let old_alarms_still_active := filter (fun n => n ∈ old) names in
      let new_alarms := filter (fun n => n ∉ old) names in
      let! can := gets (fun s => can_cut_ticket (mon s)) in
      do! (if negb (bool_decide (new_alarms = [])) && can then
             do! on_snap (cut_ticket_using_cloudwatch 4
                   (mkTicket "AWS" "SDKs and Tools" "IoT SDK for CPP" "AWS IoT Device SDK") true);
             set_mon set_cut
           else ret tt);
      set_mon (set_alarms (old_alarms_still_active ++ new_alarms))
  end.

(** [try: m except Exception]: whether to go on. *)
Definition guarded (m : M state unit) (reason : string) : M state bool :=
  try_except is_Exception (do! m; ret true) (fun _ => do! set_mon (internal_error reason); ret false).

Definition poll_alarms : M state unit :=
  let! bad := gets (fun s => had_internal_error (mon s)) in
  match bad with
  | Some _ => ret tt
  | None => let! triggered := on_snap get_cloudwatch_alarm_results in check_alarms_for_new_alarms triggered
  end.
Definition post_when_due (psutil_process : option nat) : M state bool :=
  let! t := gets (fun s => metric_post_timer (mon s)) in
  if t <=? 0 then
    let! bad := gets (fun s => had_internal_error (mon s)) in
    let! go_on :=
      match bad with
      | Some _ => ret true
      | None => guarded (on_snap (post_metrics cfg psutil_process))
                  "Exception occurred posting metrics! Likely session credentials expired"
      end in
    if go_on : bool then
      do! modify (fun s => mkState (snap s) (add_timer (metric_post_timer_time (mon s)) (mon s)) (app s)); ret true
    else ret false
  else ret true.
Definition snapshot_loop (psutil_process : option nat) (time_passed : Z) : M state unit :=
  let! aborted := gets (fun s => abort_due_to_internal_error (snap s)) in
  match aborted with
  | Some reason => set_mon (internal_error ("Data Snapshot internal error: " ++ reason))
  | None =>
      let! go_on := guarded poll_alarms
        "Exception occurred checking metric alarms! Likely session credentials expired" in
      if go_on : bool then
        let! go_on := post_when_due psutil_process in
        if go_on : bool then set_mon (add_timer (- time_passed)) else ret tt
      else ret tt
  end.

Definition send_email (email_subject_text_append : string) : M state unit :=
  on_snap (lambda_send_email
    ("Canary: " ++ git_repo_name cfg ++ ":" ++ git_hash cfg ++ " - " ++ email_subject_text_append)).

(** *** ApplicationMonitor *)

Variables (wrapper_application_path wrapper_application_arguments : string).
Variable wrapper_application_restart_on_finish : bool.

(** The process is the shell's pipeline [canary | tee file]; its exit status is
    that of the last command. *)
Definition pipeline_status (statuses : Z * Z) : Z := statuses.2.

Definition app_guarded (m : M state unit) (reason : string) : M state unit :=
  try_except is_Exception m (fun _ => set_app (app_error reason 1)).

Definition start_monitoring : M state unit :=
  let! running := gets (fun s => application_process (app s)) in
  if running : bool then ret tt
  else app_guarded
    (let! pid := gets (fun s => length (calls (snap s))) in
     do! on_snap (call_service (Popen (wrapper_application_path ++ " " ++ wrapper_application_arguments ++
                                       " | tee Canary_Stdout_File.txt")));
     do! set_app (set_process true);
     do! on_snap (call_service PsutilProcess);
     set_app (set_psutil pid))
    "Could not launch Canary/Application due to exception".
Definition stop_monitoring : M state unit :=
  let! running := gets (fun s => application_process (app s)) in
  if negb running then ret tt
  else
    do! on_snap (call_service Terminate);
    do! on_snap (call_service Wait);
    set_app (set_process false).
Definition restart_monitoring : M state unit :=
  let! running := gets (fun s => application_process (app s)) in
  if running : bool
  then app_guarded (do! stop_monitoring; start_monitoring) "Could not restart Canary/Application due to exception"
  else set_app (app_error
    "Could not restart Canary/Application due to application process not being started initially" 1).

Definition application_loop : M state unit :=
  let! running := gets (fun s => application_process (app s)) in
  if negb running then ret tt
  else
    let! polled := try_except is_Exception
      (let! r := on_snap (ask Poll ended) in ret (Some r))
      (fun _ => do! set_app (app_error "Exception when polling application status" 1); ret None) in
    match polled with
    | None | Some None => ret tt
    | Some (Some statuses) =>
        let code := pipeline_status statuses in
        if negb (code =? 0) then set_app (app_error "Canary application crashed!" code)
        else if wrapper_application_restart_on_finish then restart_monitoring
        else set_app (app_error "Canary Application Finished" 0)
    end.
End Monitors.
End Monitors.

(** ** CanaryWrapper.py *)
Module Wrapper.
Import Services Snapshot Monitors.

(** *** Arguments *)

(** [argparse] with [type=bool] applies [bool] to the string. *)
Definition type_bool (s : string) : bool := negb (bool_decide (s = "")).

Record arguments := mkArguments {
  canary_executable : string;
  canary_arguments : string;
  arg_git_hash : string;
  arg_git_repo_name : string;
  arg_git_hash_as_namespace : bool;
  output_log_filepath : option string;
  cloudwatch_region : string;
  s3_bucket_name : string;
  snapshot_wait_time : Z;
  ticket : ticket_arguments;
}.
Definition or_default (d s : string) : string := if bool_decide (s = "") then d else s.
(** The corrections after parsing; None: [exit(1)]. *)
Definition correct_arguments (a : arguments) : option arguments :=
  if bool_decide (canary_executable a = "") || bool_decide (arg_git_hash a = "") || bool_decide (arg_git_repo_name a = "")
  then None
  else Some (mkArguments (canary_executable a) (canary_arguments a) (arg_git_hash a) (arg_git_repo_name a)
    (arg_git_hash_as_namespace a)
    (match output_log_filepath a with Some f => if bool_decide (f = "None") || bool_decide (f = "") then None else Some f | None => None end)
    (or_default "us-east-1" (cloudwatch_region a))
    (or_default "canary-wrapper-folder" (s3_bucket_name a))
    (if snapshot_wait_time a <=? 0 then 60 else snapshot_wait_time a)
    (mkTicket (or_default "AWS" (ticket_category (ticket a))) (or_default "SDKs and Tools" (ticket_type (ticket a)))
       (or_default "IoT SDK for CPP" (ticket_item (ticket a))) (or_default "AWS IoT Device SDK" (ticket_group (ticket a))))).

(** The snapshot's configuration: the file is always output.txt and the region
    us-east-1, whatever the arguments say. *)
Definition snapshot_config (a : arguments) (now : string) : config :=
  mkConfig (arg_git_hash a) (arg_git_repo_name a) (arg_git_hash_as_namespace a) (Some now) false true true true.

Section Wrapper.
Context `{World}.
Variable a : arguments.
Variable now : string.
Definition cfg := snapshot_config a now.

Definition register_metrics : M Snapshot.state unit :=
  do! register_metric cfg "total_cpu_usage" (Some CpuUsage) (Some 70) 1 5;
  do! register_metric cfg "total_memory_usage_value" (Some MemoryValue) None 0 6;
  register_metric cfg "total_memory_usage_percent" (Some MemoryPercent) (Some 70) 0 5.

(** The state before [application_thread]; None: [exit(0)] after an error. *)
Definition ApplicationMonitor_init : ApplicationMonitor := mkApplicationMonitor false None None 0.
Definition set_up : option state :=
  match DataSnapshot_init (Some "output.txt") init_state with
  | (Raise _, _) => None
  | (Ok _, s) => match abort_due_to_internal_error s with
                 | Some _ => None
                 | None =>
                     match SnapshotMonitor_init cfg (snapshot_wait_time a) (register_metrics s).2 with
                     | (Ok m, s') => match had_internal_error m with
                                     | Some _ => None
                                     | None => Some (Monitors.mkState s' m ApplicationMonitor_init)
                                     end
                     | (Raise _, _) => None
                     end
                 end
  end.

Definition execution_sleep_time : Z := 30.
(** One round of [execution_loop]: whether it breaks. *)
Definition execution_round : M state bool :=
  let! p := gets (fun s => application_process_psutil (app s)) in
  do! snapshot_loop cfg p execution_sleep_time;
  do! application_loop (canary_executable a) (canary_arguments a) false;
  let! cut := gets (fun s => has_cut_ticket (mon s)) in
  if cut : bool then
    do! modify (fun s => mkState (snap s) (internal_error (default "" (had_internal_error (mon s))) (mon s)) (app s));
    ret true
  else gets (fun s => match error_has_occurred (app s), had_internal_error (mon s) with None, None => false | _, _ => true end).
Fixpoint execution_loop (rounds : nat) : M state bool :=
  match rounds with
  | O => ret false
  | S n => let! over := execution_round in if over : bool then ret true else execution_loop n
  end.

Definition cut (severity : Z) : M state unit := on_snap (cut_ticket_using_cloudwatch cfg severity (ticket a) true).

(** Why the run ended: [wrapper_error_occurred] and [send_finished_email]
    ([error_due_to_credentials] of the application monitor is never set). The
    exception of a ticket leaves the first as it was, False. *)
Definition find_reason : M state (bool * bool) :=
  let! m := gets mon in
  let! ap := gets app in
  try_except is_Exception
    (match had_internal_error m with
     | Some _ =>
         if has_cut_ticket m then ret (true, true)
         else do! cut 4; ret (true, true)
     | None =>
         match error_has_occurred ap with
         | Some _ => if negb (error_code ap =? 0) then do! cut 4; ret (true, true) else ret (false, true)
         | None => do! cut 4; ret (true, true)
         end
     end)
    (fun _ => ret (false, true)).

(** What follows the loop; the result is the exit code. *)
Definition finish : M state Z :=
  do! stop_monitoring;
  let! (wrapper_error_occurred, send_finished_email) := find_reason in
  do! on_snap (cleanup cfg wrapper_error_occurred);
  do! (if send_finished_email then send_email cfg (if wrapper_error_occurred then "Had an error" else "Finished")
       else ret tt);
  gets (fun s => error_code (app s)).

(** [application_thread], with a bound on the rounds; None: still running. *)
Definition application_thread (rounds : nat) : M state (option Z) :=
  do! send_email cfg "Started";
  do! start_monitoring (canary_executable a) (canary_arguments a);
  do! set_mon (set_can_cut true);
  let! over := execution_loop rounds in
  if over : bool then let! code := finish in ret (Some code) else ret None.
End Wrapper.
End Wrapper.

(** ** What a run reports *)
Module Verdict.
Import Services Snapshot Monitors Wrapper.

Section Verdict.
Context `{World}.
Variable a : arguments.
Variable now : string.
#[local] Abbreviation cfg := (cfg a now).

Definition is_ticket (c : call) : bool := match c with PutTicketAlarm _ _ => true | _ => false end.
Definition tickets (s : Snapshot.state) : list call := filter (fun c => is_ticket c = true) (calls s).

(** What became of the application, from the calls made (latest first) and their
    answers alone: the exit code to report, once there is one. A pipeline that
    cannot be started or polled counts as 1, one that has ended as the status of
    [tee], its last command. *)
Fixpoint app_outcome (l : list call) : option Z :=
  match l with
  | [] => None
  | Poll :: h =>
      match ended h with
      | Raise _ => Some 1
      | Ok (Some (_, tee)) => Some tee
      | Ok None => app_outcome h
      end
  | (Popen _ | PsutilProcess) as c :: h =>
      match serve h c with Raise _ => Some 1 | Ok _ => app_outcome h end
  | _ :: h => app_outcome h
  end.
Definition decisive (c : call) : bool := match c with Poll | Popen _ | PsutilProcess => true | _ => false end.

(** What the run relies on: the Lambda client and the tickets cut so far; and
    with it what became of the application. *)
Definition vital0 (s : Snapshot.state) : bool * list call := (has_lambda s, tickets s).
Definition vital (s : Snapshot.state) : bool * list call * option Z := (vital0 s, app_outcome (calls s)).

Lemma ask_vital0 {A} c (answer : list call -> result A) : is_ticket c = false -> preserves vital0 (ask c answer).
Proof. intros Hc s. unfold vital0, tickets. simpl. rewrite filter_cons. by rewrite Hc. Qed.
Lemma ask_vital {A} c (answer : list call -> result A) : is_ticket c = false -> decisive c = false ->
  preserves vital (ask c answer).
Proof.
  intros Hc Hd s. unfold vital. f_equal; [by apply (ask_vital0 c answer Hc s)|]. by destruct c.
Qed.
Lemma modify_vital f : (forall s, vital (f s) = vital s) -> preserves vital (modify f).
Proof. intros Hf s. apply Hf. Qed.
Lemma abort_vital r : preserves vital (abort r).
Proof. done. Qed.

(** Operations that cut no ticket. *)
Ltac keeps :=
  repeat (first
    [ assumption
    | apply preserves_ret | apply preserves_raise | apply preserves_gets | apply abort_vital
    | apply ask_vital; reflexivity
    | apply modify_vital; intros ?; reflexivity
    | apply preserves_try_except; [|intros ?]
    | apply preserves_mfor; intros ?
    | apply preserves_bind; [|intros ?]
    | match goal with |- preserves _ (match ?x with _ => _ end) => destruct x end ]).

Lemma cloudwatch_vital c : is_ticket c = false -> decisive c = false -> preserves vital (cloudwatch c).
Proof. intros Hc Hd. unfold cloudwatch, with_client. keeps. all: by apply ask_vital. Qed.
Lemma dashboard_vital : preserves vital (_cleanup_cloudwatch_dashboard cfg).
Proof. unfold _cleanup_cloudwatch_dashboard, attempt. keeps. Qed.
Lemma results_vital : preserves vital get_cloudwatch_alarm_results.
Proof.
  apply preserves_bind; [keeps|]. intros l. induction l as [|m l IH]; [keeps|]. simpl.
  apply preserves_bind; [unfold _check_cloudwatch_alarm_state_metric, with_client; keeps|].
  intros [[? ?] ?]. apply preserves_bind; [exact IH|]. intros ?. keeps.
Qed.
Lemma run_function_vital f p : preserves vital (run_function f p).
Proof.
  destruct f; simpl; unfold get_metric_total_cpu_usage, get_metric_total_memory_usage_value,
    get_metric_total_memory_usage_percent, get_metric_memory; keeps.
Qed.
Lemma post_vital p : preserves vital (post_metrics cfg p).
Proof.
  unfold post_metrics, _init_cloudwatch_pre_first_run, _init_cloudwatch_pre_first_run_dashboard,
    _add_cloudwatch_metric_alarm, export_metrics_cloudwatch, update_metric, get_metric_value, attempt, call_service.
  keeps.
  all: first [by apply cloudwatch_vital | apply run_function_vital | apply dashboard_vital].
Qed.
Lemma cleanup_vital e : preserves vital (cleanup cfg e).
Proof.
  unfold cleanup, export_result_to_s3_bucket, _cleanup_cloudwatch_alarms, attempt.
  keeps. all: first [by apply cloudwatch_vital | apply dashboard_vital].
Qed.
Lemma email_vital subject : preserves vital (lambda_send_email subject).
Proof. unfold lambda_send_email, attempt, with_client. keeps. Qed.

(** The test of the alarms never holds. *)
Lemma alarm_results_empty s : match (get_cloudwatch_alarm_results s).1 with Ok l => l = [] | Raise _ => True end.
Proof.
  unfold get_cloudwatch_alarm_results, bind, gets. generalize (metrics s). intros l. revert s.
  induction l as [|m l IH]; intros s; simpl; [done|]. unfold bind.
  destruct (_check_cloudwatch_alarm_state_metric m s) as [[[[fine name] sev]|e] s1]; [|done].
  specialize (IH s1). destruct (check_states l s1) as [[rest|e] s2]; simpl in *; [|done]. subst rest.
  destruct name as [n|]; [|done]. unfold str_eq_False. by rewrite andb_false_r.
Qed.

(** The same for the whole wrapper, with whether a ticket was cut for an alarm,
    and the application monitor's record. *)
Definition wvital (s : state) : bool * list call * bool := (vital0 (snap s), has_cut_ticket (mon s)).
Definition wboth (s : state) := (vital (snap s), has_cut_ticket (mon s), error_has_occurred (app s), error_code (app s)).

Lemma wboth_vital {A} (m : M state A) : preserves wboth m -> preserves wvital m.
Proof. intros Hm s. specialize (Hm s). unfold wboth, vital, wvital in *. congruence. Qed.
Lemma on_snap_vital {A} (m : M Snapshot.state A) : preserves vital m -> preserves wboth (on_snap m).
Proof. intros Hm s. specialize (Hm (snap s)). unfold wboth, on_snap. destruct (m (snap s)). simpl in *. by rewrite Hm. Qed.
Lemma on_snap_vital0 {A} (m : M Snapshot.state A) : preserves vital0 m -> preserves wvital (on_snap m).
Proof. intros Hm s. specialize (Hm (snap s)). unfold wvital, on_snap. destruct (m (snap s)). simpl in *. by rewrite Hm. Qed.
Lemma set_mon_vital f : (forall m, has_cut_ticket (f m) = has_cut_ticket m) -> preserves wboth (set_mon f).
Proof. intros Hf s. unfold wboth. simpl. by rewrite Hf. Qed.
Lemma set_app_vital f : preserves wvital (set_app f).
Proof. done. Qed.
Lemma set_process_vital b : preserves wboth (set_app (set_process b)).
Proof. done. Qed.

Create HintDb canary discriminated.
Ltac wkeeps :=
  repeat (first
    [ assumption | solve [auto with canary nocore] | apply wboth_vital; solve [auto with canary nocore]
    | apply preserves_ret | apply preserves_raise | apply preserves_gets | apply set_app_vital | apply set_process_vital
    | apply set_mon_vital; intros ?; reflexivity
    | apply preserves_try_except; [|intros ?]
    | apply preserves_bind; [|intros ?]
    | match goal with |- preserves _ (match ?x with _ => _ end) => destruct x end
    | apply on_snap_vital; first [apply ask_vital; reflexivity | apply post_vital | apply email_vital | apply cleanup_vital]
    | apply on_snap_vital0; apply ask_vital0; reflexivity
    | apply wboth_vital; apply set_mon_vital; intros ?; reflexivity ]).

Lemma poll_alarms_vital : preserves wboth (poll_alarms cfg).
Proof.
  intros s. unfold poll_alarms, bind at 1, gets. simpl. destruct (had_internal_error (mon s)); [done|].
  pose proof (results_vital (snap s)) as Hv. pose proof (alarm_results_empty (snap s)) as Hr.
  unfold bind, on_snap. destruct (get_cloudwatch_alarm_results (snap s)) as [[l|e] s1]; simpl in *.
  - subst l. unfold wboth. simpl. by rewrite Hv.
  - unfold wboth. simpl. by rewrite Hv.
Qed.

#[local] Hint Resolve poll_alarms_vital : canary.
Lemma snapshot_loop_vital p z : preserves wboth (snapshot_loop cfg p z).
Proof.
  unfold snapshot_loop, guarded, post_when_due, guarded. wkeeps. intros s. by unfold wboth.
Qed.

Lemma stop_vital : preserves wboth stop_monitoring.
Proof. unfold stop_monitoring, call_service. wkeeps. Qed.
Lemma start_vital x y : preserves wvital (start_monitoring x y).
Proof. unfold start_monitoring, app_guarded, call_service. wkeeps. Qed.
#[local] Hint Resolve snapshot_loop_vital stop_vital start_vital : canary.
Lemma application_loop_vital x y b : preserves wvital (application_loop x y b).
Proof.
  unfold application_loop, restart_monitoring, app_guarded. wkeeps.
Qed.

#[local] Hint Resolve application_loop_vital : canary.
Lemma round_vital : preserves wvital (execution_round a now).
Proof.
  unfold execution_round. wkeeps. intros s. by unfold wvital.
Qed.

#[local] Hint Resolve round_vital : canary.
(** The loop ends with an error of one of the monitors, and no ticket. *)
Lemma loop_vital n : preserves wvital (execution_loop a now n).
Proof. induction n as [|n IH]; simpl; wkeeps. Qed.

Definition stopped (s : state) : bool :=
  match error_has_occurred (app s), had_internal_error (mon s) with None, None => false | _, _ => true end.
Lemma loop_stopped n s s' : has_cut_ticket (mon s) = false ->
  execution_loop a now n s = (Ok true, s') -> stopped s' = true.
Proof.
  revert s. induction n as [|n IH]; intros s Hc; simpl; [done|]. unfold bind at 1.
  pose proof (round_vital s) as Hv. unfold execution_round in *.
  destruct (execution_round a now s) as [[over|e] s1] eqn:E; unfold execution_round in E; rewrite E in *; [|done].
  assert (Hc1 : has_cut_ticket (mon s1) = false) by (unfold wvital in Hv; simpl in Hv; congruence).
  destruct over; [|by apply IH]. intros [= <-]. revert E. unfold bind, gets.
  destruct (snapshot_loop _ _ _ _) as [[?|?] s2]; [|done].
  destruct (application_loop _ _ _ s2) as [[?|?] s3]; [|done].
  destruct (has_cut_ticket (mon s3)) eqn:Hc3; unfold modify, ret.
  - intros [= <-]. simpl in Hc1. congruence.
  - intros [= Ho <-]. unfold stopped. done.
Qed.

(** The application monitor's record agrees with what became of the
    application. *)
Definition agrees (s : state) : Prop :=
  match app_outcome (calls (snap s)) with
  | None => error_has_occurred (app s) = None /\ error_code (app s) = 0
  | Some z => is_Some (error_has_occurred (app s)) /\ error_code (app s) = z
  end.
(** [m] keeps it so when it returns. *)
Definition keeps_record {A} (m : M state A) : Prop := forall s v s', agrees s -> m s = (Ok v, s') -> agrees s'.

Lemma wboth_record {A} (m : M state A) : preserves wboth m -> keeps_record m.
Proof.
  intros Hm s v s' Ha E. specialize (Hm s). rewrite E in Hm. unfold wboth, vital in Hm.
  injection Hm as _ _ E1 _ E2 E3. unfold agrees. by rewrite E1, E2, E3.
Qed.
Lemma record_bind {A B} (m : M state A) (k : A -> M state B) :
  keeps_record m -> (forall x, keeps_record (k x)) -> keeps_record (bind m k).
Proof.
  intros Hm Hk s v s' Ha. unfold bind. destruct (m s) as [[x|e] s1] eqn:E; [|done].
  apply Hk. by eapply Hm.
Qed.

Lemma start_record x y : keeps_record (start_monitoring x y).
Proof.
  intros s v s' Ha. unfold start_monitoring, app_guarded, try_except, bind, gets, on_snap, set_app, modify, call_service, ask.
  destruct (application_process (app s)); [by intros [= _ <-]|]. simpl.
  destruct (serve (calls (snap s)) _) as [[]|e] eqn:E1; simpl.
  - destruct (serve _ PsutilProcess) as [[]|e] eqn:E2; simpl.
    + intros [= _ <-]. unfold agrees in *. simpl. by rewrite E2, E1.
    + destruct (is_Exception e); [|done]. intros [= _ <-]. unfold agrees. simpl. rewrite E2. simpl. eauto.
  - destruct (is_Exception e); [|done]. intros [= _ <-]. unfold agrees. simpl. rewrite E1. simpl. eauto.
Qed.
Lemma application_loop_record x y : keeps_record (application_loop x y false).
Proof.
  intros s v s' Ha. unfold application_loop, try_except, bind, gets, on_snap, set_app, modify, ask, ret.
  destruct (application_process (app s)); [|by intros [= _ <-]]. simpl.
  destruct (ended (calls (snap s))) as [[[canary tee]|]|e] eqn:E; simpl.
  - destruct (Z.eqb_spec tee 0) as [->|Hn]; simpl; intros [= _ <-]; unfold agrees; simpl; rewrite E; simpl; eauto.
  - intros [= _ <-]. unfold agrees in *. simpl. by rewrite E.
  - destruct (is_Exception e); [|done]. intros [= _ <-]. unfold agrees. simpl. rewrite E. simpl. eauto.
Qed.
Lemma round_record : keeps_record (execution_round a now).
Proof.
  unfold execution_round. apply record_bind; [apply wboth_record, preserves_gets|]. intros p.
  apply record_bind; [apply wboth_record, snapshot_loop_vital|]. intros [].
  apply record_bind; [apply application_loop_record|]. intros [].
  apply record_bind; [apply wboth_record, preserves_gets|]. intros [].
  - apply wboth_record, preserves_bind; [|intros ?; apply preserves_ret]. done.
  - apply wboth_record, preserves_gets.
Qed.
Lemma loop_record n : keeps_record (execution_loop a now n).
Proof.
  induction n as [|n IH]; simpl; [apply wboth_record, preserves_ret|].
  apply record_bind; [apply round_record|]. intros []; [apply wboth_record, preserves_ret|done].
Qed.

(** The state the script starts from. *)
Lemma snapshot_ready file s : DataSnapshot_init file init_state = (Ok tt, s) ->
  abort_due_to_internal_error s = None -> vital s = (true, [], None).
Proof.
  unfold DataSnapshot_init, make_client, bind, call_service, ask, modify, abort.
  repeat (match goal with |- context [serve ?h ?c] => destruct (serve h c) as [[]|?] end;
          [|destruct (is_Exception _); [by intros [= <-]|done]]).
  by intros [= <-].
Qed.
Lemma register_vital : preserves (fun s => (vital s, abort_due_to_internal_error s)) (register_metrics a now).
Proof. done. Qed.
Lemma set_up_ready s : set_up a now = Some s ->
  has_cut_ticket (mon s) = false /\ vital (snap s) = (true, [], None) /\ app s = ApplicationMonitor_init.
Proof.
  unfold set_up. destruct (DataSnapshot_init _ _) as [[[]|e] s0] eqn:E; [|done].
  destruct (abort_due_to_internal_error s0) eqn:Ea; [done|]. apply snapshot_ready in E; [|done].
  unfold SnapshotMonitor_init, bind, gets, ret.
  pose proof (register_vital s0) as Hv. cbn beta in Hv. rewrite Ea, E in Hv. revert Hv.
  generalize ((register_metrics a now s0).2). intros s1 [= H1 H2 H3 H4].
  rewrite H4. intros [= <-]. unfold vital, vital0. simpl. by rewrite H1, H2, H3.
Qed.

(** The calls that end a run: stopping the application and cutting a ticket. *)
Definition ending (c : call) : bool :=
  match c with
  | Terminate | Wait | MakeClient Cloudwatch | PutTicketAlarm _ _ | SetAlarmState _ | DeleteAlarms _ => true
  | _ => false
  end.
Hypothesis ending_works : forall h c, ending c = true -> serve h c = Ok tt.

Definition the_ticket : call := PutTicketAlarm (ticket_alarm_name cfg) (ticket_arn 4 (ticket a) true).

Lemma stop_runs s : exists s', stop_monitoring s = (Ok tt, s') /\ mon s' = mon s /\
  error_has_occurred (app s') = error_has_occurred (app s) /\ error_code (app s') = error_code (app s) /\
  wboth s' = wboth s.
Proof.
  pose proof (stop_vital s) as Hv. revert Hv. unfold stop_monitoring, bind, gets, on_snap, call_service, ask.
  destruct (application_process (app s)); simpl; [|by eexists].
  rewrite !ending_works by done. simpl. intros Hv. by eexists.
Qed.

Lemma cut_runs s : exists s', cut_ticket_using_cloudwatch cfg 4 (ticket a) true s = (Ok tt, s') /\
  has_lambda s' = has_lambda s /\ tickets s' = the_ticket :: tickets s /\
  app_outcome (calls s') = app_outcome (calls s).
Proof.
  unfold cut_ticket_using_cloudwatch, call_service, ask. simpl. rewrite !ending_works by done. by eexists.
Qed.

Definition failed (s : state) : bool :=
  match had_internal_error (mon s) with Some _ => true | None => negb (error_code (app s) =? 0) end.

Lemma find_reason_runs s : has_cut_ticket (mon s) = false -> stopped s = true ->
  exists s', find_reason a now s = (Ok (failed s, true), s') /\ mon s' = mon s /\ app s' = app s /\
    has_lambda (snap s') = has_lambda (snap s) /\ app_outcome (calls (snap s')) = app_outcome (calls (snap s)) /\
    tickets (snap s') = (if failed s then the_ticket :: tickets (snap s) else tickets (snap s)).
Proof.
  unfold stopped, failed, find_reason, cut, try_except, bind, gets, on_snap. intros Hc Hs. rewrite Hc.
  destruct (cut_runs (snap s)) as (s1 & Hr & Hl & Ht & Ho).
  destruct (had_internal_error (mon s)); [simpl; rewrite Hr; by eexists|]. destruct (error_has_occurred (app s)); [|done].
  destruct (negb (error_code (app s) =? 0)); [simpl; rewrite Hr|]; by eexists.
Qed.

Definition subject (b : bool) : string :=
  "Canary: " ++ arg_git_repo_name a ++ ":" ++ arg_git_hash a ++ " - " ++ (if b then "Had an error" else "Finished").

Lemma email_last subj s : has_lambda s = true -> exists l, calls (lambda_send_email subj s).2 = InvokeLambda subj :: l.
Proof.
  intros Hl. unfold lambda_send_email, attempt, with_client, try_except, bind, gets. rewrite Hl.
  unfold call_service, ask, abort, set_abort. destruct (serve _ _) as [[]|e]; simpl; [by eexists|].
  destruct (is_Exception e); by eexists.
Qed.

Lemma finish_runs s s' code : has_cut_ticket (mon s) = false -> stopped s = true -> has_lambda (snap s) = true ->
  agrees s -> finish a now s = (Ok code, s') ->
  code = error_code (app s') /\ mon s' = mon s /\ agrees s' /\
  tickets (snap s') = (if failed s' then the_ticket :: tickets (snap s) else tickets (snap s)) /\
  head (calls (snap s')) = Some (InvokeLambda (subject (failed s'))).
Proof.
  intros Hc Hs Hl Hag. unfold finish, bind at 1.
  destruct (stop_runs s) as (s1 & -> & Hm1 & He1 & Hcode1 & Hv1). unfold wboth, vital, vital0 in Hv1.
  injection Hv1 as Hl1 Ht1 Ho1 Hc1 _ _. rewrite Hc in Hc1. rewrite Hl in Hl1.
  assert (Hs1 : stopped s1 = true) by (unfold stopped; by rewrite Hm1, He1).
  destruct (find_reason_runs s1 Hc1 Hs1) as (s2 & Hr & Hm2 & Ha2 & Hl2 & Ho2 & Ht2). unfold bind at 1. rewrite Hr.
  pose proof (cleanup_vital (failed s1) (snap s2)) as Hv2. unfold bind at 1, on_snap.
  destruct (cleanup cfg (failed s1) (snap s2)) as [[[]|e] s3]; [|done]. unfold vital, vital0 in Hv2.
  injection Hv2 as Hl3 Ht3 Ho3. simpl in Hl3, Ht3, Ho3.
  unfold bind, send_email, on_snap. simpl snap. set (subj := String.append _ _).
  pose proof (email_vital subj s3) as Hv4. destruct (email_last subj s3) as [l Hlast]; [by rewrite Hl3, Hl2|].
  destruct (lambda_send_email subj s3) as [[[]|e] s4]; [|done]. unfold vital, vital0 in Hv4.
  injection Hv4 as _ Ht4 Ho4. simpl in Ht4, Ho4, Hlast.
  intros [= <- <-]. simpl. split; [done|]. split; [congruence|].
  assert (Hf : failed (Monitors.mkState s4 (mon s2) (app s2)) = failed s1)
    by (unfold failed; simpl; by rewrite Hm2, Ha2).
  split; [unfold agrees in *; simpl; by rewrite Ho4, Ho3, Ho2, Ho1, Ha2, He1, Hcode1|].
  rewrite Hf, Ht4, Ht3, Ht2, Ht1. split; [done|]. by rewrite Hlast.
Qed.

(** Whether a run that ended so counts as failed. *)
Definition run_failed (s : state) : bool :=
  match had_internal_error (mon s) with
  | Some _ => true
  | None => match app_outcome (calls (snap s)) with Some z => negb (z =? 0) | None => false end
  end.
Lemma run_failed_record s : agrees s -> failed s = run_failed s.
Proof.
  unfold agrees, failed, run_failed. destruct (had_internal_error (mon s)); [done|].
  by destruct (app_outcome _) as [z|]; intros [_ ->].
Qed.

(** C39: How a canary run ends. If the calls that stop the application and cut
    tickets work, then whatever CloudWatch, psutil and the application do, a run
    of the script that ends has not been stopped by a metric alarm and has cut no
    ticket for one (the test of the alarms never holds); it cuts one ticket, and
    its last email says "Had an error", exactly if the snapshot monitor has had an
    internal error or the application failed - the pipeline could not be started
    or polled, or a poll found it ended with a status of [tee] that is not 0 -
    and says "Finished" otherwise. The script exits with that status, or 1 where
    there is none, and with 0 where the application had not ended: an internal
    error of the monitor alone does not show in the exit code. *)
Theorem canary_verdict (rounds : nat) (s s' : state) (code : Z)
    (Hs : set_up a now = Some s)
    (Hrun : application_thread a now rounds s = (Ok (Some code), s')) :
  has_cut_ticket (mon s') = false /\
  code = (match app_outcome (calls (snap s')) with Some z => z | None => 0 end) /\
  tickets (snap s') = (if run_failed s' then [the_ticket] else []) /\
  head (calls (snap s')) = Some (InvokeLambda (subject (run_failed s'))).
Proof.
  destruct (set_up_ready s Hs) as (Hcut & Hv0 & Happ). unfold vital, vital0 in Hv0.
  injection Hv0 as Hlambda Htick Hout.
  assert (Hag : agrees s) by (unfold agrees; by rewrite Hout, Happ).
  revert Hrun. unfold application_thread, bind at 1.
  assert (H1 : preserves wboth (send_email cfg "Started")) by (apply on_snap_vital, email_vital).
  pose proof (wboth_record _ H1 s) as R1. apply wboth_vital in H1. specialize (H1 s).
  destruct (send_email cfg "Started" s) as [[[]|e] s1]; [|done]. specialize (R1 tt s1 Hag eq_refl). unfold bind at 1.
  pose proof (start_vital (canary_executable a) (canary_arguments a) s1) as H2.
  pose proof (start_record (canary_executable a) (canary_arguments a) s1) as R2.
  destruct (start_monitoring _ _ s1) as [[[]|e] s2]; [|done]. specialize (R2 tt s2 R1 eq_refl).
  unfold bind at 1, set_mon, modify. set (s3 := Monitors.mkState _ _ _).
  assert (R3 : agrees s3) by exact R2. pose proof (loop_vital rounds s3) as H3. unfold bind at 1.
  destruct (execution_loop a now rounds s3) as [[[|]|e] s4] eqn:E; [|done|done].
  unfold bind. destruct (finish a now s4) as [[c|e] s5] eqn:Ef; [|done]. intros [= <- <-].
  assert (Hv : wvital s4 = wvital s) by (simpl in *; rewrite H3; simpl; unfold wvital in *; simpl; congruence).
  unfold wvital, vital0 in Hv. injection Hv as Hl Ht Hc.
  assert (Hc3 : has_cut_ticket (mon s3) = false) by (unfold wvital in H1, H2; simpl in *; congruence).
  pose proof (loop_stopped rounds s3 s4 Hc3 E) as Hst.
  destruct (finish_runs s4 s5 c) as (Hcode & Hm & Hag5 & Htk & Hh);
    [congruence|done|congruence|by eapply loop_record|done|].
  rewrite run_failed_record in Htk, Hh by done. split; [congruence|].
  split; [|by rewrite Htk, Ht, Htick]. rewrite Hcode. revert Hag5. unfold agrees.
  destruct (app_outcome (calls (snap s5))); by intros [_ ->].
Qed.
End Verdict.

(** Services that work; every metric is in alarm; the canary crashes (139) after
    two polls, and [tee] ends well. *)
Definition is_poll (c : call) : bool := match c with Poll => true | _ => false end.
Definition demo_world (canary tee : Z) : World := {|
  serve := fun _ _ => Ok tt;
  alarms_of := fun _ m => Ok [(m ++ "-alarm", true)];
  reading := fun _ _ => Ok 99;
  ended := fun h => Ok (if (length (filter (fun c => is_poll c = true) h) <? 2)%nat then None else Some (canary, tee));
|}.
Definition demo_arguments : arguments :=
  mkArguments "canary" "" "1a2b" "repo" false None "" "" 600 (mkTicket "AWS" "SDKs and Tools" "IoT" "Group").
Definition demo_run (canary tee : Z) : result (option Z) * list call :=
  match set_up (H:=demo_world canary tee) demo_arguments "now" with
  | None => (Ok None, [])
  | Some s => let '(r, s') := application_thread (H:=demo_world canary tee) demo_arguments "now" 5 s in
              (r, calls (snap s'))
  end.

(** A crash of the canary behind the pipe is a success; an error of the pipeline
    is reported. *)
Example crash_unseen : (demo_run 139 0).1 = Ok (Some 0) /\
  head (demo_run 139 0).2 = Some (InvokeLambda "Canary: repo:1a2b - Finished").
Proof. by vm_compute. Qed.

Definition demo_start : state :=
  default (Monitors.mkState init_state (mkSnapshotMonitor None false false false [] 0 600) ApplicationMonitor_init)
    (set_up (H:=demo_world 139 139) demo_arguments "now").
Definition demo_end : state := (application_thread (H:=demo_world 139 139) demo_arguments "now" 5 demo_start).2.

Lemma canary_verdict_witness :
  head (calls (snap demo_end)) = Some (InvokeLambda "Canary: repo:1a2b - Had an error") /\
  has_cut_ticket (mon demo_end) = false /\ length (tickets (snap demo_end)) = 1%nat.
Proof.
  destruct (canary_verdict (H:=demo_world 139 139) demo_arguments "now" ltac:(done) 5 demo_start demo_end 139
    ltac:(vm_compute; reflexivity) ltac:(vm_compute; reflexivity)) as (H1 & _ & H3 & H4).
  split; [rewrite H4; vm_compute; reflexivity|]. split; [exact H1|]. rewrite H3. vm_compute. reflexivity.
Defined.
End Verdict.

(** ** When reports are posted *)
Module Schedule.
Import Services Snapshot Monitors.

Section Schedule.
Context `{World}.
Variable cfg : config.

(** Services that answer; a reading may fail with an exception. *)
Hypothesis serve_ok : forall h c, serve h c = Ok tt.
Hypothesis alarms_ok : forall h m, is_ok (alarms_of h m) = true.
Hypothesis reading_ok : forall h s, match reading h s with Ok _ => True | Raise e => is_Exception e = true end.

Definition good (s : Snapshot.state) : Prop := abort_due_to_internal_error s = None /\ has_cloudwatch s = true.
(** [m] returns, and leaves a good state with [n] more reports. *)
Definition runs_by {A} (n : nat) (m : M Snapshot.state A) : Prop := forall s, good s ->
  exists x s', m s = (Ok x, s') /\ good s' /\ metric_report_number s' = (n + metric_report_number s)%nat.
Abbreviation runs := (runs_by 0).

Lemma runs_bind {A B} n1 n2 (m : M Snapshot.state A) (k : A -> M Snapshot.state B) :
  runs_by n1 m -> (forall x, runs_by n2 (k x)) -> runs_by (n2 + n1) (bind m k).
Proof.
  intros Hm Hk s Hs. destruct (Hm s Hs) as (x & s1 & E1 & G1 & N1). destruct (Hk x s1 G1) as (y & s2 & E2 & G2 & N2).
  exists y, s2. unfold bind. rewrite E1. split_and!; [done|done|]. lia.
Qed.
Lemma runs_bind0 {A B} n (m : M Snapshot.state A) (k : A -> M Snapshot.state B) :
  runs m -> (forall x, runs_by n (k x)) -> runs_by n (bind m k).
Proof. intros Hm Hk. rewrite <- (Nat.add_0_r n). by apply runs_bind. Qed.
Lemma runs_ret {A} (x : A) : runs (ret x).
Proof. intros s Hs. by exists x, s. Qed.
Lemma runs_gets {A} (f : Snapshot.state -> A) : runs (gets f).
Proof. intros s Hs. by exists (f s), s. Qed.
Lemma runs_modify n f : (forall s, good s -> good (f s) /\ metric_report_number (f s) = (n + metric_report_number s)%nat) ->
  runs_by n (modify f).
Proof. intros Hf s Hs. destruct (Hf s Hs). by exists tt, (f s). Qed.
Lemma runs_attempt m h : runs m -> runs (attempt m h).
Proof. intros Hm s Hs. destruct (Hm s Hs) as (x & s' & E & G). exists x, s'. unfold attempt, try_except. by rewrite E. Qed.
Lemma runs_mfor {A} (l : list A) body : (forall x, runs (body x)) -> runs (mfor l body).
Proof. intros Hb. induction l as [|x l IH]; simpl; [apply runs_ret|]. by apply runs_bind0. Qed.
Lemma runs_cloudwatch c : runs (cloudwatch c).
Proof.
  intros s [G1 G2]. exists tt, (add_call c s). unfold cloudwatch, with_client, bind, gets, call_service, ask.
  rewrite G2, serve_ok. done.
Qed.

Lemma runs_try_ask c src (k : Z -> M Snapshot.state (option Z)) : (forall v, runs (k v)) ->
  runs (try_except is_Exception (let! v := ask c (fun h => reading h src) in k v) (fun _ => ret None)).
Proof.
  intros Hk s Hs. unfold try_except, bind, ask. pose proof (reading_ok (calls s) src) as Hr.
  destruct (reading (calls s) src) as [v|e].
  - destruct (Hk v (add_call c s) Hs) as (x & s' & -> & G). by exists x, s'.
  - rewrite Hr. by exists None, (add_call c s).
Qed.

Lemma runs_function f p : runs (run_function f p).
Proof.
  destruct f, p as [p|]; simpl; try apply runs_ret; unfold get_metric_total_cpu_usage,
    get_metric_total_memory_usage_value, get_metric_total_memory_usage_percent, get_metric_memory;
    try (apply runs_try_ask; intros ?; apply runs_ret).
  intros s Hs. unfold try_except, bind at 1, gets. simpl.
  apply (runs_try_ask (Psutil CpuUsage) CpuUsage (fun v => if bool_decide (cache_cpu_psutil_process s = Some p)
    then ret (Some v) else do! modify (set_cache (Some p)); ret None)); [|done].
  intros v. case_match; [apply runs_ret|]. apply runs_bind0; [|intros; apply runs_ret]. by apply runs_modify.
Qed.

Ltac runs :=
  repeat (first
    [ apply runs_cloudwatch | apply runs_function | apply runs_ret | apply runs_gets | apply runs_attempt
    | apply runs_mfor; intros ? | apply runs_bind0; [|intros ?]
    | apply runs_modify; intros ? [? ?]; done
    | match goal with |- runs_by _ (match ?x with _ => _ end) => destruct x end ]).

Lemma runs_export : runs export_metrics_cloudwatch.
Proof.
  intros s [G1 G2]. unfold export_metrics_cloudwatch, bind at 1, gets. rewrite G2. cbn [negb].
  revert s G1 G2. cut (runs (let! l := gets metrics in
    do! modify (set_metrics (map snd (map get_metric_cloudwatch_dictionary l)));
    match omap fst (map get_metric_cloudwatch_dictionary l) with
    | [] => ret tt
    | data => attempt (cloudwatch (PutMetricData data))
                (abort "Could not export Cloudwatch metrics due to exception in Cloudwatch client!")
    end)); [intros Hr s G1 G2; by apply Hr|].
  runs.
Qed.

Lemma post_reports p : runs_by 1 (post_metrics cfg p).
Proof.
  unfold post_metrics. apply runs_bind0; [apply runs_gets|]. intros first. apply runs_bind0.
  - unfold _init_cloudwatch_pre_first_run, _init_cloudwatch_pre_first_run_dashboard, _cleanup_cloudwatch_dashboard,
      _add_cloudwatch_metric_alarm. runs.
  - intros ?. apply runs_bind0; [apply runs_gets|]. intros n. apply runs_bind0.
    + apply runs_mfor. intros i. unfold update_metric, get_metric_value. runs.
    + intros ?. apply (runs_bind 1 0); [|intros ?; apply runs_export]. by apply runs_modify.
Qed.

Lemma results_run : runs get_cloudwatch_alarm_results.
Proof.
  apply runs_bind0; [apply runs_gets|]. intros l. induction l as [|m l IH]; simpl; [apply runs_ret|].
  apply runs_bind0.
  - intros s [G1 G2]. unfold _check_cloudwatch_alarm_state_metric, with_client, bind, gets, ask. rewrite G2.
    pose proof (alarms_ok (calls s) (metric_name m)). destruct (alarms_of _ _) as [al|]; [|done]. simpl.
    destruct (find _ al); by eexists _, (add_call _ s).
  - intros [[? ?] ?]. apply runs_bind0; [exact IH|]. intros ?. runs.
Qed.

(** The loop of [execution_loop], as far as the snapshot monitor goes. *)
Fixpoint rounds (n : nat) (psutil_process : option nat) (time_passed : Z) : M state unit :=
  match n with
  | O => ret tt
  | S n => do! snapshot_loop cfg psutil_process time_passed; rounds n psutil_process time_passed
  end.

(** A state of the wrapper with the monitor at work. *)
Record at_work (T timer : Z) (k : nat) (s : state) : Prop := {
  w_good : good (snap s);
  w_fine : had_internal_error (mon s) = None;
  w_period : metric_post_timer_time (mon s) = T;
  w_timer : metric_post_timer (mon s) = timer;
  w_reports : metric_report_number (snap s) = k;
}.

Lemma poll_step T timer k s : at_work T timer k s ->
  exists s', guarded (poll_alarms cfg)
      "Exception occurred checking metric alarms! Likely session credentials expired" s = (Ok true, s') /\
    at_work T timer k s'.
Proof.
  intros [G W2 W3 W4 W5]. destruct (results_run (snap s) G) as (l & s1 & E & Gs & N).
  pose proof (Verdict.alarm_results_empty (snap s)) as Hl. rewrite E in Hl. simpl in Hl. subst l.
  exists (Monitors.mkState s1 (set_alarms [] (mon s)) (app s)). split; [|by split; simpl in *; try lia].
  unfold guarded, try_except, poll_alarms, bind, gets, on_snap. rewrite W2, E. done.
Qed.

Lemma due_step p T timer k s : at_work T timer k s ->
  exists s', post_when_due cfg p s = (Ok true, s') /\
    at_work T (if timer <=? 0 then timer + T else timer) (if timer <=? 0 then S k else k) s'.
Proof.
  intros [G W2 W3 W4 W5]. unfold post_when_due, bind, gets. rewrite W4. destruct (timer <=? 0).
  - rewrite W2. unfold guarded, try_except, bind, on_snap.
    destruct (post_reports p (snap s) G) as (x & s1 & E & G' & N). rewrite E. unfold modify, ret.
    eexists. split; [done|]. split; simpl; try done; lia.
  - exists s. split; [done|]. by split.
Qed.

Lemma loop_step p tp T timer k s : at_work T timer k s ->
  exists s', snapshot_loop cfg p tp s = (Ok tt, s') /\
    at_work T ((if timer <=? 0 then timer + T else timer) - tp) (if timer <=? 0 then S k else k) s'.
Proof.
  intros W. pose proof W as [[G _] _ _ _ _]. unfold snapshot_loop, bind, gets. rewrite G.
  destruct (poll_step T timer k s W) as (s1 & -> & W1). destruct (due_step p T timer k s1 W1) as (s2 & -> & W2).
  unfold set_mon, modify. eexists. split; [done|]. destruct W2. split; simpl; try done; lia.
Qed.

(** Reports are posted on schedule. While the services answer, after n rounds
    of the loop, [time_passed] seconds apart, exactly
    (n - 1) * time_passed / wait + 1 reports have been posted for a waiting time
    of at least a round: the first at once, and then one in each period; a failing
    psutil call does not hold one back. *)
Lemma reports_on_schedule (n : nat) (p : option nat) (tp wait : Z) (s : state)
    (Htp : 0 < tp <= wait) (Hs : at_work wait 0 0 s) (Hn : (0 < n)%nat) :
  exists s', rounds n p tp s = (Ok tt, s') /\ had_internal_error (mon s') = None /\
    Z.of_nat (metric_report_number (snap s')) = (Z.of_nat n - 1) * tp / wait + 1.
Proof.
  assert (Hgen : forall n timer k m s, at_work wait timer k s -> - tp < timer <= wait - tp ->
    timer = Z.of_nat k * wait - Z.of_nat m * tp ->
    exists s' timer' k', rounds n p tp s = (Ok tt, s') /\ at_work wait timer' k' s' /\
      - tp < timer' <= wait - tp /\ timer' = Z.of_nat k' * wait - Z.of_nat (m + n) * tp).
  { clear n s Hs Hn. induction n as [|n IH]; intros timer k m s Hw Ht He; simpl.
    - exists s, timer, k. split_and!; [done|done|lia|lia|]. by rewrite Nat.add_0_r.
    - destruct (loop_step p tp wait timer k s Hw) as (s1 & E1 & W1). unfold bind. rewrite E1.
      destruct (Z.leb_spec timer 0).
      + destruct (IH (timer + wait - tp) (S k) (S m) s1 W1) as (s' & t' & k' & E' & W' & B' & Q'); [lia|lia|].
        exists s', t', k'. split_and!; [done|done|lia|lia|]. rewrite Q'. lia.
      + destruct (IH (timer - tp) k (S m) s1 W1) as (s' & t' & k' & E' & W' & B' & Q'); [lia|lia|].
        exists s', t', k'. split_and!; [done|done|lia|lia|]. rewrite Q'. lia. }
  destruct (Hgen n 0 0%nat 0%nat s Hs) as (s' & t' & k' & E' & [_ Wf _ _ Wr] & B' & Q'); [lia|lia|].
  exists s'. split_and!; [done|done|]. rewrite Wr. simpl in Q'.
  enough ((Z.of_nat n - 1) * tp / wait = Z.of_nat k' - 1) by lia.
  symmetry. apply (Z.div_unique _ _ _ ((Z.of_nat n - 1) * tp - (Z.of_nat k' - 1) * wait)); [left|]; lia.
Qed.
End Schedule.

Lemma reports_on_schedule_witness :
  exists s', rounds (H:=Verdict.demo_world 0 0) (Wrapper.snapshot_config Verdict.demo_arguments "now") 41 None 30 Verdict.demo_start
      = (Ok tt, s') /\ metric_report_number (snap s') = 3%nat.
Proof.
  destruct (reports_on_schedule (H:=Verdict.demo_world 0 0) (Wrapper.snapshot_config Verdict.demo_arguments "now")
    (fun _ _ => eq_refl) (fun _ _ => eq_refl) (fun _ _ => I) 41 None 30 600 Verdict.demo_start) as (s' & E & _ & N).
  - lia.
  - repeat split.
  - lia.
  - exists s'. split; [exact E|]. apply Nat2Z.inj. rewrite N. vm_compute. reflexivity.
Defined.
End Schedule.

(** ** S3Monitor *)
Module S3Watch.
Import Snapshot.

(** [os.path.splitext]: the last dot after the last separator, unless only dots
    come before it in the name. *)
Fixpoint last_index (c : Ascii.ascii) (l : list Ascii.ascii) (i : nat) (found : option nat) : option nat :=
  match l with [] => found | x :: l => last_index c l (S i) (if bool_decide (x = c) then Some i else found) end.
Definition splitext (p : list Ascii.ascii) : list Ascii.ascii * list Ascii.ascii :=
  let start := match last_index "/"%char p 0 None with Some i => S i | None => O end in
  match last_index "."%char p 0 None with
  | Some d =>
      if (start <? d)%nat && existsb (fun c => negb (bool_decide (c = "."%char))) (drop start (take d p))
      then (take d p, drop d p) else (p, [])
  | None => (p, [])
  end.

Record version := mkVersion { IsLatest : bool; VersionId : string; LastModified : Z }.
Record S3Monitor := mkS3Monitor {
  s3_current_object : option (string * Z);
  s3_file_needs_replacing : bool;
  s3_internal_error : option string;
}.
Definition set_error (reason : string) (m : S3Monitor) : S3Monitor :=
  mkS3Monitor (s3_current_object m) (s3_file_needs_replacing m) (Some reason).
Definition object_of (v : version) : string * Z := (VersionId v, LastModified v).

(** The constructor: credentials, then a client. *)
Definition S3Monitor_init (identity s3_client : result unit) : S3Monitor :=
  let new := mkS3Monitor None false None in
  match identity, s3_client with
  | Raise _, _ => set_error "AWS credentials are NOT valid!" new
  | Ok _, Raise _ => set_error "Could not make S3 client for S3 Monitor" new
  | Ok _, Ok _ => new
  end.

(** [check_for_file_change] on the answer of [list_object_versions] for the name
    without its extension: the versions of every object whose name starts so
    (None: no "Versions" in it). *)
Definition is_change (m : S3Monitor) (v : version) : bool :=
  IsLatest v && negb (bool_decide (s3_current_object m = Some (object_of v))).
Definition check_for_file_change (response : result (option (list version))) : M S3Monitor unit :=
  try_except is_Exception
    (let! o := lift response in
     match o with
     | None => ret tt
     | Some l => fun m =>
         match find (is_change m) l with
         | Some v => (Ok tt, mkS3Monitor (Some (object_of v)) true (s3_internal_error m))
         | None => (Ok tt, m)
         end
     end)
    (fun _ => modify (set_error "Could not check for S3 file due to exception in S3 client")).

(** [replace_current_file_for_new_file]: the steps on files and their outcomes;
    unpacking an archive is not guarded. *)
Definition step_or (reason : string) (r : result unit) (k : M S3Monitor unit) : M S3Monitor unit := fun m =>
  match r with
  | Ok _ => k m
  | Raise e => if is_Exception e then (Ok tt, set_error reason m) else (Raise e, m)
  end.
Definition replace_current_file_for_new_file (is_zip : bool) (makedirs download extractall move : result unit)
    : M S3Monitor unit :=
  step_or "Could not make TMP folder for S3 file download" makedirs
    (step_or "Could not download latest S3 file into TMP folder" download
      (do! (if is_zip then lift extractall else ret tt);
       step_or "Could not move file into local application path" move
         (modify (fun m => mkS3Monitor (s3_current_object m) false (s3_internal_error m))))).

(** With one latest version the change is seen once. With two of them (two
    objects whose names start alike) every check sees a change. *)
Lemma check_settles l v m m' :
  (forall w, In w l -> IsLatest w = true -> object_of w = object_of v) -> In v l -> IsLatest v = true ->
  check_for_file_change (Ok (Some l)) m = (Ok tt, m') ->
  s3_current_object m' = Some (object_of v) /\ check_for_file_change (Ok (Some l)) m' = (Ok tt, m').
Proof.
  intros Hl Hin Hv. unfold check_for_file_change, try_except, bind, lift.
  assert (Hnone : forall m, s3_current_object m = Some (object_of v) -> find (is_change m) l = None).
  { intros m0 Hm0. destruct (find (is_change m0) l) as [w|] eqn:Ef; [|done]. apply find_some in Ef as [Hw Hc].
    unfold is_change in Hc. apply andb_prop in Hc as [Hlw Hc]. rewrite Hm0, (Hl w Hw Hlw) in Hc.
    rewrite bool_decide_true in Hc; done. }
  destruct (find (is_change m) l) as [w|] eqn:Ef; intros [= <-].
  - apply find_some in Ef as [Hw Hc]. apply andb_prop in Hc as [Hlw _]. simpl. rewrite (Hl w Hw Hlw).
    split; [done|]. by rewrite Hnone.
  - assert (Hm : s3_current_object m = Some (object_of v)).
    { pose proof (find_none _ _ Ef v Hin) as Hc. unfold is_change in Hc. rewrite Hv in Hc. simpl in Hc.
      case_bool_decide; done. }
    split; [done|]. by rewrite Hnone.
Qed.

Lemma check_flaps l v w m : In v l -> In w l -> IsLatest v = true -> IsLatest w = true -> object_of v <> object_of w ->
  s3_file_needs_replacing (check_for_file_change (Ok (Some l)) m).2 = true.
Proof.
  intros Hv Hw Lv Lw Hne. unfold check_for_file_change, try_except, bind, lift.
  destruct (find (is_change m) l) as [x|] eqn:Ef; [done|]. exfalso. apply Hne.
  pose proof (find_none _ _ Ef v Hv) as H1. pose proof (find_none _ _ Ef w Hw) as H2.
  unfold is_change in H1, H2. rewrite Lv in H1. rewrite Lw in H2. simpl in H1, H2.
  repeat case_bool_decide; try done. congruence.
Qed.

Example splitext_dots :
  map (fun s => let '(r, e) := splitext (String.list_ascii_of_string s) in
                (String.string_of_list_ascii r, String.string_of_list_ascii e))
    ["a/canary.tar.gz"; "x.y/canary"; "dir/.hidden"]%string =
  [("a/canary.tar", ".gz"); ("x.y/canary", ""); ("dir/.hidden", "")]%string.
Proof. by vm_compute. Qed.
End S3Watch.
