(* ===== verification/CanaryReport.v ===== *)
(** * src/codebuild: what the canary prints

    The console reports of [DataSnapshot] in CanaryWrapper_Classes.py: the
    diagnosis printed at the start, with the dependencies and their commits, the
    report of each round, and the dashboard widgets as data ([Canary.Snapshot]
    has the rest of the class). *)
From stdpp Require Import pretty.
From S2P Require Import Prelude PyData Canary.
#[local] Open Scope string_scope.
#[local] Open Scope Z_scope.

Module Report.
Import Canary.Snapshot.

Definition TAB : string := String "009" EmptyString.
Definition NEWLINE : string := String "010" EmptyString.

(** ** Dependencies

    The loop over the parts of the list: the flag says that the part was already
    printed as the commit of the one before. *)
Fixpoint dependency_lines (dependencies_list_found_hash : bool) (dependencies_list : list string) : list string :=
  match dependencies_list with
  | [] => []
  | part :: rest =>
      if dependencies_list_found_hash then dependency_lines false rest
      else ("* " ++ part) ::
        match rest with
        | next :: _ => (TAB ++ " Commit hash: " ++ next) :: dependency_lines true rest
        | [] => [TAB ++ " Commit hash: Unknown"]
        end
  end.

Definition dependencies (dependencies_list : string) : list string :=
  if bool_decide (dependencies_list = "") then []
  else (NEWLINE ++ "Dependencies:") :: dependency_lines false (PyStr.split ";" dependencies_list).

(** ** The diagnosis *)

Definition str_int (z : Z) : string := pretty z.
Definition str_option (v : option Z) : string := if v is Some z then str_int z else "None".

Definition metric_lines (m : Metric) : list string :=
  ("* " ++ metric_name m) ::
  match metric_alarm_threshold m with
  | Some t => [TAB ++ " Alarm Threshold: " ++ str_int t; TAB ++ " Alarm Severity: " ++ str_int (metric_alarm_severity m)]
  | None => [TAB ++ " No alarm set for metric."]
  end.

Definition output_diagnosis_information (cfg : config) (metric_frequency : option Z) (dependencies_list : string)
    (s : state) : list string :=
  [ NEWLINE ++ "========== Canary Wrapper diagnosis information ==========";
    NEWLINE ++ "Running Canary for repository: " ++ git_repo_name cfg;
    TAB ++ " Commit hash: " ++ git_hash cfg ] ++
  dependencies dependencies_list ++
  match metric_frequency with
  | Some f => [NEWLINE ++ "Metric Snapshot Frequency: " ++ str_int f ++ " seconds"]
  | None => []
  end ++
  [NEWLINE ++ "Metrics:"] ++ flat_map metric_lines (metrics s) ++
  [NEWLINE; "=========================================================="; NEWLINE].

(** ** The report of a round *)

(** [is_percent]: of the metric; [datetime_string]: now. *)
Definition export_metrics_console (is_percent : Metric -> bool) (datetime_string : string) (s : state) : list string :=
  (NEWLINE ++ "[DataSnapshot] Metric report: " ++ str_int (Z.of_nat (metric_report_number s)) ++
     " (" ++ datetime_string ++ ")") ::
  map (fun m => "    " ++ metric_name m ++ " - value: " ++ str_option (metric_value m) ++
                (if is_percent m then "%" else "")) (metrics s) ++ [""].

(** ** Widgets as data *)

Record widget_dictionary := mkDictionary {
  wd_metrics : list (list string);
  wd_region : string;
  wd_title : string;
  wd_period : Z;
  wd_width : Z;
  wd_height : Z;
}.
Definition get_widget_dictionary (metric_namespace metric_dimension region : string) (widget_period : Z) (w : Widget)
    : widget_dictionary :=
  mkDictionary (map (fun metric_name => [metric_namespace; metric_name; metric_dimension; metric_name]) (metric_list w))
    region (widget_name w) widget_period 14 10.

(** ** What the reports say *)

(** Dependencies with their commits; the last may have none. *)
Fixpoint pairs (l : list string) : list (string * option string) :=
  match l with
  | part :: next :: rest => (part, Some next) :: pairs rest
  | [part] => [(part, None)]
  | [] => []
  end.
Definition dependency (p : string * option string) : list string :=
  ["* " ++ p.1; TAB ++ " Commit hash: " ++ default "Unknown" p.2].

Lemma dependency_lines_pairs l : dependency_lines false l = flat_map dependency (pairs l).
Proof.
  remember (length l) as n eqn:Hn. revert l Hn. induction (lt_wf n) as [n _ IH]. intros l ->.
  destruct l as [|part [|next l]]; [done..|]. cbn [dependency_lines pairs flat_map dependency fst snd default app].
  do 2 f_equal. apply (IH (length l)); [simpl; lia|done].
Qed.

(** The list is printed as the dependencies with their commits it was made of. *)
Lemma dependencies_listed l : l <> [] -> l <> [""] -> Forall (fun p => PyStr.contains ";" p = false) l ->
  dependencies (PyStr.join ";" l) = (NEWLINE ++ "Dependencies:") :: flat_map dependency (pairs l).
Proof.
  intros Hl Hl' Hf. unfold dependencies. rewrite PyStr.split_join by done. rewrite dependency_lines_pairs.
  case_bool_decide as He; [|done]. pose proof (PyStr.split_join ";" l Hl Hf) as Hs. rewrite He in Hs. by destruct Hl'.
Qed.

Example dependencies_with_an_odd_one :
  dependencies "crt;abc;mqtt" =
  [NEWLINE ++ "Dependencies:"; "* crt"; TAB ++ " Commit hash: abc"; "* mqtt"; TAB ++ " Commit hash: Unknown"].
Proof. reflexivity. Qed.
End Report.
