(* ===== verification/Setup.v ===== *)
(** * setup.py: how the extension is built

    The decisions of setup.py: versions, the Windows SDK, the generator and
    arguments of CMake, the libraries and flags of the extension, and the tag of
    the wheel. What it asks of the machine (environment, registry, compiler,
    installed tools) is in parameters. Paths are joined with a slash. *)
From Stdlib Require Import Sorting.Sorted.
From S2P Require Import Prelude PyData.
#[local] Open Scope string_scope.
#[local] Open Scope Z_scope.

Module Setup.

(** ** Versions *)

(** Comparison of tuples of integers: [a < b]. *)
Fixpoint tuple_lt (a b : list Z) : bool :=
  match a, b with
  | _, [] => false
  | [], _ :: _ => true
  | x :: a', y :: b' => (x <? y) || ((x =? y) && tuple_lt a' b')
  end.
Definition tuple_le (a b : list Z) : bool := negb (tuple_lt b a).

Fixpoint ints (l : list string) : result (list Z) :=
  match l with
  | [] => Ok []
  | x :: l => let? z := PyStr.int x in let? zs := ints l in Ok (z :: zs)
  end.
(** [parse_version], for parts without sign or blanks *)
Definition parse_version (version_string : string) : result (list Z) := ints (PyStr.split "."%char version_string).

(** [SDK_VERSION_RE]: four decimal numbers. *)
Definition decimal (s : string) : bool := negb (bool_decide (s = "")) && PyStr.all_chars PyStr.is_decimal_char s.
Definition SDK_VERSION_RE (s : string) : bool :=
  match PyStr.split "."%char s with
  | [a; b; c; d] => decimal a && decimal b && decimal c && decimal d
  | _ => false
  end.
Definition MACOS_DEPLOYMENT_TARGET_MIN : string := "10.15".
Definition WINDOWS_SDK_MIN_VERSION_TLS1_3_SUPPORT : string := "10.0.17763.0".

(** ** The machine *)

Inductive platform := Win32 | Darwin | Unix (sys_platform : string).
Record machine := mkMachine {
  sys : platform;
  sys_maxsize : Z;
  arch : string;
  getenv : string -> option string;
  argv : list string;
  cflags : option string;                (** sysconfig CFLAGS *)
  config_macosx_target : option string;
  free_threaded : bool;
  version_info : Z * Z;
  crt_submodules : bool;                 (** crt/aws-c-common is there *)
}.

Section Machine.
Variable m : machine.

Definition env_is_1 (name : string) : bool := bool_decide (getenv m name = Some "1").
Definition is_win32 : bool := match sys m with Win32 => true | _ => false end.
Definition is_darwin : bool := match sys m with Darwin => true | _ => false end.
Fixpoint str_contains (x s : string) : bool :=
  String.prefix x s || match s with EmptyString => false | String _ s' => str_contains x s' end.

Definition is_64bit : bool := 2 ^ 32 <? sys_maxsize m.
Definition is_32bit : bool := negb is_64bit.
Definition is_development_mode : bool := bool_decide ("develop" ∈ argv m).
(** [get_xcode_major_version]: any failure of the command or its output is 0. *)
Definition get_xcode_major_version (output : result string) : Z :=
  match (let? o := output in
         let line := default "" (head (PyStr.split (Ascii.ascii_of_nat 10) o)) in
         let version := default "" (last (PyStr.split " "%char line)) in
         PyStr.int (default "" (head (PyStr.split "."%char version)))) with
  | Ok z => z
  | Raise _ => 0
  end.
Definition is_macos_universal2 : result bool :=
  if negb is_darwin then Ok false
  else match cflags m with
       | Some c => Ok (str_contains "-arch x86_64" c && str_contains "-arch arm64" c)
       | None => Raise (TypeError "argument of type 'NoneType' is not iterable")
       end.
Definition determine_cross_compile_args : list string :=
  if bool_decide (arch m = "AMD64" \/ arch m = "x86_64") && is_32bit && negb is_win32
  then ["-DCMAKE_C_FLAGS=-m32"] else [].

Definition using_system_libs : bool := env_is_1 "AWS_CRT_BUILD_USE_SYSTEM_LIBS" || negb (crt_submodules m).
Definition using_libcrypto : bool :=
  match sys m with
  | Darwin | Win32 => negb (env_is_1 "AWS_CRT_BUILD_DISABLE_LIBCRYPTO_USE_FOR_ED25519_EVERYWHERE")
  | Unix _ => true
  end.
Definition using_system_libcrypto : bool := using_system_libs || env_is_1 "AWS_CRT_BUILD_USE_SYSTEM_LIBCRYPTO".
Definition forcing_static_libs : bool := env_is_1 "AWS_CRT_BUILD_FORCE_STATIC_LIBS".
Definition pathsep : Ascii.ascii := if is_win32 then ";"%char else ":"%char.
Definition get_extra_library_dirs : list string :=
  match getenv m "AWS_EXTRA_LIB_DIR" with
  | None | Some "" => []
  | Some dirs => filter (fun d => d <> "") (PyStr.split pathsep dirs)
  end.

(** ** The Windows SDK *)

(** [get_windows_sdk_versions] on the directories in the entries of each include
    path that exists (a path that cannot be listed is skipped): no duplicates,
    newest first; [list.sort] is stable. *)
Definition add_new (acc : list string) (entry : string) : list string :=
  if SDK_VERSION_RE entry && negb (bool_decide (entry ∈ acc)) then (acc ++ [entry])%list else acc.
Definition key (entry : string) : list Z := match parse_version entry with Ok v => v | Raise _ => [] end.
Fixpoint insert_desc (x : string) (l : list string) : list string :=
  match l with
  | [] => [x]
  | y :: l' => if tuple_lt (key y) (key x) then x :: y :: l' else y :: insert_desc x l'
  end.
Definition sort_desc (l : list string) : list string := foldl (fun acc x => insert_desc x acc) [] l.
Definition get_windows_sdk_versions (sdk_paths : list (list string)) : list string :=
  if negb is_win32 then [] else sort_desc (foldl add_new [] (concat sdk_paths)).

Definition get_best_windows_sdk_version (sdk_paths : list (list string)) : result string :=
  match get_windows_sdk_versions sdk_paths with
  | [] => Raise (RuntimeError "No Windows SDK found.")
  | v :: _ =>
      if tuple_le (key WINDOWS_SDK_MIN_VERSION_TLS1_3_SUPPORT) (key v) then Ok v
      else Raise (RuntimeError "No suitable Windows SDK found.")
  end.

(** ** CMake *)

(** [determine_generator_args]: the Visual Studio in the path of the compiler
    decides (None: no compiler could be set up). *)
Definition visual_studio (cc : option string) : option (string * Z) :=
  match cc with
  | None => None
  | Some cc =>
      if str_contains "\Microsoft Visual Studio\18" cc then Some ("18", 2026)
      else if str_contains "\Microsoft Visual Studio\2022" cc then Some ("17", 2022)
      else if str_contains "\Microsoft Visual Studio\2019" cc then Some ("16", 2019)
      else if str_contains "\Microsoft Visual Studio\2017" cc then Some ("15", 2017)
      else if str_contains "\Microsoft Visual Studio 14.0" cc then Some ("14", 2015)
      else None
  end.
Definition year_str (y : Z) : string :=
  if y =? 2026 then "2026" else if y =? 2022 then "2022" else if y =? 2019 then "2019"
  else if y =? 2017 then "2017" else "2015".
Definition determine_generator_args (cc : option string) (cmake_version : list Z) (windows_sdk_version : string)
    : result (list string) :=
  if is_win32 then
    match visual_studio cc with
    | None => Raise (RuntimeError "No supported version of MSVC compiler could be found!")
    | Some (vs_version, vs_year) =>
        let gen := "Visual Studio " ++ vs_version ++ " " ++ year_str vs_year in
        if vs_year <=? 2017 then Ok ["-G"; if is_64bit then gen ++ " Win64" else gen]
        else
          let arch_str := if is_64bit then "x64" else "Win32" in
          Ok ["-G"; gen; "-A";
              if tuple_le [3; 27] cmake_version then arch_str ++ ",version=" ++ windows_sdk_version else arch_str]
    end
  else Ok [].

(** [get_cmake_path] (the answer is the same at every call) may raise;
    [get_cmake_version] is (0, 0, 0) after any failure past that. *)
Definition get_cmake_path (which : string -> option string) : result string :=
  match which "cmake3", which "cmake" with
  | Some p, _ | None, Some p => Ok p
  | None, None => Raise (BuiltinError "Exception")
  end.
Definition get_cmake_version (output : result string) : list Z :=
  match (let? o := output in
         let line := default "" (head (PyStr.split (Ascii.ascii_of_nat 10) o)) in
         parse_version (default "" (last (PyStr.split " "%char line)))) with
  | Ok v => v
  | Raise _ => [0; 0; 0]
  end.

(** The deployment target of macOS: the later of Python's and the minimum. *)
Definition macosx_target : result string :=
  match config_macosx_target m with
  | None => Ok MACOS_DEPLOYMENT_TARGET_MIN
  | Some t =>
      let? v := parse_version t in
      Ok (if tuple_lt v (key MACOS_DEPLOYMENT_TARGET_MIN) then MACOS_DEPLOYMENT_TARGET_MIN else t)
  end.

(** [_build_dependencies_impl]: the arguments of the configuring call. *)
Definition windows_args (cc : option string) (sdk_paths : list (list string)) (cmake_output : result string)
    : result (list string) :=
  if is_win32 then
    let? sdk := match getenv m "AWS_CRT_WINDOWS_SDK_VERSION" with
                | Some v => Ok v | None => get_best_windows_sdk_version sdk_paths end in
    let cmake_version := get_cmake_version cmake_output in
    let? gen := determine_generator_args cc cmake_version sdk in
    Ok (gen ++ (if tuple_lt cmake_version [3; 27] then [String.append "-DCMAKE_SYSTEM_VERSION=" sdk] else []))%list
  else Ok [].
Definition cmake_args (cmake source_dir build_dir install_path : string) (debug : bool) (osx_arch : option string)
    (cc : option string) (sdk_paths : list (list string)) (cmake_output : result string) : result (list string) :=
  let? win := windows_args cc sdk_paths cmake_output in
  let? mac := (if is_darwin then
                 let? t := macosx_target in
                 Ok (("-DCMAKE_OSX_DEPLOYMENT_TARGET=" ++ t) ::
                     match osx_arch with Some x => ["-DCMAKE_OSX_ARCHITECTURES=" ++ x] | None => [] end)
               else Ok []) in
  Ok ([cmake; String.append "-H" source_dir; String.append "-B" build_dir] ++ win ++ determine_cross_compile_args ++
      [String.append "-DCMAKE_INSTALL_PREFIX=" install_path;
       String.append "-DCMAKE_BUILD_TYPE=" (if debug then "Debug" else "RelWithDebInfo")] ++
      (if using_libcrypto
       then (if using_system_libcrypto then ["-DUSE_OPENSSL=ON"] else []) ++
            ["-DAWS_USE_LIBCRYPTO_TO_SUPPORT_ED25519_EVERYWHERE=ON"]
       else []) ++ mac)%list.

(** ** Building *)

(** [_build_dependencies]: each call of [_build_dependencies_impl] with its
    directories and architecture, and the libraries glued with lipo. *)
Definition AWS_LIBS : list string :=
  ((if using_libcrypto then ["crypto"] else []) ++ (if is_win32 then [] else ["s2n"]) ++
   ["aws-c-common"; "aws-c-sdkutils"; "aws-c-cal"; "aws-c-io"; "aws-checksums"; "aws-c-compression";
    "aws-c-event-stream"; "aws-c-http"; "aws-c-auth"; "aws-c-mqtt"; "aws-c-s3"])%list.
Record build := mkBuild { impl_calls : list (string * string * option string); lipo : list string; lib_dir : string }.
Definition _build_dependencies (build_temp : string) (lib64 lib32 : bool) : result build :=
  let build_dir := build_temp ++ "/deps" in
  let install_path := build_dir ++ "/install" in
  let? universal := is_macos_universal2 in
  let lib_dir := if is_64bit && lib64 then "lib64" else "lib" in
  let lib_dir := if is_32bit && lib32 then "lib32" else lib_dir in
  if universal && negb is_development_mode
  then Ok (mkBuild
    (map (fun a => (build_dir ++ "/" ++ a, build_dir ++ "/" ++ a ++ "/install", Some a)) ["x86_64"; "arm64"])
    (map (fun l => "lib" ++ l ++ ".a") AWS_LIBS) lib_dir)
  else Ok (mkBuild [(build_dir, install_path, None)] [] lib_dir).

(** [build_extension]: our library directories before the first -L of the
    linker, on macOS with our own libcrypto. *)
Fixpoint before_first_L (new : list string) (l : list string) : list string :=
  match l with
  | [] => []
  | x :: l => if String.prefix "-L" x then (new ++ x :: l)%list else x :: before_first_L new l
  end.
Definition linker_so (orig library_dirs : list string) : list string :=
  if is_darwin && using_libcrypto && negb using_system_libs && negb using_system_libcrypto
  then before_first_L (map (String.append "-L") library_dirs ++ ["-Wl,-search_paths_first"])%list orig
  else orig.

Definition version_ge (v w : Z * Z) : bool := tuple_le [w.1; w.2] [v.1; v.2].

(** [bdist_wheel_abi3.get_tag] on the tag of the base class. *)
Definition get_tag (python abi plat : string) : string * string * string :=
  if free_threaded m then (python, abi, plat)
  else if String.prefix "cp" python && version_ge (version_info m) (3, 13) then ("cp313", "abi3", plat)
  else if String.prefix "cp" python && version_ge (version_info m) (3, 11) then ("cp311", "abi3", plat)
  else (python, abi, plat).

(** [awscrt_ext] *)
Record extension := mkExtension {
  libraries : list string;
  extra_compile_args : list string;
  extra_link_args : list string;
  define_macros : list (string * string);
  py_limited_api : bool;
}.
(** [str.split()] *)
Fixpoint words (s : string) (acc : string) : list string :=
  match s with
  | EmptyString => if bool_decide (acc = "") then [] else [acc]
  | String c s =>
      if bool_decide (PyStr.code c = 32) || ((9 <=? PyStr.code c) && (PyStr.code c <=? 13))
      then (if bool_decide (acc = "") then words s "" else acc :: words s "")
      else words s (acc ++ String c "")
  end.
Definition env_words (name : string) : list string := words (default "" (getenv m name)) "".
Definition unix_is (name : string) : bool := match sys m with Unix p => String.prefix name p | _ => false end.

Definition platform_libraries (l : list string) : list string :=
  match sys m with
  | Win32 => l ++ ["Secur32"; "Crypt32"; "Advapi32"; "NCrypt"; "BCrypt"; "Kernel32"; "Ws2_32"; "Shlwapi"]
  | Darwin => l
  | Unix _ =>
      (if forcing_static_libs then map (fun x => ":lib" ++ x ++ ".a")%string l else l) ++
      (if unix_is "openbsd" then [] else ["rt"]) ++ (if unix_is "freebsd" then ["execinfo"] else [])
  end%list.
Definition platform_link_args : list string :=
  match sys m with
  | Win32 => ["/DEBUG"]
  | Darwin => ["-framework"; "Security"]
  | Unix _ =>
      (if unix_is "openbsd" && negb using_system_libcrypto then ["-Wl,--no-execute-only"] else []) ++
      ["-pthread"; "-Wl,--exclude-libs,libcrypto.a"]
  end%list.
(** The flags for gcc and clang; [msvc]: the default compiler is MSVC. *)
Definition warning_args (xcode : result string) : result (list string * list string) :=
  if is_development_mode || env_is_1 "AWS_CRT_BUILD_WARNINGS_ARE_ERRORS" then
    let? universal := is_macos_universal2 in
    Ok (["-Wextra"; "-Werror"],
        if universal then []
        else match sys m with
             | Darwin => "-Wl,-fatal_warnings" :: (if 15 <=? get_xcode_major_version xcode then ["-Wl,-ld_classic"] else [])
             | Unix p => if str_contains "bsd" p then ["-Wl,-fatal-warnings"] else ["-Wl,--fatal-warnings"]
             | Win32 => ["-Wl,--fatal-warnings"]
             end)
  else Ok ([], []).
Definition limited_api : option string :=
  if free_threaded m && version_ge (3, 14) (version_info m) then None
  else if version_ge (version_info m) (3, 13) then Some "0x030D0000"
  else if version_ge (version_info m) (3, 11) then Some "0x030B0000"
  else None.
Definition awscrt_ext (msvc : bool) (xcode : result string) : result extension :=
  let? (w, l) := (if is_win32 && msvc then Ok ([], [])
                  else let? (w, l) := warning_args xcode in Ok (["-Wno-strict-aliasing"; "-std=gnu99"] ++ w, l)%list) in
  Ok (mkExtension (platform_libraries (rev AWS_LIBS))
        (env_words "CFLAGS" ++ (if is_win32 then ["/Z7"] else []) ++ w)
        (env_words "LDFLAGS" ++ platform_link_args ++ l)
        (match limited_api with Some v => [("Py_LIMITED_API", v)] | None => [] end)
        (match limited_api with Some _ => true | None => false end))%list.

(** ** Theorems *)

(** A wheel for CPython with the interpreter lock is tagged abi3 exactly if the
    extension was built for the limited API, of the same version. *)
Lemma tag_matches_api python abi plat msvc xcode e :
  free_threaded m = false -> String.prefix "cp" python = true -> awscrt_ext msvc xcode = Ok e ->
  match define_macros e with
  | [] => py_limited_api e = false /\ get_tag python abi plat = (python, abi, plat)
  | _ => py_limited_api e = true /\
      ((define_macros e = [("Py_LIMITED_API", "0x030D0000")] /\ get_tag python abi plat = ("cp313", "abi3", plat)) \/
       (define_macros e = [("Py_LIMITED_API", "0x030B0000")] /\ get_tag python abi plat = ("cp311", "abi3", plat)))
  end.
Proof.
  intros Hf Hp. unfold awscrt_ext. destruct (if is_win32 && msvc then _ else _) as [[w l]|]; [|done].
  intros [= <-]. simpl. unfold limited_api, get_tag. rewrite Hf, Hp. simpl.
  destruct (version_ge _ (3, 13)); [by auto|]. destruct (version_ge _ (3, 11)); by auto.
Qed.

(** Visual Studio 2017 and older with CMake 3.27 or newer: the SDK is in none of
    the arguments. *)
Lemma old_studio_loses_sdk cc cmake_output sdk_paths sdk v y :
  is_win32 = true -> getenv m "AWS_CRT_WINDOWS_SDK_VERSION" = Some sdk ->
  visual_studio cc = Some (v, y) -> y <= 2017 -> tuple_lt (get_cmake_version cmake_output) [3; 27] = false ->
  let gen := "Visual Studio " ++ v ++ " " ++ year_str y in
  windows_args cc sdk_paths cmake_output = Ok ["-G"; if is_64bit then gen ++ " Win64" else gen].
Proof.
  intros Hw He Hv Hy Hc. unfold windows_args, determine_generator_args. rewrite Hw, He. simpl.
  rewrite Hv, Hc. by replace (y <=? 2017) with true by lia.
Qed.

Lemma tuple_lt_irrefl a : tuple_lt a a = false.
Proof. induction a as [|x a IH]; simpl; [done|]. rewrite IH, andb_false_r, orb_false_r. lia. Qed.
Lemma tuple_lt_trans a b c : tuple_lt a b = true -> tuple_lt b c = true -> tuple_lt a c = true.
Proof.
  revert b c. induction a as [|x a IH]; intros [|y b] [|z c]; simpl; try done. intros H1 H2.
  apply orb_true_iff in H1, H2. apply orb_true_iff. rewrite !andb_true_iff in *.
  destruct H1 as [H1|[H1 H1']], H2 as [H2|[H2 H2']]; try (left; lia).
  right. split; [lia|]. by apply IH with b.
Qed.
Lemma tuple_lt_total a b : tuple_lt a b = false -> tuple_lt b a = false -> a = b.
Proof.
  revert b. induction a as [|x a IH]; intros [|y b]; simpl; try done. intros H1 H2.
  apply orb_false_iff in H1 as [H1 H1'], H2 as [H2 H2']. assert (x = y) as -> by lia.
  rewrite Z.eqb_refl in *. f_equal. by apply IH.
Qed.
Lemma tuple_le_trans a b c : tuple_le a b = true -> tuple_le b c = true -> tuple_le a c = true.
Proof.
  unfold tuple_le. rewrite !negb_true_iff. intros H1 H2. destruct (tuple_lt c a) eqn:E; [|done].
  destruct (tuple_lt a b) eqn:E1.
  - rewrite (tuple_lt_trans c a b E E1) in H2. done.
  - rewrite (tuple_lt_total a b E1 H1) in E. congruence.
Qed.

(** The list is sorted: each key is at least that of what follows. *)
Definition desc (l : list string) : Prop := Sorted (fun x y => tuple_le (key y) (key x) = true) l.

Lemma insert_desc_perm x l : insert_desc x l ≡ₚ x :: l.
Proof. induction l as [|y l IH]; simpl; [done|]. destruct (tuple_lt _ _); [done|]. rewrite IH. apply Permutation_swap. Qed.
Lemma insert_desc_sorted x l : desc l -> desc (insert_desc x l).
Proof.
  unfold desc. induction l as [|y l IH]; simpl; [by repeat constructor|]. intros Hs. inversion Hs as [|? ? Hl Hh]; subst.
  destruct (tuple_lt (key y) (key x)) eqn:E.
  - constructor; [done|]. constructor. unfold tuple_le. destruct (tuple_lt (key x) (key y)) eqn:E2; [|done].
    pose proof (tuple_lt_trans _ _ _ E E2) as Hc. by rewrite tuple_lt_irrefl in Hc.
  - constructor; [by apply IH|]. destruct l as [|z l]; simpl.
    + constructor. unfold tuple_le. by rewrite E.
    + destruct (tuple_lt (key z) (key x)); constructor; [unfold tuple_le; by rewrite E|]. by inversion Hh.
Qed.
Lemma sort_desc_spec l : desc (sort_desc l) /\ sort_desc l ≡ₚ l.
Proof.
  unfold sort_desc. assert (Hg : forall acc, desc acc ->
    desc (foldl (fun acc x => insert_desc x acc) acc l) /\ foldl (fun acc x => insert_desc x acc) acc l ≡ₚ acc ++ l).
  { induction l as [|x l IH]; intros acc Ha; simpl; [by rewrite app_nil_r|].
    destruct (IH _ (insert_desc_sorted x acc Ha)) as [H1 H2]. split; [done|].
    rewrite H2, insert_desc_perm. by rewrite <- Permutation_middle. }
  destruct (Hg []) as [H1 H2]; [constructor|done].
Qed.

Lemma add_new_elem l acc x : x ∈ foldl add_new acc l <-> x ∈ acc \/ (x ∈ l /\ SDK_VERSION_RE x = true).
Proof.
  revert acc. induction l as [|y l IH]; intros acc; simpl.
  - split; [by left|]. intros [?|[?%not_elem_of_nil _]]; done.
  - rewrite IH, elem_of_cons. unfold add_new. destruct (SDK_VERSION_RE y) eqn:Ey; simpl; [|naive_solver congruence].
    case_bool_decide as Hin; simpl; [naive_solver|]. rewrite elem_of_app, list_elem_of_singleton. naive_solver.
Qed.

(** The build takes the newest Windows SDK that is installed, comparing
    versions as numbers: the answer is the name of an installed SDK no other is
    newer than, at least the minimum; and it raises RuntimeError exactly if no
    installed SDK is recent enough. Entries that are no versions do not count. *)
Lemma newest_sdk_chosen (sdk_paths : list (list string)) (Hwin : is_win32 = true) :
  let installed x := x ∈ concat sdk_paths /\ SDK_VERSION_RE x = true in
  let enough x := tuple_le (key WINDOWS_SDK_MIN_VERSION_TLS1_3_SUPPORT) (key x) = true in
  match get_best_windows_sdk_version sdk_paths with
  | Ok v => installed v /\ enough v /\ forall w, installed w -> tuple_lt (key v) (key w) = false
  | Raise e => (exists s, e = RuntimeError s) /\ forall w, installed w -> ~ enough w
  end.
Proof.
  cbv zeta. unfold get_best_windows_sdk_version, get_windows_sdk_versions. rewrite Hwin. cbn [negb].
  destruct (sort_desc_spec (foldl add_new [] (concat sdk_paths))) as [Hs Hp].
  assert (Hin : forall x, x ∈ sort_desc (foldl add_new [] (concat sdk_paths)) <->
    x ∈ concat sdk_paths /\ SDK_VERSION_RE x = true).
  { intros x. rewrite (elem_of_Permutation_proper _ _ _ Hp), add_new_elem. set_solver. }
  destruct (sort_desc _) as [|v l].
  - split; [by eexists|]. intros w Hw. apply Hin in Hw. set_solver.
  - assert (Hmax : forall w, w ∈ v :: l -> tuple_le (key w) (key v) = true).
    { apply Sorted_StronglySorted in Hs; [|intros x y z H1 H2; by apply tuple_le_trans with (key y)].
      apply StronglySorted_inv in Hs as [_ Hall]. rewrite Forall_forall in Hall. intros w [->|Hw]%elem_of_cons.
      - unfold tuple_le. by rewrite tuple_lt_irrefl.
      - by apply Hall. }
    destruct (tuple_le (key WINDOWS_SDK_MIN_VERSION_TLS1_3_SUPPORT) (key v)) eqn:E.
    + split_and!; [apply Hin; set_solver|apply Hin; set_solver|done|]. intros w Hw. apply Hin, Hmax in Hw.
      unfold tuple_le in Hw. by destruct (tuple_lt _ _).
    + split; [by eexists|]. intros w Hw He. apply Hin, Hmax in Hw.
      rewrite (tuple_le_trans _ _ _ He Hw) in E. done.
Qed.
End Machine.

Definition demo_machine : machine :=
  mkMachine Win32 (2 ^ 63 - 1) "AMD64" (fun _ => None) [] None None false (3, 12) true.
Lemma newest_sdk_chosen_witness :
  exists v, get_best_windows_sdk_version demo_machine [["10.0.9999.0"; "10.0.22621.0"; "wdf"]; ["10.0.9999.0"]] = Ok v /\
    tuple_lt (key v) (key "10.0.22621.0") = false.
Proof.
  pose proof (newest_sdk_chosen demo_machine [["10.0.9999.0"; "10.0.22621.0"; "wdf"]; ["10.0.9999.0"]] eq_refl) as Hn.
  cbv zeta in Hn. exists "10.0.22621.0". split; [by vm_compute|].
  assert (E : get_best_windows_sdk_version demo_machine [["10.0.9999.0"; "10.0.22621.0"; "wdf"]; ["10.0.9999.0"]] =
    Ok "10.0.22621.0") by by vm_compute.
  rewrite E in Hn. destruct Hn as (_ & _ & Hmax). apply Hmax. split; [|by vm_compute].
  apply list_elem_of_In. simpl. auto.
Defined.
End Setup.
