(* ===== verification/Elasticurl.v ===== *)
(** * elasticurl.py: one HTTP request from the command line

    - [Url]: the part of urllib.parse the program uses, on ASCII URLs (the
      address between brackets is not checked);
    - [Elasticurl]: from the command line to the connection, its TLS options and
      the request. *)
From S2P Require Import Prelude PyData Future Io Streams Http.
Import Stdlib.Strings.Ascii.

Module Url.
Import PyStr.

(** The part of [s] before the first character satisfying [p], and the rest
    from there. *)
Fixpoint span_until (p : ascii -> bool) (s : string) : string * string :=
  match s with
  | EmptyString => (EmptyString, EmptyString)
  | String a s' => if p a then (EmptyString, s) else let (x, y) := span_until p s' in (String a x, y)
  end.

(** [s.partition(c)]: the parts beside the separator, and whether there is one. *)
Definition partition (c : ascii) (s : string) : string * bool * string :=
  match split_once c s with Some (x, y) => (x, true, y) | None => (s, false, EmptyString) end.

(** [s.rpartition(c)[2]] *)
Definition after_last (c : ascii) (s : string) : string := List.last (split c s) EmptyString.

Definition is_alpha (a : ascii) : bool := between 65 90 a || between 97 122 a.
Definition scheme_char (a : ascii) : bool :=
  is_alpha a || is_decimal_char a || bool_decide (a = "+"%char) || bool_decide (a = "-"%char) || bool_decide (a = "."%char).
Definition netloc_end (a : ascii) : bool :=
  bool_decide (a = "/"%char) || bool_decide (a = "?"%char) || bool_decide (a = "#"%char).
Definition is_space_or_control (a : ascii) : bool := code a <=? 32.
Definition unsafe_byte (a : ascii) : bool := bool_decide (code a = 9) || bool_decide (code a = 10) || bool_decide (code a = 13).
Fixpoint lstrip (p : ascii -> bool) (s : string) : string :=
  match s with EmptyString => EmptyString | String a s' => if p a then lstrip p s' else s end.
Fixpoint remove (p : ascii -> bool) (s : string) : string :=
  match s with
  | EmptyString => EmptyString
  | String a s' => if p a then remove p s' else String a (remove p s')
  end.

Record ParseResult := mkParse { scheme : string; netloc : string; path : string; params : string; query : string }.

Definition split_scheme (url : string) : string * string :=
  match split_once ":"%char url with
  | Some (String a s as x, rest) =>
      if is_alpha a && all_chars scheme_char x then (lower x, rest) else (EmptyString, url)
  | _ => (EmptyString, url)
  end.
Definition split_netloc (url : string) : string * string :=
  match url with
  | String "/" (String "/" rest) => span_until netloc_end rest
  | _ => (EmptyString, url)
  end.

(** [_splitparams], on the last segment of the path *)
Definition splitparams (url : string) : string * string :=
  let segments := split "/"%char url in
  let '(last, _, params) := partition ";"%char (List.last segments EmptyString) in
  (join "/"%char (removelast segments ++ [last])%list, params).

(** The schemes of [urllib.parse.uses_params] that matter here. *)
Definition uses_params (s : string) : bool := bool_decide (s = "" \/ s = "http" \/ s = "https")%string.

Definition urlparse (url : string) : result ParseResult :=
  let url := remove unsafe_byte (lstrip is_space_or_control url) in
  let (scheme, url) := split_scheme url in
  let (netloc, url) := split_netloc url in
  if xorb (contains "["%char netloc) (contains "]"%char netloc) then Raise (ValueError "Invalid IPv6 URL") else
  let '(url, _, _) := partition "#"%char url in
  let '(path, _, query) := partition "?"%char url in
  let (path, params) :=
    if uses_params scheme && contains ";"%char path then splitparams path else (path, EmptyString) in
  Ok (mkParse scheme netloc path params query).

(** [_hostinfo], [hostname] and [port] *)
Definition hostinfo (u : ParseResult) : string * option string :=
  let info := after_last "@"%char (netloc u) in
  let '(hostname, port) :=
    match partition "["%char info with
    | (_, true, bracketed) =>
        let '(hostname, _, port) := partition "]"%char bracketed in
        let '(_, _, port) := partition ":"%char port in (hostname, port)
    | _ => let '(hostname, _, port) := partition ":"%char info in (hostname, port)
    end in
  (hostname, match port with EmptyString => None | _ => Some port end).
Definition hostname (u : ParseResult) : option string :=
  match (hostinfo u).1 with
  | EmptyString => None
  | h => let '(h, percent, zone) := partition "%"%char h in
         Some (String.append (lower h) (if percent then String "%" zone else EmptyString))
  end.
Definition port (u : ParseResult) : result (option Z) :=
  match (hostinfo u).2 with
  | None => Ok None
  | Some p =>
      if all_chars is_decimal_char p then
        let? n := int p in
        if (0 <=? n) && (n <=? 65535) then Ok (Some n) else Raise (ValueError "Port out of range 0-65535")
      else Raise (ValueError "Port could not be cast to integer value")
  end.

Example parse_examples :
  urlparse "HTTP://u@Ho.st:81/a;b?q=1#f" = Ok (mkParse "http" "u@Ho.st:81" "/a" "b" "q=1") /\
  urlparse "host:80" = Ok (mkParse "host" "" "80" "" "") /\
  urlparse "www.example.com/x" = Ok (mkParse "" "" "www.example.com/x" "" "") /\
  (hostname <$> [mkParse "http" "u@Ho.st:81" "" "" ""; mkParse "http" "[fe80::A%eN]:8" "" "" ""]) =
    [Some "ho.st"; Some "fe80::a%eN"]%string /\
  map port [mkParse "" "h:81" "" "" ""; mkParse "" "[::1]:65536" "" "" ""; mkParse "" "h:x" "" "" ""; mkParse "" "h:" "" "" ""] =
    [Ok (Some 81); Raise (ValueError "Port out of range 0-65535");
     Raise (ValueError "Port could not be cast to integer value"); Ok None].
Proof. by vm_compute. Qed.
End Url.

Module Elasticurl.
Import Url Io.Tls Streams.TlsConn.

(** What argparse leaves: [alpn] with the given protocols after the default ones. *)
Record arguments := mkArgs {
  url : string;
  cacert : option string; capath : option string; cert : option string; key : option string;
  connect_timeout : Z;
  header : list string;
  data : option string; data_file : option string;
  method : string; get_ : bool; post : bool; head : bool;
  include_ : bool; insecure : bool; trace : option string;
  alpn : list string; http2 : bool; http1_1 : bool;
  verbose : option string;
}.
Definition default_alpn (given : list string) : list string := ["h2"; "http/1.1"]%string ++ given.

(** [sys.exit] and [exit] raise SystemExit. *)
Definition sys_exit {A} : result A := Raise (UserBaseException 1).

(** An option that is given and not empty. *)
Definition given (o : option string) : option string := match o with Some EmptyString => None | _ => o end.

Definition log_setup (a : arguments) : result (option (LogLevel * string)) :=
  match given (verbose a) with
  | None => Ok None
  | Some v =>
      let? level :=
        if bool_decide (v = "ERROR"%string) then Ok LogLevel.Error
        else if bool_decide (v = "INFO"%string) then Ok LogLevel.Info
        else if bool_decide (v = "DEBUG"%string) then Ok LogLevel.Debug
        else if bool_decide (v = "TRACE"%string) then Ok LogLevel.Trace
        else sys_exit in
      Ok (Some (level, default "stderr"%string (given (trace a))))
  end.

Definition version_setup (a : arguments) : HttpVersion * list string :=
  let r := if http1_1 a then (HttpVersion.Http1_1, ["http/1.1"%string]) else (HttpVersion.Unknown, alpn a) in
  if http2 a then (HttpVersion.Http2, ["h2"%string]) else r.

(** The scheme (whether it is http) and the port. *)
Definition endpoint (a : arguments) (u : ParseResult) : result (bool * Z) :=
  let http := bool_decide (scheme u = "http"%string) in
  let? p := port u in
  match p with
  | Some p => Ok (http, p)
  | None => if http then if http2 a then sys_exit else Ok (true, 80) else Ok (false, 443)
  end.

Section Tls.
Context `{NativeErrors}.
Variables (_read_binary_file : string -> result string) (alpn_error server_name_error : string -> option Z).

Definition set_verify_peer (b : bool) (o : TlsContextOptions) : TlsContextOptions := {|
  min_tls_ver := min_tls_ver o; ca_dirpath := ca_dirpath o; ca_buffer := ca_buffer o;
  cipher_pref := cipher_pref o; alpn_list := alpn_list o;
  certificate_buffer := certificate_buffer o; private_key_buffer := private_key_buffer o;
  pkcs12_filepath := pkcs12_filepath o; pkcs12_password := pkcs12_password o;
  verify_peer := b; no_certificate_revocation := no_certificate_revocation o;
  _pkcs11_lib := _pkcs11_lib o; _pkcs11_user_pin := _pkcs11_user_pin o;
  _pkcs11_slot_id := _pkcs11_slot_id o; _pkcs11_token_label := _pkcs11_token_label o;
  _pkcs11_private_key_label := _pkcs11_private_key_label o;
  _pkcs11_cert_file_path := _pkcs11_cert_file_path o;
  _pkcs11_cert_file_contents := _pkcs11_cert_file_contents o;
  _windows_cert_store_path := _windows_cert_store_path o;
  _certificate_source := _certificate_source o;
|}.

(** The context options, and the options of the connection. *)
Definition tls_setup (a : arguments) (protocols : list string) (u : ParseResult)
    : result (TlsContextOptions * TlsConnectionOptions) :=
  let? o := match cert a, key a with
            | Some c, Some k => create_client_with_mtls_from_path _read_binary_file c k
            | _, _ => Ok TlsContextOptions_init
            end in
  let? o := if bool_decide (is_Some (cacert a) \/ is_Some (capath a))
            then let (r, o) := override_default_trust_store_from_path _read_binary_file (capath a) (cacert a) o in
                 let? _ := r in Ok o
            else Ok o in
  let o := if insecure a then set_verify_peer false o else o in
  let? (_, ctx_alpn) := ClientTlsContext_init o in
  let c := new_connection_options 0 ctx_alpn in
  match hostname u with
  | None => Raise (TypeError "argument 2 must be str, not None")
  | Some h =>
      let (r, c) := (do! set_server_name server_name_error h;
                     match protocols with
                     | [] => ret tt
                     | _ => set_alpn_list alpn_error (AlpnList protocols)
                     end) c in
      let? _ := r in Ok (o, c)
  end.
End Tls.

(** The body: the bytes of --data, or a file (its size given by the system). *)
Inductive body := NoBody | DataBody (bytes : string) | FileBody (path : string).
Definition body_setup (encode_utf8 : string -> string) (st_size : string -> result Z) (a : arguments)
    : result (body * Z) :=
  match given (data a) with
  | Some d => let b := encode_utf8 d in Ok (DataBody b, Z.of_nat (String.length b))
  | None => match given (data_file a) with
            | Some f => let? n := st_size f in Ok (FileBody f, n)
            | None => Ok (NoBody, 0)
            end
  end.

(** [s.strip()] of a header's name and value *)
Definition is_space (c : ascii) : bool :=
  PyStr.between 9 13 c || PyStr.between 28 32 c || bool_decide (PyStr.code c = 133) || bool_decide (PyStr.code c = 160).
Fixpoint rev_string (s acc : string) : string :=
  match s with EmptyString => acc | String a s' => rev_string s' (String a acc) end.
Definition strip (s : string) : string :=
  let t := lstrip is_space s in rev_string (lstrip is_space (rev_string t EmptyString)) EmptyString.
(** [name, value = i.split(':')] *)
Definition parse_header (i : string) : result (string * string) :=
  match PyStr.split ":"%char i with
  | [name; value] => Ok (strip name, strip value)
  | [_] => Raise (ValueError "not enough values to unpack (expected 2, got 1)")
  | _ => Raise (ValueError "too many values to unpack (expected 2)")
  end.
Fixpoint parse_headers (l : list string) : result (list (string * string)) :=
  match l with
  | [] => Ok []
  | i :: l => let? h := parse_header i in let? hs := parse_headers l in Ok (h :: hs)
  end.

Record request := mkRequest { r_method : string; r_path : string; r_headers : list (string * string); r_body : body }.

Definition method_of (a : arguments) : string :=
  if head a then "HEAD" else if post a then "POST" else if get_ a then "GET" else method a.
(** The path of a new [HttpRequest] is a slash. *)
Definition path_of (u : ParseResult) : string :=
  let p := match path u with EmptyString => "/"%string | p => p end in
  match query u with EmptyString => p | q => String.append p (String "?" q) end.

(** The request, once the connection (of version [v]) is there. *)
Definition request_of (print_int : Z -> string) (a : arguments) (u : ParseResult) (host : string) (v : HttpVersion)
    (b : body) (data_len : Z) : result request :=
  let? own := parse_headers (header a) in
  let authority := if bool_decide (v = HttpVersion.Http2) then (":authority"%string, host) else ("host"%string, host) in
  let agent := ("user-agent", "elasticurl.py 1.0, Powered by the AWS Common Runtime.")%string in
  let len := if data_len =? 0 then [] else [("content-length"%string, print_int data_len)] in
  Ok (mkRequest (method_of a) (path_of u) ([authority; agent] ++ len ++ own) b).

(** [if required_version: if connection.version != required_version] *)
Definition version_check (required v : HttpVersion) : result unit :=
  if bool_decide (required <> HttpVersion.Unknown) && bool_decide (v <> required) then sys_exit else Ok tt.

(** Everything up to the connection, and from there to the request. *)
Record connection_plan := mkPlan {
  p_host : string; p_port : Z;
  p_tls : option (TlsContextOptions * TlsConnectionOptions);
  p_connect_timeout_ms : Z;
  p_required : HttpVersion;
}.
Section Main.
Context `{NativeErrors}.
Variables (_read_binary_file : string -> result string) (alpn_error server_name_error : string -> option Z).
Variables (encode_utf8 : string -> string) (st_size : string -> result Z) (print_int : Z -> string).

Definition plan (a : arguments) : result (ParseResult * connection_plan) :=
  let? _ := log_setup a in
  let (required, protocols) := version_setup a in
  let? u := urlparse (url a) in
  let? (http, p) := endpoint a u in
  let? tls := if http then Ok None
              else let? t := tls_setup _read_binary_file alpn_error server_name_error a protocols u in Ok (Some t) in
  match hostname u with
  | None => Raise AssertionError                 (** [HttpClientConnection.new] asserts that it is a str *)
  | Some h => Ok (u, mkPlan h p tls (connect_timeout a) required)
  end.

(** [v]: the version of the connection that was made. *)
Definition main (a : arguments) (v : HttpVersion) : result (connection_plan * request) :=
  let? (u, c) := plan a in
  let? (b, n) := body_setup encode_utf8 st_size a in
  let? _ := version_check (p_required c) v in
  let? r := request_of print_int a u (p_host c) v b n in
  Ok (c, r).
End Main.

(** ** URLs *)

(** Characters of a host, and of what follows it, that stand for themselves. *)
Definition visible (a : ascii) : bool := negb (is_space_or_control a).
Definition host_char (a : ascii) : bool :=
  visible a && negb (netloc_end a) &&
  forallb (fun c => negb (bool_decide (a = c))) [":"; "@"; "["; "]"; "%"]%char.
Definition path_char (a : ascii) : bool :=
  visible a && forallb (fun c => negb (bool_decide (a = c))) ["?"; "#"; ";"]%char.
Definition query_char (a : ascii) : bool := visible a && negb (bool_decide (a = "#"%char)).

Definition build_url (https : bool) (host : string) (port_text : string) (p q : string) : string :=
  String.append (if https then "https" else "http")
    (String.append "://" (String.append host
      (String.append (match port_text with EmptyString => EmptyString | _ => String ":" port_text end)
        (String.append p (match q with EmptyString => EmptyString | _ => String "?" q end))))).

Lemma remove_visible s : PyStr.all_chars visible s = true -> remove unsafe_byte s = s.
Proof.
  induction s as [|a s IH]; simpl; [done|]. rewrite andb_true_iff. intros [H1 H2]. rewrite IH by done.
  assert (unsafe_byte a = false) as ->; [|done]. unfold visible, is_space_or_control in H1. unfold unsafe_byte.
  apply negb_true_iff, Z.leb_gt in H1. rewrite !bool_decide_false by lia. done.
Qed.
Lemma span_until_app f x y : PyStr.all_chars (fun a => negb (f a)) x = true ->
  (match y with EmptyString => true | String a _ => f a end) = true -> span_until f (String.append x y) = (x, y).
Proof.
  intros Hx Hy. induction x as [|a x IH]; simpl in *.
  - destruct y as [|a y]; simpl; [done|]. by rewrite Hy.
  - apply andb_true_iff in Hx as [Ha Hx]. apply negb_true_iff in Ha. by rewrite Ha, IH.
Qed.
Lemma partition_none c s : PyStr.contains c s = false -> partition c s = (s, false, EmptyString).
Proof. intros H. unfold partition. by rewrite PyStr.split_once_none. Qed.
Lemma partition_app c x y : PyStr.contains c x = false -> partition c (String.append x (String c y)) = (x, true, y).
Proof. intros H. unfold partition. by rewrite PyStr.split_once_app. Qed.

(** The text after the slashes, up to the path. *)
Definition netloc_of (host port_text : string) : string :=
  String.append host (match port_text with EmptyString => EmptyString | _ => String ":" port_text end).
Definition after_netloc (p q : string) : string :=
  String.append p (match q with EmptyString => EmptyString | _ => String "?" q end).

(** What a URL may be made of. *)
Record url_ok (host port_text p q : string) : Prop := {
  ok_host : PyStr.all_chars host_char host = true;
  ok_host_some : host <> EmptyString;
  ok_port : PyStr.all_chars PyStr.is_decimal_char port_text = true;
  ok_path : PyStr.all_chars path_char p = true;
  ok_slash : match p with EmptyString => true | String a _ => bool_decide (a = "/"%char) end = true;
  ok_query : PyStr.all_chars query_char q = true;
}.

Section Urls.
Variables (https : bool) (host port_text p q : string).
Hypothesis ok : url_ok host port_text p q.

Lemma decimal_code a : PyStr.is_decimal_char a = true -> 48 <= PyStr.code a <= 57.
Proof. unfold PyStr.is_decimal_char. rewrite andb_true_iff, !Z.leb_le. lia. Qed.
Lemma code_ne (a c : ascii) : PyStr.code a <> PyStr.code c -> a <> c.
Proof. by intros H ->. Qed.

Lemma netloc_no c : PyStr.is_decimal_char c = false -> host_char c = false -> c <> ":"%char ->
  PyStr.contains c (netloc_of host port_text) = false.
Proof.
  intros Hd Hh Hc. unfold netloc_of. rewrite PyStr.contains_app.
  rewrite (PyStr.all_chars_contains host_char) by (done || apply ok). cbn [orb].
  pose proof (ok_port _ _ _ _ ok) as Hp. destruct port_text as [|a s]; [done|].
  assert (PyStr.contains c (String a s) = false) as H1 by by apply (PyStr.all_chars_contains PyStr.is_decimal_char).
  cbn [PyStr.contains] in *. by destruct (ascii_dec ":" c) as [<-|].
Qed.

Lemma netloc_visible : PyStr.all_chars visible (netloc_of host port_text) = true /\
  PyStr.all_chars (fun a => negb (netloc_end a)) (netloc_of host port_text) = true.
Proof.
  assert (Hd : forall a, PyStr.is_decimal_char a = true -> visible a = true /\ negb (netloc_end a) = true).
  { intros a Ha%decimal_code. unfold visible, is_space_or_control, netloc_end. split.
    - apply negb_true_iff, Z.leb_gt. lia.
    - rewrite !bool_decide_false; [done|..]; apply code_ne; vm_compute PyStr.code at 2; lia. }
  unfold netloc_of. rewrite !PyStr.all_chars_app.
  rewrite !(PyStr.all_chars_impl host_char) with (s := host) by (apply ok || (intros a; unfold host_char; rewrite !andb_true_iff; tauto)).
  pose proof (ok_port _ _ _ _ ok) as Hp. destruct port_text as [|a s]; [done|]. cbn [andb].
  split; change (PyStr.all_chars ?f (String ":" (String a s))) with (f ":"%char && PyStr.all_chars f (String a s));
    (apply andb_true_iff; split; [done|]); eapply PyStr.all_chars_impl; try exact Hp; intros; by apply Hd.
Qed.

Lemma after_netloc_visible : PyStr.all_chars visible (after_netloc p q) = true.
Proof.
  unfold after_netloc. rewrite PyStr.all_chars_app.
  rewrite (PyStr.all_chars_impl path_char) with (s := p)
    by (apply ok || (intros a; unfold path_char; rewrite !andb_true_iff; tauto)).
  pose proof (ok_query _ _ _ _ ok) as Hq. destruct q as [|a s]; [done|].
  change (visible "?" && PyStr.all_chars visible (String a s) = true). apply andb_true_iff; split; [done|].
  eapply PyStr.all_chars_impl; [|exact Hq]. intros b. unfold query_char. rewrite !andb_true_iff. tauto.
Qed.

Definition parsed : ParseResult :=
  mkParse (if https then "https" else "http") (netloc_of host port_text) p "" q.

Lemma urlparse_build : urlparse (build_url https host port_text p q) = Ok parsed.
Proof.
  assert (E : build_url https host port_text p q =
    String.append (if https then "https://" else "http://")%string
      (String.append (netloc_of host port_text) (after_netloc p q))).
  { unfold build_url, netloc_of, after_netloc. rewrite PyStr.append_assoc. by destruct https. }
  destruct netloc_visible as [Hv He]. pose proof after_netloc_visible as Hv'.
  assert (Hall : PyStr.all_chars visible (build_url https host port_text p q) = true).
  { rewrite E, !PyStr.all_chars_app, Hv, Hv'. by destruct https. }
  assert (Hstrip : lstrip is_space_or_control (build_url https host port_text p q) = build_url https host port_text p q)
    by (rewrite E; by destruct https).
  unfold urlparse. rewrite Hstrip, remove_visible, E by done.
  set (n := netloc_of host port_text) in *. set (t := after_netloc p q) in *.
  assert (split_scheme (String.append (if https then "https://" else "http://")%string (String.append n t)) =
    ((if https then "https" else "http")%string, String "/" (String "/" (String.append n t)))) as -> by by destruct https.
  simpl split_netloc. rewrite span_until_app; [|done|].
  2:{ unfold t, after_netloc. pose proof (ok_slash _ _ _ _ ok) as Hs. destruct p as [|a s].
      - by destruct q.
      - simpl in Hs. apply bool_decide_eq_true in Hs as ->. done. }
  unfold n. rewrite !netloc_no by done. simpl xorb. cbn iota.
  assert (Hp : forall c, path_char c = false -> PyStr.contains c p = false)
    by (intros c Hc; apply (PyStr.all_chars_contains path_char); [done|apply ok]).
  rewrite (partition_none "#"%char t).
  2:{ unfold t, after_netloc. rewrite PyStr.contains_app, Hp by done. cbn [orb].
      pose proof (ok_query _ _ _ _ ok) as Hq. destruct q as [|a s]; [done|].
      exact (PyStr.all_chars_contains query_char "#"%char (String a s) eq_refl Hq). }
  assert (exists b, partition "?"%char t = (p, b, q)) as [b ->].
  { unfold t, after_netloc. destruct q as [|a s].
    - rewrite PyStr.append_nil_r, partition_none by by apply Hp. by eexists.
    - rewrite partition_app by by apply Hp. by eexists. }
  cbn beta iota. rewrite Hp, andb_false_r by done. done.
Qed.

Lemma hostinfo_parsed : hostinfo parsed = (host, match port_text with EmptyString => None | _ => Some port_text end).
Proof.
  assert (Hh : forall c, host_char c = false -> PyStr.contains c host = false)
    by (intros c Hc; apply (PyStr.all_chars_contains host_char); [done|apply ok]).
  unfold hostinfo, after_last. simpl netloc. rewrite PyStr.split_plain by by apply netloc_no.
  simpl List.last. rewrite (partition_none "["%char) by by apply netloc_no. cbn beta iota.
  unfold netloc_of. destruct port_text as [|a s].
  - rewrite PyStr.append_nil_r, partition_none by by apply Hh. done.
  - rewrite partition_app by by apply Hh. done.
Qed.

Lemma hostname_parsed : hostname parsed = Some (PyStr.lower host).
Proof.
  unfold hostname. rewrite hostinfo_parsed. simpl fst. pose proof (ok_host_some _ _ _ _ ok).
  assert (PyStr.contains "%"%char host = false) as Hc by (apply (PyStr.all_chars_contains host_char); [done|apply ok]).
  destruct host as [|a s]; [done|]. rewrite partition_none by done. by rewrite PyStr.append_nil_r.
Qed.
End Urls.

Section Reached.
Context `{NativeErrors}.
Variables (_read_binary_file : string -> result string) (alpn_error server_name_error : string -> option Z).
Variables (encode_utf8 : string -> string) (st_size : string -> result Z) (print_int : Z -> string).

(** elasticurl requests the URL it is given: for a URL made of a scheme, a
    host, an optional port, path and query of ordinary characters, the program
    connects to that host (in lower case) at that port, or at the scheme's, with
    TLS options exactly for https, and the request line has the method of the
    last of --head, --post, --get, --method that is given and the path and query
    of the URL; without a port, plain http and --http2 exclude each other. *)
Lemma url_reaches_request (https : bool) (host port_text p q : string) (n : Z) (a : arguments)
    (Hok : url_ok host port_text p q) (Hurl : url a = build_url https host port_text p q)
    (Hn : port_text = EmptyString \/ PyStr.int port_text = Ok n /\ 0 <= n <= 65535) :
  let u := parsed https host port_text p q in
  let default_port := bool_decide (port_text = EmptyString) in
  plan _read_binary_file alpn_error server_name_error a =
    (let? _ := log_setup a in
     if negb https && default_port && http2 a then sys_exit
     else
       let? tls := if https then let? t := tls_setup _read_binary_file alpn_error server_name_error a
                                             (version_setup a).2 u in Ok (Some t)
                   else Ok None in
       Ok (u, mkPlan (PyStr.lower host) (if default_port then if https then 443 else 80 else n) tls
                (connect_timeout a) (version_setup a).1)) /\
  forall h v b len r, request_of print_int a u h v b len = Ok r ->
    r_path r = after_netloc (match p with EmptyString => "/"%string | _ => p end) q /\
    r_method r = (if head a then "HEAD" else if post a then "POST" else if get_ a then "GET" else method a)%string /\
    r_body r = b.
Proof.
  cbv zeta. split.
  - unfold plan. destruct (log_setup a) as [l|e]; [|done]. cbn [rbind]. destruct (version_setup a) as [req protos].
    rewrite Hurl, urlparse_build by done. cbn [rbind fst snd].
    assert (endpoint a (parsed https host port_text p q) =
      if negb https && bool_decide (port_text = EmptyString) && http2 a then sys_exit
      else Ok (negb https, if bool_decide (port_text = EmptyString) then if https then 443 else 80 else n)) as ->.
    { unfold endpoint, port. rewrite hostinfo_parsed by done. cbn [snd].
      pose proof (ok_port _ _ _ _ Hok) as Hp. destruct port_text as [|c s].
      - simpl. destruct https; simpl; [done|]. by destruct (http2 a).
      - destruct Hn as [|[Hi Hr]]; [done|]. rewrite Hp, Hi. cbn [rbind].
        rewrite (proj2 (Z.leb_le 0 n)), (proj2 (Z.leb_le n 65535)) by lia. cbn [andb rbind].
        destruct https; done. }
    destruct (negb https && bool_decide (port_text = EmptyString) && http2 a); [reflexivity|]. cbn [rbind].
    rewrite hostname_parsed by done. by destruct https.
  - intros h v b len r. unfold request_of. destruct (parse_headers (header a)); [|done]. simpl. intros [= <-].
    split_and!; [|done|done]. unfold path_of, after_netloc. cbn [path query parsed].
    destruct p, q; rewrite ?PyStr.append_nil_r; reflexivity.
Qed.

Lemma split_contains c s : PyStr.contains c s = true -> exists x y l, PyStr.split c s = x :: y :: l.
Proof.
  induction s as [|a s IH]; simpl; [done|]. destruct (ascii_dec a c).
  - intros _. destruct (PyStr.split c s) eqn:E; [by apply PyStr.split_not_nil in E|eauto].
  - intros Hc. destruct (IH Hc) as (x & y & l & ->). eauto.
Qed.

(** A header line is split at its colon; one with another colon (a time, a URL,
    a port) stops the program after the connection has been made. *)
Lemma header_lines name value : PyStr.contains ":"%char name = false ->
  parse_header (String.append name (String ":" value)) =
  if PyStr.contains ":"%char value then Raise (ValueError "too many values to unpack (expected 2)")
  else Ok (strip name, strip value).
Proof.
  intros Hc. unfold parse_header. rewrite PyStr.split_app by done.
  destruct (PyStr.contains ":"%char value) eqn:Hv; [|by rewrite PyStr.split_plain].
  by destruct (split_contains _ _ Hv) as (x & y & l & ->).
Qed.
End Reached.

Definition demo_args (u : string) : arguments :=
  mkArgs u None None None None 5000 ["Accept: text/html"%string] None None "GET" false false true false false None
    (default_alpn []) false false None.

Definition demo_plan (a : arguments) : result (ParseResult * connection_plan) :=
  plan (H:=demo_errors) (fun _ => Ok ""%string) (fun _ => None) (fun _ => None) a.
Lemma url_reaches_request_witness :
  (let? (_, c) := demo_plan (demo_args "https://Example.com:8443/a/b?x=1") in Ok (p_host c, p_port c)) =
  Ok ("example.com"%string, 8443).
Proof.
  unfold demo_plan.
  assert (Hok : url_ok "Example.com" "8443" "/a/b" "x=1") by (split; (vm_compute; reflexivity) || discriminate).
  assert (Hi : PyStr.int "8443" = Ok 8443 /\ 0 <= 8443 <= 65535) by (split; [vm_compute; reflexivity|lia]).
  pose proof (url_reaches_request (H:=demo_errors) (fun _ => Ok ""%string) (fun _ => None) (fun _ => None)
    (fun _ => ""%string) true "Example.com" "8443" "/a/b" "x=1" 8443 (demo_args "https://Example.com:8443/a/b?x=1")
    Hok ltac:(vm_compute; reflexivity) (or_intror Hi)) as [H _].
  rewrite H. vm_compute. reflexivity.
Defined.

(** A URL without a scheme has no host; the parameters of a path are left out. *)
Example no_scheme : plan (H:=demo_errors) (fun _ => Ok ""%string) (fun _ => None) (fun _ => None)
  (demo_args "example.com:80/x") = Raise (TypeError "argument 2 must be str, not None").
Proof. by vm_compute. Qed.
Example parameters_lost : (let? u := urlparse "http://h/a;b=1?q" in Ok (path_of u)) = Ok "/a?q"%string.
Proof. by vm_compute. Qed.
Example referer_header : parse_header "Referer: http://h/" = Raise (ValueError "too many values to unpack (expected 2)").
Proof. by vm_compute. Qed.
End Elasticurl.
