(* ===== verification/Common.v ===== *)
(** * awscrt/__init__.py, awscrt/common.py and awscrt/_test.py

    - [Common]: the wrappers of common.py with source/common.c;
    - [Leaks]: the registry of live native resources and the check for leaks. *)
From Stdlib Require QArith Qround.
From stdpp Require Import pretty.
From S2P Require Import Prelude PyData Future Io.

(** ** awscrt/common.py *)
Module Common.
Import QArith.

(** The format H takes the low 16 bits of any int. *)
Definition get_cpu_count_for_group (aws_get_cpu_count_for_group : Z -> Z) (group_idx : Z) : Z :=
  aws_get_cpu_count_for_group (group_idx mod 2 ^ 16)%Z.

(** The timeout given to the native library, in nanoseconds: 0 waits forever. *)
Definition join_timeout_ns (timeout_sec : Q) : Z :=
  if Qle_bool 0 timeout_sec then
    let ns := Qround.Qfloor (timeout_sec * inject_Z 1000000000) in if (ns =? 0)%Z then 1%Z else ns
  else 0%Z.
Definition join_all_native_threads (native : Z -> bool) (timeout_sec : Q) : bool := native (join_timeout_ns timeout_sec).

(** A timeout is never taken for "wait forever", and the default is. *)
Lemma join_timeout_forever t : join_timeout_ns t = 0%Z <-> t < 0.
Proof.
  unfold join_timeout_ns. destruct (Qle_bool 0 t) eqn:E.
  - apply Qle_bool_iff in E. split; [|intros Ht; by apply Qlt_not_le in Ht].
    destruct (Z.eqb_spec (Qround.Qfloor (t * inject_Z 1000000000)) 0); [done|]. intros H0. by destruct n.
  - split; [|done]. intros _. destruct (Qlt_le_dec t 0) as [|Hle]; [done|]. apply Qle_bool_iff in Hle. congruence.
Qed.
End Common.

(** ** The check for leaks *)
Module Leaks.
Import Statics.

(** [NativeResource.__init__] with [_track_lifetime] and the weak set [_living],
    objects by number. *)
Record registry := mkRegistry { _track_lifetime : bool; _living : list nat }.
Definition NativeResource_init (self : nat) (r : registry) : registry :=
  if _track_lifetime r
  then mkRegistry true (if bool_decide (self ∈ _living r) then _living r else _living r ++ [self])
  else r.
(** The weak set loses an object when the interpreter frees it. *)
Definition freed (obj : nat) (r : registry) : registry :=
  mkRegistry (_track_lifetime r) (filter (fun x => x <> obj) (_living r)).

(** The environment variables, None when unset. *)
Record environ := mkEnviron { AWS_CRT_MEMORY_TRACING : option string; AWS_CRT_MEMORY_PRINT_SECRETS_OK : option string }.

(** What the check sees at a poll: the clock (in milliseconds), the live
    resources and the native memory. *)
Record poll := mkPoll { time : Z; living : list nat; memory : Z }.
Definition clean (p : poll) : bool := bool_decide (living p = []) && negb (memory p >? 0).

Section Check.
(** The system: what a poll sees after so many rounds of collecting, joining
    native threads and sleeping; a round sleeps for a tenth of a second.
    [start]: the clock just before. *)
Variables (start : Z) (world : nat -> poll).

(** [while time.time() < wait_until]: the number of the poll that found nothing
    left, or of the one at which the time was up. *)
Fixpoint wait (fuel : nat) (wait_until : Z) (i : nat) : option (bool * nat) :=
  match fuel with
  | O => None
  | S fuel =>
      let p := world i in
      if time p <? wait_until then if clean p then Some (true, i) else wait fuel wait_until (S i)
      else Some (false, i)
  end.

(** What the report prints about an object: its text, its type, and the objects
    that refer to it (a frame by the file and what getframeinfo prints). *)
Inductive referrer := Frame (filename text type_text : string) | Object (text type_text : string).
Record description := mkDescription { text : string; type_text : string; refcount : Z; referrers : list referrer }.
Variable describe : nat -> description.

(** [s.endswith(suffix)] *)
Definition endswith (suffix s : string) : bool :=
  bool_decide (String.substring (String.length s - String.length suffix) (String.length suffix) s = suffix).
Definition our_fault (r : referrer) : bool :=
  match r with
  | Frame f _ _ => endswith "_weakrefset.py" f || endswith "awscrt/_test.py" f
  | Object _ _ => false
  end.

(** [_printobj] *)
Definition printed (leak_secrets_ok : bool) (text type_text : string) : string :=
  if leak_secrets_ok then
    if (1000 <? Z.of_nat (String.length text))%Z then String.append (String.substring 0 1000 text) "...TRUNCATED PRINT" else text
  else type_text.
Definition print_referrer (ok : bool) (r : referrer) : string :=
  match r with Frame _ t ty | Object t ty => String.append "  - " (printed ok t ty) end.
Definition report_of (ok : bool) (i : nat) : list string :=
  let d := describe i in
  let rs := filter (fun r => our_fault r = false) (referrers d) in
  [String.append "- " (printed ok (text d) (type_text d));
   String.append "  sys.getrefcount(): " (pretty (refcount d - 2));
   String.append "  gc.referrers(): " (pretty (Z.of_nat (length rs)))] ++ map (print_referrer ok) rs.
Definition report (env : environ) (l : list nat) : list string :=
  match l with
  | [] => []
  | _ =>
      let ok := bool_decide (AWS_CRT_MEMORY_PRINT_SECRETS_OK env = Some "1"%string) in
      (if ok then "Leaking NativeResources:"
       else "Leaking NativeResources (set AWS_CRT_MEMORY_PRINT_SECRETS_OK=1 env var for more detailed report):")%string
      :: concat (map (report_of ok) l)
  end.

(** The first lines, on the lazily made singletons of [Io.Statics]. *)
Definition release_statics : M Statics.state unit :=
  do! ClientBootstrap_release_static_default;
  do! EventLoopGroup_release_static_default;
  DefaultHostResolver_release_static_default.

Definition failure (num_living memory : Z) : py_exn :=
  RuntimeError (String.append "awscrt leak check failed. " (String.append (pretty num_living)
    (String.append " NativeResource objects. " (String.append (pretty memory) " bytes native memory")))).

(** The outcome, and the lines printed; None: not enough fuel. *)
Definition check_for_leaks (fuel : nat) (env : environ) (r : registry) (timeout_ms : Z)
    : option (result unit * list string) :=
  if negb (bool_decide (AWS_CRT_MEMORY_TRACING env = Some "2"%string))
  then Some (Raise (RuntimeError "environment variable AWS_CRT_MEMORY_TRACING=2 must be set for accurate leak checks"), [])
  else if negb (_track_lifetime r)
  then Some (Raise (RuntimeError "awscrt.NativeResource._track_lifetime=True must be set for accurate leak checks"), [])
  else
    match wait fuel (start + timeout_ms) 0 with
    | None => None
    | Some (true, _) => Some (Ok tt, [])
    | Some (false, i) =>
        let p := world i in
        Some (Raise (failure (Z.of_nat (length (living p))) (memory p)),
              report env (living p) ++
              (if memory p >? 0
               then [String.append "Leaking " (String.append (pretty (memory p))
                      " bytes native memory (enable Trace logging to see more)")]
               else []))
    end.

(** *** What the check says *)

Hypothesis start_before : start <= time (world 0).
Hypothesis sleeps : forall i, time (world i) + 100 <= time (world (S i)).

Lemma time_grows i : start + 100 * Z.of_nat i <= time (world i).
Proof. induction i as [|i IH]; [lia|]. specialize (sleeps i). lia. Qed.

Lemma wait_spec fuel limit i :
  match wait fuel limit i with
  | None => forall j, (i <= j < i + fuel)%nat -> time (world j) < limit
  | Some (b, j) => (i <= j)%nat /\
      (forall k, (i <= k < j)%nat -> time (world k) < limit /\ clean (world k) = false) /\
      (if b then time (world j) < limit /\ clean (world j) = true else limit <= time (world j))
  end.
Proof.
  revert i. induction fuel as [|fuel IH]; intros i; simpl; [intros; lia|].
  destruct (Z.ltb_spec (time (world i)) limit); [destruct (clean (world i)) eqn:Ec|].
  - split_and!; [lia|intros; lia|done|done].
  - specialize (IH (S i)). destruct (wait fuel limit (S i)) as [[b j]|].
    + destruct IH as (H1 & H2 & H3). split_and!; [lia| |done]. intros k Hk.
      destruct (decide (k = i)) as [->|]; [done|apply H2; lia].
    + intros j Hj. destruct (decide (j = i)) as [->|]; [done|apply IH; lia].
  - split_and!; [lia|intros; lia|done].
Qed.

Definition polls (timeout_ms : Z) : nat := S (Z.to_nat (timeout_ms / 100 + 1)).

Lemma wait_returns limit timeout_ms fuel : (polls timeout_ms <= fuel)%nat -> limit = start + timeout_ms ->
  wait fuel limit 0 <> None.
Proof.
  intros Hf -> Hn. pose proof (wait_spec fuel (start + timeout_ms) 0) as H. rewrite Hn in H.
  set (j := Z.to_nat (timeout_ms / 100 + 1)). unfold polls in Hf. fold j in Hf.
  specialize (H j ltac:(lia)). pose proof (time_grows j) as Hg.
  assert (timeout_ms / 100 + 1 <= Z.of_nat j) by lia.
  assert (timeout_ms < 100 * (timeout_ms / 100 + 1)) by (pose proof (Z.mul_succ_div_gt timeout_ms 100); lia). lia.
Qed.

(** The check for leaks ends and tells the truth: with a clock that moves on
    by the tenth of a second each round sleeps, it returns after at most one
    round per tenth of a second of the timeout; in an environment made for it,
    it passes exactly when some poll within the timeout finds no live resource
    and no native memory, and otherwise fails with the numbers of the first poll
    after the timeout; in any other environment it fails at once. *)
Lemma leak_check_exact (env : environ) (r : registry) (timeout_ms : Z) (fuel : nat)
    (Hf : (polls timeout_ms <= fuel)%nat) :
  exists out lines, check_for_leaks fuel env r timeout_ms = Some (out, lines) /\
  if bool_decide (AWS_CRT_MEMORY_TRACING env = Some "2"%string) && _track_lifetime r then
    (out = Ok tt <-> exists i, time (world i) < start + timeout_ms /\ clean (world i) = true) /\
    (out <> Ok tt -> exists i, start + timeout_ms <= time (world i) /\
       (forall j, (j < i)%nat -> time (world j) < start + timeout_ms) /\
       out = Raise (failure (Z.of_nat (length (living (world i)))) (memory (world i))))
  else (exists m, out = Raise (RuntimeError m)) /\ lines = [].
Proof.
  unfold check_for_leaks. destruct (bool_decide (AWS_CRT_MEMORY_TRACING env = _)); simpl; [|eauto 6].
  destruct (_track_lifetime r); simpl; [|eauto 6].
  pose proof (wait_returns _ timeout_ms fuel Hf eq_refl) as Hw.
  pose proof (wait_spec fuel (start + timeout_ms) 0) as Hs.
  destruct (wait fuel _ 0) as [[[] i]|]; [..|done]; destruct Hs as (_ & Hb & Hi).
  - do 2 eexists. split; [done|]. split; [|done]. split; [|done]. intros _. by exists i.
  - do 2 eexists. split; [done|]. split.
    + split; [done|]. intros (k & Hk & Hc). destruct (decide (k < i)%nat).
      * destruct (Hb k ltac:(lia)) as [_ H]. congruence.
      * exfalso. assert (forall a b, (a <= b)%nat -> time (world a) <= time (world b)) as Hm.
        { intros a b Hab. induction Hab as [|b Hab IH]; [lia|]. specialize (sleeps b). lia. }
        specialize (Hm i k ltac:(lia)). lia.
    + intros _. exists i. split_and!; [done| |done]. intros j Hj. apply Hb. lia.
Qed.

End Check.

(** Without the variable that allows it, the report does not depend on the text
    of any object: only types, counts and the number of bytes are printed. *)
Definition same_but_text (d d' : description) : Prop :=
  type_text d = type_text d' /\ refcount d = refcount d' /\
  Forall2 (fun r r' => match r, r' with
                       | Frame f _ ty, Frame f' _ ty' => f = f' /\ ty = ty'
                       | Object _ ty, Object _ ty' => ty = ty'
                       | _, _ => False
                       end) (referrers d) (referrers d').

Lemma report_hides_text describe describe' env l :
  (forall i, same_but_text (describe i) (describe' i)) ->
  AWS_CRT_MEMORY_PRINT_SECRETS_OK env <> Some "1"%string ->
  report describe env l = report describe' env l.
Proof.
  intros Hd He. destruct l as [|o l]; [done|]. unfold report. rewrite bool_decide_false by done. do 2 f_equal.
  apply map_ext. intros i. unfold report_of. destruct (Hd i) as (H1 & H2 & H3). unfold printed.
  rewrite H1, H2. assert (forall l l', Forall2 (fun r r' => match r, r' with
      | Frame f _ ty, Frame f' _ ty' => f = f' /\ ty = ty' | Object _ ty, Object _ ty' => ty = ty' | _, _ => False end) l l' ->
    length (filter (fun r => our_fault r = false) l) = length (filter (fun r => our_fault r = false) l') /\
    map (print_referrer false) (filter (fun r => our_fault r = false) l) =
    map (print_referrer false) (filter (fun r => our_fault r = false) l')) as Hr.
  { induction 1 as [|r r' l1 l2 Hr _ [IH1 IH2]]; [done|].
    assert (our_fault r = our_fault r' /\ print_referrer false r = print_referrer false r') as [E1 E2].
    { destruct r, r'; simpl in *; try done; [by destruct Hr as [-> ->]|by subst]. }
    rewrite !filter_cons, E1. case_decide; simpl; rewrite ?IH1, ?IH2, ?E2; done. }
  destruct (Hr _ _ H3) as [-> ->]. done.
Qed.

(** The singletons are gone before anything is counted. *)
Lemma release_statics_spec s :
  let s' := (release_statics s).2 in
  (static_client_bootstrap s', static_event_loop_group s', static_host_resolver s') = (None, None, None) /\
  is_ok (release_statics s).1 = true.
Proof. done. Qed.

(** A world that is clean after three rounds. *)
Definition demo_world (i : nat) : poll :=
  mkPoll (100 * Z.of_nat i) (if (i <? 3)%nat then [7%nat] else []) 0.
Definition demo_env : environ := mkEnviron (Some "2"%string) None.

Lemma leak_check_exact_witness :
  exists out lines, check_for_leaks 0 demo_world (fun _ => mkDescription "" "" 4 []) 20 demo_env (mkRegistry true []) 1000 =
    Some (out, lines) /\ out = Ok tt.
Proof.
  destruct (leak_check_exact 0 demo_world (fun _ => mkDescription "" "" 4 [])
    ltac:(vm_compute; discriminate) ltac:(intros i; unfold demo_world, time; lia) demo_env (mkRegistry true []) 1000 20
    ltac:(vm_compute; lia)) as (out & lines & H1 & H2).
  exists out, lines. split; [exact H1|]. apply H2. exists 3%nat. split; reflexivity.
Defined.
End Leaks.
