(* ===== verification/Benchmark.v ===== *)
(** * s3_benchmark.py: throughput of many downloads

    - [Statistics]: the running statistics; floats are rationals, so rounding is
      left out, and the two readings of the clock are arguments;
    - [LazyStream]: a file opened when it is read and closed at its end;
    - [Run]: the requests, and what is counted at the end. *)
From Stdlib Require Import QArith Lqa.
From S2P Require Import Prelude.

Module Statistics.
Open Scope Q_scope.

Record Statistics := mkStatistics {
  _bytes_peak : Q; _bytes_avg : Q; _bytes_read : Z; _bytes_sampled : Z;
  sec_first_byte : Q; star_time : Q; last_sample_time : Q;
}.
Definition Statistics_init (now : Q) : Statistics := mkStatistics 0 0 0 0 0 now now.

(** [now1]: the clock for the first byte; [now2]: [time_now]. *)
Definition record_read (now1 now2 : Q) (size : Z) (s : Statistics) : Statistics :=
  let bytes_read := (_bytes_read s + size)%Z in
  let first := if Qeq_bool (sec_first_byte s) 0 then now1 - star_time s else sec_first_byte s in
  if negb (Qle_bool (now2 - last_sample_time s) 1) then
    let bytes_this_second := inject_Z (bytes_read - _bytes_sampled s) / (now2 - last_sample_time s) in
    mkStatistics (if negb (Qle_bool bytes_this_second (_bytes_peak s)) then bytes_this_second else _bytes_peak s)
      ((_bytes_avg s + bytes_this_second) * (1 # 2)) bytes_read bytes_read first (star_time s) now2
  else mkStatistics (_bytes_peak s) (_bytes_avg s) bytes_read (_bytes_sampled s) first (star_time s) (last_sample_time s).

Definition GBPS : Q := 1000000000.
Definition bytes_peak (s : Statistics) : Q := (_bytes_peak s * 8) / GBPS.
Definition bytes_avg (s : Statistics) : Q := (_bytes_avg s * 8) / GBPS.

Definition run (l : list (Q * Q * Z)) (s : Statistics) : Statistics :=
  fold_left (fun s '(n1, n2, size) => record_read n1 n2 size s) l s.

(** The invariant: no sample is ahead of what was read, and the average is
    between zero and the peak. *)
Record sane (s : Statistics) : Prop := {
  sane_sampled : (_bytes_sampled s <= _bytes_read s)%Z;
  sane_avg : 0 <= _bytes_avg s;
  sane_peak : _bytes_avg s <= _bytes_peak s;
}.

Lemma not_le_lt x y : negb (Qle_bool x y) = true -> y < x.
Proof.
  intros H. destruct (Qlt_le_dec y x) as [|Hle]; [done|]. apply Qle_bool_iff in Hle. by rewrite Hle in H.
Qed.

Lemma record_read_sane n1 n2 size s : (0 <= size)%Z -> sane s -> sane (record_read n1 n2 size s).
Proof.
  intros Hsize [H1 H2 H3]. unfold record_read. destruct (negb (Qle_bool (n2 - _) 1)) eqn:E; [|split; simpl; [lia|done..]].
  apply not_le_lt in E. set (d := n2 - last_sample_time s) in *.
  set (b := inject_Z (_bytes_read s + size - _bytes_sampled s) / d).
  assert (0 <= b) as Hb.
  { unfold b, Qdiv. apply Qmult_le_0_compat; [|apply Qinv_le_0_compat; lra].
    change 0 with (inject_Z 0). rewrite <- Zle_Qle. lia. }
  destruct (negb (Qle_bool b (_bytes_peak s))) eqn:Ep; split; simpl; try lia; try lra.
  - apply not_le_lt in Ep. lra.
  - apply negb_false_iff, Qle_bool_iff in Ep. lra.
Qed.

Lemma run_read l s : _bytes_read (run l s) = (_bytes_read s + foldr Z.add 0 (map snd l))%Z.
Proof.
  revert s. induction l as [|[[n1 n2] size] l IH]; intros s; simpl; [lia|]. unfold run in IH. rewrite IH.
  unfold record_read. destruct (negb _); simpl; lia.
Qed.

(** Every byte is counted once, and the average reported never exceeds the peak. *)
Lemma statistics_sane now l : Forall (fun x => (0 <= x.2)%Z) l ->
  let s := run l (Statistics_init now) in
  _bytes_read s = foldr Z.add 0%Z (map snd l) /\ 0 <= bytes_avg s <= bytes_peak s.
Proof.
  intros Hl s. assert (sane s) as [_ H2 H3].
  { assert (sane (Statistics_init now)) as Hi by (split; simpl; [lia|lra..]). unfold s, run. revert Hi.
    generalize (Statistics_init now). clear s. induction Hl as [|[[n1 n2] size] l Hx _ IH]; intros s Hs; simpl; [done|].
    by apply IH, record_read_sane. }
  split; [unfold s; rewrite run_read; done|]. unfold bytes_avg, bytes_peak, GBPS, Qdiv. split.
  - apply Qmult_le_0_compat; [lra|]. done.
  - apply Qmult_le_compat_r; [lra|done].
Qed.
End Statistics.

Module LazyStream.
#[local] Open Scope nat_scope.

(** The stream: None before it is first opened; an open file by its position. *)
Inductive stream := NotOpened | Closed | Open (position : nat).
Section File.
Variable content : list Byte.byte.

Definition _available_stream (s : stream) : nat := match s with Open p => p | _ => 0 end.
Definition read (length_ : nat) (s : stream) : list Byte.byte * stream :=
  let p := _available_stream s in
  let data := take length_ (drop p content) in
  (data, if bool_decide (data = []) then Closed else Open (p + length data)).
Definition seek (offset : nat) (s : stream) : nat * stream :=
  let _ := _available_stream s in (offset, Open offset).

(** Reads of [n] bytes until one is empty. *)
Fixpoint read_all (fuel n : nat) (s : stream) : list Byte.byte * stream :=
  match fuel with
  | O => ([], s)
  | S fuel =>
      match read n s with
      | ([], s') => ([], s')
      | (data, s') => let (rest, s'') := read_all fuel n s' in (data ++ rest, s'')
      end
  end.

Lemma read_from p n fuel : 0 < n -> p <= length content -> length content - p < fuel ->
  read_all fuel n (Open p) = (drop p content, Closed).
Proof.
  intros Hn. revert p. induction fuel as [|fuel IH]; intros p Hp Hf; [lia|].
  cbn [read_all]. unfold read, _available_stream.
  destruct (decide (p = length content)) as [->|Hne].
  - by rewrite drop_all, take_nil.
  - assert (Hl : length (take n (drop p content)) = n `min` (length content - p)) by by rewrite length_take, length_drop.
    set (k := n `min` (length content - p)) in *. assert (Hk : 0 < k) by lia.
    assert (Hd : drop p content = take n (drop p content) ++ drop (p + k) content).
    { rewrite <- (take_drop n (drop p content)) at 1. f_equal. rewrite drop_drop.
      destruct (decide (n <= length content - p)); [f_equal; lia|]. rewrite !drop_ge by lia. done. }
    destruct (take n (drop p content)) as [|b l] eqn:E; [simpl in Hl; lia|].
    rewrite bool_decide_false, Hl, IH by (done || lia). by rewrite Hd.
Qed.

(** Reading to the end gives the whole file, and reading again gives it once
    more: the closed file is opened anew, so a body can be sent twice. *)
Lemma read_again n fuel s : 0 < n -> length content < fuel -> s = NotOpened \/ s = Closed ->
  read_all fuel n s = (content, Closed).
Proof.
  intros Hn Hf Hs. rewrite <- (drop_0 content) at 1. rewrite <- (read_from 0 n fuel) by lia.
  destruct fuel as [|fuel]; [lia|]. by destruct Hs as [-> | ->].
Qed.
End File.
End LazyStream.

Module Run.
#[local] Open Scope nat_scope.

(** The futures of all requests, by whether [result] raised an Exception, and
    the [on_done] calls. *)
Definition completed (repeat_times bunch_size : nat) (results : list (result unit)) : nat :=
  repeat_times * bunch_size - length (filter (fun r => is_ok r = false) results).
Definition on_done (calls : nat) : nat := fold_left (fun completed_connections _ => S completed_connections) (seq 0 calls) 0.

(** The two counts differ: [on_done] is called for failed requests too. *)
Lemma completed_counts_successes repeat_times bunch_size results :
  length results = repeat_times * bunch_size ->
  completed repeat_times bunch_size results = length (filter (fun r => is_ok r = true) results).
Proof.
  intros Hl. unfold completed. rewrite <- Hl. clear Hl. induction results as [|r l IH]; [done|].
  rewrite !filter_cons. destruct (is_ok r); simpl.
  - pose proof (length_filter (fun r => is_ok r = false) l). lia.
  - lia.
Qed.
Lemma on_done_counts n : on_done n = n.
Proof.
  unfold on_done. assert (forall l (k : nat), fold_left (fun c (_ : nat) => S c) l k = length l + k) as H.
  { induction l as [|x l IH]; intros k; simpl; [done|]. rewrite IH. lia. }
  rewrite H, length_seq. lia.
Qed.
End Run.
